(* ===== verification/_CoqProject ===== *)
-Q . S2P
Prelude.v
PyStr.v
PyPath.v
PyDict.v
PyMonad.v
Argparse.v
Sql.v
Version.v
DataTypes.v
World.v
Cluster.v
Shells.v
Sessions.v
Commands.v
Termination.v
Query.v
XmlConfig.v
NodeLog.v
Tables.v
Rbac.v
Lifecycle.v
Setup.v
SslKeeper.v
Order.v
Steps.v
StorageConfig.v
RbacConfig.v
Entry.v
Settings.v
Suites.v
Scenario.v
Keeper.v
KeeperConfigs.v
KeeperOrder.v
Ldap.v
LdapConfig.v
LdapSteps.v
Calendar.v
DateTimes.v
DateTimeChecks.v
DateScenarios.v
DateAnswers.v
Parquet.v
ParquetSteps.v
LightweightDelete.v
LwdChecks.v
Cicd.v
Runners.v
