(* ===== verification/Prelude.v ===== *)
(** * ClickHouse regression test framework: verification library

    The repository is a regression suite for the ClickHouse server, written in
    Python on the testflows library.  Its own logic is the framework that the
    suites share: starting a docker-compose cluster, keeping terminals to its
    nodes, running commands and SQL in them and checking the answers, starting
    and stopping servers, writing configuration files, generating tables with
    columns of every type, and gating tests by the version of the server.
    This library models that framework and proves what the suites rely on.

    ** How the parts interact

    A suite constructs a [Cluster] (Setup) and enters it, which brings the
    services up (Lifecycle).  Threads of the suite ask the cluster for
    terminals and run commands (Cluster); SQL goes through
    [ClickHouseNode.query] (Query).  Steps on nodes (Steps, Rbac, Tables) only
    use the commands and queries of a node: they are written against the
    classes [SqlNode] (Query) and [NodeApi] (Steps), which the cluster
    implements.  [check_clickhouse_version] (Version) reads the version that
    the command line, or the docker image (Setup), put into the context.

    The entry module of a suite (Entry, Suites) takes the options of the
    command line, sets up the context and the cluster, and loads the tests.
    The step libraries of suites build on the steps on nodes: storages
    (StorageConfig), settings of all queries (Settings), Keeper clusters
    (Keeper), LDAP servers and directories (Ldap, LdapConfig, LdapSteps) and
    light-weight deletes (LightweightDelete).  Those of Keeper, LDAP and
    light-weight deletes are written against the classes [KeeperApi],
    [LdapApi] and [LwdApi], and LDIF against the class [LdapServer] of what
    the LDAP tools do to a directory.  A step that undoes
    what it set up is modelled in one of two ways: as a context manager around
    the rest of the test ([bracket] and its relatives in PyMonad), or, where
    steps call each other and the order of the clean-ups matters, with the
    stack of clean-ups that testflows keeps for a scenario (Scenario).

    ** Files

    Foundations:
    - Prelude: notations, tactics, lemmas on lists and orders ([in_order]).
    - PyStr, PyPath, PyDict: Python's [str], [os.path] and [dict].
    - PyMonad: results, exceptions and the state monad [M S]; [Stuck] marks a
      loop out of fuel and a thread waiting for its own lock; [Preserves],
      [returns], [total] and [sim] are the logics used for computations.
    - Argparse: options of a parser, and keyword arguments of a function.
    - Scenario: the clean-ups of a scenario, the last first, with the logic
      [sets_up] for what a step did and what it left to be undone.
    - Sql: what it means for a text to be a closed SQL expression, and for a
      list to split at its top-level commas.
    - Calendar: [date] and [datetime] of Python: ordinals, moments, weekdays,
      ISO weeks, [strftime].

    Components:
    - Version: helpers/common.py, [check_clickhouse_version],
      [get_snapshot_id]; the version in a docker tag (helpers/cluster.py).
    - DataTypes: helpers/datatypes.py; one constructor per class, [attrs] is
      the object its [__init__] builds.
    - World: the state [st] (attributes of [Cluster], terminals and their
      timeouts, thread, context, log), the outside world [Env], the lock, and
      the commands of a log with their answers ([said]).
    - Cluster: class [Cluster] of helpers/cluster.py but for its constructor
      and [up]; Shells, Sessions, Commands and Termination are its theorems.
    - Query: [Node.cmd], [ClickHouseNode.query], [hash_query], [diff_query].
    - Lifecycle: the classes of nodes (health, pids, start, stop, restart) and
      [Cluster.up]; Order proves in what order they talk to the nodes.
    - Setup: [Cluster.__init__], the server binary, [temp_path].
    - SslKeeper: the methods of ssl_keeper/helpers/cluster.py, a copy of
      helpers/cluster.py, that differ from the original.
    - XmlConfig: [create_xml_config_content] of helpers/common.py.
    - NodeLog: running a step on a node that records its SQL.
    - Tables: helpers/tables.py.
    - Rbac: rbac/helper (common.py, tables.py, errors.py).
    - Steps: the steps of helpers/common.py on nodes and configurations.
    - RbacConfig: [add_rbac_config_file] of rbac/helper/common.py.
    - StorageConfig: the configuration steps of s3/tests/common.py and
      tiered_storage/tests/common.py.
    - Settings: the steps that add a setting to all queries of a test, in the
      step libraries of several suites.
    - Entry, Suites: the parsers of the entry modules, and what their
      [regression] does, for every suite.
    - Keeper, KeeperConfigs, KeeperOrder: clickhouse_keeper/tests/steps.py,
      what its configurations say, and in what order clusters are started.
    - Ldap, LdapConfig, LdapSteps: the step libraries of the ldap suites
      (common.py of ldap/authentication, external_user_directory and
      role_mapping): the entries of LDAP servers, which are changed by LDIF
      texts; what the configurations of servers and directories say; the
      steps that install them and log in.
    - DateTimes, DateTimeChecks, DateScenarios, DateAnswers: the dates, times
      and queries of datetime64_extended_range/tests/common.py and the sweeps
      of generic.py; the values that date_time_functions.py expects; its
      scenarios; what their functions mean on the calendar.
    - Parquet: parquet/data/test_file_generators.py, and reading its columns.
    - ParquetSteps: the columns, conversions and tables of
      parquet/tests/common.py, and the [regression] of parquet/regression.py.
    - LightweightDelete, LwdChecks: lightweight_delete/tests/steps.py with the
      scenarios of alter_after_delete.py and basic_checks.py, and what these
      decide about a server.
    - Cicd: cicd-trigger.py.
    - Runners: .github/online-runners.py and .github/get-deb-url.py, against
      the class [ScriptEnv] of what they ask of GitHub, the clock and files.

    ** How code is modelled

    Objects that methods assign to are fields of the state; a method is a
    computation of [M (st W)] for an arbitrary world [W] with the operations
    of [Env] (terminals, clock, sleeping, live threads, files).  The world may
    answer anything, also with exceptions; theorems that need more say so with
    a class of laws ([ClockLaws]: time passes; [QuietExit]: closing a terminal
    does not fail; [RetryLaws]: testflows' [retry] and [retries] return only
    after an attempt that returned), and every class has an instance in which
    the witnesses run ([script_env]).  What is asked of the world is logged.
    [try]/[except]/[finally], early returns and unbound variables follow the
    source.  Context managers take the body of the [with] as an argument, so
    their theorems hold for whatever the test does.

    A [while True] loop takes fuel, the argument [fuel] of the section.  A
    theorem on results holds for every fuel: a run that returns a value or
    raises did not need more.  That fuel suffices is the subject of
    Termination: with a clock that moves, no method needs more fuel than its
    timeout in microseconds.  All numbers of the sources are Python integers,
    hence [Z]; time is counted in microseconds.  Characters are code points up
    to 255.  The scenarios on dates give their loops the fuel that the theorems
    show to be enough: 13 days for the start of an ISO year (the search begins
    nine days before the first of January, and the Monday is at most three
    days after it), two calls for a week, and any fuel above 351 for the dates
    of a year, which has at most 351 steps of 25 hours.

    ** What the theorems show

    - Terminals (Shells, Sessions, Commands, Termination): in every state that
      threads can reach, terminals are private to a thread and a node, the
      lock is never waited for by its owner, and the cluster refines an
      abstract pool of terminals in which a method only opens and closes what
      it may; what [command] sends and returns on every branch; [down] closes
      everything; all loops end.
    - Queries (Query): a result that is returned passed every check, retries
      included; how often a query is sent; what [hash_query] really runs.
    - Servers (Order): stop, start and up return only after the answers that
      justify it, in the right order.
    - Construction (Setup): the constructor on every branch: the paths that
      are used, the commands that fetch, unpack and prepare the binary, the
      settings of the object; where the binary of a package is looked for.
    - Data (Version, DataTypes, Tables, XmlConfig, Rbac): the version gate is
      the order on versions; integer ranges; closed SQL values; rows of test
      data split back into the values of the columns; generated types are
      well-formed and distinct; configuration files read back as XML; masks of
      grants are the subsets; errors determine their message.
    - Steps (Steps, Rbac, Tables, StorageConfig, Settings): configurations are
      in effect when a step returns, on all servers where the step says so,
      the policies of tiered storage refer to disks that exist, and what a
      step sets up is undone after the test, settings of queries included, also
      when the set-up fails half-way.
    - Entry modules (Entry, Suites): tests run inside their cluster and with
      the context that they read; servers too old for a suite are skipped;
      which arguments make a module fail.
    - Keeper (KeeperConfigs, KeeperOrder): when a step that starts a cluster
      returns, the servers were stopped, their state removed, the
      configurations of the Keepers and of their clients written to agree
      with each other, and every Keeper has answered, in this order; the
      clean-ups undo it, the last first.
    - LDAP (Ldap, LdapConfig, LdapSteps): the changes asked for are the ones
      made to the directory, and the entries of a test are gone after it; the
      configurations read back as the servers, directories and role mappings
      they were made from; logging in happens with the configuration in
      effect and the users added; a configuration that should be refused and
      is not fails the test; waiting for a login ends.
    - Test data (Parquet, ParquetSteps): the columns of a generated table are
      read back; the types that columns are converted to for MySQL and
      PostgreSQL hold their values, but for one; the entry module runs its
      features after its clusters and storages.
    - Dates (DateTimes, DateTimeChecks, DateScenarios, DateAnswers): the loops
      over dates end and stay in their year; the expected starts of ISO years
      and numbers of weeks against the calendar, with the years in which they
      are wrong;
      the scenarios accept exactly the servers that give the answers of a
      reference that is written from the calendar and not from their code, and
      one of them refuses a server that counts weeks correctly.
    - Light-weight deletes (LwdChecks): the scenarios pass on a server that
      deletes and, but for the one that deletes no rows, fail on one that does
      not.
    - Scripts (Cicd, Runners): at most one pipeline, with exactly the given
      variables; what is exported for the first package of a report; the list
      of runners is asked for once.

    The theorems named in findings of the manifest show where the code does
    not do what it says, for instance that [insert_test_data] ignores its
    cardinality and that a package given by an absolute path is extracted to
    one place and looked for in another.

    ** Not modelled

    - The scenarios under the [tests] directories: they assert the behaviour
      of a server that is not part of the repository.  The exceptions are the
      two files of scenarios in LightweightDelete, and most scenarios of
      date_time_functions.py and generic.py of datetime64_extended_range; of
      these, the ones left out read the clock, go on after a failed step,
      compare with a number instead of a text, evaluate the answer as
      Python, or compare two time zones of pytz.
    - The requirements files, which are generated from the specifications and
      make up most of the lines of the repository, and the tables of expected
      failures of the entry modules: they are data without code.
    - The body of s3/ec2_regression.py, which fails at its first line; the
      measurements and reports of the benchmarks; the scripts of parquet/data
      that only call pyarrow; steps that call the MinIO client or open an ssh
      terminal.
    - The methods of ssl_keeper/helpers/cluster.py whose text is that of
      helpers/cluster.py.
    - testflows, docker-compose, GitLab, pyarrow and ClickHouse itself: what
      the code needs of them is a parameter.  Random draws and UUIDs are
      parameters.  SHA-1 is a parameter of Setup.
    - Printed progress, descriptions of steps, and what testflows does with a
      result, except where it changes the control flow ([in_step]).
    - The copy of the upstream functional runner under clickhouse/.

    ** Further work

    The step libraries of other suites, as they follow the same patterns:
    ssl_server (certificates and the contexts that use them) and
    window_functions (expected values), the files that parquet moves to and
    from S3, and the scenarios of the Keeper suite. *)
From stdpp Require Export prelude strings pretty list.
From Stdlib Require Export ZArith Lia.
From Stdlib Require Import Ascii.

(** [naive_solver] of stdpp clears hypotheses eagerly. *)
#[global] Set Warnings "-clear-no-such-hyp".

(** ** Notations *)

Declare Scope s2r_scope.
Delimit Scope s2r_scope with s2r.

(** A double quote and a newline, named so that the string literals of the
    model read like the f-strings of the source. *)
Definition dq : string := String (ascii_of_nat 34) EmptyString.
Definition nl : string := String (ascii_of_nat 10) EmptyString.

(** [q s] is the text [s] between double quotes. *)
Definition q (s : string) : string := dq +:+ s +:+ dq.

(** ** Hint databases *)

(** [py] holds the rewriting facts on Python strings and lists that
    normalise goals, [pyres] the facts used for backward chaining. *)
Create Rewrite HintDb py.
Create HintDb pyres.

(** ** Tactics *)

(** Case analysis on every [match] or [if] of the goal, with clean-up. *)
Ltac split_cases :=
  repeat (case_match; simplify_eq/=; try done).

(** Normalise with the [py] rewriting base. *)
Ltac py_simpl := autorewrite with py in *; simplify_eq/=.

(** Evaluate a closed decidable goal. *)
Ltac by_compute := vm_compute; reflexivity.

(** ** Lists *)

Section list_facts.
Context {A B : Type}.
Implicit Types (l k : list A).

(** [l * n] of Python: the list repeated [n] times, empty for [n <= 0]. *)
Fixpoint list_repeat (n : nat) l : list A :=
  match n with O => [] | S n => l ++ list_repeat n l end.

Lemma length_list_repeat n l :
  length (list_repeat n l) = (n * length l)%nat.
Proof. induction n; simpl; [done|]. rewrite length_app. lia. Qed.

Lemma lookup_list_repeat_first n l i :
  (i < length l)%nat → (0 < n)%nat → list_repeat n l !! i = l !! i.
Proof. intros Hi Hn. destruct n; [lia|]. simpl. by rewrite lookup_app_l. Qed.

Lemma Forall_list_repeat (P : A → Prop) n l :
  Forall P l → Forall P (list_repeat n l).
Proof. intros H. induction n; simpl; [constructor|]. by apply Forall_app. Qed.

(** The count of the elements that satisfy a boolean test. *)
Definition count (p : A → bool) l : nat := length (List.filter p l).

Lemma count_app p l k : count p (l ++ k) = (count p l + count p k)%nat.
Proof. unfold count. by rewrite List.filter_app, length_app. Qed.

Lemma count_cons p x l :
  count p (x :: l) = ((if p x then 1 else 0) + count p l)%nat.
Proof. unfold count; simpl. by destruct (p x). Qed.

Lemma count_zero p l : Forall (λ x, p x = false) l → count p l = O.
Proof.
  induction 1 as [|x l Hx _ IH]; [done|]. by rewrite count_cons, Hx, IH.
Qed.

Lemma length_flat_map_const (f : A → list B) n l :
  (∀ x, x ∈ l → length (f x) = n) →
  length (List.flat_map f l) = (length l * n)%nat.
Proof.
  intros H. induction l as [|x l IH]; [done|]. simpl. rewrite length_app.
  rewrite IH, (H x) by set_solver. lia.
Qed.

Lemma list_bind_singleton (f : A → B) l : l ≫= (λ x, [f x]) = f <$> l.
Proof. induction l as [|x l IH]; [done|]. exact (f_equal (cons _) IH). Qed.

Lemma list_bind_fmap {C} (f : A → list B) (g : B → C) l :
  g <$> (l ≫= f) = l ≫= (λ x, g <$> f x).
Proof. induction l as [|x l IH]; [done|]. rewrite !bind_cons, fmap_app. by f_equal. Qed.

Lemma prefix_single l (x : A) : prefix l [x] → l = [] ∨ l = [x].
Proof.
  intros [k Hk]. destruct l as [|y [|z l]]; simplify_eq/=; auto.
Qed.

Lemma elem_of_flat_map (f : A → list B) l y :
  y ∈ List.flat_map f l ↔ ∃ x, x ∈ l ∧ y ∈ f x.
Proof.
  rewrite list_elem_of_In, in_flat_map. by setoid_rewrite list_elem_of_In.
Qed.
End list_facts.

#[export] Hint Rewrite @length_list_repeat @count_app @length_app
  @length_fmap @length_take @length_drop : py.
#[export] Hint Resolve Forall_list_repeat : pyres.

(** ** Sequences of events *)

Section in_order.
Context {A : Type}.
Implicit Types (l k : list A).

(** [in_order ps l]: elements of [l] satisfy the [ps], in that order. *)
Definition in_order (ps : list (A → Prop)) l : Prop :=
  ∃ xs, Forall2 (λ p x, p x) ps xs ∧ sublist xs l.

Lemma in_order_nil l : in_order [] l.
Proof. exists []. split; [constructor|apply sublist_nil_l]. Qed.
Lemma in_order_app ps qs l k : in_order ps l → in_order qs k → in_order (ps ++ qs) (l ++ k).
Proof.
  intros (xs & Hx & Hl) (ys & Hy & Hk). exists (xs ++ ys).
  split; [by apply Forall2_app|by apply sublist_app].
Qed.
Lemma in_order_last (p : A → Prop) l x : p x → in_order [p] (l ++ [x]).
Proof.
  intros Hp. exists [x]. split; [by repeat constructor|]. by apply sublist_inserts_l.
Qed.
Lemma in_order_skip_l ps l k : in_order ps k → in_order ps (l ++ k).
Proof. intros (xs & Hx & Hk). exists xs. split; [done|]. by apply sublist_inserts_l. Qed.
Lemma in_order_skip_r ps l k : in_order ps l → in_order ps (l ++ k).
Proof. intros (xs & Hx & Hk). exists xs. split; [done|]. by apply sublist_inserts_r. Qed.
Lemma in_order_mono ps qs l :
  Forall2 (λ p q : A → Prop, ∀ x, p x → q x) ps qs → in_order ps l → in_order qs l.
Proof.
  intros Hpq (xs & Hx & Hl). exists xs. split; [|done]. clear Hl. revert xs Hx.
  induction Hpq as [|p q ps qs Hp Hpq IH]; intros xs Hx; inversion Hx; subst; constructor; auto.
Qed.
Lemma in_order_sublist ps qs l : sublist qs ps → in_order ps l → in_order qs l.
Proof.
  intros Hs (xs & Hx & Hl). revert l xs Hx Hl.
  induction Hs as [|p qs ps Hs IH|p qs ps Hs IH]; intros l xs Hx Hl.
  - apply in_order_nil.
  - inversion Hx as [|? x ? ys Hp Hys]; subst.
    apply sublist_cons_l in Hl as (l1 & l2 & -> & Hl2).
    destruct (IH l2 ys Hys Hl2) as (zs & Hz & Hzs). exists (x :: zs).
    split; [by constructor|]. by apply sublist_inserts_l, sublist_skip.
  - inversion Hx as [|? x ? ys Hp Hys]; subst. apply (IH l ys Hys).
    etrans; [|exact Hl]. by apply sublist_cons.
Qed.
End in_order.

(** Boolean test for duplicates, so that closed lists are decided by
    evaluation. *)
Fixpoint nodupb {A} `{EqDecision A} (l : list A) : bool :=
  match l with
  | [] => true
  | x :: l => negb (bool_decide (x ∈ l)) && nodupb l
  end.

Lemma nodupb_spec {A} `{EqDecision A} (l : list A) :
  nodupb l = true ↔ NoDup l.
Proof.
  induction l as [|x l IH]; simpl.
  - split; [constructor|done].
  - rewrite andb_true_iff, negb_true_iff, bool_decide_eq_false, NoDup_cons, IH.
    done.
Qed.

(** The same test for strings, by [String.eqb] *)
Fixpoint nodup_str (l : list string) : bool :=
  match l with
  | [] => true
  | x :: l => negb (existsb (String.eqb x) l) && nodup_str l
  end.

Lemma nodup_str_spec l : nodup_str l = true → NoDup l.
Proof.
  induction l as [|x l IH]; simpl; [constructor|].
  intros [Hx Hl]%andb_true_iff. constructor; [|by apply IH]. intros Hin.
  apply negb_true_iff, not_true_iff_false in Hx. apply Hx, existsb_exists.
  exists x. by rewrite String.eqb_refl, <-list_elem_of_In.
Qed.
