(* ===== verification/PyStr.v ===== *)
(** * Python strings

    The operations of Python's [str] that the sources use, on Rocq's
    [string] (a code point per character, code points up to 255): searching,
    splitting, replacing, stripping, case, [int()] and [str()] of integers.
    Every operation is executable; the lemmas below state how they combine
    (lengths, [join] after [split], membership). *)
From S2P Require Import Prelude.
From Stdlib Require Import Ascii.

Implicit Types (s t p : string) (c : ascii).

(** ** Length, slices, prefixes and suffixes *)

Abbreviation slen := String.length.

Fixpoint str_drop (n : nat) s : string :=
  match n, s with
  | O, _ => s
  | S _, EmptyString => EmptyString
  | S n, String _ s => str_drop n s
  end.

Fixpoint str_take (n : nat) s : string :=
  match n, s with
  | O, _ | _, EmptyString => EmptyString
  | S n, String c s => String c (str_take n s)
  end.

(** [s.startswith(p)] *)
Definition startswith (p s : string) : bool := String.prefix p s.

(** [s.endswith(p)] *)
Definition endswith (p s : string) : bool :=
  (slen p <=? slen s)%nat && String.eqb (str_drop (slen s - slen p) s) p.

(** [p in s] *)
Fixpoint contains (p s : string) : bool :=
  String.prefix p s ||
  match s with EmptyString => false | String _ s => contains p s end.

(** [s * n] for an integer [n]: empty when [n <= 0]. *)
Fixpoint str_repeat_nat (n : nat) s : string :=
  match n with O => EmptyString | S n => s +:+ str_repeat_nat n s end.
Definition str_repeat (n : Z) s : string := str_repeat_nat (Z.to_nat n) s.

(** [sep.join(l)] *)
Fixpoint join (sep : string) (l : list string) : string :=
  match l with
  | [] => EmptyString
  | [s] => s
  | s :: l => s +:+ sep +:+ join sep l
  end.

(** [s.split(sep)] for a non-empty [sep]: [skip] characters of a separator
    found before are dropped, [cur] is the part being read. *)
Fixpoint split_go (sep : string) (skip : nat) (cur s : string) : list string :=
  match s with
  | EmptyString => [cur]
  | String c s' =>
      match skip with
      | S skip => split_go sep skip cur s'
      | O =>
          if String.prefix sep s
          then cur :: split_go sep (slen sep - 1) EmptyString s'
          else split_go sep O (cur +:+ String c EmptyString) s'
      end
  end.
Definition split (sep s : string) : list string := split_go sep 0 EmptyString s.

(** [s.partition]-like cut at the first occurrence of [sep]. *)
Fixpoint cut_first (sep s : string) : option (string * string) :=
  if String.prefix sep s then Some (EmptyString, str_drop (slen sep) s)
  else match s with
       | EmptyString => None
       | String c s =>
           match cut_first sep s with
           | Some (a, b) => Some (String c a, b)
           | None => None
           end
       end.

(** Cut at the last occurrence of [sep]. *)
Fixpoint cut_last (sep s : string) : option (string * string) :=
  match s with
  | EmptyString =>
      if String.prefix sep s then Some (EmptyString, str_drop (slen sep) s) else None
  | String c s' =>
      match cut_last sep s' with
      | Some (a, b) => Some (String c a, b)
      | None =>
          if String.prefix sep s then Some (EmptyString, str_drop (slen sep) s)
          else None
      end
  end.

(** [s.split(sep, 1)[-1]] and [s.rsplit(sep, 1)[-1]], [s.rsplit(sep, 1)[0]] *)
Definition after_first (sep s : string) : string :=
  match cut_first sep s with Some (_, b) => b | None => s end.
Definition after_last (sep s : string) : string :=
  match cut_last sep s with Some (_, b) => b | None => s end.
Definition before_last (sep s : string) : string :=
  match cut_last sep s with Some (a, _) => a | None => s end.

(** [s.replace(old, new)] for a non-empty [old] *)
Definition replace (old new s : string) : string := join new (split old s).

(** ** Paths, as [os.path] of a POSIX system treats them *)

Fixpoint all_slashes s : bool :=
  match s with
  | EmptyString => true
  | String c s => Ascii.eqb c "/" && all_slashes s
  end.
Fixpoint rstrip_slashes s : string :=
  match s with
  | EmptyString => EmptyString
  | String c s' => if all_slashes s then EmptyString else String c (rstrip_slashes s')
  end.

(** [os.path.dirname(s)]: the text up to the last slash, without the
    slashes at its end unless it has nothing else. *)
Definition dirname s : string :=
  match cut_last "/" s with
  | None => EmptyString
  | Some (a, _) =>
      let head := a +:+ "/" in
      if all_slashes head then head else rstrip_slashes head
  end.

(** [os.path.basename(s)] *)
Definition basename s : string := after_last "/" s.

(** [os.path.join(a, b)] *)
Definition path_join a b : string :=
  if startswith "/" b then b
  else if String.eqb a EmptyString || endswith "/" a then a +:+ b
  else a +:+ "/" +:+ b.

(** ** Character classes *)

(** Whitespace of [str.strip], code points below 256. *)
Definition is_space c : bool :=
  let n := nat_of_ascii c in
  ((9 <=? n) && (n <=? 13) || (28 <=? n) && (n <=? 32) ||
   (n =? 133) || (n =? 160))%nat.

Definition is_digit c : bool :=
  let n := nat_of_ascii c in ((48 <=? n) && (n <=? 57))%nat.

(** [str.isnumeric] also accepts the superscripts and vulgar fractions. *)
Definition is_numeric_char c : bool :=
  let n := nat_of_ascii c in
  (is_digit c || (n =? 178) || (n =? 179) || (n =? 185) ||
   (188 <=? n) && (n <=? 190))%nat.

Definition lower_char c : ascii :=
  let n := nat_of_ascii c in
  if (((65 <=? n) && (n <=? 90)) ||
      ((192 <=? n) && (n <=? 222) && negb (n =? 215)))%nat
  then ascii_of_nat (n + 32) else c.

Fixpoint str_map (f : ascii → ascii) s : string :=
  match s with EmptyString => EmptyString | String c s => String (f c) (str_map f s) end.
Fixpoint str_filter (f : ascii → bool) s : string :=
  match s with
  | EmptyString => EmptyString
  | String c s => if f c then String c (str_filter f s) else str_filter f s
  end.
Fixpoint str_forallb (f : ascii → bool) s : bool :=
  match s with EmptyString => true | String c s => f c && str_forallb f s end.

(** [s.lower()] *)
Definition lower s : string := str_map lower_char s.

(** [s.isnumeric()]: at least one character, all of them numeric. *)
Definition isnumeric s : bool :=
  match s with EmptyString => false | _ => str_forallb is_numeric_char s end.

Fixpoint lstrip s : string :=
  match s with
  | EmptyString => EmptyString
  | String c s' => if is_space c then lstrip s' else s
  end.

(** [s.rstrip()]: a character is kept when something after it is. *)
Fixpoint rstrip s : string :=
  match s with
  | EmptyString => EmptyString
  | String c s' =>
      match rstrip s' with
      | EmptyString => if is_space c then EmptyString else String c EmptyString
      | r => String c r
      end
  end.

(** [s.strip()] *)
Definition strip s : string := lstrip (rstrip s).

(** ** Integers *)

Local Open Scope Z_scope.

(** [str(n)] and [f"{n}"] *)
Definition str_Z (n : Z) : string := pretty n.

Definition digit_val c : Z := Z.of_nat (nat_of_ascii c) - 48.

(** Digits with single underscores between them, as [int()] accepts. *)
Fixpoint int_digits (acc : Z) (seen : bool) s : option Z :=
  match s with
  | EmptyString => if seen then Some acc else None
  | String c s' =>
      if is_digit c then int_digits (acc * 10 + digit_val c) true s'
      else if bool_decide (c = "_"%char) && seen
           then match s' with
                | EmptyString => None
                | String _ _ => int_digits acc false s'
                end
           else None
  end.

(** [int(s)] in base 10; [None] is a [ValueError]. *)
Definition py_int s : option Z :=
  match strip s with
  | String "-" r => Z.opp <$> int_digits 0 false r
  | String "+" r => int_digits 0 false r
  | r => int_digits 0 false r
  end.

(** [hex(n)[2:]] for [n >= 0] *)
Definition hex_char (n : Z) : ascii :=
  if n <? 10 then ascii_of_nat (48 + Z.to_nat n)
  else ascii_of_nat (87 + Z.to_nat n).
Fixpoint hex_go (fuel : nat) (n : Z) (acc : string) : string :=
  match fuel with
  | O => acc
  | S fuel =>
      let acc := String (hex_char (n mod 16)) acc in
      if n <? 16 then acc else hex_go fuel (n / 16) acc
  end.
Definition hex (n : Z) : string :=
  hex_go (S (Z.to_nat (Z.log2 n))) n EmptyString.

(** [f"{s:>0w}"]: right-aligned, filled with zeros up to width [w]. *)
Definition rjust0 (w : nat) s : string :=
  str_repeat_nat (w - slen s)%nat "0" +:+ s.

(** ** Lemmas *)

Section string_facts.
Implicit Types (n : nat).

Lemma str_app_nil_l s : EmptyString +:+ s = s.
Proof. done. Qed.
Lemma str_app_cons c s t : String c s +:+ t = String c (s +:+ t).
Proof. done. Qed.
Lemma str_app_nil_r s : s +:+ EmptyString = s.
Proof. induction s as [|c s IH]; [done|]. by rewrite str_app_cons, IH. Qed.
Lemma str_app_assoc s1 s2 s3 : (s1 +:+ s2) +:+ s3 = s1 +:+ s2 +:+ s3.
Proof. induction s1 as [|c s IH]; [done|]. by rewrite !str_app_cons, IH. Qed.

Lemma slen_app s t : slen (s +:+ t) = (slen s + slen t)%nat.
Proof. induction s as [|c s IH]; [done|]. rewrite str_app_cons. simpl. by rewrite IH. Qed.

Lemma slen_repeat n s : slen (str_repeat_nat n s) = (n * slen s)%nat.
Proof. induction n; simpl; [done|]. rewrite slen_app. lia. Qed.

Lemma str_app_inv_l s t1 t2 : s +:+ t1 = s +:+ t2 → t1 = t2.
Proof. apply String.app_inj. Qed.

Lemma str_app_inv_r s1 s2 t : s1 +:+ t = s2 +:+ t → s1 = s2.
Proof.
  revert s2. induction s1 as [|c s1 IH]; intros [|d s2] E; rewrite ?str_app_cons in E.
  - done.
  - apply (f_equal slen) in E. rewrite <-str_app_cons, !slen_app in E. simpl in E. lia.
  - apply (f_equal slen) in E. rewrite <-str_app_cons, !slen_app in E. simpl in E. lia.
  - injection E as -> E. f_equal. by apply IH.
Qed.
Lemma str_app_prefix a b x y :
  a +:+ x = b +:+ y → String.prefix a b = true ∨ String.prefix b a = true.
Proof.
  revert b. induction a as [|c a IH]; intros [|d b]; rewrite ?str_app_cons; intros E.
  1-3: auto. injection E as -> E. simpl. destruct (ascii_dec d d); [|done]. by apply IH.
Qed.
Lemma str_drop_app s t : str_drop (slen s) (s +:+ t) = t.
Proof. induction s as [|c s IH]; [by destruct t|]. by rewrite str_app_cons. Qed.

Lemma str_take_app s t : str_take (slen s) (s +:+ t) = s.
Proof. induction s as [|c s IH]; [by destruct t|]. rewrite str_app_cons. simpl. by rewrite IH. Qed.
Lemma str_drop_0 s : str_drop 0 s = s.
Proof. by destruct s. Qed.

Lemma str_take_drop n s : str_take n s +:+ str_drop n s = s.
Proof.
  revert s; induction n as [|n IH]; intros [|c s]; try done. simpl.
  by rewrite str_app_cons, IH.
Qed.

Lemma slen_take n s : slen (str_take n s) = Nat.min n (slen s).
Proof. revert s; induction n as [|n IH]; intros [|c s]; simpl; auto. Qed.

Lemma prefix_spec p s : String.prefix p s = true ↔ ∃ t, s = p +:+ t.
Proof.
  revert s; induction p as [|c p IH]; intros s.
  - split; [eauto|]. by destruct s.
  - destruct s as [|d s]; simpl.
    + split; [done|]. by intros [t ?].
    + destruct (ascii_dec c d) as [->|Hn].
      * rewrite IH. split; intros [t Ht]; exists t.
        -- by rewrite Ht.
        -- rewrite str_app_cons in Ht. by simplify_eq.
      * split; [done|]. intros [t Ht]. rewrite str_app_cons in Ht. by simplify_eq.
Qed.

Lemma prefix_cons c d p s :
  String.prefix (String c p) (String d s) = Ascii.eqb c d && String.prefix p s.
Proof.
  simpl. destruct (ascii_dec c d) as [->|Hn]; [by rewrite Ascii.eqb_refl|].
  by apply Ascii.eqb_neq in Hn as ->.
Qed.

Lemma prefix_nil s : String.prefix EmptyString s = true.
Proof. by destruct s. Qed.

Lemma startswith_spec p s : startswith p s = true ↔ ∃ t, s = p +:+ t.
Proof. apply prefix_spec. Qed.

Lemma startswith_app p s : startswith p (p +:+ s) = true.
Proof. apply startswith_spec. eauto. Qed.

Lemma endswith_spec p s : endswith p s = true ↔ ∃ t, s = t +:+ p.
Proof.
  unfold endswith. rewrite andb_true_iff, Nat.leb_le, String.eqb_eq. split.
  - intros [_ H]. exists (str_take (slen s - slen p) s).
    rewrite <-H at 2. by rewrite str_take_drop.
  - intros [t ->]. rewrite slen_app. split; [lia|].
    replace (slen t + slen p - slen p)%nat with (slen t) by lia.
    apply str_drop_app.
Qed.

Lemma endswith_refl p : endswith p p = true.
Proof. apply endswith_spec. by exists EmptyString. Qed.

Lemma contains_spec p s : contains p s = true ↔ ∃ a b, s = a +:+ p +:+ b.
Proof.
  split.
  - induction s as [|c s IH]; cbn [contains].
    + rewrite orb_false_r, prefix_spec. intros [t ->]. by exists EmptyString, t.
    + rewrite orb_true_iff. intros [H|H].
      * apply prefix_spec in H as [t ->]. by exists EmptyString, t.
      * destruct (IH H) as (a & b & ->). by exists (String c a), b.
  - assert (Hp : ∀ s, String.prefix p s = true → contains p s = true).
    { intros r Hr. destruct r; cbn [contains]; by rewrite Hr. }
    intros (a & b & ->). induction a as [|c a IH].
    + apply Hp, prefix_spec. eauto.
    + rewrite str_app_cons. cbn [contains]. by rewrite IH, orb_true_r.
Qed.

Lemma contains_app_r p s t : contains p t = true → contains p (s +:+ t) = true.
Proof.
  rewrite !contains_spec. intros (a & b & ->). exists (s +:+ a), b.
  by rewrite !str_app_assoc.
Qed.
Lemma contains_app_l p s t : contains p s = true → contains p (s +:+ t) = true.
Proof.
  rewrite !contains_spec. intros (a & b & ->). exists a, (b +:+ t).
  by rewrite !str_app_assoc.
Qed.
Lemma contains_refl p : contains p p = true.
Proof. apply contains_spec. exists EmptyString, EmptyString. by rewrite str_app_nil_r. Qed.

Lemma join_cons sep s l :
  l ≠ [] → join sep (s :: l) = s +:+ sep +:+ join sep l.
Proof. by destruct l. Qed.

(** [join] undoes [split]. *)
Lemma join_split_go sep skip cur s :
  join sep (split_go sep skip cur s) = cur +:+ str_drop skip s ∨ sep = EmptyString.
Proof.
  destruct sep as [|d sep]; [by right|left].
  assert (Hne : ∀ skip cur s, split_go (String d sep) skip cur s ≠ []).
  { clear. intros skip cur s. revert skip cur.
    induction s as [|c s IH]; intros skip cur; [done|].
    cbn [split_go]. destruct skip; [|apply IH]. by case_match. }
  revert skip cur. induction s as [|c s IH]; intros skip cur.
  - simpl. by destruct skip; rewrite str_app_nil_r.
  - cbn [split_go]. destruct skip as [|skip]; [|apply IH].
    destruct (String.prefix _ _) eqn:Hp.
    + rewrite join_cons, IH by done. apply prefix_spec in Hp as [t Ht].
      rewrite str_app_cons in Ht. injection Ht as -> ->. f_equal. simpl.
      by rewrite Nat.sub_0_r, str_drop_app, str_app_nil_l, str_app_cons.
    + rewrite IH. by rewrite str_app_assoc.
Qed.

Lemma join_split sep s : sep ≠ EmptyString → join sep (split sep s) = s.
Proof.
  intros Hs. destruct (join_split_go sep 0 EmptyString s) as [H|]; [|done].
  unfold split. by rewrite H, str_drop_0.
Qed.

Lemma split_ne_nil sep s : split sep s ≠ [].
Proof.
  unfold split. generalize EmptyString 0%nat.
  induction s as [|c s IH]; intros cur skip; [done|].
  cbn [split_go]. destruct skip; [|apply IH]. by case_match.
Qed.

Lemma str_forallb_app f s t :
  str_forallb f (s +:+ t) = str_forallb f s && str_forallb f t.
Proof.
  induction s as [|c s IH]; [done|]. rewrite str_app_cons. simpl.
  by rewrite IH, andb_assoc.
Qed.

Lemma str_forallb_repeat f n s :
  str_forallb f s = true → str_forallb f (str_repeat_nat n s) = true.
Proof. intros H. induction n; simpl; [done|]. by rewrite str_forallb_app, H. Qed.
End string_facts.

#[export] Hint Rewrite str_app_nil_l str_app_nil_r str_app_assoc slen_app
  slen_repeat : py.
#[export] Hint Resolve startswith_app endswith_refl contains_app_l
  contains_app_r contains_refl str_forallb_repeat : pyres.

(** Right-associate and evaluate concatenations. *)
Ltac str_norm := autorewrite with py; rewrite ?str_app_assoc.

(** ** [int] after [str] *)

Section int_facts.
Local Open Scope Z_scope.

Lemma digit_val_char (x : N) :
  (x < 10)%N →
  is_digit (pretty_N_char x) = true ∧ digit_val (pretty_N_char x) = Z.of_N x.
Proof.
  intros Hx. assert (x = 0 ∨ x = 1 ∨ x = 2 ∨ x = 3 ∨ x = 4 ∨ x = 5 ∨ x = 6 ∨
    x = 7 ∨ x = 8 ∨ x = 9)%N as H by lia. by destruct_or! H; subst.
Qed.

Lemma forallb_pretty_go (x : N) s :
  str_forallb is_digit s = true → str_forallb is_digit (pretty_N_go x s) = true.
Proof.
  revert s. induction (N.lt_wf_0 x) as [x _ IH]; intros s Hs.
  destruct (decide (x = 0)%N) as [->|Hx]; [done|].
  rewrite pretty_N_go_step by lia. apply IH; [apply N.div_lt; lia|].
  cbn [str_forallb]. rewrite Hs, andb_true_r. apply digit_val_char, N.mod_lt. lia.
Qed.

Lemma int_digits_pretty_go (x : N) :
  (0 < x)%N → ∃ k, 0 <= k ∧ ∀ acc seen s,
    int_digits acc seen (pretty_N_go x s) =
    int_digits (acc * 10 ^ k + Z.of_N x) true s.
Proof.
  induction (N.lt_wf_0 x) as [x _ IH]; intros Hx.
  assert (Hm : (x `mod` 10 < 10)%N) by (apply N.mod_lt; lia).
  destruct (digit_val_char _ Hm) as [Hd Hv].
  assert (Hdm : Z.of_N x = 10 * Z.of_N (x / 10)%N + Z.of_N (x mod 10)%N)
    by (pose proof (N.div_mod x 10); lia).
  destruct (decide (x / 10 = 0)%N) as [H0|H0].
  - exists 1. split; [lia|]. intros acc seen s. rewrite pretty_N_go_step by lia.
    rewrite H0, pretty_N_go_0. cbn [int_digits]. rewrite Hd. f_equal. lia.
  - destruct (IH (x / 10)%N) as (k & Hk & IHx); [apply N.div_lt; lia|lia|].
    exists (k + 1). split; [lia|]. intros acc seen s.
    rewrite pretty_N_go_step by lia. rewrite IHx. cbn [int_digits]. rewrite Hd.
    f_equal. rewrite Z.pow_add_r by lia. lia.
Qed.

Lemma str_Z_nonneg n : 0 <= n →
  str_forallb is_digit (str_Z n) = true ∧ str_Z n ≠ EmptyString ∧
  int_digits 0 false (str_Z n) = Some n.
Proof.
  intros Hn. unfold str_Z, pretty, pretty_Z.
  destruct n as [|p|p]; [done| |lia]. simpl.
  unfold pretty, pretty_positive, pretty, pretty_N. case_decide; [done|].
  split_and!.
  - by apply forallb_pretty_go.
  - intros He. destruct (int_digits_pretty_go (N.pos p)) as (k & _ & Hp); [lia|].
    specialize (Hp 0 false EmptyString). by rewrite He in Hp.
  - destruct (int_digits_pretty_go (N.pos p)) as (k & _ & Hp); [lia|].
    rewrite Hp. simpl. f_equal; lia.
Qed.

Lemma str_Z_neg n : n < 0 → str_Z n = String "-" (str_Z (- n)).
Proof. by destruct n. Qed.

Lemma is_digit_not_space c : is_digit c = true → is_space c = false.
Proof.
  unfold is_digit, is_space. rewrite !andb_true_iff, !Nat.leb_le. intros [H1 H2].
  set (k := nat_of_ascii c) in *. clearbody k. unfold leb.
  destruct (Nat.leb_spec 9 k), (Nat.leb_spec k 13), (Nat.leb_spec 28 k),
    (Nat.leb_spec k 32), (Nat.eqb_spec k 133), (Nat.eqb_spec k 160); try lia; done.
Qed.

(** Text without whitespace is its own [strip]. *)
Lemma strip_no_space s :
  str_forallb (λ c, negb (is_space c)) s = true → strip s = s.
Proof.
  unfold strip. assert (Hr : ∀ s,
    str_forallb (λ c, negb (is_space c)) s = true → rstrip s = s).
  { clear. induction s as [|c s IH]; [done|]. simpl. intros [Hc Hs]%andb_true_iff.
    rewrite IH by done. destruct s; [|done]. apply negb_true_iff in Hc. by rewrite Hc. }
  intros H. rewrite Hr by done. destruct s; [done|]. simpl in *.
  apply andb_true_iff in H as [Hc _]. apply negb_true_iff in Hc. by rewrite Hc.
Qed.

Lemma str_forallb_mono (f g : Ascii.ascii → bool) s :
  (∀ c, f c = true → g c = true) → str_forallb f s = true → str_forallb g s = true.
Proof.
  intros Hfg. induction s as [|c s IH]; [done|]. simpl.
  rewrite !andb_true_iff. naive_solver.
Qed.

Lemma strip_digits s : str_forallb is_digit s = true → strip s = s.
Proof.
  intros H. apply strip_no_space. eapply str_forallb_mono, H.
  intros c Hc. by rewrite is_digit_not_space.
Qed.

(** [int(str(n)) == n] *)
Lemma py_int_str_Z n : 0 <= n → py_int (str_Z n) = Some n.
Proof.
  intros Hn. destruct (str_Z_nonneg n Hn) as (Hd & Hne & Hi).
  unfold py_int. rewrite strip_digits by done.
  destruct (str_Z n) as [|c s] eqn:E; [done|]. simpl in Hd.
  apply andb_true_iff in Hd as [Hc _].
  destruct c as [[] [] [] [] [] [] [] []]; try done; discriminate Hc.
Qed.

Lemma digits_isnumeric s :
  s ≠ EmptyString → str_forallb is_digit s = true → isnumeric s = true.
Proof.
  intros Hne H. unfold isnumeric. destruct s; [done|].
  eapply str_forallb_mono, H. intros c Hc. unfold is_numeric_char. by rewrite Hc.
Qed.

(** Splitting at a one-character separator. *)
Lemma split_go_char c cur s :
  str_forallb (λ d, negb (bool_decide (d = c))) s = true →
  split_go (String c EmptyString) 0 cur s = [cur +:+ s].
Proof.
  revert cur. induction s as [|d s IH]; intros cur; [by rewrite str_app_nil_r|].
  simpl. intros [Hd Hs]%andb_true_iff. apply negb_true_iff, bool_decide_eq_false in Hd.
  destruct (ascii_dec c d); [by subst|]. rewrite IH by done. by rewrite str_app_assoc.
Qed.

Lemma split_char_none c s :
  str_forallb (λ d, negb (bool_decide (d = c))) s = true →
  split (String c EmptyString) s = [s].
Proof. intros H. unfold split. by rewrite split_go_char. Qed.

(** Replacing a character by a character works one character at a time. *)
Lemma replace_char_go c d cur s :
  join (String d EmptyString) (split_go (String c EmptyString) 0 cur s) =
  cur +:+ str_map (λ x, if Ascii.eqb x c then d else x) s.
Proof.
  assert (Hne : ∀ cur s, split_go (String c EmptyString) 0 cur s ≠ []).
  { clear. intros cur s. revert cur. induction s as [|x s IH]; intros cur; [done|].
    cbn [split_go]. by case_match. }
  revert cur. induction s as [|x s IH]; intros cur; [by rewrite str_app_nil_r|].
  cbn [split_go str_map]. simpl String.prefix. rewrite prefix_nil.
  destruct (ascii_dec c x) as [->|Hx].
  - rewrite join_cons by apply Hne. simpl slen. rewrite IH, Ascii.eqb_refl. done.
  - rewrite IH, str_app_assoc. by rewrite (proj2 (Ascii.eqb_neq x c)) by congruence.
Qed.
Lemma replace_char c d s :
  replace (String c EmptyString) (String d EmptyString) s =
  str_map (λ x, if Ascii.eqb x c then d else x) s.
Proof. apply (replace_char_go c d EmptyString). Qed.

Lemma str_map_app f s t : str_map f (s +:+ t) = str_map f s +:+ str_map f t.
Proof. induction s as [|c s IH]; [done|]. rewrite str_app_cons. simpl. by rewrite IH. Qed.

Lemma str_map_map f g s : str_map f (str_map g s) = str_map (λ x, f (g x)) s.
Proof. induction s as [|c s IH]; [done|]. simpl. by rewrite IH. Qed.

Lemma split_go_char_app c cur s t :
  str_forallb (λ d, negb (bool_decide (d = c))) s = true →
  split_go (String c EmptyString) 0 cur (s +:+ String c t) =
  (cur +:+ s) :: split_go (String c EmptyString) 0 EmptyString t.
Proof.
  revert cur. induction s as [|d s IH]; intros cur H.
  - rewrite str_app_nil_l, str_app_nil_r. cbn [split_go].
    replace (String.prefix _ _) with true; [done|].
    symmetry. apply prefix_spec. by exists t.
  - simpl in H. apply andb_true_iff in H as [Hd Hs].
    apply negb_true_iff, bool_decide_eq_false in Hd.
    rewrite str_app_cons. cbn [split_go].
    destruct (String.prefix _ _) eqn:Hp.
    + apply prefix_spec in Hp as [u Hu]. rewrite str_app_cons in Hu. by simplify_eq.
    + rewrite IH by done. by rewrite str_app_assoc.
Qed.

Lemma split_char_app c s t :
  str_forallb (λ d, negb (bool_decide (d = c))) s = true →
  split (String c EmptyString) (s +:+ String c t) =
  s :: split (String c EmptyString) t.
Proof. intros H. unfold split. by rewrite split_go_char_app. Qed.

Lemma digits_not_char c s :
  is_digit c = false → str_forallb is_digit s = true →
  str_forallb (λ d, negb (bool_decide (d = c))) s = true.
Proof.
  intros Hc. apply str_forallb_mono. intros d Hd.
  apply negb_true_iff, bool_decide_eq_false. congruence.
Qed.
(** A text without the character [c] *)
Definition lacks c s : bool := str_forallb (λ d, negb (bool_decide (d = c))) s.
Lemma lacks_app c s t : lacks c (s +:+ t) = lacks c s && lacks c t.
Proof. apply str_forallb_app. Qed.

Lemma split_join_char c l :
  l ≠ [] → Forall (λ s, lacks c s = true) l →
  split (String c EmptyString) (join (String c EmptyString) l) = l.
Proof.
  intros Hl. induction 1 as [|s l Hs _ IH]; [done|]. destruct l as [|t l].
  - by apply split_char_none.
  - rewrite join_cons by done. rewrite str_app_cons, str_app_nil_l.
    rewrite split_char_app by done. by rewrite IH.
Qed.

Lemma cut_first_char c s t :
  lacks c s = true → cut_first (String c EmptyString) (s +:+ String c t) = Some (s, t).
Proof.
  induction s as [|d s IH]; intros Hs.
  - rewrite str_app_nil_l. cbn [cut_first]. rewrite prefix_cons, Ascii.eqb_refl, prefix_nil. done.
  - apply andb_true_iff in Hs as [Hd Hs]. apply negb_true_iff, bool_decide_eq_false in Hd.
    rewrite str_app_cons. cbn [cut_first]. rewrite prefix_cons.
    rewrite (proj2 (Ascii.eqb_neq c d)) by congruence. cbn [andb]. by rewrite IH.
Qed.

(** Nothing is stripped between two characters that are no spaces. *)
Lemma rstrip_end s c : is_space c = false → rstrip (s +:+ String c EmptyString) = s +:+ String c EmptyString.
Proof.
  intros Hc. induction s as [|d s IH]; simpl; [by rewrite Hc|]. rewrite str_app_cons. simpl.
  rewrite IH. by destruct s.
Qed.
Lemma strip_ends c s d :
  is_space c = false → is_space d = false →
  strip (String c (s +:+ String d EmptyString)) = String c (s +:+ String d EmptyString).
Proof.
  intros Hc Hd. unfold strip. rewrite <-str_app_cons, rstrip_end by done.
  rewrite str_app_cons. simpl. by rewrite Hc.
Qed.
End int_facts.

(** Pairwise different texts, by computation *)
Fixpoint nodup_str (l : list string) : bool :=
  match l with [] => true | x :: l => forallb (λ y, negb (String.eqb x y)) l && nodup_str l end.
Lemma nodup_str_ok l : nodup_str l = true → NoDup l.
Proof.
  induction l as [|x l IH]; [constructor|]. intros [Hx Hl]%andb_true_iff.
  constructor; [|by apply IH]. rewrite forallb_forall in Hx. intros Hin%list_elem_of_In.
  specialize (Hx x Hin). by rewrite String.eqb_refl in Hx.
Qed.

#[export] Hint Resolve digits_not_char digits_isnumeric : pyres.
