(* ===== verification/PyPath.v ===== *)
(** * Normal forms of paths

    [os.path.normpath] and [os.path.abspath] of a POSIX system. *)
From Stdlib Require Import Ascii.
From S2P Require Import Prelude PyStr.

(** The components of a path without empty ones and [.], and with [..]
    resolved; [rooted] paths have nothing above the root.  [acc] is the list
    of the components so far, last first. *)
Fixpoint norm_comps (rooted : bool) (acc comps : list string) : list string :=
  match comps with
  | [] => rev acc
  | c :: comps =>
      if String.eqb c EmptyString || String.eqb c "." then norm_comps rooted acc comps
      else if String.eqb c ".." then
        match acc with
        | [] => norm_comps rooted (if rooted then [] else [c]) comps
        | d :: acc' =>
            if String.eqb d ".." then norm_comps rooted (c :: acc) comps
            else norm_comps rooted acc' comps
        end
      else norm_comps rooted (c :: acc) comps
  end.

(** The slashes that a path starts with: two are kept, three are one. *)
Definition initial_slashes (p : string) : string :=
  if startswith "//" p && negb (startswith "///" p) then "//"
  else if startswith "/" p then "/" else EmptyString.

(** [os.path.normpath(p)] *)
Definition normpath (p : string) : string :=
  let path := initial_slashes p +:+
              join "/" (norm_comps (startswith "/" p) [] (split "/" p)) in
  if String.eqb path EmptyString then "." else path.

(** [os.path.abspath(p)] in the working directory [cwd] *)
Definition abspath (cwd p : string) : string :=
  normpath (if startswith "/" p then p else path_join cwd p).

Example normpath_1 : normpath "/a/./b//../c/" = "/a/c".
Proof. by_compute. Qed.
Example normpath_2 : normpath "../../x" = "../../x" ∧ normpath EmptyString = ".".
Proof. split; by_compute. Qed.
Example abspath_1 : abspath "/work" "./h-x.deb" = "/work/h-x.deb".
Proof. by_compute. Qed.

(** A path that a directory is known by: [os.getcwd()] *)
Definition directory (cwd : string) : bool :=
  startswith "/" cwd && negb (startswith "//" cwd) && negb (endswith "/" cwd).

Lemma split_go_app c cur s t :
  split_go (String c EmptyString) 0 cur (s +:+ String c t) =
  split_go (String c EmptyString) 0 cur s ++ split_go (String c EmptyString) 0 EmptyString t.
Proof.
  revert cur. induction s as [|d s IH]; intros cur.
  - by rewrite (split_go_char_app c cur EmptyString t), str_app_nil_r.
  - rewrite str_app_cons. cbn [split_go]. simpl String.prefix. rewrite !prefix_nil.
    destruct (ascii_dec c d) as [<-|]; [|apply IH]. simpl slen. by rewrite IH.
Qed.

(** The components of [s/t] are those of [s] and those of [t]. *)
Lemma split_slash_app s t : split "/" (s +:+ "/" +:+ t) = split "/" s ++ split "/" t.
Proof. apply split_go_app. Qed.

Lemma norm_comps_dot rooted acc l k :
  norm_comps rooted acc (l ++ "." :: k) = norm_comps rooted acc (l ++ k).
Proof. revert acc. induction l as [|c l IH]; intros acc; simpl; [done|]. by rewrite !IH; repeat case_match. Qed.

Lemma norm_comps_empty rooted acc l k :
  norm_comps rooted acc (l ++ EmptyString :: k) = norm_comps rooted acc (l ++ k).
Proof. revert acc. induction l as [|c l IH]; intros acc; simpl; [done|]. by rewrite !IH; repeat case_match. Qed.

Lemma directory_prefix cwd t :
  directory cwd = true →
  startswith "/" (cwd +:+ t) = true ∧ startswith "//" (cwd +:+ t) = false.
Proof.
  unfold directory. intros [[H1 H2%negb_true_iff]%andb_true_iff H3%negb_true_iff]%andb_true_iff.
  apply startswith_spec in H1 as [u ->]. destruct u as [|c u]; [by vm_compute in H3|].
  split; [done|]. apply not_true_is_false. intros E.
  apply startswith_spec in E as [v E]. rewrite str_app_assoc, !str_app_cons in E.
  injection E as -> _. pose proof (startswith_app "//" u : startswith "//" ("/" +:+ String "/" u) = true). congruence.
Qed.

Lemma normpath_under cwd t :
  directory cwd = true →
  normpath (cwd +:+ "/" +:+ t) =
  "/" +:+ join "/" (norm_comps true [] (split "/" cwd ++ split "/" t)).
Proof.
  intros Hd. destruct (directory_prefix cwd ("/" +:+ t) Hd) as [H1 H2].
  unfold normpath, initial_slashes. by rewrite H1, H2, split_slash_app.
Qed.

Lemma normpath_dot cwd t :
  directory cwd = true → normpath (cwd +:+ "/" +:+ "./" +:+ t) = normpath (cwd +:+ "/" +:+ t).
Proof.
  intros Hd. rewrite !normpath_under by done. change ("./" +:+ t) with ("." +:+ "/" +:+ t).
  rewrite split_slash_app. simpl. by rewrite norm_comps_dot.
Qed.

Lemma normpath_slash cwd t :
  directory cwd = true → normpath (cwd +:+ "/" +:+ "/" +:+ t) = normpath (cwd +:+ "/" +:+ t).
Proof.
  intros Hd. rewrite !normpath_under by done.
  change (split "/" ("/" +:+ t)) with (split "/" (EmptyString +:+ "/" +:+ t)).
  rewrite split_slash_app. simpl. by rewrite norm_comps_empty.
Qed.

Lemma abspath_rooted cwd p : directory cwd = true → startswith "/" (abspath cwd p) = true.
Proof.
  intros Hd. assert (Hn : ∀ s, startswith "/" s = true → startswith "/" (normpath s) = true).
  { intros s Hs. unfold normpath, initial_slashes. rewrite Hs.
    destruct (startswith "//" s && negb (startswith "///" s)).
    - apply (startswith_app "/" ("/" +:+ join "/" _)).
    - apply (startswith_app "/" (join "/" _)). }
  unfold abspath, path_join. destruct (startswith "/" p) eqn:Hp; [by apply Hn|].
  apply Hn. case_match; by apply (directory_prefix cwd).
Qed.

Lemma path_join_relative cwd p :
  directory cwd = true → startswith "/" p = false → path_join cwd p = cwd +:+ "/" +:+ p.
Proof.
  unfold directory, path_join. intros Hd ->.
  destruct cwd; [done|]. destruct (endswith "/" _); [|done].
  by rewrite andb_false_r in Hd.
Qed.

(** A path below [./]: a relative one is the path itself, an absolute one
    ends up below the working directory. *)
Lemma abspath_dot cwd x :
  directory cwd = true →
  abspath cwd ("./" +:+ x) =
  if startswith "/" x then normpath (cwd +:+ x) else abspath cwd x.
Proof.
  intros Hd. unfold abspath. change (startswith "/" ("./" +:+ x)) with false. cbv iota.
  rewrite path_join_relative, normpath_dot by done. destruct (startswith "/" x) eqn:Hx.
  - apply startswith_spec in Hx as [t ->]. by apply normpath_slash.
  - by rewrite path_join_relative.
Qed.
