(* ===== verification/PyDict.v ===== *)
(** * Python dictionaries

    Python's [dict] keeps insertion order: assignment to an existing key
    keeps its place, a new key goes to the end, [del] closes the gap.  The
    model is an association list with those operations; the invariant is that
    keys do not repeat. *)
From S2P Require Import Prelude.

Abbreviation dict K V := (list (K * V)).

Section dict.
Context {K V : Type} `{EqDecision K}.
Implicit Types (d : dict K V) (k : K) (v : V).

(** [d.get(k)] *)
Fixpoint dget k d : option V :=
  match d with
  | [] => None
  | (k', v) :: d => if decide (k = k') then Some v else dget k d
  end.

(** [d[k] = v] *)
Fixpoint dset k v d : dict K V :=
  match d with
  | [] => [(k, v)]
  | (k', v') :: d =>
      if decide (k = k') then (k', v) :: d else (k', v') :: dset k v d
  end.

(** [del d[k]] *)
Fixpoint ddel k d : dict K V :=
  match d with
  | [] => []
  | (k', v') :: d => if decide (k = k') then d else (k', v') :: ddel k d
  end.

(** [list(d.keys())], [d.values()] *)
Definition dkeys d : list K := d.*1.
Definition dvalues d : list V := d.*2.

(** [d.update(e)], [dict(pairs)] *)
Definition dupdate (e d : dict K V) : dict K V :=
  fold_left (λ d kv, dset kv.1 kv.2 d) e d.

Definition dwf d : Prop := NoDup (dkeys d).

Lemma dget_dset k v d : dget k (dset k v d) = Some v.
Proof.
  induction d as [|[k' v'] d IH]; simpl; [by rewrite decide_True|].
  by destruct (decide (k = k')) as [->|]; simpl;
    [rewrite decide_True|rewrite decide_False].
Qed.

Lemma dget_dset_ne k k' v d : k ≠ k' → dget k (dset k' v d) = dget k d.
Proof.
  intros Hne. induction d as [|[k1 v1] d IH]; simpl; [by rewrite decide_False|].
  destruct (decide (k' = k1)) as [->|]; simpl; [by rewrite !decide_False|].
  by rewrite IH.
Qed.

Lemma dget_Some k v d : dget k d = Some v → (k, v) ∈ d.
Proof.
  induction d as [|[k' v'] d IH]; simpl; [done|].
  case_decide; intros; simplify_eq; set_solver.
Qed.

Lemma dget_is_Some k d : is_Some (dget k d) ↔ k ∈ dkeys d.
Proof.
  induction d as [|[k' v'] d IH]; simpl.
  - split; [by intros [? ?]|by intros ?%not_elem_of_nil].
  - rewrite elem_of_cons, <-IH. case_decide; naive_solver.
Qed.

Lemma dget_None k d : dget k d = None ↔ k ∉ dkeys d.
Proof. rewrite <-dget_is_Some, eq_None_not_Some. done. Qed.

Lemma elem_of_dkeys_dset k k' v d : k ∈ dkeys (dset k' v d) ↔ k = k' ∨ k ∈ dkeys d.
Proof.
  induction d as [|[k1 v1] d IH]; simpl; [set_solver|].
  case_decide; subst; simpl; rewrite !elem_of_cons, ?IH; naive_solver.
Qed.

Lemma dwf_dset k v d : dwf d → dwf (dset k v d).
Proof.
  unfold dwf. induction d as [|[k1 v1] d IH]; simpl.
  - intros _. apply NoDup_singleton.
  - rewrite NoDup_cons. intros [Hn Hd]. case_decide; subst; simpl; constructor; auto.
    change (k1 ∉ dkeys (dset k v d)). rewrite elem_of_dkeys_dset. naive_solver.
Qed.

Lemma elem_of_dkeys_ddel_subset k k' d : k ∈ dkeys (ddel k' d) → k ∈ dkeys d.
Proof.
  induction d as [|[k1 v1] d IH]; simpl; [done|].
  case_decide; simpl; rewrite ?elem_of_cons; naive_solver.
Qed.

Lemma dwf_ddel k d : dwf d → dwf (ddel k d).
Proof.
  unfold dwf. induction d as [|[k1 v1] d IH]; simpl; [done|].
  rewrite NoDup_cons. intros [Hn Hd]. case_decide; subst; [done|].
  simpl. constructor; [|auto]. contradict Hn. by eapply elem_of_dkeys_ddel_subset.
Qed.

Lemma dget_ddel k d : dwf d → dget k (ddel k d) = None.
Proof.
  unfold dwf. induction d as [|[k1 v1] d IH]; simpl; [done|].
  rewrite NoDup_cons. intros [Hn Hd]. case_decide; subst.
  - by apply dget_None.
  - simpl. rewrite decide_False by done. auto.
Qed.

Lemma dget_ddel_ne k k' d : k ≠ k' → dget k (ddel k' d) = dget k d.
Proof.
  intros Hne. induction d as [|[k1 v1] d IH]; simpl; [done|].
  destruct (decide (k' = k1)) as [->|]; simpl; [by rewrite decide_False|].
  by rewrite IH.
Qed.

Lemma elem_of_dkeys_ddel k k' d :
  dwf d → k ∈ dkeys (ddel k' d) ↔ k ≠ k' ∧ k ∈ dkeys d.
Proof.
  intros Hd. rewrite <-!dget_is_Some. destruct (decide (k = k')) as [->|Hne].
  - rewrite dget_ddel by done. split; [by intros [? ?]|naive_solver].
  - rewrite dget_ddel_ne by done. naive_solver.
Qed.

Lemma dvalues_ddel_sublist k d : sublist (dvalues (ddel k d)) (dvalues d).
Proof.
  induction d as [|[k1 v1] d IH]; simpl; [constructor|].
  case_decide; simpl; by constructor.
Qed.

Lemma elem_of_dvalues_dset k v x d :
  x ∈ dvalues (dset k v d) → x = v ∨ x ∈ dvalues d.
Proof.
  induction d as [|[k1 v1] d IH]; simpl; [set_solver|].
  case_decide; simpl; rewrite !elem_of_cons; naive_solver.
Qed.

Lemma NoDup_dvalues_dset k v d :
  v ∉ dvalues d → NoDup (dvalues d) → NoDup (dvalues (dset k v d)).
Proof.
  induction d as [|[k1 v1] d IH]; simpl; [intros _ _; apply NoDup_singleton|].
  rewrite not_elem_of_cons, NoDup_cons. intros [Hne Hn] [Hv Hd].
  case_decide; simpl; constructor; auto.
  intros Hin. apply (elem_of_dvalues_dset k v) in Hin as [->|Hin]; done.
Qed.

Lemma elem_of_dvalues k v d : (k, v) ∈ d → v ∈ dvalues d.
Proof. intros H. apply list_elem_of_fmap. by exists (k, v). Qed.

Lemma dget_elem_of k v d : dwf d → (k, v) ∈ d → dget k d = Some v.
Proof.
  unfold dwf. induction d as [|[k' v'] d IH]; simpl; [by intros _ ?%not_elem_of_nil|].
  rewrite NoDup_cons, elem_of_cons. intros [Hn Hd] [[= -> ->]|Hin].
  - by rewrite decide_True.
  - rewrite decide_False; [by apply IH|]. intros ->. apply Hn.
    apply list_elem_of_fmap. by exists (k', v).
Qed.

Lemma ddel_absent k d : k ∉ dkeys d → ddel k d = d.
Proof.
  induction d as [|[k' v'] d IH]; simpl; [done|]. rewrite not_elem_of_cons.
  intros [Hne Hn]. rewrite decide_False by done. by rewrite IH.
Qed.

(** With distinct values, a value is found under one key. *)
Lemma dget_inj k1 k2 v d :
  NoDup (dvalues d) → dget k1 d = Some v → dget k2 d = Some v → k1 = k2.
Proof.
  induction d as [|[k' v'] d IH]; simpl; [done|].
  rewrite NoDup_cons. intros [Hn Hd] H1 H2.
  destruct (decide (k1 = k')) as [->|], (decide (k2 = k')) as [->|].
  - done.
  - injection H1 as ->. by apply dget_Some, elem_of_dvalues in H2.
  - injection H2 as ->. by apply dget_Some, elem_of_dvalues in H1.
  - by apply IH.
Qed.

Lemma dget_ddel_Some k k' v d : dwf d → dget k (ddel k' d) = Some v → dget k d = Some v.
Proof.
  intros Hd. destruct (decide (k = k')) as [->|Hne].
  - by rewrite dget_ddel.
  - by rewrite dget_ddel_ne.
Qed.

(** A fresh key goes to the end. *)
Lemma dset_fresh k v d : k ∉ dkeys d → dset k v d = d ++ [(k, v)].
Proof.
  induction d as [|[k1 v1] d IH]; simpl; [done|].
  intros ?. rewrite decide_False by set_solver. by rewrite IH by set_solver.
Qed.

(** Setting an existing key keeps the order of the keys. *)
Lemma dkeys_dset_present k v d : k ∈ dkeys d → dkeys (dset k v d) = dkeys d.
Proof.
  induction d as [|[k1 v1] d IH]; simpl; [by intros ?%not_elem_of_nil|].
  intros ?. case_decide; simpl; [done|]. f_equal. apply IH. set_solver.
Qed.
End dict.

#[export] Hint Rewrite @dget_dset : py.
#[export] Hint Resolve dwf_dset dwf_ddel : pyres.
