(* ===== verification/PyMonad.v ===== *)
(** * Results, exceptions and the state monad of the model

    Pure Python code that can raise is a function to [res]; code that also
    works on the objects of the framework is a computation of [M S], a state
    monad over the record [S] of those objects.  [Exc] is a raised exception,
    [Stuck] is not a Python value: it marks a loop of the model whose fuel ran
    out, or a thread that waits for a lock it holds itself; no [except] or
    [finally] sees it. *)
From S2P Require Import Prelude.

Inductive exn :=
  | AssertionError (output : string)
  | ExpectTimeoutError
  | OSError
  | RuntimeError (m : string)
  | QueryRuntimeException (output : string)
  | TypeError (m : string)
  | ValueError (m : string)
  | KeyError (k : string)
  | IndexError
  | AttributeError (m : string)
  | UnboundLocalError (v : string)
  | NotImplementedError (m : string)
  | StopIteration
  | Fail (m : string)          (* testflows [fail(m)] *)
  | Skip (m : string)          (* testflows [skip(m)] *)
  | XFail (m : string)         (* testflows [xfail(m)] *)
  | OtherException (m : string).

#[export] Instance exn_eq_dec : EqDecision exn.
Proof. solve_decision. Defined.

Inductive stuck := OutOfFuel | SelfDeadlock.

#[export] Instance stuck_eq_dec : EqDecision stuck.
Proof. solve_decision. Defined.

Inductive res (A : Type) :=
  | Ok (a : A)
  | Exc (e : exn)
  | Stuck (w : stuck).
Arguments Ok {A} _.
Arguments Exc {A} _.
Arguments Stuck {A} _.

#[export] Instance res_eq_dec `{EqDecision A} : EqDecision (res A).
Proof. solve_decision. Defined.

#[export] Instance res_ret : MRet res := @Ok.
#[export] Instance res_bind : MBind res := λ A B f m,
  match m with Ok a => f a | Exc e => Exc e | Stuck w => Stuck w end.
#[export] Instance res_fmap : FMap res := λ A B f m,
  match m with Ok a => Ok (f a) | Exc e => Exc e | Stuck w => Stuck w end.

Definition is_ok {A} (r : res A) : bool :=
  match r with Ok _ => true | _ => false end.

Definition is_stuck {A} (r : res A) : bool :=
  match r with Stuck _ => true | _ => false end.

(** [[f(x) for x in l]] where [f] can raise *)
Fixpoint res_mapM {A B} (f : A → res B) (l : list A) : res (list B) :=
  match l with
  | [] => Ok []
  | x :: l => y ← f x; ys ← res_mapM f l; mret (y :: ys)
  end.

(** An absent value raises [e]. *)
Definition or_raise {A} (e : exn) (o : option A) : res A :=
  match o with Some a => Ok a | None => Exc e end.

Lemma res_bind_ok {A B} (m : res A) (f : A → res B) b :
  m ≫= f = Ok b ↔ ∃ a, m = Ok a ∧ f a = Ok b.
Proof. destruct m; simpl; naive_solver. Qed.

Lemma res_mapM_ok {A B} (f : A → res B) l k :
  res_mapM f l = Ok k ↔ Forall2 (λ x y, f x = Ok y) l k.
Proof.
  revert k. induction l as [|x l IH]; intros k; simpl.
  - split; [intros [= <-]; constructor|by inversion 1].
  - split.
    + intros (y & Hy & (ys & Hys & [= <-])%res_bind_ok)%res_bind_ok.
      constructor; [done|by apply IH].
    + inversion 1 as [|? y ? ys Hy Hys]; subst. rewrite Hy. simpl.
      by apply IH in Hys as ->.
Qed.

Lemma res_mapM_ok_map {A B} (f : A → res B) (g : A → B) l :
  (∀ x, x ∈ l → f x = Ok (g x)) → res_mapM f l = Ok (g <$> l).
Proof.
  intros H. induction l as [|x l IH]; simpl; [done|].
  by rewrite (H x), IH by set_solver.
Qed.

(** ** The state monad *)

Definition M (S A : Type) : Type := S → res A * S.

Section monad.
Context {S : Type}.

#[export] Instance M_ret : MRet (M S) := λ A a s, (Ok a, s).
#[export] Instance M_bind : MBind (M S) := λ A B f m s,
  match m s with
  | (Ok a, s) => f a s
  | (Exc e, s) => (Exc e, s)
  | (Stuck w, s) => (Stuck w, s)
  end.

Definition raise {A} (e : exn) : M S A := λ s, (Exc e, s).
Definition hang {A} (w : stuck) : M S A := λ s, (Stuck w, s).
Definition gets {A} (f : S → A) : M S A := λ s, (Ok (f s), s).
Definition modify (f : S → S) : M S unit := λ s, (Ok tt, f s).
Definition lift {A} (r : res A) : M S A := λ s, (r, s).

(** [assert b, error(out)] *)
Definition assert_ (b : bool) (out : string) : M S unit :=
  if b then mret tt else raise (AssertionError out).

Definition when (b : bool) (m : M S unit) : M S unit :=
  if b then m else mret tt.

(** [try: m  except e: h e], where [h] re-raises what it does not handle *)
Definition try_except {A} (m : M S A) (h : exn → M S A) : M S A := λ s,
  match m s with
  | (Exc e, s) => h e s
  | r => r
  end.

(** [try: x = m  except e: return h e  else: return k x] *)
Definition try_else {A B} (m : M S A) (k : A → M S B) (h : exn → M S B) : M S B := λ s,
  match m s with
  | (Ok a, s) => k a s
  | (Exc e, s) => h e s
  | (Stuck w, s) => (Stuck w, s)
  end.

(** [try: m  finally: f]: an exception of [f] replaces the one of [m] *)
Definition try_finally {A} (m : M S A) (f : M S unit) : M S A := λ s,
  match m s with
  | (Stuck w, s) => (Stuck w, s)
  | (r, s) =>
      match f s with
      | (Ok _, s) => (r, s)
      | (Exc e, s) => (Exc e, s)
      | (Stuck w, s) => (Stuck w, s)
      end
  end.

(** [try: m  finally: f; return]: a [return] of the [finally] block drops
    the exception of [m]. *)
Definition try_finally_return {A B} (m : M S A) (f : res A → M S B) : M S B := λ s,
  match m s with
  | (Stuck w, s) => (Stuck w, s)
  | (r, s) => f r s
  end.

(** [for x in l: body x] *)
Fixpoint for_ {A} (l : list A) (body : A → M S unit) : M S unit :=
  match l with
  | [] => mret tt
  | x :: l => body x ;; for_ l body
  end.

(** [[f(x) for x in l]] *)
Fixpoint mapM_ {A B} (f : A → M S B) (l : list A) : M S (list B) :=
  match l with
  | [] => mret []
  | x :: l => y ← f x; ys ← mapM_ f l; mret (y :: ys)
  end.
End monad.

(** ** Reasoning *)

Lemma M_bind_Ok {S A B} (m : M S A) (f : A → M S B) s a s' :
  m s = (Ok a, s') → (m ≫= f) s = f a s'.
Proof. intros E. unfold mbind, M_bind. by rewrite E. Qed.

Lemma M_bind_Ok_inv {S A B} (m : M S A) (f : A → M S B) s b s' :
  (m ≫= f) s = (Ok b, s') → ∃ a s1, m s = (Ok a, s1) ∧ f a s1 = (Ok b, s').
Proof. unfold mbind, M_bind. destruct (m s) as [[a|e|w] s1]; naive_solver. Qed.

(** [wp m Q s]: running [m] from [s] ends in a result and a state that
    satisfy [Q]. *)
Definition wp {S A} (m : M S A) (Q : res A → S → Prop) (s : S) : Prop :=
  Q (m s).1 (m s).2.

Section wp.
Context {S : Type}.
Implicit Types (s : S).

Lemma wp_mono {A} (m : M S A) (Q Q' : res A → S → Prop) s :
  wp m Q s → (∀ r s', Q r s' → Q' r s') → wp m Q' s.
Proof. unfold wp. auto. Qed.

Lemma wp_ret {A} (a : A) Q s : Q (Ok a) s → wp (mret a : M S A) Q s.
Proof. done. Qed.
Lemma wp_raise {A} e Q s : Q (Exc e) s → wp (raise e : M S A) Q s.
Proof. done. Qed.
Lemma wp_gets {A} (f : S → A) Q s : Q (Ok (f s)) s → wp (gets f) Q s.
Proof. done. Qed.
Lemma wp_modify f Q s : Q (Ok tt) (f s) → wp (modify f) Q s.
Proof. done. Qed.
Lemma wp_lift {A} (r : res A) Q s : Q r s → wp (lift r) Q s.
Proof. done. Qed.

Lemma wp_bind {A B} (m : M S A) (f : A → M S B) Q s :
  wp m (λ r s', match r with
                | Ok a => wp (f a) Q s'
                | Exc e => Q (Exc e) s'
                | Stuck w => Q (Stuck w) s'
                end) s → wp (m ≫= f) Q s.
Proof.
  unfold wp, mbind, M_bind. by destruct (m s) as [[a|e|w] s'].
Qed.

Lemma wp_assert b out Q s :
  (b = true → Q (Ok tt) s) → (b = false → Q (Exc (AssertionError out)) s) →
  wp (assert_ b out : M S unit) Q s.
Proof. unfold assert_. destruct b; unfold wp; simpl; auto. Qed.

Lemma wp_when b m Q s :
  (b = true → wp m Q s) → (b = false → Q (Ok tt) s) → wp (when b m) Q s.
Proof. destruct b; unfold wp; simpl; auto. Qed.

Lemma wp_try_except {A} (m : M S A) h Q s :
  wp m (λ r s', match r with Exc e => wp (h e) Q s' | r => Q r s' end) s →
  wp (try_except m h) Q s.
Proof. unfold wp, try_except. by destruct (m s) as [[a|e|w] s']. Qed.

Lemma wp_try_else {A B} (m : M S A) (k : A → M S B) h Q s :
  wp m (λ r s', match r with
                | Ok a => wp (k a) Q s'
                | Exc e => wp (h e) Q s'
                | Stuck w => Q (Stuck w) s'
                end) s →
  wp (try_else m k h) Q s.
Proof. unfold wp, try_else. by destruct (m s) as [[a|e|w] s']. Qed.

Lemma wp_try_finally {A} (m : M S A) f Q s :
  wp m (λ r s', match r with
                | Stuck w => Q (Stuck w) s'
                | r => wp f (λ r' s'', match r' with
                                       | Ok _ => Q r s''
                                       | Exc e => Q (Exc e) s''
                                       | Stuck w => Q (Stuck w) s''
                                       end) s'
                end) s →
  wp (try_finally m f) Q s.
Proof.
  unfold wp, try_finally. destruct (m s) as [[a|e|w] s']; simpl; auto;
    by destruct (f s') as [[]?].
Qed.

Lemma wp_for_ {A} (l : list A) body (I : list A → S → Prop) Q s :
  I l s →
  (∀ s', I [] s' → Q (Ok tt) s') →
  (∀ x l' s', I (x :: l') s' →
     wp (body x) (λ r s'', match r with
                           | Ok _ => I l' s''
                           | Exc e => Q (Exc e) s''
                           | Stuck w => Q (Stuck w) s''
                           end) s') →
  wp (for_ l body) Q s.
Proof.
  intros HI Hnil Hcons. revert s HI. induction l as [|x l IH]; intros s HI.
  - apply wp_ret. auto.
  - apply wp_bind. eapply wp_mono; [by apply Hcons|]. intros [] s'; simpl; auto.
Qed.
End wp.

Lemma for_ok {S A} (l : list A) (body : A → M S unit) :
  (∀ x s, is_ok (body x s).1 = true) → ∀ s, is_ok (for_ l body s).1 = true.
Proof.
  intros Hb. induction l as [|x l IH]; intros s; [done|]. cbn [for_].
  specialize (Hb x s). unfold mbind, M_bind. destruct (body x s) as [[[]|e|w] s']; [|done..].
  apply IH.
Qed.

(** ** Relations preserved by every run *)

(** [Preserves R m]: the state before and after [m] are related by [R],
    whatever the result.  Instance search follows the shape of [m], so that a
    frame property of a long method is proved by [apply _]. *)
Class Preserves {S A} (R : S → S → Prop) (m : M S A) : Prop :=
  preserves : ∀ s, R s (m s).2.

Section preserves.
Context {S : Type} (R : S → S → Prop) `{!PreOrder R}.

#[export] Instance preserves_ret {A} (a : A) : Preserves R (mret a : M S A).
Proof. intros s. reflexivity. Qed.
#[export] Instance preserves_raise {A} e : Preserves R (raise e : M S A).
Proof. intros s. reflexivity. Qed.
#[export] Instance preserves_hang {A} w : Preserves R (hang w : M S A).
Proof. intros s. reflexivity. Qed.
#[export] Instance preserves_gets {A} (f : S → A) : Preserves R (gets f).
Proof. intros s. reflexivity. Qed.
#[export] Instance preserves_lift {A} (r : res A) : Preserves R (lift r : M S A).
Proof. intros s. reflexivity. Qed.
#[export] Instance preserves_assert b out : Preserves R (assert_ b out : M S unit).
Proof. intros s. destruct b; reflexivity. Qed.
#[export] Instance preserves_when b (m : M S unit) :
  Preserves R m → Preserves R (when b m).
Proof. intros H s. destruct b; [apply H|reflexivity]. Qed.
#[export] Instance preserves_bind {A B} (m : M S A) (f : A → M S B) :
  Preserves R m → (∀ a, Preserves R (f a)) → Preserves R (m ≫= f).
Proof.
  intros Hm Hf s. specialize (Hm s). unfold mbind, M_bind.
  destruct (m s) as [[a|e|w] s']; simpl in *; [|done..].
  etrans; [done|apply Hf].
Qed.
#[export] Instance preserves_try_except {A} (m : M S A) h :
  Preserves R m → (∀ e, Preserves R (h e)) → Preserves R (try_except m h).
Proof.
  intros Hm Hf s. specialize (Hm s). unfold try_except.
  destruct (m s) as [[a|e|w] s']; simpl in *; [done| |done].
  etrans; [done|apply Hf].
Qed.
#[export] Instance preserves_try_else {A B} (m : M S A) (k : A → M S B) h :
  Preserves R m → (∀ a, Preserves R (k a)) → (∀ e, Preserves R (h e)) →
  Preserves R (try_else m k h).
Proof.
  intros Hm Hk Hf s. specialize (Hm s). unfold try_else.
  destruct (m s) as [[a|e|w] s']; simpl in *; [| |done];
    (etrans; [done|]); [apply Hk|apply Hf].
Qed.
#[export] Instance preserves_try_finally {A} (m : M S A) f :
  Preserves R m → Preserves R f → Preserves R (try_finally m f).
Proof.
  intros Hm Hf s. specialize (Hm s). unfold try_finally.
  destruct (m s) as [[a|e|w] s']; simpl in *; [| |done];
    (etrans; [done|]); specialize (Hf s'); by destruct (f s') as [[]?].
Qed.
#[export] Instance preserves_try_finally_return {A B} (m : M S A) (f : res A → M S B) :
  Preserves R m → (∀ r, Preserves R (f r)) → Preserves R (try_finally_return m f).
Proof.
  intros Hm Hf s. specialize (Hm s). unfold try_finally_return.
  destruct (m s) as [[a|e|w] s']; simpl in *; [| |done];
    (etrans; [done|]); apply Hf.
Qed.
#[export] Instance preserves_for {A} (l : list A) body :
  (∀ x, Preserves R (body x)) → Preserves R (for_ l body).
Proof. intros H. induction l; simpl; apply _. Qed.
#[export] Instance preserves_mapM {A B} (l : list A) (f : A → M S B) :
  (∀ x, Preserves R (f x)) → Preserves R (mapM_ f l).
Proof. intros H. induction l; simpl; apply _. Qed.
End preserves.

(** Branches of the program are followed by case analysis. *)
#[export] Hint Extern 5 (Preserves _ (match ?x with _ => _ end)) =>
  destruct x : typeclass_instances.
#[export] Hint Mode Preserves + + + ! : typeclass_instances.

(** One symbolic step of a [wp] goal. *)
Ltac wp_step :=
  lazymatch goal with
  | |- wp (mret _) _ _ => apply wp_ret
  | |- wp (raise _) _ _ => apply wp_raise
  | |- wp (gets _) _ _ => apply wp_gets
  | |- wp (modify _) _ _ => apply wp_modify
  | |- wp (lift _) _ _ => apply wp_lift
  | |- wp (assert_ _ _) _ _ => apply wp_assert; intros ?
  | |- wp (when _ _) _ _ => apply wp_when; intros ?
  | |- wp (_ ≫= _) _ _ => apply wp_bind
  | |- wp (try_except _ _) _ _ => apply wp_try_except
  | |- wp (try_else _ _ _) _ _ => apply wp_try_else
  | |- wp (try_finally _ _) _ _ => apply wp_try_finally
  | |- wp (match ?x with _ => _ end) _ _ => destruct x eqn:?
  end.
Ltac wp_steps := repeat (wp_step; simpl).

(** ** What a computation returns, from any state *)

(** Partial: if [m] returns, its value satisfies [P].  Total: [m] returns,
    and its value satisfies [P]. *)
Definition returns {S A} (m : M S A) (P : A → Prop) : Prop :=
  ∀ s, match (m s).1 with Ok v => P v | _ => True end.
Definition total {S A} (m : M S A) (P : A → Prop) : Prop :=
  ∀ s, ∃ v s', m s = (Ok v, s') ∧ P v.

Section returns.
Context {S : Type}.

Lemma total_returns {A} (m : M S A) P : total m P → returns m P.
Proof. intros H s. destruct (H s) as (v & s' & -> & Hv). done. Qed.

Lemma returns_ret {A} (a : A) (P : A → Prop) : P a → returns (mret a : M S A) P.
Proof. intros H s. done. Qed.
Lemma returns_raise {A} e (P : A → Prop) : returns (raise e : M S A) P.
Proof. intros s. done. Qed.
Lemma returns_bind {A B} (m : M S A) (f : A → M S B) P Q :
  returns m P → (∀ a, P a → returns (f a) Q) → returns (m ≫= f) Q.
Proof.
  intros Hm Hf s. specialize (Hm s). unfold mbind, M_bind.
  destruct (m s) as [[a|e|w] s']; simpl in *; [by apply Hf|done..].
Qed.
Lemma returns_mono {A} (m : M S A) (P Q : A → Prop) :
  returns m P → (∀ a, P a → Q a) → returns m Q.
Proof. intros Hm HPQ s. specialize (Hm s). destruct (m s).1; auto. Qed.

Lemma returns_bind_eq {A B} (m : M S A) (f : A → M S B) v s :
  returns m (λ a, a = v) → (m ≫= f) s = (m ≫= λ _, f v) s.
Proof.
  intros Hm. specialize (Hm s). unfold mbind, M_bind.
  destruct (m s) as [[a|e|w] s']; simpl in *; by subst.
Qed.

Lemma returns_mapM {A B} (f : A → M S B) l P :
  Forall (λ x, returns (f x) P) l → returns (mapM_ f l) (Forall P).
Proof.
  induction 1 as [|x l Hx _ IH]; simpl; [by apply returns_ret|].
  eapply returns_bind; [apply Hx|]. intros y Hy.
  eapply returns_bind; [apply IH|]. intros ys Hys. apply returns_ret. by constructor.
Qed.

Lemma mapM_length {A B} (f : A → M S B) l : returns (mapM_ f l) (λ k, length k = length l).
Proof.
  induction l as [|x l IH]; simpl; [by apply returns_ret|].
  eapply (returns_bind _ _ (λ _, True)); [intros s; by destruct (f x s).1|].
  intros y _. eapply returns_bind; [apply IH|]. intros ys Hys. apply returns_ret.
  simpl. by rewrite Hys.
Qed.

Lemma total_ret {A} (a : A) (P : A → Prop) : P a → total (mret a : M S A) P.
Proof. intros H s. by eexists _, _. Qed.
Lemma total_bind {A B} (m : M S A) (f : A → M S B) P Q :
  total m P → (∀ a, P a → total (f a) Q) → total (m ≫= f) Q.
Proof.
  intros Hm Hf s. destruct (Hm s) as (a & s' & E & Ha). unfold mbind, M_bind.
  rewrite E. by apply Hf.
Qed.
Lemma total_mono {A} (m : M S A) (P Q : A → Prop) :
  total m P → (∀ a, P a → Q a) → total m Q.
Proof. intros Hm HPQ s. destruct (Hm s) as (a & s' & E & Ha). eauto. Qed.

Lemma total_mapM {A B} (f : A → M S B) l P :
  Forall (λ x, total (f x) P) l → total (mapM_ f l) (λ ys, length ys = length l ∧ Forall P ys).
Proof.
  induction 1 as [|x l Hx _ IH]; simpl; [by apply total_ret|].
  eapply total_bind; [apply Hx|]. intros y Hy.
  eapply total_bind; [apply IH|]. intros ys [Hl Hys]. apply total_ret.
  split; [simpl; lia|by constructor].
Qed.
End returns.

(** ** Two computations with the same effects *)

(** [sim P m1 m2]: from any state both end in the same state, with the same
    exception or with results related by [P]. *)
Definition sim {S A B} (P : A → B → Prop) (m1 : M S A) (m2 : M S B) : Prop := ∀ s,
  (m1 s).2 = (m2 s).2 ∧
  match (m1 s).1, (m2 s).1 with
  | Ok a, Ok b => P a b
  | Exc e, Exc e' => e = e'
  | Stuck w, Stuck w' => w = w'
  | _, _ => False
  end.

Section sim.
Context {S : Type}.

Lemma sim_refl {A} (m : M S A) (P : A → A → Prop) : returns m (λ a, P a a) → sim P m m.
Proof.
  intros Hm s. split; [done|]. specialize (Hm s). by destruct (m s).1.
Qed.

Lemma sim_same {A} (m : M S A) : sim eq m m.
Proof. apply sim_refl. intros s. by destruct (m s).1. Qed.

Lemma sim_eq {A} (m1 m2 : M S A) s : sim eq m1 m2 → m1 s = m2 s.
Proof.
  intros Hm. destruct (Hm s) as [E Hr].
  destruct (m1 s) as [[a|e|w] s1], (m2 s) as [[b|f|v] s2]; simpl in *; subst; done.
Qed.

Lemma sim_ret {A B} (P : A → B → Prop) a b : P a b → sim P (mret a : M S A) (mret b).
Proof. intros HP s. done. Qed.

Lemma sim_bind {A B C D} (P : A → B → Prop) (Q : C → D → Prop)
    (m1 : M S A) (m2 : M S B) f1 f2 :
  sim P m1 m2 → (∀ a b, P a b → sim Q (f1 a) (f2 b)) → sim Q (m1 ≫= f1) (m2 ≫= f2).
Proof.
  intros Hm Hf s. specialize (Hm s). unfold mbind, M_bind.
  destruct (m1 s) as [[a|e|w] s1], (m2 s) as [[b|e'|w'] s2], Hm as [E HP]; simpl in *;
    subst; try done. by apply Hf.
Qed.

Lemma sim_mapM {A B C D} (P : A → B → Prop) (Q : C → D → Prop)
    (f : A → M S C) (g : B → M S D) l k :
  (∀ a b, P a b → sim Q (f a) (g b)) → Forall2 P l k →
  sim (Forall2 Q) (mapM_ f l) (mapM_ g k).
Proof.
  intros Hf. induction 1 as [|a b l k Hab _ IH]; [by apply sim_ret|]. cbn [mapM_].
  eapply sim_bind; [by apply Hf|]. intros c d Hcd.
  eapply sim_bind; [apply IH|]. intros cs ds Hcds. apply sim_ret. by constructor.
Qed.
End sim.
