(* ===== verification/Argparse.v ===== *)
(** * Command-line arguments

    What the [argparse] module of Python's library needs to know about an
    option, and what the scripts and suites rely on after parsing: every
    destination has its default or an admissible value.  Also how Python binds
    keyword arguments to the parameters of a function.  Used by the script of
    the CI/CD pipelines (Cicd) and by the entry modules (Entry). *)
From S2P Require Import Prelude PyStr PyDict PyMonad.
Local Open Scope Z_scope.

(** A value of the namespace of [parse_args] *)
Inductive pyval := PNone | PBool (b : bool) | PStr (s : string) | PInt (n : Z) | PList (l : list string).
Definition truth (v : pyval) : bool :=
  match v with
  | PNone => false
  | PBool b => b
  | PStr s => negb (String.eqb s EmptyString)
  | PInt n => negb (n =? 0)
  | PList l => negb (bool_decide (l = []))
  end.
#[export] Instance pyval_eq_dec : EqDecision pyval.
Proof. solve_decision. Defined.

(** [str(v)]; the texts of a list have no quotes. *)
Definition py_str (v : pyval) : string :=
  match v with
  | PNone => "None" | PBool true => "True" | PBool false => "False"
  | PStr s => s
  | PInt n => str_Z n
  | PList l => "[" +:+ join ", " ((λ s, "'" +:+ s +:+ "'") <$> l) +:+ "]"
  end.

Inductive action := Store | StoreTrue | Append.
Record argument := mkArgument {
  flags : list string; dest : string; arg_action : action; arg_default : pyval;
  choices : option (list string)
}.

(** [dest] of an option without one: the text of its flag *)
Definition flag_dest (flag : string) : string := replace "-" "_" (str_drop 2 flag).

(** What [parse_args] puts into the namespace: the default, [True] for a flag
    without a value, or a given text or texts, out of the choices if there are
    any. *)
Definition admissible (a : argument) (v : pyval) : Prop :=
  let chosen s := match choices a with Some l => s ∈ l | None => True end in
  v = arg_default a ∨
  match arg_action a, v with
  | StoreTrue, PBool b => b = true
  | Store, PStr s => chosen s
  | Append, PList l => l ≠ [] ∧ Forall chosen l
  | _, _ => False
  end.
Definition namespace : Type := dict string pyval.
Definition parsed_by (parser : list argument) (args : namespace) : Prop :=
  Forall (λ a, ∃ v, dget (dest a) args = Some v ∧ admissible a v) parser.
Definition dests (parser : list argument) : list string := dest <$> parser.

(** ** Binding keyword arguments *)

(** The parameters of a function, those without and those with a default *)
Record signature := mkSignature { required : list string; optional : list string }.

(** A call with the keyword arguments [given] *)
Definition bind_args (f : signature) (given : list string) : res unit :=
  match filter (λ k, k ∉ required f ++ optional f) given with
  | k :: _ => Exc (TypeError ("got an unexpected keyword argument '" +:+ k +:+ "'"))
  | [] =>
      match filter (λ k, k ∉ given) (required f) with
      | [] => Ok tt
      | l => Exc (TypeError ("missing required positional arguments: " +:+ join ", " l))
      end
  end.

Lemma filter_nil_Forall {A} (P : A → Prop) `{!∀ x, Decision (P x)} (l : list A) :
  filter P l = [] ↔ Forall (λ x, ¬ P x) l.
Proof.
  rewrite Forall_forall. split.
  - intros E x Hx HP. assert (x ∈ filter P l) as Hin by by apply list_elem_of_filter.
    rewrite E in Hin. by apply not_elem_of_nil in Hin.
  - intros Hn. destruct (filter P l) as [|x k] eqn:E; [done|]. exfalso.
    assert (x ∈ filter P l) as [HP Hx]%list_elem_of_filter by (rewrite E; left).
    by apply (Hn x).
Qed.

(** A call binds exactly when nothing unknown is given and nothing required
    is missing. *)
Lemma bind_args_ok f given :
  bind_args f given = Ok tt ↔
  (∀ k, k ∈ given → k ∈ required f ++ optional f) ∧ (∀ k, k ∈ required f → k ∈ given).
Proof.
  unfold bind_args. set (u := filter _ given). set (m := filter _ (required f)).
  assert (Hu : u = [] ↔ ∀ k, k ∈ given → k ∈ required f ++ optional f).
  { unfold u. rewrite filter_nil_Forall, Forall_forall. split; intros H k Hk; [|auto].
    apply dec_stable. by apply H. }
  assert (Hm : m = [] ↔ ∀ k, k ∈ required f → k ∈ given).
  { unfold m. rewrite filter_nil_Forall, Forall_forall. split; intros H k Hk; [|auto].
    apply dec_stable. by apply H. }
  rewrite <-Hu, <-Hm. destruct u, m; naive_solver.
Qed.

Lemma bind_args_total f given : bind_args f given = Ok tt ∨ ∃ e, bind_args f given = Exc (TypeError e).
Proof. unfold bind_args. repeat case_match; eauto. Qed.
