(* ===== verification/Sql.v ===== *)
(** * Punctuation of SQL text

    A specification-level reading of the SQL that the framework prints: a
    scanner that tracks brackets and quotes, the class of [closed]
    expressions (balanced, with no comma outside brackets) and the splitting
    of a list at its top-level commas.  It says what it means for generated
    values and column definitions to be separate items of a list. *)
From S2P Require Import Prelude PyStr PyMonad.
From Stdlib Require Import Ascii.

(** [scan d q s]: read [s] at bracket depth [d], inside quotes when [q];
    [None] when a bracket closes below depth 0 or a comma is met at depth 0. *)
Fixpoint scan (d : nat) (q : bool) (s : string) : option (nat * bool) :=
  match s with
  | EmptyString => Some (d, q)
  | String c s =>
      if q then scan d (negb (bool_decide (c = "'"%char))) s
      else if bool_decide (c = "'"%char) then scan d true s
      else if bool_decide (c = "("%char) || bool_decide (c = "["%char) then scan (S d) false s
      else if bool_decide (c = ")"%char) || bool_decide (c = "]"%char)
           then match d with O => None | S d => scan d false s end
      else if bool_decide (c = ","%char) && (d =? 0)%nat then None
      else scan d false s
  end.

(** A balanced expression with no comma outside brackets and quotes. *)
Definition closed (s : string) : Prop := scan 0 false s = Some (0%nat, false).

#[export] Instance closed_dec s : Decision (closed s).
Proof. unfold closed. apply _. Defined.

(** The items of a list written with top-level commas. *)
Fixpoint split_top_go (d : nat) (q : bool) (cur s : string) : list string :=
  match s with
  | EmptyString => [cur]
  | String c s =>
      let cur' := cur +:+ String c EmptyString in
      if q then split_top_go d (negb (bool_decide (c = "'"%char))) cur' s
      else if bool_decide (c = "'"%char) then split_top_go d true cur' s
      else if bool_decide (c = "("%char) || bool_decide (c = "["%char)
           then split_top_go (S d) false cur' s
      else if bool_decide (c = ")"%char) || bool_decide (c = "]"%char)
           then split_top_go (d - 1) false cur' s
      else if bool_decide (c = ","%char) && (d =? 0)%nat
           then cur :: split_top_go 0 false EmptyString s
      else split_top_go d false cur' s
  end.
Definition split_top (s : string) : list string := split_top_go 0 false EmptyString s.

(** Characters that the scanner passes over. *)
Definition plain_char (c : ascii) : bool :=
  negb (bool_decide (c ∈ ["'"; "("; "["; ")"; "]"; ","]%char)).
Definition plain (s : string) : bool := str_forallb plain_char s.

(** Characters allowed between quotes. *)
Definition quotable (s : string) : bool :=
  str_forallb (λ c, negb (bool_decide (c = "'"%char))) s.

Section scan_facts.
Implicit Types (s t : string) (d k : nat) (b : bool).

Lemma scan_app d b s t :
  scan d b (s +:+ t) = scan d b s ≫= λ '(d', b'), scan d' b' t.
Proof.
  revert d b. induction s as [|c s IH]; intros d b; [done|].
  rewrite str_app_cons. cbn [scan]. destruct b; [apply IH|].
  repeat case_match; simpl; try done; apply IH.
Qed.

(** A run that succeeds at depth [d] succeeds below any number of open
    brackets. *)
Lemma scan_deeper k d b s d' b' :
  scan d b s = Some (d', b') → scan (k + d) b s = Some ((k + d')%nat, b').
Proof.
  revert d b. induction s as [|c s IH]; intros d b; cbn [scan].
  { intros [= -> ->]. done. }
  destruct b; [apply IH|].
  destruct (bool_decide (c = "'"%char)); [apply IH|].
  destruct (_ || _).
  { intros H. rewrite <-(IH _ _ H). f_equal. lia. }
  destruct (_ || _).
  { destruct d as [|d]; [done|]. rewrite Nat.add_succ_r. apply IH. }
  destruct (bool_decide (c = ","%char)); simpl; [|apply IH].
  destruct (Nat.eqb_spec d 0); [done|]. intros H.
  destruct (Nat.eqb_spec (k + d) 0); [lia|]. by apply IH.
Qed.

Lemma scan_closed d s : closed s → scan d false s = Some (d, false).
Proof. intros H. apply (scan_deeper d) in H. by rewrite Nat.add_0_r in H. Qed.

Lemma scan_plain d s : plain s = true → scan d false s = Some (d, false).
Proof.
  unfold plain. induction s as [|c s IH]; [done|]. cbn [str_forallb scan].
  rewrite andb_true_iff. unfold plain_char at 1.
  rewrite negb_true_iff, bool_decide_eq_false, !not_elem_of_cons.
  intros [(H1 & H2 & H3 & H4 & H5 & H6 & _) Hs].
  rewrite !bool_decide_eq_false_2 by done. by apply IH.
Qed.

Lemma scan_quotable d s t :
  quotable s = true → scan d true (s +:+ String "'" t) = scan d false t.
Proof.
  unfold quotable. induction s as [|c s IH]; [done|]. cbn [str_forallb].
  intros [Hc Hs]%andb_true_iff. rewrite str_app_cons. cbn [scan].
  rewrite Hc. by apply IH.
Qed.

Lemma closed_app s t : closed s → closed t → closed (s +:+ t).
Proof. unfold closed. intros Hs Ht. by rewrite scan_app, Hs. Qed.

Lemma closed_plain s : plain s = true → closed s.
Proof. apply scan_plain. Qed.

Lemma closed_quoted s : quotable s = true → closed ("'" +:+ s +:+ "'").
Proof.
  intros H. change (scan 0 true (s +:+ String "'" EmptyString) = Some (0%nat, false)).
  by rewrite scan_quotable.
Qed.

(** The inside of a bracket may hold commas. *)
Definition inner (s : string) : Prop := scan 1 false s = Some (1%nat, false).

Lemma inner_closed s : closed s → inner s.
Proof. apply (scan_closed 1). Qed.
Lemma inner_app s t : inner s → inner t → inner (s +:+ t).
Proof. unfold inner. intros Hs Ht. by rewrite scan_app, Hs. Qed.
Lemma inner_comma : inner ",".
Proof. done. Qed.

Lemma inner_join l : Forall closed l → inner (join "," l).
Proof.
  induction 1 as [|s l Hs _ IH]; [done|].
  destruct l as [|t l]; [by apply inner_closed|].
  rewrite join_cons by done. apply inner_app; [by apply inner_closed|].
  by apply inner_app.
Qed.

Lemma closed_paren s : inner s → closed ("(" +:+ s +:+ ")").
Proof.
  unfold inner. intros H. change (scan 1 false (s +:+ ")") = Some (0%nat, false)).
  by rewrite scan_app, H.
Qed.
Lemma closed_bracket s : inner s → closed ("[" +:+ s +:+ "]").
Proof.
  unfold inner. intros H. change (scan 1 false (s +:+ "]") = Some (0%nat, false)).
  by rewrite scan_app, H.
Qed.

(** [f(s)] for a plain function name *)
Lemma closed_call f s : closed f → inner s → closed (f +:+ "(" +:+ s +:+ ")").
Proof. intros Hf Hs. apply closed_app; [done|]. by apply closed_paren. Qed.

Lemma split_top_go_app d b cur s t d' :
  scan d b s = Some (d', false) →
  split_top_go d b cur (s +:+ t) = split_top_go d' false (cur +:+ s) t.
Proof.
  revert d b cur. induction s as [|c s IH]; intros d b cur; cbn [scan].
  { intros [= -> ->]. by rewrite str_app_nil_r. }
  rewrite str_app_cons. cbn [split_top_go]. intros H.
  replace (cur +:+ String c s) with ((cur +:+ String c EmptyString) +:+ s)
    by (by rewrite str_app_assoc).
  destruct b; [by apply IH|].
  destruct (bool_decide (c = "'"%char)); [by apply IH|].
  destruct (_ || _); [by apply IH|].
  destruct (_ || _).
  { destruct d as [|d]; [done|]. simpl. rewrite Nat.sub_0_r. by apply IH. }
  destruct (bool_decide (c = ","%char) && _) eqn:E; [done|]. by apply IH.
Qed.

(** Splitting a comma separated list of closed items gives them back. *)
Lemma split_top_join l : l ≠ [] → Forall closed l → split_top (join "," l) = l.
Proof.
  intros Hne Hl. unfold split_top. induction Hl as [|s l Hs Hl IH]; [done|].
  destruct l as [|t l].
  - simpl. rewrite <-(str_app_nil_r s) at 1.
    by rewrite (split_top_go_app _ _ _ _ _ 0).
  - rewrite join_cons by done. rewrite (split_top_go_app _ _ _ _ _ 0) by done.
    change ("," +:+ ?x) with (String "," x). cbn [split_top_go]. simpl.
    f_equal. by apply IH.
Qed.
End scan_facts.

#[export] Hint Resolve closed_app closed_plain closed_quoted inner_closed inner_app
  inner_comma inner_join closed_paren closed_bracket closed_call : pyres.

Lemma plain_app s t : plain (s +:+ t) = plain s && plain t.
Proof. apply str_forallb_app. Qed.

Lemma plain_digits s : str_forallb is_digit s = true → plain s = true.
Proof.
  apply str_forallb_mono. intros c Hc. unfold plain_char.
  apply negb_true_iff, bool_decide_eq_false. intros Hin.
  set_unfold in Hin. by destruct_or! Hin; subst.
Qed.

Lemma plain_str_Z n : plain (str_Z n) = true.
Proof.
  destruct (Z.lt_ge_cases n 0).
  - rewrite str_Z_neg by done. unfold plain. cbn [str_forallb].
    apply plain_digits, str_Z_nonneg. lia.
  - apply plain_digits, str_Z_nonneg. lia.
Qed.

Lemma plain_repeat n s : plain s = true → plain (str_repeat n s) = true.
Proof. apply str_forallb_repeat. Qed.

#[export] Hint Resolve plain_str_Z plain_repeat : pyres.
#[export] Hint Rewrite plain_app plain_str_Z : py.
