(* ===== verification/Version.v ===== *)
(** * ClickHouse version checks

    [check_clickhouse_version] of helpers/common.py (the test framework's
    gate for version dependent behaviour), [get_snapshot_id] that uses it, and
    the version that [Cluster.__init__] reads off a docker image tag. *)
From S2P Require Import Prelude PyStr PyMonad.
From Stdlib Require Import Ascii.
Local Open Scope Z_scope.

(** ** Python's order on lists of integers *)

Fixpoint list_lt (l k : list Z) : bool :=
  match l, k with
  | [], [] => false
  | [], _ :: _ => true
  | _ :: _, [] => false
  | x :: l, y :: k => (x <? y) || ((x =? y) && list_lt l k)
  end.
Definition list_eq (l k : list Z) : bool := bool_decide (l = k).
Definition list_le (l k : list Z) : bool := list_lt l k || list_eq l k.

(** ** check_clickhouse_version *)

Section check.
(** [version.translate({ord(i): None for i in "<>="})] *)
Definition is_operator (c : ascii) : bool :=
  bool_decide (c = "<"%char) || bool_decide (c = ">"%char) ||
  bool_decide (c = "="%char).
Definition strip_operators (version : string) : string :=
  str_filter (λ c, negb (is_operator c)) version.

(** The loop over [enumerate(clickhouse_version_list)] for a list of [len]
    parts: the value of [index] when it ends, reached with [index] as its
    value so far and the parts [l] from position [i] on still to visit. *)
Fixpoint scan_index (len i : nat) (index : nat) (l : list string) : nat :=
  match l with
  | [] => index
  | part :: l =>
      if negb (isnumeric part) then i
      else if (i =? len - 1)%nat then scan_index len (S i) (S i) l
      else scan_index len (S i) i l
  end.

(** [[int(i) for i in l[0:index]]] *)
Definition int_parts (index : nat) (l : list string) : res (list Z) :=
  res_mapM (λ i, or_raise (ValueError i) (py_int i)) (take index l).

Definition compare_versions (version : string)
    (clickhouse_version_list version_list : list Z) : bool :=
  if startswith "==" version then list_eq clickhouse_version_list version_list
  else if startswith ">=" version then list_le version_list clickhouse_version_list
  else if startswith "<=" version then list_le clickhouse_version_list version_list
  else if startswith "=" version then list_eq clickhouse_version_list version_list
  else if startswith ">" version then list_lt version_list clickhouse_version_list
  else if startswith "<" version then list_lt clickhouse_version_list version_list
  else list_eq clickhouse_version_list version_list.

(** [check_clickhouse_version(version)(test)], where [clickhouse_version] is
    the attribute of [test.context], [None] when absent. *)
Definition check_clickhouse_version (version : string)
    (clickhouse_version : option string) : res bool :=
  match clickhouse_version with
  | None => Ok false
  | Some clickhouse_version =>
      let version_list := split "." (strip_operators version) in
      let clickhouse_version_list := split "." clickhouse_version in
      let index := scan_index (length clickhouse_version_list) 0 0
                     clickhouse_version_list in
      if (index =? 0)%nat
      then Exc (ValueError "failed to parse version")
      else
        version_list ← int_parts index version_list;
        clickhouse_version_list ← int_parts index clickhouse_version_list;
        Ok (compare_versions version clickhouse_version_list version_list)
  end.

(** [get_snapshot_id(snapshot_id, clickhouse_version)], where [test_name] is
    the basename of the current test and [context_version] its context's
    version. *)
Definition get_snapshot_id (test_name : string) (context_version : option string)
    (snapshot_id clickhouse_version : option string) : res string :=
  id_postfix ← (match clickhouse_version with
    | Some v =>
        if String.eqb v EmptyString then Ok EmptyString
        else
          b ← check_clickhouse_version v context_version;
          Ok (if (b : bool) then v else EmptyString)
    | None => Ok EmptyString
    end : res string);
  match snapshot_id with
  | None => Ok (test_name +:+ id_postfix)
  | Some id => Ok id
  end.

(** The version part of a docker image tag in [Cluster.__init__]: the
    longest prefix of digits and dots of what follows the last colon, when
    it neither starts nor ends with a dot. *)
Definition is_version_char (c : ascii) : bool :=
  is_digit c || bool_decide (c = "."%char).
Fixpoint take_version_chars (s : string) : string :=
  match s with
  | EmptyString => EmptyString
  | String c s =>
      if is_version_char c then String c (take_version_chars s) else EmptyString
  end.
Definition docker_version (clickhouse_version : option string)
    (clickhouse_binary_path : string) : option string :=
  match clickhouse_version with
  | Some v => Some v
  | None =>
      let parsed_version :=
        take_version_chars (after_last ":" clickhouse_binary_path) in
      if String.eqb parsed_version EmptyString then None
      else if startswith "." parsed_version || endswith "." parsed_version
      then None else Some parsed_version
  end.
End check.

Example check_1 : check_clickhouse_version ">=22.8" (Some "22.8.11.17.altinityfips") = Ok true.
Proof. by_compute. Qed.
Example check_2 : check_clickhouse_version "<=22.8" (Some "22.8.11.17") = Ok false.
Proof. by_compute. Qed.
Example check_3 : check_clickhouse_version "<22.8" (Some "head") = Exc (ValueError "failed to parse version").
Proof. by_compute. Qed.
Example check_4 : docker_version None "docker://clickhouse/clickhouse-server:22.3.6.5-alpine" = Some "22.3.6.5".
Proof. by_compute. Qed.

(** ** Order facts *)

Section order_facts.
Lemma list_lt_irrefl l : list_lt l l = false.
Proof. induction l as [|x l IH]; [done|]. simpl. by rewrite Z.ltb_irrefl, Z.eqb_refl, IH. Qed.

Lemma list_lt_asym l k : list_lt l k = true → list_lt k l = false.
Proof.
  revert k. induction l as [|x l IH]; intros [|y k]; try done. simpl.
  rewrite orb_true_iff, andb_true_iff, Z.ltb_lt, Z.eqb_eq.
  rewrite orb_false_iff, Z.ltb_ge. intros [H|[-> H]].
  - split; [lia|]. by replace (y =? x) with false by lia.
  - split; [lia|]. rewrite Z.eqb_refl. simpl. auto.
Qed.

Lemma list_lt_total l k : list_lt l k = false → list_lt k l = false → l = k.
Proof.
  revert k. induction l as [|x l IH]; intros [|y k]; try done. simpl.
  rewrite !orb_false_iff, !Z.ltb_ge. intros [H1 H2] [H3 H4].
  assert (x = y) as -> by lia. rewrite Z.eqb_refl in *. f_equal. auto.
Qed.

Lemma list_le_negb_lt l k : list_le l k = negb (list_lt k l).
Proof.
  unfold list_le, list_eq. destruct (list_lt l k) eqn:H; simpl.
  - by rewrite (list_lt_asym _ _ H).
  - case_bool_decide; subst.
    + by rewrite list_lt_irrefl.
    + symmetry. apply negb_false_iff. destruct (list_lt k l) eqn:H'; [done|].
      by destruct (list_lt_total _ _ H H').
Qed.

Lemma list_eq_negb_lt l k : list_eq l k = negb (list_lt l k) && negb (list_lt k l).
Proof.
  unfold list_eq. case_bool_decide as H.
  - subst. by rewrite list_lt_irrefl.
  - symmetry. apply andb_false_iff.
    destruct (list_lt l k) eqn:H1; [by left|]. destruct (list_lt k l) eqn:H2; [by right|].
    by destruct (list_lt_total _ _ H1 H2).
Qed.

(** [>= [a, b]] and [< [a, b + 1]] select the lists that start with [a, b]. *)
Lemma list_range_two a b l :
  (2 <= length l)%nat →
  list_le [a; b] l && list_lt l [a; b + 1] = bool_decide (take 2 l = [a; b]).
Proof.
  destruct l as [|x [|y l]]; simpl; try lia. intros _.
  rewrite list_le_negb_lt. simpl.
  assert (∀ k : list Z, list_lt k [] = false) as Hk by (by intros []).
  rewrite !Hk, !andb_false_r, !orb_false_r. case_bool_decide as H.
  - simplify_eq. rewrite !Z.ltb_irrefl, !Z.eqb_refl. simpl.
    lia.
  - assert (x ≠ a ∨ y ≠ b) as Hxy by (destruct (decide (x = a)), (decide (y = b));
      subst; [done|by right|by left|by left]).
    destruct (Z.ltb_spec x a), (Z.eqb_spec x a), (Z.ltb_spec y b),
      (Z.ltb_spec y (b + 1)); simpl; try done; lia.
Qed.
End order_facts.

(** ** The loop of check_clickhouse_version *)

(** The leading parts that are numeric. *)
Fixpoint numeric_prefix (l : list string) : list string :=
  match l with
  | part :: l => if isnumeric part then part :: numeric_prefix l else []
  | [] => []
  end.

Lemma scan_index_spec (i idx : nat) l :
  l ≠ [] →
  scan_index (i + length l) i idx l = (i + length (numeric_prefix l))%nat.
Proof.
  revert i idx. induction l as [|part l IH]; intros i idx Hne; [done|].
  simpl. destruct (isnumeric part); simpl; [|lia].
  destruct (Nat.eqb_spec i (i + S (length l) - 1)).
  - destruct l; simpl in *; lia.
  - destruct l as [|part' l]; [simpl in *; lia|].
    replace (i + S (length (part' :: l)))%nat
      with (S i + length (part' :: l))%nat by (simpl; lia).
    rewrite IH by done. simpl. lia.
Qed.

Lemma scan_index_parts cv :
  let l := split "." cv in
  scan_index (length l) 0 0 l = length (numeric_prefix l).
Proof. apply (scan_index_spec 0 0), split_ne_nil. Qed.

Lemma take_numeric_prefix l : take (length (numeric_prefix l)) l = numeric_prefix l.
Proof. induction l as [|p l IH]; [done|]. simpl. destruct (isnumeric p); simpl; [by rewrite IH|done]. Qed.

Definition no_operators (v : string) : bool :=
  str_forallb (λ c, negb (is_operator c)) v.

Lemma strip_operators_id v : no_operators v = true → strip_operators v = v.
Proof.
  unfold no_operators, strip_operators. induction v as [|c v IH]; [done|]. simpl.
  intros [-> Hv]%andb_true_iff. by rewrite IH.
Qed.

Lemma compare_versions_operators v l k :
  no_operators v = true →
  compare_versions ("<" +:+ v) l k = list_lt l k ∧
  compare_versions (">" +:+ v) l k = list_lt k l ∧
  compare_versions (">=" +:+ v) l k = negb (list_lt l k) ∧
  compare_versions ("<=" +:+ v) l k = negb (list_lt k l) ∧
  compare_versions ("=" +:+ v) l k = list_eq l k ∧
  compare_versions ("==" +:+ v) l k = list_eq l k ∧
  compare_versions v l k = list_eq l k.
Proof.
  intros Hv. unfold compare_versions, startswith. rewrite !list_le_negb_lt.
  assert (Hp : ∀ c w, is_operator c = true → String.prefix (String c w) v = false).
  { intros c w Hc. destruct v as [|d v]; [done|]. rewrite prefix_cons.
    destruct (Ascii.eqb_spec c d); [|done].
    subst. unfold no_operators in Hv. simpl in Hv. by rewrite Hc in Hv. }
  rewrite !str_app_cons, !str_app_nil_l, !prefix_cons, !prefix_nil. simpl.
  by rewrite !Hp.
Qed.

(** ** Dotted versions *)

Definition dotted (l : list Z) : string := join "." (str_Z <$> l).

Lemma split_dotted l :
  l ≠ [] → Forall (λ n, 0 <= n) l → split "." (dotted l) = str_Z <$> l.
Proof.
  unfold dotted. induction l as [|n l IH]; [done|]. intros _ Hl.
  apply Forall_cons in Hl as [Hn Hl]. destruct (str_Z_nonneg n Hn) as (Hd & _ & _).
  destruct l as [|m l].
  - simpl. apply split_char_none. eauto with pyres.
  - rewrite fmap_cons, join_cons by done. change ("." +:+ ?x) with (String "." x).
    rewrite split_char_app by eauto with pyres. f_equal. by apply IH.
Qed.

Lemma int_parts_str_Z n l rest :
  Forall (λ n, 0 <= n) l → (n <= length l)%nat →
  int_parts n ((str_Z <$> l) ++ rest) = Ok (take n l).
Proof.
  intros Hl Hn. unfold int_parts.
  rewrite take_app_le by (rewrite length_fmap; lia). rewrite <-fmap_take.
  apply res_mapM_ok. apply Forall2_fmap_l. apply Forall_Forall2_diag.
  eapply Forall_impl; [by apply Forall_take|]. intros m Hm. simpl.
  by rewrite py_int_str_Z.
Qed.

Lemma int_parts_str_Z_all n l :
  Forall (λ n, 0 <= n) l → int_parts n (str_Z <$> l) = Ok (take n l).
Proof.
  intros Hl. destruct (decide (n <= length l)%nat).
  - rewrite <-(app_nil_r (str_Z <$> l)). by apply int_parts_str_Z.
  - unfold int_parts. rewrite !take_ge by (rewrite ?length_fmap; lia).
    rewrite <-(app_nil_r (str_Z <$> l)).
    pose proof (int_parts_str_Z (length l) l [] Hl ltac:(lia)) as H.
    unfold int_parts in H. rewrite take_ge in H by (rewrite length_app, length_fmap; simpl; lia).
    rewrite H. by rewrite take_ge.
Qed.

Lemma numeric_prefix_str_Z l rest :
  Forall (λ n, 0 <= n) l → numeric_prefix rest = [] →
  numeric_prefix ((str_Z <$> l) ++ rest) = str_Z <$> l.
Proof.
  intros Hl Hr. induction Hl as [|n l Hn _ IH]; [done|].
  destruct (str_Z_nonneg n Hn) as (Hd & Hne & _).
  rewrite fmap_cons. cbn [app numeric_prefix].
  by rewrite digits_isnumeric, IH by done.
Qed.

Lemma is_digit_not_operator c : is_digit c = true → is_operator c = false.
Proof.
  intros H. unfold is_operator. by repeat case_bool_decide; subst.
Qed.

Lemma no_operators_dotted l : Forall (λ n, 0 <= n) l → no_operators (dotted l) = true.
Proof.
  unfold dotted, no_operators. intros Hl. induction Hl as [|n l Hn Hl IH]; [done|].
  assert (str_forallb (λ c, negb (is_operator c)) (str_Z n) = true).
  { eapply str_forallb_mono, str_Z_nonneg, Hn. intros c Hc.
    by rewrite is_digit_not_operator. }
  destruct l as [|m l]; [done|]. rewrite fmap_cons, join_cons by done.
  by rewrite !str_forallb_app, IH, H.
Qed.

(** The outcome of a check on a version whose numeric parts are [cs]. *)
Lemma check_parts op vs cv cs rest :
  op ∈ ["<"; ">"; "<="; ">="; "="; "=="; EmptyString] →
  vs ≠ [] → Forall (λ n, 0 <= n) vs →
  cs ≠ [] → Forall (λ n, 0 <= n) cs →
  split "." cv = (str_Z <$> cs) ++ rest → numeric_prefix rest = [] →
  check_clickhouse_version (op +:+ dotted vs) (Some cv) =
  Ok (compare_versions (op +:+ dotted vs) cs (take (length cs) vs)).
Proof.
  intros Hop Hvs Hv Hcs Hc Hsplit Hr. unfold check_clickhouse_version.
  assert (strip_operators (op +:+ dotted vs) = dotted vs) as ->.
  { transitivity (strip_operators (dotted vs)).
    - set_unfold in Hop. by destruct_or! Hop; subst.
    - by apply strip_operators_id, no_operators_dotted. }
  rewrite scan_index_parts, Hsplit, numeric_prefix_str_Z, length_fmap by done.
  destruct cs as [|c cs]; [done|].
  rewrite split_dotted, int_parts_str_Z_all, int_parts_str_Z by (done || simpl; lia).
  cbn [length]. rewrite (take_ge (c :: cs)) by done. done.
Qed.

(** ** Properties *)

(** C5: [check_clickhouse_version] computes the comparison it is named after.
    For a requested version written as dotted numbers [vs] after any of the
    seven operators, and a server version whose leading numeric parts are
    [cs] (a suffix such as [altinitystable] may follow), the check returns,
    without raising, the lexicographic comparison of [cs] with [vs] cut to
    the length of [cs]. *)
Theorem check_version_correct vs cv cs rest :
  vs ≠ [] → Forall (λ n, 0 <= n) vs →
  cs ≠ [] → Forall (λ n, 0 <= n) cs →
  split "." cv = (str_Z <$> cs) ++ rest → numeric_prefix rest = [] →
  let check op := check_clickhouse_version (op +:+ dotted vs) (Some cv) in
  let cut := take (length cs) vs in
  check "<" = Ok (list_lt cs cut) ∧
  check ">" = Ok (list_lt cut cs) ∧
  check "<=" = Ok (list_le cs cut) ∧
  check ">=" = Ok (list_le cut cs) ∧
  check "=" = Ok (list_eq cs cut) ∧
  check "==" = Ok (list_eq cs cut) ∧
  check EmptyString = Ok (list_eq cs cut).
Proof.
  intros Hvs Hv Hcs Hc Hsplit Hr check cut. subst check cut. cbv beta.
  rewrite !(check_parts _ vs cv cs rest) by (done || set_solver).
  pose proof (compare_versions_operators (dotted vs) cs (take (length cs) vs)
    (no_operators_dotted vs Hv)) as (E1 & E2 & E3 & E4 & E5 & E6 & E7).
  by rewrite E1, E2, E3, E4, E5, E6, str_app_nil_l, E7, !list_le_negb_lt.
Qed.

Lemma check_version_correct_witness :
  check_clickhouse_version (">=" +:+ dotted [22; 8]) (Some "22.8.11.altinitystable") =
    Ok true ∧
  check_clickhouse_version ("<=" +:+ dotted [22; 8]) (Some "22.8.11.altinitystable") =
    Ok false.
Proof.
  assert (H1 : [22; 8] ≠ []) by done.
  assert (H2 : Forall (λ n, 0 <= n) [22; 8]) by (repeat constructor; lia).
  assert (H3 : [22; 8; 11] ≠ []) by done.
  assert (H4 : Forall (λ n, 0 <= n) [22; 8; 11]) by (repeat constructor; lia).
  assert (H5 : split "." "22.8.11.altinitystable" =
    (str_Z <$> [22; 8; 11]) ++ ["altinitystable"]) by (vm_compute; reflexivity).
  destruct (check_version_correct [22; 8] "22.8.11.altinitystable" [22; 8; 11]
    ["altinitystable"] H1 H2 H3 H4 H5 eq_refl) as (_ & _ & E3 & E4 & _).
  split; [rewrite E4|rewrite E3]; vm_compute; reflexivity.
Defined.

(** A version gate of the form [>=a.b] and [<a.(b+1)], as the suites use
    it to mark one minor release, holds exactly on the servers whose version
    starts with [a.b]. *)
Lemma check_minor_release_gate a b cv cs rest :
  0 <= a → 0 <= b → (2 <= length cs)%nat → Forall (λ n, 0 <= n) cs →
  split "." cv = (str_Z <$> cs) ++ rest → numeric_prefix rest = [] →
  ∃ x y,
    check_clickhouse_version (">=" +:+ dotted [a; b]) (Some cv) = Ok x ∧
    check_clickhouse_version ("<" +:+ dotted [a; b + 1]) (Some cv) = Ok y ∧
    x && y = bool_decide (take 2 cs = [a; b]).
Proof.
  intros Ha Hb Hlen Hc Hsplit Hr.
  assert (cs ≠ []) by (destruct cs; simpl in *; [lia|done]).
  eexists _, _. rewrite <-list_range_two by done.
  rewrite !(check_parts _ _ cv cs rest) by
    (done || set_solver || (repeat constructor; lia)).
  split_and!; [done..|].
  rewrite !take_ge by done.
  assert (no_operators (dotted [a; b]) = true ∧
    no_operators (dotted [a; b + 1]) = true) as [N1 N2]
    by (split; apply no_operators_dotted; repeat constructor; lia).
  destruct (compare_versions_operators _ cs [a; b] N1) as (_ & _ & E1 & _).
  destruct (compare_versions_operators _ cs [a; b + 1] N2) as (E2 & _).
  by rewrite E1, E2, list_le_negb_lt.
Qed.

Lemma check_minor_release_gate_witness :
  ∃ x y,
    check_clickhouse_version (">=" +:+ dotted [21; 10]) (Some "21.10.5.3") = Ok x ∧
    check_clickhouse_version ("<" +:+ dotted [21; 10 + 1]) (Some "21.10.5.3") = Ok y ∧
    x && y = bool_decide (take 2 [21; 10; 5; 3] = [21; 10]).
Proof.
  apply (check_minor_release_gate 21 10 "21.10.5.3" [21; 10; 5; 3] []).
  - lia.
  - lia.
  - simpl; lia.
  - repeat constructor; lia.
  - vm_compute; reflexivity.
  - reflexivity.
Defined.
