(* ===== verification/DataTypes.v ===== *)
(** * ClickHouse data types of the test tables

    helpers/datatypes.py: one class per ClickHouse type, each able to print
    the SQL expression of its maximum, minimum, zero and a random value.  The
    class hierarchy is followed constructor by constructor: [DataType_init],
    [Int_init], [Float_init] and so on are the [__init__] of the base classes
    and [attrs] is the object that the [__init__] of each leaf class builds. *)
From S2P Require Import Prelude PyStr PyMonad Sql Version.
From Stdlib Require Import Ascii.
Local Open Scope Z_scope.
Local Set Warnings "-register-all".

(** ** Objects *)

(** The value of the attributes [max] and [min]: [None], an integer or a
    string. *)
Inductive attr := ANone | AInt (n : Z) | AStr (s : string).

(** [f"{a}"] *)
Definition attr_str (a : attr) : string :=
  match a with ANone => "None" | AInt n => str_Z n | AStr s => s end.

Record DataType := mkDataType {
  name : string;
  supports_low_cardinality : bool;
  is_valid_map_key : bool;
  is_numeric_ : bool;
  is_unsigned : bool;
  is_extended_precision : bool;
  max : attr;
  min : attr;
}.

(** [DataType.__init__] with its defaults for the trailing arguments. *)
Definition DataType_init (name : string)
    (supports_low_cardinality is_valid_map_key is_numeric is_unsigned
     is_extended_precision : bool) (max min : attr) : DataType :=
  mkDataType name supports_low_cardinality is_valid_map_key is_numeric
    is_unsigned is_extended_precision max min.

Definition Int_init (name : string) (max min : Z)
    (is_unsigned is_extended_precision : bool) : DataType :=
  DataType_init name true true true is_unsigned is_extended_precision
    (AInt max) (AInt min).

Definition UInt_init (name : string) (max : Z) (is_extended_precision : bool)
    : DataType :=
  Int_init name max 0 true is_extended_precision.

Definition Float_init (name max min : string) : DataType :=
  DataType_init name true false true false false (AStr max) (AStr min).

Definition Decimal_init (name max min : string) (is_extended_precision : bool)
    : DataType :=
  DataType_init name false false true false is_extended_precision
    (AStr max) (AStr min).

Definition Date_init (name max min : string)
    (supports_low_cardinality is_valid_map_key : bool) : DataType :=
  DataType_init name supports_low_cardinality is_valid_map_key false false false
    (AStr max) (AStr min).

Definition String_init (name max min : string) : DataType :=
  DataType_init name true true false false false (AStr max) (AStr min).

(** ** Classes *)

Inductive int_class := Int8 | Int16 | Int32 | Int64 | Int128 | Int256.
Inductive uint_class := UInt8 | UInt16 | UInt32 | UInt64 | UInt128 | UInt256.
Inductive decimal_class := Decimal32 | Decimal64 | Decimal128 | Decimal256.

(** An object of the hierarchy.  [TDateTime64] keeps the outcome of the
    version check made when the object is built. *)
Inductive datatype :=
  | TInt (c : int_class)
  | TUInt (c : uint_class)
  | TFloat32
  | TFloat64
  | TDecimal (c : decimal_class) (scale : Z)
  | TDate
  | TDate32
  | TDateTime
  | TDateTime64 (precision : Z) (before_22_8 : bool)
  | TString
  | TFixedString (length : Z)
  | TBoolean
  | TUUID
  | TNullable (d : datatype)
  | TLowCardinality (d : datatype)
  | TTuple (l : list datatype)
  | TMap (key value : datatype)
  | TArray (d : datatype).

(** Induction that reaches the elements of a tuple. *)
Lemma datatype_rect' (P : datatype → Prop) :
  (∀ c, P (TInt c)) → (∀ c, P (TUInt c)) → P TFloat32 → P TFloat64 →
  (∀ c s, P (TDecimal c s)) → P TDate → P TDate32 → P TDateTime →
  (∀ p b, P (TDateTime64 p b)) → P TString → (∀ n, P (TFixedString n)) →
  P TBoolean → P TUUID → (∀ d, P d → P (TNullable d)) →
  (∀ d, P d → P (TLowCardinality d)) → (∀ l, Forall P l → P (TTuple l)) →
  (∀ k v, P k → P v → P (TMap k v)) → (∀ d, P d → P (TArray d)) →
  ∀ d, P d.
Proof.
  intros H1 H2 H3 H4 H5 H6 H7 H8 H9 H10 H11 H12 H13 HN HL HT HM HA.
  fix IH 1. intros [c|c| | |c s| | | |p b| |n| | |d|d|l|k v|d].
  14: apply HN, IH. 14: apply HL, IH. 15: apply HM; apply IH. 15: apply HA, IH.
  14: { apply HT. induction l as [|d l IHl]; constructor; [apply IH|apply IHl]. }
  all: clear IH; auto.
Qed.

Definition letters : string := "abcdefghijklmnopqrstuvwxyzABCDEFGHIJKLMNOPQRTUVWXYZ".

(** [s[0:n]]: a negative [n] counts from the end. *)
Definition slice0 (n : Z) (s : string) : string :=
  str_take (Z.to_nat (if n <? 0 then Z.of_nat (slen s) + n else n)) s.

Definition int_attrs (c : int_class) : DataType :=
  match c with
  | Int8 => Int_init "Int8" 127 (-128) false false
  | Int16 => Int_init "Int16" 32767 (-32768) false false
  | Int32 => Int_init "Int32" 2147483647 (-2147483648) false false
  | Int64 => Int_init "Int64" 9223372036854775807 (-9223372036854775808) false false
  | Int128 => Int_init "Int128" 170141183460469231731687303715884105727
                (-170141183460469231731687303715884105728) false true
  | Int256 => Int_init "Int256"
      57896044618658097711785492504343953926634992332820282019728792003956564819967
      (-57896044618658097711785492504343953926634992332820282019728792003956564819968)
      false true
  end.

Definition uint_attrs (c : uint_class) : DataType :=
  match c with
  | UInt8 => UInt_init "UInt8" 255 false
  | UInt16 => UInt_init "UInt16" 65535 false
  | UInt32 => UInt_init "UInt32" 4294967295 false
  | UInt64 => UInt_init "UInt64" 18446744073709551615 false
  | UInt128 => UInt_init "UInt128" 340282366920938463463374607431768211455 true
  | UInt256 => UInt_init "UInt256"
      115792089237316195423570985008687907853269984665640564039457584007913129639935
      true
  end.

(** Number of decimal digits that a Decimal class stores. *)
Definition decimal_digits (c : decimal_class) : Z :=
  match c with Decimal32 => 9 | Decimal64 => 18 | Decimal128 => 38 | Decimal256 => 76 end.
Definition decimal_name (c : decimal_class) : string :=
  match c with
  | Decimal32 => "Decimal32" | Decimal64 => "Decimal64"
  | Decimal128 => "Decimal128" | Decimal256 => "Decimal256"
  end.

(** The [limit] that the [__init__] of the four Decimal classes computes. *)
Definition decimal_limit (c : decimal_class) (scale : Z) : string :=
  if scale =? decimal_digits c
  then "0." +:+ str_repeat (scale - 1) "9"
  else str_repeat (decimal_digits c - scale) "9" +:+ "." +:+ str_repeat scale "9".

Definition decimal_attrs (c : decimal_class) (scale : Z) : DataType :=
  let limit := decimal_limit c scale in
  Decimal_init (decimal_name c +:+ "(" +:+ str_Z scale +:+ ")")
    limit ("-" +:+ limit)
    (match c with Decimal256 => true | _ => false end).

Definition datetime64_attrs (precision : Z) (before_22_8 : bool) : DataType :=
  Date_init ("DateTime64(" +:+ str_Z precision +:+ ")")
    (if negb (precision =? 9)
     then if before_22_8 then "'2283-11-11 23:59:59.99999999'"
          else "'2299-12-31 23:59:59.99999999'"
     else "'2262-04-11 23:47:16'")
    (if before_22_8 then "'1925-01-01 00:00:00.00000000'"
     else "'1900-01-01 00:00:00.00000000'")
    false false.

Definition fixedstring_attrs (length : Z) : DataType :=
  let max :=
    if length <=? 51 then "'" +:+ slice0 length letters +:+ "'"
    else "'" +:+ letters +:+ str_repeat (length - 51) "a" +:+ "'" in
  String_init ("FixedString(" +:+ str_Z length +:+ ")") max "''".

(** [isinstance(d, String)] *)
Definition is_String (d : datatype) : bool :=
  match d with TString | TFixedString _ => true | _ => false end.

(** The attributes of an object. *)
Fixpoint attrs (d : datatype) : DataType :=
  match d with
  | TInt c => int_attrs c
  | TUInt c => uint_attrs c
  | TFloat32 => Float_init "Float32" "3.4028235e38" "-3.4028235e38"
  | TFloat64 => Float_init "Float64" "1.7976909999999999e308" "-1.7976909999999999e308"
  | TDecimal c scale => decimal_attrs c scale
  | TDate => Date_init "Date" "'2149-06-06'" "'1970-01-01'" true true
  | TDate32 => Date_init "Date32" "'2299-12-31'" "'1900-01-01'" true true
  | TDateTime => Date_init "DateTime" "'2106-02-07 06:28:15'" "'1970-01-01 00:00:00'" true true
  | TDateTime64 precision b => datetime64_attrs precision b
  | TString => String_init "String" ("'" +:+ letters +:+ "'") "''"
  | TFixedString length => fixedstring_attrs length
  | TBoolean => DataType_init "Bool" true true false false false (AStr "true") (AStr "false")
  | TUUID => DataType_init "UUID" true true false false false
      (AStr "'ffffffff-ffff-ffff-ffff-ffffffffffff'")
      (AStr "'00000000-0000-0000-0000-000000000000'")
  | TNullable d =>
      let a := attrs d in
      DataType_init ("Nullable(" +:+ name a +:+ ")") (supports_low_cardinality a)
        false (is_numeric_ a) (is_unsigned a) false (max a) (min a)
  | TLowCardinality d =>
      let a := attrs d in
      DataType_init ("LowCardinality(" +:+ name a +:+ ")") false (is_String d)
        (is_numeric_ a) (is_unsigned a) false (max a) (min a)
  | TTuple l =>
      DataType_init ("Tuple(" +:+ join "," ((λ d, name (attrs d)) <$> l) +:+ ")")
        false false false false false ANone ANone
  | TMap key value =>
      DataType_init ("Map(" +:+ name (attrs key) +:+ "," +:+ name (attrs value) +:+ ")")
        false false false false false ANone ANone
  | TArray d =>
      DataType_init ("Array(" +:+ name (attrs d) +:+ ")")
        false false false false false ANone ANone
  end.

Definition type_name (d : datatype) : string := name (attrs d).

(** [DateTime64(precision)] in a context with the given ClickHouse version. *)
Definition DateTime64 (clickhouse_version : option string) (precision : Z)
    : res datatype :=
  b ← check_clickhouse_version "<22.8" clickhouse_version;
  Ok (TDateTime64 precision b).

(** ** Value expressions *)

Definition base_max_value (a : DataType) : string :=
  "to" +:+ name a +:+ "(" +:+ attr_str (max a) +:+ ")".
Definition base_min_value (a : DataType) : string :=
  "to" +:+ name a +:+ "(" +:+ attr_str (min a) +:+ ")".

(** [to{name}({v}, {n})] and [to{name}({v},{n})] *)
Definition scaled_value (a : DataType) (v sep : string) (n : Z) : string :=
  "to" +:+ name a +:+ "(" +:+ v +:+ sep +:+ str_Z n +:+ ")".

Fixpoint max_value (d : datatype) : string :=
  let a := attrs d in
  match d with
  | TDecimal _ scale => scaled_value a (attr_str (max a)) ", " scale
  | TDateTime64 precision _ =>
      "toDateTime64(" +:+ attr_str (max a) +:+ "," +:+ str_Z precision +:+ ")"
  | TFixedString length => scaled_value a (attr_str (max a)) "," length
  | TNullable d | TLowCardinality d => max_value d
  | TTuple l => "tuple(" +:+ join "," (max_value <$> l) +:+ ")"
  | TMap key value => "map(" +:+ max_value key +:+ "," +:+ max_value value +:+ ")"
  | TArray d => "[" +:+ max_value d +:+ "]"
  | _ => base_max_value a
  end.

Fixpoint min_value (d : datatype) : string :=
  let a := attrs d in
  match d with
  | TDecimal _ scale => scaled_value a (attr_str (min a)) ", " scale
  | TDateTime64 precision _ =>
      "toDateTime64(" +:+ attr_str (min a) +:+ "," +:+ str_Z precision +:+ ")"
  | TFixedString length => scaled_value a (attr_str (min a)) "," length
  | TNullable d | TLowCardinality d => min_value d
  | TTuple l => "tuple(" +:+ join "," (min_value <$> l) +:+ ")"
  | TMap key value => "map(" +:+ min_value key +:+ "," +:+ min_value value +:+ ")"
  | TArray d => "[" +:+ min_value d +:+ "]"
  | _ => base_min_value a
  end.

Fixpoint zero_or_null_value (d : datatype) : string :=
  let a := attrs d in
  match d with
  | TInt _ | TUInt _ | TFloat32 | TFloat64 => "to" +:+ name a +:+ "(0)"
  | TDecimal _ scale => "to" +:+ name a +:+ "(0," +:+ str_Z scale +:+ ")"
  | TDate | TDate32 | TDateTime | TDateTime64 _ _ | TString | TFixedString _ | TUUID =>
      attr_str (min a)
  | TBoolean => "false"
  | TNullable _ => "Null"
  | TLowCardinality d => zero_or_null_value d
  | TTuple l => "tuple(" +:+ join "," (zero_or_null_value <$> l) +:+ ")"
  | TMap key value =>
      "map(" +:+ zero_or_null_value key +:+ "," +:+ zero_or_null_value value +:+ ")"
  | TArray d => "[" +:+ zero_or_null_value d +:+ "]"
  end.

(** ** Random values *)

(** A random generator of type [R]: [randint] for a non-empty range and
    [uniform], whose arguments and result are the printed form of floats. *)
Class Rng (R : Type) := {
  rng_randint : R → Z → Z → Z * R;
  rng_uniform : R → string → string → string * R;
}.
#[export] Hint Mode Rng ! : typeclass_instances.

(** What the sources rely on: [randint(a, b)] is between [a] and [b], both
    included, and a printed float has no character that SQL treats as
    punctuation. *)
Definition float_char (c : ascii) : bool :=
  is_digit c || bool_decide (c ∈ ["."; "-"; "+"; "e"; "i"; "n"; "f"; "a"]%char).
Class RngLaws (R : Type) `{Rng R} : Prop := {
  randint_bounds : ∀ (r : R) a b, a <= b → a <= (rng_randint r a b).1 <= b;
  uniform_text : ∀ (r : R) a b, str_forallb float_char (rng_uniform r a b).1 = true;
}.

(** The generators in play: the one passed by the caller and the module-level
    [default_random]. *)
Record rngs (R : Type) := mkRngs { given : R; default_random : R }.
Arguments mkRngs {R} _ _.
Arguments given {R} _.
Arguments default_random {R} _.
Inductive gen := Given | Default.

Section random.
Context {R : Type} `{Rng R}.

Definition get_rng (g : gen) (s : rngs R) : R :=
  match g with Given => given s | Default => default_random s end.
Definition set_rng (g : gen) (r : R) (s : rngs R) : rngs R :=
  match g with
  | Given => mkRngs r (default_random s)
  | Default => mkRngs (given s) r
  end.

(** [random.randint(a, b)], a [ValueError] on an empty range *)
Definition randint (g : gen) (a b : Z) : M (rngs R) Z := λ s,
  if b <? a then (Exc (ValueError "empty range for randrange()"), s)
  else let '(n, r) := rng_randint (get_rng g s) a b in (Ok n, set_rng g r s).

Definition uniform (g : gen) (a b : string) : M (rngs R) string := λ s,
  let '(x, r) := rng_uniform (get_rng g s) a b in (Ok x, set_rng g r s).

(** [if random is None: random = default_random] *)
Definition or_default (random : option gen) : gen :=
  match random with Some g => g | None => Default end.

(** [s[i]] for a non-negative [i] *)
Definition char_at (i : Z) (s : string) : M (rngs R) string :=
  match String.get (Z.to_nat i) s with
  | Some c => mret (String c EmptyString)
  | None => raise IndexError
  end.

(** [f"'{m[random.randint(1,len(m)-2)] * random.randint(0,n)}'"] *)
Definition rand_text (g : gen) (m : string) (n : Z) : M (rngs R) string :=
  i ← randint g 1 (Z.of_nat (slen m) - 2);
  c ← char_at i m;
  k ← randint g 0 n;
  mret ("'" +:+ str_repeat k c +:+ "'").

(** [hex(random.randint(0,n))[2:]:>0w] *)
Definition rand_hex (g : gen) (w : nat) (n : Z) : M (rngs R) string :=
  i ← randint g 0 n; mret (rjust0 w (hex i)).

Definition rand_uuid (g : gen) : M (rngs R) string :=
  a ← rand_hex g 8 4294967295;
  b ← rand_hex g 4 65535;
  c ← rand_hex g 4 65535;
  d ← rand_hex g 4 65535;
  e ← rand_hex g 12 281474976710655;
  mret ("'" +:+ a +:+ "-" +:+ b +:+ "-" +:+ c +:+ "-" +:+ d +:+ "-" +:+ e +:+ "'").

Definition int_bound (a : attr) : Z := match a with AInt n => n | _ => 0 end.

(** [d.rand_value(random)]; [None] is the Python [None]. *)
Fixpoint rand_value (d : datatype) (random : option gen) : M (rngs R) string :=
  let a := attrs d in
  let g := or_default random in
  match d with
  | TInt _ | TUInt _ =>
      n ← randint g (int_bound (min a)) (int_bound (max a));
      mret ("to" +:+ name a +:+ "(" +:+ str_Z n +:+ ")")
  | TFloat32 =>
      match random with
      | None => raise (AttributeError "'NoneType' object has no attribute 'uniform'")
      | Some g =>
          x ← uniform g (attr_str (min a)) (attr_str (max a));
          mret ("toFloat32(" +:+ x +:+ ")")
      end
  | TFloat64 =>
      x ← uniform g "-1.79769" "1.79769";
      n ← randint g 0 308;
      mret ("toFloat64(" +:+ x +:+ "e" +:+ str_Z n +:+ ")")
  | TDecimal _ scale =>
      x ← uniform g (attr_str (min a)) (attr_str (max a));
      mret (scaled_value a x "," scale)
  | TDate | TDate32 | TDateTime =>
      n ← randint g 1072549200 1672549200;
      mret ("to" +:+ name a +:+ "(" +:+ str_Z n +:+ ")")
  | TDateTime64 precision _ =>
      n ← randint g 1072549200 1672549200;
      mret ("toDateTime64(" +:+ str_Z n +:+ "," +:+ str_Z precision +:+ ")")
  | TString => rand_text g (attr_str (max a)) 100
  | TFixedString length => rand_text g (attr_str (max a)) length
  | TBoolean => n ← randint g 0 1; mret (if negb (n =? 0) then "true" else "false")
  | TUUID => rand_uuid g
  | TNullable d => rand_value d (Some g)
  | TLowCardinality d => rand_value d random
  | TTuple l =>
      vs ← mapM_ (λ d, rand_value d random) l;
      mret ("tuple(" +:+ join "," vs +:+ ")")
  | TMap key value =>
      k ← rand_value key random;
      v ← rand_value value random;
      mret ("map(" +:+ k +:+ "," +:+ v +:+ ")")
  | TArray d => v ← rand_value d random; mret ("[" +:+ v +:+ "]")
  end.
End random.

(** ** unwrap and the lists of basic types *)

Fixpoint unwrap (d : datatype) : datatype :=
  match d with
  | TNullable d | TLowCardinality d => unwrap d
  | d => d
  end.

Definition basic_datatypes (clickhouse_version : option string) : res (list datatype) :=
  dt64 ← DateTime64 clickhouse_version 3;
  Ok [TUInt UInt8; TUInt UInt16; TUInt UInt32; TUInt UInt64; TUInt UInt128;
      TInt Int8; TInt Int16; TInt Int32; TInt Int64; TInt Int128;
      TFloat32; TFloat64; TDecimal Decimal128 38; TDate; TDateTime; dt64;
      TBoolean; TString; TFixedString 51; TUUID].

Definition common_basic_datatypes : list datatype :=
  [TString; TFixedString 51; TDate; TDateTime; TUInt UInt64; TInt Int64;
   TFloat32; TFloat64; TDecimal Decimal128 38].

Example max_value_1 :
  max_value (TMap TString (TLowCardinality TFloat64)) =
  "map(toString('abcdefghijklmnopqrstuvwxyzABCDEFGHIJKLMNOPQRTUVWXYZ'),toFloat64(1.7976909999999999e308))".
Proof. by_compute. Qed.
Example max_value_2 : max_value (TDecimal Decimal32 9) = "toDecimal32(9)(0.99999999, 9)".
Proof. by_compute. Qed.
Example name_1 : type_name (TTuple [TNullable (TInt Int8); TArray (TDecimal Decimal256 4)]) =
  "Tuple(Nullable(Int8),Array(Decimal256(4)))".
Proof. by_compute. Qed.

(** ** Lemmas *)

Lemma closed_to n v : closed n → inner v → closed ("to" +:+ n +:+ "(" +:+ v +:+ ")").
Proof. intros. apply closed_app; [done|]. by apply closed_call. Qed.

Lemma closed_scaled a v sep n :
  closed (name a) → inner v → inner sep → closed (scaled_value a v sep n).
Proof.
  intros Hn Hv Hs. unfold scaled_value.
  replace (v +:+ sep +:+ str_Z n +:+ ")") with ((v +:+ sep +:+ str_Z n) +:+ ")")
    by (by rewrite !str_app_assoc).
  apply closed_to; eauto 6 with pyres.
Qed.

(** Two arguments separated by a comma. *)
Lemma closed_call2 f s t :
  closed f → closed s → closed t → closed (f +:+ "(" +:+ s +:+ "," +:+ t +:+ ")").
Proof.
  intros. replace (s +:+ "," +:+ t +:+ ")") with ((s +:+ "," +:+ t) +:+ ")")
    by (by rewrite !str_app_assoc).
  apply closed_call; eauto 6 with pyres.
Qed.

Lemma slice0_nonneg n s : 0 <= n → slice0 n s = str_take (Z.to_nat n) s.
Proof. intros. unfold slice0. by rewrite (proj2 (Z.ltb_ge _ _)). Qed.

Lemma quotable_take n s : quotable s = true → quotable (str_take n s) = true.
Proof.
  unfold quotable. revert s. induction n as [|n IH]; intros [|c s]; simpl; try done.
  rewrite !andb_true_iff. naive_solver.
Qed.

(** The payload of [FixedString.max] is letters only. *)
Lemma fixedstring_max n :
  ∃ s, max (fixedstring_attrs n) = AStr ("'" +:+ s +:+ "'") ∧ quotable s = true ∧
    (0 <= n → slen s = Z.to_nat n).
Proof.
  unfold fixedstring_attrs. destruct (Z.leb_spec n 51); simpl.
  - eexists; split; [done|]. split; [by apply quotable_take|]. intros Hn.
    rewrite slice0_nonneg, slen_take by done. change (slen letters) with 51%nat. lia.
  - exists (letters +:+ str_repeat (n - 51) "a").
    split; [by rewrite !str_app_assoc|]. split.
    + unfold quotable. rewrite str_forallb_app. unfold str_repeat.
      by rewrite str_forallb_repeat.
    + intros _. rewrite slen_app. unfold str_repeat. rewrite slen_repeat.
      change (slen letters) with 51%nat. simpl. lia.
Qed.

Lemma decimal_limit_plain c scale : plain (decimal_limit c scale) = true.
Proof.
  unfold decimal_limit. case_match; by rewrite !plain_app, !plain_repeat.
Qed.

Lemma closed_name d : closed (type_name d).
Proof.
  unfold type_name. induction d as [c|c| | |c s| | | |p b| |n| | |d IH|d IH|l IH|k v IH1 IH2|d IH]
    using datatype_rect'; simpl; try done; try (by destruct c).
  - apply closed_call; [by destruct c|]. eauto with pyres.
  - apply (closed_call "DateTime64"); eauto with pyres.
  - apply (closed_call "FixedString"); eauto with pyres.
  - apply (closed_call "Nullable"); eauto with pyres.
  - apply (closed_call "LowCardinality"); eauto with pyres.
  - apply (closed_call "Tuple"); [done|]. apply inner_join, Forall_fmap. done.
  - by apply (closed_call2 "Map").
  - apply (closed_call "Array"); eauto with pyres.
Qed.
Lemma closed_attrs_name d : closed (name (attrs d)).
Proof. apply closed_name. Qed.
#[export] Hint Resolve closed_name closed_attrs_name : pyres.

(** Shared by [max_value] and [min_value]: every bound printed for the class
    is itself a closed expression. *)
Lemma closed_bounds d : closed (attr_str (max (attrs d))) ∧ closed (attr_str (min (attrs d))).
Proof.
  induction d as [c|c| | |c s| | | |p b| |n| | |d IH|d IH|l IH|k v IH1 IH2|d IH]
    using datatype_rect'; simpl; try done; try (by destruct c).
  - pose proof (closed_plain _ (decimal_limit_plain c s)).
    split; [done|by apply closed_app].
  - by destruct b, (negb _).
  - destruct (fixedstring_max n) as (s & Hs & Hq & _). unfold fixedstring_attrs in *.
    simpl in *. injection Hs as ->. split; [|done]. by apply closed_quoted.
Qed.

Section value_closed.
(** [max_value] and [min_value] differ only in the bound they print. *)
Variables (f : datatype → string) (bound : DataType → attr).
Hypothesis Hbound : ∀ d, closed (attr_str (bound (attrs d))).
Hypothesis Hf : ∀ d, f d =
  let a := attrs d in
  match d with
  | TDecimal _ scale => scaled_value a (attr_str (bound a)) ", " scale
  | TDateTime64 precision _ =>
      "toDateTime64(" +:+ attr_str (bound a) +:+ "," +:+ str_Z precision +:+ ")"
  | TFixedString length => scaled_value a (attr_str (bound a)) "," length
  | TNullable d | TLowCardinality d => f d
  | TTuple l => "tuple(" +:+ join "," (f <$> l) +:+ ")"
  | TMap key value => "map(" +:+ f key +:+ "," +:+ f value +:+ ")"
  | TArray d => "[" +:+ f d +:+ "]"
  | _ => "to" +:+ name a +:+ "(" +:+ attr_str (bound a) +:+ ")"
  end.

Lemma value_closed d : closed (f d).
Proof using All.
  induction d as [c|c| | |c s| | | |p b| |n| | |d IH|d IH|l IH|k v IH1 IH2|d IH]
    using datatype_rect'; rewrite Hf; try done.
  all: try (apply closed_to; [apply closed_name|apply inner_closed, Hbound]).
  all: try (apply closed_scaled; [apply closed_name|apply inner_closed, Hbound|done]).
  - apply (closed_call2 "toDateTime64"); eauto with pyres.
  - apply (closed_call "tuple"); [done|]. by apply inner_join, Forall_fmap.
  - by apply (closed_call2 "map").
  - eauto with pyres.
Qed.
End value_closed.

Lemma max_value_closed d : closed (max_value d).
Proof. apply (value_closed _ max); [apply closed_bounds|]. by intros []. Qed.
Lemma min_value_closed d : closed (min_value d).
Proof. apply (value_closed _ min); [apply closed_bounds|]. by intros []. Qed.

Lemma zero_value_closed d : closed (zero_or_null_value d).
Proof.
  induction d as [c|c| | |c s| | | |p b| |n| | |d IH|d IH|l IH|k v IH1 IH2|d IH]
    using datatype_rect'; cbn [zero_or_null_value]; try done.
  all: try (apply (closed_to _ "0"); [apply closed_name|done]).
  all: try apply (closed_bounds (TDateTime64 p b)).
  - apply (closed_to _ ("0," +:+ str_Z s)); [apply (closed_name (TDecimal c s))|].
    apply inner_app; eauto with pyres.
  - apply (closed_call "tuple"); [done|]. by apply inner_join, Forall_fmap.
  - by apply (closed_call2 "map").
  - eauto with pyres.
Qed.
#[export] Hint Resolve max_value_closed min_value_closed zero_value_closed : pyres.

(** ** Random values: what is returned *)

Section random_facts.
Context {R : Type} `{RngLaws R}.

Lemma randint_returns g a b :
  returns (randint (R:=R) g a b) (λ n, a <= n <= b).
Proof.
  intros s. unfold randint. destruct (Z.ltb_spec b a); [done|].
  pose proof (randint_bounds (get_rng g s) a b ltac:(lia)) as Hb.
  by destruct (rng_randint _ a b).
Qed.

Lemma randint_total g a b :
  a <= b → total (randint (R:=R) g a b) (λ n, a <= n <= b).
Proof.
  intros Hab s. unfold randint. rewrite (proj2 (Z.ltb_ge _ _)) by done.
  pose proof (randint_bounds (get_rng g s) a b Hab) as Hb.
  destruct (rng_randint _ a b) as [n r]. eauto.
Qed.

Lemma plain_float_text s : str_forallb float_char s = true → plain s = true.
Proof.
  apply str_forallb_mono. intros c Hc. unfold plain_char, float_char in *.
  apply negb_true_iff, bool_decide_eq_false. intros Hin.
  set_unfold in Hin. by destruct_or! Hin; subst.
Qed.

Lemma uniform_total g a b :
  total (uniform (R:=R) g a b) (λ x, plain x = true).
Proof.
  intros s. unfold uniform. pose proof (uniform_text (get_rng g s) a b) as Hb.
  destruct (rng_uniform _ a b) as [x r]. eauto using plain_float_text.
Qed.

Lemma str_get_quotable s i c :
  quotable s = true → String.get i s = Some c → quotable (String c EmptyString) = true.
Proof.
  unfold quotable. revert i. induction s as [|d s IH]; intros i; [done|].
  cbn [str_forallb]. intros [Hd Hs]%andb_true_iff. destruct i as [|i]; simpl.
  - intros [= ->]. by rewrite Hd.
  - by apply IH.
Qed.

(** A character strictly between the quotes. *)
Lemma get_between s i :
  (1 <= i)%nat → (i <= slen s)%nat →
  String.get i ("'" +:+ s +:+ "'") = String.get (i - 1) s ∧
  is_Some (String.get (i - 1) s).
Proof.
  intros H1 H2. destruct i as [|i]; [lia|].
  change (String.get (S i) ("'" +:+ s +:+ "'")) with (String.get i (s +:+ "'")).
  replace (S i - 1)%nat with i by lia.
  assert (Hlt : (i < slen s)%nat) by lia. clear H1 H2. revert i Hlt.
  induction s as [|c s IH]; intros i Hlt; [simpl in Hlt; lia|]. rewrite str_app_cons.
  destruct i as [|i]; cbn [String.get]; [eauto|]. apply IH. simpl in Hlt. lia.
Qed.

Lemma rand_text_total g s n :
  quotable s = true → (0 < slen s)%nat → 0 <= n →
  total (rand_text (R:=R) g ("'" +:+ s +:+ "'") n)
    (λ v, ∃ k c, v = "'" +:+ str_repeat k (String c EmptyString) +:+ "'" ∧ 0 <= k <= n ∧
      quotable (String c EmptyString) = true).
Proof.
  intros Hq Hs Hn. unfold rand_text. rewrite !slen_app. change (slen "'") with 1%nat.
  eapply total_bind; [apply randint_total; lia|]. intros i Hi. simpl in Hi.
  destruct (get_between s (Z.to_nat i)) as [E [c Hc]]; [lia..|].
  eapply (total_bind _ _ (λ x, x = String c EmptyString)).
  { unfold char_at. rewrite E, Hc. by apply total_ret. }
  intros x ->. eapply total_bind; [by apply randint_total|]. intros k Hk.
  apply total_ret. exists k, c. simpl in Hk. by split_and!; try lia; eauto using str_get_quotable.
Qed.

Lemma closed_rand_text k c :
  quotable (String c EmptyString) = true →
  closed ("'" +:+ str_repeat k (String c EmptyString) +:+ "'").
Proof. intros Hc. apply closed_quoted. by apply str_forallb_repeat. Qed.

Lemma quotable_plain s : plain s = true → quotable s = true.
Proof.
  apply str_forallb_mono. intros c. unfold plain_char. rewrite !negb_true_iff.
  rewrite !bool_decide_eq_false. set_solver.
Qed.

Lemma hex_quotable n : 0 <= n → plain (hex n) = true.
Proof.
  unfold hex. assert (Hg : ∀ fuel n acc, 0 <= n → plain acc = true →
    plain (hex_go fuel n acc) = true).
  { clear. induction fuel as [|fuel IH]; intros n acc Hn Ha; [done|]. simpl.
    assert (Hc : plain (String (hex_char (n mod 16)) acc) = true).
    { unfold plain in *. cbn [str_forallb]. rewrite Ha, andb_true_r.
      assert (Hm : 0 <= n mod 16 < 16) by (apply Z.mod_pos_bound; lia).
      assert (n mod 16 ∈ seqZ 0 16) as Hin by (apply elem_of_seqZ; lia).
      revert Hin. generalize (n mod 16). clear. intros m Hin. vm_compute in Hin.
      set_unfold in Hin. by destruct_or! Hin; subst. }
    case_match; [done|]. apply IH; [apply Z.div_pos; lia|done]. }
  intros Hn. by apply Hg.
Qed.

Lemma rand_hex_total g w n :
  0 <= n → total (rand_hex (R:=R) g w n) (λ x, quotable x = true).
Proof.
  intros Hn. unfold rand_hex. eapply total_bind; [by apply randint_total|].
  intros i Hi. simpl in Hi. apply total_ret. unfold rjust0. unfold quotable.
  rewrite str_forallb_app. apply andb_true_iff. split.
  - by apply str_forallb_repeat.
  - apply quotable_plain, hex_quotable. lia.
Qed.

Lemma rand_uuid_total g : total (rand_uuid (R:=R) g) closed.
Proof.
  unfold rand_uuid.
  eapply total_bind; [by apply rand_hex_total|]; intros a Ha.
  eapply total_bind; [by apply rand_hex_total|]; intros b Hb.
  eapply total_bind; [by apply rand_hex_total|]; intros c Hc.
  eapply total_bind; [by apply rand_hex_total|]; intros d Hd.
  eapply total_bind; [by apply rand_hex_total|]; intros e He.
  apply total_ret. simpl in *.
  cut (closed ("'" +:+ (a +:+ "-" +:+ b +:+ "-" +:+ c +:+ "-" +:+ d +:+ "-" +:+ e) +:+ "'"));
    [by rewrite !str_app_assoc|].
  apply closed_quoted. unfold quotable in *. rewrite !str_forallb_app.
  by rewrite Ha, Hb, Hc, Hd, He.
Qed.

(** Types whose every fixed string has room for a character. *)
Fixpoint sized (d : datatype) : bool :=
  match d with
  | TFixedString n => 1 <=? n
  | TNullable d | TLowCardinality d | TArray d => sized d
  | TTuple l => forallb sized l
  | TMap k v => sized k && sized v
  | _ => true
  end.

(** Types whose random value reaches [Float32.rand_value], the only one
    without a default generator; [Nullable] passes one on. *)
Fixpoint needs_random (d : datatype) : bool :=
  match d with
  | TFloat32 => true
  | TLowCardinality d | TArray d => needs_random d
  | TTuple l => existsb needs_random l
  | TMap k v => needs_random k || needs_random v
  | _ => false
  end.

Definition random_ok (random : option gen) (d : datatype) : bool :=
  match random with Some _ => true | None => negb (needs_random d) end.

Lemma rand_value_total random d :
  sized d = true → random_ok random d = true →
  total (rand_value (R:=R) d random) closed.
Proof.
  revert random. induction d as [c|c| | |c s| | | |p b| |n| | |d IH|d IH|l IH|k v IH1 IH2|d IH]
    using datatype_rect'; intros g Hs Hr; cbn [rand_value].
  all: try (eapply total_bind; [apply randint_total; first [done|by destruct c]|];
    intros ? ?; apply total_ret; apply closed_to; eauto with pyres).
  - destruct g as [g|]; [|done].
    eapply total_bind; [apply uniform_total|]. intros x Hx. apply total_ret.
    apply (closed_call "toFloat32"); eauto with pyres.
  - eapply total_bind; [apply uniform_total|]. intros x Hx.
    eapply total_bind; [by apply randint_total|]. intros m Hm. apply total_ret.
    replace (x +:+ "e" +:+ str_Z m +:+ ")") with ((x +:+ "e" +:+ str_Z m) +:+ ")")
      by (by rewrite !str_app_assoc).
    apply (closed_call "toFloat64"); [done|]. apply inner_closed, closed_plain.
    by rewrite !plain_app, Hx, plain_str_Z.
  - eapply total_bind; [apply uniform_total|]. intros x Hx. apply total_ret.
    apply closed_scaled; eauto with pyres.
  - eapply total_bind; [by apply randint_total|]. intros m Hm. apply total_ret.
    apply (closed_call2 "toDateTime64"); eauto with pyres.
  - change (total (rand_text (R:=R) (or_default g) ("'" +:+ letters +:+ "'") 100) closed).
    eapply total_mono; [apply (rand_text_total _ letters 100); [done|vm_compute; lia|done]|].
    intros v (k & c & -> & _ & Hc). by apply closed_rand_text.
  - simpl in Hs. apply Z.leb_le in Hs. destruct (fixedstring_max n) as (s & E & Hq & Hl).
    cbn [attrs]. rewrite E. cbn [attr_str].
    eapply total_mono; [apply rand_text_total; [done|lia..]|].
    intros v (k & c & -> & _ & Hc). by apply closed_rand_text.
  - eapply total_bind; [by apply randint_total|]. intros m Hm. apply total_ret.
    by destruct (negb _).
  - apply rand_uuid_total.
  - by apply IH.
  - apply IH; [done|]. by destruct g.
  - eapply total_bind; [eapply total_mapM with (P := closed)|].
    + rewrite Forall_forall in IH |- *. intros d Hd. apply IH; [done|..].
      * cbn [sized] in Hs. rewrite forallb_forall in Hs. by apply Hs, list_elem_of_In.
      * destruct g; [done|]. simpl in *. apply negb_true_iff in Hr.
        apply negb_true_iff, not_true_iff_false. intros Hn.
        assert (existsb needs_random l = true); [|congruence].
        apply existsb_exists. exists d. by rewrite <-list_elem_of_In.
    + intros vs [_ Hvs]. apply total_ret. apply (closed_call "tuple"); eauto with pyres.
  - cbn [sized] in Hs. apply andb_true_iff in Hs as [Hk Hv].
    assert (random_ok g k = true ∧ random_ok g v = true) as [Hr1 Hr2].
    { destruct g; [done|]. simpl in *. by apply negb_true_iff, orb_false_iff in Hr as [-> ->]. }
    eapply total_bind; [by apply IH1|]. intros x Hx.
    eapply total_bind; [by apply IH2|]. intros y Hy. apply total_ret.
    by apply (closed_call2 "map").
  - eapply total_bind; [apply IH; [done|by destruct g]|]. intros x Hx. apply total_ret.
    eauto with pyres.
Qed.

(** Without a generator a [Float32] is met, after values that are fine. *)
Definition no_uniform : exn :=
  AttributeError "'NoneType' object has no attribute 'uniform'".

Lemma rand_value_raises d :
  sized d = true → needs_random d = true →
  ∀ s, (rand_value (R:=R) d None s).1 = Exc no_uniform.
Proof.
  induction d as [c|c| | |c s| | | |p b| |n| | |d IH|d IH|l IH|k v IH1 IH2|d IH]
    using datatype_rect'; intros Hs Hn st; try done; cbn [rand_value].
  - by apply IH.
  - unfold mbind, M_bind.
    assert (Hm : (mapM_ (λ d, rand_value (R:=R) d None) l st).1 = Exc no_uniform).
    { revert st. induction IH as [|d l IHd IHl IH]; intros st; [done|].
      simpl in Hs, Hn. apply andb_true_iff in Hs as [Hsd Hsl].
      cbn [mapM_]. unfold mbind, M_bind. cbv beta. destruct (needs_random d) eqn:Hd.
      - specialize (IHd Hsd eq_refl st). destruct (rand_value d None st) as [[] ?]; by simplify_eq/=.
      - assert (Hr : random_ok None d = true) by (unfold random_ok; by rewrite Hd).
        destruct (rand_value_total None d Hsd Hr st) as (v & s' & -> & _). specialize (IH Hsl Hn s').
        destruct (mapM_ _ l s') as [[] ?]; by simplify_eq/=. }
    destruct (mapM_ _ l st) as [[] ?]; by simplify_eq/=.
  - simpl in Hs, Hn. apply andb_true_iff in Hs as [Hk Hv]. unfold mbind, M_bind.
    destruct (needs_random k) eqn:Hnk.
    + specialize (IH1 Hk eq_refl st). destruct (rand_value k None st) as [[] ?]; by simplify_eq/=.
    + assert (Hr : random_ok None k = true) by (unfold random_ok; by rewrite Hnk).
      destruct (rand_value_total None k Hk Hr st) as (x & s' & -> & _). specialize (IH2 Hv Hn s').
      destruct (rand_value v None s') as [[] ?]; by simplify_eq/=.
  - unfold mbind, M_bind. specialize (IH Hs Hn st).
    destruct (rand_value d None st) as [[] ?]; by simplify_eq/=.
Qed.
End random_facts.

(** A generator that always draws the lower end. *)
Definition low_rng : Rng unit :=
  {| rng_randint _ a _ := (a, tt); rng_uniform _ _ _ := ("0.5", tt) |}.
Lemma low_rng_laws : @RngLaws unit low_rng.
Proof. split; simpl; [lia|done]. Qed.

(** ** Correctness of the printed values *)

(** The width is the number in the class name. *)
Definition width (n : string) : option Z := py_int (after_first "nt" n).

Lemma int_class_range c : ∃ w, 0 < w ∧ width (name (int_attrs c)) = Some w ∧
  min (int_attrs c) = AInt (- 2 ^ (w - 1)) ∧ max (int_attrs c) = AInt (2 ^ (w - 1) - 1).
Proof.
  destruct c;
    [exists 8|exists 16|exists 32|exists 64|exists 128|exists 256];
    split_and!; first [done|by_compute].
Qed.

Lemma uint_class_range c : ∃ w, 0 < w ∧ width (name (uint_attrs c)) = Some w ∧
  min (uint_attrs c) = AInt 0 ∧ max (uint_attrs c) = AInt (2 ^ w - 1).
Proof.
  destruct c;
    [exists 8|exists 16|exists 32|exists 64|exists 128|exists 256];
    split_and!; first [done|by_compute].
Qed.

Lemma rand_int_total {R} `{RngLaws R} g d lo hi :
  match d with TInt _ | TUInt _ => True | _ => False end →
  min (attrs d) = AInt lo → max (attrs d) = AInt hi → lo <= hi →
  total (rand_value (R:=R) d g)
    (λ v, ∃ n, lo <= n <= hi ∧ v = "to" +:+ type_name d +:+ "(" +:+ str_Z n +:+ ")").
Proof.
  intros Hd Hlo Hhi Hle. destruct d; try done; cbn [rand_value];
    rewrite Hlo, Hhi; simpl; (eapply total_bind; [by apply randint_total|]);
    intros n Hn; simpl in Hn; apply total_ret; exists n; (split; [exact Hn|done]).
Qed.

(** The signed range of [w] bits, and the unsigned one. *)
Definition two_complement (signed : bool) (w : Z) : Z * Z :=
  if signed then (- 2 ^ (w - 1), 2 ^ (w - 1) - 1) else (0, 2 ^ w - 1).

(** C11: for every integer class, the width [w] in the class name determines
    the printed bounds: [min_value()] and [max_value()] are the ends of the
    two's complement range of [w] bits (of the unsigned range for [UInt]), and
    [rand_value] always returns a conversion of a number in that range. *)
Theorem integer_values_in_range {R} `{RngLaws R} (d : datatype) (g : option gen) :
  match d with TInt _ | TUInt _ => True | _ => False end →
  ∃ w, 0 < w ∧ width (type_name d) = Some w ∧
    let '(lo, hi) := two_complement (match d with TInt _ => true | _ => false end) w in
    let expr := λ n, "to" +:+ type_name d +:+ "(" +:+ str_Z n +:+ ")" in
    min_value d = expr lo ∧ max_value d = expr hi ∧
    total (rand_value (R:=R) d g) (λ v, ∃ n, lo <= n <= hi ∧ v = expr n).
Proof.
  destruct d as [c|c| | | | | | | | | | | | | | | |]; intros Hd; try done.
  - destruct (int_class_range c) as (w & Hw & Hn & Hlo & Hhi). exists w.
    assert (0 < 2 ^ (w - 1)) by (apply Z.pow_pos_nonneg; lia).
    pose proof (rand_int_total g (TInt c) _ _ I Hlo Hhi ltac:(lia)) as Hr.
    split_and!; [done..|split_and!; [| |exact Hr]];
      cbn [min_value max_value attrs]; unfold base_min_value, base_max_value;
      by rewrite ?Hlo, ?Hhi.
  - destruct (uint_class_range c) as (w & Hw & Hn & Hlo & Hhi). exists w.
    assert (0 < 2 ^ w) by (apply Z.pow_pos_nonneg; lia).
    pose proof (rand_int_total g (TUInt c) _ _ I Hlo Hhi ltac:(lia)) as Hr.
    split_and!; [done..|split_and!; [| |exact Hr]];
      cbn [min_value max_value attrs]; unfold base_min_value, base_max_value;
      by rewrite ?Hlo, ?Hhi.
Qed.

Lemma integer_values_in_range_witness :
  ∃ w, 0 < w ∧ width "Int16" = Some w ∧
    let '(lo, hi) := two_complement true w in
    let expr := λ n, "toInt16(" +:+ str_Z n +:+ ")" in
    min_value (TInt Int16) = expr lo ∧ max_value (TInt Int16) = expr hi ∧
    total (@rand_value unit low_rng (TInt Int16) None) (λ v, ∃ n, lo <= n <= hi ∧ v = expr n).
Proof.
  exact (@integer_values_in_range unit low_rng low_rng_laws (TInt Int16) None I).
Defined.

(** [rand_value] returns for every type with room for its characters,
    whatever generator is passed, except that without a generator it raises
    [AttributeError] exactly when a [Float32] is reached outside a
    [Nullable]; what it returns is one closed SQL expression. *)
Lemma rand_value_default {R} `{RngLaws R} (d : datatype) (random : option gen) :
  sized d = true →
  (random_ok random d = true ∧ total (rand_value (R:=R) d random) closed) ∨
  (random_ok random d = false ∧
   ∀ s, (rand_value (R:=R) d random s).1 = Exc no_uniform).
Proof.
  intros Hs. destruct (random_ok random d) eqn:Hr; [left|right].
  - split; [done|]. by apply rand_value_total.
  - split; [done|]. destruct random; [done|]. simpl in Hr.
    apply rand_value_raises; [done|]. by destruct (needs_random d).
Qed.

Lemma rand_value_default_witness :
  let d := TMap TString (TArray TFloat32) in
  (random_ok None d = true ∧ total (@rand_value unit low_rng d None) closed) ∨
  (random_ok None d = false ∧
   ∀ s, (@rand_value unit low_rng d None s).1 = Exc no_uniform).
Proof.
  exact (@rand_value_default unit low_rng low_rng_laws (TMap TString (TArray TFloat32))
           None eq_refl).
Defined.

(** A generated value is one item of a comma separated list: splitting
    the arguments of a tuple's maximum, minimum and zero value, or the types
    of its name, at the top-level commas gives those of its members back. *)
Lemma tuple_values_split (l : list datatype) :
  l ≠ [] →
  (∃ t, type_name (TTuple l) = "Tuple(" +:+ t +:+ ")" ∧ split_top t = type_name <$> l) ∧
  (∃ t, max_value (TTuple l) = "tuple(" +:+ t +:+ ")" ∧ split_top t = max_value <$> l) ∧
  (∃ t, min_value (TTuple l) = "tuple(" +:+ t +:+ ")" ∧ split_top t = min_value <$> l) ∧
  (∃ t, zero_or_null_value (TTuple l) = "tuple(" +:+ t +:+ ")" ∧
     split_top t = zero_or_null_value <$> l).
Proof.
  intros Hl. split_and!; eexists; (split; [reflexivity|]);
    (apply split_top_join; [by destruct l|]); apply Forall_fmap, Forall_true;
    intros d; simpl; auto with pyres.
Qed.

Lemma tuple_values_split_witness :
  let l := [TDecimal Decimal32 3; TTuple [TString; TFixedString 2]] in
  (∃ t, type_name (TTuple l) = "Tuple(" +:+ t +:+ ")" ∧ split_top t = type_name <$> l) ∧
  (∃ t, max_value (TTuple l) = "tuple(" +:+ t +:+ ")" ∧ split_top t = max_value <$> l) ∧
  (∃ t, min_value (TTuple l) = "tuple(" +:+ t +:+ ")" ∧ split_top t = min_value <$> l) ∧
  (∃ t, zero_or_null_value (TTuple l) = "tuple(" +:+ t +:+ ")" ∧
     split_top t = zero_or_null_value <$> l).
Proof.
  exact (tuple_values_split [TDecimal Decimal32 3; TTuple [TString; TFixedString 2]]
           ltac:(discriminate)).
Defined.

(** Digits of a limit, and how many of them follow the point. *)
Definition limit_digits (s : string) : option Z := py_int (replace "." EmptyString s).
Definition limit_scale (s : string) : Z := Z.of_nat (slen (after_first "." s)).

Definition limit_ok (c : decimal_class) (scale : Z) : bool :=
  let digits := decimal_digits c in
  let full := negb (scale =? digits) in
  bool_decide (limit_digits (decimal_limit c scale) =
    Some (10 ^ (if full then digits else digits - 1) - 1)) &&
  (limit_scale (decimal_limit c scale) =? (if full then scale else scale - 1)).

(** For every scale that a Decimal class admits, the printed limit is
    the largest number of that class: all of its digits are nines, [scale] of
    them after the point; at the scale equal to the number of digits the limit
    has one nine less, so it is not the largest value. *)
Lemma decimal_limit_value (c : decimal_class) (scale : Z) :
  0 <= scale <= decimal_digits c →
  let digits := decimal_digits c in
  let full := negb (scale =? digits) in
  limit_digits (decimal_limit c scale) =
    Some (10 ^ (if full then digits else digits - 1) - 1) ∧
  limit_scale (decimal_limit c scale) = (if full then scale else scale - 1) ∧
  max_value (TDecimal c scale) =
    "to" +:+ type_name (TDecimal c scale) +:+ "(" +:+ decimal_limit c scale +:+ ", " +:+
    str_Z scale +:+ ")".
Proof.
  intros Hs. cut (limit_digits (decimal_limit c scale) =
      Some (10 ^ (if negb (scale =? decimal_digits c)
                  then decimal_digits c else decimal_digits c - 1) - 1) ∧
    limit_scale (decimal_limit c scale) =
      (if negb (scale =? decimal_digits c) then scale else scale - 1)).
  { intros [H1 H2]. by split_and!. }
  assert (Hall : Forall (λ s, limit_ok c s = true) (seqZ 0 (decimal_digits c + 1))).
  { apply List.Forall_forall, forallb_forall. destruct c; by_compute. }
  rewrite Forall_forall in Hall. specialize (Hall scale).
  rewrite elem_of_seqZ in Hall. specialize (Hall ltac:(lia)).
  unfold limit_ok in Hall. apply andb_true_iff in Hall as [H1 H2].
  apply bool_decide_eq_true in H1. by apply Z.eqb_eq in H2.
Qed.

Lemma decimal_limit_value_witness :
  limit_digits (decimal_limit Decimal32 9) = Some 99999999 ∧
  limit_scale (decimal_limit Decimal32 9) = 8 ∧
  max_value (TDecimal Decimal32 9) =
    "to" +:+ type_name (TDecimal Decimal32 9) +:+ "(" +:+ decimal_limit Decimal32 9 +:+ ", " +:+
    str_Z 9 +:+ ")".
Proof.
  apply (decimal_limit_value Decimal32 9); simpl; lia.
Defined.
