(* ===== verification/World.v ===== *)
(** * The objects of the framework and the world outside

    State shared by the components that run commands: the attributes of
    [Cluster] (helpers/cluster.py), the context of the current test and a log
    of what was asked of the outside world.  The outside world (terminals of
    the testflows library, the clock, the file system, the other threads) is
    an arbitrary type with the operations of [Env]. *)
From stdpp Require Import gmap.
From Stdlib Require Import Ascii.
From S2P Require Import Prelude PyStr PyDict PyMonad.
Local Open Scope Z_scope.

(** Time is counted in microseconds. *)
Definition sec (n : Z) : Z := n * 1000000.

(** What a terminal returns for a command. *)
Record shell_result := mkResult { exitcode : Z; output : string }.

(** Arguments of [Shell(command=..., name=...)]. *)
Record shell_spec := mkSpec {
  spec_command : option (list string);
  spec_name : option string
}.
Definition local_spec : shell_spec := mkSpec None None.

(** The outside world.  A terminal is known by the number it was created
    with; [env_call h command timeout] is [shell(command, timeout=timeout)].
    [env_absorbs e] tells whether a testflows step that ends with [e] counts
    as passed, so that the test goes on after the step. *)
Class Env (W : Type) := {
  env_open : nat → shell_spec → W → (exn + unit) * W;
  env_enter : nat → W → (exn + unit) * W;
  env_call : nat → string → Z → W → (exn + shell_result) * W;
  env_child : nat → W → bool;
  env_send : nat → string → W → (exn + unit) * W;
  env_exit : nat → W → (exn + unit) * W;
  env_time : W → Z;
  env_sleep : Z → W → W;
  env_threads : W → list string;
  env_tempfile : string → W → string * W;
  env_exists : string → W → bool;
  env_absorbs : exn → bool;
}.
#[export] Hint Mode Env ! : typeclass_instances.

(** What was asked of the world, in order; commands with their answers. *)
Inductive event :=
  | EOpen (h : nat) (spec : shell_spec)
  | EEnter (h : nat)
  | ECall (h : nat) (command : string) (timeout : Z) (answer : exn + shell_result)
  | ESend (h : nat) (text : string)
  | EExit (h : nat)
  | ESleep (t : Z)
  | EFile (name content : string)
  | EClose (h : nat)
  | EReopen (h : nat)
  | EExpect (h : nat) (pattern : option string) (timeout : option Z).

(** A command with its answer, and those of a log *)
Definition said_item : Type := string * (exn + shell_result).
Definition said (tr : list event) : list said_item :=
  omap (λ e, match e with ECall _ c _ r => Some (c, r) | _ => None end) tr.

(** The state: attributes of the [Cluster] object ([bash_] is [_bash], keyed
    by thread and node name), terminals and their [timeout] attribute, the
    running thread, the test context, the log and the world. *)
Record st (W : Type) := mkSt {
  bash_ : dict (string * string) nat;
  control_ : option nat;
  environ : dict string string;
  running : bool;
  locked : bool;
  next_id : nat;
  timeouts : gmap nat Z;
  thread : string;
  clickhouse_version : option string;
  default_query_settings : option (list (string * string));
  trace : list event;
  world : W;
}.
Arguments mkSt {W} _ _ _ _ _ _ _ _ _ _ _ _.
Arguments bash_ {W} _.
Arguments control_ {W} _.
Arguments environ {W} _.
Arguments running {W} _.
Arguments locked {W} _.
Arguments next_id {W} _.
Arguments timeouts {W} _.
Arguments thread {W} _.
Arguments clickhouse_version {W} _.
Arguments default_query_settings {W} _.
Arguments trace {W} _.
Arguments world {W} _.

Section setters.
Context {W : Type}.
Implicit Types (s : st W).

Definition set_bash b s := mkSt b (control_ s) (environ s) (running s) (locked s)
  (next_id s) (timeouts s) (thread s) (clickhouse_version s)
  (default_query_settings s) (trace s) (world s).
Definition set_control c s := mkSt (bash_ s) c (environ s) (running s) (locked s)
  (next_id s) (timeouts s) (thread s) (clickhouse_version s)
  (default_query_settings s) (trace s) (world s).
Definition set_environ e s := mkSt (bash_ s) (control_ s) e (running s) (locked s)
  (next_id s) (timeouts s) (thread s) (clickhouse_version s)
  (default_query_settings s) (trace s) (world s).
Definition set_running r s := mkSt (bash_ s) (control_ s) (environ s) r (locked s)
  (next_id s) (timeouts s) (thread s) (clickhouse_version s)
  (default_query_settings s) (trace s) (world s).
Definition set_locked l s := mkSt (bash_ s) (control_ s) (environ s) (running s) l
  (next_id s) (timeouts s) (thread s) (clickhouse_version s)
  (default_query_settings s) (trace s) (world s).
Definition set_next n s := mkSt (bash_ s) (control_ s) (environ s) (running s) (locked s)
  n (timeouts s) (thread s) (clickhouse_version s)
  (default_query_settings s) (trace s) (world s).
Definition set_timeouts t s := mkSt (bash_ s) (control_ s) (environ s) (running s) (locked s)
  (next_id s) t (thread s) (clickhouse_version s)
  (default_query_settings s) (trace s) (world s).
Definition set_thread t s := mkSt (bash_ s) (control_ s) (environ s) (running s) (locked s)
  (next_id s) (timeouts s) t (clickhouse_version s)
  (default_query_settings s) (trace s) (world s).
Definition set_version v s := mkSt (bash_ s) (control_ s) (environ s) (running s) (locked s)
  (next_id s) (timeouts s) (thread s) v
  (default_query_settings s) (trace s) (world s).
Definition set_world (e : list event) (w : W) s := mkSt (bash_ s) (control_ s) (environ s) (running s) (locked s)
  (next_id s) (timeouts s) (thread s) (clickhouse_version s)
  (default_query_settings s) (trace s ++ e) w.
End setters.

(** ** Primitive operations *)

Section prim.
Context {W : Type} `{Env W}.

(** An answer of the world: a value or an exception. *)
Definition of_sum {A} (r : exn + A) : res A :=
  match r with inl e => Exc e | inr a => Ok a end.

(** Ask the world, and log the event with its answer. *)
Definition ask {A} (e : exn + A → event) (f : W → (exn + A) * W) : M (st W) A := λ s,
  let '(r, w) := f (world s) in (of_sum r, set_world [e r] w s).

Definition now : M (st W) Z := gets (λ s, env_time (world s)).

(** [time.sleep(t)] *)
Definition sleep (t : Z) : M (st W) unit :=
  ask (λ _, ESleep t) (λ w, (inr tt, env_sleep t w)).

(** [tempfile.NamedTemporaryFile("w")] with [content] written and flushed;
    its result is the name of the file. *)
Definition tempfile (content : string) : M (st W) string := λ s,
  let '(name, w) := env_tempfile content (world s) in
  (Ok name, set_world [EFile name content] w s).

(** [Shell(...)] *)
Definition new_shell (spec : shell_spec) : M (st W) nat := λ s,
  let h := next_id s in
  (ask (λ _, EOpen h spec) (env_open h spec);; mret h) (set_next (S h) s).

(** [shell.__enter__()] *)
Definition shell_enter (h : nat) : M (st W) unit := ask (λ _, EEnter h) (env_enter h).

(** [shell.timeout = t] *)
Definition set_timeout (h : nat) (t : Z) : M (st W) unit :=
  modify (λ s, set_timeouts (<[h := t]> (timeouts s)) s).

(** [shell(command, timeout=timeout)]; without a timeout the attribute of
    the terminal applies. *)
Definition shell_call (h : nat) (command : string) (timeout : option Z)
    : M (st W) shell_result :=
  t ← gets (λ s, match timeout with
                 | Some t => t
                 | None => default 0 (timeouts s !! h)
                 end);
  ask (ECall h command t) (env_call h command t).

Definition shell_send (h : nat) (text : string) : M (st W) unit :=
  ask (λ _, ESend h text) (env_send h text).

(** A carriage return, and Ctrl-D. *)
Definition cr : string := String (ascii_of_nat 13) EmptyString.
Definition ctrl_d : string := String (ascii_of_nat 4) EmptyString.

(** [Shell.__exit__]: up to ten times, while there is a child process, send
    [exit] and Ctrl-D, ignoring [OSError]; then the exit of the base class. *)
Definition exit_round (h : nat) : M (st W) unit :=
  child ← gets (λ s, env_child h (world s));
  when child
    (try_except
       (shell_send h ("exit" +:+ cr);; shell_send h (ctrl_d +:+ cr))
       (λ e, match e with OSError => mret tt | e => raise e end)).
Definition shell_exit (h : nat) : M (st W) unit :=
  for_ (seq 0 10) (λ _, exit_round h);;
  ask (λ _, EExit h) (env_exit h).

(** [with By(...): m], where [m] may end in a result that is no failure.
    Other steps of the source run their bodies and pass exceptions on. *)
Definition in_step (m : M (st W) unit) : M (st W) unit :=
  try_except m (λ e, if env_absorbs (W:=W) e then mret tt else raise e).

(** [with self.lock: m].  The lock is not reentrant: taking it again would
    wait for ever. *)
Definition with_lock {A} (m : M (st W) A) : M (st W) A :=
  l ← gets locked;
  if (l : bool) then hang SelfDeadlock
  else modify (set_locked true);; try_finally m (modify (set_locked false)).

Lemma with_lock_Ok_inv {A} (m : M (st W) A) s a s' :
  with_lock m s = (Ok a, s') →
  ∃ s1, m (set_locked true s) = (Ok a, s1) ∧ s' = set_locked false s1.
Proof.
  unfold with_lock, mbind, M_bind, gets. destruct (locked s); [done|]. simpl.
  unfold try_finally. destruct (m _) as [[x|e|y] s1]; simpl; naive_solver.
Qed.
End prim.

(** Instance search sees the primitives as units. *)
#[export] Typeclasses Opaque ask now sleep tempfile new_shell shell_enter set_timeout
  shell_call shell_send shell_exit in_step with_lock.

(** ** Frame relations *)

Section frame.
Context {W : Type} `{Env W}.

(** The log only grows. *)
Definition log_grows (s s' : st W) : Prop := ∃ tr, trace s' = trace s ++ tr.
#[export] Instance log_grows_preorder : PreOrder log_grows.
Proof.
  split.
  - intros s. exists []. by rewrite app_nil_r.
  - intros s1 s2 s3 [t1 H1] [t2 H2]. exists (t1 ++ t2).
    by rewrite H2, H1, app_assoc.
Qed.

(** Two states with the same value of [f]. *)
Definition same {A} (f : st W → A) (s s' : st W) : Prop := f s' = f s.
#[export] Instance same_preorder {A} (f : st W → A) : PreOrder (same f).
Proof. split; unfold same; congruence. Qed.

(** [framed f]: every operation on the world leaves [f] alone. *)
Class WorldFree {A} (f : st W → A) : Prop :=
  world_free : ∀ e w s, f (set_world e w s) = f s.
Class NextFree {A} (f : st W → A) : Prop :=
  next_free : ∀ n s, f (set_next n s) = f s.
Class TimeoutsFree {A} (f : st W → A) : Prop :=
  timeouts_free : ∀ t s, f (set_timeouts t s) = f s.
End frame.

#[export] Hint Extern 0 (WorldFree _) => (intros ???; reflexivity) : typeclass_instances.
#[export] Hint Extern 0 (NextFree _) => (intros ??; reflexivity) : typeclass_instances.
#[export] Hint Extern 0 (TimeoutsFree _) => (intros ??; reflexivity) : typeclass_instances.

Section frame_instances.
Context {W : Type} `{Env W} {A : Type} (f : st W → A).

#[export] Instance same_ask {B} e (g : W → (exn + B) * W) `{!WorldFree f} :
  Preserves (same f) (ask e g).
Proof. intros s. unfold ask, same. destruct (g _). apply world_free. Qed.
#[export] Instance same_tempfile c `{!WorldFree f} : Preserves (same f) (tempfile c).
Proof. intros s. unfold tempfile, same. destruct (env_tempfile c (world s)). apply world_free. Qed.
#[export] Instance same_new_shell spec `{!WorldFree f, !NextFree f} :
  Preserves (same f) (new_shell spec).
Proof.
  intros s. unfold new_shell, same. rewrite <-(next_free (f:=f) (S (next_id s)) s).
  set (m := (_ ;; _)). assert (Preserves (same f) m) as Hm by apply _. apply Hm.
Qed.
#[export] Instance same_set_timeout h t `{!TimeoutsFree f} :
  Preserves (same f) (set_timeout h t).
Proof. intros s. apply timeouts_free. Qed.

#[export] Instance log_ask {B} e (g : W → (exn + B) * W) : Preserves log_grows (ask e g).
Proof. intros s. unfold ask. destruct (g _). by eexists. Qed.
#[export] Instance log_tempfile c : Preserves log_grows (tempfile (W:=W) c).
Proof. intros s. unfold tempfile. destruct (env_tempfile c (world s)). by eexists. Qed.
#[export] Instance log_new_shell spec : Preserves log_grows (new_shell (W:=W) spec).
Proof.
  intros s. unfold new_shell. set (m := (_ ;; _)).
  assert (Preserves log_grows m) as Hm by apply _. apply (Hm (set_next _ s)).
Qed.
#[export] Instance log_set_timeout h t : Preserves log_grows (set_timeout (W:=W) h t).
Proof. intros s. exists []. simpl. by rewrite app_nil_r. Qed.
#[export] Instance log_modify_locked b : Preserves log_grows (modify (set_locked (W:=W) b)).
Proof. intros s. exists []. simpl. by rewrite app_nil_r. Qed.
End frame_instances.

#[export] Hint Extern 1 (Preserves _ now) => unfold now : typeclass_instances.
#[export] Hint Extern 1 (Preserves _ (sleep _)) => unfold sleep : typeclass_instances.
#[export] Hint Extern 1 (Preserves _ (shell_enter _)) => unfold shell_enter : typeclass_instances.
#[export] Hint Extern 1 (Preserves _ (shell_call _ _ _)) => unfold shell_call : typeclass_instances.
#[export] Hint Extern 1 (Preserves _ (shell_send _ _)) => unfold shell_send : typeclass_instances.
#[export] Hint Extern 1 (Preserves _ (shell_exit _)) => unfold shell_exit, exit_round : typeclass_instances.
#[export] Hint Extern 1 (Preserves _ (in_step _)) => unfold in_step : typeclass_instances.
#[export] Hint Extern 1 (Preserves _ (with_lock _)) => unfold with_lock : typeclass_instances.

Section exit_frame.
Context {W : Type} `{Env W}.
#[export] Instance exit_same_bash h : Preserves (same bash_) (shell_exit (W:=W) h).
Proof. apply _. Qed.
#[export] Instance exit_log h : Preserves log_grows (shell_exit (W:=W) h).
Proof. apply _. Qed.
End exit_frame.

(** ** Lock discipline *)

(** [Lk b m]: started with the lock in state [b], [m] never waits for a lock
    that its own thread holds, and leaves the lock as it found it. *)
Section lock.
Context {W : Type} `{Env W}.

Definition lk_post {A} (b : bool) (r : res A) (s : st W) : Prop :=
  match r with
  | Stuck SelfDeadlock => False
  | Stuck OutOfFuel => True
  | _ => locked s = b
  end.

Class Lk {A} (b : bool) (m : M (st W) A) : Prop :=
  lk : ∀ s, locked s = b → lk_post b (m s).1 (m s).2.

#[export] Instance lk_ret {A} b (a : A) : Lk b (mret a : M (st W) A).
Proof. by intros s. Qed.
#[export] Instance lk_raise {A} b e : Lk b (raise e : M (st W) A).
Proof. by intros s. Qed.
#[export] Instance lk_fuel {A} b : Lk b (hang OutOfFuel : M (st W) A).
Proof. by intros s. Qed.
#[export] Instance lk_gets {A} b (f : st W → A) : Lk b (gets f).
Proof. by intros s. Qed.
#[export] Instance lk_or_raise {A} b e (o : option A) :
  Lk b (lift (or_raise e o) : M (st W) A).
Proof. intros s. by destruct o. Qed.
#[export] Instance lk_assert b c out : Lk b (assert_ c out : M (st W) unit).
Proof. intros s. by destruct c. Qed.
#[export] Instance lk_when b c (m : M (st W) unit) : Lk b m → Lk b (when c m).
Proof. destruct c; [done|]. by intros _ s. Qed.
#[export] Instance lk_bind {A B} b (m : M (st W) A) (f : A → M (st W) B) :
  Lk b m → (∀ a, Lk b (f a)) → Lk b (m ≫= f).
Proof.
  intros Hm Hf s Hs. specialize (Hm s Hs). unfold mbind, M_bind.
  destruct (m s) as [[a|e|[]] s']; simpl in *; try done. by apply Hf.
Qed.
#[export] Instance lk_try_except {A} b (m : M (st W) A) h :
  Lk b m → (∀ e, Lk b (h e)) → Lk b (try_except m h).
Proof.
  intros Hm Hf s Hs. specialize (Hm s Hs). unfold try_except.
  destruct (m s) as [[a|e|[]] s']; simpl in *; try done. by apply Hf.
Qed.
#[export] Instance lk_try_else {A B} b (m : M (st W) A) (k : A → M (st W) B) h :
  Lk b m → (∀ a, Lk b (k a)) → (∀ e, Lk b (h e)) → Lk b (try_else m k h).
Proof.
  intros Hm Hk Hf s Hs. specialize (Hm s Hs). unfold try_else.
  destruct (m s) as [[a|e|[]] s']; simpl in *; try done; [by apply Hk|by apply Hf].
Qed.
#[export] Instance lk_try_finally {A} b (m : M (st W) A) f :
  Lk b m → Lk b f → Lk b (try_finally m f).
Proof.
  intros Hm Hf s Hs. specialize (Hm s Hs). unfold try_finally.
  destruct (m s) as [[a|e|[]] s']; simpl in *; try done;
    specialize (Hf s' Hm); by destruct (f s') as [[|?|[]] ?].
Qed.
#[export] Instance lk_try_finally_return {A B} b (m : M (st W) A) (f : res A → M (st W) B) :
  Lk b m → (∀ r, Lk b (f r)) → Lk b (try_finally_return m f).
Proof.
  intros Hm Hf s Hs. specialize (Hm s Hs). unfold try_finally_return.
  destruct (m s) as [[a|e|[]] s']; simpl in *; try done; by apply Hf.
Qed.
#[export] Instance lk_for {A} b (l : list A) (body : A → M (st W) unit) :
  (∀ x, Lk b (body x)) → Lk b (for_ l body).
Proof. intros Hb. induction l; simpl; apply _. Qed.
#[export] Instance lk_mapM {A B} b (l : list A) (f : A → M (st W) B) :
  (∀ x, Lk b (f x)) → Lk b (mapM_ f l).
Proof. intros Hb. induction l; simpl; apply _. Qed.

(** An operation that neither takes the lock nor gets stuck *)
Lemma lk_same {A} b (m : M (st W) A) :
  Preserves (same locked) m → (∀ s w, (m s).1 ≠ Stuck w) → Lk b m.
Proof.
  intros Hp Hw s Hs. specialize (Hp s). specialize (Hw s). unfold same in Hp.
  destruct (m s) as [[a|e|w] s']; simpl in *; try congruence. by destruct (Hw w).
Qed.

#[export] Instance lk_ask {A} b e (f : W → (exn + A) * W) : Lk b (ask e f).
Proof. apply lk_same; [apply _|]. intros s w. unfold ask. by destruct (f _) as [[] ?]. Qed.
#[export] Instance lk_tempfile b c : Lk b (tempfile (W:=W) c).
Proof. apply lk_same; [apply _|]. intros s w. unfold tempfile. by destruct (env_tempfile c _). Qed.
#[export] Instance lk_new_shell b spec : Lk b (new_shell (W:=W) spec).
Proof.
  intros s Hs. unfold new_shell. set (m := (_ ;; _)).
  assert (Lk b m) as Hm by apply _. by apply (Hm (set_next _ s)).
Qed.

Lemma lk_modify b f : (∀ s : st W, locked (f s) = locked s) → Lk b (modify f).
Proof. intros Hf s Hs. simpl. by rewrite Hf. Qed.

#[export] Instance lk_with_lock {A} (m : M (st W) A) :
  Lk true m → Lk false (with_lock m).
Proof.
  intros Hm s Hs. unfold with_lock, mbind, M_bind. simpl. rewrite Hs. simpl.
  unfold modify, try_finally. specialize (Hm (set_locked true s) eq_refl).
  by destruct (m _) as [[a|e|[]] s'].
Qed.
End lock.

#[export] Hint Mode Lk + + + ! : typeclass_instances.
#[export] Hint Extern 0 (Lk _ (modify _)) =>
  (apply lk_modify; intros ?; reflexivity) : typeclass_instances.
#[export] Hint Extern 1 (Lk _ now) => unfold now : typeclass_instances.
#[export] Hint Extern 1 (Lk _ (sleep _)) => unfold sleep : typeclass_instances.
#[export] Hint Extern 1 (Lk _ (in_step _)) => unfold in_step : typeclass_instances.
#[export] Hint Extern 1 (Lk _ (set_timeout _ _)) => unfold set_timeout : typeclass_instances.
#[export] Hint Extern 1 (Lk _ (shell_enter _)) => unfold shell_enter : typeclass_instances.
#[export] Hint Extern 1 (Lk _ (shell_call _ _ _)) => unfold shell_call : typeclass_instances.
#[export] Hint Extern 1 (Lk _ (shell_send _ _)) => unfold shell_send : typeclass_instances.
#[export] Hint Extern 1 (Lk _ (shell_exit _)) => unfold shell_exit, exit_round : typeclass_instances.
#[export] Hint Extern 5 (Lk _ (match ?x with _ => _ end)) =>
  destruct x : typeclass_instances.

(** ** A scripted world *)

(** The world used by the examples: its state is the clock, which every
    operation advances by a second, commands are answered by [answer] from
    their text, and two threads are alive. *)
Definition tick {A} (a : A) (w : Z) : A * Z := (a, w + sec 1).
Definition script_env (answer : string → exn + shell_result) : Env Z := {|
  env_open _ _ := tick (inr tt);
  env_enter _ := tick (inr tt);
  env_call _ command _ := tick (answer command);
  env_child _ _ := false;
  env_send _ _ := tick (inr tt);
  env_exit _ := tick (inr tt);
  env_time w := w;
  env_sleep t w := w + Z.max t 0;
  env_threads _ := ["MainThread"; "worker"];
  env_tempfile _ := tick "/tmp/tmpfile";
  env_exists _ _ := true;
  env_absorbs e := match e with XFail _ | Skip _ => true | _ => false end
|}.

(** ** What the clock guarantees *)

(** Time does not go back, a round trip to a terminal takes at least a
    microsecond, and [sleep] sleeps. *)
Class ClockLaws (W : Type) `{Env W} : Prop := {
  open_time : ∀ h spec (w : W), env_time w < env_time (env_open h spec w).2;
  enter_time : ∀ h (w : W), env_time w < env_time (env_enter h w).2;
  call_time : ∀ h c t (w : W), env_time w < env_time (env_call h c t w).2;
  send_time : ∀ h c (w : W), env_time w <= env_time (env_send h c w).2;
  exit_time : ∀ h (w : W), env_time w < env_time (env_exit h w).2;
  sleep_time : ∀ t (w : W), env_time w + Z.max 0 t <= env_time (env_sleep t w);
  tempfile_time : ∀ c (w : W), env_time w <= env_time (env_tempfile c w).2
}.

Lemma script_clock answer : @ClockLaws Z (script_env answer).
Proof. split; simpl; unfold sec; lia. Qed.

(** Closing a terminal does not fail, other than with the [OSError]s of
    [send] that [Shell.__exit__] catches. *)
Class QuietExit (W : Type) `{Env W} : Prop := {
  exit_quiet : ∀ h (w : W), ∃ w', env_exit h w = (inr tt, w');
  send_quiet : ∀ h c (w : W), ∃ w', env_send h c w = (inr tt, w') ∨
                              env_send h c w = (inl OSError, w')
}.

Lemma script_quiet answer : @QuietExit Z (script_env answer).
Proof. split; simpl; eauto. Qed.

Section quiet.
Context {W : Type} `{Env W, !QuietExit W}.
Implicit Types (s : st W).

Lemma for_total {A} (l : list A) (body : A → M (st W) unit) :
  (∀ x s, ∃ s', body x s = (Ok tt, s')) → ∀ s, ∃ s', for_ l body s = (Ok tt, s').
Proof.
  intros Hb. induction l as [|x l IH]; intros s; simpl; [by eexists|].
  unfold mbind, M_bind. destruct (Hb x s) as [s1 ->]. apply IH.
Qed.

Lemma shell_send_quiet h c s :
  ∃ s', shell_send h c s = (Ok tt, s') ∨ shell_send h c s = (Exc OSError, s').
Proof.
  unfold shell_send, ask. destruct (send_quiet h c (world s)) as [w [E|E]];
    rewrite E; simpl; eauto.
Qed.

Lemma exit_round_total h s : ∃ s', exit_round h s = (Ok tt, s').
Proof.
  unfold exit_round, mbind, M_bind, gets. destruct (env_child h (world s)); simpl; [|eauto].
  unfold try_except, mbind, M_bind.
  destruct (shell_send_quiet h ("exit" +:+ cr) s) as [s1 [E|E]]; rewrite E; [|eauto].
  destruct (shell_send_quiet h (ctrl_d +:+ cr) s1) as [s2 [E2|E2]]; rewrite E2; eauto.
Qed.

(** The terminal is closed, and the log says so. *)
Lemma shell_exit_total h s :
  ∃ s', shell_exit h s = (Ok tt, s') ∧ EExit h ∈ trace s'.
Proof.
  unfold shell_exit, mbind, M_bind.
  destruct (for_total (seq 0 10) (λ _, exit_round h)) with (s := s) as [s1 ->];
    [intros; apply exit_round_total|].
  unfold ask. destruct (exit_quiet h (world s1)) as [w ->].
  eexists. split; [done|]. simpl. set_solver.
Qed.
End quiet.
