(* ===== verification/Cluster.v ===== *)
(** * The docker-compose cluster

    Class [Cluster] of helpers/cluster.py: the control shell, the terminals
    that are kept per thread and node, running commands in them, bringing the
    services down and collecting their logs.  Every [while True] loop of the
    source takes fuel; [Stuck OutOfFuel] marks a loop that needed more. *)
From stdpp Require Import gmap.
From Stdlib Require Import Ascii.
From S2P Require Import Prelude PyStr PyDict PyMonad World.
Local Open Scope Z_scope.

(** Attributes of [Cluster] that no method assigns after [__init__], and the
    [settings.debug] flag of testflows. *)
Record config := mkConfig {
  local : bool;
  clickhouse_binary_path : option string;
  clickhouse_odbc_bridge_binary_path : option string;
  configs_dir : string;
  nodes : dict string (list string);
  docker_compose : string;
  docker_compose_project_dir : string;
  thread_fuzzer : bool;
  collect_service_logs : bool;
  use_zookeeper_nodes : bool;
  debug : bool
}.

(** Expected exit code of a command: none, an integer, or a text such as
    [!=0]. *)
Inductive expected := AnyCode | Code (n : Z) | CodeText (s : string).

(** Keyword arguments of [Cluster.command]. *)
Record command_args := mkArgs {
  message : option string;
  messages : option (list string);
  exitcode_ : expected;
  bash_arg : option nat;
  no_checks : bool;
  timeout_ : option Z
}.
Definition args0 : command_args := mkArgs None None AnyCode None false None.
Definition expect_code (n : Z) : command_args := mkArgs None None (Code n) None false None.
Definition unchecked : command_args := mkArgs None None AnyCode None true None.

(** [f"{node}"] for a node name or [None] *)
Definition node_str (node : option string) : string :=
  match node with None => "None" | Some n => n end.

(** [s.split("\n")] *)
Definition lines (s : string) : list string := split nl s.

Section cluster.
Context {W : Type} `{Env W}.
Variables (fuel : nat) (cl : config).
Abbreviation M := (M (st W)).

(** The loops that open a terminal have one shape: [try] to open it and to
    run [echo 1] in it; on an exception other than [IOError] close the
    terminal bound so far and try [again] until [timeout] has passed. *)
Definition open_retry (again bound : option nat → M nat) (failure : exn)
    (timeout time_start : Z) (e : exn) (last : option nat) : M nat :=
  match e with
  | OSError => raise OSError
  | _ =>
      h ← bound last;
      shell_exit h;;
      t ← now;
      if timeout <? t - time_start then raise failure else again last
  end.
Definition probe (h : nat) : M nat :=
  set_timeout h (sec 30);; shell_call h "echo 1" None;; mret h.
Fixpoint open_loop (fuel : nat) (open : M nat) (bound : option nat → M nat)
    (failure : exn) (timeout time_start : Z) (last : option nat) : M nat :=
  match fuel with
  | O => hang OutOfFuel
  | S fuel =>
      let again := open_loop fuel open bound failure timeout time_start in
      let retry := open_retry again bound failure timeout time_start in
      try_else open
        (λ h, try_except (probe h) (λ e, retry e (Some h)))
        (λ e, retry e last)
  end.

(** The terminal held by the local variable [shell]. *)
Definition local_shell (last : option nat) : M nat :=
  match last with Some h => mret h | None => raise (UnboundLocalError "shell") end.

(** [Cluster.control_shell] *)
Definition control_shell : M nat :=
  c ← gets control_;
  match c with
  | Some h => mret h
  | None =>
      time_start ← now;
      shell ← open_loop fuel (new_shell local_spec) local_shell
                (RuntimeError "failed to open control shell") (sec 300) time_start None;
      modify (set_control (Some shell));;
      mret shell
  end.

(** [Cluster.close_control_shell] *)
Definition close_control_shell : M unit :=
  c ← gets control_;
  match c with
  | None => mret tt
  | Some shell => modify (set_control None);; shell_exit shell
  end.

(** The loop of [Cluster.node_container_id]; the timeout that is left
    shrinks by all the time since the start, at every attempt. *)
Fixpoint container_id_loop (n : nat) (node : string) (timeout time_start : Z)
    : M string :=
  match n with
  | O => hang OutOfFuel
  | S n =>
      found ← try_except
        (shell ← control_shell;
         c ← shell_call shell (docker_compose cl +:+ " ps -q " +:+ node) (Some timeout);
         let container_id := strip (output c) in
         mret (if (exitcode c =? 0) && (1 <? slen container_id)%nat
               then Some container_id else None))
        (λ e, match e with
              | ExpectTimeoutError => close_control_shell;; mret None
              | e => raise e
              end);
      match found with
      | Some container_id => mret container_id
      | None =>
          t ← now;
          let timeout := timeout - (t - time_start) in
          if timeout <=? 0
          then raise (RuntimeError ("failed to get docker container id for the " +:+
                                    node +:+ " service"))
          else sleep (sec 1);; container_id_loop n node timeout time_start
      end
  end.

(** [Cluster.node_container_id] *)
Definition node_container_id (node : string) (timeout : Z) : M string :=
  time_start ← now; container_id_loop fuel node timeout time_start.

(** The terminal specification for a container *)
Definition container_spec (container_id node command : string) : shell_spec :=
  mkSpec (Some ["/bin/bash"; "--noediting"; "-c";
                "docker exec -it " +:+ container_id +:+ " " +:+ command])
         (Some node).

(** [Cluster.shell] *)
Definition shell (node : option string) (timeout : Z) : M nat :=
  container_id ← (match node with
    | Some node => with_lock (id ← node_container_id node timeout; mret (Some id))
    | None => mret None
    end : M (option string));
  time_start ← now;
  let spec := match node with
              | None => local_spec
              | Some n => container_spec (default "None" container_id) n "bash --noediting"
              end in
  shell ← open_loop fuel (new_shell spec) local_shell
            (RuntimeError ("failed to open bash to node " +:+ node_str node))
            timeout time_start None;
  set_timeout shell timeout;;
  mret shell.

(** [self._bash[id]] *)
Definition bash_at (id : string * string) : M nat :=
  b ← gets (λ s, dget id (bash_ s));
  match b with Some h => mret h | None => raise (KeyError id.2) end.

(** Close the terminals of threads that have exited. *)
Definition close_stale : M unit :=
  active ← gets (λ s, env_threads (world s));
  keys ← gets (λ s, dkeys (bash_ s));
  for_ keys (λ bash_id,
    when (bool_decide (bash_id.1 ∉ active))
      (h ← bash_at bash_id; shell_exit h;;
       modify (λ s, set_bash (ddel bash_id (bash_ s)) s))).

(** [self._bash[id] = Shell()] for the local node, else
    [self._bash[id] = Shell(...).__enter__()] *)
Definition new_bash (id : string * string) (node container_id : option string)
    (command : string) : M nat :=
  h ← new_shell (match node with
                 | None => local_spec
                 | Some n => container_spec (default "None" container_id) n command
                 end);
  match node with None => mret tt | Some _ => shell_enter h end;;
  modify (λ s, set_bash (dset id h (bash_ s)) s);;
  mret h.

(** The part of [Cluster.bash] that opens a new terminal for [id]. *)
Definition open_bash (id : string * string) (node : option string) (timeout : Z)
    (command : string) : M unit :=
  container_id ← (match node with
    | Some n => id ← node_container_id n timeout; mret (Some id)
    | None => mret None
    end : M (option string));
  time_start ← now;
  h ← open_loop fuel (new_bash id node container_id command) (λ _, bash_at id)
        (RuntimeError ("failed to open bash to node " +:+ node_str node))
        timeout time_start None;
  match node with
  | None =>
      e ← gets environ;
      for_ e (λ nv, shell_call h ("export " +:+ nv.1 +:+ "=" +:+ nv.2) None;; mret tt)
  | Some _ => mret tt
  end;;
  set_timeout h timeout;;
  close_stale.

(** [Cluster.bash] *)
Definition bash (node : option string) (timeout : Z) (command : string) : M nat :=
  t ← gets thread;
  let id := (t, node_str node) in
  with_lock
    (b ← gets (λ s, dget id (bash_ s));
     match b with Some _ => mret tt | None => open_bash id node timeout command end;;
     bash_at id).

(** [self.bash(node)] *)
Definition bash0 (node : option string) : M nat := bash node (sec 300) "bash --noediting".

(** [Cluster.close_bash] *)
Definition close_bash (node : option string) : M unit :=
  t ← gets thread;
  let id := (t, node_str node) in
  with_lock
    (b ← gets (λ s, dget id (bash_ s));
     match b with
     | None => mret tt
     | Some h => shell_exit h;; modify (λ s, set_bash (ddel id (bash_ s)) s)
     end).

(** [Node.close_bashes] for the node called [name] *)
Definition close_bashes (name : string) : M unit :=
  with_lock
    (keys ← gets (λ s, dkeys (bash_ s));
     for_ keys (λ key,
       when (endswith name key.2)
         (h ← bash_at key;
          modify (λ s, set_bash (ddel key (bash_ s)) s);;
          shell_exit h))).

(** The exit code check of [Cluster.command]. *)
Definition check_exitcode (e : expected) (r : shell_result) : M unit :=
  match e with
  | AnyCode => mret tt
  | Code n => assert_ (exitcode r =? n) (output r)
  | CodeText s =>
      if startswith "!=" s then
        match py_int (strip (after_first "!=" s)) with
        | None => raise (ValueError s)
        | Some n => assert_ (negb (exitcode r =? n)) (output r)
        end
      else assert_ false (output r)
  end.

(** The messages that [Cluster.command] looks for: an empty [message] counts
    as none. *)
Definition expected_messages (a : command_args) : list string :=
  let messages := default [] (messages a) in
  match message a with
  | None => messages
  | Some m => if String.eqb m EmptyString then messages else m :: messages
  end.

(** [Cluster.command] *)
Definition command (node : option string) (cmd : string) (a : command_args)
    : M shell_result :=
  h ← (match bash_arg a with Some h => mret h | None => bash0 node end : M nat);
  r ← try_except (shell_call h cmd (timeout_ a))
        (λ e, match e with
              | ExpectTimeoutError => close_bash node;; raise e
              | e => raise e
              end);
  if no_checks a then mret r
  else
    check_exitcode (exitcode_ a) r;;
    for_ (expected_messages a) (λ m, assert_ (contains m (output r)) (output r));;
    mret r.

(** [self.nodes[k]] *)
Definition nodes_of (k : string) : M (list string) :=
  lift (or_raise (KeyError k) (dget k (nodes cl))).

(** One turn of the loop of [down]: the terminal under [id] is taken out and
    closed, unless it is the one in use, which is put back. *)
Definition close_other (bash : nat) (id : string * string) : M unit :=
  shell ← bash_at id;
  modify (λ s, set_bash (ddel id (bash_ s)) s);;
  if (shell =? bash)%nat
  then modify (λ s, set_bash (dset id shell (bash_ s)) s)
  else shell_exit shell.

(** [Cluster.down] *)
Definition down (timeout : Z) : M shell_result :=
  r ← gets running;
  when (debug cl && r)
    (l ← nodes_of "clickhouse";
     for_ l (λ node,
       command (Some node)
         ("echo -e " +:+ dq +:+ nl +:+ "-- sending stop to: " +:+ node +:+ " --" +:+ nl +:+
          dq +:+ " >> /var/log/clickhouse-server/clickhouse-server.log") args0;;
       mret tt));;
  (* an exception of the loop is dropped by the [return] in [finally] *)
  try_finally_return
    (bash ← bash0 None;
     try_else
       (with_lock
          (keys ← gets (λ s, dkeys (bash_ s));
           for_ keys (close_other bash)))
       (λ _, mret bash) (λ _, mret bash))
    (λ r,
       bash ← (match r with
               | Ok bash => mret bash
               | _ => raise (UnboundLocalError "bash")
               end : M nat);
       cmd ← command None
         (docker_compose cl +:+ " down -v --remove-orphans --timeout 60")
         (mkArgs None None AnyCode (Some bash) false (Some timeout));
       with_lock
         (c ← gets control_;
          match c with
          | Some h => shell_exit h;; modify (set_control None)
          | None => mret tt
          end);;
       mret cmd).

(** [with Shell() as bash: m bash] *)
Definition with_shell {A} (m : nat → M A) : M A :=
  bash ← new_shell local_spec;
  shell_enter bash;;
  try_finally (m bash) (shell_exit bash).

(** The part of [Cluster.__exit__] that collects the logs of the services. *)
Definition collect_logs : M unit :=
  with_shell (λ bash,
    shell_call bash ("cd " +:+ docker_compose_project_dir cl) (Some (sec 1000));;
    r ← shell_call bash "docker-compose ps --services" None;
    for_ (lines (output r)) (λ node,
      in_step (
      let log_path := "../_instances" in
      snode ← shell_call bash ("docker-compose logs " +:+ node +:+ " > " +:+ log_path +:+
                               "/" +:+ node +:+ ".log") (Some (sec 1000));
      when (negb (exitcode snode =? 0))
        (raise (XFail ("failed to get service log - exitcode " +:+ str_Z (exitcode snode))))))).

(** [Cluster.__exit__] *)
Definition cluster_exit : M unit :=
  try_finally
    (when (collect_service_logs cl) collect_logs;;
     down (sec 300);; mret tt)
    (with_lock
       (l ← gets (λ s, dvalues (bash_ s));
        for_ l shell_exit)).
End cluster.

(** Instance search sees the methods as units. *)
#[export] Typeclasses Opaque open_loop local_shell control_shell close_control_shell
  container_id_loop node_container_id shell bash_at close_stale new_bash open_bash
  bash bash0 close_bash close_bashes check_exitcode command nodes_of close_other down with_shell
  collect_logs cluster_exit.

(** ** The lock *)

Section lock_facts.
Context {W : Type} `{Env W}.
Variables (fuel : nat) (cl : config).

#[export] Instance lk_open_loop b n (open : M (st W) nat) bound failure timeout t0 last :
  Lk b open → (∀ l, Lk b (bound l)) →
  Lk b (open_loop n open bound failure timeout t0 last).
Proof.
  intros Ho Hb. revert last. induction n as [|n IH]; intros last; cbn [open_loop]; [apply _|].
  unfold open_retry, probe. apply _.
Qed.

#[export] Instance lk_local_shell b l : Lk b (local_shell (W:=W) l).
Proof. unfold local_shell. apply _. Qed.
#[export] Instance lk_control_shell b : Lk b (control_shell (W:=W) fuel).
Proof. unfold control_shell. apply _. Qed.
#[export] Instance lk_close_control_shell b : Lk b (close_control_shell (W:=W)).
Proof. unfold close_control_shell. apply _. Qed.
#[export] Instance lk_container_id_loop b n node timeout t0 :
  Lk b (container_id_loop (W:=W) fuel cl n node timeout t0).
Proof.
  revert timeout. induction n as [|n IH]; intros timeout; cbn [container_id_loop]; [apply _|].
  apply _.
Qed.
#[export] Instance lk_node_container_id b node timeout :
  Lk b (node_container_id (W:=W) fuel cl node timeout).
Proof. unfold node_container_id. apply _. Qed.
#[export] Instance lk_bash_at b id : Lk b (bash_at (W:=W) id).
Proof. unfold bash_at. apply _. Qed.
#[export] Instance lk_close_stale b : Lk b (close_stale (W:=W)).
Proof. unfold close_stale. apply _. Qed.
#[export] Instance lk_open_bash b id node timeout cmd :
  Lk b (open_bash (W:=W) fuel cl id node timeout cmd).
Proof. unfold open_bash, new_bash. apply _. Qed.
#[export] Instance lk_bash node timeout cmd : Lk false (bash (W:=W) fuel cl node timeout cmd).
Proof. unfold bash. apply _. Qed.
#[export] Instance lk_bash0 node : Lk false (bash0 (W:=W) fuel cl node).
Proof. unfold bash0. apply _. Qed.
#[export] Instance lk_shell node timeout : Lk false (shell (W:=W) fuel cl node timeout).
Proof. unfold shell. apply _. Qed.
#[export] Instance lk_close_bash node : Lk false (close_bash (W:=W) node).
Proof. unfold close_bash. apply _. Qed.
#[export] Instance lk_close_bashes name : Lk false (close_bashes (W:=W) name).
Proof. unfold close_bashes. apply _. Qed.
#[export] Instance lk_check_exitcode b e r : Lk b (check_exitcode (W:=W) e r).
Proof. unfold check_exitcode. apply _. Qed.
#[export] Instance lk_command node cmd a : Lk false (command (W:=W) fuel cl node cmd a).
Proof. unfold command. apply _. Qed.
#[export] Instance lk_nodes_of b k : Lk b (nodes_of (W:=W) cl k).
Proof. unfold nodes_of. apply _. Qed.
#[export] Instance lk_close_other b h id : Lk b (close_other (W:=W) h id).
Proof. unfold close_other. apply _. Qed.
#[export] Instance lk_down timeout : Lk false (down (W:=W) fuel cl timeout).
Proof. unfold down. apply _. Qed.
#[export] Instance lk_with_shell {A} b (m : nat → M (st W) A) :
  (∀ h, Lk b (m h)) → Lk b (with_shell m).
Proof. unfold with_shell. apply _. Qed.
#[export] Instance lk_collect_logs b : Lk b (collect_logs (W:=W) cl).
Proof. unfold collect_logs. apply _. Qed.
#[export] Instance lk_cluster_exit : Lk false (cluster_exit (W:=W) fuel cl).
Proof. unfold cluster_exit. apply _. Qed.
End lock_facts.

(** ** Examples *)

Definition plain_config : config :=
  mkConfig false None None "/configs" [("clickhouse", ["clickhouse1"])] "docker-compose"
    "/project" false false false false.

(** A docker host where every service runs in the container [abc], terminals
    work, and [cat /missing] times out. *)
Definition healthy : string → exn + shell_result := λ command,
  if startswith "docker-compose ps -q" command then inr (mkResult 0 ("abc" +:+ nl))
  else if String.eqb command "cat /missing" then inl ExpectTimeoutError
  else inr (mkResult 0 command).
