(* ===== verification/Shells.v ===== *)
(** * Terminals are private to a thread and a node

    The invariant of [Cluster._bash] (helpers/cluster.py): whatever threads
    do, in whatever order, each terminal is held under one key, is not the
    control shell, and was opened on the node that the key names.  The
    methods take the cluster lock for their whole access to the dictionary,
    so a run of several threads is a sequence of method calls. *)
From stdpp Require Import gmap relations.
From S2P Require Import Prelude PyStr PyDict PyMonad World Cluster.
Local Open Scope Z_scope.

Section shells.
Context {W : Type} `{Env W}.
Variables (fuel : nat) (cl : config).
Implicit Types (s : st W).

Record shells_ok s : Prop := {
  ok_keys : dwf (bash_ s);
  ok_distinct : NoDup (dvalues (bash_ s));
  ok_old : ∀ h, (h ∈ dvalues (bash_ s)) → (h < next_id s)%nat;
  ok_control : ∀ h, control_ s = Some h → (h ∉ dvalues (bash_ s)) ∧ (h < next_id s)%nat;
  ok_node : ∀ t n h, dget (t, n) (bash_ s) = Some h →
    ∃ spec, EOpen h spec ∈ trace s ∧ node_str (spec_name spec) = n
}.

(** The state after is as good as the state before. *)
Definition kept s s' : Prop := shells_ok s → shells_ok s'.
#[export] Instance kept_preorder : PreOrder kept.
Proof. split; unfold kept; [by intros s|intros s1 s2 s3; auto]. Qed.

(** Terminals may be created, none is stored. *)
Definition created s s' : Prop :=
  bash_ s' = bash_ s ∧ control_ s' = control_ s ∧ (next_id s <= next_id s')%nat ∧
  log_grows s s'.
#[export] Instance created_preorder : PreOrder created.
Proof.
  split.
  - intros s. split_and!; [done..|lia|reflexivity].
  - intros s1 s2 s3 (A1 & A2 & A3 & A4) (B1 & B2 & B3 & B4).
    split_and!; [congruence..|lia|by etrans].
Qed.

Lemma created_kept s s' : created s s' → kept s s'.
Proof.
  intros (Hb & Hc & Hn & [tr Ht]) []. constructor; rewrite ?Hb, ?Hc, ?Ht; try done.
  - intros h Hh. specialize (ok_old0 h Hh). lia.
  - intros h Hh. destruct (ok_control0 h Hh). split; [done|lia].
  - intros t n h Hh. destruct (ok_node0 t n h Hh) as (spec & He & Hs).
    exists spec. split; [|done]. rewrite elem_of_app. by left.
Qed.

Lemma preserves_created_kept {A} (m : M (st W) A) :
  Preserves created m → Preserves kept m.
Proof. intros Hm s. apply created_kept, Hm. Qed.

#[export] Instance created_ask {A} e (f : W → (exn + A) * W) : Preserves created (ask e f).
Proof.
  intros s. unfold ask. destruct (f _). split_and!; simpl; [done..|]. by eexists.
Qed.
#[export] Instance created_tempfile c : Preserves created (tempfile (W:=W) c).
Proof.
  intros s. unfold tempfile. destruct (env_tempfile c _). split_and!; simpl; [done..|].
  by eexists.
Qed.
Lemma created_new_shell_fresh spec s :
  created s (new_shell spec s).2 ∧
  EOpen (next_id s) spec ∈ trace (new_shell spec s).2 ∧
  next_id (new_shell spec s).2 = S (next_id s) ∧
  match (new_shell spec s).1 with Ok h => h = next_id s | _ => True end.
Proof.
  unfold new_shell, mbind, M_bind, ask. simpl.
  destruct (env_open _ _ _) as [[e|[]] w]; simpl;
    (split_and!; [split_and!; simpl; [done..|lia|by eexists]| |done..]); set_solver.
Qed.
#[export] Instance created_new_shell spec : Preserves created (new_shell (W:=W) spec).
Proof. intros s. apply created_new_shell_fresh. Qed.
Lemma created_modify (f : st W → st W) :
  (∀ s, bash_ (f s) = bash_ s ∧ control_ (f s) = control_ s ∧ next_id (f s) = next_id s ∧
        trace (f s) = trace s) → Preserves created (modify f).
Proof.
  intros Hf s. destruct (Hf s) as (H1 & H2 & H3 & H4). simpl.
  split_and!; [done..|lia|]. exists []. by rewrite H4, app_nil_r.
Qed.
End shells.

#[export] Hint Extern 0 (Preserves created (modify _)) =>
  (apply created_modify; intros ?; split_and!; reflexivity) : typeclass_instances.
#[export] Hint Extern 0 (Preserves kept (modify _)) =>
  (apply preserves_created_kept, created_modify; intros ?; split_and!; reflexivity)
  : typeclass_instances.
#[export] Hint Extern 1 (Preserves _ (set_timeout _ _)) => unfold set_timeout : typeclass_instances.
#[export] Hint Extern 1 (Preserves kept (ask _ _)) =>
  apply preserves_created_kept : typeclass_instances.
#[export] Hint Extern 1 (Preserves kept (new_shell _)) =>
  apply preserves_created_kept : typeclass_instances.
#[export] Hint Extern 1 (Preserves kept (tempfile _)) =>
  apply preserves_created_kept : typeclass_instances.

Section shells_methods.
Context {W : Type} `{Env W}.
Variables (fuel : nat) (cl : config).
Implicit Types (s : st W).

(** A terminal made by [open] is younger than the state it started in. *)
Definition fresh (m : M (st W) nat) : Prop := ∀ s,
  match m s with (Ok h, s') => (next_id s <= h < next_id s')%nat | _ => True end.

Lemma fresh_new_shell spec : fresh (new_shell spec).
Proof.
  intros s. destruct (created_new_shell_fresh spec s) as (_ & _ & Hn & Hr).
  destruct (new_shell spec s) as [[h|e|w] s']; simpl in *; lia.
Qed.

Lemma fresh_raise e : fresh (raise e).
Proof. by intros s. Qed.

Lemma fresh_bind {A} (m : M (st W) A) f :
  Preserves created m → (∀ a, fresh (f a)) → fresh (m ≫= f).
Proof.
  intros Hm Hf s. destruct (Hm s) as (_ & _ & Hn & _). unfold mbind, M_bind.
  destruct (m s) as [[a|e|w] s1]; try done. specialize (Hf a s1). simpl in *.
  destruct (f a s1) as [[h|e|w] s2]; try done. lia.
Qed.

#[export] Instance created_local_shell l : Preserves created (local_shell (W:=W) l).
Proof. unfold local_shell. apply _. Qed.

#[export] Instance created_open_loop n spec failure timeout t0 last :
  Preserves created (open_loop n (new_shell (W:=W) spec) local_shell failure timeout t0 last).
Proof.
  revert last. induction n as [|n IH]; intros last; cbn [open_loop]; [apply _|].
  unfold open_retry, probe. apply _.
Qed.

Lemma fresh_open_loop n spec failure timeout t0 last :
  fresh (open_loop n (new_shell spec) local_shell failure timeout t0 last).
Proof.
  revert last. induction n as [|n IH]; intros last s; [done|].
  cbn [open_loop]. set (again := open_loop n _ _ _ _ _).
  set (retry := open_retry again _ _ _ _).
  assert (Hr : ∀ e l, fresh (retry e l)).
  { intros e l. unfold retry, open_retry. destruct e; try apply fresh_raise.
    all: apply fresh_bind; [apply _|intros h]; apply fresh_bind;
      [unfold shell_exit; apply _|intros _]; apply fresh_bind; [unfold now; apply _|].
    all: intros t; destruct (_ <? _); [apply fresh_raise|apply IH]. }
  clearbody retry. unfold try_else. pose proof (fresh_new_shell spec s) as Hn.
  destruct (created_new_shell_fresh spec s) as (Hc & _).
  destruct (new_shell spec s) as [[h|e|w] s1]; simpl in *; [| |done].
  - unfold try_except, probe, mbind, M_bind. simpl.
    assert (Ha : Preserves created (shell_call (W:=W) h "echo 1" None))
      by (unfold shell_call; apply _).
    specialize (Ha (set_timeouts (<[h:=sec 30]> (timeouts s1)) s1)).
    destruct (shell_call _ _ _ _) as [[r|e|w] s2]; simpl in *; [..|done].
    + destruct Ha as (_ & _ & Ha & _). simpl in Ha. lia.
    + specialize (Hr e (Some h) s2).
      destruct (retry e (Some h) s2) as [[x|e'|w] s3]; try done.
      destruct Ha as (_ & _ & Ha & _). simpl in *. lia.
  - specialize (Hr e last s1). destruct (retry e last s1) as [[x|e'|w] s3]; try done.
    destruct Hc as (_ & _ & Hc & _). simpl in *. lia.
Qed.

(** *** Storing and removing terminals *)

#[export] Instance kept_del k :
  Preserves kept (modify (λ s : st W, set_bash (ddel k (bash_ s)) s)).
Proof.
  intros s [Kk Kd Ko Kc Kn]. pose proof (dvalues_ddel_sublist k (bash_ s)) as Hsub. constructor; simpl.
  - by apply dwf_ddel.
  - by eapply sublist_NoDup.
  - intros h Hh. apply Ko. by eapply elem_of_sublist.
  - intros h Hh. destruct (Kc h Hh) as [Hn Hl]. split; [|done].
    contradict Hn. by eapply elem_of_sublist.
  - intros t n h Hh. eapply Kn. by eapply dget_ddel_Some.
Qed.

#[export] Instance kept_no_control : Preserves kept (modify (set_control (W:=W) None)).
Proof. intros s []. by constructor. Qed.

(** A terminal that is new, or was just taken out, is stored. *)
Lemma shells_ok_set t n h s :
  shells_ok s → (h ∉ dvalues (bash_ s)) → (h < next_id s)%nat → control_ s ≠ Some h →
  (∃ spec, EOpen h spec ∈ trace s ∧ node_str (spec_name spec) = n) →
  shells_ok (set_bash (dset (t, n) h (bash_ s)) s).
Proof.
  intros [Kk Kd Ko Kc Kn] Hn Hl Hc Hs. constructor; simpl.
  - by apply dwf_dset.
  - by apply NoDup_dvalues_dset.
  - intros x Hx. apply elem_of_dvalues_dset in Hx as [->|Hx]; auto.
  - intros x Hx. destruct (Kc x Hx) as [H1 H2]. split; [|done].
    intros Hin. apply elem_of_dvalues_dset in Hin as [->|Hin]; done.
  - intros t' n' h' Hget. destruct (decide ((t', n') = (t, n))) as [[= -> ->]|Hne].
    + rewrite dget_dset in Hget. by simplify_eq.
    + rewrite dget_dset_ne in Hget by done. eauto.
Qed.

#[export] Instance kept_control_shell : Preserves kept (control_shell (W:=W) fuel).
Proof.
  intros s Hok. unfold control_shell. unfold mbind, M_bind, gets, now. simpl.
  destruct (control_ s) as [h|] eqn:Hc; [done|]. simpl.
  set (m := open_loop _ _ _ _ _ _ _).
  assert (Hm : Preserves created m) by (unfold m; apply _).
  assert (Hf : fresh m) by apply fresh_open_loop. clearbody m.
  specialize (Hm s). specialize (Hf s). pose proof (created_kept _ _ Hm Hok) as Hok'.
  destruct (m s) as [[h|e|w] s']; simpl in *; [|done..].
  destruct Hm as (Hb & _ & _ & _), Hok' as [K1 K2 K3 K4 K5]. constructor; simpl; try done.
  intros h' [= <-]. split; [|lia]. rewrite Hb. intros Hin. apply (ok_old _ Hok) in Hin. lia.
Qed.

#[export] Instance kept_close_control_shell : Preserves kept (close_control_shell (W:=W)).
Proof. unfold close_control_shell. apply _. Qed.

#[export] Instance kept_container_id_loop n node timeout t0 :
  Preserves kept (container_id_loop (W:=W) fuel cl n node timeout t0).
Proof.
  revert timeout. induction n as [|n IH]; intros timeout; cbn [container_id_loop]; [apply _|].
  apply _.
Qed.

#[export] Instance kept_node_container_id node timeout :
  Preserves kept (node_container_id (W:=W) fuel cl node timeout).
Proof. unfold node_container_id. apply _. Qed.

#[export] Instance kept_bash_at id : Preserves kept (bash_at (W:=W) id).
Proof. unfold bash_at. apply _. Qed.

#[export] Instance kept_new_bash t node cid cmd :
  Preserves kept (new_bash (W:=W) (t, node_str node) node cid cmd).
Proof.
  intros s Hok. unfold new_bash. set (spec := match node with None => _ | _ => _ end).
  assert (Hspec : node_str (spec_name spec) = node_str node) by by destruct node.
  clearbody spec. unfold mbind at 1, M_bind.
  destruct (created_new_shell_fresh spec s) as (Hc & Ho & Hn & Hr).
  destruct (new_shell spec s) as [[h|e|w] s1]; simpl in *;
    [subst h|by eapply created_kept..].
  set (m := match node with None => _ | _ => _ end).
  assert (Hm : Preserves created m) by (unfold m; destruct node; apply _).
  specialize (Hm s1). clearbody m. unfold mbind, M_bind.
  assert (Hk : created s (m s1).2) by by etrans.
  destruct (m s1) as [[[]|e|w] s2]; simpl in *; [|by eapply created_kept..].
  destruct Hk as (Hb & Hc2 & Hn2 & Ht2), Hm as (_ & _ & Hn3 & [tr Htr]).
  apply shells_ok_set.
  - by eapply (created_kept s).
  - rewrite Hb. intros Hin. apply (ok_old _ Hok) in Hin. lia.
  - lia.
  - rewrite Hc2. intros Hx. apply (ok_control _ Hok) in Hx. lia.
  - exists spec. split; [|done]. rewrite Htr, elem_of_app. by left.
Qed.

Lemma kept_open_loop n open bound failure timeout t0 last :
  Preserves kept open → (∀ l, Preserves kept (bound l)) →
  Preserves kept (open_loop (W:=W) n open bound failure timeout t0 last).
Proof.
  intros Ho Hb. revert last. induction n as [|n IH]; intros last; cbn [open_loop]; [apply _|].
  unfold open_retry, probe. apply _.
Qed.

#[export] Instance kept_close_stale : Preserves kept (close_stale (W:=W)).
Proof. unfold close_stale. apply _. Qed.

#[export] Instance kept_open_bash t node timeout cmd :
  Preserves kept (open_bash (W:=W) fuel cl (t, node_str node) node timeout cmd).
Proof.
  unfold open_bash. apply preserves_bind; [apply _..|]. intros cid.
  apply preserves_bind; [apply _..|]. intros t0.
  apply preserves_bind; [apply _|apply kept_open_loop; apply _|]. intros h. apply _.
Qed.

(** The thread of a method is the one that runs it. *)
#[export] Instance kept_bash node timeout cmd :
  Preserves kept (bash (W:=W) fuel cl node timeout cmd).
Proof. unfold bash. apply _. Qed.
#[export] Instance kept_bash0 node : Preserves kept (bash0 (W:=W) fuel cl node).
Proof. unfold bash0. apply _. Qed.
#[export] Instance kept_shell node timeout : Preserves kept (shell (W:=W) fuel cl node timeout).
Proof.
  unfold shell. apply preserves_bind; [apply _..|]. intros cid.
  apply preserves_bind; [apply _..|]. intros t0.
  apply preserves_bind; [apply _|apply preserves_created_kept; apply _|]. apply _.
Qed.
#[export] Instance kept_close_bash node : Preserves kept (close_bash (W:=W) node).
Proof. unfold close_bash. apply _. Qed.
#[export] Instance kept_close_bashes name : Preserves kept (close_bashes (W:=W) name).
Proof. unfold close_bashes. apply _. Qed.
#[export] Instance kept_check_exitcode e r : Preserves kept (check_exitcode (W:=W) e r).
Proof. unfold check_exitcode. apply _. Qed.
#[export] Instance kept_command node cmd a :
  Preserves kept (command (W:=W) fuel cl node cmd a).
Proof. unfold command. apply _. Qed.
End shells_methods.

Section shells_reachable.
Context {W : Type} `{Env W}.
Variables (fuel : nat) (cl : config).
Implicit Types (s : st W).

(** [down] takes its own terminal out of the dictionary and puts it back. *)
#[export] Instance kept_close_other b id : Preserves kept (close_other (W:=W) b id).
Proof.
  intros s Hok. unfold close_other, bash_at, mbind, M_bind, gets. simpl.
  destruct (dget id (bash_ s)) as [h|] eqn:Hg; simpl; [|done].
  assert (Hok' : shells_ok (set_bash (ddel id (bash_ s)) s)).
  { assert (Hp : Preserves kept (modify (λ s : st W, set_bash (ddel id (bash_ s)) s)))
      by apply _. apply (Hp s Hok). }
  destruct (h =? b)%nat.
  - destruct id as [t n]. pose proof Hok as [Kk Kd Ko Kc Kn].
    apply (shells_ok_set t n h (set_bash (ddel (t, n) (bash_ s)) s)); simpl.
    + done.
    + intros Hin. apply list_elem_of_fmap in Hin as ([k v] & -> & Hin).
      assert (Hk : k ∈ dkeys (ddel (t, n) (bash_ s))).
      { apply list_elem_of_fmap. by exists (k, v). }
      apply elem_of_dkeys_ddel in Hk as [Hne _]; [|done].
      assert (dget k (ddel (t, n) (bash_ s)) = Some v) as Hv.
      { apply dget_elem_of; [by apply dwf_ddel|done]. }
      rewrite dget_ddel_ne in Hv by done. apply Hne. by eapply dget_inj.
    + by eapply Ko, elem_of_dvalues, dget_Some.
    + intros Hx. apply Kc in Hx as [Hx _]. by eapply Hx, elem_of_dvalues, dget_Some.
    + by eapply Kn.
  - assert (He : Preserves kept (shell_exit (W:=W) h)) by (unfold shell_exit; apply _).
    by apply He.
Qed.

#[export] Instance kept_nodes_of k : Preserves kept (nodes_of (W:=W) cl k).
Proof. unfold nodes_of. apply _. Qed.
#[export] Instance kept_down timeout : Preserves kept (down (W:=W) fuel cl timeout).
Proof. unfold down. apply _. Qed.
#[export] Instance kept_with_shell {A} (m : nat → M (st W) A) :
  (∀ h, Preserves kept (m h)) → Preserves kept (with_shell m).
Proof. unfold with_shell. apply _. Qed.
#[export] Instance kept_collect_logs : Preserves kept (collect_logs (W:=W) cl).
Proof. unfold collect_logs. apply _. Qed.
#[export] Instance kept_cluster_exit : Preserves kept (cluster_exit (W:=W) fuel cl).
Proof. unfold cluster_exit. apply _. Qed.

(** ** Reachable states *)

(** A method of the cluster, as some thread calls it. *)
Inductive method :=
  | CallBash (node : option string) (timeout : Z) (command : string)
  | CallShell (node : option string) (timeout : Z)
  | CallCloseBash (node : option string)
  | CallCloseBashes (name : string)
  | CallCommand (node : option string) (cmd : string) (a : command_args)
  | CallDown (timeout : Z)
  | CallExit.

Definition run_method (m : method) : M (st W) unit :=
  match m with
  | CallBash node timeout cmd => bash fuel cl node timeout cmd;; mret tt
  | CallShell node timeout => shell fuel cl node timeout;; mret tt
  | CallCloseBash node => close_bash node
  | CallCloseBashes name => close_bashes name
  | CallCommand node cmd a => command fuel cl node cmd a;; mret tt
  | CallDown timeout => down fuel cl timeout;; mret tt
  | CallExit => cluster_exit fuel cl
  end.

#[export] Instance kept_run_method m : Preserves kept (run_method m).
Proof. destruct m; simpl; apply _. Qed.
#[export] Instance lk_run_method m : Lk false (run_method m).
Proof. destruct m; simpl; apply _. Qed.

(** One step of the framework: some thread runs a method to its end, normally
    or with an exception, or the world changes by itself. *)
Inductive step : st W → st W → Prop :=
  | step_method t m s r s' :
      run_method m (set_thread t s) = (r, s') → r ≠ Stuck OutOfFuel → step s s'
  | step_world w s : step s (set_world [] w s).

Definition init (environ : dict string string) (w : W) : st W :=
  mkSt [] None environ false false 0 ∅ EmptyString None None [] w.

Lemma shells_ok_init e w : shells_ok (init e w).
Proof. constructor; simpl; try done; [constructor|constructor|set_solver]. Qed.

Lemma shells_ok_step s s' : step s s' → shells_ok s → shells_ok s'.
Proof.
  intros Hst Hok. destruct Hst as [t m s r s' Hr _|w s].
  - pose proof (preserves (R:=kept) (m:=run_method m) (set_thread t s)) as Hk.
    rewrite Hr in Hk. apply Hk. by destruct Hok.
  - destruct Hok as [K1 K2 K3 K4 K5]. constructor; simpl; try done.
    intros t n h Hh. rewrite app_nil_r. eauto.
Qed.

Lemma unlocked_step s s' : step s s' → locked s = false → locked s' = false.
Proof.
  intros Hst Hl. destruct Hst as [t m s r s' Hr Hf|w s]; [|done].
  pose proof (lk (b:=false) (m:=run_method m) (set_thread t s) Hl) as Hk.
  rewrite Hr in Hk. by destruct r as [?|?|[]].
Qed.

Definition reachable e w s : Prop := rtc step (init e w) s.

Lemma reachable_ok e w s : reachable e w s → shells_ok s ∧ locked s = false.
Proof.
  intros Hr. unfold reachable in Hr. remember (init e w) as s0 eqn:E.
  assert (H0 : shells_ok s0 ∧ locked s0 = false) by (subst; split; [apply shells_ok_init|done]).
  clear E. induction Hr as [s|s1 s2 s3 Hst _ IH]; [done|].
  destruct H0 as [H1 H2]. apply IH. eauto using shells_ok_step, unlocked_step.
Qed.

(** C1: in every state that any threads can reach by calling methods of the
    cluster, in any order and however the calls end, a terminal of [_bash]
    belongs to one thread and one node only, was opened on that node, and is
    not the control shell. *)
Theorem terminals_are_private e w s t n h :
  reachable e w s → dget (t, n) (bash_ s) = Some h →
  (∀ id, dget id (bash_ s) = Some h → id = (t, n)) ∧
  control_ s ≠ Some h ∧
  ∃ spec, EOpen h spec ∈ trace s ∧ node_str (spec_name spec) = n.
Proof.
  intros Hr Hg. destruct (reachable_ok _ _ _ Hr) as [[K1 K2 K3 K4 K5] _]. split_and!.
  - intros id Hid. by eapply dget_inj.
  - intros Hc. apply K4 in Hc as [Hc _]. by eapply Hc, elem_of_dvalues, dget_Some.
  - eauto.
Qed.

(** C8: in every reachable state the cluster lock is free, and no method
    called there waits for a lock that its own thread holds. *)
Theorem no_self_deadlock e w s t m :
  reachable e w s →
  locked s = false ∧ (run_method m (set_thread t s)).1 ≠ Stuck SelfDeadlock.
Proof.
  intros Hr. destruct (reachable_ok _ _ _ Hr) as [_ Hl]. split; [done|].
  pose proof (lk (b:=false) (m:=run_method m) (set_thread t s) Hl) as Hk.
  intros E. by rewrite E in Hk.
Qed.
End shells_reachable.

(** A thread has opened a terminal on a node. *)
Definition demo_state : st Z := Eval vm_compute in
  (@run_method Z (script_env healthy) 3 plain_config
     (CallBash (Some "clickhouse1") (sec 300) "bash --noediting")
     (set_thread "MainThread" (init [] 0))).2.

Lemma demo_reachable : @reachable Z (script_env healthy) 3 plain_config [] 0 demo_state.
Proof.
  apply rtc_once. eapply (@step_method Z (script_env healthy) 3 plain_config "MainThread"
    (CallBash (Some "clickhouse1") (sec 300) "bash --noediting") _ (Ok tt)); [|done].
  by vm_compute.
Defined.

Lemma terminals_are_private_witness :
  dget ("MainThread", "clickhouse1") (bash_ demo_state) = Some 1%nat ∧
  (∀ id, dget id (bash_ demo_state) = Some 1%nat → id = ("MainThread", "clickhouse1")) ∧
  control_ demo_state ≠ Some 1%nat ∧
  ∃ spec, EOpen 1 spec ∈ trace demo_state ∧ node_str (spec_name spec) = "clickhouse1".
Proof.
  split; [by vm_compute|].
  apply (@terminals_are_private Z (script_env healthy) 3 plain_config [] 0 demo_state
           "MainThread" "clickhouse1" 1); [exact demo_reachable|by vm_compute].
Defined.

Lemma no_self_deadlock_witness :
  locked demo_state = false ∧
  (@run_method Z (script_env healthy) 3 plain_config (CallDown (sec 300))
     (set_thread "worker" demo_state)).1 ≠ Stuck SelfDeadlock.
Proof.
  exact (@no_self_deadlock Z (script_env healthy) 3 plain_config [] 0 demo_state "worker"
           (CallDown (sec 300)) demo_reachable).
Defined.
