(* ===== verification/Sessions.v ===== *)
(** * The cluster as a pool of terminals

    What [Cluster._bash] (helpers/cluster.py) promises to the threads that use
    it, as an abstract machine: a finite map from threads and nodes to
    terminals in which an operation of a thread opens and closes terminals
    that it may open and close.  Every method of the cluster refines the
    machine, so that threads do not take each other's terminals away. *)
From stdpp Require Import gmap relations.
From S2P Require Import Prelude PyStr PyDict PyMonad World Cluster Shells.
Local Open Scope Z_scope.

(** ** The abstract machine *)

(** The name of a thread, and of a node ([None] for the host). *)
Abbreviation terminal_key := (string * string)%type.
Abbreviation pool_state := (gmap terminal_key nat).

(** [pool_step opens closes]: a new terminal is put at a key of [opens], the
    place of an older one included, or a terminal at a key of [closes] is
    given up. *)
Inductive pool_step (opens closes : terminal_key → Prop) (p : pool_state) : pool_state → Prop :=
  | pool_open k h :
      opens k → (∀ k', p !! k' ≠ Some h) → pool_step opens closes p (<[k:=h]> p)
  | pool_close k h :
      closes k → p !! k = Some h → pool_step opens closes p (delete k p).

Lemma pool_step_mono (o1 o2 c1 c2 : terminal_key → Prop) p p' :
  (∀ k, o1 k → o2 k) → (∀ k, c1 k → c2 k) →
  pool_step o1 c1 p p' → pool_step o2 c2 p p'.
Proof. intros Ho Hc []; econstructor; eauto. Qed.

(** A key that may be neither opened nor closed keeps its terminal. *)
Lemma pool_steps_frame (opens closes : terminal_key → Prop) k p p' :
  ¬ opens k → ¬ closes k → rtc (pool_step opens closes) p p' → p' !! k = p !! k.
Proof.
  intros Ho Hc. induction 1 as [|p1 p2 p3 Hst _ IH]; [done|]. rewrite IH.
  destruct Hst; [apply lookup_insert_ne|apply lookup_delete_ne]; by intros ->.
Qed.

(** ** The dictionary as a finite map *)

Lemma lookup_list_to_map (k : terminal_key) (d : dict terminal_key nat) :
  (list_to_map d : pool_state) !! k = dget k d.
Proof.
  induction d as [|[k' v] d IH]; simpl; [apply lookup_empty|].
  rewrite <-IH. case_decide; subst; [apply lookup_insert_eq|by apply lookup_insert_ne].
Qed.

Lemma list_to_map_dset (k : terminal_key) h (d : dict terminal_key nat) :
  list_to_map (dset k h d) = <[k:=h]> (list_to_map d : pool_state).
Proof.
  apply map_eq. intros k'. rewrite lookup_list_to_map.
  destruct (decide (k = k')) as [->|]; [by rewrite lookup_insert_eq, dget_dset|].
  by rewrite lookup_insert_ne, lookup_list_to_map, dget_dset_ne by done.
Qed.

Lemma list_to_map_ddel (k : terminal_key) (d : dict terminal_key nat) :
  dwf d → list_to_map (ddel k d) = delete k (list_to_map d : pool_state).
Proof.
  intros Hd. apply map_eq. intros k'. rewrite lookup_list_to_map.
  destruct (decide (k = k')) as [->|]; [by rewrite lookup_delete_eq, dget_ddel|].
  by rewrite lookup_delete_ne, lookup_list_to_map, dget_ddel_ne by done.
Qed.

Section sessions.
Context {W : Type} `{Env W}.
Variables (fuel : nat) (cl : config).
Implicit Types (s : st W).

Definition pool s : pool_state := list_to_map (bash_ s).

Lemma lookup_pool k s : pool s !! k = dget k (bash_ s).
Proof. apply lookup_list_to_map. Qed.

(** [k] is one of the keys that an operation may open, or close. *)
Class May (P : terminal_key → Prop) (k : terminal_key) : Prop := may : P k.
(** The terminals of threads that have ended may be closed. *)
Class Reaps (closes : terminal_key → Prop) : Prop :=
  reaps : ∀ k (w : W), k.1 ∉ env_threads w → closes k.

Section refine.
Variables (t : string) (opens closes : terminal_key → Prop).

(** Run by thread [t] on a good state, the code takes steps of the machine. *)
Definition refines s s' : Prop :=
  shells_ok s ∧ thread s = t →
  shells_ok s' ∧ thread s' = t ∧ rtc (pool_step opens closes) (pool s) (pool s').

#[export] Instance refines_preorder : PreOrder refines.
Proof.
  split.
  - intros s []. split_and!; [done..|reflexivity].
  - intros s1 s2 s3 H12 H23 Hs. destruct (H12 Hs) as (Hok & Ht & H1).
    destruct (H23 (conj Hok Ht)) as (? & ? & ?). split_and!; [done..|by etrans].
Qed.

Lemma refines_same {A} (m : M (st W) A) :
  Preserves kept m → Preserves (same thread) m → Preserves (same bash_) m →
  Preserves refines m.
Proof.
  intros Hk Ht Hb s [Hok <-]. split_and!; [by apply Hk|apply Ht|].
  unfold pool. rewrite (Hb s). reflexivity.
Qed.

#[export] Instance refines_ask {A} e (f : W → (exn + A) * W) : Preserves refines (ask e f).
Proof. apply refines_same; apply _. Qed.
#[export] Instance refines_tempfile c : Preserves refines (tempfile c).
Proof. apply refines_same; apply _. Qed.
#[export] Instance refines_new_shell spec : Preserves refines (new_shell spec).
Proof. apply refines_same; apply _. Qed.
Lemma refines_modify (f : st W → st W) :
  (∀ s, bash_ (f s) = bash_ s ∧ control_ (f s) = control_ s ∧ next_id (f s) = next_id s ∧
        trace (f s) = trace s ∧ thread (f s) = thread s) → Preserves refines (modify f).
Proof.
  intros Hf. apply refines_same.
  - apply preserves_created_kept, created_modify. intros s.
    by destruct (Hf s) as (? & ? & ? & ? & ?).
  - intros s. apply Hf.
  - intros s. apply Hf.
Qed.

(** *** The operations on the dictionary *)

#[export] Instance refines_del k `{!May closes k} :
  Preserves refines (modify (λ s, set_bash (ddel k (bash_ s)) s)).
Proof.
  intros s [Hok Ht]. split_and!; [by apply kept_del|done|]. unfold pool; simpl.
  destruct (dget k (bash_ s)) as [h|] eqn:Hg.
  - rewrite list_to_map_ddel by apply Hok. apply rtc_once. eapply pool_close; [done|].
    by rewrite lookup_list_to_map.
  - apply dget_None in Hg. by rewrite ddel_absent.
Qed.

#[export] Instance refines_new_bash node cid cmd `{!May opens (t, node_str node)} :
  Preserves refines (new_bash (t, node_str node) node cid cmd).
Proof.
  intros s [Hok Ht]. pose proof (kept_new_bash t node cid cmd s Hok) as Hok'.
  split_and!; [done| |].
  { assert (Hs : Preserves (same thread)
      (new_bash (W:=W) (t, node_str node) node cid cmd)).
    { unfold new_bash. apply preserves_bind; [apply _..|]. intros h.
      apply preserves_bind; [apply _|destruct node; apply _|]. intros _.
      apply preserves_bind; [apply _|by intros ?|apply _]. }
    etrans; [apply Hs|done]. }
  clear Hok'. unfold new_bash. set (spec := match node with None => _ | _ => _ end).
  clearbody spec. unfold mbind at 1, M_bind.
  pose proof (created_new_shell_fresh spec s) as (Hc & _ & _ & Hr).
  destruct (new_shell spec s) as [[h|e|w] s1]; simpl in *;
    [subst h|unfold pool; by rewrite (proj1 Hc)..].
  set (m := match node with None => _ | _ => _ end).
  assert (Hm : Preserves created m) by (unfold m; destruct node; apply _).
  specialize (Hm s1). clearbody m. unfold mbind, M_bind.
  destruct Hc as (Hb1 & _).
  destruct (m s1) as [[[]|e|w] s2]; simpl in *;
    destruct Hm as (Hb2 & _); unfold pool; simpl; rewrite ?Hb2, ?Hb1; try reflexivity.
  rewrite list_to_map_dset. apply rtc_once, pool_open; [done|].
  intros k'. rewrite lookup_list_to_map. intros Hg.
  apply dget_Some, elem_of_dvalues, (ok_old _ Hok) in Hg. lia.
Qed.
End refine.
End sessions.

#[export] Hint Extern 0 (Preserves (refines _ _ _) (modify _)) =>
  (apply refines_modify; intros ?; split_and!; reflexivity) : typeclass_instances.
#[export] Hint Extern 1 (Preserves _ (local_shell _)) => unfold local_shell : typeclass_instances.

Section refine_methods.
Context {W : Type} `{Env W}.
Variables (fuel : nat) (cl : config) (t : string) (opens closes : terminal_key → Prop).
Abbreviation Refines m := (Preserves (refines (W:=W) t opens closes) (m : M (st W) _)).

(** The name of the thread that runs the code is [t]. *)
Lemma refines_thread {A} (f : string → M (st W) A) :
  Refines (f t) → Refines (gets thread ≫= f).
Proof. intros Hf s [Hok Ht]. unfold mbind, M_bind, gets. rewrite Ht. by apply Hf. Qed.

Lemma refines_open_loop n open bound failure timeout t0 last :
  Refines open → (∀ l, Refines (bound l)) →
  Refines (open_loop n open bound failure timeout t0 last).
Proof.
  intros Ho Hb. revert last. induction n as [|n IH]; intros last; cbn [open_loop]; [apply _|].
  unfold open_retry, probe. apply _.
Qed.

#[export] Instance refines_no_control : Refines (modify (set_control None)).
Proof.
  intros s [Hok Ht]. split_and!; [by apply kept_no_control|done|reflexivity].
Qed.
#[export] Instance refines_control_shell : Refines (control_shell fuel).
Proof.
  apply refines_same; [apply _|..]; unfold control_shell.
  all: apply preserves_bind; [apply _..|]; intros [h|]; [apply _|].
  all: apply preserves_bind; [apply _..|]; intros t0; apply preserves_bind; [apply _| |].
  all: try (intros ?; apply preserves_bind; [apply _|by intros ?|apply _]).
  all: generalize (@None nat); induction fuel as [|n IH]; intros last; cbn [open_loop];
    [apply _|]; unfold open_retry, probe; apply _.
Qed.
#[export] Instance refines_close_control_shell : Refines close_control_shell.
Proof. unfold close_control_shell. apply _. Qed.
#[export] Instance refines_container_id_loop n node timeout t0 :
  Refines (container_id_loop fuel cl n node timeout t0).
Proof.
  revert timeout. induction n as [|n IH]; intros timeout; cbn [container_id_loop]; [apply _|].
  apply _.
Qed.
#[export] Instance refines_node_container_id node timeout :
  Refines (node_container_id fuel cl node timeout).
Proof. unfold node_container_id. apply _. Qed.
#[export] Instance refines_bash_at id : Refines (bash_at id).
Proof. unfold bash_at. apply _. Qed.
#[export] Instance refines_close_stale `{!Reaps (W:=W) closes} : Refines close_stale.
Proof.
  enough (Hw : ∀ w, Refines (keys ← gets (λ s, dkeys (bash_ s));
      for_ keys (λ bash_id, when (bool_decide (bash_id.1 ∉ env_threads (W:=W) w))
        (h ← bash_at bash_id; shell_exit h;;
         modify (λ s, set_bash (ddel bash_id (bash_ s)) s)))))
    by (intros s; exact (Hw (world s) s)).
  intros w. apply preserves_bind; [apply _..|]. intros keys. apply preserves_for; [apply _|].
  intros k. unfold when. case_bool_decide as Hk; [|apply _].
  pose proof (reaps (closes:=closes) k w Hk : May closes k). apply _.
Qed.
#[export] Instance refines_open_bash node timeout cmd
    `{!May opens (t, node_str node), !Reaps (W:=W) closes} :
  Refines (open_bash fuel cl (t, node_str node) node timeout cmd).
Proof.
  unfold open_bash. apply preserves_bind; [apply _..|]. intros cid.
  apply preserves_bind; [apply _..|]. intros t0.
  apply preserves_bind; [apply _|apply refines_open_loop; apply _|]. intros h. apply _.
Qed.
#[export] Instance refines_bash node timeout cmd
    `{!May opens (t, node_str node), !Reaps (W:=W) closes} :
  Refines (bash fuel cl node timeout cmd).
Proof. unfold bash. apply refines_thread. cbv zeta. apply _. Qed.
#[export] Instance refines_bash0 node `{!May opens (t, node_str node), !Reaps (W:=W) closes} :
  Refines (bash0 fuel cl node).
Proof. unfold bash0. apply _. Qed.
#[export] Instance refines_shell node timeout : Refines (shell fuel cl node timeout).
Proof.
  unfold shell. apply preserves_bind; [apply _..|]. intros cid.
  apply preserves_bind; [apply _..|]. intros t0.
  apply preserves_bind; [apply _|apply refines_open_loop; apply _|]. apply _.
Qed.
#[export] Instance refines_close_bash node `{!May closes (t, node_str node)} :
  Refines (close_bash node).
Proof. unfold close_bash. apply refines_thread. cbv zeta. apply _. Qed.
#[export] Instance refines_check_exitcode e r : Refines (check_exitcode e r).
Proof. unfold check_exitcode. apply _. Qed.
#[export] Instance refines_command node cmd a
    `{!May opens (t, node_str node), !May closes (t, node_str node), !Reaps (W:=W) closes} :
  Refines (command fuel cl node cmd a).
Proof. unfold command. apply _. Qed.
#[export] Instance refines_nodes_of k : Refines (nodes_of cl k).
Proof. unfold nodes_of. apply _. Qed.
#[export] Instance refines_with_shell {A} (m : nat → M (st W) A) :
  (∀ h, Refines (m h)) → Refines (with_shell m).
Proof. unfold with_shell. apply _. Qed.
#[export] Instance refines_collect_logs : Refines (collect_logs cl).
Proof. unfold collect_logs. apply _. Qed.
End refine_methods.

Section refinement.
Context {W : Type} `{Env W}.
Variables (fuel : nat) (cl : config).
Implicit Types (s : st W) (m : method).

(** ** What each method may do *)

(** The terminals that a method called by thread [t] may open: its own on
    the node it names; [down] and [__exit__] need one on the host, and with
    debugging on every server. *)
Definition opens (t : string) m (k : terminal_key) : Prop :=
  match m with
  | CallBash node _ _ | CallCommand node _ _ => k = (t, node_str node)
  | CallShell _ _ | CallCloseBash _ | CallCloseBashes _ => False
  | CallDown _ | CallExit => k.1 = t
  end.

(** The thread of [k] has ended, as some state of the world shows. *)
Definition ended (k : terminal_key) : Prop := ∃ w : W, k.1 ∉ env_threads w.

(** The terminals that it may close. *)
Definition closes (t : string) m (k : terminal_key) : Prop :=
  match m with
  | CallBash _ _ _ => ended k
  | CallCommand node _ _ => k = (t, node_str node) ∨ ended k
  | CallShell _ _ => False
  | CallCloseBash node => k = (t, node_str node)
  | CallCloseBashes name => endswith name k.2 = true
  | CallDown _ | CallExit => True
  end.

Lemma may_intro (P : terminal_key → Prop) k : P k → May P k.
Proof. done. Qed.

(** [down] puts its own terminal back: for the machine nothing happens. *)
#[export] Instance refines_close_other t (o c : terminal_key → Prop) b id `{!May c id} :
  Preserves (refines t o c) (close_other (W:=W) b id).
Proof.
  intros s [Hok Ht]. pose proof (kept_close_other b id s Hok) as Hok'.
  pose proof (refines_del t o c id s (conj Hok Ht)) as (Hd & Htd & Hrtc).
  revert Hok'. unfold close_other, bash_at, mbind, M_bind, gets. simpl.
  destruct (dget id (bash_ s)) as [h|] eqn:Hg; simpl; [|done].
  destruct (h =? b)%nat; simpl; intros Hok'.
  - split_and!; [done..|]. unfold pool; simpl. rewrite list_to_map_dset.
    rewrite list_to_map_ddel by apply Hok. rewrite insert_delete_eq, insert_id; [done|].
    by rewrite lookup_list_to_map.
  - assert (He : Preserves (refines t o c) (shell_exit (W:=W) h)) by apply _.
    destruct (He _ (conj Hd Htd)) as (_ & ? & ?). split_and!; [done..|by etrans].
Qed.

#[export] Instance refines_close_bashes t (o c : terminal_key → Prop) name :
  (∀ k, endswith name k.2 = true → c k) →
  Preserves (refines t o c) (close_bashes (W:=W) name).
Proof.
  intros Hc. unfold close_bashes, with_lock.
  assert (Hk : ∀ k, Preserves (refines (W:=W) t o c)
    (when (endswith name k.2)
       (h ← bash_at k; modify (λ s, set_bash (ddel k (bash_ s)) s);; shell_exit h))).
  { intros k. unfold when. destruct (endswith name k.2) eqn:E; [|apply _].
    pose proof (may_intro c k (Hc k E)). apply _. }
  apply _.
Qed.

Lemma refines_run_method t m :
  Preserves (refines t (opens t m) (closes t m)) (run_method (W:=W) fuel cl m).
Proof.
  set (o := opens t m). set (c := closes t m).
  assert (Hreap : match m with CallShell _ _ | CallCloseBash _ | CallCloseBashes _ => True
                  | _ => Reaps (W:=W) c end).
  { destruct m; try done; intros k w Hw; unfold c, closes, ended; eauto. }
  destruct m as [node timeout cmd|node timeout|node|name|node cmd a|timeout|]; cbn [run_method].
  - assert (May o (t, node_str node)) by done. apply _.
  - apply _.
  - assert (May c (t, node_str node)) by done. apply _.
  - apply refines_close_bashes. done.
  - assert (May o (t, node_str node)) by done.
    assert (May c (t, node_str node)) by (by left). apply _.
  - assert (∀ node, May o (t, node_str node)) by done. assert (∀ k, May c k) by done.
    unfold down. apply _.
  - assert (∀ node, May o (t, node_str node)) by done. assert (∀ k, May c k) by done.
    unfold cluster_exit, down. apply _.
Qed.

(** What the caller finds in the pool when a method returns *)
Lemma bash_stored t node timeout cmd s s' :
  thread s = t → run_method fuel cl (CallBash node timeout cmd) s = (Ok tt, s') →
  is_Some (pool s' !! (t, node_str node)).
Proof.
  intros <-. simpl. intros (h & s1 & Hb & [= <-])%M_bind_Ok_inv. rewrite lookup_pool.
  unfold bash in Hb. apply M_bind_Ok_inv in Hb as (t & s2 & [= <- <-] & Hb).
  apply with_lock_Ok_inv in Hb as (s2 & Hb & ->).
  apply M_bind_Ok_inv in Hb as (b & s3 & _ & Hb).
  apply M_bind_Ok_inv in Hb as ([] & s4 & _ & Hb). simpl.
  unfold bash_at, mbind, M_bind, gets in Hb. simpl in Hb.
  destruct (dget _ (bash_ s4)) eqn:Hg; [|done]. injection Hb as _ <-. by rewrite Hg.
Qed.

Lemma close_bash_gone t node s s' :
  shells_ok s → thread s = t → run_method fuel cl (CallCloseBash node) s = (Ok tt, s') →
  pool s' !! (t, node_str node) = None.
Proof.
  intros Hok <- Hb. rewrite lookup_pool. simpl in Hb. unfold close_bash in Hb.
  apply M_bind_Ok_inv in Hb as (t & s1 & [= <- <-] & Hb).
  apply with_lock_Ok_inv in Hb as (s1 & Hb & ->). simpl.
  apply M_bind_Ok_inv in Hb as (b & s2 & [= <- <-] & Hb). simpl in Hb.
  destruct (dget _ (bash_ s)) as [h|] eqn:Hg; [|by injection Hb as <-].
  apply M_bind_Ok_inv in Hb as ([] & s2 & Hx & [= <-]). simpl. apply dget_ddel.
  pose proof (preserves (R:=same bash_) (m:=shell_exit h) (set_locked true s)) as Hs.
  rewrite Hx in Hs. unfold same in Hs. simpl in Hs. rewrite Hs. apply Hok.
Qed.

(** ** Refinement *)

Lemma reachable_run e w s t m r s' :
  reachable fuel cl e w s → run_method fuel cl m (set_thread t s) = (r, s') →
  shells_ok (set_thread t s) ∧ rtc (pool_step (opens t m) (closes t m)) (pool s) (pool s').
Proof.
  intros Hr E. destruct (reachable_ok _ _ _ _ _ Hr) as [Hok _].
  assert (Hok' : shells_ok (set_thread t s)) by by destruct Hok.
  split; [done|]. pose proof (refines_run_method t m (set_thread t s)) as Hm.
  rewrite E in Hm. by apply Hm.
Qed.

(** C2: the cluster refines the pool.  It starts as the empty pool; a method
    that a thread calls in any reachable state, however it ends, takes only
    steps of the pool that the method allows to the thread.  When [bash] and
    [close_bash] return, the pool holds a terminal at the caller's key, or
    none. *)
Theorem methods_refine_pool e w s t m r s' :
  reachable fuel cl e w s → run_method fuel cl m (set_thread t s) = (r, s') →
  pool (init e w) = ∅ ∧
  rtc (pool_step (opens t m) (closes t m)) (pool s) (pool s') ∧
  match m with
  | CallBash node _ _ => r = Ok tt → is_Some (pool s' !! (t, node_str node))
  | CallCloseBash node => r = Ok tt → pool s' !! (t, node_str node) = None
  | _ => True
  end.
Proof.
  intros Hr E. destruct (reachable_run _ _ _ _ _ _ _ Hr E) as [Hok Hst].
  split; [done|]. split; [done|]. destruct m as [node ? ?|?|node|?|? ? ?|?|]; try done; intros ->.
  - eapply (bash_stored t node _ _ (set_thread t s)); [done|exact E].
  - by apply (close_bash_gone t node (set_thread t s)).
Qed.

(** The methods that close terminals of other threads on node [n] *)
Definition stops (n : string) m : bool :=
  match m with
  | CallCloseBashes name => endswith name n
  | CallDown _ | CallExit => true
  | _ => false
  end.

(** C9: the terminals of a running thread are its own: whatever another
    thread calls, short of stopping the node or the cluster, they stay where
    they are. *)
Theorem threads_keep_their_terminals e w s t t' m n :
  reachable fuel cl e w s → t ≠ t' → (∀ w : W, t' ∈ env_threads w) → stops n m = false →
  pool (run_method fuel cl m (set_thread t s)).2 !! (t', n) = pool s !! (t', n).
Proof.
  intros Hr Ht Halive Hm. destruct (run_method _ _ _ _) as [r s'] eqn:E.
  destruct (reachable_run _ _ _ _ _ _ _ Hr E) as [_ Hst].
  assert (He : ¬ ended (t', n)) by (intros [w' Hw']; by apply Hw').
  eapply pool_steps_frame, Hst.
  - destruct m; simpl in *; congruence.
  - destruct m; simpl in *; [done|tauto|congruence..|intros [?|?]; congruence|done|done].
Qed.
End refinement.

(** The main thread has a terminal on clickhouse1 (state [demo_state]); a
    worker sends a command there. *)
Definition demo_call : method :=
  CallCommand (Some "clickhouse1") "ls" args0.
Definition demo_next : st Z := Eval vm_compute in
  (@run_method Z (script_env healthy) 3 plain_config demo_call
     (set_thread "worker" demo_state)).2.

Lemma methods_refine_pool_witness :
  pool demo_next !! ("worker", "clickhouse1") = Some 2%nat ∧
  pool (init [] 0) = ∅ ∧
  rtc (pool_step (@opens "worker" demo_call)
         (@closes Z (script_env healthy) "worker" demo_call))
    (pool demo_state) (pool demo_next) ∧ True.
Proof.
  split; [by vm_compute|].
  apply (@methods_refine_pool Z (script_env healthy) 3 plain_config [] 0 demo_state "worker"
           demo_call (Ok tt) demo_next); [exact demo_reachable|by vm_compute].
Defined.

Lemma threads_keep_their_terminals_witness :
  pool demo_state !! ("MainThread", "clickhouse1") = Some 1%nat ∧
  pool (@run_method Z (script_env healthy) 3 plain_config demo_call
          (set_thread "worker" demo_state)).2 !! ("MainThread", "clickhouse1") =
  pool demo_state !! ("MainThread", "clickhouse1").
Proof.
  split; [by vm_compute|].
  apply (@threads_keep_their_terminals Z (script_env healthy) 3 plain_config [] 0 demo_state
           "worker" "MainThread" demo_call "clickhouse1");
    [exact demo_reachable|done|by left|done].
Defined.
