(* ===== verification/Commands.v ===== *)
(** * Commands: what they send, check and leave behind

    The outcome of [Cluster.command] (helpers/cluster.py) on every branch,
    the handling of timeouts, the termination of the loops of [Cluster], and
    what is left after [Cluster.down]. *)
From stdpp Require Import gmap.
From S2P Require Import Prelude PyStr PyDict PyMonad World Cluster Shells.
Local Open Scope Z_scope.

(** ** Specification *)

(** Does the exit code meet the expectation?  [None]: the expectation is not
    a well-formed text. *)
Definition code_ok (e : expected) (code : Z) : option bool :=
  match e with
  | AnyCode => Some true
  | Code n => Some (code =? n)
  | CodeText s =>
      if startswith "!=" s
      then n ← py_int (strip (after_first "!=" s)); Some (negb (code =? n))
      else Some false
  end.

(** What a command with result [r] amounts to. *)
Definition verdict (a : command_args) (r : shell_result) : res shell_result :=
  if no_checks a then Ok r
  else match code_ok (exitcode_ a) (exitcode r) with
       | None => Exc (ValueError match exitcode_ a with CodeText s => s | _ => EmptyString end)
       | Some ok =>
           if ok && forallb (λ m, contains m (output r)) (expected_messages a)
           then Ok r else Exc (AssertionError (output r))
       end.

Section commands.
Context {W : Type} `{Env W}.
Variables (fuel : nat) (cl : config).
Implicit Types (s : st W).

Lemma check_messages (l : list string) out s :
  for_ l (λ m, assert_ (contains m out) out) s =
  ((if forallb (λ m, contains m out) l then Ok tt else Exc (AssertionError out)), s).
Proof.
  induction l as [|m l IH]; [done|]. simpl. unfold mbind, M_bind, assert_.
  destruct (contains m out); simpl; [apply IH|done].
Qed.

Lemma check_exitcode_spec e r s :
  check_exitcode e r s =
  (match code_ok e (exitcode r) with
   | Some true => Ok tt
   | Some false => Exc (AssertionError (output r))
   | None => Exc (ValueError match e with CodeText s => s | _ => EmptyString end)
   end, s).
Proof.
  destruct e as [|n|t]; simpl; [done| |].
  - unfold assert_. by destruct (_ =? _).
  - destruct (startswith "!=" t); [|done]. destruct (py_int _) as [n|]; simpl; [|done].
    unfold assert_. by destruct (negb _).
Qed.

(** A cached terminal is used as it is. *)
Lemma bash_cached node timeout cmd h s :
  dget (thread s, node_str node) (bash_ s) = Some h → locked s = false →
  bash fuel cl node timeout cmd s = (Ok h, s).
Proof.
  intros Hg Hl. unfold bash, with_lock, try_finally, bash_at, mbind, M_bind, gets, modify.
  simpl. rewrite Hl. simpl. rewrite Hg. simpl. rewrite Hg.
  by destruct s; simpl in *; subst.
Qed.

(** The time limit of a call *)
Definition limit (a : command_args) h s : Z :=
  match timeout_ a with Some t => t | None => default 0 (timeouts s !! h) end.

Lemma command_run node cmd a h s :
  bash_arg a = Some h ∨
    bash_arg a = None ∧ dget (thread s, node_str node) (bash_ s) = Some h ∧ locked s = false →
  command fuel cl node cmd a s =
  match env_call h cmd (limit a h s) (world s) with
  | (inl ExpectTimeoutError, w) =>
      (close_bash node;; raise ExpectTimeoutError)
        (set_world [ECall h cmd (limit a h s) (inl ExpectTimeoutError)] w s)
  | (inl e, w) => (Exc e, set_world [ECall h cmd (limit a h s) (inl e)] w s)
  | (inr r, w) => (verdict a r, set_world [ECall h cmd (limit a h s) (inr r)] w s)
  end.
Proof.
  intros Hh. unfold command, mbind at 1, M_bind.
  replace (match bash_arg a with Some h => mret h | None => bash0 fuel cl node end s)
    with (Ok h, s); [|destruct Hh as [->|(-> & Hg & Hl)]; [done|symmetry; by apply bash_cached]].
  unfold mbind at 1, M_bind, try_except, shell_call, mbind at 1, M_bind, gets, ask.
  simpl. fold (limit a h s). destruct (env_call h cmd (limit a h s) (world s)) as [[e|r] w].
  - destruct e; try done; unfold mbind, M_bind; simpl.
    all: by destruct (close_bash _ _) as [[]?].
  - simpl. unfold verdict. destruct (no_checks a); [done|].
    unfold mbind, M_bind. rewrite check_exitcode_spec.
    destruct (code_ok _ _) as [[]|]; simpl; [|done..].
    rewrite check_messages. by destruct (forallb _ _).
Qed.

Lemma command_ok node cmd a h s r s' :
  bash_arg a = Some h ∨
    bash_arg a = None ∧ dget (thread s, node_str node) (bash_ s) = Some h ∧ locked s = false →
  command fuel cl node cmd a s = (Ok r, s') →
  ∃ w, env_call h cmd (limit a h s) (world s) = (inr r, w) ∧
    s' = set_world [ECall h cmd (limit a h s) (inr r)] w s ∧ verdict a r = Ok r.
Proof.
  intros Hh. rewrite (command_run node cmd a h s) by done.
  destruct (env_call _ _ _ _) as [[e|r'] w].
  - destruct e; try done. unfold mbind, M_bind. by destruct (close_bash _ _) as [[]?].
  - intros [= Hv <-]. exists w. enough (r' = r) as -> by done. revert Hv.
    unfold verdict. by repeat case_match; intros [= ->].
Qed.

(** [close_bash] forgets the terminal it closes. *)
Lemma close_bash_forgets `{!QuietExit W} node s :
  dwf (bash_ s) → locked s = false →
  ∃ s', close_bash node s = (Ok tt, s') ∧
    bash_ s' = ddel (thread s, node_str node) (bash_ s) ∧ locked s' = false ∧
    ∀ h, dget (thread s, node_str node) (bash_ s) = Some h → EExit h ∈ trace s'.
Proof.
  intros Hd Hl. unfold close_bash, with_lock, try_finally, mbind, M_bind, gets, modify.
  simpl. rewrite Hl. simpl.
  set (id := (thread s, node_str node)). destruct (dget id (bash_ s)) as [h|] eqn:Hg.
  - destruct (shell_exit_total h (set_locked true s)) as (s' & E & Hin).
    pose proof (preserves (R:=same bash_) (m:=shell_exit h) (set_locked true s)) as Hb.
    rewrite E in Hb. unfold same in Hb. simpl in Hb. rewrite E. simpl.
    eexists. split_and!; [done|by rewrite <-Hb|done|by intros ? [= <-]].
  - simpl. eexists. split_and!; [done| |done|done]. simpl.
    by rewrite ddel_absent by (by apply dget_None).
Qed.

(** ** Bringing the cluster down *)

(** The loop of [down] over the dictionary [d0 = done ++ rest]. *)
Definition down_inv (id : string * string) (h : nat) (d0 : dict (string * string) nat)
    (l : list (string * string)) s : Prop :=
  ∃ seen rest, d0 = seen ++ rest ∧ l = dkeys rest ∧
    bash_ s = rest ++ (if bool_decide (id ∈ dkeys seen) then [(id, h)] else []) ∧
    (∀ k v, (k, v) ∈ seen → v ≠ h → EExit v ∈ trace s).

Lemma close_other_spec `{!QuietExit W} id h d0 k l s :
  dwf d0 → NoDup (dvalues d0) → dget id d0 = Some h →
  down_inv id h d0 (k :: l) s →
  ∃ s', close_other h k s = (Ok tt, s') ∧ down_inv id h d0 l s' ∧ control_ s' = control_ s.
Proof.
  intros Hd Hv Hg (seen & [|[k' v] rest] & E & El & Eb & Ex); [done|].
  simpl in El. injection El as -> ->. subst d0.
  assert (Hk : (k' = id) ↔ v = h).
  { assert (Hkv : dget k' (seen ++ (k', v) :: rest) = Some v)
      by (apply dget_elem_of; [done|set_solver]).
    split; [intros ->; congruence|intros ->; by eapply dget_inj]. }
  assert (Hnotin : (k' ∉ dkeys seen) ∧ k' ∉ dkeys rest).
  { unfold dwf, dkeys in Hd. rewrite fmap_app, NoDup_app in Hd. simpl in Hd.
    destruct Hd as (_ & H1 & H2). rewrite NoDup_cons in H2. split; [|apply H2].
    intros Hin. apply (H1 k' Hin). simpl. set_solver. }
  unfold close_other, bash_at, mbind, M_bind, gets, modify. rewrite Eb. simpl.
  rewrite decide_True by done. simpl. rewrite Eb. simpl. rewrite decide_True by done.
  destruct (Nat.eqb_spec v h) as [->|Hne].
  - destruct Hk as [_ Hk]. specialize (Hk eq_refl) as ->.
    rewrite bool_decide_false by tauto. rewrite app_nil_r.
    eexists. split; [done|]. split; [|done].
    exists (seen ++ [(id, h)]), rest. rewrite <-app_assoc. split_and!; [done..| |].
    + simpl. rewrite dset_fresh by tauto.
      rewrite bool_decide_true; [done|]. unfold dkeys. rewrite fmap_app. set_solver.
    + simpl. intros k v Hin Hv'. apply elem_of_app in Hin as [Hin|Hin]; [by eauto|].
      apply list_elem_of_singleton in Hin. by simplify_eq.
  - set (s1 := set_bash _ s). destruct (shell_exit_total v s1) as (s' & E & Hin).
    pose proof (preserves (R:=same bash_) (m:=shell_exit v) s1) as Hb.
    pose proof (preserves (R:=same control_) (m:=shell_exit v) s1) as Hc.
    pose proof (preserves (R:=log_grows) (m:=shell_exit v) s1) as [tr Ht].
    rewrite E in Hb, Hc, Ht. unfold same in Hb, Hc. simpl in Hb, Hc, Ht.
    rewrite E. exists s'. split; [done|]. split; [|done].
    exists (seen ++ [(k', v)]), rest. rewrite <-app_assoc. split_and!; [done..| |].
    + rewrite Hb. f_equal. unfold dkeys. rewrite fmap_app.
      replace (bool_decide (id ∈ seen.*1 ++ [(k', v)].*1)) with (bool_decide (id ∈ dkeys seen));
        [done|]. apply bool_decide_ext. unfold dkeys. set_solver.
    + intros k w Hin' Hw. apply elem_of_app in Hin' as [Hin'|Hin'].
      * rewrite Ht, elem_of_app. left. eauto.
      * apply list_elem_of_singleton in Hin'. by simplify_eq.
Qed.

Lemma down_loop_spec `{!QuietExit W} id h d0 s :
  dwf d0 → NoDup (dvalues d0) → dget id d0 = Some h → bash_ s = d0 →
  ∃ s', for_ (dkeys d0) (close_other h) s = (Ok tt, s') ∧
    bash_ s' = [(id, h)] ∧ control_ s' = control_ s ∧
    ∀ k v, dget k d0 = Some v → v ≠ h → EExit v ∈ trace s'.
Proof.
  intros Hd Hv Hg Hs.
  assert (Hl : ∀ l s, down_inv id h d0 l s → ∃ s',
    for_ l (close_other h) s = (Ok tt, s') ∧ down_inv id h d0 [] s' ∧ control_ s' = control_ s).
  { clear s Hs. induction l as [|k l IH]; intros s Hi; simpl; [eauto|].
    destruct (close_other_spec id h d0 k l s) as (s1 & E & Hi1 & Hc1); [done..|].
    unfold mbind, M_bind. rewrite E. destruct (IH s1 Hi1) as (s2 & -> & Hi2 & Hc2).
    exists s2. split_and!; [done..|congruence]. }
  destruct (Hl (dkeys d0) s) as (s' & E & (seen & rest & E0 & Er & Eb & Ex) & Hc).
  { exists [], d0. rewrite bool_decide_false by (apply not_elem_of_nil).
    rewrite app_nil_r. split_and!; try done. set_solver. }
  exists s'. destruct rest; [|done]. rewrite app_nil_r in E0. subst seen. split_and!; try done.
  - rewrite Eb. rewrite bool_decide_true; [done|]. apply dget_is_Some. eauto.
  - intros k v Hk. by eapply Ex, dget_Some.
Qed.

(** C4: [command] in a cached terminal sends the command once and returns
    the result exactly when the exit code and every message are as asked
    ([verdict]); otherwise it raises [AssertionError] with the output, or
    [ValueError] for an expectation that is no number.  A time-out closes and
    forgets the terminal before it is raised again; any other exception is
    raised as it is. *)
Theorem command_outcome `{!QuietExit W} node cmd a h s :
  bash_arg a = None → dget (thread s, node_str node) (bash_ s) = Some h →
  dwf (bash_ s) → locked s = false →
  let t := limit a h s in
  match env_call h cmd t (world s) with
  | (inr r, w) =>
      command fuel cl node cmd a s = (verdict a r, set_world [ECall h cmd t (inr r)] w s)
  | (inl ExpectTimeoutError, w) =>
      ∃ s', command fuel cl node cmd a s = (Exc ExpectTimeoutError, s') ∧
        bash_ s' = ddel (thread s, node_str node) (bash_ s) ∧ EExit h ∈ trace s'
  | (inl e, w) =>
      command fuel cl node cmd a s = (Exc e, set_world [ECall h cmd t (inl e)] w s)
  end.
Proof.
  intros Ha Hg Hd Hl t. rewrite (command_run node cmd a h s) by auto. fold t.
  destruct (env_call h cmd t (world s)) as [[e|r] w]; [|done].
  destruct e; try done. set (s1 := set_world _ _ _).
  destruct (close_bash_forgets node s1 Hd Hl) as (s' & E & Hb & _ & Hx).
  unfold mbind, M_bind. rewrite E. exists s'. split_and!; [done..|by apply Hx].
Qed.

(** The terminals of [s] other than [h] have been closed in [s']. *)
Definition others_closed (h : nat) s s' : Prop :=
  (∀ id v, dget id (bash_ s) = Some v → v ≠ h → EExit v ∈ trace s') ∧
  (∀ c, control_ s = Some c → EExit c ∈ trace s').

(** C34: when [down] returns, the only terminal left is the calling thread's
    own on the host, every other one was closed, and so was the control
    shell. *)
Theorem down_closes_all `{!QuietExit W} timeout h s r s' :
  shells_ok s → locked s = false → debug cl && running s = false →
  dget (thread s, "None") (bash_ s) = Some h →
  down fuel cl timeout s = (Ok r, s') →
  bash_ s' = [((thread s, "None"), h)] ∧ control_ s' = None ∧ others_closed h s s'.
Proof.
  intros Hok Hl Hdb Hg Hdown. revert Hdown.
  unfold down, mbind at 1, M_bind, gets. rewrite Hdb. simpl. unfold mbind at 1, M_bind. simpl.
  unfold try_finally_return, mbind at 1, M_bind, bash0.
  rewrite (bash_cached None _ _ h s) by done. unfold try_else.
  destruct Hok as [Kk Kd Ko Kc Kn].
  destruct (down_loop_spec (thread s, "None") h (bash_ s) (set_locked true s))
    as (s1 & E & Hb & Hc & Hx); [done..|].
  replace (with_lock _ s) with (Ok tt, set_locked false s1).
  2: { unfold with_lock, try_finally, mbind, M_bind, gets, modify. simpl. rewrite Hl. simpl.
       by rewrite E. }
  simpl. unfold mbind at 1, M_bind. simpl. unfold mbind at 1, M_bind.
  set (s2 := set_locked false s1). set (cmd := docker_compose cl +:+ _).
  set (a := mkArgs None None AnyCode (Some h) false (Some timeout)).
  destruct (command fuel cl None cmd a s2) as [[r1|e|w] s3] eqn:Ec; [|done..].
  apply (command_ok None cmd a h s2) in Ec as (w & _ & -> & _); [|by left].
  subst s2. unfold with_lock, mbind, M_bind, gets, modify, try_finally. simpl.
  set (s2 := set_locked true _). rewrite Hc. simpl. simpl in Hc. destruct (control_ s) as [c|] eqn:Hcs; simpl.
  - destruct (shell_exit_total c s2) as (s4 & E4 & H4). rewrite E4. simpl.
    pose proof (preserves (R:=same bash_) (m:=shell_exit c) s2) as Hb4.
    pose proof (preserves (R:=log_grows) (m:=shell_exit c) s2) as [tr Ht].
    rewrite E4 in Hb4, Ht. unfold same in Hb4. subst s2. simpl in *. intros [= <- <-]. simpl.
    split_and!; [congruence|done|]. unfold others_closed. rewrite Hcs.
    split; [|by intros ? [= <-]].
    intros id v Hv Hne. simpl. rewrite Ht, !elem_of_app. left; left. exact (Hx id v Hv Hne).
  - subst s2. intros [= <- <-]. simpl. split_and!; [exact Hb|congruence|]. unfold others_closed. rewrite Hcs. split; [|done].
    intros id v Hv Hne. simpl. rewrite elem_of_app. left. exact (Hx id v Hv Hne).
Qed.
End commands.

(** ** Examples *)

Lemma command_outcome_witness :
  ∃ s', @command Z (script_env healthy) 3 plain_config (Some "clickhouse1") "cat /missing"
          args0 demo_state = (Exc ExpectTimeoutError, s') ∧
    bash_ s' = [] ∧ EExit 1 ∈ trace s'.
Proof.
  assert (Hg : dget (thread demo_state, "clickhouse1") (bash_ demo_state) = Some 1%nat)
    by by vm_compute.
  assert (Hd : dwf (bash_ demo_state)) by (vm_compute; repeat constructor; set_solver).
  assert (Hl : locked demo_state = false) by by vm_compute.
  exact (@command_outcome Z (script_env healthy) 3 plain_config (script_quiet healthy)
    (Some "clickhouse1") "cat /missing" args0 1 demo_state eq_refl Hg Hd Hl).
Defined.

(** Both a host terminal and a node terminal are open. *)
Definition demo_up : st Z := Eval vm_compute in
  (@bash Z (script_env healthy) 3 plain_config None (sec 300) "bash --noediting" demo_state).2.
Definition demo_down : res shell_result * st Z := Eval vm_compute in
  @down Z (script_env healthy) 3 plain_config (sec 300) demo_up.

Lemma down_closes_all_witness :
  bash_ demo_down.2 = [(("MainThread", "None"), 2%nat)] ∧ control_ demo_down.2 = None ∧
  others_closed 2 demo_up demo_down.2.
Proof.
  assert (Hok : shells_ok demo_up).
  { replace demo_up with (@bash Z (script_env healthy) 3 plain_config None (sec 300)
      "bash --noediting" demo_state).2 by (by vm_compute).
    apply (@kept_bash Z (script_env healthy) 3 plain_config).
    apply (@reachable_ok Z (script_env healthy) 3 plain_config [] 0 demo_state), demo_reachable. }
  apply (@down_closes_all Z (script_env healthy) 3 plain_config (script_quiet healthy)
    (sec 300) 2 demo_up (mkResult 0 "docker-compose down -v --remove-orphans --timeout 60"));
    [exact Hok|by vm_compute..].
Defined.

(** A terminal that cannot be opened stays in the dictionary after it was
    closed, and the next call hands it out without trying it. *)
Definition broken : string → exn + shell_result := λ command,
  if String.eqb command "echo 1" then inl ExpectTimeoutError
  else inr (mkResult 0 "abc").
Definition after_failure : res nat * st Z := Eval vm_compute in
  @bash Z (script_env broken) 3 plain_config None (sec 1) "bash --noediting"
    (set_thread "MainThread" (init [] 0)).
Definition next_bash : res nat * st Z := Eval vm_compute in
  @bash Z (script_env broken) 3 plain_config None (sec 1) "bash --noediting" after_failure.2.

Lemma dead_terminal_is_reused :
  after_failure.1 = Exc (RuntimeError "failed to open bash to node None") ∧
  next_bash.1 = Ok 0%nat ∧ EExit 0 ∈ trace next_bash.2 ∧
  trace next_bash.2 = trace after_failure.2.
Proof. split_and!; try by vm_compute. vm_compute. set_solver. Qed.
