(* ===== verification/Termination.v ===== *)
(** * The loops of the cluster end

    With a clock that moves (class [ClockLaws]), every method of [Cluster]
    (helpers/cluster.py) ends: no run needs more fuel than its timeout in
    microseconds, and [node_container_id] gives up after a number of attempts
    that is the square root of its timeout. *)
From stdpp Require Import gmap.
From S2P Require Import Prelude PyStr PyDict PyMonad World Cluster Shells.
Local Open Scope Z_scope.

Section ends.
Context {W : Type}.

(** [Ends m]: no run of [m] is short of fuel. *)
Class Ends {A} (m : M (st W) A) : Prop :=
  ends : ∀ s, (m s).1 ≠ Stuck OutOfFuel.

#[export] Instance ends_ret {A} (a : A) : Ends (mret a : M (st W) A).
Proof. by intros s. Qed.
#[export] Instance ends_raise {A} e : Ends (raise e : M (st W) A).
Proof. by intros s. Qed.
#[export] Instance ends_deadlock {A} : Ends (hang SelfDeadlock : M (st W) A).
Proof. by intros s. Qed.
#[export] Instance ends_gets {A} (f : st W → A) : Ends (gets f).
Proof. by intros s. Qed.
#[export] Instance ends_modify f : Ends (modify f : M (st W) unit).
Proof. by intros s. Qed.
#[export] Instance ends_or_raise {A} e (o : option A) :
  Ends (lift (or_raise e o) : M (st W) A).
Proof. intros s. by destruct o. Qed.
#[export] Instance ends_assert c out : Ends (assert_ c out : M (st W) unit).
Proof. intros s. by destruct c. Qed.
#[export] Instance ends_when c (m : M (st W) unit) : Ends m → Ends (when c m).
Proof. destruct c; [done|]. by intros _ s. Qed.
#[export] Instance ends_bind {A B} (m : M (st W) A) (f : A → M (st W) B) :
  Ends m → (∀ a, Ends (f a)) → Ends (m ≫= f).
Proof.
  intros Hm Hf s. specialize (Hm s). unfold mbind, M_bind.
  destruct (m s) as [[a|e|[]] s']; simpl in *; try done. by apply Hf.
Qed.
#[export] Instance ends_try_except {A} (m : M (st W) A) h :
  Ends m → (∀ e, Ends (h e)) → Ends (try_except m h).
Proof.
  intros Hm Hf s. specialize (Hm s). unfold try_except.
  destruct (m s) as [[a|e|[]] s']; simpl in *; try done. by apply Hf.
Qed.
#[export] Instance ends_try_else {A B} (m : M (st W) A) (k : A → M (st W) B) h :
  Ends m → (∀ a, Ends (k a)) → (∀ e, Ends (h e)) → Ends (try_else m k h).
Proof.
  intros Hm Hk Hf s. specialize (Hm s). unfold try_else.
  destruct (m s) as [[a|e|[]] s']; simpl in *; try done; [by apply Hk|by apply Hf].
Qed.
#[export] Instance ends_try_finally {A} (m : M (st W) A) f :
  Ends m → Ends f → Ends (try_finally m f).
Proof.
  intros Hm Hf s. specialize (Hm s). unfold try_finally.
  destruct (m s) as [[a|e|[]] s']; simpl in *; try done;
    specialize (Hf s'); by destruct (f s') as [[|?|[]] ?].
Qed.
#[export] Instance ends_try_finally_return {A B} (m : M (st W) A) (f : res A → M (st W) B) :
  Ends m → (∀ r, Ends (f r)) → Ends (try_finally_return m f).
Proof.
  intros Hm Hf s. specialize (Hm s). unfold try_finally_return.
  destruct (m s) as [[a|e|[]] s']; simpl in *; try done; by apply Hf.
Qed.
#[export] Instance ends_for {A} (l : list A) (body : A → M (st W) unit) :
  (∀ x, Ends (body x)) → Ends (for_ l body).
Proof. intros Hb. induction l; simpl; apply _. Qed.
Context `{Env W}.
#[export] Instance ends_ask {A} e (f : W → (exn + A) * W) : Ends (ask e f).
Proof. intros s. unfold ask. by destruct (f _) as [[] ?]. Qed.
#[export] Instance ends_tempfile c : Ends (tempfile (W:=W) c).
Proof. intros s. unfold tempfile. by destruct (env_tempfile c _). Qed.
#[export] Instance ends_new_shell spec : Ends (new_shell (W:=W) spec).
Proof.
  intros s. unfold new_shell. set (m := (_ ;; _)).
  assert (Ends m) as Hm by apply _. by apply (Hm (set_next _ s)).
Qed.
End ends.

#[export] Hint Mode Ends + + ! : typeclass_instances.
#[export] Hint Extern 1 (Ends now) => unfold now : typeclass_instances.
#[export] Hint Extern 1 (Ends (sleep _)) => unfold sleep : typeclass_instances.
#[export] Hint Extern 1 (Ends (in_step _)) => unfold in_step : typeclass_instances.
#[export] Hint Extern 1 (Ends (set_timeout _ _)) => unfold set_timeout : typeclass_instances.
#[export] Hint Extern 1 (Ends (shell_enter _)) => unfold shell_enter : typeclass_instances.
#[export] Hint Extern 1 (Ends (shell_call _ _ _)) => unfold shell_call : typeclass_instances.
#[export] Hint Extern 1 (Ends (shell_send _ _)) => unfold shell_send : typeclass_instances.
#[export] Hint Extern 1 (Ends (shell_exit _)) => unfold shell_exit, exit_round : typeclass_instances.
#[export] Hint Extern 1 (Ends (with_lock _)) => unfold with_lock : typeclass_instances.
#[export] Hint Extern 5 (Ends (match ?x with _ => _ end)) => destruct x : typeclass_instances.

Section clock.
Context {W : Type} `{Env W, !ClockLaws W}.
Implicit Types (s : st W).

(** The clock of a state, and its order *)
Definition time s : Z := env_time (world s).
Definition later s s' : Prop := time s <= time s'.
#[export] Instance later_preorder : PreOrder later.
Proof. split; unfold later; [by intros s|intros s1 s2 s3; lia]. Qed.

Lemma ask_time {A} e (f : W → (exn + A) * W) s :
  time (ask e f s).2 = env_time (f (world s)).2.
Proof. unfold ask, time. by destruct (f (world s)). Qed.

Lemma later_modify (f : st W → st W) :
  (∀ s, world (f s) = world s) → Preserves later (modify f).
Proof. intros Hf s. unfold later, time. simpl. by rewrite Hf. Qed.

#[export] Instance later_new_shell spec : Preserves later (new_shell spec).
Proof.
  intros s. unfold new_shell, mbind, M_bind, later.
  pose proof (ask_time (λ _, EOpen (next_id s) spec) (env_open (next_id s) spec)
                (set_next (S (next_id s)) s)) as Ht.
  pose proof (open_time (next_id s) spec (world s)).
  destruct (ask _ _ _) as [[a|e|w] s']; simpl in *; rewrite Ht; unfold time; lia.
Qed.
#[export] Instance later_shell_enter h : Preserves later (shell_enter h).
Proof. intros s. unfold later, shell_enter. rewrite ask_time. pose proof (enter_time h (world s)). unfold time. lia. Qed.
#[export] Instance later_shell_call h c t : Preserves later (shell_call h c t).
Proof.
  intros s. unfold later, shell_call, mbind, M_bind, gets. rewrite ask_time.
  match goal with |- context [env_call h c ?l _] => pose proof (call_time h c l (world s)) end. unfold time. lia.
Qed.
#[export] Instance later_shell_send h c : Preserves later (shell_send h c).
Proof. intros s. unfold later, shell_send. rewrite ask_time. apply (send_time h c (world s)). Qed.
#[export] Instance later_exit_round h : Preserves later (exit_round h).
Proof. unfold exit_round. apply _. Qed.
#[export] Instance later_sleep t : Preserves later (sleep t).
Proof. intros s. unfold later, sleep. rewrite ask_time. pose proof (sleep_time t (world s)). simpl. unfold time. lia. Qed.

(** Closing a terminal takes time, unless it fails. *)
Lemma shell_exit_time h s :
  time s < time (shell_exit h s).2 ∨ ∀ u, (shell_exit h s).1 ≠ Ok u.
Proof.
  unfold shell_exit, mbind, M_bind.
  assert (Hp : Preserves later (for_ (seq 0 10) (λ _, exit_round h))) by apply _.
  specialize (Hp s). destruct (for_ _ _ s) as [[[]|e|w] s1]; simpl in *; [left|by right..].
  rewrite ask_time. pose proof (exit_time h (world s1)). unfold later, time in *. lia.
Qed.
#[export] Instance later_shell_exit h : Preserves later (shell_exit h).
Proof.
  unfold shell_exit. apply preserves_bind; [apply _..|]. intros _ s. unfold later.
  rewrite ask_time. pose proof (exit_time h (world s)). unfold time. lia.
Qed.
End clock.

#[export] Hint Extern 0 (Preserves later (modify _)) =>
  (apply later_modify; intros ?; reflexivity) : typeclass_instances.

Section loops.
Context {W : Type} `{Env W, !ClockLaws W}.
Variables (fuel : nat) (cl : config).
Implicit Types (s : st W).

(** Fuel for a loop that gives up [timeout] after [t0] *)
Definition enough (n : nat) (timeout t0 : Z) s : Prop :=
  (Z.to_nat (timeout - (time s - t0)) + 1 <= n)%nat.

Lemma later_open_loop n open bound failure timeout t0 last :
  Preserves later open → (∀ l, Preserves later (bound l)) →
  Preserves later (open_loop (W:=W) n open bound failure timeout t0 last).
Proof.
  intros Ho Hb. revert last. induction n as [|n IH]; intros last; cbn [open_loop]; [apply _|].
  unfold open_retry, probe. apply _.
Qed.

Lemma open_retry_ends n again bound failure timeout t0 e last s :
  (∀ l, Preserves later (bound l)) → (∀ l, Ends (bound l)) →
  (∀ l s, enough n timeout t0 s → (again l s).1 ≠ Stuck OutOfFuel) →
  enough (S n) timeout t0 s →
  (open_retry (W:=W) again bound failure timeout t0 e last s).1 ≠ Stuck OutOfFuel.
Proof.
  intros Hbl Hbe Ha Hn. unfold open_retry.
  destruct e; try done; unfold mbind, M_bind.
  all: specialize (Hbl last s); specialize (Hbe last s);
    destruct (bound last s) as [[h|e|[]] s1]; simpl in *; try done.
  all: pose proof (shell_exit_time h s1) as Ht;
    assert (He : Ends (shell_exit (W:=W) h)) by apply _; specialize (He s1);
    destruct (shell_exit h s1) as [[[]|e|[]] s2]; simpl in *; try done.
  all: destruct (Z.ltb_spec timeout (env_time (world s2) - t0)); [done|].
  all: apply Ha; unfold enough, later, time in *; destruct Ht as [Ht|Ht];
    [lia|by specialize (Ht tt)].
Qed.

Lemma open_loop_ends n open bound failure timeout t0 last s :
  Preserves later open → (∀ l, Preserves later (bound l)) →
  Ends open → (∀ l, Ends (bound l)) → enough n timeout t0 s →
  (open_loop (W:=W) n open bound failure timeout t0 last s).1 ≠ Stuck OutOfFuel.
Proof.
  intros Hol Hbl Hoe Hbe. revert last s. induction n as [|n IH]; intros last s Hn;
    [unfold enough in Hn; lia|].
  cbn [open_loop]. set (retry := open_retry _ _ _ _ _).
  assert (Hr : ∀ e l s, enough (S n) timeout t0 s → (retry e l s).1 ≠ Stuck OutOfFuel).
  { intros e l s' Hs'. by apply (open_retry_ends n). }
  clearbody retry. unfold try_else. specialize (Hol s). specialize (Hoe s).
  destruct (open s) as [[h|e|[]] s1]; simpl in *; try done.
  - unfold try_except. assert (Hp : Preserves later (probe (W:=W) h)) by (unfold probe; apply _).
    assert (He : Ends (probe (W:=W) h)) by (unfold probe; apply _).
    specialize (Hp s1). specialize (He s1).
    destruct (probe h s1) as [[x|e|[]] s2]; simpl in *; try done.
    apply Hr. unfold enough, later in *. lia.
  - apply Hr. unfold enough, later in *. lia.
Qed.

#[export] Instance later_local_shell l : Preserves later (local_shell (W:=W) l).
Proof. unfold local_shell. apply _. Qed.
#[export] Instance ends_local_shell l : Ends (local_shell (W:=W) l).
Proof. unfold local_shell. apply _. Qed.
#[export] Instance later_control_shell : Preserves later (control_shell (W:=W) fuel).
Proof.
  unfold control_shell. apply preserves_bind; [apply _..|]. intros [h|]; [apply _|].
  apply preserves_bind; [apply _..|]. intros t0.
  apply preserves_bind; [apply _|apply later_open_loop; apply _|]. apply _.
Qed.
#[export] Instance later_close_control_shell : Preserves later (close_control_shell (W:=W)).
Proof. unfold close_control_shell. apply _. Qed.

(** Fuel for the control shell *)
Definition fuel_ok : Prop := (Z.to_nat (sec 300) + 1 <= fuel)%nat.

Lemma control_shell_ends : fuel_ok → Ends (control_shell (W:=W) fuel).
Proof.
  intros Hf s. unfold control_shell, mbind, M_bind, gets, now.
  destruct (control_ s) as [h|]; simpl; [done|].
  pose proof (open_loop_ends fuel (new_shell local_spec) local_shell
    (RuntimeError "failed to open control shell") (sec 300) (time s) None s) as Ho.
  unfold time in Ho at 2. destruct (open_loop _ _ _ _ _ _ _ _) as [[h|e|[]] s1]; simpl; try done.
  exfalso. apply Ho; try apply _; [|done]. unfold enough. by rewrite Z.sub_diag, Z.sub_0_r.
Qed.

(** One attempt of [node_container_id] *)
Definition container_attempt (node : string) (timeout : Z) : M (st W) (option string) :=
  try_except
    (shell ← control_shell fuel;
     c ← shell_call shell (docker_compose cl +:+ " ps -q " +:+ node) (Some timeout);
     let container_id := strip (output c) in
     mret (if (exitcode c =? 0) && (1 <? slen container_id)%nat
           then Some container_id else None))
    (λ e, match e with
          | ExpectTimeoutError => close_control_shell;; mret None
          | e => raise e
          end).

(** [n] attempts are enough when the [k]-th attempt starts and
    [timeout <= k + (k + 1) + ... + (k + n - 1)] seconds. *)
Lemma container_id_loop_ends n k node timeout t0 s :
  fuel_ok → (1 <= n)%nat → 0 <= k → sec k <= time s - t0 →
  2 * timeout <= sec (2 * Z.of_nat n * k + Z.of_nat n * (Z.of_nat n - 1)) →
  (container_id_loop fuel cl n node timeout t0 s).1 ≠ Stuck OutOfFuel.
Proof.
  intros Hf. revert k timeout s. induction n as [|n IH]; intros k timeout s Hn Hk Ht Hle; [lia|].
  cbn [container_id_loop]. fold (container_attempt node timeout). unfold mbind at 1, M_bind.
  pose proof (control_shell_ends Hf) as Hc.
  assert (He : Ends (container_attempt node timeout)).
  { unfold container_attempt, close_control_shell. apply _. }
  assert (Hl : Preserves later (container_attempt node timeout)).
  { unfold container_attempt. apply _. }
  specialize (He s). specialize (Hl s).
  destruct (container_attempt node timeout s) as [[[id|]|e|[]] s1]; simpl in *; try done.
  unfold mbind, M_bind, now, gets. simpl. fold (time s1).
  destruct (Z.leb_spec (timeout - (time s1 - t0)) 0); [done|].
  pose proof (sleep_time (sec 1) (world s1)) as Hs.
  unfold later, time, sec in *. destruct n as [|n].
  - exfalso. lia.
  - apply (IH (k + 1)); simpl; [lia|lia|lia|nia].
Qed.

(** Fuel for a method with the given timeout *)
Definition fuel_for (timeout : Z) : Prop :=
  (Z.to_nat (Z.max (sec 300) timeout) + 1 <= fuel)%nat.

Lemma fuel_for_ok timeout : fuel_for timeout → fuel_ok ∧ fuel_for (sec 300).
Proof. unfold fuel_for, fuel_ok, sec. lia. Qed.

Lemma node_container_id_ends node timeout :
  fuel_for timeout → Ends (node_container_id (W:=W) fuel cl node timeout).
Proof.
  intros Hf s. destruct (fuel_for_ok _ Hf) as [Hok _].
  unfold node_container_id, mbind, M_bind, now, gets. simpl.
  apply (container_id_loop_ends _ 0); [done| |lia| |]; unfold fuel_for, time, sec in *;
    [lia|lia|nia].
Qed.

Lemma timed_loop_ends {A} open bound failure timeout (k : nat → M (st W) A) :
  fuel_for timeout → Preserves later open → (∀ l, Preserves later (bound l)) →
  Ends open → (∀ l, Ends (bound l)) → (∀ h, Ends (k h)) →
  Ends (t0 ← now; h ← open_loop fuel open bound failure timeout t0 None; k h).
Proof.
  intros Hf Hol Hbl Hoe Hbe Hk s. unfold mbind, M_bind, now, gets. simpl.
  pose proof (open_loop_ends fuel open bound failure timeout (time s) None s
    Hol Hbl Hoe Hbe) as Ho. unfold time in Ho at 2.
  destruct (open_loop _ _ _ _ _ _ _ _) as [[h|e|[]] s1]; simpl; try done; [apply Hk|].
  exfalso. apply Ho; [|done]. unfold enough, fuel_for in *. rewrite Z.sub_diag, Z.sub_0_r. lia.
Qed.

#[export] Instance later_bash_at id : Preserves later (bash_at (W:=W) id).
Proof. unfold bash_at. apply _. Qed.
#[export] Instance ends_bash_at id : Ends (bash_at (W:=W) id).
Proof. unfold bash_at. apply _. Qed.
#[export] Instance ends_close_stale : Ends (close_stale (W:=W)).
Proof. unfold close_stale. apply _. Qed.

Lemma open_bash_ends id node timeout cmd :
  fuel_for timeout → Ends (open_bash (W:=W) fuel cl id node timeout cmd).
Proof.
  intros Hf. unfold open_bash. pose proof (λ n, node_container_id_ends n _ Hf).
  apply ends_bind; [apply _|]. intros cid.
  apply timed_loop_ends; try done; try (unfold new_bash; apply _); apply _.
Qed.

Lemma bash_ends node timeout cmd :
  fuel_for timeout → Ends (bash (W:=W) fuel cl node timeout cmd).
Proof.
  intros Hf. unfold bash. pose proof (λ i, open_bash_ends i node timeout cmd Hf). apply _.
Qed.

Lemma shell_ends node timeout : fuel_for timeout → Ends (shell (W:=W) fuel cl node timeout).
Proof.
  intros Hf. unfold shell. pose proof (λ n, node_container_id_ends n _ Hf).
  apply ends_bind; [apply _|]. intros cid. apply timed_loop_ends; try done; apply _.
Qed.

#[export] Instance ends_close_bash node : Ends (close_bash (W:=W) node).
Proof. unfold close_bash. apply _. Qed.
#[export] Instance ends_close_bashes name : Ends (close_bashes (W:=W) name).
Proof. unfold close_bashes. apply _. Qed.
#[export] Instance ends_check_exitcode e r : Ends (check_exitcode (W:=W) e r).
Proof. unfold check_exitcode. apply _. Qed.

(** Time does not run backwards in a command. *)
#[export] Instance later_container_id_loop n node timeout t0 :
  Preserves later (container_id_loop (W:=W) fuel cl n node timeout t0).
Proof. revert timeout. induction n as [|n IH]; intros timeout; cbn [container_id_loop]; apply _. Qed.
#[export] Instance later_node_container_id node timeout :
  Preserves later (node_container_id (W:=W) fuel cl node timeout).
Proof. unfold node_container_id. apply _. Qed.
#[export] Instance later_close_stale : Preserves later (close_stale (W:=W)).
Proof. unfold close_stale. apply _. Qed.
#[export] Instance later_new_bash id node cid cmd :
  Preserves later (new_bash (W:=W) id node cid cmd).
Proof. unfold new_bash. apply _. Qed.
#[export] Instance later_open_bash id node timeout cmd :
  Preserves later (open_bash (W:=W) fuel cl id node timeout cmd).
Proof.
  unfold open_bash. apply preserves_bind; [apply _..|]. intros cid.
  apply preserves_bind; [apply _..|]. intros t0.
  apply preserves_bind; [apply _|apply later_open_loop; apply _|]. apply _.
Qed.
#[export] Instance later_bash node timeout cmd :
  Preserves later (bash (W:=W) fuel cl node timeout cmd).
Proof. unfold bash. apply _. Qed.
#[export] Instance later_close_bash node : Preserves later (close_bash (W:=W) node).
Proof. unfold close_bash. apply _. Qed.
#[export] Instance later_check_exitcode e r : Preserves later (check_exitcode (W:=W) e r).
Proof. unfold check_exitcode. apply _. Qed.
#[export] Instance later_command node cmd a :
  Preserves later (command (W:=W) fuel cl node cmd a).
Proof. unfold command, bash0. apply _. Qed.

Lemma command_ends node cmd a : fuel_for (sec 300) → Ends (command (W:=W) fuel cl node cmd a).
Proof.
  intros Hf. unfold command, bash0. pose proof (λ n c, bash_ends n _ c Hf). apply _.
Qed.

Lemma down_ends timeout : fuel_for (sec 300) → Ends (down (W:=W) fuel cl timeout).
Proof.
  intros Hf. unfold down, bash0, nodes_of, close_other.
  pose proof (λ n c, bash_ends n _ c Hf). pose proof (λ n c a, command_ends n c a Hf). apply _.
Qed.

Lemma cluster_exit_ends : fuel_for (sec 300) → Ends (cluster_exit (W:=W) fuel cl).
Proof.
  intros Hf. unfold cluster_exit, collect_logs, with_shell.
  pose proof (down_ends (sec 300) Hf). apply _.
Qed.

Definition method_timeout (m : method) : Z :=
  match m with CallBash _ timeout _ | CallShell _ timeout => timeout | _ => sec 300 end.

(** C28: given a clock that moves, no method of the cluster can loop for
    ever: a number of loop turns that exceeds its timeout in microseconds
    (300 seconds for those without one) is never needed. *)
Theorem methods_end (m : method) :
  fuel_for (method_timeout m) → ∀ s, (run_method fuel cl m s).1 ≠ Stuck OutOfFuel.
Proof.
  intros Hf. destruct (fuel_for_ok _ Hf) as [_ H3]. change (Ends (run_method (W:=W) fuel cl m)).
  pose proof (λ n c, bash_ends n _ c Hf). pose proof (λ n, shell_ends n _ Hf).
  pose proof (λ n c a, command_ends n c a H3). pose proof (λ t, down_ends t H3).
  pose proof (cluster_exit_ends H3).
  destruct m; simpl in *; apply _.
Qed.

(** [node_container_id] gives up early: [n] attempts are enough as
    soon as [n * (n - 1) / 2] seconds reach its timeout, so the 300 seconds it
    is called with end after 25 attempts. *)
Lemma container_id_attempts (n : nat) (node : string) (timeout : Z) s :
  fuel_ok → (1 <= n)%nat → 2 * timeout <= sec (Z.of_nat n * (Z.of_nat n - 1)) →
  (container_id_loop fuel cl n node timeout (time s) s).1 ≠ Stuck OutOfFuel.
Proof.
  intros Hf Hn Ht. apply (container_id_loop_ends n 0); [done..|lia| |]; unfold sec in *; lia.
Qed.
End loops.

(** A clock of whole seconds and an empty answer: the 300 seconds are up
    after 25 attempts, long before 300 seconds have passed. *)
Definition no_answer : string → exn + shell_result := λ _, inr (mkResult 0 EmptyString).
Lemma container_id_attempts_witness :
  (@container_id_loop Z (script_env no_answer) (Z.to_nat (sec 300) + 1) plain_config 25
     "clickhouse1" (sec 300) 0 (init [] 0)).1 ≠ Stuck OutOfFuel.
Proof.
  apply (@container_id_attempts Z (script_env no_answer) (script_clock no_answer)
    (Z.to_nat (sec 300) + 1) plain_config 25 "clickhouse1" (sec 300) (init [] 0));
    unfold fuel_ok, sec; lia.
Defined.

Lemma methods_end_witness :
  (@run_method Z (script_env no_answer) (Z.to_nat (sec 300) + 1) plain_config
    (CallCommand (Some "clickhouse1") "ls" args0) (init [] 0)).1 ≠ Stuck OutOfFuel.
Proof.
  apply (@methods_end Z (script_env no_answer) (script_clock no_answer)).
  unfold fuel_for, method_timeout, sec. lia.
Defined.

Example early_give_up :
  let r := @node_container_id Z (script_env no_answer) 30 plain_config "clickhouse1" (sec 300)
             (init [] 0) in
  r.1 = Exc (RuntimeError "failed to get docker container id for the clickhouse1 service") ∧
  world r.2 < sec 60.
Proof. by vm_compute. Qed.
