(* ===== verification/Query.v ===== *)
(** * Running SQL on a node

    [ClickHouseNode.query], [hash_query] and [diff_query] and [Node.cmd] of
    helpers/cluster.py, and the interface [SqlNode] through which the steps
    of the suites run their SQL. *)
From stdpp Require Import gmap.
From Stdlib Require Import Ascii.
From S2P Require Import Prelude PyStr PyDict PyMonad World Cluster Shells Commands.
Local Open Scope Z_scope.

(** Keyword arguments of [query]; [steps] and [step] only choose how the run
    is reported. *)
Record query_args := mkQuery {
  q_message : option string;
  q_exitcode : option Z;
  q_no_checks : bool;
  q_raise_on_exception : bool;
  q_ignore_exception : bool;
  q_settings : list (string * string);
  q_retry_count : Z;
  q_messages_to_retry : option (list string);
  q_retry_delay : Z;
  q_secure : bool;
  q_max_query_output_in_bytes : string;
  q_query_id : option string;
  q_use_file : bool;
  q_hash_output : bool;
  q_file_output : option string;
  q_pipe_cmd : string;
  q_timeout : option Z
}.

Definition query0 : query_args :=
  mkQuery None None false false false [] 5 None (sec 5) false "-0" None false false None
    "echo -e" None.
Definition with_settings (settings : list (string * string)) : query_args :=
  mkQuery None None false false false settings 5 None (sec 5) false "-0" None false false None
    "echo -e" None.
Definition no_checks_query : query_args :=
  mkQuery None None true false false [] 5 None (sec 5) false "-0" None false false None
    "echo -e" None.
Definition query_expecting (exitcode : option Z) (message : option string) : query_args :=
  mkQuery message exitcode false false false [] 5 None (sec 5) false "-0" None false false None
    "echo -e" None.

(** What a step that runs SQL needs of a node. *)
Class SqlNode (S : Type) := sql_query : string → query_args → M S shell_result.
#[export] Hint Mode SqlNode ! : typeclass_instances.

Definition MESSAGES_TO_RETRY : list string := [
  "DB::Exception: ZooKeeper session has been expired";
  "DB::Exception: Connection loss";
  "Coordination::Exception: Session expired";
  "Coordination::Exception: Connection loss";
  "Coordination::Exception: Operation timeout";
  "DB::Exception: Operation timeout";
  "Operation timed out";
  "ConnectionPoolWithFailover: Connection failed at try";
  "DB::Exception: New table appeared in database being dropped or detached. Try again";
  "is already started to be removing by another replica right now";
  "Shutdown is called for table";
  "is executing longer than distributed_ddl_task_timeout"].

(** [' --{name} "{value}"'] for each setting *)
Definition client_options (settings : list (string * string)) : string :=
  foldr (λ nv acc, " --" +:+ nv.1 +:+ " " +:+ q nv.2 +:+ acc) EmptyString settings.

(** A non-empty optional string is true. *)
Definition truthy (o : option string) : bool :=
  match o with Some s => negb (String.eqb s EmptyString) | None => false end.

Definition client (secure : bool) : string :=
  "clickhouse client -n" +:+ (if secure then " -s" else EmptyString).

Section text.
Variables (docker_compose name : string).

(** The command that pipes the temporary file [file] into the client. *)
Definition file_command (file : string) (settings : list (string * string)) (a : query_args)
    : string :=
  let run := client (q_secure a) +:+ client_options settings in
  let exec := "cat " +:+ q file +:+ " | " +:+ docker_compose +:+ " exec -T " +:+ name +:+
              " bash -c " in
  if negb (String.eqb (q_max_query_output_in_bytes a) "-0") then
    exec +:+ q ("(set -o pipefail && " +:+ run +:+ " 2>&1 | head -c " +:+
                q_max_query_output_in_bytes a +:+ ")")
  else if q_hash_output a then
    exec +:+ q ("(set -o pipefail && " +:+ run +:+ " 2>&1 | sha512sum)")
  else if truthy (q_file_output a) then
    exec +:+ q ("(set -o pipefail && " +:+ run +:+ " 2>&1 > '" +:+
                default EmptyString (q_file_output a) +:+ "')")
  else exec +:+ q (run +:+ " 2>&1").

(** The command that echoes the text into the client. *)
Definition inline_command (sql : string) (settings : list (string * string)) (a : query_args)
    : string :=
  let run := q_pipe_cmd a +:+ " " +:+ q sql +:+ " | " +:+ client (q_secure a) +:+
             client_options settings +:+ " 2>&1" in
  if negb (String.eqb (q_max_query_output_in_bytes a) "-0") then
    "(set -o pipefail && " +:+ run +:+ " | head -c " +:+ q_max_query_output_in_bytes a +:+ ")"
  else if q_hash_output a then
    "(set -o pipefail && " +:+ run +:+ " | sha512sum)"
  else run.
End text.

(** [self.query_settings] of a call in a context with default settings *)
Definition query_settings (context : option (list (string * string)))
    (settings : list (string * string)) (query_id : option string) : list (string * string) :=
  settings ++ default [] context ++
  match query_id with Some id => [("query_id", id)] | None => [] end.

(** The arguments that a retried [query] passes to itself; the others take
    their defaults. *)
Definition retry_args (a : query_args) (messages_to_retry : list string) : query_args :=
  mkQuery (q_message a) (q_exitcode a) (q_no_checks a) (q_raise_on_exception a) false
    (q_settings a) (q_retry_count a - 1) (Some messages_to_retry) (sec 5) false "-0" None
    false false None "echo -e" (q_timeout a).

(** Is the output searched for an exception? *)
Definition looks_for_exception (a : query_args) : bool :=
  negb (q_ignore_exception a) &&
  match q_message a with None => true | Some m => negb (contains "Exception:" m) end.

Section query.
Context {W : Type} `{Env W}.
Variables (fuel : nat) (cl : config) (name : string).
Abbreviation M := (M (st W)).

(** [self.cluster.bash(node)(command)], with the terminal closed on a
    time-out. *)
Definition run_bash (node : option string) (shell_command command : string)
    (timeout : option Z) : M shell_result :=
  try_except
    (h ← bash fuel cl node (sec 300) shell_command; shell_call h command timeout)
    (λ e, match e with
          | ExpectTimeoutError => close_bash node;; raise e
          | e => raise e
          end).

(** [Node.cmd] *)
Definition cmd (cmd : string) (message : option string) (exitcode_ : option Z)
    (shell_command : string) (no_checks : bool) (timeout : option Z) : M shell_result :=
  r ← run_bash (Some name) shell_command cmd timeout;
  if no_checks then mret r
  else
    match exitcode_ with Some n => assert_ (exitcode r =? n) (output r) | None => mret tt end;;
    match message with Some m => assert_ (contains m (output r)) (output r) | None => mret tt end;;
    mret r.

(** The part of [query] that runs the client. *)
Definition run_client (sql : string) (a : query_args) : M shell_result :=
  context ← gets default_query_settings;
  let settings := query_settings context (q_settings a) (q_query_id a) in
  if (1024 <? slen sql)%nat || q_use_file a then
    file ← tempfile sql;
    run_bash None "bash --noediting" (file_command (docker_compose cl) name file settings a)
      (q_timeout a)
  else
    run_bash (Some name) "bash --noediting" (inline_command sql settings a) (q_timeout a).

(** The checks of [query] *)
Definition check_result (a : query_args) (r : shell_result) : M shell_result :=
  if q_no_checks a then mret r
  else
    match q_exitcode a with Some n => assert_ (exitcode r =? n) (output r) | None => mret tt end;;
    match q_message a with
    | Some m => assert_ (contains m (output r)) (output r)
    | None => mret tt
    end;;
    when (looks_for_exception a && contains "Exception:" (output r))
      (if q_raise_on_exception a then raise (QueryRuntimeException (output r))
       else raise (AssertionError (output r)));;
    mret r.

(** [query] with [n] retries left *)
Fixpoint query_go (n : nat) (sql : string) (a : query_args) : M shell_result :=
  let messages_to_retry := default MESSAGES_TO_RETRY (q_messages_to_retry a) in
  r ← run_client sql a;
  match n with
  | O => check_result a r
  | S n =>
      if existsb (λ m, contains m (output r)) messages_to_retry
      then sleep (Z.max 0 (q_retry_delay a));;
           query_go n sql (retry_args a messages_to_retry)
      else check_result a r
  end.

(** [ClickHouseNode.query] *)
Definition query (sql : string) (a : query_args) : M shell_result :=
  query_go (Z.to_nat (q_retry_count a)) sql a.

(** The shared ends of [hash_query] and [diff_query]: the settings are put
    after the whole pipeline, and a time-out leaves the result unbound. *)
Definition pipeline (node : option string) (command : string) (settings : list (string * string))
    (timeout : option Z) : M shell_result :=
  r ← try_except
    (h ← bash0 fuel cl node;
     r ← shell_call h (command +:+ client_options settings) timeout; mret (Some r))
    (λ e, match e with
          | ExpectTimeoutError => close_bash node;; mret None
          | e => raise e
          end);
  match r with
  | None => raise (UnboundLocalError "r")
  | Some r => assert_ (exitcode r =? 0) (output r);; mret r
  end.

(** [ClickHouseNode.hash_query] *)
Definition hash_query (sql hash_utility : string) (settings : list (string * string))
    (secure : bool) (query_id : option string) (pipe_cmd : string) (timeout : option Z)
    : M string :=
  context ← gets default_query_settings;
  let settings := query_settings context settings query_id in
  r ← (if (1024 <? slen sql)%nat then
         file ← tempfile sql;
         pipeline None
           ("set -o pipefail && cat " +:+ q file +:+ " | " +:+ docker_compose cl +:+
            " exec -T " +:+ name +:+ " " +:+ client secure +:+ " | " +:+ hash_utility)
           settings timeout
       else
         pipeline (Some name)
           ("set -o pipefail && " +:+ pipe_cmd +:+ " " +:+ q sql +:+ " | " +:+
            client secure +:+ " | " +:+ hash_utility)
           settings timeout);
  mret (output r).

(** [ClickHouseNode.diff_query] *)
Definition diff_query (sql expected_output : string) (settings : list (string * string))
    (secure : bool) (query_id : option string) (pipe_cmd : string) (timeout : option Z)
    : M unit :=
  context ← gets default_query_settings;
  let settings := query_settings context settings query_id in
  (if (1024 <? slen sql)%nat then
     file ← tempfile sql;
     pipeline None
       ("diff <(cat " +:+ q file +:+ " | " +:+ docker_compose cl +:+ " exec -T " +:+ name +:+
        " " +:+ client secure +:+ ") " +:+ expected_output)
       settings timeout
   else
     pipeline None
       ("diff <(" +:+ pipe_cmd +:+ " " +:+ q sql +:+ " | " +:+ docker_compose cl +:+
        " exec -T " +:+ name +:+ " " +:+ client secure +:+ ") " +:+ expected_output)
       settings timeout);;
  mret tt.

(** The node [name] of the cluster as a node that runs SQL *)
Definition cluster_sql_node : SqlNode (st W) := query.
End query.

#[export] Typeclasses Opaque run_bash cmd run_client check_result query_go query pipeline
  hash_query diff_query.

(** ** Frame facts *)

Section query_frame.
Context {W : Type} `{Env W}.
Variables (fuel : nat) (cl : config) (name : string).

#[export] Instance lk_run_bash node sc c t : Lk false (run_bash (W:=W) fuel cl node sc c t).
Proof. unfold run_bash. apply _. Qed.
#[export] Instance lk_cmd c m e sc nc t : Lk false (cmd (W:=W) fuel cl name c m e sc nc t).
Proof. unfold cmd. apply _. Qed.
#[export] Instance lk_run_client sql a : Lk false (run_client (W:=W) fuel cl name sql a).
Proof. unfold run_client. apply _. Qed.
#[export] Instance lk_check_result b a r : Lk b (check_result (W:=W) a r).
Proof. unfold check_result. apply _. Qed.
#[export] Instance lk_query_go n sql a : Lk false (query_go (W:=W) fuel cl name n sql a).
Proof. revert a. induction n as [|n IH]; intros a; cbn [query_go]; apply _. Qed.
#[export] Instance lk_query sql a : Lk false (query (W:=W) fuel cl name sql a).
Proof. unfold query. apply _. Qed.
#[export] Instance lk_pipeline node c l t : Lk false (pipeline (W:=W) fuel cl node c l t).
Proof. unfold pipeline. apply _. Qed.
#[export] Instance lk_hash_query sql u l s i p t :
  Lk false (hash_query (W:=W) fuel cl name sql u l s i p t).
Proof. unfold hash_query. apply _. Qed.
#[export] Instance lk_diff_query sql e l s i p t :
  Lk false (diff_query (W:=W) fuel cl name sql e l s i p t).
Proof. unfold diff_query. apply _. Qed.

#[export] Instance kept_run_bash node sc c t :
  Preserves kept (run_bash (W:=W) fuel cl node sc c t).
Proof. unfold run_bash. apply _. Qed.
#[export] Instance kept_run_client sql a : Preserves kept (run_client (W:=W) fuel cl name sql a).
Proof. unfold run_client. apply _. Qed.
#[export] Instance kept_check_result a r : Preserves kept (check_result (W:=W) a r).
Proof. unfold check_result. apply _. Qed.
#[export] Instance kept_query_go n sql a : Preserves kept (query_go (W:=W) fuel cl name n sql a).
Proof. revert a. induction n as [|n IH]; intros a; cbn [query_go]; apply _. Qed.
#[export] Instance kept_query sql a : Preserves kept (query (W:=W) fuel cl name sql a).
Proof. unfold query. apply _. Qed.
End query_frame.

(** ** What a query returns, sends and repeats *)

(** A result that passes the checks of [query] *)
Definition accepted (a : query_args) (r : shell_result) : bool :=
  q_no_checks a ||
  (match q_exitcode a with Some n => exitcode r =? n | None => true end &&
   match q_message a with Some m => contains m (output r) | None => true end &&
   negb (looks_for_exception a && contains "Exception:" (output r))).

(** The exception that a result that is not accepted raises *)
Definition rejection (a : query_args) (r : shell_result) : exn :=
  if match q_exitcode a with Some n => exitcode r =? n | None => true end &&
     match q_message a with Some m => contains m (output r) | None => true end &&
     q_raise_on_exception a
  then QueryRuntimeException (output r) else AssertionError (output r).

Section query_facts.
Context {W : Type} `{Env W}.
Variables (fuel : nat) (cl : config) (name : string).
Implicit Types (s : st W).

Lemma check_result_spec a r s :
  check_result a r s = (if accepted a r then Ok r else Exc (rejection a r), s).
Proof.
  unfold check_result, accepted, rejection. destruct (q_no_checks a); [done|].
  unfold mbind, M_bind, assert_, when. simpl.
  destruct (q_exitcode a) as [n|]; [destruct (exitcode r =? n)|]; simpl;
    (destruct (q_message a) as [m|]; [destruct (contains m (output r))|]); simpl; try done;
    destruct (looks_for_exception a && contains "Exception:" (output r)); simpl; try done;
    by destruct (q_raise_on_exception a).
Qed.

(** A retry looks at the output more strictly, never less. *)
Lemma accepted_retry a l r : accepted (retry_args a l) r = true → accepted a r = true.
Proof.
  unfold accepted, looks_for_exception, retry_args. simpl.
  destruct (q_no_checks a); [done|]. simpl.
  destruct (q_ignore_exception a); simpl; rewrite !andb_true_iff; [|tauto].
  intros [[H1 H2] _]. by rewrite H1, H2.
Qed.

(** C3: whatever happens on the way, retries included, a result that
    [query] returns passes all of the checks it was called with: the exit
    code, the message, and no exception in the output unless it was asked for
    or ignored. *)
Theorem query_sound sql a s r s' :
  query fuel cl name sql a s = (Ok r, s') → accepted a r = true.
Proof.
  unfold query. generalize (Z.to_nat (q_retry_count a)). intros n. revert a s.
  induction n as [|n IH]; intros a s; cbn [query_go]; unfold mbind at 1, M_bind;
    destruct (run_client _ _ _ _ _ _) as [[r1|e|w] s1]; try done.
  - rewrite check_result_spec. destruct (accepted a r1) eqn:E; [|done]. by intros [= <- _].
  - destruct (existsb _ _).
    + unfold mbind, M_bind, sleep, ask. simpl. intros Hq. by eapply accepted_retry, IH.
    + rewrite check_result_spec. destruct (accepted a r1) eqn:E; [|done]. by intros [= <- _].
Qed.

(** A short query in a cached terminal is one command. *)
Lemma run_client_inline sql a h s :
  (slen sql <= 1024)%nat → q_use_file a = false →
  dget (thread s, name) (bash_ s) = Some h → locked s = false →
  let c := inline_command sql
             (query_settings (default_query_settings s) (q_settings a) (q_query_id a)) a in
  let t := match q_timeout a with Some t => t | None => default 0 (timeouts s !! h) end in
  run_client fuel cl name sql a s =
  match env_call h c t (world s) with
  | (inr r, w) => (Ok r, set_world [ECall h c t (inr r)] w s)
  | (inl ExpectTimeoutError, w) =>
      (close_bash (Some name);; raise ExpectTimeoutError)
        (set_world [ECall h c t (inl ExpectTimeoutError)] w s)
  | (inl e, w) => (Exc e, set_world [ECall h c t (inl e)] w s)
  end.
Proof.
  intros Hlen Hf Hg Hl c t. unfold run_client, mbind at 1, M_bind, gets.
  rewrite (proj2 (Nat.ltb_ge _ _) Hlen), Hf. simpl. fold c.
  unfold run_bash, try_except, mbind at 1, M_bind.
  rewrite (bash_cached fuel cl (Some name) _ _ h s) by done.
  unfold shell_call, mbind at 1, M_bind, gets, ask. simpl. fold t.
  destruct (env_call h c t (world s)) as [[e|r] w]; simpl; [|done]. by destruct e.
Qed.

Lemma run_client_ok sql a h s r s' :
  (slen sql <= 1024)%nat → q_use_file a = false →
  dget (thread s, name) (bash_ s) = Some h → locked s = false →
  run_client fuel cl name sql a s = (Ok r, s') →
  ∃ c t w, s' = set_world [ECall h c t (inr r)] w s.
Proof.
  intros Hlen Hf Hg Hl. rewrite (run_client_inline sql a h s) by done.
  destruct (env_call _ _ _ _) as [[e|r1] w]; [destruct e; try done|intros [= -> <-]; eauto].
  unfold mbind, M_bind. by destruct (close_bash _ _) as [[]?].
Qed.

(** The commands and pauses that retries can log: the first pause has the
    given length, later ones five seconds, and the later commands have lost
    the options that [retry_args] drops. *)
Inductive retries_log (h : nat) : nat → Z → list event → Prop :=
  | log_last n d c t r : retries_log h n d [ECall h c t r]
  | log_retry n d c t r tr :
      retries_log h n (sec 5) tr → retries_log h (S n) d (ECall h c t r :: ESleep d :: tr).

Lemma query_go_log n sql a h s r s' :
  (slen sql <= 1024)%nat → q_use_file a = false →
  dget (thread s, name) (bash_ s) = Some h → locked s = false →
  query_go fuel cl name n sql a s = (Ok r, s') →
  ∃ tr, trace s' = trace s ++ tr ∧ retries_log h n (Z.max 0 (q_retry_delay a)) tr.
Proof.
  intros Hlen. revert a s. induction n as [|n IH]; intros a s Hf Hg Hl; cbn [query_go];
    unfold mbind at 1, M_bind;
    (destruct (run_client _ _ _ _ _ _) as [[r1|e|w'] s1] eqn:Hr; [|done..]);
    apply (run_client_ok sql a h) in Hr as (c & t & w & ->); try done.
  - rewrite check_result_spec. destruct (accepted a r1); [|done]. intros [= _ <-].
    eexists. split; [done|]. constructor.
  - destruct (existsb _ _).
    + unfold mbind, M_bind, sleep, ask. simpl. intros Hq.
      apply IH in Hq as (tr & Ht & Hlog); [|done..].
      eexists. split; [rewrite Ht; simpl; by rewrite <-!app_assoc|].
      simpl. by constructor.
    + rewrite check_result_spec. destruct (accepted a r1); [|done]. intros [= _ <-].
      eexists. split; [done|]. constructor.
Qed.

Definition is_call (e : event) : bool := match e with ECall _ _ _ _ => true | _ => false end.

(** a short query that returns has sent at most [retry_count + 1]
    commands, all to the node's own terminal, and nothing else happened but a
    pause before each repetition: [retry_delay] before the first, five seconds
    before the others. *)
Lemma query_retries sql a h s r s' :
  (slen sql <= 1024)%nat → q_use_file a = false →
  dget (thread s, name) (bash_ s) = Some h → locked s = false →
  query fuel cl name sql a s = (Ok r, s') →
  ∃ tr, trace s' = trace s ++ tr ∧
    (1 <= count is_call tr <= S (Z.to_nat (q_retry_count a)))%nat ∧
    retries_log h (Z.to_nat (q_retry_count a)) (Z.max 0 (q_retry_delay a)) tr.
Proof.
  intros Hlen Hf Hg Hl Hq. unfold query in Hq.
  apply (query_go_log _ _ _ h) in Hq as (tr & Ht & Hlog); [|done..].
  exists tr. split_and!; [done| | |done]; clear Ht; induction Hlog; unfold count in *; simpl in *; lia.
Qed.

(** a short query whose first answer asks for no retry sends exactly
    the text [inline_command] to the node's terminal, logs nothing else, and
    returns the answer or raises as the checks say. *)
Lemma query_outcome sql a h s :
  (slen sql <= 1024)%nat → q_use_file a = false →
  dget (thread s, name) (bash_ s) = Some h → locked s = false →
  let c := inline_command sql
             (query_settings (default_query_settings s) (q_settings a) (q_query_id a)) a in
  let t := match q_timeout a with Some t => t | None => default 0 (timeouts s !! h) end in
  ∀ r w, env_call h c t (world s) = (inr r, w) →
  (0 < q_retry_count a →
   ∀ m, m ∈ default MESSAGES_TO_RETRY (q_messages_to_retry a) → contains m (output r) = false) →
  query fuel cl name sql a s =
  (if accepted a r then Ok r else Exc (rejection a r), set_world [ECall h c t (inr r)] w s).
Proof.
  intros Hlen Hf Hg Hl c t r w E Hm.
  pose proof (run_client_inline sql a h s Hlen Hf Hg Hl) as Hr. fold c t in Hr.
  simpl in Hr. rewrite E in Hr. unfold query.
  destruct (Z.to_nat (q_retry_count a)) as [|n] eqn:En; cbn [query_go];
    unfold mbind at 1, M_bind; rewrite Hr; [by rewrite check_result_spec|].
  replace (existsb _ _) with false; [by rewrite check_result_spec|].
  symmetry. apply not_true_iff_false. intros (m & Hin & Hc)%existsb_exists.
  rewrite Hm in Hc; [done|lia|by apply list_elem_of_In].
Qed.

Lemma pipeline_run node command settings timeout h s :
  dget (thread s, node_str node) (bash_ s) = Some h → locked s = false →
  let c := command +:+ client_options settings in
  let t := match timeout with Some t => t | None => default 0 (timeouts s !! h) end in
  pipeline fuel cl node command settings timeout s =
  match env_call h c t (world s) with
  | (inr r, w) =>
      (if exitcode r =? 0 then Ok r else Exc (AssertionError (output r)),
       set_world [ECall h c t (inr r)] w s)
  | (inl ExpectTimeoutError, w) =>
      (close_bash node;; raise (UnboundLocalError "r"))
        (set_world [ECall h c t (inl ExpectTimeoutError)] w s)
  | (inl e, w) => (Exc e, set_world [ECall h c t (inl e)] w s)
  end.
Proof.
  intros Hg Hl c t. unfold pipeline, mbind at 1, M_bind, try_except, mbind at 1, M_bind, bash0.
  rewrite (bash_cached fuel cl node _ _ h s) by done.
  unfold shell_call, mbind, M_bind, gets, ask. simpl. fold c t.
  destruct (env_call h c t (world s)) as [[e|r] w]; simpl.
  - destruct e; try done. by destruct (close_bash node _) as [[]?].
  - unfold assert_. by destruct (exitcode r =? 0).
Qed.

(** A short [hash_query] sends one pipeline in which the client gets no
    setting: they all come after the hash utility.  It returns the output of a
    pipeline that exits with 0 and fails on any other; a time-out closes the
    terminal and surfaces as an unbound local variable. *)
Lemma hash_query_outcome `{!QuietExit W} sql hash_utility settings secure query_id pipe_cmd
    timeout h s :
  (slen sql <= 1024)%nat → dwf (bash_ s) →
  dget (thread s, name) (bash_ s) = Some h → locked s = false →
  let c := ("set -o pipefail && " +:+ pipe_cmd +:+ " " +:+ q sql +:+ " | " +:+ client secure +:+
            " | " +:+ hash_utility) +:+
           client_options (query_settings (default_query_settings s) settings query_id) in
  let t := match timeout with Some t => t | None => default 0 (timeouts s !! h) end in
  let run := hash_query fuel cl name sql hash_utility settings secure query_id pipe_cmd timeout s in
  match env_call h c t (world s) with
  | (inr r, w) =>
      run = (if exitcode r =? 0 then Ok (output r) else Exc (AssertionError (output r)),
             set_world [ECall h c t (inr r)] w s)
  | (inl ExpectTimeoutError, w) =>
      ∃ s', run = (Exc (UnboundLocalError "r"), s') ∧
        bash_ s' = ddel (thread s, name) (bash_ s) ∧ EExit h ∈ trace s'
  | (inl e, w) => run = (Exc e, set_world [ECall h c t (inl e)] w s)
  end.
Proof.
  intros Hlen Hd Hg Hl c t run.
  assert (Hrun : run = (r ← pipeline fuel cl (Some name)
      ("set -o pipefail && " +:+ pipe_cmd +:+ " " +:+ q sql +:+ " | " +:+ client secure +:+
       " | " +:+ hash_utility)
      (query_settings (default_query_settings s) settings query_id) timeout;
      mret (output r)) s).
  { unfold run, hash_query. by rewrite (proj2 (Nat.ltb_ge _ _) Hlen). }
  rewrite Hrun. clear Hrun run. unfold mbind, M_bind.
  rewrite (pipeline_run _ _ _ _ h) by done. fold c t.
  destruct (env_call h c t (world s)) as [[e|r] w].
  - destruct e; try done. set (s1 := set_world _ _ _).
    destruct (close_bash_forgets (Some name) s1 Hd Hl) as (s' & E & Hb & _ & Hx).
    unfold mbind, M_bind. rewrite E. simpl. exists s'. split_and!; [done..|by apply Hx].
  - by destruct (exitcode r =? 0).
Qed.
End query_facts.

(** ** Examples *)

(** The terminal of the examples answers the first query of its clock with a
    message that asks for a retry. *)
Definition flaky : string → exn + shell_result := λ command,
  if contains "echo -e" command
  then inr (mkResult 1 "Code: 999. DB::Exception: Connection loss")
  else healthy command.

Lemma demo_cached : dget (thread demo_state, "clickhouse1") (bash_ demo_state) = Some 1%nat.
Proof. by vm_compute. Defined.

Lemma query_sound_witness :
  accepted (query_expecting (Some 0) (Some "SELECT 1"))
    (mkResult 0 ("echo -e " +:+ q "SELECT 1" +:+ " | clickhouse client -n 2>&1")) = true.
Proof.
  eapply (@query_sound Z (script_env healthy) 3 plain_config "clickhouse1" "SELECT 1"
    (query_expecting (Some 0) (Some "SELECT 1")) demo_state).
  by vm_compute.
Defined.

Lemma query_retries_witness :
  ∃ tr, trace (@query Z (script_env flaky) 3 plain_config "clickhouse1" "SELECT 1"
                 no_checks_query demo_state).2 = trace demo_state ++ tr ∧
    (1 <= count is_call tr <= 6)%nat ∧ retries_log 1 5 (sec 5) tr.
Proof.
  eapply (@query_retries Z (script_env flaky) 3 plain_config "clickhouse1" "SELECT 1"
    no_checks_query 1 demo_state (mkResult 1 "Code: 999. DB::Exception: Connection loss"));
    [vm_compute; lia|done|exact demo_cached|by vm_compute..].
Defined.

Lemma query_outcome_witness :
  (@query Z (script_env healthy) 3 plain_config "clickhouse1" "SELECT 1"
     (with_settings [("max_threads", "1")]) demo_state).1 =
  Ok (mkResult 0 ("echo -e " +:+ q "SELECT 1" +:+ " | clickhouse client -n --max_threads " +:+
                  q "1" +:+ " 2>&1")).
Proof.
  pose proof (@query_outcome Z (script_env healthy) 3 plain_config "clickhouse1" "SELECT 1"
    (with_settings [("max_threads", "1")]) 1 demo_state ltac:(vm_compute; lia) eq_refl
    demo_cached eq_refl _ _ eq_refl) as Hq.
  rewrite Hq; [by vm_compute|]. intros _ m Hm.
  vm_compute in Hm. set_unfold in Hm. by destruct_or! Hm; subst.
Defined.

Lemma hash_query_outcome_witness :
  @hash_query Z (script_env healthy) 3 plain_config "clickhouse1" "SELECT 1" "sha1sum"
    [("max_threads", "1")] false None "echo -e" None demo_state =
  (Ok ("set -o pipefail && echo -e " +:+ q "SELECT 1" +:+
       " | clickhouse client -n | sha1sum --max_threads " +:+ q "1"),
   set_world
     [ECall 1
        ("set -o pipefail && echo -e " +:+ q "SELECT 1" +:+
         " | clickhouse client -n | sha1sum --max_threads " +:+ q "1") (sec 300)
        (inr (mkResult 0
           ("set -o pipefail && echo -e " +:+ q "SELECT 1" +:+
            " | clickhouse client -n | sha1sum --max_threads " +:+ q "1")))]
     (world demo_state + sec 1) demo_state).
Proof.
  assert (Hd : dwf (bash_ demo_state)) by (vm_compute; repeat constructor; set_solver).
  pose proof (@hash_query_outcome Z (script_env healthy) 3 plain_config "clickhouse1"
    (script_quiet healthy) "SELECT 1" "sha1sum" [("max_threads", "1")] false None "echo -e"
    None 1 demo_state ltac:(vm_compute; lia) Hd demo_cached eq_refl) as Hq.
  vm_compute in Hq. vm_compute. exact Hq.
Defined.

(** A retried query forgets that exceptions are to be ignored. *)
Definition ignoring : query_args :=
  mkQuery None None false false true [] 1 None (sec 5) false "-0" None false false None
    "echo -e" None.
Definition ignoring_once : query_args :=
  mkQuery None None false false true [] 0 None (sec 5) false "-0" None false false None
    "echo -e" None.
Lemma retry_forgets_ignore_exception :
  (@query Z (script_env flaky) 3 plain_config "clickhouse1" "SELECT 1" ignoring_once
     demo_state).1 = Ok (mkResult 1 "Code: 999. DB::Exception: Connection loss") ∧
  (@query Z (script_env flaky) 3 plain_config "clickhouse1" "SELECT 1" ignoring
     demo_state).1 = Exc (AssertionError "Code: 999. DB::Exception: Connection loss").
Proof. split; by vm_compute. Qed.
