(* ===== verification/XmlConfig.v ===== *)
(** * Configuration files

    [getuid], [xml_indent], [KeyWithAttributes] and [create_xml_config_content]
    of helpers/common.py, with the parts of [xml.etree.ElementTree] that they
    use: elements, and [tostring] without short empty elements. *)
From S2P Require Import Prelude PyStr PyDict.
From Stdlib Require Import Ascii.
Local Open Scope Z_scope.
Local Set Warnings "-register-all".

(** [getuid]: [basename] and [parentname] are those of testflows for test
    names, [uuid] is [str(uuid.uuid1())]. *)
Definition getuid (basename parentname : string → string) (is_example : bool)
    (test_name uuid : string) (with_test_name : bool) : string :=
  let unique := replace "-" "_" uuid in
  if with_test_name then
    let name := if is_example then basename (parentname test_name) else basename test_name in
    replace "," EmptyString (replace " " "_" name) +:+ "_" +:+ unique
  else unique.

Example getuid_1 :
  getuid (λ s, s) (λ s, s) false "I check a, b" "51d0-11ee" true = "I_check_a_b_51d0_11ee".
Proof. by_compute. Qed.

(** [Config] *)
Record Config := mkConfigFile {
  content : string; path : string; config_name : string; uid : string;
  preprocessed_name : string
}.

(** ** Elements *)

Inductive node :=
  | Element (tag : string) (attrib : dict string string) (text tail : option string)
      (children : list node)
  | Comment (text : string) (tail : option string).

(** Induction that reaches the children. *)
Lemma node_rect' (P : node → Prop) :
  (∀ tag attrib text tail children, Forall P children → P (Element tag attrib text tail children)) →
  (∀ text tail, P (Comment text tail)) → ∀ n, P n.
Proof.
  intros HE HC. fix IH 1. intros [tag attrib text tail children|text tail]; [|apply HC].
  apply HE. induction children as [|n l IHl]; constructor; [apply IH|apply IHl].
Qed.

Definition tail_of (n : node) : option string :=
  match n with Element _ _ _ tail _ => tail | Comment _ tail => tail end.
Definition set_tail (tail : option string) (n : node) : node :=
  match n with
  | Element tag attrib text _ children => Element tag attrib text tail children
  | Comment text _ => Comment text tail
  end.

(** [not s or not s.strip()] *)
Definition blank (s : option string) : bool :=
  match s with None => true | Some s => String.eqb (strip s) EmptyString end.
(** [if blank: s = i] *)
Definition or_indent (i : string) (s : option string) : option string :=
  if blank s then Some i else s.

(** [if not elem.tail or not elem.tail.strip(): elem.tail = i] for the last
    element of a list *)
Fixpoint indent_last (i : string) (l : list node) : list node :=
  match l with
  | [] => []
  | [n] => [set_tail (or_indent i (tail_of n)) n]
  | n :: l => n :: indent_last i l
  end.

(** [xml_indent(elem, level, by)]; the children are indented by two spaces. *)
Fixpoint xml_indent (elem : node) (level : Z) (by_ : string) : node :=
  let i := nl +:+ str_repeat level by_ in
  match elem with
  | Element tag attrib text tail ((_ :: _) as children) =>
      Element tag attrib (or_indent (i +:+ by_) text) (or_indent i tail)
        (indent_last i ((λ n, xml_indent n (level + 1) "  ") <$> children))
  | n => if level =? 0 then n else set_tail (or_indent i (tail_of n)) n
  end.

(** ** Trees from dictionaries *)

(** A key is a text or a [KeyWithAttributes]; a value is a text or [None], a
    dictionary, or a list or tuple of dictionaries. *)
Inductive key := Key (k : string) | KeyWithAttributes (name : string) (attributes : dict string string).
Inductive entry := VText (s : option string) | VDict (entries : list (key * entry))
  | VList (l : list (list (key * entry))).

Definition key_name (k : key) : string :=
  match k with Key k => k | KeyWithAttributes name _ => name end.
Definition key_attrib (k : key) : dict string string :=
  match k with
  | Key _ => []
  | KeyWithAttributes _ attributes => foldl (λ d kv, dset kv.1 kv.2 d) [] attributes
  end.

(** [xml_append(root, tag, text)]: the element that is appended *)
Definition xml_append (tag : string) (text : option string) : node := Element tag [] text None [].

(** The element that [create_xml_tree] appends for one entry *)
Fixpoint xml_element (k : key) (v : entry) : node :=
  match v with
  | VText s =>
      match k with
      | Key tag => xml_append tag s
      | k => Element (key_name k) (key_attrib k) s None []
      end
  | VDict entries =>
      Element (key_name k) (key_attrib k) None None ((λ kv, xml_element kv.1 kv.2) <$> entries)
  | VList l =>
      Element (key_name k) (key_attrib k) None None
        (l ≫= λ entries, (λ kv, xml_element kv.1 kv.2) <$> entries)
  end.
Definition create_xml_tree (entries : list (key * entry)) : list node :=
  (λ kv, xml_element kv.1 kv.2) <$> entries.

(** ** [ElementTree.tostring] *)

Definition cr : string := String (ascii_of_nat 13) EmptyString.
Definition tab : string := String (ascii_of_nat 9) EmptyString.

Definition escape_char_cdata (c : ascii) : string :=
  if Ascii.eqb c "&" then "&amp;" else if Ascii.eqb c "<" then "&lt;"
  else if Ascii.eqb c ">" then "&gt;" else String c EmptyString.
Definition escape_char_attrib (c : ascii) : string :=
  if Ascii.eqb c (ascii_of_nat 34) then "&quot;"
  else if Ascii.eqb c (ascii_of_nat 13) then "&#13;"
  else if Ascii.eqb c (ascii_of_nat 10) then "&#10;"
  else if Ascii.eqb c (ascii_of_nat 9) then "&#09;"
  else escape_char_cdata c.
Fixpoint escape (f : ascii → string) (s : string) : string :=
  match s with EmptyString => EmptyString | String c s => f c +:+ escape f s end.
Definition escape_cdata : string → string := escape escape_char_cdata.
Definition escape_attrib : string → string := escape escape_char_attrib.

Definition attribute_text (kv : string * string) : string :=
  " " +:+ kv.1 +:+ "=" +:+ q (escape_attrib kv.2).
Definition optional_text (s : option string) : string :=
  match s with Some s => escape_cdata s | None => EmptyString end.
Definition concat_text (l : list string) : string := foldr String.append EmptyString l.

Fixpoint tostring (n : node) : string :=
  match n with
  | Comment text tail => "<!--" +:+ text +:+ "-->" +:+ optional_text tail
  | Element tag attrib text tail children =>
      "<" +:+ tag +:+ concat_text (attribute_text <$> attrib) +:+ ">" +:+
      optional_text text +:+ concat_text (tostring <$> children) +:+
      "</" +:+ tag +:+ ">" +:+ optional_text tail
  end.

Definition xml_with_utf8 : string :=
  "<?xml version=" +:+ q "1.0" +:+ " encoding=" +:+ q "utf-8" +:+ "?>" +:+ nl.

(** The tree of a configuration before it is indented *)
Definition config_tree (entries : list (key * entry)) (root uid : string) : node :=
  Element root [] None None (Comment ("config uid: " +:+ uid) None :: create_xml_tree entries).

(** [create_xml_config_content], with the result [uid] of [getuid()] *)
Definition create_xml_config_content (entries : list (key * entry))
    (config_file config_d_dir root uid : string) : Config :=
  mkConfigFile
    (xml_with_utf8 +:+ tostring (xml_indent (config_tree entries root uid) 0 "  "))
    (path_join config_d_dir config_file) config_file uid "config.xml".

Example config_1 :
  content (create_xml_config_content
    [(Key "a", VDict [(KeyWithAttributes "b" [("x", "1<2")], VText (Some "t"))])]
    "f.xml" "/d" "yandex" "u") =
  xml_with_utf8 +:+ "<yandex>" +:+ nl +:+ "  <!--config uid: u-->" +:+ nl +:+
  "  <a>" +:+ nl +:+ "    <b x=" +:+ q "1&lt;2" +:+ ">t</b>" +:+ nl +:+ "  </a>" +:+ nl +:+
  "</yandex>" +:+ nl.
Proof. by_compute. Qed.

(** ** A reader of XML

    The reference that the printed configuration is checked against: an
    automaton over the characters with a stack of open elements. *)

Fixpoint unescape_go (entity : option string) (s : string) : option string :=
  match entity, s with
  | None, EmptyString => Some EmptyString
  | Some _, EmptyString => None
  | None, String c s =>
      if Ascii.eqb c "&" then unescape_go (Some EmptyString) s
      else String c <$> unescape_go None s
  | Some e, String c s =>
      if Ascii.eqb c ";" then
        d ← (match e with
             | "amp" => Some "&"%char | "lt" => Some "<"%char | "gt" => Some ">"%char
             | "quot" => Some (ascii_of_nat 34) | "#13" => Some (ascii_of_nat 13)
             | "#10" => Some (ascii_of_nat 10) | "#09" => Some (ascii_of_nat 9)
             | _ => None
             end);
        String d <$> unescape_go None s
      else unescape_go (Some (e +:+ String c EmptyString)) s
  end.
Definition unescape : string → option string := unescape_go None.

(** Attributes: [ name="value"] *)
Inductive attr_state := ABetween | AName (n : string) | AQuote (n : string) | AValue (n v : string).
Fixpoint read_attributes (st : attr_state) (s : string) : option (dict string string) :=
  match st, s with
  | ABetween, EmptyString => Some []
  | ABetween, String c s => if Ascii.eqb c " " then read_attributes (AName EmptyString) s else None
  | AName n, String c s =>
      if Ascii.eqb c "=" then read_attributes (AQuote n) s
      else read_attributes (AName (n +:+ String c EmptyString)) s
  | AQuote n, String c s =>
      if Ascii.eqb c (ascii_of_nat 34) then read_attributes (AValue n EmptyString) s else None
  | AValue n v, String c s =>
      if Ascii.eqb c (ascii_of_nat 34) then
        v ← unescape v; l ← read_attributes ABetween s; Some ((n, v) :: l)
      else read_attributes (AValue n (v +:+ String c EmptyString)) s
  | _, EmptyString => None
  end.
(** The name before the first space, and the attributes *)
Fixpoint read_tag (name s : string) : option (string * dict string string) :=
  match s with
  | EmptyString => Some (name, [])
  | String c s' =>
      if Ascii.eqb c " " then l ← read_attributes ABetween s; Some (name, l)
      else read_tag (name +:+ String c EmptyString) s'
  end.

(** An open element with its text and children so far *)
Record frame := mkFrame {
  f_tag : string; f_attrib : dict string string; f_text : option string; f_children : list node
}.
Inductive mode := InText (raw : string) | InTag (raw : string).

Definition add_child (n : node) (f : frame) : frame :=
  mkFrame (f_tag f) (f_attrib f) (f_text f) (f_children f ++ [n]).
(** Character data goes to the text, or to the tail of the last child. *)
Fixpoint tail_last (t : string) (l : list node) : list node :=
  match l with
  | [] => []
  | [n] => [set_tail (Some t) n]
  | n :: l => n :: tail_last t l
  end.
Definition flush (raw : string) (f : frame) : option frame :=
  if String.eqb raw EmptyString then Some f else
  t ← unescape raw;
  Some (match f_children f with
        | [] => mkFrame (f_tag f) (f_attrib f) (Some t) []
        | l => mkFrame (f_tag f) (f_attrib f) (f_text f) (tail_last t l)
        end).

(** Is [raw] a whole tag, if [>] follows? *)
Definition tag_done (raw : string) : bool :=
  if startswith "!--" raw then endswith "--" raw && (5 <=? slen raw)%nat else true.

Definition read_markup (raw : string) (stack : list frame) : option (list frame) :=
  match stack with
  | [] => None
  | f :: stack =>
      if startswith "?" raw then Some (f :: stack)
      else if startswith "!--" raw then
        Some (add_child (Comment (str_take (slen raw - 5) (str_drop 3 raw)) None) f :: stack)
      else if startswith "/" raw then
        match stack with
        | [] => None
        | p :: stack =>
            if String.eqb (str_drop 1 raw) (f_tag f)
            then Some (add_child (Element (f_tag f) (f_attrib f) (f_text f) None (f_children f)) p
                       :: stack)
            else None
        end
      else ta ← read_tag EmptyString raw; Some (mkFrame ta.1 ta.2 None [] :: f :: stack)
  end.

#[global] Arguments read_markup : simpl never.
#[global] Arguments flush : simpl never.
#[global] Arguments tag_done : simpl never.

Definition read_char (c : ascii) (st : list frame * mode) : option (list frame * mode) :=
  match st with
  | (stack, InText raw) =>
      if Ascii.eqb c "<" then
        match stack with
        | [] => None
        | f :: stack => f ← flush raw f; Some (f :: stack, InTag EmptyString)
        end
      else Some (stack, InText (raw +:+ String c EmptyString))
  | (stack, InTag raw) =>
      if Ascii.eqb c ">" && tag_done raw then
        stack ← read_markup raw stack; Some (stack, InText EmptyString)
      else Some (stack, InTag (raw +:+ String c EmptyString))
  end.
Fixpoint read_chars (s : string) (st : list frame * mode) : option (list frame * mode) :=
  match s with
  | EmptyString => Some st
  | String c s => st ← read_char c st; read_chars s st
  end.

(** The element of a document *)
Definition read_xml (s : string) : option node :=
  match read_chars s ([mkFrame EmptyString [] None []], InText EmptyString) with
  | Some ([f], InText raw) =>
      f ← flush raw f; match f_children f with [n] => Some n | _ => None end
  | _ => None
  end.

(** ** Reading what was printed *)

Definition without (c : ascii) (s : string) : bool := str_forallb (λ d, negb (Ascii.eqb d c)) s.

Lemma without_app c s t : without c (s +:+ t) = without c s && without c t.
Proof. apply str_forallb_app. Qed.

(** Characters of tags and attribute names *)
Definition name_char (c : ascii) : bool :=
  negb (existsb (Ascii.eqb c) [" "; "<"; ">"; "/"; "?"; "!"; "="]%char).
Definition good_name (s : string) : bool :=
  negb (String.eqb s EmptyString) && str_forallb name_char s.

Fixpoint good (n : node) : bool :=
  match n with
  | Comment text _ => without ">" text
  | Element tag attrib _ _ children =>
      good_name tag && forallb (λ kv, good_name kv.1) attrib && forallb good children
  end.

(** An empty text reads as none. *)
Definition norm_text (s : option string) : option string :=
  match s with Some EmptyString => None | s => s end.
Fixpoint norm (n : node) : node :=
  match n with
  | Comment text tail => Comment text (norm_text tail)
  | Element tag attrib text tail children =>
      Element tag attrib (norm_text text) (norm_text tail) (norm <$> children)
  end.

(** *** Escaping *)

Section escaping.
Variable f : ascii → string.
(** [f c] is an entity that stands for [c], or [c] itself, no ampersand. *)
Hypothesis Hf : ∀ c t, unescape (f c +:+ t) = String c <$> unescape t.

Lemma unescape_escape s : unescape (escape f s) = Some s.
Proof using Hf.
  induction s as [|c s IH]; [done|]. cbn [escape]. by rewrite Hf, IH.
Qed.
Lemma without_escape d s :
  (∀ c, without d (f c) = true) → without d (escape f s) = true.
Proof using.
  intros Hd. induction s as [|c s IH]; [done|]. cbn [escape]. by rewrite without_app, Hd, IH.
Qed.
End escaping.

Lemma escape_cdata_char c t : unescape (escape_char_cdata c +:+ t) = String c <$> unescape t.
Proof.
  unfold escape_char_cdata, unescape.
  destruct (Ascii.eqb_spec c "&") as [->|Ha]; [done|].
  destruct (Ascii.eqb_spec c "<") as [->|]; [done|].
  destruct (Ascii.eqb_spec c ">") as [->|]; [done|].
  rewrite str_app_cons. cbn [unescape_go]. by rewrite (proj2 (Ascii.eqb_neq _ _) Ha).
Qed.
Lemma escape_attrib_char c t : unescape (escape_char_attrib c +:+ t) = String c <$> unescape t.
Proof.
  unfold escape_char_attrib.
  destruct (Ascii.eqb_spec c (ascii_of_nat 34)) as [->|]; [done|].
  destruct (Ascii.eqb_spec c (ascii_of_nat 13)) as [->|]; [done|].
  destruct (Ascii.eqb_spec c (ascii_of_nat 10)) as [->|]; [done|].
  destruct (Ascii.eqb_spec c (ascii_of_nat 9)) as [->|]; [done|].
  apply escape_cdata_char.
Qed.

Lemma escape_cdata_without d c :
  d = "<"%char ∨ d = ">"%char → without d (escape_char_cdata c) = true.
Proof.
  unfold escape_char_cdata. intros Hd.
  destruct (Ascii.eqb_spec c "&") as [->|Ha]; [by destruct Hd as [-> | ->]|].
  destruct (Ascii.eqb_spec c "<") as [->|]; [by destruct Hd as [-> | ->]|].
  destruct (Ascii.eqb_spec c ">") as [->|]; [by destruct Hd as [-> | ->]|].
  unfold without. simpl. rewrite andb_true_r. apply negb_true_iff, Ascii.eqb_neq.
  destruct Hd; congruence.
Qed.
Lemma escape_attrib_without d c :
  d = ">"%char ∨ d = ascii_of_nat 34 → without d (escape_char_attrib c) = true.
Proof.
  unfold escape_char_attrib, escape_char_cdata. intros Hd.
  repeat match goal with
  | |- context [if Ascii.eqb c ?x then _ else _] =>
      destruct (Ascii.eqb_spec c x); [by destruct Hd as [-> | ->]|]
  end.
  unfold without. simpl. rewrite andb_true_r. apply negb_true_iff, Ascii.eqb_neq.
  destruct Hd; congruence.
Qed.

(** *** The automaton *)

Lemma read_chars_app s t st :
  read_chars (s +:+ t) st = read_chars s st ≫= read_chars t.
Proof.
  revert st. induction s as [|c s IH]; intros st; [done|]. rewrite str_app_cons. cbn [read_chars].
  destruct (read_char c st) as [st'|]; [apply IH|done].
Qed.

Lemma read_text s stack raw :
  without "<" s = true → read_chars s (stack, InText raw) = Some (stack, InText (raw +:+ s)).
Proof.
  revert raw. induction s as [|c s IH]; intros raw Hs; [by rewrite str_app_nil_r|].
  simpl in Hs. apply andb_true_iff in Hs as [Hc Hs]. apply negb_true_iff in Hc.
  cbn [read_chars read_char]. rewrite Hc. simpl. by rewrite IH, str_app_assoc.
Qed.
Lemma read_tag_text s stack raw :
  without ">" s = true → read_chars s (stack, InTag raw) = Some (stack, InTag (raw +:+ s)).
Proof.
  revert raw. induction s as [|c s IH]; intros raw Hs; [by rewrite str_app_nil_r|].
  simpl in Hs. apply andb_true_iff in Hs as [Hc Hs]. apply negb_true_iff in Hc.
  cbn [read_chars read_char]. rewrite Hc. simpl. by rewrite IH, str_app_assoc.
Qed.

Lemma read_one_markup s f stack raw :
  without ">" s = true → tag_done s = true →
  read_chars ("<" +:+ s +:+ ">") (f :: stack, InText raw) =
  (f' ← flush raw f; stack' ← read_markup s (f' :: stack); Some (stack', InText EmptyString)).
Proof.
  intros Hs Hd. rewrite (str_app_cons _ EmptyString), str_app_nil_l. cbn [read_chars read_char].
  rewrite Ascii.eqb_refl. destruct (flush raw f) as [f'|]; [|done]. simpl.
  rewrite read_chars_app, read_tag_text by done. rewrite str_app_nil_l. simpl. rewrite Hd.
  by destruct (read_markup s (f' :: stack)).
Qed.

(** *** Tags *)

Lemma name_char_not c d : name_char c = true → d ∈ [" "; "<"; ">"; "/"; "?"; "!"; "="]%char →
  Ascii.eqb c d = false.
Proof.
  intros Hc Hd. apply Ascii.eqb_neq. intros ->. apply negb_true_iff, not_true_iff_false in Hc.
  apply Hc, existsb_exists. exists d. by rewrite <-list_elem_of_In, Ascii.eqb_refl.
Qed.
Lemma name_without s d : good_name s = true → d ∈ [" "; "<"; ">"; "/"; "?"; "!"; "="]%char →
  without d s = true.
Proof.
  intros [_ Hs]%andb_true_iff Hd. revert Hs. apply str_forallb_mono. intros c Hc.
  apply negb_true_iff. by apply name_char_not.
Qed.

Lemma read_name n m s :
  without "=" m = true →
  read_attributes (AName n) (m +:+ String "=" s) = read_attributes (AQuote (n +:+ m)) s.
Proof.
  revert n. induction m as [|c m IH]; intros n Hm; [by rewrite str_app_nil_l, str_app_nil_r|].
  simpl in Hm. apply andb_true_iff in Hm as [Hc Hm]. apply negb_true_iff in Hc.
  rewrite str_app_cons. cbn [read_attributes]. rewrite Hc, IH by done. by rewrite str_app_assoc.
Qed.
Lemma read_value n v w s :
  without (ascii_of_nat 34) w = true →
  read_attributes (AValue n v) (w +:+ String (ascii_of_nat 34) s) =
  (x ← unescape (v +:+ w); l ← read_attributes ABetween s; Some ((n, x) :: l)).
Proof.
  revert v. induction w as [|c w IH]; intros v Hw.
  { rewrite str_app_nil_l, str_app_nil_r. done. }
  simpl in Hw. apply andb_true_iff in Hw as [Hc Hw]. apply negb_true_iff in Hc.
  rewrite str_app_cons. cbn [read_attributes]. rewrite Hc, IH by done. by rewrite str_app_assoc.
Qed.

Lemma read_attributes_text attrib :
  forallb (λ kv, good_name kv.1) attrib = true →
  read_attributes ABetween (concat_text (attribute_text <$> attrib)) = Some attrib.
Proof.
  induction attrib as [|[k v] l IH]; [done|]. cbn [forallb]. intros [Hk Hl]%andb_true_iff.
  cbn [fmap list_fmap concat_text foldr]. fold (concat_text (attribute_text <$> l)).
  unfold attribute_text at 1. simpl fst. simpl snd. unfold q, dq.
  rewrite !str_app_assoc. rewrite (str_app_cons " " EmptyString), str_app_nil_l.
  cbn [read_attributes]. rewrite Ascii.eqb_refl.
  rewrite (str_app_cons "=" EmptyString), str_app_nil_l, read_name
    by (apply name_without; [done|set_solver]).
  rewrite (str_app_cons (ascii_of_nat 34) EmptyString), str_app_nil_l.
  cbn [read_attributes]. rewrite Ascii.eqb_refl.
  rewrite (str_app_cons (ascii_of_nat 34) EmptyString), str_app_nil_l, read_value.
  2: { apply without_escape. intros c. apply escape_attrib_without. by right. }
  rewrite !str_app_nil_l. unfold escape_attrib. rewrite unescape_escape by apply escape_attrib_char.
  by rewrite IH.
Qed.

Lemma read_tag_name name m rest :
  without " " m = true →
  (∀ n, read_tag n rest = (l ← read_attributes ABetween rest; Some (n, l))) →
  read_tag name (m +:+ rest) = (l ← read_attributes ABetween rest; Some (name +:+ m, l)).
Proof.
  intros Hm Hr. revert name Hm. induction m as [|c m IH]; intros name Hm.
  { by rewrite str_app_nil_l, str_app_nil_r. }
  simpl in Hm. apply andb_true_iff in Hm as [Hc Hm]. apply negb_true_iff in Hc.
  rewrite str_app_cons. cbn [read_tag]. rewrite Hc, IH by done. by rewrite str_app_assoc.
Qed.

Lemma read_tag_text_of tag attrib :
  good_name tag = true → forallb (λ kv, good_name kv.1) attrib = true →
  read_tag EmptyString (tag +:+ concat_text (attribute_text <$> attrib)) = Some (tag, attrib).
Proof.
  intros Ht Ha. rewrite read_tag_name.
  - by rewrite read_attributes_text.
  - apply name_without; [done|set_solver].
  - intros n. by destruct attrib as [|[k v] l].
Qed.

(** *** Nodes *)

Lemma name_head tag s p :
  good_name tag = true → p ∈ ["?"; "!--"; "/"] → startswith p (tag +:+ s) = false.
Proof.
  intros [Hn Ht]%andb_true_iff Hp. destruct tag as [|c t]; [done|]. simpl in Ht.
  apply andb_true_iff in Ht as [Hc _]. rewrite str_app_cons.
  apply not_true_iff_false. intros [u Hu]%startswith_spec.
  assert (∃ d p', p = String d p' ∧ d ∈ [" "; "<"; ">"; "/"; "?"; "!"; "="]%char) as (d & p' & -> & Hd).
  { set_unfold in Hp. destruct Hp as [-> |[-> |[-> |[]]]]; eexists _, _; (split; [done|set_solver]). }
  rewrite str_app_cons in Hu. injection Hu as -> _.
  pose proof (name_char_not d d Hc Hd) as He. by rewrite Ascii.eqb_refl in He.
Qed.

Lemma escape_cdata_nil s : escape_cdata s = EmptyString → s = EmptyString.
Proof.
  destruct s as [|c s]; [done|]. unfold escape_cdata. cbn [escape]. unfold escape_char_cdata.
  repeat case_match; rewrite ?str_app_cons; done.
Qed.

Lemma flush_text tag attrib text :
  flush (optional_text text) (mkFrame tag attrib None []) =
  Some (mkFrame tag attrib (norm_text text) []).
Proof.
  destruct text as [s|]; [|done]. unfold flush, optional_text.
  destruct (String.eqb_spec (escape_cdata s) EmptyString) as [E|E].
  - by apply escape_cdata_nil in E as ->.
  - unfold escape_cdata. rewrite unescape_escape by apply escape_cdata_char. by destruct s.
Qed.

Lemma tail_last_app t l n : tail_last t (l ++ [n]) = l ++ [set_tail (Some t) n].
Proof. induction l as [|x l IH]; [done|]. simpl. rewrite IH. by destruct l. Qed.

Lemma flush_tail tail n f :
  flush (optional_text tail) (add_child (set_tail None n) f) =
  Some (add_child (set_tail (norm_text tail) n) f).
Proof.
  destruct tail as [s|]; [|done]. unfold flush, optional_text.
  destruct (String.eqb_spec (escape_cdata s) EmptyString) as [E|E].
  - by apply escape_cdata_nil in E as ->.
  - unfold escape_cdata. rewrite unescape_escape by apply escape_cdata_char.
    cbn [mbind option_bind add_child f_children f_tag f_attrib f_text].
    destruct (f_children f ++ [set_tail None n]) as [|x l] eqn:El; [by destruct (f_children f)|].
    rewrite <-El, tail_last_app. destruct s as [|c s]; [done|]. by destruct n.
Qed.

Lemma add_children f l :
  foldl (flip add_child) f l = mkFrame (f_tag f) (f_attrib f) (f_text f) (f_children f ++ l).
Proof.
  revert f. induction l as [|n l IH]; intros f; [rewrite app_nil_r; by destruct f|].
  cbn [foldl]. rewrite IH. simpl. by rewrite <-app_assoc.
Qed.

(** What the reader does with one node, and with several *)
Definition reads (n : node) : Prop := ∀ f F stack raw,
  flush raw f = Some F →
  read_chars (tostring n) (f :: stack, InText raw) =
  Some (add_child (set_tail None (norm n)) F :: stack, InText (optional_text (tail_of n))).

Lemma norm_tail n : set_tail (norm_text (tail_of n)) (norm n) = norm n.
Proof. by destruct n. Qed.

Lemma reads_all l f F stack raw :
  Forall reads l → flush raw f = Some F →
  ∃ f' raw', read_chars (concat_text (tostring <$> l)) (f :: stack, InText raw) =
    Some (f' :: stack, InText raw') ∧ flush raw' f' = Some (foldl (flip add_child) F (norm <$> l)).
Proof.
  intros Hl. revert f F raw. induction Hl as [|n l Hn _ IH]; intros f F raw Hf.
  { by exists f, raw. }
  cbn [fmap list_fmap concat_text foldr foldl]. fold (concat_text (tostring <$> l)).
  rewrite read_chars_app, (Hn _ _ _ _ Hf). apply IH. by rewrite flush_tail, norm_tail.
Qed.

Lemma optional_text_without s : without "<" (optional_text s) = true.
Proof.
  destruct s as [s|]; [|done]. apply without_escape. intros c. apply escape_cdata_without. by left.
Qed.

Lemma attributes_without attrib :
  forallb (λ kv, good_name kv.1) attrib = true →
  without ">" (concat_text (attribute_text <$> attrib)) = true.
Proof.
  induction attrib as [|[k v] l IH]; [done|]. cbn [forallb]. intros [Hk Hl]%andb_true_iff.
  cbn [fmap list_fmap concat_text foldr]. fold (concat_text (attribute_text <$> l)).
  rewrite without_app, IH by done. unfold attribute_text, q, dq. simpl fst. simpl snd.
  rewrite !without_app. rewrite (name_without k) by (done || set_solver).
  unfold escape_attrib. rewrite without_escape; [done|]. intros c. apply escape_attrib_without. by left.
Qed.

Lemma read_node n : good n = true → reads n.
Proof.
  induction n as [tag attrib text tail children IH|text tail] using node_rect'; intros Hg.
  - cbn [good] in Hg. apply andb_true_iff in Hg as [[Ht Ha]%andb_true_iff Hc].
    assert (Hr : Forall reads children).
    { rewrite forallb_forall in Hc. rewrite Forall_forall in *. intros n Hn.
      apply IH; [done|]. by apply Hc, list_elem_of_In. }
    intros f F stack raw Hf. cbn [tostring].
    set (A := concat_text (attribute_text <$> attrib)). set (C := concat_text (tostring <$> children)).
    replace ("<" +:+ tag +:+ A +:+ ">" +:+ optional_text text +:+ C +:+ "</" +:+ tag +:+ ">" +:+
      optional_text tail) with
      (("<" +:+ (tag +:+ A) +:+ ">") +:+ optional_text text +:+ C +:+
       ("<" +:+ ("/" +:+ tag) +:+ ">") +:+ optional_text tail)
      by (rewrite !str_app_assoc; done).
    assert (HA : without ">" (tag +:+ A) = true).
    { rewrite without_app, (name_without tag) by (done || set_solver).
      unfold A. by rewrite attributes_without. }
    rewrite read_chars_app, read_one_markup, Hf by
      (done || unfold tag_done; by rewrite name_head by (done || set_solver)).
    cbn [mbind option_bind]. unfold read_markup at 1.
    rewrite !(name_head tag A) by (done || set_solver).
    unfold A. rewrite read_tag_text_of by done. cbn [mbind option_bind fst snd].
    rewrite read_chars_app, read_text by apply optional_text_without. rewrite str_app_nil_l.
    cbn [mbind option_bind]. rewrite read_chars_app. unfold C.
    destruct (reads_all children (mkFrame tag attrib None []) (mkFrame tag attrib (norm_text text) [])
      (F :: stack) (optional_text text) Hr (flush_text _ _ _)) as (f' & raw' & -> & Hf').
    cbn [mbind option_bind]. rewrite read_chars_app, read_one_markup, Hf' by
      (done || rewrite without_app, (name_without tag) by (done || set_solver); done).
    cbn [mbind option_bind]. rewrite add_children. unfold read_markup.
    cbn [f_tag f_attrib f_text f_children app].
    change (startswith "?" ("/" +:+ tag)) with false.
    change (startswith "!--" ("/" +:+ tag)) with false. rewrite startswith_app.
    change (str_drop 1 ("/" +:+ tag)) with tag. rewrite String.eqb_refl.
    cbn [mbind option_bind]. by rewrite read_text by apply optional_text_without.
  - intros f F stack raw Hf. cbn [good] in Hg. cbn [tostring].
    replace ("<!--" +:+ text +:+ "-->" +:+ optional_text tail) with
      (("<" +:+ ("!--" +:+ text +:+ "--") +:+ ">") +:+ optional_text tail)
      by (rewrite !str_app_assoc; done).
    rewrite read_chars_app, read_one_markup, Hf.
    + cbn [mbind option_bind]. unfold read_markup.
      change (startswith "?" ("!--" +:+ text +:+ "--")) with false. rewrite startswith_app.
      change (str_drop 3 ("!--" +:+ text +:+ "--")) with (text +:+ "--").
      rewrite !slen_app. change (slen "!--") with 3%nat. change (slen "--") with 2%nat.
      replace (3 + (slen text + 2) - 5)%nat with (slen text) by lia.
      rewrite str_take_app. cbn [mbind option_bind].
      by rewrite read_text by apply optional_text_without.
    + by rewrite !without_app, Hg.
    + unfold tag_done. rewrite startswith_app. apply andb_true_iff. split.
      * apply endswith_spec. exists ("!--" +:+ text). by rewrite str_app_assoc.
      * rewrite !slen_app. change (slen "!--") with 3%nat. change (slen "--") with 2%nat.
        apply Nat.leb_le. lia.
Qed.

Lemma read_document n : good n = true → read_xml (xml_with_utf8 +:+ tostring n) = Some (norm n).
Proof.
  intros Hn. unfold read_xml. rewrite read_chars_app.
  change (read_chars xml_with_utf8 ([mkFrame EmptyString [] None []], InText EmptyString))
    with (Some ([mkFrame EmptyString [] None []], InText nl)). cbn [mbind option_bind].
  rewrite (read_node n Hn _ (mkFrame EmptyString [] (Some nl) [])) by done.
  by rewrite flush_tail, norm_tail.
Qed.

(** A document without a declaration *)
Lemma read_element n : good n = true → read_xml (tostring n) = Some (norm n).
Proof.
  intros Hn. unfold read_xml.
  rewrite (read_node n Hn (mkFrame EmptyString [] None []) _ [] EmptyString eq_refl).
  by rewrite flush_tail, norm_tail.
Qed.

(** *** Indentation only adds white space *)

Definition strip_text (s : option string) : option string := if blank s then None else s.
(** Without blank texts *)
Fixpoint strip_node (n : node) : node :=
  match n with
  | Comment text tail => Comment text (strip_text tail)
  | Element tag attrib text tail children =>
      Element tag attrib (strip_text text) (strip_text tail) (strip_node <$> children)
  end.

Lemma strip_spaces s : str_forallb is_space s = true → strip s = EmptyString.
Proof.
  intros Hs. unfold strip. enough (rstrip s = EmptyString) as -> by done.
  induction s as [|c s IH]; [done|]. simpl in *. apply andb_true_iff in Hs as [Hc Hs].
  by rewrite IH, Hc.
Qed.

Definition spaces (s : string) : Prop := str_forallb is_space s = true.
Lemma indent_spaces level by_ : spaces by_ → spaces (nl +:+ str_repeat level by_).
Proof.
  intros Hb. unfold spaces. rewrite str_forallb_app. unfold str_repeat.
  by rewrite str_forallb_repeat.
Qed.
Lemma strip_or_indent i s : spaces i → strip_text (or_indent i s) = strip_text s.
Proof.
  intros Hi. unfold or_indent, strip_text. destruct (blank s) eqn:Hs; [|by rewrite Hs].
  unfold blank. by rewrite strip_spaces.
Qed.
Lemma strip_set_tail i n : spaces i → strip_node (set_tail (or_indent i (tail_of n)) n) = strip_node n.
Proof. intros Hi. destruct n; simpl; by rewrite strip_or_indent. Qed.
Lemma strip_indent_last i l : spaces i → strip_node <$> indent_last i l = strip_node <$> l.
Proof.
  intros Hi. induction l as [|n [|n' l] IH]; [done|..].
  - cbn [indent_last fmap list_fmap]. by rewrite strip_set_tail.
  - cbn [indent_last fmap list_fmap] in *. by rewrite IH.
Qed.

Lemma strip_indent n level by_ : spaces by_ → strip_node (xml_indent n level by_) = strip_node n.
Proof.
  revert level by_. induction n as [tag attrib text tail children IH|text tail] using node_rect';
    intros level by_ Hb; pose proof (indent_spaces level by_ Hb) as Hi.
  - destruct children as [|n l]; cbn [xml_indent].
    { case_match; [done|]. by rewrite strip_set_tail. }
    cbn [strip_node]. rewrite !strip_or_indent; [|done|unfold spaces in *; by rewrite str_forallb_app, Hi].
    rewrite strip_indent_last by done. f_equal. rewrite <-list_fmap_compose.
    apply list_fmap_ext. intros j m Hm. rewrite Forall_lookup in IH. simpl. by eapply IH.
  - cbn [xml_indent]. case_match; [done|]. by rewrite strip_set_tail.
Qed.

Lemma strip_norm n : strip_node (norm n) = strip_node n.
Proof.
  assert (Ht : ∀ s, strip_text (norm_text s) = strip_text s) by (by intros [[]|]).
  induction n as [tag attrib text tail children IH|text tail] using node_rect'; simpl; rewrite ?Ht.
  - f_equal. rewrite <-list_fmap_compose. apply list_fmap_ext. intros j m Hm.
    rewrite Forall_lookup in IH. simpl. by eapply IH.
  - done.
Qed.

Lemma good_set_tail t n : good (set_tail t n) = good n.
Proof. by destruct n. Qed.
Lemma good_indent_last i l : forallb good (indent_last i l) = forallb good l.
Proof.
  induction l as [|n [|n' l] IH]; [done|..].
  - cbn [indent_last forallb]. by rewrite good_set_tail.
  - cbn [indent_last forallb] in *. by rewrite IH.
Qed.
Lemma good_indent n level by_ : good (xml_indent n level by_) = good n.
Proof.
  revert level by_. induction n as [tag attrib text tail children IH|text tail] using node_rect';
    intros level by_.
  - destruct children as [|n l]; cbn [xml_indent]; [case_match; [done|by rewrite good_set_tail]|].
    cbn [good]. rewrite good_indent_last. f_equal. revert IH. generalize (n :: l). clear.
    intros k IH. induction IH as [|m k Hm _ IHk]; [done|]. cbn [fmap list_fmap forallb].
    by rewrite Hm, IHk.
  - cbn [xml_indent]. case_match; [done|by rewrite good_set_tail].
Qed.

Lemma read_back entries config_file config_d_dir root uid_ :
  good (config_tree entries root uid_) = true →
  ∃ n, read_xml (content (create_xml_config_content entries config_file config_d_dir root uid_)) =
         Some n ∧
    strip_node n = strip_node (config_tree entries root uid_).
Proof.
  intros Hg. eexists. split.
  - apply read_document. by rewrite good_indent.
  - rewrite strip_norm. by apply strip_indent.
Qed.

(** C21: A configuration file is well-formed XML that says what the dictionary
    says: reading its text gives back the tree of the entries, with the
    attributes, texts and order they were given, up to white space; texts and
    attributes may hold any characters. *)
Theorem config_reads_back entries config_file config_d_dir root uid_ :
  good (config_tree entries root uid_) = true →
  ∃ n, read_xml (content (create_xml_config_content entries config_file config_d_dir root uid_)) =
         Some n ∧
    strip_node n = strip_node (config_tree entries root uid_).
Proof. apply read_back. Qed.

Lemma config_reads_back_witness :
  good (config_tree [(Key "a", VList [[(Key "b", VText (Some "1 < 2 & 3"))]; []])] "yandex" "u_1") = true ∧
  ∃ n, read_xml (content (create_xml_config_content
         [(Key "a", VList [[(Key "b", VText (Some "1 < 2 & 3"))]; []])] "f.xml" "/d" "yandex" "u_1")) =
       Some n.
Proof.
  split; [reflexivity|].
  destruct (config_reads_back [(Key "a", VList [[(Key "b", VText (Some "1 < 2 & 3"))]; []])]
    "f.xml" "/d" "yandex" "u_1" eq_refl) as (n & H & _).
  exists n. exact H.
Defined.

(** Only the first level is indented by a given text. *)
Lemma indent_by_first_level t :
  xml_indent (Element "a" [] None None [Element "b" [] None None [Element "c" [] None None []]]) 0 t =
  Element "a" [] (Some (nl +:+ t)) (Some nl)
    [Element "b" [] (Some (nl +:+ "  " +:+ "  ")) (Some nl)
       [Element "c" [] None (Some (nl +:+ "  ")) []]].
Proof. reflexivity. Qed.

(** ** Settings

    The texts that a dictionary, and an element, hold under a path of names,
    but for blank ones: what a program finds that looks for a setting. *)
Definition shown (s : option string) : list string :=
  match strip_text s with Some s => [s] | None => [] end.
Fixpoint values (path : list string) (v : entry) : list string :=
  match path with
  | [] => match v with VText s => shown s | _ => [] end
  | k :: path =>
      let below (e : list (key * entry)) :=
        e ≫= λ kv, if String.eqb (key_name kv.1) k then values path kv.2 else [] in
      match v with VText _ => [] | VDict e => below e | VList l => l ≫= below end
  end.
Fixpoint settings (path : list string) (n : node) : list string :=
  match n with
  | Comment _ _ => []
  | Element _ _ text _ children =>
      match path with
      | [] => shown text
      | k :: path => children ≫= λ c,
          match c with
          | Element tag _ _ _ _ => if String.eqb tag k then settings path c else []
          | Comment _ _ => []
          end
      end
  end.

Lemma shown_strip s : shown (strip_text s) = shown s.
Proof. unfold shown, strip_text. destruct (blank s) eqn:E; simpl; by rewrite ?E. Qed.

Lemma settings_strip path n : settings path (strip_node n) = settings path n.
Proof.
  revert n. induction path as [|k path IH]; intros [tag attrib t tail children|t tail]; try done.
  - simpl. apply shown_strip.
  - cbn [settings strip_node]. induction children as [|c children IHc]; [done|].
    cbn [fmap list_fmap mbind list_bind]. f_equal; [|apply IHc].
    destruct c as [tag' ? ? ? ?|]; [|done]. cbn [strip_node]. case_match; [|done].
    apply (IH (Element _ _ _ _ _)).
Qed.

(** The entries of a dictionary as children *)
Lemma settings_below k path e :
  (∀ k v, settings path (xml_element k v) = values path v) →
  (((λ kv, xml_element kv.1 kv.2) <$> e) ≫= λ c,
      match c with
      | Element tag _ _ _ _ => if String.eqb tag k then settings path c else []
      | Comment _ _ => []
      end) =
  (e ≫= λ kv, if String.eqb (key_name kv.1) k then values path kv.2 else []).
Proof.
  intros IH. induction e as [|[kk v] e IHe]; [done|]. cbn [fmap list_fmap mbind list_bind fst snd].
  f_equal; [|done]. rewrite <-(IH kk v). by destruct kk, v.
Qed.
Lemma settings_element path k v : settings path (xml_element k v) = values path v.
Proof.
  revert k v. induction path as [|k path IH]; intros kk v.
  - destruct v as [t|e|l]; [by destruct kk|done..].
  - destruct v as [t|e|l]; [by destruct kk|by apply settings_below|].
    cbn [xml_element settings values]. induction l as [|e l IHl]; [done|].
    cbn [mbind list_bind]. rewrite bind_app, <-IHl. f_equal. by apply settings_below.
Qed.
Lemma settings_config k path e root uid_ :
  settings (k :: path) (config_tree e root uid_) = values (k :: path) (VDict e).
Proof.
  unfold config_tree, create_xml_tree. cbn [settings mbind list_bind app values].
  apply settings_below. intros. apply settings_element.
Qed.

(** All names of a dictionary can be names of elements. *)
Definition good_key (k : key) : bool :=
  good_name (key_name k) && forallb (λ kv, good_name kv.1) (key_attrib k).
Fixpoint good_names (v : entry) : bool :=
  match v with
  | VText _ => true
  | VDict e => forallb (λ kv, good_key kv.1 && good_names kv.2) e
  | VList l => forallb (λ e, forallb (λ kv, good_key kv.1 && good_names kv.2) e) l
  end.

Lemma entry_rect' (P : entry → Prop) :
  (∀ s, P (VText s)) → (∀ e, Forall (λ kv, P kv.2) e → P (VDict e)) →
  (∀ l, Forall (Forall (λ kv, P kv.2)) l → P (VList l)) → ∀ v, P v.
Proof.
  intros HT HD HL. fix IH 1.
  assert (Hd : ∀ e : list (key * entry), Forall (λ kv, P kv.2) e).
  { fix IHe 1. intros [|[k v] e]; constructor; [apply IH|apply IHe]. }
  intros [s|e|l]; [apply HT|apply HD, Hd|apply HL].
  clear HL. induction l as [|e l IHl]; constructor; [apply Hd|apply IHl].
Qed.

Lemma good_below e :
  Forall (λ kv, ∀ k, good (xml_element k kv.2) = good_key k && good_names kv.2) e →
  forallb good ((λ kv, xml_element kv.1 kv.2) <$> e) = forallb (λ kv, good_key kv.1 && good_names kv.2) e.
Proof.
  induction 1 as [|[k v] e Hv He IH]; [done|]. cbn [fmap list_fmap forallb fst snd]. simpl in Hv.
  by rewrite Hv, IH.
Qed.
Lemma good_element k v : good (xml_element k v) = good_key k && good_names v.
Proof.
  revert k. induction v as [t|e IH|l IH] using entry_rect'; intros k.
  - unfold good_key. destruct k; simpl; by rewrite ?andb_true_r.
  - cbn [xml_element good good_names]. by rewrite good_below.
  - cbn [xml_element good good_names]. unfold good_key at 1. f_equal.
    induction IH as [|e l He Hl IHl]; [done|]. cbn [mbind list_bind forallb].
    by rewrite forallb_app, IHl, good_below.
Qed.
Lemma good_config e root uid_ :
  good_name root = true → without ">" ("config uid: " +:+ uid_) = true → good_names (VDict e) = true →
  good (config_tree e root uid_) = true.
Proof.
  intros Hr Hu He. unfold config_tree, create_xml_tree. cbn [good forallb]. rewrite Hr, Hu.
  simpl. rewrite good_below; [exact He|]. apply Forall_true. intros x k. apply good_element.
Qed.

(** Who reads the file finds the settings of the dictionary. *)
Lemma settings_read_back e config_file config_d_dir root uid_ :
  good_name root = true → without ">" uid_ = true → good_names (VDict e) = true →
  ∃ n, read_xml (content (create_xml_config_content e config_file config_d_dir root uid_)) = Some n ∧
    ∀ k path, settings (k :: path) n = values (k :: path) (VDict e).
Proof.
  intros Hr Hu He. destruct (read_back e config_file config_d_dir root uid_) as (n & Hn & Hs).
  { apply good_config; [done| |done]. by rewrite without_app, Hu. }
  exists n. split; [done|]. intros k path.
  by rewrite <-settings_strip, Hs, settings_strip, settings_config.
Qed.
