(* ===== verification/NodeLog.v ===== *)
(** * Recording the SQL that steps run

    Steps are written against the interface [SqlNode] (Query).  To state which
    statements a step runs, whatever the node answers, it is run on a
    [recorded] node, which hands every statement to the node below and keeps
    it.  [bracket] is the shape that the steps share: set up, yield to the
    test, clean up in [finally]. *)
From stdpp Require Import gmap.
From S2P Require Import Prelude PyStr PyDict PyMonad World Cluster Query.
Local Open Scope Z_scope.

(** A state with a log of items [L]; a recorded node keeps its statements. *)
Definition logged (L S : Type) : Type := S * list L.
Abbreviation recorded := (logged (string * query_args)).

#[export] Instance recorded_node {S} (N : SqlNode S) : SqlNode (recorded S) := λ sql a s,
  let '(r, s') := sql_query sql a s.1 in (r, (s', s.2 ++ [(sql, a)])).

(** [node.query(sql)] *)
Definition run_sql {S} `{SqlNode S} (sql : string) : M S unit :=
  sql_query sql query0;; mret tt.

(** [try: setup; yield v; finally: cleanup], run around the rest of the
    test. *)
Definition bracket {S V A} (setup : M S V) (body : V → M S A) (cleanup : M S unit) : M S A :=
  try_finally (v ← setup; body v) cleanup.

Section recording.
Context {L S : Type}.
Implicit Types (s : logged L S) (l k : list L).
Abbreviation M := (M (logged L S)).

(** The log only grows. *)
Definition grows s s' : Prop := ∃ l, s'.2 = s.2 ++ l.
#[export] Instance grows_preorder : PreOrder grows.
Proof.
  split.
  - intros s. exists []. by rewrite app_nil_r.
  - intros s1 s2 s3 [l1 H1] [l2 H2]. exists (l1 ++ l2). by rewrite H2, H1, app_assoc.
Qed.

(** [runs m l]: when [m] returns, it has logged exactly the items [l], and
    when it raises, a prefix of them. *)
Definition runs {A} (m : M A) l : Prop :=
  ∀ s, match m s with
       | (Ok _, s') => s'.2 = s.2 ++ l
       | (Exc _, s') => ∃ k, s'.2 = s.2 ++ k ∧ prefix k l
       | (Stuck _, _) => True
       end.

Lemma runs_ret {A} (a : A) : runs (mret a : M A) [].
Proof. intros s. simpl. by rewrite app_nil_r. Qed.

Lemma runs_raise {A} e : runs (raise e : M A) [].
Proof. intros s. exists []. by rewrite app_nil_r. Qed.

Lemma runs_lift {A} (r : res A) : runs (lift r : M A) [].
Proof. intros s. destruct r; simpl; [by rewrite app_nil_r| |done]. exists []. by rewrite app_nil_r. Qed.

Lemma runs_bind {A B} (m : M A) (f : A → M B) l k :
  runs m l → (∀ a, runs (f a) k) → runs (m ≫= f) (l ++ k).
Proof.
  intros Hm Hf s. specialize (Hm s). unfold mbind, M_bind.
  destruct (m s) as [[a|e|w] s1]; [|destruct Hm as (j & Hj & Hp)|done].
  - specialize (Hf a s1). destruct (f a s1) as [[b|e|w] s2]; [| |done].
    + by rewrite Hf, Hm, app_assoc.
    + destruct Hf as (j & Hj & Hp). exists (l ++ j).
      split; [by rewrite Hj, Hm, app_assoc|]. by apply prefix_app.
  - exists j. split; [done|]. by apply prefix_app_r.
Qed.

Lemma runs_for {A} (xs : list A) (body : A → M unit) (f : A → list L) :
  (∀ x, runs (body x) (f x)) → runs (for_ xs body) (xs ≫= f).
Proof.
  intros Hb. induction xs as [|x xs IH]; [apply runs_ret|]. cbn [for_].
  by apply runs_bind.
Qed.

Lemma runs_grows {A} (m : M A) l : runs m l → ∀ s,
  match m s with (Stuck _, _) => True | (_, s') => grows s s' end.
Proof.
  intros Hm s. specialize (Hm s). destruct (m s) as [[a|e|w] s1]; [by eexists| |done].
  destruct Hm as (k & Hk & _). by eexists.
Qed.

(** [tries m x]: whatever the node answers, [m] logs the item [x] first. *)
Definition tries {A} (m : M A) (x : L) : Prop :=
  ∀ s, match m s with (Stuck _, _) => True | (_, s') => ∃ k, s'.2 = s.2 ++ x :: k end.

Lemma tries_bind {A B} (m : M A) (f : A → M B) x l :
  tries m x → (∀ a, runs (f a) l) → tries (m ≫= f) x.
Proof.
  intros Hm Hf s. specialize (Hm s). unfold mbind, M_bind.
  destruct (m s) as [[a|e|w] s1]; [|done..]. destruct Hm as [k Hk].
  pose proof (runs_grows _ _ (Hf a) s1) as Hg. destruct (f a s1) as [[b|e|w] s2]; [| |done];
    destruct Hg as [j Hj]; exists (k ++ j); by rewrite Hj, Hk, <-app_assoc.
Qed.

Lemma tries_run {A} (m : M A) x s k :
  tries m x → is_stuck (m s).1 = false → (m s).2.2 = s.2 ++ k → hd_error k = Some x.
Proof.
  intros Hm Hs Hk. specialize (Hm s). destruct (m s) as [[b|e|w] s2]; [| |done];
    destruct Hm as [j Hj]; simpl in *; rewrite Hk in Hj; by apply app_inv_head in Hj as ->.
Qed.

(** [leaves m Φ]: when [m] returns, its result and what it logged satisfy [Φ]. *)
Definition leaves {A} (m : M A) (Φ : A → list L → Prop) : Prop :=
  ∀ s a s', m s = (Ok a, s') → ∃ l, s'.2 = s.2 ++ l ∧ Φ a l.

Lemma leaves_mono {A} (m : M A) (Φ Ψ : A → list L → Prop) :
  leaves m Φ → (∀ a l, Φ a l → Ψ a l) → leaves m Ψ.
Proof. intros Hm HΦ s a s' E. destruct (Hm s a s' E) as (l & Hl & HP). eauto. Qed.
Lemma leaves_ret {A} (a : A) (Φ : A → list L → Prop) : Φ a [] → leaves (mret a : M A) Φ.
Proof. intros Ha s ? s' [= <- <-]. exists []. by rewrite app_nil_r. Qed.
Lemma leaves_raise {A} e (Φ : A → list L → Prop) : leaves (raise e : M A) Φ.
Proof. by intros s a s'. Qed.
Lemma leaves_bind {A B} (m : M A) (f : A → M B) Φ Ψ :
  leaves m Φ → (∀ a, leaves (f a) (λ b l, ∀ l1, Φ a l1 → Ψ b (l1 ++ l))) → leaves (m ≫= f) Ψ.
Proof.
  intros Hm Hf s b s' E. unfold mbind, M_bind in E.
  destruct (m s) as [[a|e|w] s1] eqn:E1; try done.
  destruct (Hm s a s1 E1) as (l1 & Hl1 & H1). destruct (Hf a s1 b s' E) as (l2 & Hl2 & H2).
  exists (l1 ++ l2). split; [by rewrite Hl2, Hl1, app_assoc|]. by apply H2.
Qed.
Lemma leaves_grows {A} (m : M A) : Preserves grows m → leaves m (λ _ l, in_order [] l).
Proof.
  intros Hm s a s' E. specialize (Hm s). rewrite E in Hm. destruct Hm as [l Hl].
  exists l. split; [done|apply in_order_nil].
Qed.
Lemma leaves_seq {A B} (m : M A) (f : A → M B) ps qs :
  leaves m (λ _ l, in_order ps l) → (∀ a, leaves (f a) (λ _ l, in_order qs l)) →
  leaves (m ≫= f) (λ _ l, in_order (ps ++ qs) l).
Proof.
  intros Hm Hf. eapply leaves_bind; [done|]. intros a. eapply leaves_mono; [apply Hf|].
  intros b l Hl l1 Hl1. by apply in_order_app.
Qed.
Lemma leaves_when b (m : M unit) ps :
  leaves m (λ _ l, in_order ps l) →
  leaves (when b m) (λ _ l, in_order (if b then ps else []) l).
Proof. destruct b; [done|]. intros _. apply leaves_ret, in_order_nil. Qed.
Lemma leaves_try_finally {A} (m : M A) (f : M unit) ps qs :
  leaves m (λ _ l, in_order ps l) → leaves f (λ _ l, in_order qs l) →
  leaves (try_finally m f) (λ _ l, in_order (ps ++ qs) l).
Proof.
  intros Hm Hf s a s' E. unfold try_finally in E.
  destruct (m s) as [[b|e|w] s1] eqn:E1; [| |done].
  - destruct (f s1) as [[[]|e|w] s2] eqn:E2; simplify_eq.
    destruct (Hm _ _ _ E1) as (l1 & Hl1 & H1). destruct (Hf _ _ _ E2) as (l2 & Hl2 & H2).
    exists (l1 ++ l2). split; [by rewrite Hl2, Hl1, app_assoc|by apply in_order_app].
  - by destruct (f s1) as [[[]|e'|w] s2].
Qed.

Lemma leaves_for {A} (xs : list A) (body : A → M unit) (ps : A → list (L → Prop)) :
  (∀ x, leaves (body x) (λ _ l, in_order (ps x) l)) →
  leaves (for_ xs body) (λ _ l, in_order (xs ≫= ps) l).
Proof.
  intros Hb. induction xs as [|x xs IH]; [apply leaves_ret, in_order_nil|].
  cbn [for_]. apply leaves_seq; [apply Hb|]. intros _. apply IH.
Qed.

(** A bracket that returns has set up, run its body and cleaned up. *)
Lemma leaves_bracket {V A} (setup : M V) (body : V → M A) (cleanup : M unit) ps qs
    (Ψ : A → list L → Prop) :
  leaves setup (λ _ l, in_order ps l) → (∀ v, leaves (body v) Ψ) →
  leaves cleanup (λ _ l, in_order qs l) →
  leaves (bracket setup body cleanup)
    (λ a l, ∃ before test after, l = before ++ test ++ after ∧
       in_order ps before ∧ Ψ a test ∧ in_order qs after).
Proof.
  intros Hs Hb Hc s a s' E. unfold bracket, try_finally, mbind, M_bind in E.
  destruct (setup s) as [[v|e|w] s1] eqn:E1; [|by destruct (cleanup s1) as [[]]|done].
  destruct (body v s1) as [[b|e|w] s2] eqn:E2; [|by destruct (cleanup s2) as [[]]|done].
  destruct (cleanup s2) as [[[]|e|w] s3] eqn:E3; simplify_eq.
  destruct (Hs _ _ _ E1) as (l1 & Hl1 & H1). destruct (Hb _ _ _ _ E2) as (l2 & Hl2 & H2).
  destruct (Hc _ _ _ E3) as (l3 & Hl3 & H3). exists (l1 ++ l2 ++ l3).
  split; [by rewrite Hl3, Hl2, Hl1, !app_assoc|]. by exists l1, l2, l3.
Qed.

(** A test body: it only adds to the log. *)
Definition test_body {A} (m : M A) : Prop := Preserves grows m.

(** What a bracket leaves in the log [s] between the set-up statements [l] and
    the clean-up statements [k]: the clean-up is run once, at the end, whatever
    the set-up and the test do, and in full unless it raises itself; the set-up
    is run in order up to where it fails, and the test only after all of it. *)
Definition bracketed {A V} (setup : M V) (cleanup : M unit)
    l k s (r : res A) s' : Prop :=
  ∃ done mid tail, s'.2 = s.2 ++ done ++ mid ++ tail ∧
    prefix done l ∧ prefix tail k ∧ (is_ok r = true → done = l ∧ tail = k) ∧
    (done ≠ l → mid = []) ∧ (∀ x, tries cleanup x → hd_error tail = Some x) ∧
    (∀ x, tries setup x → hd_error done = Some x) ∧
    ((∀ s, is_ok (cleanup s).1 = true) → tail = k).

Lemma bracket_runs {V A} (setup : M V) (body : V → M A) cleanup l k s :
  runs setup l → (∀ v, test_body (body v)) → runs cleanup k →
  match bracket setup body cleanup s with
  | (Stuck _, _) => True
  | (r, s') => bracketed setup cleanup l k s r s'
  end.
Proof.
  intros Hs Hb Hc. unfold bracket, try_finally, mbind, M_bind. specialize (Hs s).
  pose proof (λ x (Ha : tries setup x), Ha s) as Has.
  assert (Hclean : ∀ (r : res A) s1 d m,
    is_stuck r = false → s1.2 = s.2 ++ d ++ m → prefix d l →
    (is_ok r = true → d = l) → (d ≠ l → m = []) →
    (∀ x, tries setup x → hd_error d = Some x) →
    match match cleanup s1 with
          | (Ok _, s2) => (r, s2) | (Exc e, s2) => (Exc e, s2) | (Stuck w, s2) => (Stuck w, s2)
          end with
    | (Stuck _, _) => True
    | (r, s') => bracketed setup cleanup l k s r s'
    end).
  { intros r s1 d m Hr Es Hd Hok Hm Hx. specialize (Hc s1).
    pose proof (λ x t Ha, tries_run cleanup x s1 t Ha) as Hat.
    destruct (cleanup s1) as [[[]|e|w] s2] eqn:Ec; [| |done]; simpl in Hat.
    - destruct r as [a|e|w]; [| |done]; exists d, m, k; rewrite Hc, Es, <-!app_assoc;
        split_and!; try done; auto; intros x Ha; by eapply Hat.
    - destruct Hc as (t & Ht & Hp). exists d, m, t. rewrite Ht, Es, <-!app_assoc.
      split_and!; try done; [intros x Ha; by eapply Hat|].
      intros Hall. specialize (Hall s1). by rewrite Ec in Hall. }
  destruct (setup s) as [[v|e|w] s1]; [| |done].
  - specialize (Hb v s1).
    assert (∀ x, tries setup x → hd_error l = Some x) as Hx.
    { intros x Ha. destruct (Has x Ha) as [j Hj]. rewrite Hs in Hj.
      by apply app_inv_head in Hj as ->. }
    destruct (body v s1) as [[a|e|w] s2]; [| |done];
      destruct Hb as [m Hm]; simpl in Hm; apply (Hclean _ s2 l m); try done; eauto;
      by rewrite Hm, Hs, app_assoc.
  - destruct Hs as (d & Hd & Hp). apply (Hclean (Exc e) s1 d []); try done; eauto.
    + by rewrite app_nil_r.
    + intros x Ha. destruct (Has x Ha) as [j Hj]. rewrite Hd in Hj.
      by apply app_inv_head in Hj as ->.
Qed.
End recording.

Section recorded_queries.
Context {S : Type} {N : SqlNode S}.

Lemma runs_query sql a : runs (sql_query sql a : M (recorded S) _) [(sql, a)].
Proof.
  intros s. cbv [sql_query recorded_node].
  destruct (N sql a s.1) as [[r|e|w] s1]; simpl; [done| |done]. eauto.
Qed.
Lemma runs_run_sql sql : runs (run_sql sql : M (recorded S) _) [(sql, query0)].
Proof. apply (runs_bind _ _ [_] []); [apply runs_query|]. intros r. apply runs_ret. Qed.

Lemma tries_query sql a : tries (sql_query sql a : M (recorded S) _) (sql, a).
Proof.
  intros s. cbv [sql_query recorded_node].
  destruct (N sql a s.1) as [[r|e|w] s1]; simpl; [by exists []|by exists []|done].
Qed.
Lemma tries_run_sql sql : tries (run_sql sql : M (recorded S) _) (sql, query0).
Proof. eapply tries_bind; [apply tries_query|]. intros r. apply runs_ret. Qed.
End recorded_queries.

(** A node that answers every statement with nothing, for the witnesses. *)
Definition silent_node : SqlNode unit := λ _ _ s, (Ok (mkResult 0 EmptyString), s).
