(* ===== verification/Tables.v ===== *)
(** * Test tables

    helpers/tables.py: columns and the generator of their values, the
    classification of types, the lists of column types that the table suites
    use, [Table.insert_test_data], and the steps that create and attach
    tables. *)
From stdpp Require Import gmap.
From Stdlib Require Import Ascii.
From S2P Require Import Prelude PyStr PyDict PyMonad Sql Version DataTypes World Query NodeLog.
Local Open Scope Z_scope.

(** ** Columns *)

(** A [Column]; [random] refers to its own generator, seeded from its name
    when it is made. *)
Record column := mkColumn { datatype_of : datatype; col_name : string; random : nat }.

(** The name that a column takes from its type *)
Definition default_name (d : datatype) : string :=
  lower (replace "," "_" (replace ")" "_" (replace "(" "_" (type_name d)))).

(** [Column(datatype, name)], as the [ref]-th column that is made *)
Definition Column_init (ref : nat) (d : datatype) (name : option string) : column :=
  mkColumn d (default (default_name d) name) ref.

(** [Column.__eq__] and [Column.__lt__] compare names. *)
Definition column_eq (c o : column) : bool := String.eqb (col_name o) (col_name c).
Definition column_lt (c o : column) : bool := String.ltb (col_name o) (col_name c).

(** [Column.full_definition] *)
Definition full_definition (c : column) : string :=
  col_name c +:+ " " +:+ type_name (datatype_of c).

(** The generators of the columns, the module-level one, and the node. *)
Record tstate (R W : Type) := mkT { gens : nat → R; module_random : R; node : W }.
Arguments mkT {R W} _ _ _.
Arguments gens {R W} _.
Arguments module_random {R W} _.
Arguments node {R W} _.

(** A running generator of [Column.values]: not started, about to yield the
    [i]-th value, or finished. *)
Inductive values_gen := VStart | VRun (values : list string) (i : nat) | VDone.

Section values.
Context {R W : Type} `{Rng R}.
Abbreviation M := (M (tstate R W)).

(** Draw from the generator [ref]. *)
Definition draw {A} (ref : nat) (m : PyMonad.M (rngs R) A) : M A := λ s,
  let '(r, g) := m (mkRngs (gens s ref) (module_random s)) in
  (r, mkT (λ i, if (i =? ref)%nat then given g else gens s i) (default_random g) (node s)).

(** The list that [Column.values] yields from, before it is repeated *)
Definition base_values (c : column) (row_count : Z) (ref : nat) : M (list string) :=
  let d := datatype_of c in
  rest ← (if 3 <? row_count
          then mapM_ (λ _, draw ref (rand_value d (Some Given))) (seq 0 (Z.to_nat (row_count - 3)))
          else mret []);
  mret ([max_value d; min_value d; zero_or_null_value d] ++ rest).

(** [yield str(values[i])] in the loop over [range(row_count)] *)
Definition yield_from (row_count : Z) (values : list string) (i : nat) : M (string * values_gen) :=
  if Z.of_nat i <? row_count then
    match values !! i with
    | Some v => mret (v, VRun values (S i))
    | None => raise IndexError
    end
  else raise StopIteration.

(** [next(g)] for a generator of [c.values(row_count, cardinality, random)] *)
Definition next_value (c : column) (row_count cardinality : Z) (random_ : option nat)
    (g : values_gen) : M (string * values_gen) :=
  match g with
  | VStart =>
      values ← base_values c row_count (default (random c) random_);
      yield_from row_count (list_repeat (Z.to_nat cardinality) values) 0
  | VRun values i => yield_from row_count values i
  | VDone => raise StopIteration
  end.

(** [[next(column_values) for column_values in columns_values]] *)
Definition next_row (row_count cardinality : Z) (random_ : option nat)
    (gs : list (column * values_gen)) : M (list (string * (column * values_gen))) :=
  mapM_ (λ cg, v ← next_value cg.1 row_count cardinality random_ cg.2;
               mret (v.1, (cg.1, v.2))) gs.

(** The loop of [insert_test_data]: [n] more rows *)
Fixpoint make_rows (n : nat) (row_count cardinality : Z) (random_ : option nat)
    (gs : list (column * values_gen)) (values : list string) : M (list string) :=
  match n with
  | O => mret values
  | S n =>
      row ← next_row row_count cardinality random_ gs;
      make_rows n row_count cardinality random_ row.*2
        (values ++ ["(" +:+ join "," row.*1 +:+ ")"])
  end.

(** A statement of the node, run beside the generators *)
Definition on_node {A} (m : PyMonad.M W A) : M A := λ s,
  let '(r, n) := m (node s) in (r, mkT (gens s) (module_random s) n).
End values.

(** [Table] *)
Record Table := mkTable { table_name : string; columns : list column; engine : string }.

(** [Table.insert_test_data]: the result of the query and the values *)
Definition insert_test_data {R W} `{Rng R, SqlNode W} (t : Table)
    (row_count cardinality : Z) (query_settings : option (list (string * string)))
    (random_ : option nat) : M (tstate R W) (shell_result * list string) :=
  values ← make_rows (Z.to_nat row_count) row_count cardinality random_
             ((λ c, (c, VStart)) <$> columns t) [];
  result ← on_node (sql_query ("INSERT INTO " +:+ table_name t +:+ " VALUES " +:+ join "," values)
                      (with_settings (default [] query_settings)));
  mret (result, values).

(** ** Creating and attaching tables *)

Section create.
Context {W : Type} `{SqlNode W}.

(** [getuid()] is [uid], a part of the name of an unnamed table. *)
Definition table_name_or (uid : string) (name : option string) : string :=
  default ("table_" +:+ uid) name.

Definition columns_def (columns : list column) : string :=
  "(" +:+ join "," (full_definition <$> columns) +:+ ")".

Definition optional_clause (clause : string) (o : option string) (close : string) : string :=
  match o with Some v => nl +:+ clause +:+ v +:+ close | None => EmptyString end.

Definition create_statement (name engine : string) (columns : list column)
    (order_by comment empty as_select : option string) : string :=
  "CREATE TABLE " +:+ name +:+ " " +:+ columns_def columns +:+ nl +:+ "ENGINE = " +:+ engine +:+
  optional_clause "ORDER BY " order_by EmptyString +:+
  optional_clause "COMMENT '" comment "'" +:+
  optional_clause "EMPTY AS " empty EmptyString +:+
  optional_clause "AS SELECT " as_select EmptyString.

Definition drop_statement (name : string) (drop_sync : bool) : string :=
  "DROP TABLE IF EXISTS " +:+ name +:+ (if drop_sync then " SYNC" else EmptyString).

Definition create_settings (settings : option (list (string * string))) : list (string * string) :=
  default [("allow_suspicious_low_cardinality_types", "1")] settings.

(** [create_table], around the rest of the test *)
Definition create_table {A} (uid engine : string) (columns : list column) (name : option string)
    (drop_sync : bool) (order_by comment as_select empty : option string)
    (settings : option (list (string * string))) (body : Table → M W A) : M W A :=
  let name := table_name_or uid name in
  bracket
    (sql_query (create_statement name engine columns order_by comment empty as_select)
       (with_settings (create_settings settings));;
     mret (mkTable name columns engine))
    body
    (run_sql (drop_statement name drop_sync)).

(** The text of [attach_table] keeps the indentation of the source. *)
Definition indent : string := str_repeat 20 " ".
Definition attach_statement (name path engine : string) (columns : list column) : string :=
  nl +:+ indent +:+ "ATTACH TABLE " +:+ name +:+ " FROM '" +:+ path +:+ "' " +:+
  columns_def columns +:+ nl +:+ indent +:+ "Engine = " +:+ engine +:+ nl +:+ indent.

Definition attach_table {A} (uid engine : string) (columns : list column) (name : option string)
    (path : option string) (drop_sync : bool) (body : Table → M W A) : M W A :=
  let name := table_name_or uid name in
  bracket
    (sql_query (attach_statement name (default "None" path) engine columns) query0;;
     mret (mkTable name columns engine))
    body
    (run_sql (drop_statement name drop_sync)).
End create.

(** ** Classification of types *)

(** The keyword arguments of [is_numeric], [is_unsigned_integer] and
    [is_integer] *)
Record type_flags := mkFlags {
  decimal : bool; date : bool; date32 : bool; datetime : bool; datetime64 : bool;
  extended_precision : bool
}.
(** Their defaults: only [is_numeric] counts decimals. *)
Definition numeric_flags : type_flags := mkFlags true false false false false true.
Definition integer_flags : type_flags := mkFlags false false false false false true.

(** The common part: the answer of the flags for decimals and dates, else
    [answer] of the unwrapped type *)
Definition classify (f : type_flags) (answer : datatype → bool) (d : datatype) : bool :=
  let d := unwrap d in
  match d with
  | TDecimal _ _ => decimal f
  | TDate32 => date32 f
  | TDateTime64 _ _ => datetime64 f
  | TDateTime => datetime f
  | TDate => date f
  | _ => if negb (extended_precision f) && is_extended_precision (attrs d) then false
         else answer d
  end.

(** [isinstance(d, UInt)] and [isinstance(d, Int)] *)
Definition isinstance_UInt (d : datatype) : bool := match d with TUInt _ => true | _ => false end.
Definition isinstance_Int (d : datatype) : bool :=
  match d with TInt _ | TUInt _ => true | _ => false end.

Definition is_numeric (f : type_flags) (d : datatype) : bool :=
  classify f (λ d, is_numeric_ (attrs d)) d.
Definition is_unsigned_integer (f : type_flags) (d : datatype) : bool :=
  classify f isinstance_UInt d.
Definition is_integer (f : type_flags) (d : datatype) : bool := classify f isinstance_Int d.
Definition is_string (d : datatype) : bool := is_String (unwrap d).
Definition is_map (d : datatype) : bool := match unwrap d with TMap _ _ => true | _ => false end.
Definition is_nullable (d : datatype) : bool := match d with TNullable _ => true | _ => false end.
Definition is_low_cardinality (d : datatype) : bool :=
  match d with TLowCardinality _ => true | _ => false end.

(** ** Lists of types *)

Section types.
(** The ClickHouse version of the context *)
Variable version : option string.

(** [generate_low_card_datatypes] *)
Definition can_be_low_card (d : datatype) : res bool :=
  if supports_low_cardinality (attrs (unwrap d)) then
    old ← check_clickhouse_version "<22.4" version;
    Ok (if (old : bool) then negb (is_nullable d) else true)
  else Ok false.
Fixpoint generate_low_card_datatypes (l : list datatype) : res (list datatype) :=
  match l with
  | [] => Ok []
  | d :: l =>
      b ← can_be_low_card d;
      l' ← generate_low_card_datatypes l;
      Ok (if (b : bool) then TLowCardinality d :: l' else l')
  end.

Definition generate_nullable_datatypes (l : list datatype) : list datatype := TNullable <$> l.
Definition generate_array_datatypes (l : list datatype) : list datatype := TArray <$> l.
Definition generate_tuple_datatype (l : list datatype) : datatype := TTuple l.
Definition generate_map_datatypes (l : list datatype) : list datatype :=
  l ≫= λ key, if is_valid_map_key (attrs key) then TMap key <$> l else [].

Definition low_cardinality_common_basic_datatypes : res (list datatype) :=
  generate_low_card_datatypes common_basic_datatypes.
Definition null_common_basic_datatypes : list datatype :=
  generate_nullable_datatypes common_basic_datatypes.
Definition common_complex_datatypes : list datatype :=
  [TArray TString; TMap TString (TLowCardinality TFloat64); TTuple [TString]].
Definition common_datatypes : res (list datatype) :=
  lc ← low_cardinality_common_basic_datatypes;
  Ok (common_basic_datatypes ++ lc ++ null_common_basic_datatypes ++ common_complex_datatypes).

(** [[Column(datatype) for datatype in l]] *)
Definition columns_of (l : list datatype) : list column :=
  imap (λ i d, Column_init i d None) l.
Definition common_columns : res (list column) := columns_of <$> common_datatypes.

(** The types that the generated maps, arrays and tuples are made of *)
Definition member_datatypes (basic : list datatype) : res (list datatype) :=
  let null := generate_nullable_datatypes basic in
  low_cardinality ← generate_low_card_datatypes (basic ++ null);
  Ok (basic ++ null ++ low_cardinality ++ common_complex_datatypes).

(** [generate_all_column_types(include)]; [exclude] is not used. *)
Definition generate_all_datatypes (include : list datatype) : res (list datatype) :=
  basic ← (match include with [] => basic_datatypes version | _ => Ok include end : res _);
  let null := generate_nullable_datatypes basic in
  low_cardinality ← generate_low_card_datatypes (basic ++ null);
  members ← member_datatypes basic;
  Ok (basic ++ generate_map_datatypes members ++ null ++ generate_array_datatypes members ++
      low_cardinality ++ [generate_tuple_datatype members]).
Definition generate_all_column_types (include : list datatype) : res (list column) :=
  columns_of <$> generate_all_datatypes include.

Definition generate_all_map_column_types : res (list column) :=
  basic ← basic_datatypes version;
  members ← member_datatypes basic;
  Ok (columns_of (generate_map_datatypes members)).
End types.

Example default_name_1 :
  default_name (TMap TString (TLowCardinality TFloat64)) = "map_string_lowcardinality_float64__".
Proof. by_compute. Qed.

(** ** Rows *)

Section rows.
Context {R W : Type} `{RngLaws R}.
Implicit Types (s : tstate R W).

Lemma draw_total {A} ref (m : M (rngs R) A) (P : A → Prop) :
  total m P → total (draw (R:=R) (W:=W) ref m) P.
Proof.
  intros Hm s. unfold draw. destruct (Hm (mkRngs (gens s ref) (module_random s)))
    as (v & g & -> & Hv). eauto.
Qed.

(** The values of a column: enough of them, each one closed expression, the
    extreme and the zero values first. *)
Definition column_list (row_count : Z) (c : column) (vs : list string) : Prop :=
  length vs = Z.to_nat (Z.max 3 row_count) ∧ Forall closed vs ∧
  take 3 vs = [max_value (datatype_of c); min_value (datatype_of c);
               zero_or_null_value (datatype_of c)].

Lemma base_values_total c row_count ref :
  sized (datatype_of c) = true →
  total (base_values (R:=R) (W:=W) c row_count ref) (column_list row_count c).
Proof.
  intros Hs. unfold base_values.
  eapply (total_bind _ _ (λ rest, length rest = Z.to_nat (row_count - 3) ∧ Forall closed rest)).
  - destruct (Z.ltb_spec 3 row_count).
    + eapply total_mono; [apply (total_mapM _ _ closed)|].
      * apply Forall_true. intros _. apply draw_total. by apply rand_value_total.
      * intros l [Hl Hc]. by rewrite length_seq in Hl.
    + apply total_ret. split; [simpl; lia|constructor].
  - intros rest [Hl Hc]. apply total_ret. unfold column_list. split_and!.
    + simpl. lia.
    + repeat constructor; auto with pyres.
    + done.
Qed.

(** A generator that has yielded [k] of the values [vs] *)
Definition running (cardinality : Z) (k : nat) (c : column) (vs : list string)
    : column * values_gen :=
  (c, VRun (list_repeat (Z.to_nat cardinality) vs) k).

Lemma yield_from_at row_count cardinality vs k s v :
  1 <= cardinality → Z.of_nat k < row_count → vs !! k = Some v →
  yield_from row_count (list_repeat (Z.to_nat cardinality) vs) k s =
  (Ok (v, VRun (list_repeat (Z.to_nat cardinality) vs) (S k)), s).
Proof.
  intros Hc Hk Hv. unfold yield_from. rewrite (proj2 (Z.ltb_lt _ _) Hk).
  by rewrite lookup_list_repeat_first, Hv by (try (by eapply lookup_lt_Some); lia).
Qed.

(** The [k]-th row of the columns with the values [vss] *)
Definition row_values (vss : list (list string)) (k : nat) : list string :=
  (λ vs, default EmptyString (vs !! k)) <$> vss.
Definition row_text (vss : list (list string)) (k : nat) : string :=
  "(" +:+ join "," (row_values vss k) +:+ ")".

Lemma lookup_default {A} (l : list A) k d : (k < length l)%nat → l !! k = Some (default d (l !! k)).
Proof. intros Hk. destruct (lookup_lt_is_Some_2 l k Hk) as [x ->]. done. Qed.

(** Later rows *)
Lemma next_row_run row_count cardinality random_ cs vss k s :
  1 <= cardinality → Z.of_nat k < row_count → Forall2 (column_list row_count) cs vss →
  next_row row_count cardinality random_ (zip_with (running cardinality k) cs vss) s =
  (Ok (zip_with (λ c vs, (default EmptyString (vs !! k), running cardinality (S k) c vs)) cs vss), s).
Proof.
  intros Hc Hk Hf. unfold next_row. induction Hf as [|c vs cs vss Hv _ IH]; [done|].
  destruct Hv as (Hl & _ & _). cbn [zip_with mapM_].
  erewrite (M_bind_Ok _ _ s); [by rewrite (M_bind_Ok _ _ _ _ _ IH)|].
  cbn [fst snd running next_value].
  by erewrite M_bind_Ok; [|apply yield_from_at; [done..|apply lookup_default; lia]].
Qed.

Lemma make_rows_run n row_count cardinality random_ cs vss k acc s :
  1 <= cardinality → Z.of_nat (k + n) <= row_count → Forall2 (column_list row_count) cs vss →
  make_rows n row_count cardinality random_ (zip_with (running cardinality k) cs vss) acc s =
  (Ok (acc ++ (row_text vss <$> seq k n)), s).
Proof.
  intros Hc. revert k acc. induction n as [|n IH]; intros k acc Hk Hf; cbn [make_rows].
  - by rewrite app_nil_r.
  - erewrite M_bind_Ok; [|apply (next_row_run _ _ _ cs vss k); try done; lia].
    replace ((zip_with (λ c vs, (default EmptyString (vs !! k), running cardinality (S k) c vs))
      cs vss).*2) with (zip_with (running cardinality (S k)) cs vss).
    2: { clear -Hf. induction Hf; simpl; [done|]. by f_equal. }
    replace ((zip_with (λ c vs, (default EmptyString (vs !! k), running cardinality (S k) c vs))
      cs vss).*1) with (row_values vss k).
    2: { clear -Hf. induction Hf; simpl; [done|]. unfold row_values in *. simpl. by f_equal. }
    rewrite IH by (try done; lia). cbn [seq fmap list_fmap]. by rewrite <-app_assoc.
Qed.

(** The first row computes the values of every column. *)
Lemma next_row_start row_count cardinality random_ cs :
  1 <= cardinality → 1 <= row_count → Forall (λ c, sized (datatype_of c) = true) cs →
  total (next_row (R:=R) (W:=W) row_count cardinality random_ ((λ c, (c, VStart)) <$> cs))
    (λ row, ∃ vss, Forall2 (column_list row_count) cs vss ∧
       row.*1 = row_values vss 0 ∧ row.*2 = zip_with (running cardinality 1) cs vss).
Proof.
  intros Hc Hr Hs. unfold next_row. induction Hs as [|c cs Hc1 _ IH]; cbn [fmap list_fmap mapM_].
  { apply total_ret. by exists []. }
  eapply (total_bind _ _ (λ v, ∃ vs, column_list row_count c vs ∧
    v.1 = default EmptyString (vs !! 0%nat) ∧ v.2 = running cardinality 1 c vs)).
  - cbn [fst snd next_value].
    eapply (total_bind _ _ (λ v, ∃ vs, column_list row_count c vs ∧
      v.1 = default EmptyString (vs !! 0%nat) ∧
      v.2 = VRun (list_repeat (Z.to_nat cardinality) vs) 1)).
    + eapply total_bind; [by apply base_values_total|]. intros vs Hvs s.
      erewrite yield_from_at; [|done|lia|apply (lookup_default _ _ EmptyString)].
      * eexists _, _. split; [done|]. by exists vs.
      * destruct Hvs as (Hl & _). lia.
    + intros [v g] (vs & Hvs & Hv & Hg). apply total_ret. exists vs. simpl in *.
      split_and!; [done..|]. unfold running. by rewrite Hg.
  - intros [v g] (vs & Hvs & Hv & Hg). eapply total_bind; [apply IH|].
    intros row (vss & Hf & H1 & H2). apply total_ret. exists (vs :: vss).
    simpl in *. split_and!; [by constructor|..].
    + rewrite Hv. exact (f_equal (cons _) H1).
    + rewrite Hg. exact (f_equal (cons _) H2).
Qed.

Lemma make_rows_total row_count cardinality random_ cs :
  1 <= cardinality → Forall (λ c, sized (datatype_of c) = true) cs →
  total (make_rows (R:=R) (W:=W) (Z.to_nat row_count) row_count cardinality random_
           ((λ c, (c, VStart)) <$> cs) [])
    (λ rows, ∃ vss, (1 <= row_count → Forall2 (column_list row_count) cs vss) ∧
       rows = row_text vss <$> seq 0 (Z.to_nat row_count)).
Proof.
  intros Hc Hs. destruct (Z.to_nat row_count) as [|n] eqn:En; cbn [make_rows].
  { apply total_ret. exists []. split; [lia|done]. }
  eapply total_bind; [apply next_row_start; [done|lia|done]|].
  intros row (vss & Hf & H1 & H2) s. cbv beta. rewrite H1, H2, (make_rows_run n _ _ _ cs vss 1) by (try done; lia).
  eexists _, _. split; [done|]. by exists vss.
Qed.

Lemma row_values_closed row_count cs vss k :
  Forall2 (column_list row_count) cs vss → Forall closed (row_values vss k).
Proof.
  induction 1 as [|c vs cs vss (_ & Hv & _) _ IH]; [constructor|].
  constructor; [|done]. destruct (vs !! k) eqn:E; [|done]. simpl.
  rewrite Forall_lookup in Hv. eauto.
Qed.

(** The generators of values leave the node alone. *)
Definition same_node (s s' : tstate R W) : Prop := node s' = node s.
#[export] Instance same_node_preorder : PreOrder same_node.
Proof. split; unfold same_node; [done|intros ???; congruence]. Qed.
#[export] Instance draw_same_node {A} ref (m : M (rngs R) A) :
  Preserves same_node (draw (W:=W) ref m).
Proof. intros s. unfold draw. by destruct (m _). Qed.
#[export] Instance next_value_same_node c row_count cardinality random_ g :
  Preserves same_node (next_value (R:=R) (W:=W) c row_count cardinality random_ g).
Proof. unfold next_value, base_values, yield_from. destruct g; apply _. Qed.
#[export] Instance make_rows_same_node n row_count cardinality random_ gs values :
  Preserves same_node (make_rows (R:=R) (W:=W) n row_count cardinality random_ gs values).
Proof.
  revert gs values. induction n as [|n IH]; intros gs values; cbn [make_rows]; [apply _|].
  unfold next_row. apply _.
Qed.

(** *** Cardinality *)

(** The same generator under the cardinalities [k] and 1 *)
Inductive same_gen (row_count k : Z) : column * values_gen → column * values_gen → Prop :=
  | same_start c : same_gen row_count k (c, VStart) (c, VStart)
  | same_run c vs i :
      row_count <= Z.of_nat (length vs) →
      same_gen row_count k (c, VRun (list_repeat (Z.to_nat k) vs) i)
        (c, VRun (list_repeat (Z.to_nat 1) vs) i)
  | same_done c : same_gen row_count k (c, VDone) (c, VDone).

Lemma base_values_length c row_count ref :
  returns (base_values (R:=R) (W:=W) c row_count ref) (λ vs, row_count <= Z.of_nat (length vs)).
Proof.
  unfold base_values. eapply (returns_bind _ _ (λ l, row_count - 3 <= Z.of_nat (length l))).
  - destruct (Z.ltb_spec 3 row_count); [|apply returns_ret; simpl; lia].
    eapply returns_mono; [apply mapM_length|]. intros l ->. rewrite length_seq. lia.
  - intros l Hl. apply returns_ret. simpl. lia.
Qed.

Definition same_step (row_count k : Z) c (v w : string * values_gen) : Prop :=
  v.1 = w.1 ∧ same_gen row_count k (c, v.2) (c, w.2).

Lemma yield_from_sim row_count k vs i c :
  1 <= k → row_count <= Z.of_nat (length vs) →
  sim (same_step row_count k c)
    (yield_from (R:=R) (W:=W) row_count (list_repeat (Z.to_nat k) vs) i)
    (yield_from row_count (list_repeat (Z.to_nat 1) vs) i).
Proof.
  intros Hk Hl. unfold yield_from. destruct (Z.ltb_spec (Z.of_nat i) row_count); [|done].
  rewrite !lookup_list_repeat_first by lia.
  rewrite (lookup_default vs i EmptyString) by lia. apply sim_ret. split; [done|by constructor].
Qed.

Lemma next_row_sim row_count k random_ gs hs :
  1 <= k → Forall2 (same_gen row_count k) gs hs →
  sim (Forall2 (λ v w, v.1 = w.1 ∧ same_gen row_count k v.2 w.2))
    (next_row (R:=R) (W:=W) row_count k random_ gs) (next_row row_count 1 random_ hs).
Proof.
  intros Hk. apply sim_mapM. intros _ _ [c|c vs i Hl|c]; cbn [fst snd next_value].
  - eapply (sim_bind (same_step row_count k c)); [|intros v w [E Hg]; by apply sim_ret].
    eapply (sim_bind (λ a b, a = b ∧ row_count <= Z.of_nat (length a))); [apply sim_refl|].
    + eapply returns_mono; [apply base_values_length|].
      by intros vs Hl.
    + intros vs ? [<- Hl]. by apply yield_from_sim.
  - eapply sim_bind; [by apply yield_from_sim|]. intros v w [E Hg]. by apply sim_ret.
  - done.
Qed.

Lemma make_rows_sim n row_count k random_ gs hs acc :
  1 <= k → Forall2 (same_gen row_count k) gs hs →
  sim eq (make_rows (R:=R) (W:=W) n row_count k random_ gs acc)
    (make_rows n row_count 1 random_ hs acc).
Proof.
  intros Hk. revert gs hs acc. induction n as [|n IH]; intros gs hs acc Hg; cbn [make_rows].
  { by apply sim_ret. }
  eapply sim_bind; [by apply next_row_sim|]. intros row row' Hrow.
  replace row.*1 with row'.*1.
  - apply IH. clear -Hrow. induction Hrow as [|?? ?? [_ ?]]; by constructor.
  - clear -Hrow. induction Hrow as [|?? ?? [E ?] ? IH]; [done|].
    exact (f_equal2 cons (eq_sym E) IH).
Qed.

Lemma row_text_closed row_count cs vss k :
  Forall2 (column_list row_count) cs vss → closed (row_text vss k).
Proof. intros Hf. by apply closed_paren, inner_join, (row_values_closed row_count cs). Qed.
End rows.

(** The statement that [insert_test_data] sends *)
Definition insert_statement (t : Table) (rows : list string) : string :=
  "INSERT INTO " +:+ table_name t +:+ " VALUES " +:+ join "," rows.

(** C17: [insert_test_data] sends one INSERT statement, whatever the node
    answers: the requested number of rows, which a reader of the statement
    splits as they were written, each made of the k-th values of the columns;
    the first three values of a column are its maximum, minimum and zero. *)
Theorem insert_test_data_rows {R W} `{RngLaws R} {N : SqlNode W} (t : Table)
    (row_count cardinality : Z) query_settings random_ (s : tstate R (recorded W)) :
  1 <= cardinality → 1 <= row_count →
  Forall (λ c, sized (datatype_of c) = true) (columns t) →
  ∃ vss rows, Forall2 (column_list row_count) (columns t) vss ∧
    rows = row_text vss <$> seq 0 (Z.to_nat row_count) ∧
    split_top (join "," rows) = rows ∧
    match insert_test_data t row_count cardinality query_settings random_ s with
    | (r, s') =>
        (node s').2 = (node s).2 ++
          [(insert_statement t rows, with_settings (default [] query_settings))] ∧
        match r with Ok (_, values) => values = rows | _ => True end
    end.
Proof.
  intros Hc Hr Hs.
  destruct (make_rows_total (W:=recorded W) row_count cardinality random_ _ Hc Hs s)
    as (rows & s1 & E & vss & Hf & Hrows).
  specialize (Hf Hr). exists vss, rows. split_and!; try done.
  - apply split_top_join; subst rows.
    + destruct (Z.to_nat row_count) eqn:En; [lia|done].
    + apply Forall_fmap, Forall_true. intros k. by eapply row_text_closed.
  - unfold insert_test_data. erewrite M_bind_Ok by exact E.
    unfold mbind, M_bind, on_node. cbv [sql_query recorded_node].
    pose proof (make_rows_same_node (W:=recorded W) (Z.to_nat row_count) row_count cardinality
      random_ ((λ c, (c, VStart)) <$> columns t) [] s) as Hn.
    rewrite E in Hn. unfold same_node in Hn. simpl in Hn. rewrite Hn. by destruct (N _ _ _) as [[?|?|?] ?].
Qed.

(** Every cardinality from one upwards inserts the same data. *)
Lemma cardinality_is_ignored {R W} `{Rng R} {N : SqlNode W} (t : Table)
    (row_count cardinality : Z) query_settings random_ (s : tstate R W) :
  1 <= cardinality →
  insert_test_data t row_count cardinality query_settings random_ s =
  insert_test_data t row_count 1 query_settings random_ s.
Proof.
  intros Hk. unfold insert_test_data. apply sim_eq.
  eapply (sim_bind eq); [|intros values ? <-; apply sim_same].
  apply make_rows_sim; [done|]. apply Forall2_fmap, Forall_Forall2_diag, Forall_true.
  intros c. constructor.
Qed.

(** A cardinality below one inserts nothing: the first row already
    raises IndexError. *)
Theorem no_cardinality_no_rows {R W} `{RngLaws R} {N : SqlNode W} (t : Table)
    (row_count cardinality : Z) query_settings random_ (s : tstate R W) :
  cardinality <= 0 → 1 <= row_count → columns t ≠ [] →
  Forall (λ c, sized (datatype_of c) = true) (columns t) →
  ∃ s', insert_test_data t row_count cardinality query_settings random_ s = (Exc IndexError, s') ∧
    node s' = node s.
Proof.
  intros Hc Hr Hne Hs. destruct (columns t) as [|c cs] eqn:Ec; [done|].
  apply Forall_cons in Hs as [Hd _].
  destruct (base_values_total (W:=W) c row_count (default (random c) random_) Hd s)
    as (vs & s1 & E & _).
  pose proof (next_value_same_node (W:=W) c row_count cardinality random_ VStart s) as Hn.
  assert (E1 : next_value (R:=R) (W:=W) c row_count cardinality random_ VStart s =
    (Exc IndexError, s1)).
  { cbn [next_value]. erewrite M_bind_Ok by exact E.
    replace (Z.to_nat cardinality) with O by lia. unfold yield_from.
    by rewrite (proj2 (Z.ltb_lt _ _)) by lia. }
  rewrite E1 in Hn. exists s1. split; [|exact Hn].
  unfold insert_test_data. rewrite Ec. destruct (Z.to_nat row_count) as [|n] eqn:En; [lia|].
  cbn [make_rows fmap list_fmap]. unfold next_row. cbn [mapM_ fst snd].
  unfold mbind, M_bind. by rewrite E1.
Qed.

(** ** The tables that the steps create *)

Section created_tables.
Context {W A : Type} {N : SqlNode W}.
Implicit Types (body : Table → M (recorded W) A).

(** [create_table] and [attach_table] run the CREATE or ATTACH statement
    first, then the test, and the DROP statement last, whatever the node
    answers and whatever the test does; the table is dropped even
    when its creation failed. *)
Lemma created_table_is_dropped uid engine columns name path drop_sync order_by comment as_select
    empty settings body (s : recorded W) :
  (∀ t, test_body (body t)) →
  let name' := table_name_or uid name in
  let create := (create_statement name' engine columns order_by comment empty as_select,
                 with_settings (create_settings settings)) in
  let attach := (attach_statement name' (default "None" path) engine columns, query0) in
  let drop := (drop_statement name' drop_sync, query0) in
  ∀ first run,
    (first = create ∧ run = create_table uid engine columns name drop_sync order_by comment
                              as_select empty settings body) ∨
    (first = attach ∧ run = attach_table uid engine columns name path drop_sync body) →
    match run s with
    | (Stuck _, _) => True
    | (_, s') => ∃ mid, s'.2 = s.2 ++ first :: mid ++ [drop]
    end.
Proof.
  intros Hb name' create attach drop first run Hrun.
  assert (Hset : ∀ sql a t, tries (sql_query sql a;; mret t : M (recorded W) Table) (sql, a) ∧
    runs (sql_query sql a;; mret t : M (recorded W) Table) [(sql, a)]).
  { intros sql a t. split.
    - eapply tries_bind; [apply tries_query|]. intros ?. apply runs_ret.
    - apply (runs_bind _ _ [_] []); [apply runs_query|]. intros ?. apply runs_ret. }
  assert (∃ setup, run = bracket setup body (run_sql (drop_statement name' drop_sync)) ∧
    tries setup first ∧ runs setup [first]) as (setup & -> & Ha & Hr).
  { destruct Hrun as [[-> ->]|[-> ->]]; eexists; (split; [done|]); apply Hset. }
  pose proof (bracket_runs setup body (run_sql (drop_statement name' drop_sync)) _ _ s Hr Hb
    (runs_run_sql _)) as Hbr.
  destruct (bracket _ _ _ s) as [[v|e|w] s']; [| |done].
  all: destruct Hbr as (d & mid & tail & -> & Hd & Ht & _ & _ & Hx & Hy & _).
  all: specialize (Hx _ (tries_run_sql _)); specialize (Hy _ Ha).
  all: apply prefix_single in Hd as [-> | ->]; [done|].
  all: apply prefix_single in Ht as [-> | ->]; [done|].
  all: by exists mid.
Qed.
End created_tables.

(** ** Classification *)

Lemma numeric_attrs_int d : isinstance_Int d = true → is_numeric_ (attrs d) = true.
Proof. by destruct d as [[]|[]| | | | | | | | | | | | | | | |]. Qed.

(** The types whose values are numbers *)
Definition number (d : datatype) : bool :=
  match d with TInt _ | TUInt _ | TFloat32 | TFloat64 | TDecimal _ _ => true | _ => false end.

(** The classes of numeric types are nested whatever the flags, do not
    look at Nullable and LowCardinality, and with the default flags hold the
    integers and the numbers. *)
Lemma numeric_classes (f : type_flags) (d : datatype) :
  (is_unsigned_integer f d = true → is_integer f d = true) ∧
  (is_integer f d = true → is_numeric f d = true) ∧
  (∀ w, w = TNullable d ∨ w = TLowCardinality d →
     is_numeric f w = is_numeric f d ∧ is_integer f w = is_integer f d ∧
     is_unsigned_integer f w = is_unsigned_integer f d ∧ is_string w = is_string d ∧
     is_map w = is_map d) ∧
  is_numeric numeric_flags d = number (unwrap d) ∧
  is_integer integer_flags d = isinstance_Int (unwrap d).
Proof.
  unfold is_unsigned_integer, is_integer, is_numeric, classify. split_and!.
  - destruct (unwrap d); try done; by repeat case_match.
  - destruct (unwrap d) eqn:E; try done; case_match; try done; intros _;
      by apply numeric_attrs_int.
  - by intros w [-> | ->].
  - destruct (unwrap d) as [[]|[]| | | | | | | | | | | | | | | |] eqn:E; try done.
    all: exfalso; revert E; clear; induction d; simpl; congruence.
  - by destruct (unwrap d).
Qed.

Lemma numeric_classes_witness :
  is_unsigned_integer integer_flags (TNullable (TUInt UInt128)) = true ∧
  is_integer integer_flags (TNullable (TUInt UInt128)) = true.
Proof.
  split; [reflexivity|].
  exact (proj1 (numeric_classes integer_flags (TNullable (TUInt UInt128))) eq_refl).
Defined.

(** ** Generated types *)

(** Types of the server: Nullable and LowCardinality hold scalar types,
    LowCardinality(Nullable) from 22.4 on, and the keys of maps are valid. *)
Definition scalar (d : datatype) : bool :=
  match d with
  | TNullable _ | TLowCardinality _ | TTuple _ | TMap _ _ | TArray _ => false
  | _ => true
  end.
Fixpoint wf_type (before_22_4 : bool) (d : datatype) : bool :=
  match d with
  | TNullable d => scalar d
  | TLowCardinality d =>
      supports_low_cardinality (attrs (unwrap d)) &&
      (scalar d || match d with TNullable d => scalar d && negb before_22_4 | _ => false end)
  | TTuple l => forallb (wf_type before_22_4) l
  | TMap k v => is_valid_map_key (attrs k) && wf_type before_22_4 k && wf_type before_22_4 v
  | TArray d => wf_type before_22_4 d
  | _ => true
  end.

Section well_formed.
Variables (version : option string) (before_22_4 : bool).
Hypothesis Hold : check_clickhouse_version "<22.4" version = Ok before_22_4.
Abbreviation wf := (wf_type before_22_4).

Definition low_card_ok (d : datatype) : bool :=
  supports_low_cardinality (attrs (unwrap d)) && negb (before_22_4 && is_nullable d).

Lemma generate_low_card_filter l :
  generate_low_card_datatypes version l = Ok (TLowCardinality <$> List.filter low_card_ok l).
Proof using All.
  induction l as [|d l IH]; [done|]. cbn [generate_low_card_datatypes]. rewrite IH.
  unfold can_be_low_card, low_card_ok. rewrite Hold. cbn [List.filter].
  destruct (supports_low_cardinality _); [|done]. by destruct before_22_4, (is_nullable d).
Qed.

Lemma scalar_wf d : scalar d = true → wf d = true.
Proof using. by destruct d. Qed.

Lemma low_card_wf l :
  Forall (λ d, scalar d = true) l →
  Forall (λ d, wf d = true) (TLowCardinality <$> List.filter low_card_ok (l ++ (TNullable <$> l))).
Proof using.
  intros Hl. apply Forall_fmap, Forall_forall. intros d [Hd Hok]%list_elem_of_In%filter_In.
  unfold low_card_ok in Hok. apply andb_true_iff in Hok as [Hs Hn]. simpl. rewrite Hs.
  apply list_elem_of_In, elem_of_app in Hd as [Hd|(d' & -> & Hd)%list_elem_of_fmap].
  - rewrite Forall_forall in Hl. by rewrite Hl.
  - rewrite Forall_forall in Hl. simpl in *. rewrite Hl by done. rewrite andb_true_r in Hn.
    by rewrite Hn.
Qed.

Lemma members_wf basic :
  Forall (λ d, scalar d = true) basic →
  ∃ members, member_datatypes version basic = Ok members ∧ Forall (λ d, wf d = true) members.
Proof using All.
  intros Hb. unfold member_datatypes. rewrite generate_low_card_filter. eexists; split; [done|].
  rewrite !Forall_app. split_and!.
  - eapply Forall_impl; [done|]. apply scalar_wf.
  - by apply Forall_fmap.
  - by apply low_card_wf.
  - by repeat constructor.
Qed.

Lemma maps_wf l :
  Forall (λ d, wf d = true) l → Forall (λ d, wf d = true) (generate_map_datatypes l).
Proof using.
  intros Hl. apply Forall_forall. intros d (key & Hd & Hkey)%list_elem_of_bind.
  destruct (is_valid_map_key (attrs key)) eqn:Ev; [|by apply not_elem_of_nil in Hd].
  apply list_elem_of_fmap in Hd as (v & -> & Hv). rewrite Forall_forall in Hl. simpl.
  by rewrite Ev, !Hl.
Qed.

Lemma basic_scalar before_22_8 :
  check_clickhouse_version "<22.8" version = Ok before_22_8 →
  ∃ l, basic_datatypes version = Ok l ∧ Forall (λ d, scalar d = true) l.
Proof using.
  intros H. unfold basic_datatypes, DateTime64. rewrite H. eexists. split; [done|].
  by repeat constructor.
Qed.
End well_formed.

(** C36: The generated column types are types of the server: the generators
    return for every version, and whatever scalar types are included, the
    lists hold only types whose parts may be put together as they are; before
    22.4 no LowCardinality holds a Nullable. *)
Theorem generated_types_well_formed version before_22_4 before_22_8 include :
  check_clickhouse_version "<22.4" version = Ok before_22_4 →
  check_clickhouse_version "<22.8" version = Ok before_22_8 →
  Forall (λ d, scalar d = true) include →
  (∃ l, generate_all_datatypes version include = Ok l ∧
     Forall (λ d, wf_type before_22_4 d = true) l) ∧
  (∃ l, common_datatypes version = Ok l ∧ Forall (λ d, wf_type before_22_4 d = true) l) ∧
  (∃ cs, generate_all_map_column_types version = Ok cs ∧
     Forall (λ c, is_map (datatype_of c) = true ∧ wf_type before_22_4 (datatype_of c) = true) cs).
Proof.
  intros Hold H8 Hi. destruct (basic_scalar _ _ H8) as (basic & Hb & Hs). split_and!.
  - unfold generate_all_datatypes.
    assert (∃ b, (match include with [] => basic_datatypes version | _ => Ok include end : res _)
      = Ok b ∧ Forall (λ d, scalar d = true) b) as (b & -> & Hsb) by (destruct include; eauto).
    cbn [mbind res_bind]. rewrite (generate_low_card_filter _ _ Hold).
    destruct (members_wf _ _ Hold b Hsb) as (members & -> & Hm). eexists; split; [done|].
    rewrite !Forall_app. split_and!.
    + eapply Forall_impl; [done|]. apply scalar_wf.
    + by apply maps_wf.
    + by apply Forall_fmap.
    + by apply Forall_fmap.
    + by apply low_card_wf.
    + constructor; [|done]. simpl. apply forallb_forall. intros d Hd%list_elem_of_In.
      rewrite Forall_forall in Hm. by apply Hm.
  - unfold common_datatypes, low_cardinality_common_basic_datatypes.
    rewrite (generate_low_card_filter _ _ Hold). eexists; split; [done|].
    rewrite !Forall_app. split_and!; [by repeat constructor| |by repeat constructor..].
    destruct before_22_4; by repeat constructor.
  - unfold generate_all_map_column_types. rewrite Hb. cbn [mbind res_bind].
    destruct (members_wf _ _ Hold basic Hs) as (members & -> & Hm). eexists; split; [done|].
    apply Forall_forall. intros c Hc. unfold columns_of in Hc.
    apply elem_of_lookup_imap in Hc as (i & d & -> & Hd%list_elem_of_lookup_2). simpl.
    pose proof (maps_wf _ _ Hm) as Hw. rewrite Forall_forall in Hw. split; [|by apply Hw].
    apply list_elem_of_bind in Hd as (key & Hd & _). case_match; [|by apply not_elem_of_nil in Hd].
    by apply list_elem_of_fmap in Hd as (v & -> & _).
Qed.

(** ** Names of the generated columns *)

Definition name_char (x : Ascii.ascii) : Ascii.ascii :=
  let y := if Ascii.eqb x "(" then "_"%char else x in
  let y := if Ascii.eqb y ")" then "_"%char else y in
  lower_char (if Ascii.eqb y "," then "_"%char else y).
Definition column_text (s : string) : string := str_map name_char s.

Lemma default_name_text d : default_name d = column_text (type_name d).
Proof.
  unfold default_name. rewrite !replace_char. unfold lower. by rewrite !str_map_map.
Qed.

(** The text before the first underscore *)
Fixpoint head_word (s : string) : string :=
  match s with
  | EmptyString => EmptyString
  | String c s => if Ascii.eqb c "_" then EmptyString else String c (head_word s)
  end.
Definition wrapped (word inside : string) : string := word +:+ inside +:+ "_".
Abbreviation text d := (column_text (type_name d)).

Lemma column_text_app s t : column_text (s +:+ t) = column_text s +:+ column_text t.
Proof. apply str_map_app. Qed.

Lemma text_map k v : text (TMap k v) = wrapped "map_" (text k +:+ "_" +:+ text v).
Proof.
  change (type_name (TMap k v)) with ("Map(" +:+ type_name k +:+ "," +:+ type_name v +:+ ")").
  rewrite !column_text_app. unfold wrapped. by rewrite !str_app_assoc.
Qed.
Lemma text_array d : text (TArray d) = wrapped "array_" (text d).
Proof.
  change (type_name (TArray d)) with ("Array(" +:+ type_name d +:+ ")").
  by rewrite !column_text_app.
Qed.
Lemma text_nullable d : text (TNullable d) = wrapped "nullable_" (text d).
Proof.
  change (type_name (TNullable d)) with ("Nullable(" +:+ type_name d +:+ ")").
  by rewrite !column_text_app.
Qed.
Lemma text_low_card d : text (TLowCardinality d) = wrapped "lowcardinality_" (text d).
Proof.
  change (type_name (TLowCardinality d)) with ("LowCardinality(" +:+ type_name d +:+ ")").
  by rewrite !column_text_app.
Qed.
Lemma text_tuple l :
  text (TTuple l) = wrapped "tuple_" (column_text (join "," ((λ d, name (attrs d)) <$> l))).
Proof.
  change (type_name (TTuple l)) with ("Tuple(" +:+ join "," ((λ d, name (attrs d)) <$> l) +:+ ")").
  by rewrite !column_text_app.
Qed.

Lemma wrapped_inj word s t : wrapped word s = wrapped word t → s = t.
Proof. intros E%str_app_inv_l. by apply str_app_inv_r in E. Qed.

Lemma NoDup_wrapped {A} word (f : A → string) (g : A → A) l :
  (∀ x, f (g x) = wrapped word (f x)) → NoDup (f <$> l) → NoDup (f <$> (g <$> l)).
Proof.
  intros Hg Hl. rewrite <-list_fmap_compose.
  rewrite (list_fmap_ext _ (wrapped word ∘ f)) by (intros i x _; apply Hg).
  rewrite list_fmap_compose. apply NoDup_fmap_2_strong; [|done].
  intros s t _ _. apply wrapped_inj.
Qed.

(** No key, with the underscore that ends it, starts another. *)
Definition prefix_free (l : list string) : bool :=
  forallb (λ a, forallb (λ b, negb (String.prefix (a +:+ "_") (b +:+ "_")) || String.eqb a b) l) l.
Definition keys (l : list datatype) : list datatype :=
  List.filter (λ d, is_valid_map_key (attrs d)) l.

Lemma prefix_free_split l a b x y :
  prefix_free l = true → a ∈ l → b ∈ l → a +:+ "_" +:+ x = b +:+ "_" +:+ y → a = b ∧ x = y.
Proof.
  intros Hp Ha Hb E. unfold prefix_free in Hp. rewrite forallb_forall in Hp.
  assert (Hab : ∀ a b, a ∈ l → b ∈ l → String.prefix (a +:+ "_") (b +:+ "_") = true → a = b).
  { intros c d Hc Hd Hpre. specialize (Hp c (proj1 (list_elem_of_In _ _) Hc)).
    rewrite forallb_forall in Hp. specialize (Hp d (proj1 (list_elem_of_In _ _) Hd)).
    rewrite Hpre in Hp. by apply String.eqb_eq. }
  rewrite <-!(str_app_assoc _ "_") in E.
  destruct (str_app_prefix _ _ _ _ E) as [Hpre|Hpre].
  - pose proof (Hab a b Ha Hb Hpre) as ->. by apply str_app_inv_l in E.
  - pose proof (Hab b a Hb Ha Hpre) as ->. by apply str_app_inv_l in E.
Qed.

Lemma map_names_NoDup l :
  NoDup ((λ d, text d) <$> l) → prefix_free ((λ d, text d) <$> keys l) = true →
  NoDup ((λ d, text d) <$> generate_map_datatypes l).
Proof.
  intros Hl Hp.
  assert (Hinj : ∀ c d, c ∈ l → d ∈ l → text c = text d → c = d).
  { intros c d [i Hi]%list_elem_of_lookup [j Hj]%list_elem_of_lookup E.
    assert (i = j) as ->; [|congruence].
    eapply NoDup_lookup; [exact Hl| |]; rewrite list_lookup_fmap, ?Hi, ?Hj; simpl; [done|].
    by rewrite E. }
  assert (Hk : ∀ k, k ∈ l → is_valid_map_key (attrs k) = true →
    text k ∈ (λ d, text d) <$> keys l).
  { intros k Hk Hv. apply list_elem_of_fmap. exists k. split; [done|].
    by apply list_elem_of_In, filter_In; rewrite <-list_elem_of_In. }
  apply NoDup_fmap_2_strong.
  - intros c d (k & Hc & Hk1)%list_elem_of_bind (k' & Hd & Hk2)%list_elem_of_bind E.
    destruct (is_valid_map_key (attrs k)) eqn:Ek; [|by apply not_elem_of_nil in Hc].
    destruct (is_valid_map_key (attrs k')) eqn:Ek'; [|by apply not_elem_of_nil in Hd].
    apply list_elem_of_fmap in Hc as (v & -> & Hv), Hd as (v' & -> & Hv').
    rewrite !text_map in E. apply wrapped_inj in E.
    apply (prefix_free_split _ _ _ _ _ Hp) in E as [E1 E2]; auto.
    apply Hinj in E1 as ->; [|done..]. by apply Hinj in E2 as ->.
  - apply NoDup_fmap_1 in Hl as Hl'. unfold generate_map_datatypes.
    apply NoDup_bind; [| |done].
    + intros k k' d _ _ Hc Hd.
      destruct (is_valid_map_key (attrs k)); [|by apply not_elem_of_nil in Hc].
      destruct (is_valid_map_key (attrs k')); [|by apply not_elem_of_nil in Hd].
      apply list_elem_of_fmap in Hc as (v & -> & _), Hd as (v' & E & _). congruence.
    + intros k _. destruct (is_valid_map_key _); [|constructor].
      apply NoDup_fmap_2_strong; [congruence|done].
Qed.

Lemma members_names_distinct version before_22_4 before_22_8 :
  check_clickhouse_version "<22.4" version = Ok before_22_4 →
  check_clickhouse_version "<22.8" version = Ok before_22_8 →
  ∃ basic lc members, basic_datatypes version = Ok basic ∧
    generate_low_card_datatypes version (basic ++ (TNullable <$> basic)) = Ok (TLowCardinality <$> lc) ∧
    member_datatypes version basic = Ok members ∧
    NoDup ((λ d, text d) <$> members) ∧
    prefix_free ((λ d, text d) <$> keys members) = true ∧
    NoDup ((λ d, text d) <$> lc) ∧ NoDup ((λ d, text d) <$> basic) ∧
    forallb (λ d, negb (existsb (String.eqb (head_word (text d)))
      ["map"; "array"; "nullable"; "lowcardinality"; "tuple"])) basic = true.
Proof.
  intros Hold H8. unfold basic_datatypes, DateTime64. rewrite H8. cbn [mbind res_bind].
  eexists _, _, _. split; [done|]. split; [by apply generate_low_card_filter|].
  split; [unfold member_datatypes; by rewrite (generate_low_card_filter _ _ Hold)|].
  destruct before_22_4, before_22_8.
  all: split; [apply nodup_str_spec; by_compute|]; split; [by_compute|].
  all: split; [apply nodup_str_spec; by_compute|]; split; [apply nodup_str_spec; by_compute|].
  all: by_compute.
Qed.

(** The names of [l] start with the words [ws]. *)
Definition headed (ws : list string) (l : list datatype) : Prop :=
  Forall (λ d, head_word (text d) ∈ ws) l.

Lemma headed_mono ws ws' l : headed ws l → ws ⊆ ws' → headed ws' l.
Proof. intros H Hs. eapply Forall_impl; [exact H|]. intros d Hd. by apply Hs. Qed.
Lemma headed_app ws ws' l k : headed ws l → headed ws' k → headed (ws ++ ws') (l ++ k).
Proof. intros Hl Hk. apply Forall_app; split; (eapply headed_mono; [done|set_solver]). Qed.
Lemma headed_fmap (f : datatype → datatype) word l :
  (∀ x, head_word (text (f x)) = word) → headed [word] (f <$> l).
Proof. intros H. apply Forall_fmap, Forall_true. intros x. simpl. rewrite H. set_solver. Qed.
Lemma headed_map l : headed ["map"] (generate_map_datatypes l).
Proof.
  apply Forall_forall. intros d (k & Hd & _)%list_elem_of_bind.
  destruct (is_valid_map_key _); [|by apply not_elem_of_nil in Hd].
  apply list_elem_of_fmap in Hd as (v & -> & _). rewrite text_map. simpl. set_solver.
Qed.

Lemma names_app ws ws' l k :
  headed ws l → headed ws' k → (∀ w, w ∈ ws → w ∉ ws') →
  NoDup ((λ d, text d) <$> l) → NoDup ((λ d, text d) <$> k) →
  NoDup ((λ d, text d) <$> (l ++ k)).
Proof.
  intros Hl Hk Hd Nl Nk. rewrite fmap_app. apply NoDup_app. split_and!; [done| |done].
  intros s (x & -> & Hx)%list_elem_of_fmap (y & E & Hy)%list_elem_of_fmap.
  unfold headed in *. rewrite Forall_forall in Hl, Hk.
  apply (Hd _ (Hl _ Hx)). rewrite E. by apply Hk.
Qed.

Lemma columns_of_names l : col_name <$> columns_of l = (λ d, text d) <$> l.
Proof.
  unfold columns_of. apply list_basics.list.list_eq. intros i. rewrite !list_lookup_fmap, list_lookup_imap.
  destruct (l !! i) as [d|]; [|done]. simpl. by rewrite default_name_text.
Qed.

(** Columns that the suites generate for all types have different names,
    for every version: no two types give the same name once brackets and
    commas are replaced. *)
Lemma generated_names_distinct version before_22_4 before_22_8 :
  check_clickhouse_version "<22.4" version = Ok before_22_4 →
  check_clickhouse_version "<22.8" version = Ok before_22_8 →
  (∃ cs, generate_all_column_types version [] = Ok cs ∧ NoDup (col_name <$> cs)) ∧
  (∃ cs, generate_all_map_column_types version = Ok cs ∧ NoDup (col_name <$> cs)).
Proof.
  intros Hold H8.
  destruct (members_names_distinct _ _ _ Hold H8)
    as (basic & lc & members & Hb & Hlc & Hm & Nm & Hpf & Nlc & Nb & Hheads).
  unfold generate_all_column_types, generate_all_map_column_types, generate_all_datatypes.
  rewrite Hb. cbn [mbind res_bind]. unfold generate_nullable_datatypes.
  rewrite Hlc, Hm. cbn [mbind res_bind fmap res_fmap].
  split; eexists; (split; [done|]); rewrite columns_of_names; [|by apply map_names_NoDup].
  assert (Hbasic : headed ((λ d, head_word (text d)) <$> basic) basic).
  { apply Forall_forall. intros d Hd. apply list_elem_of_fmap. by exists d. }
  assert (Hlow : ∀ l, headed ["lowcardinality"] (TLowCardinality <$> l)).
  { intros l. apply headed_fmap. intros d. by rewrite text_low_card. }
  assert (Harray : ∀ l, headed ["array"] (TArray <$> l)).
  { intros l. apply headed_fmap. intros d. by rewrite text_array. }
  assert (Hnull : ∀ l, headed ["nullable"] (TNullable <$> l)).
  { intros l. apply headed_fmap. intros d. by rewrite text_nullable. }
  assert (Htuple : headed ["tuple"] [TTuple members]).
  { constructor; [|done]. rewrite text_tuple. simpl. set_solver. }
  pose proof (headed_app _ _ _ _ (Hlow lc) Htuple) as H1.
  pose proof (headed_app _ _ _ _ (Harray members) H1) as H2.
  pose proof (headed_app _ _ _ _ (Hnull basic) H2) as H3.
  pose proof (headed_app _ _ _ _ (headed_map members) H3) as H4. simpl in H1, H2, H3, H4.
  apply (names_app _ _ _ _ Hbasic H4); [|done|].
  { intros w (d & -> & Hd%list_elem_of_In)%list_elem_of_fmap Hw.
    rewrite forallb_forall in Hheads. specialize (Hheads _ Hd).
    apply negb_true_iff, not_true_iff_false in Hheads. apply Hheads, existsb_exists.
    eexists. split; [|apply String.eqb_refl]. apply list_elem_of_In. set_solver. }
  apply (names_app _ _ _ _ (headed_map members) H3); [set_solver|by apply map_names_NoDup|].
  apply (names_app _ _ _ _ (Hnull basic) H2); [set_solver|..].
  { by apply (NoDup_wrapped "nullable_"); [intros x; apply text_nullable|]. }
  apply (names_app _ _ _ _ (Harray members) H1); [set_solver|..].
  { by apply (NoDup_wrapped "array_"); [intros x; apply text_array|]. }
  apply (names_app _ _ _ _ (Hlow lc) Htuple); [set_solver|..].
  { by apply (NoDup_wrapped "lowcardinality_"); [intros x; apply text_low_card|]. }
  apply NoDup_singleton.
Qed.

(** ** Witnesses *)

Definition demo_table : Table :=
  mkTable "t" (columns_of [TInt Int8; TTuple [TString; TNullable (TDecimal Decimal32 4)]]) "Memory".
Definition demo_start {S} (s : S) : tstate unit S := mkT (λ _, tt) tt s.

Lemma insert_test_data_rows_witness :
  Forall (λ c, sized (datatype_of c) = true) (columns demo_table) ∧
  ∃ vss rows, Forall2 (column_list 4) (columns demo_table) vss ∧
    rows = row_text vss <$> seq 0 (Z.to_nat 4) ∧ split_top (join "," rows) = rows.
Proof.
  assert (Hs : Forall (λ c, sized (datatype_of c) = true) (columns demo_table))
    by (repeat constructor).
  split; [exact Hs|].
  destruct (@insert_test_data_rows unit unit low_rng low_rng_laws silent_node demo_table 4 2 None
    None (demo_start (tt, [])) ltac:(done) ltac:(done) Hs) as (vss & rows & H1 & H2 & H3 & _).
  exists vss, rows. done.
Defined.

Lemma cardinality_is_ignored_witness :
  @insert_test_data unit unit low_rng silent_node demo_table 10 7 None None (demo_start tt) =
  @insert_test_data unit unit low_rng silent_node demo_table 10 1 None None (demo_start tt).
Proof. apply (@cardinality_is_ignored unit unit low_rng silent_node). done. Defined.

Lemma no_cardinality_no_rows_witness :
  ∃ s', @insert_test_data unit unit low_rng silent_node demo_table 10 0 None None (demo_start tt) =
    (Exc IndexError, s').
Proof.
  destruct (@no_cardinality_no_rows unit unit low_rng low_rng_laws silent_node demo_table 10 0 None
    None (demo_start tt) ltac:(done) ltac:(done) ltac:(done) ltac:(repeat constructor))
    as (s' & H & _).
  exists s'. exact H.
Defined.

Lemma created_table_is_dropped_witness :
  test_body (mret tt : M (recorded unit) unit) ∧
  ∃ mid, (@create_table (recorded unit) (recorded_node silent_node) unit "1" "Memory" [] None true
            None None None None None (λ _, mret tt) (tt, [])).2.2 =
    [] ++ (create_statement "table_1" "Memory" [] None None None None,
           with_settings (create_settings None)) :: mid ++
    [(drop_statement "table_1" true, query0)].
Proof.
  assert (Hb : test_body (mret tt : M (recorded unit) unit)) by (unfold test_body; apply _).
  split; [exact Hb|].
  exact (@created_table_is_dropped unit unit silent_node "1" "Memory" [] None None true None None
    None None None (λ _, mret tt) (tt, []) (λ _, Hb) _ _ (or_introl (conj eq_refl eq_refl))).
Defined.

Lemma generated_types_well_formed_witness :
  Forall (λ d, scalar d = true) [TUUID; TInt Int8] ∧
  ∃ l, generate_all_datatypes (Some "22.3.1.1") [TUUID; TInt Int8] = Ok l ∧
    Forall (λ d, wf_type true d = true) l.
Proof.
  split; [repeat constructor|].
  exact (proj1 (generated_types_well_formed (Some "22.3.1.1") true true [TUUID; TInt Int8]
    eq_refl eq_refl ltac:(repeat constructor))).
Defined.

Lemma generated_names_distinct_witness :
  ∃ cs, generate_all_column_types (Some "23.3.5.9") [] = Ok cs ∧ NoDup (col_name <$> cs).
Proof.
  exact (proj1 (generated_names_distinct (Some "23.3.5.9") false false eq_refl eq_refl)).
Defined.
