(* ===== verification/Rbac.v ===== *)
(** * Helpers of the RBAC suite

    rbac/helper: the tables of every engine that the privilege tests use, the
    context managers that create tables, users, roles, row policies and
    grants around a test, and the expected errors. *)
From stdpp Require Import gmap.
From Stdlib Require Import Ascii.
From S2P Require Import Prelude PyStr PyDict PyMonad World Cluster Query NodeLog.
Local Open Scope Z_scope.

(** ** [str.format] with named fields

    Fields have no conversion and no format specification. *)
Fixpoint format_go (fields : list (string * string)) (field : option string) (s : string)
    : res string :=
  match field, s with
  | None, EmptyString => Ok EmptyString
  | Some _, EmptyString => Exc (ValueError "expected '}' before end of string")
  | None, String c s' =>
      if Ascii.eqb c "{" then
        match s' with
        | String d s'' =>
            if Ascii.eqb d "{" then String d <$> format_go fields None s''
            else format_go fields (Some EmptyString) s'
        | EmptyString => Exc (ValueError "Single '{' encountered in format string")
        end
      else if Ascii.eqb c "}" then
        match s' with
        | String d s'' =>
            if Ascii.eqb d "}" then String d <$> format_go fields None s''
            else Exc (ValueError "Single '}' encountered in format string")
        | EmptyString => Exc (ValueError "Single '}' encountered in format string")
        end
      else String c <$> format_go fields None s'
  | Some f, String c s' =>
      if Ascii.eqb c "}" then
        v ← or_raise (KeyError f) (dget f fields);
        (λ t, v +:+ t) <$> format_go fields None s'
      else format_go fields (Some (f +:+ String c EmptyString)) s'
  end.
Definition format (fields : list (string * string)) (s : string) : res string :=
  format_go fields None s.

Example format_1 : format [("name", "t1")] "{name} '{{shard}}/{name}'" = Ok "t1 '{shard}/t1'".
Proof. by_compute. Qed.

(** ** Table types *)

Record table_tuple := mkTableType { create_text : string; cluster : option string }.

Definition table_types : dict string table_tuple := [
  ("MergeTree", mkTableType
      ("CREATE TABLE {name} (d DATE, a String, b UInt8, x String, y Int8) ENGINE = MergeTree() " +:+
      "PARTITION BY y ORDER BY (b, d) PRIMARY KEY b") (None));
  ("ReplacingMergeTree", mkTableType
      ("CREATE TABLE {name} (d DATE, a String, b UInt8, x String, y Int8) ENGINE = " +:+
      "ReplacingMergeTree() PARTITION BY y ORDER BY (b, d) PRIMARY KEY b") (None));
  ("SummingMergeTree", mkTableType
      ("CREATE TABLE {name} (d DATE, a String, b UInt8 DEFAULT 1, x String, y Int8) ENGINE = " +:+
      "SummingMergeTree() PARTITION BY y ORDER BY (b, d) PRIMARY KEY b") (None));
  ("AggregatingMergeTree", mkTableType
      ("CREATE TABLE {name} (d DATE, a String, b UInt8, x String, y Int8) ENGINE = " +:+
      "AggregatingMergeTree() PARTITION BY y ORDER BY (b, d) PRIMARY KEY b") (None));
  ("CollapsingMergeTree", mkTableType
      ("CREATE TABLE {name} (d Date, a String, b UInt8, x String, y Int8, sign Int8 DEFAULT 1) " +:+
      "ENGINE = CollapsingMergeTree(sign) PARTITION BY y ORDER BY (b, d) PRIMARY KEY b") (None));
  ("VersionedCollapsingMergeTree", mkTableType
      ("CREATE TABLE {name} (d Date, a String, b UInt8, x String, y Int8, version UInt64, sign " +:+
      "Int8 DEFAULT 1) ENGINE = VersionedCollapsingMergeTree(sign, version) PARTITION BY y " +:+
      "ORDER BY (b, d) PRIMARY KEY b") (None));
  ("GraphiteMergeTree", mkTableType
      ("CREATE TABLE {name} (d Date, a String, b UInt8, x String, y Int8, Path String, Time " +:+
      "DateTime, Value Float64, col UInt64, Timestamp Int64) ENGINE = " +:+
      "GraphiteMergeTree('graphite_rollup_example') PARTITION BY y ORDER BY (b, d) PRIMARY KEY " +:+
      "b") (None));
  ("ReplicatedMergeTree-sharded_cluster", mkTableType
      ("CREATE TABLE {name} ON CLUSTER sharded_cluster (d DATE, a String, b UInt8, x String, y " +:+
      "Int8)         ENGINE = ReplicatedMergeTree('/clickhouse/tables/{{shard}}/{name}', " +:+
      "'{{replica}}') PARTITION BY y ORDER BY (b, d) PRIMARY KEY b") (Some "sharded_cluster"));
  ("ReplicatedMergeTree-one_shard_cluster", mkTableType
      ("CREATE TABLE {name} ON CLUSTER one_shard_cluster (d DATE, a String, b UInt8, x String, " +:+
      "y Int8)         ENGINE = ReplicatedMergeTree('/clickhouse/tables/{{shard}}/{name}', " +:+
      "'{{replica}}') PARTITION BY y ORDER BY (b, d) PRIMARY KEY b") (Some "one_shard_cluster"));
  ("ReplicatedReplacingMergeTree-sharded_cluster", mkTableType
      ("CREATE TABLE {name} ON CLUSTER sharded_cluster (d DATE, a String, b UInt8, x String, y " +:+
      "Int8)         ENGINE = " +:+
      "ReplicatedReplacingMergeTree('/clickhouse/tables/{{shard}}/{name}', '{{replica}}') " +:+
      "PARTITION BY y ORDER BY (b, d) PRIMARY KEY b") (Some "sharded_cluster"));
  ("ReplicatedReplacingMergeTree-one_shard_cluster", mkTableType
      ("CREATE TABLE {name} ON CLUSTER one_shard_cluster (d DATE, a String, b UInt8, x String, " +:+
      "y Int8)         ENGINE = " +:+
      "ReplicatedReplacingMergeTree('/clickhouse/tables/{{shard}}/{name}', '{{replica}}') " +:+
      "PARTITION BY y ORDER BY (b, d) PRIMARY KEY b") (Some "one_shard_cluster"));
  ("ReplicatedSummingMergeTree-sharded_cluster", mkTableType
      ("CREATE TABLE {name} ON CLUSTER sharded_cluster (d DATE, a String, b UInt8 DEFAULT 1, x " +:+
      "String, y Int8)         ENGINE = " +:+
      "ReplicatedSummingMergeTree('/clickhouse/tables/{{shard}}/{name}', '{{replica}}') " +:+
      "PARTITION BY y ORDER BY (b, d) PRIMARY KEY b") (Some "sharded_cluster"));
  ("ReplicatedSummingMergeTree-one_shard_cluster", mkTableType
      ("CREATE TABLE {name} ON CLUSTER one_shard_cluster (d DATE, a String, b UInt8 DEFAULT 1, " +:+
      "x String, y Int8)         ENGINE = " +:+
      "ReplicatedSummingMergeTree('/clickhouse/tables/{{shard}}/{name}', '{{replica}}') " +:+
      "PARTITION BY y ORDER BY (b, d) PRIMARY KEY b") (Some "one_shard_cluster"));
  ("ReplicatedAggregatingMergeTree-sharded_cluster", mkTableType
      ("CREATE TABLE {name} ON CLUSTER sharded_cluster (d DATE, a String, b UInt8, x String, y " +:+
      "Int8)         ENGINE = " +:+
      "ReplicatedAggregatingMergeTree('/clickhouse/tables/{{shard}}/{name}', '{{replica}}') " +:+
      "PARTITION BY y ORDER BY (b, d) PRIMARY KEY b") (Some "sharded_cluster"));
  ("ReplicatedAggregatingMergeTree-one_shard_cluster", mkTableType
      ("CREATE TABLE {name} ON CLUSTER one_shard_cluster (d DATE, a String, b UInt8, x String, " +:+
      "y Int8)         ENGINE = " +:+
      "ReplicatedAggregatingMergeTree('/clickhouse/tables/{{shard}}/{name}', '{{replica}}') " +:+
      "PARTITION BY y ORDER BY (b, d) PRIMARY KEY b") (Some "one_shard_cluster"));
  ("ReplicatedCollapsingMergeTree-sharded_cluster", mkTableType
      ("CREATE TABLE {name} ON CLUSTER sharded_cluster (d Date, a String, b UInt8, x String, y " +:+
      "Int8, sign Int8 DEFAULT 1)         ENGINE = " +:+
      "ReplicatedCollapsingMergeTree('/clickhouse/tables/{{shard}}/{name}', '{{replica}}', " +:+
      "sign) PARTITION BY y ORDER BY (b, d) PRIMARY KEY b") (Some "sharded_cluster"));
  ("ReplicatedCollapsingMergeTree-one_shard_cluster", mkTableType
      ("CREATE TABLE {name} ON CLUSTER one_shard_cluster (d Date, a String, b UInt8, x String, " +:+
      "y Int8, sign Int8 DEFAULT 1)         ENGINE = " +:+
      "ReplicatedCollapsingMergeTree('/clickhouse/tables/{{shard}}/{name}', '{{replica}}', " +:+
      "sign) PARTITION BY y ORDER BY (b, d) PRIMARY KEY b") (Some "one_shard_cluster"));
  ("ReplicatedVersionedCollapsingMergeTree-sharded_cluster", mkTableType
      ("CREATE TABLE {name} ON CLUSTER sharded_cluster (d Date, a String, b UInt8, x String, y " +:+
      "Int8, version UInt64, sign Int8 DEFAULT 1)         ENGINE = " +:+
      "ReplicatedVersionedCollapsingMergeTree('/clickhouse/tables/{{shard}}/{name}', " +:+
      "'{{replica}}', sign, version) PARTITION BY y ORDER BY (b, d) PRIMARY KEY b") (Some "sharded_cluster"));
  ("ReplicatedVersionedCollapsingMergeTree-one_shard_cluster", mkTableType
      ("CREATE TABLE {name} ON CLUSTER one_shard_cluster (d Date, a String, b UInt8, x String, " +:+
      "y Int8, version UInt64, sign Int8 DEFAULT 1)         ENGINE = " +:+
      "ReplicatedVersionedCollapsingMergeTree('/clickhouse/tables/{{shard}}/{name}', " +:+
      "'{{replica}}', sign, version) PARTITION BY y ORDER BY (b, d) PRIMARY KEY b") (Some "one_shard_cluster"));
  ("ReplicatedGraphiteMergeTree-sharded_cluster", mkTableType
      ("CREATE TABLE {name} ON CLUSTER sharded_cluster (d Date, a String, b UInt8, x String, y " +:+
      "Int8, Path String, Time DateTime, Value Float64, col UInt64, Timestamp Int64)         " +:+
      "ENGINE = ReplicatedGraphiteMergeTree('/clickhouse/tables/{{shard}}/{name}', " +:+
      "'{{replica}}', 'graphite_rollup_example') PARTITION BY y ORDER BY (b, d) PRIMARY KEY b") (Some "sharded_cluster"));
  ("ReplicatedGraphiteMergeTree-one_shard_cluster", mkTableType
      ("CREATE TABLE {name} ON CLUSTER one_shard_cluster (d Date, a String, b UInt8, x String, " +:+
      "y Int8, Path String, Time DateTime, Value Float64, col UInt64, Timestamp Int64)         " +:+
      "ENGINE = ReplicatedGraphiteMergeTree('/clickhouse/tables/{{shard}}/{name}', " +:+
      "'{{replica}}', 'graphite_rollup_example') PARTITION BY y ORDER BY (b, d) PRIMARY KEY b") (Some "one_shard_cluster"))
].

(** ** Context managers

    Each is a [bracket] around the rest of the test. *)

(** [permutations(table_count)] *)
Definition permutations (table_count : Z) : res (list Z) :=
  if table_count <? 0 then Exc (ValueError "negative shift count")
  else Ok (seqZ 0 (Z.shiftl 1 table_count - 1)).

(** The masks of the tables *)
Definition tables : dict string Z := [
  ("table0", Z.shiftl 1 0); ("table1", Z.shiftl 1 1); ("table2", Z.shiftl 1 2);
  ("table3", Z.shiftl 1 3); ("table4", Z.shiftl 1 4); ("table5", Z.shiftl 1 5);
  ("table6", Z.shiftl 1 6); ("table7", Z.shiftl 1 7)].

Section brackets.
Context {S A : Type} `{SqlNode S}.
Implicit Types (body : M S A).

Definition create_test_table (ty : table_tuple) (name : string) : M S unit :=
  run_sql ("DROP TABLE IF EXISTS " +:+ name);;
  stmt ← lift (format [("name", name)] (create_text ty));
  run_sql stmt.

Definition drop_test_table (ty : table_tuple) (name : string) : string :=
  match cluster ty with
  | Some c => "DROP TABLE IF EXISTS " +:+ name +:+ " ON CLUSTER " +:+ c
  | None => "DROP TABLE IF EXISTS " +:+ name
  end.

(** [with table(node, name, table_type_name)] *)
Definition table (name table_type_name : string) body : M S A :=
  ty ← lift (or_raise (KeyError table_type_name) (dget table_type_name table_types));
  let names := split "," name in
  bracket (for_ names (create_test_table ty)) (λ _, body)
    (for_ names (λ name, run_sql (drop_test_table ty name))).

(** [with user(node, name)] *)
Definition user (name : string) body : M S A :=
  let names := split "," name in
  bracket (for_ names (λ name, run_sql ("CREATE USER OR REPLACE " +:+ name))) (λ _, body)
    (for_ names (λ name, run_sql ("DROP USER IF EXISTS " +:+ name))).

(** [with role(node, role)] *)
Definition role (role : string) body : M S A :=
  let roles := split "," role in
  bracket (for_ roles (λ role, run_sql ("CREATE ROLE OR REPLACE " +:+ role))) (λ _, body)
    (for_ roles (λ role, run_sql ("DROP ROLE IF EXISTS " +:+ role))).

(** [row_policy(name, table)] *)
Definition row_policy (name table : string) body : M S A :=
  bracket (run_sql ("CREATE ROW POLICY " +:+ name +:+ " ON " +:+ table)) (λ _, body)
    (run_sql ("DROP ROW POLICY IF EXISTS " +:+ name +:+ " ON " +:+ table)).

Definition grant_statement (target_name table : string) : string :=
  "GRANT SELECT ON " +:+ table +:+ " TO " +:+ target_name.
Definition revoke_statement (target_name table : string) : string :=
  "REVOKE SELECT ON " +:+ table +:+ " FROM " +:+ target_name.

(** The loop that grants the tables from the [i]-th on *)
Fixpoint grant_tables (grants : Z) (target_name : string) (i : nat) (table_names : list string)
    (tables_granted : list string) : M S (list string) :=
  match table_names with
  | [] => mret tables_granted
  | t :: table_names =>
      let key := "table" +:+ str_Z (Z.of_nat i) in
      mask ← lift (or_raise (KeyError key) (dget key tables));
      if negb (Z.land grants mask =? 0) then
        run_sql (grant_statement target_name t);;
        grant_tables grants target_name (i + 1) table_names (tables_granted ++ [t])
      else grant_tables grants target_name (i + 1) table_names tables_granted
  end.

(** [with grant_select_on_table(node, grants, target_name, *table_names)] *)
Definition grant_select_on_table (grants : Z) (target_name : string) (table_names : list string)
    (body : string → M S A) : M S A :=
  bracket
    (granted ← grant_tables grants target_name 0 table_names [];
     mret (join ", " granted))
    body
    (for_ table_names (λ t, run_sql (revoke_statement target_name t))).
End brackets.

(** ** Expected errors *)

(** [(exitcode, template.format(fields))] *)
Definition expected_pair (exitcode : Z) (fields : list (string * string)) (template : string)
    : res (Z * string) :=
  (λ m, (exitcode, m)) <$> format fields template.

Definition not_found : string := "Exception: There is no {type} `{name}`".
Definition not_found_error (exitcode : Z) (type name : string) : res (Z * string) :=
  expected_pair exitcode [("type", type); ("name", name)] not_found.
Definition user_not_found_in_disk := not_found_error 192 "user".
Definition role_not_found_in_disk := not_found_error 255 "role".
Definition settings_profile_not_found_in_disk := not_found_error 180 "settings profile".
Definition quota_not_found_in_disk := not_found_error 199 "quota".
Definition row_policy_not_found_in_disk := not_found_error 11 "row policy".
Definition table_does_not_exist (name : string) : res (Z * string) :=
  expected_pair 60 [("name", name)] "Exception: Table {name} doesn't exist".

Definition cannot_rename : string :=
  "Exception: {type} `{name}`: cannot rename to `{name_new}` because {type} `{name_new}` already exists".
Definition cannot_rename_exitcode : Z := 237.
Definition cannot_rename_error (type name name_new : string) : res (Z * string) :=
  expected_pair cannot_rename_exitcode [("type", type); ("name", name); ("name_new", name_new)]
    cannot_rename.
Definition cannot_rename_user := cannot_rename_error "user".
Definition cannot_rename_role := cannot_rename_error "role".
Definition cannot_rename_settings_profile := cannot_rename_error "settings profile".
Definition cannot_rename_quota := cannot_rename_error "quota".
Definition cannot_rename_row_policy := cannot_rename_error "row policy".

Definition cannot_insert : string :=
  "Exception: {type} `{name}`: cannot insert because {type} `{name}` already exists".
Definition cannot_insert_exitcode : Z := 237.
Definition cannot_insert_error (type name : string) : res (Z * string) :=
  expected_pair cannot_insert_exitcode [("type", type); ("name", name)] cannot_insert.
Definition cannot_insert_user := cannot_insert_error "user".
Definition cannot_insert_role := cannot_insert_error "role".
Definition cannot_insert_settings_profile := cannot_insert_error "settings profile".
Definition cannot_insert_quota := cannot_insert_error "quota".
Definition cannot_insert_row_policy := cannot_insert_error "row policy".

Definition cannot_remove_default : string :=
  "Exception: Cannot remove {type} `default` from users.xml because this storage is readonly".
Definition cannot_remove_default_exitcode : Z := 239.
Definition cannot_update_default : Z * string :=
  (cannot_remove_default_exitcode,
   "Exception: Cannot update user `default` in users.xml because this storage is readonly").
Definition cannot_remove_default_error (type : string) : res (Z * string) :=
  expected_pair cannot_remove_default_exitcode [("type", type)] cannot_remove_default.
Definition cannot_remove_user_default := cannot_remove_default_error "user".
Definition cannot_remove_settings_profile_default := cannot_remove_default_error "settings profile".
Definition cannot_remove_quota_default := cannot_remove_default_error "quota".

Definition unknown_setting (setting : string) : Z * string :=
  (115, "Exception: Unknown setting " +:+ setting +:+ ".").
Definition cluster_not_found (cluster : string) : Z * string :=
  (170, "Exception: Requested cluster '" +:+ cluster +:+ "' not found.").
Definition not_enough_privileges (name : string) : Z * string :=
  (241, "Exception: " +:+ name +:+ ": Not enough privileges.").
Definition cannot_parse_string_as_float (string_ : string) : Z * string :=
  (6, "Exception: Cannot parse string '" +:+ string_ +:+ "' as Float64").
Definition missing_columns (name : string) : Z * string :=
  (47, "Exception: Missing columns: '" +:+ name +:+ "' while processing query").

Definition wrong_name : string := "Exception: Wrong {type} name. Cannot find {type} `{name}` to drop".
Definition wrong_name_error (exitcode : Z) (type name : string) : res (Z * string) :=
  expected_pair exitcode [("type", type); ("name", name)] wrong_name.
Definition wrong_column_name := wrong_name_error 10 "column".
Definition wrong_index_name := wrong_name_error 36 "index".
Definition wrong_constraint_name := wrong_name_error 36 "constraint".

Definition cannot_add : string :=
  "Exception: Cannot add index {name}: index with this name already exists".
Definition cannot_add_exitcode : Z := 44.
Definition cannot_add_index (name : string) : res (Z * string) :=
  expected_pair cannot_add_exitcode [("name", name)] cannot_add.
Definition cannot_add_constraint (name : string) : res (Z * string) :=
  expected_pair cannot_add_exitcode [("name", name)] cannot_add.

Example error_1 : cannot_rename_user "u0" "u1" = Ok (237,
  "Exception: user `u0`: cannot rename to `u1` because user `u1` already exists").
Proof. by_compute. Qed.

(** ** Grants *)

(** The tables whose bit of the mask is set, the first one at bit [i] *)
Fixpoint selected (grants : Z) (i : nat) (table_names : list string) : list string :=
  match table_names with
  | [] => []
  | t :: l =>
      if Z.testbit grants (Z.of_nat i) then t :: selected grants (i + 1) l
      else selected grants (i + 1) l
  end.

Lemma table_mask (i : nat) :
  dget ("table" +:+ str_Z (Z.of_nat i)) tables =
  if (i <? 8)%nat then Some (Z.shiftl 1 (Z.of_nat i)) else None.
Proof.
  destruct (Nat.ltb_spec i 8) as [Hi|Hi].
  - do 8 (destruct i as [|i]; [done|]). lia.
  - apply dget_None. change (dkeys tables) with
      ((λ n, "table" +:+ str_Z n) <$> [0; 1; 2; 3; 4; 5; 6; 7]).
    intros (n & E & Hn)%list_elem_of_fmap. apply str_app_inv_l in E.
    apply (f_equal py_int) in E. rewrite py_int_str_Z in E by lia.
    assert (0 <= n < 8) by (clear -Hn; set_unfold; lia).
    rewrite py_int_str_Z in E by lia. injection E. lia.
Qed.

Lemma mask_testbit grants i :
  0 <= i → negb (Z.land grants (Z.shiftl 1 i) =? 0) = Z.testbit grants i.
Proof.
  intros Hi. rewrite Z.shiftl_1_l. destruct (Z.testbit grants i) eqn:Hb.
  - apply negb_true_iff, Z.eqb_neq. intros E. apply (f_equal (λ z, Z.testbit z i)) in E.
    rewrite Z.land_spec, Hb, Z.pow2_bits_true, Z.bits_0 in E by done. done.
  - apply negb_false_iff, Z.eqb_eq. apply Z.bits_inj. intros j.
    rewrite Z.land_spec, Z.bits_0, Z.pow2_bits_eqb by done.
    destruct (Z.eqb_spec i j) as [<-|]; [by rewrite Hb|by rewrite andb_false_r].
Qed.

Section grants.
Context {S A : Type} {N : SqlNode S}.
Implicit Types (s : recorded S).
Abbreviation grants_of target l := ((λ t, (grant_statement target t, query0)) <$> l).

Lemma grant_tables_step grants target i t l acc :
  (i < 8)%nat →
  grant_tables (S:=recorded S) grants target i (t :: l) acc =
  lift (Ok (Z.shiftl 1 (Z.of_nat i))) ≫= λ _,
    if Z.testbit grants (Z.of_nat i) then
      run_sql (grant_statement target t);; grant_tables grants target (i + 1) l (acc ++ [t])
    else grant_tables grants target (i + 1) l acc.
Proof.
  intros Hi. cbn [grant_tables]. rewrite table_mask.
  rewrite (proj2 (Nat.ltb_lt _ _)) by done. cbn [or_raise].
  unfold mbind, M_bind, lift. by rewrite mask_testbit by lia.
Qed.

Lemma grant_tables_runs grants target i l acc :
  (i + length l <= 8)%nat →
  runs (grant_tables (S:=recorded S) grants target i l acc) (grants_of target (selected grants i l)).
Proof.
  revert i acc. induction l as [|t l IH]; intros i acc Hi; [apply runs_ret|].
  simpl in Hi. rewrite grant_tables_step by lia. apply (runs_bind _ _ []); [apply runs_lift|].
  intros _. cbn [selected]. destruct (Z.testbit grants _); [|apply IH; lia].
  apply (runs_bind _ _ [_]); [apply runs_run_sql|]. intros _. apply IH. lia.
Qed.

Lemma grant_tables_returns grants target i l acc :
  (i + length l <= 8)%nat →
  returns (grant_tables (S:=recorded S) grants target i l acc) (λ g, g = acc ++ selected grants i l).
Proof.
  revert i acc. induction l as [|t l IH]; intros i acc Hi.
  { apply returns_ret. by rewrite app_nil_r. }
  simpl in Hi. rewrite grant_tables_step by lia.
  eapply (returns_bind _ _ (λ _, True)); [done|]. intros _ _. cbn [selected].
  destruct (Z.testbit grants _); [|apply IH; lia].
  eapply (returns_bind _ _ (λ _, True)).
  - intros s. by destruct (run_sql _ s) as [[]].
  - intros _ _. eapply returns_mono; [apply IH; lia|]. intros g ->. by rewrite <-app_assoc.
Qed.

(** [grant_select_on_table] grants the tables whose bit of the mask is
    set, hands their names to the test, and then revokes every table, granted
    or not: the log is the GRANT statements of the selected tables in order,
    what the test adds, and the REVOKE statements of all tables; a failed
    GRANT skips the rest of the set-up and the test, but no REVOKE unless a
    REVOKE fails itself. *)
Lemma grant_select_on_table_log grants target (table_names : list string)
    (body : string → M (recorded S) A) s :
  (length table_names <= 8)%nat → (∀ text, test_body (body text)) →
  let text := join ", " (selected grants 0 table_names) in
  let run := grant_select_on_table grants target table_names in
  run body s = run (λ _, body text) s ∧
  match run body s with
  | (Stuck _, _) => True
  | (r, s') => ∃ done mid tail, s'.2 = s.2 ++ done ++ mid ++ tail ∧
      prefix done (grants_of target (selected grants 0 table_names)) ∧
      prefix tail ((λ t, (revoke_statement target t, query0)) <$> table_names) ∧
      (is_ok r = true → length done = length (selected grants 0 table_names) ∧
                        length tail = length table_names) ∧
      (length done ≠ length (selected grants 0 table_names) → mid = []) ∧
      (table_names ≠ [] → tail ≠ []) ∧
      ((∀ t s, is_ok (run_sql (revoke_statement target t) s).1 = true) →
       length tail = length table_names)
  end.
Proof.
  intros Hl Hb text run. split.
  - unfold run, grant_select_on_table, bracket, try_finally. rewrite (returns_bind_eq _ _ text); [done|].
    eapply returns_bind; [by apply grant_tables_returns|]. intros g ->. by apply returns_ret.
  - unfold run, grant_select_on_table.
    assert (Hset : runs (granted ← grant_tables (S:=recorded S) grants target 0 table_names [];
        mret (join ", " granted)) (grants_of target (selected grants 0 table_names))).
    { rewrite <-(app_nil_r (fmap _ _)). apply runs_bind; [by apply grant_tables_runs|].
      intros g. apply runs_ret. }
    pose proof (runs_for table_names (λ t, run_sql (S:=recorded S) (revoke_statement target t)) _
      (λ t, runs_run_sql (revoke_statement target t))) as Hclean.
    rewrite list_bind_singleton in Hclean.
    pose proof (bracket_runs _ body _ _ _ s Hset Hb Hclean) as Hbr.
    destruct (bracket _ _ _ s) as [[v|e|w] s']; [| |done].
    all: destruct Hbr as (d & mid & tail & E & Hd & Ht & Hok & Hm & Hx & _ & Hall).
    all: exists d, mid, tail; split_and!; try done.
    all: try (intros Hr; destruct (Hok Hr) as [-> ->]; by rewrite !length_fmap).
    all: try (intros Hne; apply Hm; intros ->; by rewrite length_fmap in Hne).
    all: try (intros Hacc; rewrite Hall by (by apply for_ok); by rewrite length_fmap).
    all: intros Hne ->; destruct table_names as [|t l]; [done|].
    all: specialize (Hx (revoke_statement target t, query0)); discriminate Hx.
    all: cbn [for_]; eapply tries_bind; [apply tries_run_sql|]; intros ?.
    all: apply (runs_for _ _ (λ t, [(revoke_statement target t, query0)])); intros x; apply runs_run_sql.
Qed.
End grants.

Lemma grant_tables_overflow {S} {N : SqlNode S} grants target i l acc :
  (i <= 8)%nat → (8 < i + length l)%nat →
  returns (grant_tables (S:=S) grants target i l acc) (λ _, False).
Proof.
  revert i acc. induction l as [|t l IH]; intros i acc Hi Hl; simpl in Hl; [lia|].
  cbn [grant_tables]. rewrite table_mask. destruct (Nat.ltb_spec i 8).
  - eapply (returns_bind _ _ (λ _, True)); [done|]. intros mask _.
    case_match; [|apply IH; lia]. eapply (returns_bind _ _ (λ _, True)).
    + intros s. by destruct (run_sql _ s) as [[]].
    + intros _ _. apply IH; lia.
  - eapply (returns_bind _ _ (λ _, False)); done.
Qed.

(** With more than eight tables [grant_select_on_table] always raises and
    never runs the test: there is no mask for the ninth table. *)
Lemma grant_select_table_limit {S A} {N : SqlNode S} grants target table_names
    (body : string → M S A) s :
  (8 < length table_names)%nat →
  is_ok (grant_select_on_table grants target table_names body s).1 = false ∧
  ∀ body', grant_select_on_table grants target table_names body s =
           grant_select_on_table grants target table_names body' s.
Proof.
  intros Hl. unfold grant_select_on_table, bracket, try_finally.
  assert (Hr : returns (granted ← grant_tables (S:=S) grants target 0 table_names [];
      mret (join ", " granted)) (λ _, False)).
  { eapply returns_bind; [apply grant_tables_overflow; lia|]. done. }
  specialize (Hr s). revert Hr. generalize (for_ table_names (λ t, run_sql (S:=S)
    (revoke_statement target t))) as cleanup. intros cleanup.
  generalize (granted ← grant_tables (S:=S) grants target 0 table_names [];
    mret (join ", " granted)) as setup. intros setup.
  unfold mbind, M_bind. destruct (setup s) as [[v|e|w] s1]; simpl; [done| |done].
  intros _. by destruct (cleanup s1) as [[]].
Qed.

(** *** Masks *)

Definition mask_bits (n m : Z) : list bool := Z.testbit m <$> seqZ 0 n.

Fixpoint of_bits (bs : list bool) : Z :=
  match bs with [] => 0 | b :: bs => Z.b2z b + 2 * of_bits bs end.

Lemma of_bits_range bs : 0 <= of_bits bs < 2 ^ Z.of_nat (length bs).
Proof.
  induction bs as [|b bs IH]; [done|]. cbn [of_bits length].
  rewrite Nat2Z.inj_succ, Z.pow_succ_r by lia. destruct b; simpl Z.b2z; lia.
Qed.

Lemma mask_bits_lookup n m i : 0 <= i < n → mask_bits n m !! Z.to_nat i = Some (Z.testbit m i).
Proof.
  intros Hi. unfold mask_bits. rewrite list_lookup_fmap, lookup_seqZ_lt by lia. simpl.
  do 2 f_equal. lia.
Qed.

Lemma mask_bits_of_bits bs : mask_bits (Z.of_nat (length bs)) (of_bits bs) = bs.
Proof.
  induction bs as [|b bs IH]; [done|]. cbn [of_bits length].
  unfold mask_bits in *. rewrite seqZ_cons by lia. rewrite fmap_cons. f_equal.
  - rewrite Z.add_comm. apply Z.testbit_0_r.
  - replace (Z.pred (Z.of_nat (S (length bs)))) with (Z.of_nat (length bs)) by lia.
    change (Z.succ 0) with (1 + 0). rewrite <-fmap_add_seqZ, <-list_fmap_compose.
    transitivity (Z.testbit (of_bits bs) <$> seqZ 0 (Z.of_nat (length bs))); [|done].
    apply list_fmap_ext. intros i x Hx. apply lookup_seqZ in Hx. simpl.
    rewrite (Z.add_comm (Z.b2z b)), Z.add_1_l. apply Z.testbit_succ_r. lia.
Qed.

Lemma mask_bits_inj n m m' :
  0 <= m < 2 ^ n → 0 <= m' < 2 ^ n → mask_bits n m = mask_bits n m' → m = m'.
Proof.
  intros Hm Hm' E.
  assert (Hn : 0 <= n) by (destruct (Z.leb_spec 0 n); [done|]; rewrite Z.pow_neg_r in Hm; lia).
  rewrite <-(Z.mod_small m (2 ^ n)), <-(Z.mod_small m' (2 ^ n)) by lia.
  apply Z.bits_inj'. intros i Hi. destruct (Z.ltb_spec i n).
  - rewrite !Z.mod_pow2_bits_low by done. apply (f_equal (lookup (Z.to_nat i))) in E.
    rewrite !mask_bits_lookup in E by lia. by injection E.
  - by rewrite !Z.mod_pow2_bits_high by lia.
Qed.

Lemma mask_bits_ones n : 0 <= n → ∀ b, b ∈ mask_bits n (2 ^ n - 1) → b = true.
Proof.
  intros Hn b (i & -> & Hi)%list_elem_of_fmap. apply elem_of_seqZ in Hi.
  rewrite Z.sub_1_r, <-Z.ones_equiv. apply Z.ones_spec_low. lia.
Qed.

(** The masks of [permutations(n)] grant, each exactly once, all subsets
    of n tables but the set of all of them, which the mask after the largest
    one grants. *)
Lemma permutations_cover n :
  0 <= n →
  ∃ masks, permutations n = Ok masks ∧
    (∀ bs, length bs = Z.to_nat n → (∃ m, m ∈ masks ∧ mask_bits n m = bs) ↔ false ∈ bs) ∧
    (∀ m m', m ∈ masks → m' ∈ masks → mask_bits n m = mask_bits n m' → m = m') ∧
    (1 <= n → ∀ b, b ∈ mask_bits n (foldr Z.max 0 masks + 1) → b = true).
Proof.
  intros Hn. unfold permutations. rewrite (proj2 (Z.ltb_ge _ _)) by done.
  rewrite Z.shiftl_1_l. eexists; split; [done|]. split_and!.
  - intros bs Hbs. split.
    + intros (m & Hm%elem_of_seqZ & <-). destruct (decide (false ∈ mask_bits n m)); [done|].
      exfalso. assert (m = 2 ^ n - 1); [|lia]. apply (mask_bits_inj n); [lia..|].
      unfold mask_bits. apply list_fmap_ext. intros i x Hx%list_elem_of_lookup_2.
      rewrite (mask_bits_ones n Hn (Z.testbit (2 ^ n - 1) x))
        by (apply list_elem_of_fmap; by exists x).
      destruct (Z.testbit m x) eqn:Eb; [done|]. exfalso. apply n0.
      apply list_elem_of_fmap. by exists x.
    + intros Hf. exists (of_bits bs).
      assert (Hb : mask_bits n (of_bits bs) = bs).
      { rewrite <-(mask_bits_of_bits bs) at 2. f_equal. lia. }
      split; [|done]. pose proof (of_bits_range bs) as Hr. rewrite Hbs, Z2Nat.id in Hr by done.
      apply elem_of_seqZ. split; [lia|].
      destruct (decide (of_bits bs = 2 ^ n - 1)) as [E|]; [|lia].
      rewrite <-Hb, E in Hf. by apply mask_bits_ones in Hf.
  - intros m m' Hm%elem_of_seqZ Hm'%elem_of_seqZ. apply mask_bits_inj; lia.
  - intros Hn1 b. replace (foldr Z.max 0 (seqZ 0 (2 ^ n - 1)) + 1) with (2 ^ n - 1).
    { by apply mask_bits_ones. }
    assert (Hmax : ∀ k a, 0 <= a →
      foldr Z.max a (seqZ 0 (Z.of_nat k)) = Z.max a (Z.of_nat k - 1)).
    { induction k as [|k IH]; intros a Ha; [simpl; lia|]. rewrite Nat2Z.inj_succ, <-Z.add_1_r.
      rewrite seqZ_app, foldr_app by lia. simpl foldr. rewrite IH by lia. lia. }
    assert (2 ^ 1 <= 2 ^ n) by (apply Z.pow_le_mono_r; lia).
    rewrite <-(Z2Nat.id (2 ^ n - 1)), Hmax by lia. lia.
Qed.

(** ** Created and dropped objects *)

Definition on_cluster (ty : table_tuple) : string :=
  match cluster ty with Some c => " ON CLUSTER " +:+ c | None => EmptyString end.
Definition created (ty : table_tuple) (name : string) : string :=
  match format [("name", name)] (create_text ty) with Ok s => s | _ => EmptyString end.

Lemma table_types_format type ty name :
  dget type table_types = Some ty →
  format [("name", name)] (create_text ty) = Ok (created ty name) ∧
  startswith ("CREATE TABLE " +:+ name +:+ on_cluster ty +:+ " (") (created ty name) = true.
Proof.
  intros H%dget_Some. unfold table_types in H.
  assert (Hs : ∀ t, startswith ("CREATE TABLE " +:+ name +:+ on_cluster ty +:+ " (")
    ("CREATE TABLE " +:+ name +:+ on_cluster ty +:+ " (" +:+ t) = true).
  { intros t. apply startswith_spec. exists t. by rewrite !str_app_assoc. }
  repeat (apply elem_of_cons in H as [H|H]; [injection H as _ ->|]); [..|by apply not_elem_of_nil in H].
  all: split; [reflexivity|]; eapply Hs.
Qed.

(** The context managers, with the statements that create and those that drop
    their objects *)
Inductive test_objects {S A} `{SqlNode S} (body : M S A) :
    list string → list string → M S A → Prop :=
  | test_tables names type ty :
      dget type table_types = Some ty →
      test_objects body
        (split "," names ≫= λ n, ["DROP TABLE IF EXISTS " +:+ n; created ty n])
        ((λ n, "DROP TABLE IF EXISTS " +:+ n +:+ on_cluster ty) <$> split "," names)
        (table names type body)
  | test_users names :
      test_objects body
        ((λ n, "CREATE USER OR REPLACE " +:+ n) <$> split "," names)
        ((λ n, "DROP USER IF EXISTS " +:+ n) <$> split "," names)
        (user names body)
  | test_roles names :
      test_objects body
        ((λ n, "CREATE ROLE OR REPLACE " +:+ n) <$> split "," names)
        ((λ n, "DROP ROLE IF EXISTS " +:+ n) <$> split "," names)
        (role names body)
  | test_row_policy name on :
      test_objects body ["CREATE ROW POLICY " +:+ name +:+ " ON " +:+ on]
        ["DROP ROW POLICY IF EXISTS " +:+ name +:+ " ON " +:+ on]
        (row_policy name on body).

Lemma drop_test_table_on_cluster ty n :
  drop_test_table ty n = "DROP TABLE IF EXISTS " +:+ n +:+ on_cluster ty.
Proof. unfold drop_test_table, on_cluster. destruct (cluster ty); [done|]. by rewrite str_app_nil_r. Qed.

Section dropped.
Context {S A : Type} {N : SqlNode S}.
Implicit Types (s : recorded S) (body : M (recorded S) A).
Abbreviation plain_queries l := ((λ sql, (sql, query0)) <$> l).

(** The last of the statements [k] raised [e], which left the state [s]. *)
Definition failed (k : list string) (e : exn) s : Prop :=
  ∃ sql s0, last k = Some sql ∧ run_sql sql s0 = (Exc e, s).

(** [executes m l]: [m] sends the statements [l] in order, and only a
    statement that fails stops it, with the exception of that statement. *)
Definition executes (m : M (recorded S) unit) (l : list string) : Prop := ∀ s,
  match m s with
  | (Ok _, s') => s'.2 = s.2 ++ plain_queries l
  | (Exc e, s') => ∃ k, prefix k l ∧ s'.2 = s.2 ++ plain_queries k ∧ failed k e s'
  | (Stuck _, _) => True
  end.

Lemma executes_sql sql : executes (run_sql sql) [sql].
Proof.
  intros s. pose proof (runs_run_sql sql s) as Hr. pose proof (tries_run_sql sql s) as Ht.
  destruct (run_sql sql s) as [[[]|e|w] s'] eqn:E; [done| |done].
  destruct Hr as (k & Hk & Hp), Ht as [j Hj]. exists [sql]. split; [done|].
  rewrite Hk in Hj. apply app_inv_head in Hj as ->. apply prefix_length in Hp.
  destruct j; [|simpl in Hp; lia]. split; [done|]. by exists sql, s.
Qed.

Lemma executes_seq m m' l l' : executes m l → executes m' l' → executes (m;; m') (l ++ l').
Proof.
  intros Hm Hm' s. specialize (Hm s). unfold mbind, M_bind.
  destruct (m s) as [[[]|e|w] s1]; [|destruct Hm as (k & Hp & Hk & Hf)|done].
  - specialize (Hm' s1). destruct (m' s1) as [[[]|e|w] s2]; [| |done].
    + by rewrite Hm', Hm, fmap_app, app_assoc.
    + destruct Hm' as (k & Hp & Hk & sql & s0 & Hl & Hs). exists (l ++ k).
      split_and!; [by apply prefix_app|by rewrite Hk, Hm, fmap_app, app_assoc|].
      exists sql, s0. split; [|done]. by rewrite last_app, Hl.
  - exists k. split_and!; [by apply prefix_app_r|done..].
Qed.

Lemma executes_for {B} (xs : list B) (m : B → M (recorded S) unit) (f : B → list string) :
  (∀ x, executes (m x) (f x)) → executes (for_ xs m) (xs ≫= f).
Proof.
  intros Hm. induction xs as [|x xs IH].
  - intros s. simpl. by rewrite app_nil_r.
  - cbn [for_]. by apply executes_seq.
Qed.

Lemma executes_for_sql {B} (f : B → string) (l : list B) :
  executes (for_ l (λ x, run_sql (f x))) (f <$> l).
Proof. rewrite <-list_bind_singleton. apply executes_for. intros x. apply executes_sql. Qed.

Lemma create_test_table_executes type ty n :
  dget type table_types = Some ty →
  executes (create_test_table ty n) ["DROP TABLE IF EXISTS " +:+ n; created ty n].
Proof.
  intros Hty. unfold create_test_table. rewrite (proj1 (table_types_format _ _ n Hty)).
  apply (executes_seq _ _ [_]); [apply executes_sql|]. apply (executes_sql (created ty n)).
Qed.

(** What is left by a context manager that sends [creates], runs the test and
    sends [drops]: the statements [done] of the set-up, which end in the one
    that failed when they are not all, then what the test logged, which runs
    only after all of them, and whatever happened before, the drops, up to the
    first one that fails. *)
Definition around body (creates drops : list string) s (r : res A) s' : Prop :=
  ∃ done test tail s1 r1,
    s'.2 = s.2 ++ plain_queries done ++ test ++ plain_queries tail ∧
    s1.2 = s.2 ++ plain_queries done ∧
    (done = creates ∧ (body s1).1 = r1 ∧ (body s1).2.2 = s1.2 ++ test ∨
     prefix done creates ∧ test = [] ∧ ∃ e, r1 = Exc e ∧ failed done e s1) ∧
    (tail = drops ∧ r = r1 ∨ prefix tail drops ∧ ∃ e, r = Exc e ∧ failed tail e s').

Lemma bracket_around setup body cleanup creates drops s :
  test_body body → executes setup creates → executes cleanup drops →
  match bracket setup (λ _ : unit, body) cleanup s with
  | (Stuck _, _) => True
  | (r, s') => around body creates drops s r s'
  end.
Proof.
  intros Hb Hs Hc. unfold bracket, try_finally, mbind, M_bind. specialize (Hs s).
  assert (Hclean : ∀ done test s1 r1 s2, s1.2 = s.2 ++ plain_queries done →
    s2.2 = s1.2 ++ test → is_stuck r1 = false →
    (done = creates ∧ (body s1).1 = r1 ∧ (body s1).2.2 = s1.2 ++ test ∨
     prefix done creates ∧ test = [] ∧ ∃ e, r1 = Exc e ∧ failed done e s1) →
    match match cleanup s2 with
          | (Ok _, s3) => (r1, s3) | (Exc e, s3) => (Exc e, s3) | (Stuck w, s3) => (Stuck w, s3)
          end with
    | (Stuck _, _) => True
    | (r, s') => around body creates drops s r s'
    end).
  { intros done test s1 r1 s2 H1 H2 Hr Hset. specialize (Hc s2).
    destruct (cleanup s2) as [[[]|e|w] s3]; [| |done].
    - assert (around body creates drops s r1 s3) as Ha.
      { exists done, test, drops, s1, r1. split_and!; [|done..|by left].
        by rewrite Hc, H2, H1, !app_assoc. }
      by destruct r1.
    - destruct Hc as (k & Hp & Hk & Hf). exists done, test, k, s1, r1.
      split_and!; [by rewrite Hk, H2, H1, !app_assoc|done..|]. right. eauto. }
  destruct (setup s) as [[[]|e|w] s1]; [| |done].
  - specialize (Hb s1). destruct (body s1) as [[a|e|w] s2] eqn:E; [| |done];
      destruct Hb as [test Ht]; simpl in Ht;
      (eapply (Hclean creates test s1 _ s2); [done..|left; by rewrite E]).
  - destruct Hs as (k & Hp & Hk & Hf). apply (Hclean k [] s1 (Exc e) s1); try done.
    + by rewrite app_nil_r.
    + right. eauto.
Qed.

(** C32: Around every test the RBAC context managers create their objects in
    order, up to a statement that fails, run the test only when all were
    created, and then drop all of them in the same order, on the cluster where
    they were created, whether the set-up and the test succeeded or not: the
    drops only stop at a drop that fails.  The outcome is that of the last
    part that failed. *)
Theorem test_objects_are_dropped creates drops body run s :
  test_body body → test_objects body creates drops run →
  match run s with
  | (Stuck _, _) => True
  | (r, s') => around body creates drops s r s'
  end.
Proof.
  intros Hb Ht. destruct Ht as [names type ty Hty|names|names|name on].
  - unfold table. rewrite Hty. apply (bracket_around _ _ _ _ _ s Hb).
    + apply executes_for. intros n. by eapply create_test_table_executes.
    + rewrite <-(list_fmap_ext (drop_test_table ty)); [apply executes_for_sql|].
      intros i n _. by rewrite drop_test_table_on_cluster.
  - by apply bracket_around; [|apply executes_for_sql..].
  - by apply bracket_around; [|apply executes_for_sql..].
  - by apply bracket_around; [|apply executes_sql..].
Qed.
End dropped.

(** ** Expected errors tell what went wrong *)

Inductive access_entity := User | Role | SettingsProfile | Quota | RowPolicy.
Inductive expected_error :=
  | NotFound (e : access_entity) (name : string)
  | CannotRename (e : access_entity) (name name_new : string)
  | CannotInsert (e : access_entity) (name : string)
  | WrongColumn (name : string)
  | WrongIndex (name : string)
  | WrongConstraint (name : string).

(** The function of rbac/helper/errors.py for each error *)
Definition error_of (x : expected_error) : res (Z * string) :=
  match x with
  | NotFound User n => user_not_found_in_disk n
  | NotFound Role n => role_not_found_in_disk n
  | NotFound SettingsProfile n => settings_profile_not_found_in_disk n
  | NotFound Quota n => quota_not_found_in_disk n
  | NotFound RowPolicy n => row_policy_not_found_in_disk n
  | CannotRename User n m => cannot_rename_user n m
  | CannotRename Role n m => cannot_rename_role n m
  | CannotRename SettingsProfile n m => cannot_rename_settings_profile n m
  | CannotRename Quota n m => cannot_rename_quota n m
  | CannotRename RowPolicy n m => cannot_rename_row_policy n m
  | CannotInsert User n => cannot_insert_user n
  | CannotInsert Role n => cannot_insert_role n
  | CannotInsert SettingsProfile n => cannot_insert_settings_profile n
  | CannotInsert Quota n => cannot_insert_quota n
  | CannotInsert RowPolicy n => cannot_insert_row_policy n
  | WrongColumn n => wrong_column_name n
  | WrongIndex n => wrong_index_name n
  | WrongConstraint n => wrong_constraint_name n
  end.

Definition unquoted (s : string) : bool := str_forallb (λ c, negb (Ascii.eqb c "`")) s.
Definition names_of (x : expected_error) : list string :=
  match x with
  | CannotRename _ n m => [n; m]
  | NotFound _ n | CannotInsert _ n | WrongColumn n | WrongIndex n | WrongConstraint n => [n]
  end.

Lemma unquoted_split a b x y :
  unquoted a = true → unquoted b = true → a +:+ String "`" x = b +:+ String "`" y → a = b ∧ x = y.
Proof.
  revert b. induction a as [|c a IH]; intros [|d b]; rewrite ?str_app_cons, ?str_app_nil_l.
  - by intros _ _ [= ->].
  - intros _ Hb [= <- _]. done.
  - intros Ha _ [= -> _]. done.
  - unfold unquoted. simpl. intros [_ Ha]%andb_true_iff [_ Hb]%andb_true_iff [= -> E].
    by destruct (IH b Ha Hb E) as [-> ->].
Qed.

Definition entity_name (e : access_entity) : string :=
  match e with
  | User => "user" | Role => "role" | SettingsProfile => "settings profile"
  | Quota => "quota" | RowPolicy => "row policy"
  end.
Definition error_code (x : expected_error) : Z :=
  match x with
  | NotFound User _ => 192 | NotFound Role _ => 255 | NotFound SettingsProfile _ => 180
  | NotFound Quota _ => 199 | NotFound RowPolicy _ => 11
  | CannotRename _ _ _ | CannotInsert _ _ => 237
  | WrongColumn _ => 10 | WrongIndex _ | WrongConstraint _ => 36
  end.
Definition error_text (x : expected_error) : string :=
  match x with
  | NotFound e n => "Exception: There is no " +:+ entity_name e +:+ " `" +:+ n +:+ "`"
  | CannotRename e n m =>
      "Exception: " +:+ entity_name e +:+ " `" +:+ n +:+ "`: cannot rename to `" +:+ m +:+
      "` because " +:+ entity_name e +:+ " `" +:+ m +:+ "` already exists"
  | CannotInsert e n =>
      "Exception: " +:+ entity_name e +:+ " `" +:+ n +:+ "`: cannot insert because " +:+
      entity_name e +:+ " `" +:+ n +:+ "` already exists"
  | WrongColumn n => "Exception: Wrong column name. Cannot find column `" +:+ n +:+ "` to drop"
  | WrongIndex n => "Exception: Wrong index name. Cannot find index `" +:+ n +:+ "` to drop"
  | WrongConstraint n =>
      "Exception: Wrong constraint name. Cannot find constraint `" +:+ n +:+ "` to drop"
  end.

Lemma error_of_text x : error_of x = Ok (error_code x, error_text x).
Proof. destruct x as [[] n|[] n m|[] n|n|n|n]; reflexivity. Qed.

(** The exit code and the message that a test expects determine the
    error: for names without a backtick, two different not-found, cannot
    rename, cannot insert or wrong-name errors never have the same pair. *)
Lemma expected_errors_differ (x y : expected_error) :
  Forall (λ n, unquoted n = true) (names_of x ++ names_of y) →
  error_of x = error_of y → x = y.
Proof.
  intros [Hx Hy]%Forall_app E. rewrite !error_of_text in E. injection E as Ec E.
  destruct x as [e n|e n m|e n|n|n|n], y as [f n'|f n' m'|f n'|n'|n'|n'].
  all: try (destruct e; discriminate Ec); try (destruct f; discriminate Ec); try discriminate Ec.
  all: try (assert (e = f) as -> by (destruct e, f; done)).
  all: cbn [names_of] in Hx, Hy.
  all: repeat match goal with H : Forall _ (_ :: _) |- _ => apply Forall_cons in H as [? H] end.
  all: try discriminate E.
  all: try destruct f; injection E as E.
  all: apply unquoted_split in E as [-> E]; [|done..]; try done; try discriminate E.
  all: injection E as E; apply unquoted_split in E as [-> _]; done.
Qed.

(** The constraint error is the index error. *)
Lemma constraint_error_names_index n : cannot_add_constraint n = cannot_add_index n.
Proof. done. Qed.

(** ** Witnesses *)

Lemma grant_select_on_table_log_witness :
  selected 5 0 ["a"; "b"; "c"] = ["a"; "c"] ∧
  @grant_select_on_table (recorded unit) unit (recorded_node silent_node) 5 "u" ["a"; "b"; "c"]
      (@run_sql _ (recorded_node silent_node)) (tt, []) =
  @grant_select_on_table (recorded unit) unit (recorded_node silent_node) 5 "u" ["a"; "b"; "c"]
      (λ _, @run_sql _ (recorded_node silent_node) "a, c") (tt, []).
Proof.
  split; [reflexivity|].
  assert (Hb : ∀ text, test_body (@run_sql (recorded unit) (recorded_node silent_node) text)).
  { intros text s. by exists [(text, query0)]. }
  exact (proj1 (@grant_select_on_table_log unit unit silent_node 5 "u" ["a"; "b"; "c"]
    (@run_sql _ (recorded_node silent_node)) (tt, []) ltac:(simpl; lia) Hb)).
Defined.

Lemma grant_select_table_limit_witness :
  let names := ["0"; "1"; "2"; "3"; "4"; "5"; "6"; "7"; "8"] in
  (8 < length names)%nat ∧
  is_ok (@grant_select_on_table unit unit silent_node 1 "u" names (λ _, mret tt) tt).1 = false.
Proof.
  split; [simpl; lia|].
  exact (proj1 (@grant_select_table_limit unit unit silent_node 1 "u"
    ["0"; "1"; "2"; "3"; "4"; "5"; "6"; "7"; "8"] (λ _, mret tt) tt ltac:(simpl; lia))).
Defined.

Lemma permutations_cover_witness :
  ∃ masks, permutations 2 = Ok masks ∧
    ((∃ m, m ∈ masks ∧ mask_bits 2 m = [true; false]) ↔ false ∈ [true; false]).
Proof.
  destruct (permutations_cover 2 ltac:(lia)) as (masks & H1 & H2 & _).
  exists masks. split; [exact H1|]. exact (H2 [true; false] eq_refl).
Defined.

(** A node that refuses every statement but the drops *)
Definition no_access_node : SqlNode unit := λ sql _ s,
  (if startswith "DROP" sql then Ok (mkResult 0 EmptyString)
   else Exc (AssertionError "Not enough privileges."), s).

(** The set-up fails at its first statement, the test is not run, and both
    roles are dropped. *)
Lemma test_objects_are_dropped_witness :
  let run := @role (recorded unit) unit (recorded_node no_access_node) "r1,r2" (mret tt) (tt, []) in
  run.2.2 = (λ sql, (sql, query0)) <$>
    ["CREATE ROLE OR REPLACE r1"; "DROP ROLE IF EXISTS r1"; "DROP ROLE IF EXISTS r2"] ∧
  @around unit unit no_access_node (mret tt)
    ["CREATE ROLE OR REPLACE r1"; "CREATE ROLE OR REPLACE r2"]
    ["DROP ROLE IF EXISTS r1"; "DROP ROLE IF EXISTS r2"] (tt, []) run.1 run.2.
Proof.
  split; [reflexivity|].
  exact (@test_objects_are_dropped unit unit no_access_node _ _ (mret tt) _ (tt, [])
    ltac:(intros s; exists []; by rewrite app_nil_r) (test_roles (mret tt) "r1,r2")).
Defined.

Lemma expected_errors_differ_witness :
  error_of (CannotInsert User "a") = error_of (CannotInsert User "a") ∧
  CannotInsert User "a" = CannotInsert User "a".
Proof.
  split; [reflexivity|].
  apply (expected_errors_differ (CannotInsert User "a") (CannotInsert User "a"));
    [repeat constructor|reflexivity].
Defined.
