(* ===== verification/Lifecycle.v ===== *)
(** * Starting and stopping nodes, and bringing the cluster up

    Classes [Node], [ZooKeeperNode] and [ClickHouseNode] of
    helpers/cluster.py (health checks, pids, start, stop, restart) and
    [Cluster.up].  The loops of these methods are the [retries] and [retry] of
    testflows; the model takes them as a parameter with their laws. *)
From stdpp Require Import gmap.
From S2P Require Import Prelude PyStr PyDict PyMonad Version World Cluster Shells Commands Query.
Local Open Scope Z_scope.

(** ** Retrying, as testflows does it *)

(** [retries timeout delay body] stands for
    [for i, attempt in enumerate(retries(timeout, delay)): with attempt: body i]
    and [retry count m] for [retry(f, count)(...)]. *)
Class Retrying (W : Type) := {
  retries : Z → Z → (nat → M (st W) unit) → M (st W) unit;
  retry : ∀ {A}, nat → M (st W) A → M (st W) A;
}.
#[export] Hint Mode Retrying ! : typeclass_instances.

(** Both return only when an attempt has returned, and do nothing but
    attempts and pauses. *)
Class RetryLaws (W : Type) `{Env W, Retrying W} : Prop := {
  retries_ok : ∀ t d body (s s' : st W),
    retries t d body s = (Ok tt, s') →
    ∃ i s1, body i s1 = (Ok tt, s') ∧
      ∀ R : st W → st W → Prop, PreOrder R →
        (∀ i, Preserves R (body i)) → (∀ d, Preserves R (sleep d)) → R s s1;
  retries_frame : ∀ (R : st W → st W → Prop) t d body, PreOrder R →
    (∀ i, Preserves R (body i)) → (∀ d, Preserves R (sleep d)) →
    Preserves R (retries t d body);
  retry_ok : ∀ A n (m : M (st W) A) s a s',
    retry n m s = (Ok a, s') →
    ∃ s1, m s1 = (Ok a, s') ∧
      ∀ R : st W → st W → Prop, PreOrder R →
        Preserves R m → (∀ d, Preserves R (sleep d)) → R s s1;
  retry_frame : ∀ (R : st W → st W → Prop) A n (m : M (st W) A), PreOrder R →
    Preserves R m → (∀ d, Preserves R (sleep d)) → Preserves R (retry n m);
}.

(** The class of a node *)
Inductive node_class := PlainNode | ZooKeeper | ClickHouse.

Section lifecycle.
Context {W : Type} `{Env W, Retrying W}.
Variables (fuel : nat) (cl : config).
Abbreviation M := (M (st W)).

(** [Cluster.node]: the class of the node with the given name *)
Definition node_class_of (name : string) : node_class :=
  if use_zookeeper_nodes cl && startswith "zookeeper" name then ZooKeeper
  else if startswith "clickhouse" name then ClickHouse
  else PlainNode.

(** A docker-compose command that has to exit with 0 *)
Definition compose (action name : string) (timeout : Z) (retry_count : nat) : M unit :=
  retry retry_count
    (command fuel cl None (docker_compose cl +:+ " " +:+ action +:+ " " +:+ name)
       (mkArgs None None (Code 0) None false (Some timeout)));;
  mret tt.

Section node.
Variable (name : string).

(** [Node.command], [ClickHouseNode.query] *)
Definition node_command (cmd : string) (a : command_args) : M shell_result :=
  command fuel cl (Some name) cmd a.
Definition node_query (sql : string) (a : query_args) : M shell_result :=
  query fuel cl name sql a.

(** [Node.wait_healthy] *)
Definition wait_healthy (timeout : Z) : M unit :=
  retries timeout (sec 1) (λ _,
    r ← node_command "echo 1" unchecked;
    when (negb (exitcode r =? 0)) (raise (Fail "container is not healthy"))).

(** [Node.restart], [Node.start] and [Node.stop] *)
Definition Node_restart (timeout : Z) (retry_count : nat) : M unit :=
  close_bashes name;; compose "restart" name timeout retry_count.
Definition Node_start (timeout : Z) (retry_count : nat) : M unit :=
  compose "start" name timeout retry_count.
Definition Node_stop (timeout : Z) (retry_count : nat) : M unit :=
  close_bashes name;; compose "stop" name timeout retry_count.

(** The text of a pid file, if it exists *)
Definition pid_in (file : string) : M (option string) :=
  r ← node_command ("ls " +:+ file) args0;
  if exitcode r =? 0
  then r ← node_command ("cat " +:+ file) args0; mret (Some (strip (output r)))
  else mret None.

(** [ZooKeeperNode] *)
Definition wait_zookeeper_healthy (timeout : Z) : M unit :=
  retries timeout (sec 1) (λ _,
    r ← node_command "zkServer.sh status" unchecked;
    when (negb (exitcode r =? 0)) (raise (Fail "ZooKeeper server is not healthy"))).
Definition zookeeper_pid : M (option string) := pid_in "/data/zookeeper_server.pid".
Definition zkServer (action : string) : M unit :=
  node_command ("zkServer.sh " +:+ action) (expect_code 0);; mret tt.
Definition stop_zookeeper : M unit := zkServer "stop".
Definition start_zookeeper : M unit := zkServer "start".
Definition restart_zookeeper : M unit := zkServer "restart".

Definition ZooKeeperNode_stop (timeout : Z) (retry_count : nat) : M unit :=
  pid ← zookeeper_pid; when (truthy pid) stop_zookeeper;; Node_stop timeout retry_count.
Definition ZooKeeperNode_start (timeout : Z) (start_zookeeper_ : bool) (retry_count : nat)
    : M unit :=
  Node_start timeout retry_count;; when start_zookeeper_ start_zookeeper.
Definition ZooKeeperNode_restart (timeout : Z) (start_zookeeper_ : bool) (retry_count : nat)
    : M unit :=
  pid ← zookeeper_pid; when (truthy pid) stop_zookeeper;;
  Node_restart timeout retry_count;; when start_zookeeper_ start_zookeeper.

(** [ClickHouseNode.enable_thread_fuzzer] *)
Definition thread_fuzzer_exports : list string := [
  "export THREAD_FUZZER_CPU_TIME_PERIOD_US=1000";
  "export THREAD_FUZZER_SLEEP_PROBABILITY=0.1";
  "export THREAD_FUZZER_SLEEP_TIME_US=100000";
  "export THREAD_FUZZER_pthread_mutex_lock_BEFORE_MIGRATE_PROBABILITY=1";
  "export THREAD_FUZZER_pthread_mutex_lock_AFTER_MIGRATE_PROBABILITY=1";
  "export THREAD_FUZZER_pthread_mutex_unlock_BEFORE_MIGRATE_PROBABILITY=1";
  "export THREAD_FUZZER_pthread_mutex_unlock_AFTER_MIGRATE_PROBABILITY=1";
  "export THREAD_FUZZER_pthread_mutex_lock_BEFORE_SLEEP_PROBABILITY=0.001";
  "export THREAD_FUZZER_pthread_mutex_lock_AFTER_SLEEP_PROBABILITY=0.001";
  "export THREAD_FUZZER_pthread_mutex_unlock_BEFORE_SLEEP_PROBABILITY=0.001";
  "export THREAD_FUZZER_pthread_mutex_unlock_AFTER_SLEEP_PROBABILITY=0.001";
  "export THREAD_FUZZER_pthread_mutex_lock_BEFORE_SLEEP_TIME_US=10000";
  "export THREAD_FUZZER_pthread_mutex_lock_AFTER_SLEEP_TIME_US=10000";
  "export THREAD_FUZZER_pthread_mutex_unlock_BEFORE_SLEEP_TIME_US=10000";
  "export THREAD_FUZZER_pthread_mutex_unlock_AFTER_SLEEP_TIME_US=10000"].
Definition enable_thread_fuzzer : M unit :=
  for_ thread_fuzzer_exports (λ c, node_command c args0;; mret tt).

(** [ClickHouseNode.wait_clickhouse_healthy] *)
Definition wait_clickhouse_healthy (timeout : Z) : M unit :=
  retries timeout (sec 1) (λ _,
    r ← node_query "SELECT version()" no_checks_query;
    when (negb (exitcode r =? 0)) (raise (Fail "ClickHouse server is not healthy")));;
  r ← node_query "SELECT version()" no_checks_query;
  let node_version := output r in
  v ← gets clickhouse_version;
  match v with
  | None => modify (set_version (Some node_version))
  | Some _ =>
      ok ← lift (check_clickhouse_version ("=" +:+ node_version) v);
      assert_ ok EmptyString
  end.

Definition clickhouse_pid : M (option string) := pid_in "/tmp/clickhouse-server.pid".

(** [f"{pid}"] for a pid or [None] *)
Definition pid_str (pid : option string) : string := default "None" pid.

(** [ClickHouseNode.stop_clickhouse] *)
Definition quiesce : M unit :=
  node_query "SYSTEM STOP MOVES" query0;;
  node_query "SYSTEM STOP MERGES" query0;;
  node_query "SYSTEM FLUSH LOGS" query0;;
  sleep (sec 5);;
  node_command "sync" (mkArgs None None (Code 0) None false (Some (sec 300)));;
  mret tt.
Definition wait_gone (pid : option string) : M unit :=
  retries (sec 100) (sec 3) (λ i,
    when ((0 <? i)%nat && (i mod 20 =? 0)%nat)
      (node_command ("kill -KILL " +:+ pid_str pid) args0;; mret tt);;
    r ← node_command ("ps " +:+ pid_str pid) unchecked;
    when (negb (exitcode r =? 1)) (raise (Fail "pid still alive"))).
Definition stop_clickhouse (safe : bool) : M unit :=
  when safe quiesce;;
  pid ← clickhouse_pid;
  node_command ("kill -TERM " +:+ pid_str pid) (expect_code 0);;
  wait_gone pid;;
  node_command "rm -rf /tmp/clickhouse-server.pid" (expect_code 0);;
  mret tt.

(** [ClickHouseNode.start_clickhouse] *)
Definition server_command : string :=
  "clickhouse server --config-file=/etc/clickhouse-server/config.xml" +:+
  " --log-file=/var/log/clickhouse-server/clickhouse-server.log" +:+
  " --errorlog-file=/var/log/clickhouse-server/clickhouse-server.err.log" +:+
  " --pidfile=/tmp/clickhouse-server.pid --daemon".
Definition start_command (user : option string) : string :=
  match user with
  | None => server_command
  | Some user => "su " +:+ user +:+ " -c" +:+ q server_command
  end.
Definition wait_pid_file (timeout : Z) : M unit :=
  retries timeout (sec 1) (λ _,
    r ← node_command "ls /tmp/clickhouse-server.pid" unchecked;
    when (negb (exitcode r =? 0)) (raise (Fail "no pid file yet"))).
Definition start_clickhouse (timeout : Z) (wait_healthy_ : bool) (user : option string)
    (thread_fuzzer_ : bool) : M unit :=
  pid ← clickhouse_pid;
  when (truthy pid)
    (raise (RuntimeError ("ClickHouse server already running with pid " +:+ pid_str pid)));;
  when thread_fuzzer_ enable_thread_fuzzer;;
  node_command (start_command user) (expect_code 0);;
  wait_pid_file timeout;;
  when wait_healthy_ (wait_clickhouse_healthy timeout).

Definition stop_if_running (safe : bool) : M unit :=
  pid ← clickhouse_pid; when (truthy pid) (stop_clickhouse safe).

(** [ClickHouseNode.restart_clickhouse], [stop], [start] and [restart] *)
Definition restart_clickhouse (timeout : Z) (safe wait_healthy_ : bool) (user : option string)
    : M unit :=
  stop_if_running safe;; start_clickhouse timeout wait_healthy_ user false.
Definition ClickHouseNode_stop (timeout : Z) (safe : bool) (retry_count : nat) : M unit :=
  stop_if_running safe;; Node_stop timeout retry_count.
Definition ClickHouseNode_start (timeout : Z) (start_clickhouse_ wait_healthy_ : bool)
    (retry_count : nat) (user : option string) : M unit :=
  Node_start timeout retry_count;;
  when start_clickhouse_ (start_clickhouse timeout wait_healthy_ user false).
Definition ClickHouseNode_restart (timeout : Z) (safe start_clickhouse_ wait_healthy_ : bool)
    (retry_count : nat) (user : option string) : M unit :=
  stop_if_running safe;;
  Node_restart timeout retry_count;;
  when start_clickhouse_ (start_clickhouse timeout wait_healthy_ user false).
End node.

(** ** Cluster.up *)

(** [self.environ[k] = v] *)
Definition set_env (k v : string) : M unit := modify (λ s, set_environ (dset k v (environ s)) s).

(** The set-up of the local mode *)
Definition up_local : M unit :=
  assert_ (truthy (clickhouse_binary_path cl))
    "when running in local mode then --clickhouse-binary-path must be specified";;
  let bin := default EmptyString (clickhouse_binary_path cl) in
  there ← gets (λ s, env_exists bin (world s));
  assert_ there EmptyString;;
  set_env "COMPOSE_HTTP_TIMEOUT" "600";;
  set_env "CLICKHOUSE_TESTS_SERVER_BIN_PATH" bin;;
  set_env "CLICKHOUSE_TESTS_ODBC_BRIDGE_BIN_PATH"
    (if truthy (clickhouse_odbc_bridge_binary_path cl)
     then default EmptyString (clickhouse_odbc_bridge_binary_path cl)
     else path_join (dirname bin) "clickhouse-odbc-bridge");;
  set_env "CLICKHOUSE_TESTS_DIR" (configs_dir cl);;
  command fuel cl None "env | grep CLICKHOUSE" args0;;
  mret tt.

(** Is a result of docker-compose bad? *)
Definition unhealthy (cmd : shell_result) : bool := contains "is unhealthy" (output cmd).
Definition exited (ps_cmd : option shell_result) : bool :=
  match ps_cmd with Some r => contains "Exit" (output r) | None => false end.

(** One attempt of [up]: the values of [cmd] and [ps_cmd] after it, and
    whether it leaves the loop.  [ps_cmd] is unbound at first. *)
Definition up_attempt (timeout : Z) (ps_cmd : option shell_result)
    : M (shell_result * option shell_result * bool) :=
  let dc := docker_compose cl in
  let timed := mkArgs None None AnyCode None false (Some timeout) in
  cmd ← command fuel cl None (dc +:+ " pull 2>&1 | tee") timed;
  if negb (exitcode cmd =? 0) then mret (cmd, ps_cmd, false) else
  command fuel cl None (dc +:+ " ps | tee") args0;;
  cmd ← command fuel cl None (dc +:+ " down 2>&1 | tee") timed;
  if negb (exitcode cmd =? 0) then mret (cmd, ps_cmd, false) else
  command fuel cl None (dc +:+ " ps | tee") args0;;
  cmd ← command fuel cl None
    (dc +:+ " up --renew-anon-volumes --force-recreate --timeout 600 -d 2>&1 | tee") timed;
  ps ← command fuel cl None (dc +:+ " ps | tee | grep -v " +:+ q "Exit 0") args0;
  if unhealthy cmd || exited (Some ps) then
    command fuel cl None (dc +:+ " logs | tee") args0;; mret (cmd, Some ps, false)
  else mret (cmd, Some ps, exitcode cmd =? 0).

(** [for attempt in range(n)], and the variables it leaves *)
Fixpoint up_loop (n : nat) (timeout : Z) (cmd ps_cmd : option shell_result)
    : M (option shell_result * option shell_result) :=
  match n with
  | O => mret (cmd, ps_cmd)
  | S n =>
      r ← up_attempt timeout ps_cmd;
      let '(cmd, ps_cmd, done) := r in
      if (done : bool) then mret (Some cmd, ps_cmd) else up_loop n timeout (Some cmd) ps_cmd
  end.

(** [Cluster.up] *)
Definition up_compose (timeout : Z) : M unit :=
  r ← up_loop 5 timeout None None;
  match r.1 with
  | None => raise (UnboundLocalError "cmd")
  | Some cmd =>
      if negb (exitcode cmd =? 0) || unhealthy cmd then
        raise (Fail "could not bring up docker-compose cluster")
      else match r.2 with
           | None => raise (UnboundLocalError "ps_cmd")
           | Some ps =>
               when (exited (Some ps))
                 (raise (Fail "could not bring up docker-compose cluster"))
           end
  end.
Definition up_nodes : M unit :=
  when (use_zookeeper_nodes cl)
    (l ← nodes_of cl "zookeeper";
     for_ l (λ name,
       wait_healthy name (sec 300);;
       when (startswith "zookeeper" name) (start_zookeeper name)));;
  l ← nodes_of cl "clickhouse";
  for_ l (λ name,
    wait_healthy name (sec 300);;
    when (startswith "clickhouse" name)
      (start_clickhouse name (sec 300) true None (thread_fuzzer cl))).
Definition up (timeout : Z) : M unit :=
  when (local cl) up_local;;
  up_compose timeout;;
  up_nodes;;
  modify (set_running true).

(** [Cluster.__enter__] is [up] with its default timeout. *)
Definition cluster_enter : M unit := up (sec (30 * 60)).

(** [with Cluster(...) as cluster: yield cluster] of [create_cluster] *)
Definition create_cluster {A} (body : M A) : M A :=
  cluster_enter;; try_finally body (cluster_exit fuel cl).
End lifecycle.
