(* ===== verification/Setup.v ===== *)
(** * Constructing the cluster

    [Cluster.__init__], [Cluster.get_clickhouse_binary_from_docker_container],
    [temp_path], [temp_file] and [create_cluster] of helpers/cluster.py: the
    checks of the directories, the preparation of the server binary, and the
    object that the methods of [Cluster] start from. *)
From stdpp Require Import gmap.
From S2P Require Import Prelude PyStr PyPath PyDict PyMonad Version World Cluster Shells Commands Query Lifecycle.
Local Open Scope Z_scope.

(** Changes of the file system and fresh names, which are not logged. *)
Class FileEnv (W : Type) := {
  env_mkdir : string → W → (exn + unit) * W;
  env_makedirs : string → W → (exn + unit) * W;
  env_remove : string → W → (exn + unit) * W;
  env_uuid : W → string * W;
}.
#[export] Hint Mode FileEnv ! : typeclass_instances.

(** What Python's library says about the process: the working directory, the
    directory of the calling module, the directory for temporary files, the
    processor, the SHA-1 digest of a text, and [settings.debug]. *)
Record process := mkProcess {
  getcwd : string;
  caller_dir : string;
  gettempdir : string;
  current_cpu : string;
  sha1_hexdigest : string → string;
  settings_debug : bool
}.

(** Keyword arguments of [Cluster] *)
Record cluster_args := mkClusterArgs {
  a_local : bool;
  a_binary : option string;
  a_odbc_bridge : option string;
  a_configs_dir : option string;
  a_nodes : option (dict string (list string));
  a_docker_compose : string;
  a_project_dir : option string;
  a_compose_file : string;
  a_environ : option (dict string string);
  a_thread_fuzzer : bool;
  a_collect_service_logs : bool;
  a_use_zookeeper_nodes : bool
}.

Section setup.
Context {W : Type} `{Env W, FileEnv W}.
Variables (fuel : nat) (py : process).
Abbreviation M := (M (st W)).

(** A change of the world that leaves no entry in the log *)
Definition unlogged {A} (f : W → (exn + A) * W) : M A := λ s,
  let '(r, w) := f (world s) in (of_sum r, set_world [] w s).

Definition path_exists (p : string) : M bool := gets (λ s, env_exists p (world s)).

(** [short_hash(s)] *)
Definition short_hash (s : string) : string := str_take 10 (sha1_hexdigest py s).

(** [with Shell() as bash: bash.timeout = 300; m bash] *)
Definition with_timed_shell {A} (m : nat → M A) : M A :=
  with_shell (λ bash, set_timeout bash (sec 300);; m bash).

(** A command whose result is not looked at *)
Definition sh (bash : nat) (command : string) : M unit := shell_call bash command None;; mret tt.

(** *** The server binary *)

(** The download of the binary into [filename], which is removed on any
    exception *)
Definition drop_file (filename : string) (e : exn) : M unit :=
  there ← path_exists filename;
  when there (unlogged (env_remove filename));;
  raise e.
Definition wget (bash : nat) (url filename : string) : M unit :=
  try_except
    (cmd ← shell_call bash ("wget --progress dot " +:+ q url +:+ " -O " +:+ filename) None;
     assert_ (exitcode cmd =? 0) EmptyString)
    (drop_file filename).
Definition download (url : string) : M string :=
  let filename := short_hash url +:+ "-" +:+ after_last "/" url in
  there ← path_exists ("./" +:+ filename);
  when (negb there) (with_timed_shell (λ bash, wget bash url filename));;
  mret ("./" +:+ filename).

(** [Cluster.get_clickhouse_binary_from_docker_container] *)
Definition get_clickhouse_binary_from_docker_container (docker_image bin odbc_bin : string)
    (host_bin host_odbc_bin : option string) : M (string * string) :=
  let docker_image := after_first "docker://" docker_image in
  name ← unlogged (λ w, let '(u, w) := env_uuid w in (inr u, w));
  let host_bin := default
    (path_join (gettempdir py) (replace ":" "_" (after_last "/" docker_image))) host_bin in
  let host_odbc_bin := default (host_bin +:+ "_odbc_bridge") host_odbc_bin in
  with_timed_shell (λ bash,
    sh bash ("docker run -d --name " +:+ q name +:+ " " +:+ docker_image +:+ " | tee");;
    sh bash ("docker cp " +:+ q (name +:+ ":" +:+ bin) +:+ " " +:+ q host_bin);;
    sh bash ("docker cp " +:+ q (name +:+ ":" +:+ odbc_bin) +:+ " " +:+ q host_odbc_bin);;
    sh bash ("docker stop " +:+ q name));;
  with_timed_shell (λ bash, sh bash ("ls -la " +:+ host_bin));;
  mret (host_bin, host_odbc_bin).

(** The package [path], which ends in [.deb], is unpacked. *)
Definition unpack_deb (path : string) : M string :=
  let dir := before_last ".deb" path in
  unlogged (env_makedirs dir);;
  with_timed_shell (λ bash,
    bin ← path_exists (dir +:+ "/clickhouse");
    odbc ← path_exists (dir +:+ "/clickhouse-odbc-bridge");
    let extract f :=
      sh bash ("tar -vxzf " +:+ q (dir +:+ "/data.tar.gz") +:+ " ./usr/bin/" +:+ f +:+
               " -O > " +:+ q (dir +:+ "/" +:+ f));;
      sh bash ("chmod +x " +:+ q (dir +:+ "/" +:+ f)) in
    when (negb bin || negb odbc)
      (sh bash ("ar x " +:+ q path +:+ " --output " +:+ q dir);;
       extract "clickhouse";;
       extract "clickhouse-odbc-bridge"));;
  mret ("./" +:+ dir +:+ "/clickhouse").

(** The binary that [path] names: a file, a URL, an image or a package *)
Definition prepare_binary (path : string) (odbc : option string) : M (string * option string) :=
  r ← (if startswith "http://" path || startswith "https://" path then
         path ← download path; mret (path, odbc)
       else if startswith "docker://" path then
         v ← gets clickhouse_version;
         modify (set_version (docker_version v path));;
         r ← get_clickhouse_binary_from_docker_container path "/usr/bin/clickhouse"
               "/usr/bin/clickhouse-odbc-bridge" None None;
         mret (r.1, Some r.2)
       else mret (path, odbc) : M (string * option string));
  path ← (if endswith ".deb" r.1 then unpack_deb r.1 else mret r.1 : M string);
  let path := abspath (getcwd py) path in
  with_timed_shell (λ bash, sh bash ("chmod +x " +:+ path));;
  mret (path, r.2).

(** *** The directories *)

Definition type_error (cond : bool) (what path : string) : M unit :=
  when (negb cond) (raise (TypeError (what +:+ " '" +:+ path +:+ "' does not exist"))).

(** The directory of the compose file, and on ARM its variant *)
Definition platform_dir (dir : string) : string :=
  if String.eqb (current_cpu py) "aarch64" && negb (endswith "_arm64" dir)
  then dir +:+ "_arm64" else dir.

(** The directory of configurations: without one, that of the caller *)
Definition find_configs (a : cluster_args) : M string :=
  match a_configs_dir a with
  | Some d => mret d
  | None =>
      here ← path_exists (caller_dir py);
      if (here : bool) then mret (caller_dir py)
      else raise (TypeError "stat: path should be string, bytes, os.PathLike or integer, not NoneType")
  end.

(** The directories of configurations and of docker-compose, and the
    compose file *)
Definition find_directories (a : cluster_args) : M (string * string * string) :=
  configs ← find_configs a;
  there ← path_exists configs;
  type_error there "configs directory" configs;;
  dir ← (match a_project_dir a with
         | None => raise (TypeError "docker compose directory must be specified.")
         | Some d =>
             if String.eqb d EmptyString
             then raise (TypeError "docker compose directory must be specified.")
             else mret (platform_dir d)
         end : M string);
  there ← path_exists dir;
  type_error there "docker compose project directory" dir;;
  let file := path_join dir (a_compose_file a) in
  there ← path_exists file;
  type_error there "docker compose file" file;;
  mret (configs, dir, file).

(** [Cluster.__init__]: the attributes that methods assign are those of the
    state, the others make the [config]. *)
Definition Cluster_init (a : cluster_args) : M config :=
  modify (λ s, set_locked false (set_running false (set_environ (default [] (a_environ a))
                 (set_control None (set_bash [] s)))));;
  d ← find_directories a;
  let '(configs, dir, file) := d in
  b ← (match a_binary a with
       | None => mret (None, a_odbc_bridge a)
       | Some p =>
           if String.eqb p EmptyString then mret (Some p, a_odbc_bridge a)
           else r ← prepare_binary p (a_odbc_bridge a); mret (Some r.1, r.2)
       end : M (option string * option string));
  mret (mkConfig (a_local a) b.1 b.2 configs (default [] (a_nodes a))
    (a_docker_compose a +:+ " --ansi never --project-directory " +:+ q dir +:+ " --file " +:+ q file)
    dir (a_thread_fuzzer a) (a_collect_service_logs a) (a_use_zookeeper_nodes a)
    (settings_debug py)).

(** [Cluster.temp_path] and [Cluster.temp_file] *)
Definition temp_path : M string :=
  e ← gets environ;
  dir ← (match dget "CLICKHOUSE_TESTS_DIR" e with
         | Some d => mret d
         | None => raise (KeyError "CLICKHOUSE_TESTS_DIR")
         end : M string);
  let p := dir +:+ "/_temp" in
  there ← path_exists p;
  when (negb there) (unlogged (env_mkdir p));;
  mret p.
Definition temp_file (name : string) : M string := p ← temp_path; mret (path_join p name).
End setup.
#[export] Typeclasses Opaque path_exists short_hash with_timed_shell sh wget download
  get_clickhouse_binary_from_docker_container unpack_deb prepare_binary find_directories.

Section facts.
Context {W : Type} `{Env W, FileEnv W}.
Variables (fuel : nat) (py : process).
Implicit Types (s : st W) (a : cluster_args).

(** ** The directories that are used *)

(** The directory of the compose file, when the argument is [p] *)
Inductive on_platform (p : string) : string → Prop :=
  | other_cpu : current_cpu py ≠ "aarch64" → on_platform p p
  | arm_given t : current_cpu py = "aarch64" → p = t +:+ "_arm64" → on_platform p p
  | arm_variant : current_cpu py = "aarch64" → (∀ t, p ≠ t +:+ "_arm64") →
      on_platform p (p +:+ "_arm64").

(** The directories and the compose file that the arguments name, all three
    of which exist *)
Definition named a (w : W) (configs dir file : string) : Prop :=
  configs = default (caller_dir py) (a_configs_dir a) ∧
  (∃ p, a_project_dir a = Some p ∧ p ≠ EmptyString ∧ on_platform p dir) ∧
  file = path_join dir (a_compose_file a) ∧
  env_exists configs w = true ∧ env_exists dir w = true ∧ env_exists file w = true.

Lemma on_platform_iff p d : on_platform p d ↔ d = platform_dir py p.
Proof.
  unfold platform_dir. destruct (String.eqb_spec (current_cpu py) "aarch64") as [Hc|Hc].
  - destruct (endswith "_arm64" p) eqn:He; simpl; (split; [intros [|t _ ->|_ Hn]|intros ->]); try done.
    + apply endswith_spec in He as [t Ht]. by destruct (Hn t).
    + apply endswith_spec in He as [t Ht]. by apply (arm_given p t).
    + by rewrite (proj2 (endswith_spec _ _)) in He by eauto.
    + apply arm_variant; [done|]. intros t ->.
      by rewrite (proj2 (endswith_spec _ _)) in He by eauto.
  - simpl. split; [by intros []|intros ->; by constructor].
Qed.

Lemma checked_path {A} p what (k : M (st W) A) s :
  (there ← path_exists p; type_error there what p;; k) s =
  if env_exists p (world s) then k s
  else (Exc (TypeError (what +:+ " '" +:+ p +:+ "' does not exist")), s).
Proof. unfold path_exists, type_error, mbind, M_bind, gets. simpl. by destruct (env_exists p _). Qed.

Lemma find_directories_spec a s :
  (∃ configs dir file, named a (world s) configs dir file ∧
     find_directories py a s = (Ok (configs, dir, file), s)) ∨
  (∀ configs dir file, ¬ named a (world s) configs dir file) ∧
  ∃ m, find_directories py a s = (Exc (TypeError m), s).
Proof.
  unfold named, find_directories. set (c := default (caller_dir py) (a_configs_dir a)).
  assert (Hm : (∃ e, env_exists c (world s) = false ∧ find_configs py a s = (Exc (TypeError e), s)) ∨
               find_configs py a s = (Ok c, s)).
  { unfold c, find_configs. destruct (a_configs_dir a) as [d|]; [by right|]. simpl.
    unfold path_exists, mbind, M_bind, gets. simpl.
    destruct (env_exists (caller_dir py) (world s)) eqn:E; [by right|left; by eexists]. }
  clearbody c. destruct Hm as [(e & Hc & Hm)|Hm].
  { right. split; [|exists e; unfold mbind, M_bind; by rewrite Hm].
    intros ? ? ? (-> & _ & _ & He & _). congruence. }
  rewrite (M_bind_Ok _ _ _ _ _ Hm), checked_path.
  destruct (env_exists c (world s)) eqn:Hc; [|right; split; [|by eexists]].
  2: { intros ? ? ? (-> & _ & _ & He & _). congruence. }
  destruct (a_project_dir a) as [d|]; [|right; split; [|by eexists]].
  2: { by intros ? ? ? (_ & (? & ? & _) & _). }
  destruct (String.eqb_spec d EmptyString) as [->|Hd].
  { right. split; [|by eexists]. by intros ? ? ? (_ & (? & [= <-] & ? & _) & _). }
  erewrite M_bind_Ok by done. rewrite checked_path.
  destruct (env_exists (platform_dir py d) (world s)) eqn:Hp.
  2: { right; split; [|by eexists]. intros ? ? ? (-> & (? & [= <-] & _ & ->%on_platform_iff) & _ & _ & He & _).
       congruence. }
  rewrite checked_path. destruct (env_exists (path_join _ _) (world s)) eqn:Hf.
  2: { right; split; [|by eexists].
       intros ? ? ? (-> & (? & [= <-] & _ & ->%on_platform_iff) & -> & _ & _ & He). congruence. }
  left. eexists _, _, _. split; [|done]. split_and!; try done.
  exists d. split_and!; try done. by apply on_platform_iff.
Qed.

(** ** What the preparation of the binary leaves alone *)

(** The attributes of the cluster in the state *)
Definition attributes s :=
  (bash_ s, control_ s, environ s, running s, locked s).

Section frame.
Context {B} (f : st W → B) `{!WorldFree f, !NextFree f, !TimeoutsFree f}.
#[export] Instance same_unlogged {A} (g : W → (exn + A) * W) : Preserves (same f) (unlogged g).
Proof. intros s. unfold unlogged, same. destruct (g _). apply world_free. Qed.
#[export] Instance same_path_exists p : Preserves (same f) (path_exists (W:=W) p).
Proof. unfold path_exists. apply _. Qed.
#[export] Instance same_timed {A} (m : nat → M (st W) A) :
  (∀ h, Preserves (same f) (m h)) → Preserves (same f) (with_timed_shell m).
Proof. unfold with_timed_shell, with_shell. apply _. Qed.
#[export] Instance same_sh h c : Preserves (same f) (sh (W:=W) h c).
Proof. unfold sh. apply _. Qed.
#[export] Instance same_download url : Preserves (same f) (download py url).
Proof. unfold download, wget, drop_file. apply _. Qed.
#[export] Instance same_image image bin odbc host host_odbc :
  Preserves (same f) (get_clickhouse_binary_from_docker_container py image bin odbc host host_odbc).
Proof. unfold get_clickhouse_binary_from_docker_container. apply _. Qed.
#[export] Instance same_unpack path : Preserves (same f) (unpack_deb (W:=W) path).
Proof. unfold unpack_deb. apply _. Qed.
End frame.

#[export] Instance same_set_version v :
  Preserves (same attributes) (modify (set_version (W:=W) v)).
Proof. by intros s. Qed.
#[export] Instance same_prepare path odbc :
  Preserves (same attributes) (prepare_binary py path odbc).
Proof. unfold prepare_binary. apply _. Qed.

(** ** The commands that prepare the binary *)

(** The commands of the log, with their answers *)
Definition heard s : list said_item := said (trace s).

(** The answer to a command, and the exit code it must have *)
Definition wanted : Type := string * option Z.
Definition plain (command : string) : wanted := (command, None).
Definition answered : list wanted → list said_item → Prop :=
  Forall2 (λ w x, x.1 = w.1 ∧
    ∃ code out, x.2 = inr (mkResult code out) ∧ ∀ k, w.2 = Some k → code = k).

(** [hears m Φ]: the result of [m], when it returns, and the commands that it
    has sent. *)
Definition hears {A} (m : M (st W) A) (Φ : A → list said_item → Prop) : Prop :=
  ∀ s x s', m s = (Ok x, s') → ∃ l, heard s' = heard s ++ l ∧ Φ x l.

Lemma heard_ask {A} e (g : W → (exn + A) * W) :
  (∀ r, said [e r] = []) → Preserves (same heard) (ask e g).
Proof.
  intros He s. unfold ask, same, heard. destruct (g _) as [r w]. simpl.
  unfold said in *. by rewrite omap_app, He, app_nil_r.
Qed.
#[local] Hint Extern 2 (Preserves (same heard) (ask _ _)) =>
  (apply heard_ask; intros; reflexivity) : typeclass_instances.

Lemma hears_mono {A} (m : M (st W) A) (Φ Ψ : A → list said_item → Prop) :
  hears m Φ → (∀ x l, Φ x l → Ψ x l) → hears m Ψ.
Proof. intros Hm HΦ s x s' E. destruct (Hm s x s' E) as (l & ? & ?). eauto. Qed.
Lemma hears_ret {A} (x : A) (Φ : A → list said_item → Prop) : Φ x [] → hears (mret x) Φ.
Proof. intros Hx s ? s' [= <- <-]. exists []. by rewrite app_nil_r. Qed.
Lemma hears_quiet {A} (m : M (st W) A) : Preserves (same heard) m → hears m (λ _ l, l = []).
Proof. intros Hm s x s' E. specialize (Hm s). rewrite E in Hm. exists []. by rewrite app_nil_r. Qed.
Lemma hears_bind {A B} (m : M (st W) A) (f : A → M (st W) B) Φ Ψ :
  hears m Φ → (∀ x, hears (f x) (λ y l, ∀ l1, Φ x l1 → Ψ y (l1 ++ l))) → hears (m ≫= f) Ψ.
Proof.
  intros Hm Hf s y s' (x & s1 & E1 & E2)%M_bind_Ok_inv.
  destruct (Hm _ _ _ E1) as (l1 & Hl1 & ?), (Hf _ _ _ _ E2) as (l2 & Hl2 & ?).
  exists (l1 ++ l2). rewrite Hl2, Hl1, app_assoc. auto.
Qed.
Lemma hears_seq {A B} (m : M (st W) A) (k : M (st W) B) ws Ψ :
  hears m (λ _, answered ws) →
  hears k (λ y l, ∀ l1, answered ws l1 → Ψ y (l1 ++ l)) → hears (m;; k) Ψ.
Proof. intros Hm Hk. eapply hears_bind; [exact Hm|]. intros x. exact Hk. Qed.
Lemma hears_answers {A B} (m : M (st W) A) (k : M (st W) B) ws ws' :
  hears m (λ _, answered ws) → hears k (λ _, answered ws') →
  hears (m;; k) (λ _, answered (ws ++ ws')).
Proof.
  intros Hm Hk. eapply hears_seq; [exact Hm|]. eapply hears_mono; [exact Hk|].
  intros y l Hl l1 Hl1. by apply Forall2_app.
Qed.

Lemma hears_path_exists p : hears (path_exists (W:=W) p) (λ b l, l = [] ∧ ∃ w : W, env_exists p w = b).
Proof. intros s b s' [= <- <-]. exists []. rewrite app_nil_r. eauto. Qed.

Lemma hears_call h c : hears (shell_call (W:=W) h c None) (λ r l, l = [(c, inr r)]).
Proof.
  intros s r s' (t & s1 & [= <- <-] & E)%M_bind_Ok_inv. unfold ask in E.
  destruct (env_call _ _ _ _) as [[e|r'] w]; [done|]. injection E as <- <-.
  exists [(c, inr r')]. split; [|done]. unfold heard. simpl. unfold said. by rewrite omap_app.
Qed.
Lemma hears_sh h c : hears (sh (W:=W) h c) (λ _, answered [plain c]).
Proof.
  eapply hears_bind; [apply hears_call|]. intros [code out]. apply hears_ret. intros ? ->.
  apply Forall2_cons. split; [|by constructor]. split; [done|]. by exists code, out.
Qed.

#[local] Instance heard_exit h : Preserves (same heard) (shell_exit (W:=W) h).
Proof. apply _. Qed.
#[local] Instance heard_new spec : Preserves (same heard) (new_shell (W:=W) spec).
Proof.
  intros s. unfold new_shell. set (m := (_ ;; _)). assert (Preserves (same heard) m) as Hm by apply _.
  apply (Hm (set_next _ s)).
Qed.
#[local] Instance heard_unlogged {A} (f : W → (exn + A) * W) : Preserves (same heard) (unlogged f).
Proof.
  intros s. unfold unlogged, same, heard. destruct (f _). simpl. by rewrite app_nil_r.
Qed.

Lemma hears_timed {A} (m : nat → M (st W) A) Φ :
  (∀ h, hears (m h) Φ) → hears (with_timed_shell m) Φ.
Proof.
  intros Hm. unfold with_timed_shell, with_shell.
  eapply hears_bind; [apply hears_quiet, _|]. intros h.
  eapply hears_bind; [apply hears_quiet, _|]. intros [].
  intros s x s' E. unfold try_finally in E.
  destruct ((set_timeout h (sec 300);; m h) s) as [[y|e|w] s1] eqn:Em;
    [|by destruct (shell_exit h s1) as [[]]|done].
  apply M_bind_Ok_inv in Em as ([] & s2 & [= <-] & Em). destruct (Hm _ _ _ _ Em) as (l & Hl & HΦ).
  pose proof (heard_exit h s1) as Hx. destruct (shell_exit h s1) as [[[]|e|w] s3]; simplify_eq/=.
  exists l. unfold same in Hx. rewrite Hx, Hl. split; [done|]. by intros ? -> ? ->.
Qed.

(** *** The binary that a path names *)

Definition is_url (path : string) : Prop := ∃ t, path = "http://" +:+ t ∨ path = "https://" +:+ t.

(** [located path odbc w p odbc' commands]: the file [p] is what the path
    names, a URL, an image or a file, with the ODBC bridge [odbc'], after the
    commands.  [w] is the world before. *)
Inductive located (path : string) (odbc : option string) (w : W) :
    string → option string → list wanted → Prop :=
  | at_url file :
      is_url path → file = str_take 10 (sha1_hexdigest py path) +:+ "-" +:+ after_last "/" path →
      located path odbc w ("./" +:+ file) odbc
        (if env_exists ("./" +:+ file) w then []
         else [("wget --progress dot " +:+ q path +:+ " -O " +:+ file, Some 0)])
  | in_image image name host :
      path = "docker://" +:+ image →
      host = path_join (gettempdir py) (replace ":" "_" (after_last "/" image)) →
      located path odbc w host (Some (host +:+ "_odbc_bridge")) (plain <$> [
        "docker run -d --name " +:+ q name +:+ " " +:+ image +:+ " | tee";
        "docker cp " +:+ q (name +:+ ":/usr/bin/clickhouse") +:+ " " +:+ q host;
        "docker cp " +:+ q (name +:+ ":/usr/bin/clickhouse-odbc-bridge") +:+ " " +:+
          q (host +:+ "_odbc_bridge");
        "docker stop " +:+ q name; "ls -la " +:+ host])
  | on_disk : ¬ is_url path → (∀ t, path ≠ "docker://" +:+ t) → located path odbc w path odbc [].

(** [unpacked p p' commands]: the binary [p'] is in the file [p]: the file
    itself, or for a package what was extracted from it, now or before. *)
Inductive unpacked (p : string) : string → list wanted → Prop :=
  | no_package : (∀ dir, p ≠ dir +:+ ".deb") → unpacked p p []
  | old_package dir :
      p = dir +:+ ".deb" → (∃ w : W, env_exists (dir +:+ "/clickhouse") w = true) →
      (∃ w : W, env_exists (dir +:+ "/clickhouse-odbc-bridge") w = true) →
      unpacked p ("./" +:+ dir +:+ "/clickhouse") []
  | new_package dir :
      p = dir +:+ ".deb" →
      (∃ w : W, env_exists (dir +:+ "/clickhouse") w = false) ∨
      (∃ w : W, env_exists (dir +:+ "/clickhouse-odbc-bridge") w = false) →
      unpacked p ("./" +:+ dir +:+ "/clickhouse") (plain <$> [
        "ar x " +:+ q p +:+ " --output " +:+ q dir;
        "tar -vxzf " +:+ q (dir +:+ "/data.tar.gz") +:+ " ./usr/bin/clickhouse -O > " +:+
          q (dir +:+ "/clickhouse");
        "chmod +x " +:+ q (dir +:+ "/clickhouse");
        "tar -vxzf " +:+ q (dir +:+ "/data.tar.gz") +:+ " ./usr/bin/clickhouse-odbc-bridge -O > " +:+
          q (dir +:+ "/clickhouse-odbc-bridge");
        "chmod +x " +:+ q (dir +:+ "/clickhouse-odbc-bridge")]).

(** From the path to the absolute path of the binary, which is made
    executable at the end *)
Definition prepared (path : string) odbc w (b : string) (odbc' : option string)
    (commands : list wanted) : Prop :=
  ∃ p p' c c', located path odbc w p odbc' c ∧ unpacked p p' c' ∧ b = abspath (getcwd py) p' ∧
    commands = c ++ c' ++ [plain ("chmod +x " +:+ b)].

Lemma before_last_deb dir : before_last ".deb" (dir +:+ ".deb") = dir.
Proof.
  unfold before_last. assert (cut_last ".deb" (dir +:+ ".deb") = Some (dir, EmptyString)) as ->; [|done].
  induction dir as [|c dir IH]; [done|]. rewrite str_app_cons. cbn [cut_last]. by rewrite IH.
Qed.
Lemma after_first_prefix sep t : after_first sep (sep +:+ t) = t.
Proof.
  unfold after_first. pose proof (startswith_app sep t) as Hp. unfold startswith in Hp.
  assert (cut_first sep (sep +:+ t) = Some (EmptyString, str_drop (slen sep) (sep +:+ t))) as ->.
  { destruct (sep +:+ t); cbn [cut_first]; by rewrite Hp. }
  by rewrite str_drop_app.
Qed.
Lemma is_url_spec path :
  startswith "http://" path || startswith "https://" path = true ↔ is_url path.
Proof.
  unfold is_url. rewrite orb_true_iff, !startswith_spec. split.
  - intros H1. destruct H1 as [ [t ->] | [t ->] ]; eauto.
  - intros (t & [-> | ->]); eauto.
Qed.

Lemma hears_wget h url filename :
  hears (wget (W:=W) h url filename)
    (λ _, answered [("wget --progress dot " +:+ q url +:+ " -O " +:+ filename, Some 0)]).
Proof.
  intros s [] s' E. unfold wget, try_except in E.
  match type of E with match ?m s with _ => _ end = _ => destruct (m s) as [[[]|e|w] s1] eqn:Em end;
    [injection E as <-| |done].
  - apply M_bind_Ok_inv in Em as ([code out] & s2 & Hc & Ha). apply hears_call in Hc as (l & Hl & ->).
    unfold assert_ in Ha. simpl in Ha. destruct (Z.eqb_spec code 0) as [->|]; [|done].
    injection Ha as <-. eexists. split; [exact Hl|]. apply Forall2_cons. split; [|by constructor].
    split; [done|]. exists 0, out. split; [done|]. by intros k [= <-].
  - unfold drop_file in E. apply M_bind_Ok_inv in E as (? & ? & _ & E).
    by apply M_bind_Ok_inv in E as (? & ? & _ & E).
Qed.

Lemma download_located url odbc s p s' :
  is_url url → download py url s = (Ok p, s') →
  ∃ l ws, heard s' = heard s ++ l ∧ answered ws l ∧ located url odbc (world s) p odbc ws.
Proof.
  intros Hu E. unfold download, short_hash in E.
  apply M_bind_Ok_inv in E as (there & s1 & [= <- <-] & E).
  apply M_bind_Ok_inv in E as ([] & s2 & E & [= <- <-]).
  pose proof (at_url url odbc (world s) _ Hu eq_refl) as Hat.
  destruct (env_exists _ (world s)) in E, Hat; cbn [negb when] in E.
  - injection E as <-. exists [], []. rewrite app_nil_r. split_and!; [done|constructor|done].
  - apply (hears_timed _ _ (λ h, hears_wget h _ _)) in E as (l & Hl & Ha). by eexists l, _.
Qed.

Lemma hears_image odbc w image :
  hears (get_clickhouse_binary_from_docker_container py ("docker://" +:+ image)
           "/usr/bin/clickhouse" "/usr/bin/clickhouse-odbc-bridge" None None)
    (λ r l, ∃ ws, located ("docker://" +:+ image) odbc w r.1 (Some r.2) ws ∧ answered ws l).
Proof.
  unfold get_clickhouse_binary_from_docker_container. cbv zeta. rewrite after_first_prefix. simpl default.
  eapply hears_bind; [apply hears_quiet, _|]. intros name.
  eapply hears_seq with (ws := plain <$> [_; _; _; _]).
  { apply hears_timed. intros h. rewrite !fmap_cons, fmap_nil.
    eapply (hears_answers _ _ [_] [_; _; _]); [apply hears_sh|].
    eapply (hears_answers _ _ [_] [_; _]); [apply hears_sh|].
    eapply (hears_answers _ _ [_] [_]); apply hears_sh. }
  eapply hears_seq with (ws := [plain _]); [apply hears_timed; intros h; apply hears_sh|].
  apply hears_ret. intros l2 H2 l1 H1 l0 ->. eexists. split; [by apply (in_image _ _ _ image name)|].
  rewrite app_nil_r. exact (Forall2_app H1 H2).
Qed.

Lemma hears_unpack dir :
  hears (unpack_deb (W:=W) (dir +:+ ".deb"))
    (λ p l, ∃ ws, unpacked (dir +:+ ".deb") p ws ∧ answered ws l).
Proof.
  unfold unpack_deb. cbv zeta. rewrite before_last_deb.
  eapply hears_bind; [apply hears_quiet, _|]. intros [].
  eapply (hears_bind _ _ (λ _ l, ∃ ws,
    unpacked (dir +:+ ".deb") ("./" +:+ dir +:+ "/clickhouse") ws ∧ answered ws l)).
  2: { intros []. apply hears_ret. intros l1 H1 l0 ->. by rewrite app_nil_r. }
  apply hears_timed. intros h.
  eapply hears_bind; [apply hears_path_exists|]. intros bin.
  eapply hears_bind; [apply hears_path_exists|]. intros bridge.
  destruct (negb bin || negb bridge) eqn:Hb; simpl when.
  - eapply hears_mono.
    { eapply (hears_answers _ _ [_] [_; _; _; _]); [apply hears_sh|].
      eapply (hears_answers _ _ [_; _] [_; _]); eapply (hears_answers _ _ [_] [_]); apply hears_sh. }
    intros [] l Hl l2 [-> [w2 H2]] l1 [-> [w1 H1]]. eexists. split; [|exact Hl].
    apply new_package; [done|].
    apply orb_true_iff in Hb as [Hb|Hb]; apply negb_true_iff in Hb as ->; [left|right]; eauto.
  - apply hears_ret. intros l2 [-> [w2 H2]] l1 [-> [w1 H1]].
    apply orb_false_iff in Hb as [Hb1%negb_false_iff Hb2%negb_false_iff]. subst bin bridge.
    exists []. split; [|constructor]. apply old_package; eauto.
Qed.
Lemma hears_unpacked p :
  hears (if endswith ".deb" p then unpack_deb p else mret p : M (st W) string)
    (λ p' l, ∃ ws, unpacked p p' ws ∧ answered ws l).
Proof.
  destruct (endswith ".deb" p) eqn:He.
  - apply endswith_spec in He as [dir ->]. apply hears_unpack.
  - apply hears_ret. exists []. split; [|constructor]. apply no_package. intros dir ->.
    by rewrite (proj2 (endswith_spec _ _)) in He by eauto.
Qed.

(** The first step of [prepare_binary]: where the path leads, and the version
    that the tag of an image gives *)
Lemma located_binary path odbc s r s' :
  (if startswith "http://" path || startswith "https://" path then
     path ← download py path; mret (path, odbc)
   else if startswith "docker://" path then
     v ← gets clickhouse_version;
     modify (set_version (docker_version v path));;
     r ← get_clickhouse_binary_from_docker_container py path "/usr/bin/clickhouse"
           "/usr/bin/clickhouse-odbc-bridge" None None;
     mret (r.1, Some r.2)
   else mret (path, odbc) : M (st W) (string * option string)) s = (Ok r, s') →
  ∃ l ws, heard s' = heard s ++ l ∧ answered ws l ∧ located path odbc (world s) r.1 r.2 ws ∧
    clickhouse_version s' = if startswith "docker://" path
                            then docker_version (clickhouse_version s) path
                            else clickhouse_version s.
Proof.
  intros E. destruct (startswith "http://" path || startswith "https://" path) eqn:Hu.
  - apply is_url_spec in Hu. apply M_bind_Ok_inv in E as (p & s1 & E & [= <- <-]).
    destruct (download_located _ odbc _ _ _ Hu E) as (l & ws & Hl & Ha & Hw).
    pose proof (preserves (R:=same clickhouse_version) (m:=download py path) s) as Hv.
    rewrite E in Hv. exists l, ws. split_and!; [done..|].
    assert (startswith "docker://" path = false) as -> by (clear - Hu; by destruct Hu as (t & [-> | ->])).
    exact Hv.
  - destruct (startswith "docker://" path) eqn:Hd.
    + apply startswith_spec in Hd as [image ->].
      apply M_bind_Ok_inv in E as (v & s1 & [= <- <-] & E).
      apply M_bind_Ok_inv in E as ([] & s1 & [= <-] & E).
      apply M_bind_Ok_inv in E as (b & s2 & E & [= <- <-]).
      set (s1 := set_version _ s) in E.
      destruct (hears_image odbc (world s) image _ _ _ E) as (l & Hl & ws & Hw & Ha).
      match type of E with ?m _ = _ =>
        pose proof (preserves (R:=same clickhouse_version) (m:=m) s1) as Hv end.
      rewrite E in Hv. exists l, ws. split_and!; done.
    + injection E as <- <-. exists [], []. rewrite app_nil_r. split_and!; [done|constructor| |done].
      simpl. apply on_disk.
      * intros Hn. apply is_url_spec in Hn. by rewrite Hn in Hu.
      * intros t ->. by rewrite startswith_app in Hd.
Qed.

Lemma prepare_binary_spec path odbc s r s' :
  prepare_binary py path odbc s = (Ok r, s') →
  ∃ l ws, heard s' = heard s ++ l ∧ answered ws l ∧ prepared path odbc (world s) r.1 r.2 ws ∧
    clickhouse_version s' = if startswith "docker://" path
                            then docker_version (clickhouse_version s) path
                            else clickhouse_version s.
Proof.
  intros E. unfold prepare_binary in E.
  apply M_bind_Ok_inv in E as (p & s1 & E1 & E).
  destruct (located_binary _ _ _ _ _ E1) as (l1 & ws1 & Hl1 & Ha1 & Hw & Hv).
  apply M_bind_Ok_inv in E as (p' & s2 & E2 & E).
  destruct (hears_unpacked _ _ _ _ E2) as (l2 & Hl2 & ws2 & Hu & Ha2).
  assert (clickhouse_version s2 = clickhouse_version s1) as Hv2.
  { destruct (endswith ".deb" p.1); [|by injection E2 as <- <-].
    pose proof (preserves (R:=same clickhouse_version) (m:=unpack_deb p.1) s1) as Hv2.
    by rewrite E2 in Hv2. }
  apply M_bind_Ok_inv in E as ([] & s3 & E3 & [= <- <-]).
  pose proof (same_timed clickhouse_version _
    (λ h, same_sh clickhouse_version h ("chmod +x " +:+ abspath (getcwd py) p')) s2) as Hv3.
  rewrite E3 in Hv3.
  apply (hears_timed _ _ (λ h, hears_sh h _)) in E3 as (l3 & Hl3 & Ha3).
  exists (l1 ++ l2 ++ l3). eexists. split_and!.
  - by rewrite Hl3, Hl2, Hl1, !app_assoc.
  - exact (Forall2_app Ha1 (Forall2_app Ha2 Ha3)).
  - by eexists _, _, _, _.
  - simpl in Hv3. unfold same in Hv3. congruence.
Qed.

(** C35: the constructor of the cluster.  When one of its three paths is
    missing it raises [TypeError] before any command is run.  Otherwise, if it
    returns, the object has the given settings, docker-compose is called with
    the paths that were checked (on ARM those of the variant), and the
    object is one on which the methods can start: no terminals, no lock held,
    not running.  Without a binary, no command is run and the ODBC bridge is
    the given one.  With one, exactly the commands were answered that
    download it, copy it from its image or unpack its package, where that is
    needed, and make it executable; the object has its absolute path and its
    ODBC bridge, and the version of an image is that of its tag unless one was
    known. *)
Theorem cluster_init_outcome a s r s' :
  directory (getcwd py) = true → Cluster_init py a s = (r, s') →
  ((∀ configs dir file, ¬ named a (world s) configs dir file) ∧
   trace s' = trace s ∧ ∃ m, r = Exc (TypeError m)) ∨
  ∃ configs dir file, named a (world s) configs dir file ∧ ∀ cl, r = Ok cl →
    (local cl = a_local a ∧ nodes cl = default [] (a_nodes a) ∧
     thread_fuzzer cl = a_thread_fuzzer a ∧
     collect_service_logs cl = a_collect_service_logs a ∧
     use_zookeeper_nodes cl = a_use_zookeeper_nodes a ∧ debug cl = settings_debug py) ∧
    (configs_dir cl = configs ∧ docker_compose_project_dir cl = dir ∧
     docker_compose cl = a_docker_compose a +:+ " --ansi never --project-directory " +:+
                         q dir +:+ " --file " +:+ q file) ∧
    shells_ok s' ∧ attributes s' = ([], None, default [] (a_environ a), false, false) ∧
    if truthy (a_binary a)
    then ∃ path b l commands,
      a_binary a = Some path ∧ clickhouse_binary_path cl = Some b ∧ startswith "/" b = true ∧
      prepared path (a_odbc_bridge a) (world s) b (clickhouse_odbc_bridge_binary_path cl) commands ∧
      heard s' = heard s ++ l ∧ answered commands l ∧
      clickhouse_version s' = if startswith "docker://" path
                              then docker_version (clickhouse_version s) path
                              else clickhouse_version s
    else clickhouse_binary_path cl = a_binary a ∧
         clickhouse_odbc_bridge_binary_path cl = a_odbc_bridge a ∧
         trace s' = trace s ∧ clickhouse_version s' = clickhouse_version s.
Proof.
  intros Hcwd E. unfold Cluster_init in E.
  erewrite M_bind_Ok in E by done. set (s1 := set_locked false _) in E.
  pose proof (find_directories_spec a s1) as Hf. change (world s1) with (world s) in Hf.
  destruct Hf as [(configs & dir & file & Hn & Hf)|(Hn & m & Hf)].
  2: { left. unfold mbind, M_bind in E. rewrite Hf in E. injection E as <- <-. eauto. }
  right. exists configs, dir, file. split; [done|]. clear Hn.
  rewrite (M_bind_Ok _ _ _ _ _ Hf) in E. clear Hf. intros cl ->.
  apply M_bind_Ok_inv in E as (b & s2 & Hb & [= <- <-]). cbn [local nodes thread_fuzzer
    collect_service_logs use_zookeeper_nodes debug configs_dir docker_compose_project_dir
    docker_compose clickhouse_binary_path clickhouse_odbc_bridge_binary_path].
  split; [done|]. split; [done|].
  assert (shells_ok s2 ∧ attributes s2 = attributes s1) as [Hok Hat].
  { assert (attributes s2 = attributes s1) as Hat.
    { destruct (a_binary a) as [p|]; [|by injection Hb as <- <-].
      destruct (String.eqb p EmptyString); [by injection Hb as <- <-|].
      apply M_bind_Ok_inv in Hb as (x & s3 & Hx & [= <- <-]).
      pose proof (preserves (R:=same attributes) (m:=prepare_binary py p (a_odbc_bridge a)) s1) as Hp.
      by rewrite Hx in Hp. }
    split; [|done]. unfold attributes in Hat. simpl in Hat. injection Hat as A1 A2 A3 A4 A5.
    constructor; rewrite ?A1, ?A2; try done; [constructor|constructor|set_solver]. }
  split; [done|]. split; [exact Hat|].
  destruct (a_binary a) as [p|]; cbn [truthy]; [|by injection Hb as <- <-].
  destruct (String.eqb p EmptyString); cbn [negb]; [by injection Hb as <- <-|].
  apply M_bind_Ok_inv in Hb as (x & s3 & Hx & [= <- <-]).
  destruct (prepare_binary_spec _ _ _ _ _ Hx) as (l & ws & Hl & Ha & Hp & Hv).
  exists p, x.1, l, ws. split_and!; try done.
  destruct Hp as (? & ? & ? & ? & _ & _ & -> & _). by apply abspath_rooted.
Qed.

(** ** The binary of a package *)

(** The binary that the cluster uses is the file that was extracted from the
    package (or was there before) when the package was given by a relative
    path.  For an absolute path the binary is looked for at that path below
    the working directory, where nothing was written. *)
Lemma unpacked_binary dir odbc w b odbc' commands :
  directory (getcwd py) = true → ¬ is_url (dir +:+ ".deb") →
  (∀ t, dir +:+ ".deb" ≠ "docker://" +:+ t) →
  prepared (dir +:+ ".deb") odbc w b odbc' commands →
  let file := dir +:+ "/clickhouse" in
  b = (if startswith "/" file then normpath (getcwd py +:+ file) else abspath (getcwd py) file) ∧
  odbc' = odbc.
Proof.
  intros Hcwd Hu Hd (p & p' & c & c' & Hl & Hp & -> & _) file.
  assert (p = dir +:+ ".deb" ∧ odbc' = odbc) as [-> ->].
  { destruct Hl as [file' Hu'|image name host Hi|]; [by destruct Hu|by destruct (Hd image)|done]. }
  split; [|done]. assert (p' = "./" +:+ file) as ->; [|by apply abspath_dot].
  destruct Hp as [Hn|d He|d He]; [by destruct (Hn dir)| |].
  all: apply (f_equal (before_last ".deb")) in He; rewrite !before_last_deb in He; by subst.
Qed.

(** A [wget] that returns ended with code 0; one that fails has removed the
    file that it left. *)
Lemma wget_outcome h url filename s r s' :
  wget h url filename s = (r, s') →
  let command := "wget --progress dot " +:+ q url +:+ " -O " +:+ filename in
  let '(answer, w) := env_call h command (default 0 (timeouts s !! h)) (world s) in
  match r with
  | Ok _ => ∃ out, answer = inr (mkResult 0 out)
  | Exc _ => env_exists filename w = true → world s' = (env_remove filename w).2
  | Stuck _ => False
  end.
Proof.
  unfold wget, try_except, shell_call, ask, mbind, M_bind, gets. simpl.
  assert (Hh : ∀ e s1 r s', drop_file filename e s1 = (r, s') →
    match r with
    | Ok _ | Stuck _ => False
    | Exc _ => env_exists filename (world s1) = true →
               world s' = (env_remove filename (world s1)).2
    end).
  { intros e s1 r' s1'. unfold drop_file, path_exists, mbind, M_bind, gets, unlogged. simpl.
    destruct (env_exists filename (world s1)) eqn:Ex; simpl; [|by intros [= <- <-]].
    destruct (env_remove filename (world s1)) as [[x|[]] w'] eqn:Er; by intros [= <- <-]. }
  destruct (env_call _ _ _ _) as [[e|[code out]] w]; simpl.
  - intros E. apply Hh in E. by destruct r.
  - destruct (code =? 0) eqn:Hc; simpl.
    + intros [= <- <-]. exists out. by apply Z.eqb_eq in Hc as ->.
    + intros E. apply Hh in E. by destruct r.
Qed.
End facts.

(** ** Examples *)

(** The scripted world with a file system in which all changes succeed *)
Definition script_files : FileEnv Z := {|
  env_mkdir _ := tick (inr tt);
  env_makedirs _ := tick (inr tt);
  env_remove _ := tick (inr tt);
  env_uuid := tick "0c7b3e0e"
|}.
Definition demo_process : process :=
  mkProcess "/work" "/work/suite" "/tmp" "aarch64" (λ s, s) false.
Definition demo_args (binary : option string) : cluster_args :=
  mkClusterArgs false binary None None (Some [("clickhouse", ["clickhouse1"])]) "docker-compose"
    (Some "/work/suite_env") "docker-compose.yml" None false false false.
(** The scripted world has every file. *)
Definition demo_init (binary : option string) : res config * st Z :=
  @Cluster_init Z (script_env healthy) script_files demo_process (demo_args binary) (init [] 0).

Definition binary_of (r : res config) : option string :=
  match r with Ok cl => clickhouse_binary_path cl | _ => None end.

Example demo_relative : binary_of (demo_init (Some "pkgs/ch.deb")).1 = Some "/work/pkgs/ch/clickhouse".
Proof. by_compute. Qed.
Example demo_absolute : binary_of (demo_init (Some "/home/u/ch.deb")).1 = Some "/work/home/u/ch/clickhouse".
Proof. by_compute. Qed.
Example demo_image :
  (λ '(r, s), (binary_of r, clickhouse_version s))
    (demo_init (Some "docker://clickhouse/clickhouse-server:22.3.6.5")) =
  (Some "/tmp/clickhouse-server_22.3.6.5", Some "22.3.6.5").
Proof. by_compute. Qed.

(** A package by its absolute path *)
Definition demo_package : res config * st Z := Eval vm_compute in demo_init (Some "/home/u/ch.deb").

Lemma cluster_init_outcome_witness :
  ∃ cl, demo_package.1 = Ok cl ∧
  docker_compose cl = "docker-compose --ansi never --project-directory " +:+
    q "/work/suite_env_arm64" +:+ " --file " +:+ q "/work/suite_env_arm64/docker-compose.yml" ∧
  ∃ dir, on_platform demo_process "/work/suite_env" dir ∧ docker_compose_project_dir cl = dir ∧
  ∃ b l commands, clickhouse_binary_path cl = Some b ∧ startswith "/" b = true ∧
    heard demo_package.2 = [] ++ l ∧ answered commands l ∧
    b = "/work/home/u/ch/clickhouse".
Proof.
  pose proof (@cluster_init_outcome Z (script_env healthy) script_files demo_process
    (demo_args (Some "/home/u/ch.deb")) (init [] 0) demo_package.1 demo_package.2
    ltac:(by vm_compute) ltac:(by vm_compute)) as Ho.
  destruct Ho as [(_ & _ & m & Hm)|(configs & dir & file & Hn & Ho)]; [by vm_compute in Hm|].
  destruct Hn as (_ & (p & Hp & _ & Hd) & _). injection Hp as <-.
  eexists. split; [by vm_compute|]. split; [by vm_compute|]. exists dir.
  destruct (Ho _ ltac:(by vm_compute)) as (_ & (_ & Hdir & _) & _ & _ & Hb).
  split; [done|]. split; [exact Hdir|].
  destruct Hb as (path & b & l & commands & _ & Hb & Hs & _ & Hl & Ha & _).
  exists b, l, commands. split_and!; [done..|]. by vm_compute in Hb; injection Hb as <-.
Defined.
