(* ===== verification/SslKeeper.v ===== *)
(** * The cluster of the ssl_keeper suite

    ssl_keeper/helpers/cluster.py is a copy of helpers/cluster.py that differs
    in [node_container_id], in [Cluster.up] and in [query], which has no
    [file_output].  This file holds the two methods that behave differently,
    built from the definitions of the parts that are the same text. *)
From stdpp Require Import gmap.
From S2P Require Import Prelude PyStr PyDict PyMonad World Cluster Shells Lifecycle.
Local Open Scope Z_scope.

Section ssl_keeper.
Context {W : Type} `{Env W, Retrying W}.
Variables (fuel : nat) (cl : config).
Abbreviation M := (M (st W)).

(** The loop of [Cluster.node_container_id]: the time is only looked at after
    a time-out, and there is no pause between attempts. *)
Fixpoint ssl_container_id_loop (n : nat) (node : string) (timeout time_start : Z) : M string :=
  match n with
  | O => hang OutOfFuel
  | S n =>
      found ← try_except
        (shell ← control_shell fuel;
         c ← shell_call shell (docker_compose cl +:+ " ps -q " +:+ node) (Some timeout);
         let container_id := strip (output c) in
         mret (if (exitcode c =? 0) && (1 <? slen container_id)%nat
               then inl container_id else inr timeout))
        (λ e, match e with
              | ExpectTimeoutError =>
                  close_control_shell;;
                  t ← now;
                  let timeout := timeout - (t - time_start) in
                  if timeout <=? 0
                  then raise (RuntimeError ("failed to get docker container id for the " +:+
                                            node +:+ " service"))
                  else mret (inr timeout)
              | e => raise e
              end);
      match found with
      | inl container_id => mret container_id
      | inr timeout => ssl_container_id_loop n node timeout time_start
      end
  end.
Definition ssl_node_container_id (node : string) (timeout : Z) : M string :=
  time_start ← now; ssl_container_id_loop fuel node timeout time_start.

(** [Cluster.up]: the servers are started without waiting for an answer. *)
Definition ssl_up_nodes : M unit :=
  when (use_zookeeper_nodes cl)
    (l ← nodes_of cl "zookeeper";
     for_ l (λ name,
       wait_healthy fuel cl name (sec 300);;
       when (startswith "zookeeper" name) (start_zookeeper fuel cl name)));;
  l ← nodes_of cl "clickhouse";
  for_ l (λ name,
    wait_healthy fuel cl name (sec 300);;
    when (startswith "clickhouse" name)
      (start_clickhouse fuel cl name (sec 300) false None (thread_fuzzer cl))).
Definition ssl_up (timeout : Z) : M unit :=
  when (local cl) (up_local fuel cl);;
  up_compose fuel cl timeout;;
  ssl_up_nodes;;
  modify (set_running true).

(** *** Attempts *)

Definition ps_command (node : string) : string := docker_compose cl +:+ " ps -q " +:+ node.
(** An answer without a container id *)
Definition no_id (r : shell_result) : bool :=
  negb ((exitcode r =? 0) && (1 <? slen (strip (output r)))%nat).

(** One attempt with an open control shell and an answer *)
Lemma attempt_answered n node timeout t0 s h r w :
  control_ s = Some h →
  env_call h (ps_command node) timeout (world s) = (inr r, w) →
  ssl_container_id_loop (S n) node timeout t0 s =
  let s' := set_world [ECall h (ps_command node) timeout (inr r)] w s in
  if no_id r then ssl_container_id_loop n node timeout t0 s'
  else (Ok (strip (output r)), s').
Proof.
  intros Hc Hw. cbn [ssl_container_id_loop].
  unfold try_except, control_shell, shell_call, mbind, M_bind, gets. simpl. rewrite Hc. simpl.
  unfold ask. fold (ps_command node). rewrite Hw. simpl. unfold no_id.
  by destruct ((exitcode r =? 0) && _).
Qed.

(** While docker-compose answers without a container id, the copy never
    gives up: whatever its timeout and fuel, it asks again at once, never
    looks at the clock, and has no result. *)
Lemma container_id_busy_loop node timeout s h :
  control_ s = Some h →
  (∀ w : W, ∃ r w', env_call h (ps_command node) timeout w = (inr r, w') ∧ no_id r = true) →
  ∀ n t0, ∃ s' answers,
    ssl_container_id_loop n node timeout t0 s = (Stuck OutOfFuel, s') ∧
    length answers = n ∧
    trace s' = trace s ++ ((λ r, ECall h (ps_command node) timeout (inr r)) <$> answers).
Proof.
  intros Hc Hw n. revert s Hc. induction n as [|n IH]; intros s Hc t0.
  - exists s, []. by rewrite app_nil_r.
  - destruct (Hw (world s)) as (r & w' & Er & Hr).
    rewrite (attempt_answered n _ _ _ _ _ _ _ Hc Er). cbv zeta. rewrite Hr.
    destruct (IH (set_world [ECall h (ps_command node) timeout (inr r)] w' s) Hc t0)
      as (s' & answers & E & Hl & Ht).
    exists s', (r :: answers). split; [done|]. split; [by simpl; rewrite Hl|].
    rewrite Ht. simpl. by rewrite <-app_assoc.
Qed.

(** When the first answer has an id, the copy and the original agree. *)
Lemma container_id_agrees n node timeout t0 s h r w :
  control_ s = Some h →
  env_call h (ps_command node) timeout (world s) = (inr r, w) → no_id r = false →
  ssl_container_id_loop (S n) node timeout t0 s =
  container_id_loop fuel cl (S n) node timeout t0 s.
Proof.
  intros Hc Hw Hr. rewrite (attempt_answered _ _ _ _ _ _ _ _ Hc Hw). cbv zeta. rewrite Hr.
  cbn [container_id_loop].
  unfold try_except, control_shell, shell_call, mbind, M_bind, gets. simpl. rewrite Hc. simpl.
  unfold ask. fold (ps_command node). rewrite Hw. simpl. unfold no_id in Hr.
  apply negb_false_iff in Hr. by rewrite Hr.
Qed.
End ssl_keeper.

(** docker-compose does not know the service. *)
Definition no_service : string → exn + shell_result := λ _, inr (mkResult 1 EmptyString).

Lemma container_id_busy_loop_witness :
  ∃ s' answers,
    @ssl_container_id_loop Z (script_env no_service) 5 plain_config 7 "clickhouse1" (sec 300) 0
      (set_control (Some 0%nat) (init [] 0)) = (Stuck OutOfFuel, s') ∧ length answers = 7%nat ∧
    trace s' = trace (set_control (Some 0%nat) (init [] 0)) ++
      ((λ r, ECall 0 (ps_command plain_config "clickhouse1") (sec 300) (inr r)) <$> answers).
Proof.
  apply (@container_id_busy_loop Z (script_env no_service) 5 plain_config "clickhouse1" (sec 300)
    (set_control (Some 0%nat) (init [] 0)) 0%nat eq_refl).
  intros w. eexists _, _. split; reflexivity.
Defined.
