(* ===== verification/Order.v ===== *)
(** * What was said, in what order

    A logic for the order of commands: [says m Φ] relates the result of a run
    that returns to the commands and answers that it added to the log, with
    the nodes on whose terminals they were given.  It is applied to the methods
    that start and stop servers (Lifecycle). *)
From stdpp Require Import gmap.
From S2P Require Import Prelude PyStr PyDict PyMonad Version World Cluster Shells Commands.
From S2P Require Import Query Lifecycle.
Local Open Scope Z_scope.

(** The terminal [h] was opened on the node called [n]. *)
Definition opened_on (full : list event) (n : string) (h : nat) : Prop :=
  ∃ spec, EOpen h spec ∈ full ∧ node_str (spec_name spec) = n.
(** A command with the node that it is known to have been given on *)
Definition placed_item : Type := option string * said_item.
Definition calls (tr : list event) : list (nat * said_item) :=
  omap (λ e, match e with ECall h c _ r => Some (h, (c, r)) | _ => None end) tr.
(** [xs] are the commands of [tr], and the nodes in [xs] are those on which
    the terminals of the commands were opened, according to the log [full]. *)
Definition spoken (full tr : list event) (xs : list placed_item) : Prop :=
  Forall2 (λ c x, c.2 = x.2 ∧ ∀ n, x.1 = Some n → opened_on full n c.1) (calls tr) xs.
(** The item satisfies [P] and was said on the node called [n]. *)
Definition on (n : string) (P : said_item → Prop) (x : placed_item) : Prop :=
  x.1 = Some n ∧ P x.2.

Lemma said_calls tr : snd <$> calls tr = said tr.
Proof. induction tr as [|[] tr IH]; simpl; [done|try done..]. by f_equal. Qed.
Lemma opened_mono full k n h : opened_on full n h → opened_on (full ++ k) n h.
Proof. intros (spec & Hs & Hn). exists spec. rewrite elem_of_app. auto. Qed.
Lemma spoken_mono full k tr xs : spoken full tr xs → spoken (full ++ k) tr xs.
Proof. intros H. eapply Forall2_impl; [exact H|]. intros c x [? Hx]. eauto using opened_mono. Qed.
Lemma spoken_app full tr1 tr2 xs ys :
  spoken full tr1 xs → spoken full tr2 ys → spoken full (tr1 ++ tr2) (xs ++ ys).
Proof. unfold spoken, calls. rewrite omap_app. apply Forall2_app. Qed.
(** Commands of unknown nodes *)
Lemma spoken_unknown full tr : spoken full tr (pair None <$> said tr).
Proof.
  rewrite <-said_calls. unfold spoken. generalize (calls tr). intros l.
  induction l as [|c l IH]; [constructor|]. rewrite !fmap_cons. by constructor.
Qed.
Lemma on_said n ps xs : in_order (on n <$> ps) xs → in_order ps (snd <$> xs).
Proof.
  intros (ys & Hy & Hs). exists (snd <$> ys). split; [|by apply fmap_sublist].
  apply Forall2_fmap_r. rewrite Forall2_fmap_l in Hy. eapply Forall2_impl; [exact Hy|].
  by intros p y [_ Hp].
Qed.

Section says.
Context {W : Type} `{Env W, Retrying W, !RetryLaws W}.

(** The nodes are right when the terminals are well-kept at first, and [P]. *)
Definition says_if {A} (P : st W → Prop) (m : M (st W) A) (Φ : A → list placed_item → Prop) : Prop :=
  ∀ s a s', m s = (Ok a, s') → ∃ tr xs, trace s' = trace s ++ tr ∧ snd <$> xs = said tr ∧
    (shells_ok s → P s → shells_ok s' ∧ spoken (trace s') tr xs) ∧ Φ a xs.
Definition says {A} : M (st W) A → (A → list placed_item → Prop) → Prop := says_if (λ _, True).

Lemma says_mono {A} (m : M (st W) A) (Φ Ψ : A → list placed_item → Prop) :
  says m Φ → (∀ a l, Φ a l → Ψ a l) → says m Ψ.
Proof. intros Hm HΦ s a s' E. destruct (Hm s a s' E) as (tr & xs & ? & ? & ? & ?). eauto 8. Qed.

Lemma says_log {A} (m : M (st W) A) :
  Preserves log_grows m → Preserves kept m → says m (λ _ _, True).
Proof.
  intros Hm Hk s a s' E. specialize (Hm s). specialize (Hk s). rewrite E in Hm, Hk.
  destruct Hm as [tr Ht]. simpl in *. exists tr, (pair None <$> said tr). split_and!; [done| |intros Hok _|done].
  - rewrite <-list_fmap_compose. apply list_fmap_id.
  - split; [by apply Hk|apply spoken_unknown].
Qed.

Lemma says_if_bind {A B} P (m : M (st W) A) (f : A → M (st W) B) Φ Ψ :
  says_if P m Φ → (∀ a, says (f a) (λ b l, ∀ l1, Φ a l1 → Ψ b (l1 ++ l))) → says_if P (m ≫= f) Ψ.
Proof.
  intros Hm Hf s b s' E. unfold mbind, M_bind in E.
  destruct (m s) as [[a|e|w] s1] eqn:E1; try done.
  destruct (Hm s a s1 E1) as (tr1 & xs1 & Ht1 & Hs1 & Hk1 & H1).
  destruct (Hf a s1 b s' E) as (tr2 & xs2 & Ht2 & Hs2 & Hk2 & H2). exists (tr1 ++ tr2), (xs1 ++ xs2).
  split_and!; [by rewrite Ht2, Ht1, app_assoc| |intros Hok HP|by apply H2].
  - unfold said in *. by rewrite omap_app, fmap_app, Hs1, Hs2.
  - destruct (Hk1 Hok HP) as [Hok1 Hp1]. destruct (Hk2 Hok1 I) as [Hok2 Hp2]. split; [done|].
    apply spoken_app; [|done]. rewrite Ht2. by apply spoken_mono.
Qed.
Lemma says_bind {A B} (m : M (st W) A) (f : A → M (st W) B) Φ Ψ :
  says m Φ → (∀ a, says (f a) (λ b l, ∀ l1, Φ a l1 → Ψ b (l1 ++ l))) → says (m ≫= f) Ψ.
Proof. apply says_if_bind. Qed.

Lemma says_ret {A} (a : A) (Φ : A → list placed_item → Prop) :
  Φ a [] → says (mret a : M (st W) A) Φ.
Proof.
  intros Ha s ? s' [= <- <-]. exists [], []. rewrite app_nil_r. split_and!; [done..|split; [done|constructor]|done].
Qed.

Lemma says_raise {A} e (Φ : A → list placed_item → Prop) : says (raise e : M (st W) A) Φ.
Proof. by intros s a s'. Qed.

Lemma says_when b (m : M (st W) unit) Φ :
  (b = true → says m Φ) → (b = false → Φ tt []) → says (when b m) Φ.
Proof. destruct b; simpl; intros H1 H2; [auto|]. apply says_ret. auto. Qed.

(** What an attempt says, after some more. *)
Lemma says_retries t d body Φ :
  (∀ i, Preserves log_grows (body i)) → (∀ i, Preserves kept (body i)) → (∀ i, says (body i) Φ) →
  says (retries t d body) (λ a l, ∃ l1 l2, l = l1 ++ l2 ∧ Φ a l2).
Proof.
  intros Hp Hk Hb s [] s' E. destruct (retries_ok t d body s s' E) as (i & s1 & Ei & HR).
  destruct (HR log_grows log_grows_preorder Hp ltac:(intros; unfold sleep; apply _)) as [tr1 Ht1].
  pose proof (HR kept kept_preorder Hk ltac:(intros; unfold sleep; apply _)) as Hk1.
  destruct (Hb i s1 tt s' Ei) as (tr2 & xs & Ht2 & Hs2 & Hk2 & H2).
  exists (tr1 ++ tr2), ((pair None <$> said tr1) ++ xs). split_and!.
  - by rewrite Ht2, Ht1, app_assoc.
  - rewrite fmap_app, Hs2, <-list_fmap_compose. unfold said. rewrite omap_app. f_equal. apply list_fmap_id.
  - intros Hok _. destruct (Hk2 (Hk1 Hok) I) as [? ?]. split; [done|].
    apply spoken_app; [apply spoken_unknown|done].
  - by eexists _, _.
Qed.

Variables (fuel : nat) (cl : config).

(** *** The log of the methods *)

#[export] Instance log_open_loop n open bound failure timeout t0 last :
  Preserves log_grows open → (∀ l, Preserves log_grows (bound l)) →
  Preserves log_grows (open_loop (W:=W) n open bound failure timeout t0 last).
Proof.
  intros Ho Hb. revert last. induction n as [|n IH]; intros last; cbn [open_loop]; [apply _|].
  unfold open_retry, probe. apply _.
Qed.
Lemma log_modify (f : st W → st W) : (∀ s, trace (f s) = trace s) → Preserves log_grows (modify f).
Proof. intros Hf s. exists []. simpl. by rewrite app_nil_r. Qed.
End says.

#[export] Hint Extern 0 (Preserves log_grows (modify _)) =>
  (apply log_modify; intros ?; reflexivity) : typeclass_instances.

Section log_methods.
Context {W : Type} `{Env W}.
Variables (fuel : nat) (cl : config).

#[export] Instance log_local_shell l : Preserves log_grows (local_shell (W:=W) l).
Proof. unfold local_shell. apply _. Qed.
#[export] Instance log_control_shell : Preserves log_grows (control_shell (W:=W) fuel).
Proof. unfold control_shell. apply _. Qed.
#[export] Instance log_close_control_shell : Preserves log_grows (close_control_shell (W:=W)).
Proof. unfold close_control_shell. apply _. Qed.
#[export] Instance log_container_id_loop n node timeout t0 :
  Preserves log_grows (container_id_loop (W:=W) fuel cl n node timeout t0).
Proof. revert timeout. induction n as [|n IH]; intros timeout; cbn [container_id_loop]; apply _. Qed.
#[export] Instance log_node_container_id node timeout :
  Preserves log_grows (node_container_id (W:=W) fuel cl node timeout).
Proof. unfold node_container_id. apply _. Qed.
#[export] Instance log_bash_at id : Preserves log_grows (bash_at (W:=W) id).
Proof. unfold bash_at. apply _. Qed.
#[export] Instance log_close_stale : Preserves log_grows (close_stale (W:=W)).
Proof. unfold close_stale. apply _. Qed.
#[export] Instance log_open_bash id node timeout cmd :
  Preserves log_grows (open_bash (W:=W) fuel cl id node timeout cmd).
Proof. unfold open_bash, new_bash. apply _. Qed.
#[export] Instance log_bash node timeout cmd :
  Preserves log_grows (bash (W:=W) fuel cl node timeout cmd).
Proof. unfold bash. apply _. Qed.
#[export] Instance log_bash0 node : Preserves log_grows (bash0 (W:=W) fuel cl node).
Proof. unfold bash0. apply _. Qed.
#[export] Instance log_close_bash node : Preserves log_grows (close_bash (W:=W) node).
Proof. unfold close_bash. apply _. Qed.
#[export] Instance log_close_bashes name : Preserves log_grows (close_bashes (W:=W) name).
Proof. unfold close_bashes. apply _. Qed.
#[export] Instance log_check_exitcode e r : Preserves log_grows (check_exitcode (W:=W) e r).
Proof. unfold check_exitcode. apply _. Qed.
#[export] Instance log_command node cmd a : Preserves log_grows (command (W:=W) fuel cl node cmd a).
Proof. unfold command. apply _. Qed.
#[export] Instance log_run_bash node sc c t :
  Preserves log_grows (run_bash (W:=W) fuel cl node sc c t).
Proof. unfold run_bash. apply _. Qed.
#[export] Instance log_run_client name sql a :
  Preserves log_grows (run_client (W:=W) fuel cl name sql a).
Proof. unfold run_client. apply _. Qed.
#[export] Instance log_check_result a r : Preserves log_grows (check_result (W:=W) a r).
Proof. unfold check_result. apply _. Qed.
#[export] Instance log_query_go name n sql a :
  Preserves log_grows (query_go (W:=W) fuel cl name n sql a).
Proof. revert a. induction n as [|n IH]; intros a; cbn [query_go]; apply _. Qed.
#[export] Instance log_query name sql a : Preserves log_grows (query (W:=W) fuel cl name sql a).
Proof. unfold query. apply _. Qed.

(** *** Commands and queries *)

(** A terminal that is known to be one of a node *)
Definition at_node (n : option string) (h : nat) (s : st W) : Prop :=
  ∀ m, n = Some m → opened_on (trace s) m h.

Lemma says_shell_call n h c t :
  says_if (at_node n h) (shell_call (W:=W) h c t) (λ r l, l = [(n, (c, inr r))]).
Proof.
  intros s r s' E. unfold shell_call, mbind, M_bind, gets in E. simpl in E.
  assert (Hk : Preserves kept (ask (ECall h c (match t with Some t => t | None => default 0
    (timeouts s !! h) end)) (env_call h c (match t with Some t => t | None => default 0
    (timeouts s !! h) end)) : M (st W) shell_result)) by apply _.
  specialize (Hk s). rewrite E in Hk. unfold ask in E.
  destruct (env_call _ _ _ _) as [[e|r'] w]; [done|]. injection E as <- <-. simpl in *.
  eexists [_], [(n, (c, inr r'))]. split_and!; [done|done| |done]. intros Hok Hn. split; [by apply Hk|].
  constructor; [|constructor]. split; [done|]. simpl. intros m Hm. by apply opened_mono, Hn.
Qed.

Lemma says_try_reraise {A} P (m : M (st W) A) h Φ :
  says_if P m Φ → (∀ e, says (h e) (λ _ _, False)) → says_if P (try_except m h) Φ.
Proof.
  intros Hm Hh s a s' E. unfold try_except in E.
  destruct (m s) as [[x|e|w] s1] eqn:E1; try done.
  - injection E as <- <-. by apply Hm.
  - by destruct (Hh e s1 a s' E) as (? & ? & _ & _ & _ & []).
Qed.

(** The terminal that [bash] returns is one of the node. *)
Lemma opened_terminal_stored node timeout cmd s h s' :
  bash (W:=W) fuel cl node timeout cmd s = (Ok h, s') → ∃ t, dget (t, node_str node) (bash_ s') = Some h.
Proof.
  unfold bash. intros E. apply M_bind_Ok_inv in E as (t & s1 & [= <- <-] & E). exists (thread s).
  apply with_lock_Ok_inv in E as (s2 & E & ->). simpl.
  apply M_bind_Ok_inv in E as (b & s3 & _ & E). apply M_bind_Ok_inv in E as ([] & s4 & _ & E).
  unfold bash_at, mbind, M_bind, gets in E. simpl in E.
  destruct (dget _ (bash_ s4)) as [h'|] eqn:Hg; [|done]. by injection E as <- <-.
Qed.
Lemma says_bash {A} node timeout sc (f : nat → M (st W) A) Φ :
  (∀ h, says_if (at_node (Some (node_str node)) h) (f h) Φ) →
  says (h ← bash (W:=W) fuel cl node timeout sc; f h) (λ a l, ∃ l0 l1, l = l0 ++ l1 ∧ Φ a l1).
Proof.
  intros Hf s a s' E. apply M_bind_Ok_inv in E as (h & s1 & E1 & E).
  destruct (says_log (bash fuel cl node timeout sc) _ _ s h s1 E1)
    as (tr1 & xs1 & Ht1 & Hs1 & Hk1 & _).
  destruct (Hf h s1 a s' E) as (tr2 & xs2 & Ht2 & Hs2 & Hk2 & H2). exists (tr1 ++ tr2), (xs1 ++ xs2).
  split_and!; [by rewrite Ht2, Ht1, app_assoc| |intros Hok _|by eexists _, _].
  - unfold said in *. by rewrite omap_app, fmap_app, Hs1, Hs2.
  - destruct (Hk1 Hok I) as [Hok1 Hp1]. destruct Hk2 as [Hok2 Hp2]; [done| |].
    { intros m [= <-]. destruct (opened_terminal_stored _ _ _ _ _ _ E1) as [t Ht]. by eapply ok_node. }
    split; [done|]. apply spoken_app; [|done]. rewrite Ht2. by apply spoken_mono.
Qed.

Lemma says_close_raise {A} (m : M (st W) unit) e (Φ : A → list placed_item → Prop) :
  says (m;; raise e : M (st W) A) Φ.
Proof.
  intros s a s' E. unfold mbind, M_bind in E. by destruct (m s) as [[]?].
Qed.

(** The checks of [command] say nothing more. *)
Lemma says_checks a r :
  says ((if no_checks a then mret r
         else check_exitcode (W:=W) (exitcode_ a) r;;
              for_ (expected_messages a) (λ m, assert_ (contains m (output r)) (output r));; mret r))
    (λ b l, l = [] ∧ b = r ∧ verdict a r = Ok r).
Proof.
  intros s b s' E. assert ((verdict a r, s) = (Ok b, s')) as [= Hv ->].
  { rewrite <-E. unfold verdict. destruct (no_checks a); [done|].
    unfold mbind, M_bind. rewrite check_exitcode_spec.
    destruct (code_ok _ _) as [[]|]; simpl; [|done..].
    rewrite check_messages. by destruct (forallb _ _). }
  assert (b = r) as -> by (revert Hv; unfold verdict; by repeat case_match; intros [= ->]).
  exists [], []. rewrite app_nil_r. split_and!; try done. intros Hok _. by split; [|constructor].
Qed.

(** Where the arguments of [command] let it run *)
Definition place (node : option string) (a : command_args) : option string :=
  match bash_arg a with None => Some (node_str node) | Some _ => None end.
Lemma says_command node cmd a :
  says (command (W:=W) fuel cl node cmd a)
    (λ r l, (∃ l0, l = l0 ++ [(place node a, (cmd, inr r))]) ∧ verdict a r = Ok r).
Proof.
  assert (Hrun : ∀ n h, says_if (at_node n h)
    (r ← try_except (shell_call (W:=W) h cmd (timeout_ a))
           (λ e, match e with
                 | ExpectTimeoutError => close_bash node;; raise e
                 | e => raise e
                 end);
     (if no_checks a then mret r
      else check_exitcode (exitcode_ a) r;;
           for_ (expected_messages a) (λ m, assert_ (contains m (output r)) (output r));; mret r))
    (λ r l, l = [(n, (cmd, inr r))] ∧ verdict a r = Ok r)).
  { intros n h. eapply says_if_bind; [apply says_try_reraise; [apply says_shell_call|]|].
    - intros []; try apply says_raise. apply says_close_raise.
    - intros r. eapply says_mono; [apply says_checks|]. intros b l (-> & -> & Hv) l1 ->. done. }
  unfold command, place. destruct (bash_arg a) as [h|].
  - eapply says_bind; [by apply (says_ret h (λ _ l, l = []))|]. intros h'.
    eapply says_mono; [|intros r l Hr l1 ->; exact Hr]. cbv beta.
    intros s b s' E. destruct (Hrun None h' s b s' E) as (tr & xs & ? & ? & Hk & -> & ?).
    exists tr, [(None, (cmd, inr b))]. split_and!; [done..| |by exists []|done].
    intros Hok _. apply Hk; [done|]. by intros m.
  - eapply says_mono; [apply says_bash, Hrun|].
    intros r l (l0 & l1 & -> & -> & Hv). split; [by eexists|done].
Qed.
End log_methods.

Section says_query.
Context {W : Type} `{Env W}.
Variables (fuel : nat) (cl : config).

Lemma contains_inline sql settings a : contains (q sql) (inline_command sql settings a) = true.
Proof.
  unfold inline_command.
  repeat case_match; rewrite ?str_app_assoc;
    repeat (first [by apply contains_app_l, contains_refl | apply contains_app_r]).
Qed.

Lemma says_run_bash node sc c t :
  says (run_bash (W:=W) fuel cl node sc c t)
    (λ r l, ∃ l0, l = l0 ++ [(Some (node_str node), (c, inr r))]).
Proof.
  unfold run_bash. apply says_try_reraise.
  - eapply says_mono; [apply says_bash; intros h; apply says_shell_call|].
    intros r l (l0 & l1 & -> & ->). by eexists.
  - intros []; try apply says_raise. apply says_close_raise.
Qed.

(** The last command of a short query carries its text, and is answered
    with the result. *)
Definition ran_query (name sql : string) (r : shell_result) (l : list placed_item) : Prop :=
  ∃ l0 c, l = l0 ++ [(Some name, (c, inr r))] ∧ contains (q sql) c = true.

Lemma says_run_client name sql a :
  (slen sql <= 1024)%nat → q_use_file a = false →
  says (run_client (W:=W) fuel cl name sql a) (ran_query name sql).
Proof.
  intros Hlen Hf. unfold run_client. rewrite (proj2 (Nat.ltb_ge _ _) Hlen), Hf. simpl.
  intros s r s' E. unfold mbind, M_bind, gets in E.
  apply (says_run_bash (Some name)) in E as (tr & xs & Ht & Hx & Hk & l0 & Hl).
  exists tr, xs. split_and!; [done..|]. eexists l0, _. split; [done|]. apply contains_inline.
Qed.

Lemma says_check_result a r :
  says (check_result (W:=W) a r) (λ r' l, l = [] ∧ r' = r ∧ accepted a r = true).
Proof.
  intros s r' s' E. rewrite check_result_spec in E.
  destruct (accepted a r) eqn:Ea; [|done]. injection E as <- <-.
  exists [], []. rewrite app_nil_r. split_and!; try done. intros Hok _. by split; [|constructor].
Qed.

Lemma says_query name sql a :
  (slen sql <= 1024)%nat → q_use_file a = false →
  says (query (W:=W) fuel cl name sql a) (λ r l, ran_query name sql r l ∧ accepted a r = true).
Proof.
  intros Hlen. unfold query. generalize (Z.to_nat (q_retry_count a)). intros n. revert a.
  assert (Hend : ∀ a r, says (check_result (W:=W) a r)
    (λ r' l, ∀ l1, ran_query name sql r l1 → ran_query name sql r' (l1 ++ l) ∧ accepted a r' = true)).
  { intros a r. eapply says_mono; [apply says_check_result|].
    intros x l (Hl & Hx & Ha) l1 Hr. subst. by rewrite app_nil_r. }
  induction n as [|n IH]; intros a Hf; cbn [query_go];
    (eapply says_bind; [by apply says_run_client|]); intros r; [apply Hend|].
  destruct (existsb _ _); [|apply Hend].
  eapply says_bind; [apply says_log; unfold sleep; apply _|]. intros u. cbv beta.
  eapply says_mono; [by apply IH|]. intros r' l [(l0 & c & -> & Hc') Ha] l1 _ l2 _.
  split; [|by eapply accepted_retry]. exists (l2 ++ l1 ++ l0), c. by rewrite !app_assoc.
Qed.
End says_query.

(** ** Servers *)

(** A command with the given text that exited with a code satisfying [p] *)
Definition ran (cmd : string) (p : shell_result → Prop) (x : said_item) : Prop :=
  ∃ r, x = (cmd, inr r) ∧ p r.
(** A client command with the given statement and an accepted answer *)
Definition ran_sql (sql : string) (x : said_item) : Prop :=
  ∃ c r, x = (c, inr r) ∧ contains (q sql) c = true ∧ accepted query0 r = true.
Definition code (n : Z) (r : shell_result) : Prop := exitcode r = n.

Section servers.
Context {W : Type} `{Env W, Retrying W, !RetryLaws W}.
Variables (fuel : nat) (cl : config) (name : string).

Lemma says_ran cmd a (p : shell_result → Prop) :
  bash_arg a = None → (∀ r, verdict a r = Ok r → p r) →
  says (node_command (W:=W) fuel cl name cmd a) (λ _ l, in_order [on name (ran cmd p)] l).
Proof.
  intros Ha Hp. eapply says_mono; [apply says_command|]. intros r l [[l0 ->] Hv].
  unfold place. rewrite Ha. apply in_order_last. split; [done|]. exists r. auto.
Qed.

(** Sequencing with known prefixes *)
Lemma says_seq {A B} (m : M (st W) A) (f : A → M (st W) B) ps qs :
  says m (λ _ l, in_order ps l) → (∀ a, says (f a) (λ _ l, in_order qs l)) →
  says (m ≫= f) (λ _ l, in_order (ps ++ qs) l).
Proof.
  intros Hm Hf. eapply says_bind; [done|]. intros a.
  eapply says_mono; [apply Hf|]. intros b l Hl l1 Hl1. by apply in_order_app.
Qed.

Lemma says_nothing {A} (m : M (st W) A) :
  Preserves log_grows m → Preserves kept m → says m (λ _ l, in_order [] l).
Proof. intros Hm Hk. eapply says_mono; [by apply says_log|]. intros. apply in_order_nil. Qed.

Lemma verdict_code n a r : exitcode_ a = Code n → no_checks a = false → verdict a r = Ok r → code n r.
Proof.
  unfold verdict, code. intros -> ->. simpl. destruct (Z.eqb_spec (exitcode r) n); done.
Qed.

Lemma says_sql sql :
  (slen sql <= 1024)%nat →
  says (node_query (W:=W) fuel cl name sql query0) (λ _ l, in_order [on name (ran_sql sql)] l).
Proof.
  intros Hlen. eapply says_mono; [by apply says_query|].
  intros r l [(l0 & c & -> & Hc) Ha]. apply in_order_last. split; [done|]. by exists c, r.
Qed.

#[export] Instance log_pid_in file : Preserves log_grows (pid_in (W:=W) fuel cl name file).
Proof. unfold pid_in, node_command. apply _. Qed.
#[export] Instance log_clickhouse_pid : Preserves log_grows (clickhouse_pid (W:=W) fuel cl name).
Proof. unfold clickhouse_pid. apply _. Qed.
#[export] Instance kept_node_command cmd a : Preserves kept (node_command (W:=W) fuel cl name cmd a).
Proof. unfold node_command. apply _. Qed.
#[export] Instance kept_pid_in file : Preserves kept (pid_in (W:=W) fuel cl name file).
Proof. unfold pid_in. apply _. Qed.
#[export] Instance kept_clickhouse_pid : Preserves kept (clickhouse_pid (W:=W) fuel cl name).
Proof. unfold clickhouse_pid. apply _. Qed.
#[export] Instance kept_thread_fuzzer : Preserves kept (enable_thread_fuzzer (W:=W) fuel cl name).
Proof. unfold enable_thread_fuzzer. apply _. Qed.

Lemma says_when_code cmd n msg :
  says (r ← node_command (W:=W) fuel cl name cmd unchecked;
        when (negb (exitcode r =? n)) (raise (Fail msg)))
    (λ _ l, in_order [on name (ran cmd (code n))] l).
Proof.
  eapply says_bind; [apply says_command|]. intros r.
  apply says_when; [intros _; apply says_raise|]. intros Hn l1 [[l0 ->] _].
  rewrite app_nil_r. apply in_order_last. split; [done|]. exists r. split; [done|].
  apply negb_false_iff, Z.eqb_eq in Hn. done.
Qed.

(** What a loop of probes has said when it ends *)
Lemma says_probe t d (body : nat → M (st W) unit) ps :
  (∀ i, Preserves log_grows (body i)) → (∀ i, Preserves kept (body i)) →
  (∀ i, says (body i) (λ _ l, in_order ps l)) →
  says (retries t d body) (λ _ l, in_order ps l).
Proof.
  intros Hp Hk Hb. eapply says_mono; [by apply says_retries|].
  intros [] l (l1 & l2 & -> & Hl). by apply in_order_skip_l.
Qed.

Lemma says_quiesce :
  says (quiesce (W:=W) fuel cl name) (λ _ l, in_order (on name <$>
    [ran_sql "SYSTEM STOP MOVES"; ran_sql "SYSTEM STOP MERGES"; ran_sql "SYSTEM FLUSH LOGS";
     ran "sync" (code 0)]) l).
Proof.
  unfold quiesce. apply (says_seq _ _ [_]); [apply says_sql; vm_compute; lia|]. intros _.
  apply (says_seq _ _ [_]); [apply says_sql; vm_compute; lia|]. intros _.
  apply (says_seq _ _ [_]); [apply says_sql; vm_compute; lia|]. intros _.
  apply (says_seq _ _ []); [apply says_nothing; unfold sleep; apply _|]. intros _.
  apply (says_seq _ _ [_] []); [|intros; apply says_nothing; apply _].
  apply says_ran; [done|]. intros r. by apply verdict_code.
Qed.

(** Every probe of [wait_gone] ends with the answer of [ps]. *)
Lemma says_wait_gone pid :
  says (wait_gone (W:=W) fuel cl name pid)
    (λ _ l, in_order [on name (ran ("ps " +:+ pid_str pid) (code 1))] l).
Proof.
  unfold wait_gone. apply says_probe; intros i; [unfold node_command; apply _..|].
  apply (says_seq _ _ []); [apply says_nothing; unfold node_command; apply _|].
  intros _. apply says_when_code.
Qed.

Lemma says_stop_clickhouse safe :
  says (stop_clickhouse (W:=W) fuel cl name safe) (λ _ l, ∃ pid, in_order (on name <$>
    ((if safe
      then [ran_sql "SYSTEM STOP MOVES"; ran_sql "SYSTEM STOP MERGES";
            ran_sql "SYSTEM FLUSH LOGS"; ran "sync" (code 0)]
      else []) ++
     [ran ("kill -TERM " +:+ pid_str pid) (code 0); ran ("ps " +:+ pid_str pid) (code 1);
      ran "rm -rf /tmp/clickhouse-server.pid" (code 0)])) l).
Proof.
  set (pre := if safe then _ else _).
  unfold stop_clickhouse. eapply says_bind with (Φ := λ _ l, in_order (on name <$> pre) l).
  { apply says_when; unfold pre; intros ->; [apply says_quiesce|apply in_order_nil]. }
  intros _. eapply says_bind; [apply says_log; apply _|]. intros pid.
  eapply says_mono with (Φ := λ _ l, in_order (on name <$>
    [ran ("kill -TERM " +:+ pid_str pid) (code 0); ran ("ps " +:+ pid_str pid) (code 1);
     ran "rm -rf /tmp/clickhouse-server.pid" (code 0)]) l).
  - apply (says_seq _ _ [_]); [apply says_ran; [done|]; intros r; by apply (verdict_code 0)|]. intros _.
    apply (says_seq _ _ [_]); [apply says_wait_gone|]. intros _.
    apply (says_seq _ _ [_] []); [|intros; apply says_nothing; apply _].
    apply says_ran; [done|]. intros r; by apply (verdict_code 0).
  - intros _ l Hl l1 _ l2 Hl2. exists pid. rewrite fmap_app. apply in_order_app; [done|].
    by apply in_order_skip_l.
Qed.

(** C7: when [stop_clickhouse] returns, the server is known to be gone: the
    pid was sent SIGTERM, later [ps] exited with 1 for that pid, and only then
    the pid file was removed; in the safe mode moves and merges were stopped,
    the logs flushed and the disk synced before the signal. *)
Theorem stop_clickhouse_order safe s s' :
  stop_clickhouse (W:=W) fuel cl name safe s = (Ok tt, s') →
  ∃ tr pid, trace s' = trace s ++ tr ∧
    in_order
      ((if safe
        then [ran_sql "SYSTEM STOP MOVES"; ran_sql "SYSTEM STOP MERGES";
              ran_sql "SYSTEM FLUSH LOGS"; ran "sync" (code 0)]
        else []) ++
       [ran ("kill -TERM " +:+ pid_str pid) (code 0); ran ("ps " +:+ pid_str pid) (code 1);
        ran "rm -rf /tmp/clickhouse-server.pid" (code 0)])
      (said tr).
Proof.
  intros E. destruct (says_stop_clickhouse safe s tt s' E) as (tr & xs & Ht & Hx & _ & pid & Hl).
  exists tr, pid. split; [done|]. rewrite <-Hx. by eapply on_said.
Qed.

(** What reading a pid file says, and what it says when there is no pid. *)
Definition pid_probe (file : string) (pid : option string) : list (said_item → Prop) :=
  match pid with
  | None => [ran ("ls " +:+ file) (λ r, exitcode r ≠ 0)]
  | Some p => [ran ("ls " +:+ file) (code 0); ran ("cat " +:+ file) (λ r, strip (output r) = p)]
  end.

Lemma says_pid_in file :
  says (pid_in (W:=W) fuel cl name file) (λ pid l, in_order (on name <$> pid_probe file pid) l).
Proof.
  unfold pid_in. eapply says_bind; [apply says_command|]. intros r.
  destruct (Z.eqb_spec (exitcode r) 0) as [Hr|Hr].
  - eapply says_bind; [apply says_command|]. intros r2. apply says_ret.
    intros l1 [[l0 ->] _] l2 [[l3 ->] _]. rewrite app_nil_r. simpl.
    apply (in_order_app [_] [_]); apply in_order_last; (split; [done|]); [by exists r|by exists r2].
  - apply says_ret. intros l1 [[l0 ->] _]. rewrite app_nil_r. apply in_order_last.
    split; [done|]. by exists r.
Qed.

Lemma says_guard {B} b e (m : M (st W) B) Φ :
  (b = false → says m Φ) → says (when b (raise e);; m) Φ.
Proof. destruct b; intros Hm s a s' E; [done|]. by apply Hm. Qed.

Lemma says_wait_pid_file timeout :
  says (wait_pid_file (W:=W) fuel cl name timeout)
    (λ _ l, in_order [on name (ran "ls /tmp/clickhouse-server.pid" (code 0))] l).
Proof.
  unfold wait_pid_file. apply says_probe; intros i; [unfold node_command; apply _..|].
  apply says_when_code.
Qed.

(** The server answered [SELECT version()]. *)
Definition ran_version (x : said_item) : Prop :=
  ∃ c r, x = (c, inr r) ∧ contains (q "SELECT version()") c = true ∧ exitcode r = 0.

#[export] Instance log_lift {A} (r : res A) : Preserves log_grows (lift r : M (st W) A).
Proof. apply _. Qed.

Lemma says_wait_clickhouse_healthy timeout :
  says (wait_clickhouse_healthy (W:=W) fuel cl name timeout)
    (λ _ l, in_order [on name ran_version] l).
Proof.
  unfold wait_clickhouse_healthy. apply (says_seq _ _ [_] []).
  - apply says_probe; intros i; [unfold node_query; apply _..|].
    eapply says_bind; [apply (says_query _ _ name); [vm_compute; lia|done]|]. intros r.
    apply says_when; [intros _; apply says_raise|]. intros Hn l1 [(l0 & c & -> & Hc) _].
    rewrite app_nil_r. apply in_order_last. split; [done|]. exists c, r. split_and!; [done..|].
    by apply negb_false_iff, Z.eqb_eq in Hn.
  - intros u. apply says_nothing; unfold node_query; apply _.
Qed.

Lemma says_start_clickhouse timeout wait user fuzzer :
  says (start_clickhouse (W:=W) fuel cl name timeout wait user fuzzer)
    (λ _ l, ∃ pid, truthy pid = false ∧ in_order (on name <$>
      (pid_probe "/tmp/clickhouse-server.pid" pid ++
       [ran (start_command user) (code 0); ran "ls /tmp/clickhouse-server.pid" (code 0)] ++
       (if wait then [ran_version] else []))) l).
Proof.
  unfold start_clickhouse. eapply says_bind; [apply says_pid_in|]. intros pid.
  set (post := if wait then _ else _). apply says_guard. intros Hp.
  eapply says_mono with (Φ := λ _ l, in_order (on name <$>
    ([ran (start_command user) (code 0); ran "ls /tmp/clickhouse-server.pid" (code 0)] ++ post)) l).
  2: { intros u l Hl l1 Hl1. exists pid. split; [done|]. rewrite fmap_app. by apply in_order_app. }
  apply (says_seq _ _ []); [apply says_nothing; unfold enable_thread_fuzzer, node_command; apply _|].
  intros u1. apply (says_seq _ _ [_]); [apply says_ran; [done|]; intros r; by apply (verdict_code 0)|].
  intros u2. apply (says_seq _ _ [_]); [apply says_wait_pid_file|]. intros u3.
  apply says_when; unfold post; intros ->; [apply says_wait_clickhouse_healthy|apply in_order_nil].
Qed.

(** C33: when [start_clickhouse] returns, the server was first seen not to
    run (no pid file, or an empty one), then the start command exited with 0
    for the chosen user, then the pid file existed, and finally, if asked to
    wait for it, the server answered a query. *)
Theorem start_clickhouse_order timeout wait user fuzzer s s' :
  start_clickhouse (W:=W) fuel cl name timeout wait user fuzzer s = (Ok tt, s') →
  ∃ tr pid, trace s' = trace s ++ tr ∧ truthy pid = false ∧
    in_order
      (pid_probe "/tmp/clickhouse-server.pid" pid ++
       [ran (start_command user) (code 0); ran "ls /tmp/clickhouse-server.pid" (code 0)] ++
       (if wait then [ran_version] else []))
      (said tr).
Proof.
  intros E. destruct (says_start_clickhouse timeout wait user fuzzer s tt s' E)
    as (tr & xs & Ht & Hx & _ & pid & Hp & Hl).
  exists tr, pid. split_and!; [done..|]. rewrite <-Hx. by eapply on_said.
Qed.
End servers.

(** ** The cluster *)

Section up.
Context {W : Type} `{Env W, Retrying W, !RetryLaws W}.
Variables (fuel : nat) (cl : config).

Definition dc (action : string) : string := docker_compose cl +:+ " " +:+ action.
Definition dc_up : string :=
  dc "up --renew-anon-volumes --force-recreate --timeout 600 -d 2>&1 | tee".
Definition dc_ps : string := dc ("ps | tee | grep -v " +:+ q "Exit 0").

(** The log of a successful attempt *)
Definition compose_patterns : list (said_item → Prop) := [
  ran (dc "pull 2>&1 | tee") (code 0);
  ran (dc "down 2>&1 | tee") (code 0);
  ran dc_up (λ r, code 0 r ∧ contains "is unhealthy" (output r) = false);
  ran dc_ps (λ r, contains "Exit" (output r) = false)].

Definition good (cmd : shell_result) (ps : option shell_result) : Prop :=
  exitcode cmd = 0 ∧ unhealthy cmd = false ∧ exited ps = false ∧ is_Some ps.

(** The node [None]: the machine that the suite runs on *)
Definition host : string := node_str None.
Lemma says_dc cmd a :
  bash_arg a = None →
  says (command (W:=W) fuel cl None cmd a) (λ r l, ∃ l0, l = l0 ++ [(Some host, (cmd, inr r))]).
Proof.
  intros Ha. eapply says_mono; [apply says_command|]. unfold place. rewrite Ha. by intros r l [Hl _].
Qed.

Lemma says_up_attempt timeout ps :
  says (up_attempt (W:=W) fuel cl timeout ps)
    (λ '(cmd, ps', done) l,
       if (done : bool) then in_order (on host <$> compose_patterns) l else ¬ good cmd ps').
Proof.
  unfold up_attempt.
  eapply says_bind; [by apply says_dc|]. intros pull.
  destruct (Z.eqb_spec (exitcode pull) 0) as [H1|H1]; simpl.
  2: { apply says_ret. intros l _ (Hg & _). done. }
  eapply says_bind; [apply says_log; apply _|]. intros u1.
  eapply says_bind; [by apply says_dc|]. intros down.
  destruct (Z.eqb_spec (exitcode down) 0) as [H2|H2]; simpl.
  2: { apply says_ret. intros l1 _ l2 _ l3 _ (Hg & _). done. }
  eapply says_bind; [apply says_log; apply _|]. intros u2.
  eapply says_bind; [by apply says_dc|]. intros up.
  eapply says_bind; [by apply says_dc|]. intros psr.
  destruct (unhealthy up || contains "Exit" (output psr)) eqn:Hb.
  { eapply says_bind; [apply says_log; apply _|]. intros u3. apply says_ret.
    intros l1 _ l2 _ l3 _ l4 _ l5 _ l6 _ l7 _ (_ & Hu & He & _). simpl in He.
    by rewrite Hu, He in Hb. }
  apply orb_false_iff in Hb as [Hu He]. apply says_ret.
  intros l1 [m1 ->] l2 [m2 ->] l3 _ l4 [m4 ->] l5 _ l6 [m6 ->].
  destruct (Z.eqb_spec (exitcode up) 0) as [H3|H3]; [|by intros (Hg & _)].
  rewrite app_nil_r.
  apply (in_order_app [_] [_; _; _]); [apply in_order_last; split; [done|by exists pull]|].
  apply in_order_skip_l, (in_order_app [_] [_; _]); [apply in_order_last; split; [done|by exists down]|].
  apply in_order_skip_l, (in_order_app [_] [_]); apply in_order_last; (split; [done|]);
    [by exists up|by exists psr].
Qed.

Lemma says_up_loop n timeout c ps :
  says (up_loop (W:=W) fuel cl n timeout c ps)
    (λ '(c', ps') l, (∃ cmd, c' = Some cmd ∧ good cmd ps') →
       in_order (on host <$> compose_patterns) l ∨ (c', ps') = (c, ps)).
Proof.
  revert c ps. induction n as [|n IH]; intros c ps; cbn [up_loop].
  { apply says_ret. by right. }
  eapply says_bind; [apply says_up_attempt|]. intros [[cmd ps1] []].
  - apply says_ret. intros l Hl _. left. by rewrite app_nil_r.
  - eapply says_mono; [apply IH|]. intros [c' ps'] l Hl l1 Hbad Hg.
    destruct (Hl Hg) as [Ho|[= -> ->]]; [left; by apply in_order_skip_l|].
    destruct Hg as (? & [= <-] & Hg). done.
Qed.

Lemma says_up_compose timeout :
  says (up_compose (W:=W) fuel cl timeout) (λ _ l, in_order (on host <$> compose_patterns) l).
Proof.
  unfold up_compose. eapply says_bind; [apply says_up_loop|]. intros [[cmd|] ps];
    cbn [fst snd]; [|apply says_raise].
  destruct (negb (exitcode cmd =? 0) || unhealthy cmd) eqn:Hb; [apply says_raise|].
  apply orb_false_iff in Hb as [Hc Hu]. apply negb_false_iff, Z.eqb_eq in Hc.
  destruct ps as [ps|]; [|apply says_raise].
  apply says_when; [intros; apply says_raise|]. intros He l Hl. rewrite app_nil_r.
  destruct Hl as [Hl|Hl]; [|done|done]. exists cmd. split; [done|].
  by split_and!.
Qed.

(** A node that is up: the container answers, and the server of a ClickHouse
    node has been started and has answered. *)
Definition node_patterns (name : string) : list (said_item → Prop) :=
  ran "echo 1" (code 0) ::
  (if startswith "clickhouse" name
   then [ran (start_command None) (code 0); ran "ls /tmp/clickhouse-server.pid" (code 0);
         ran_version]
   else []).
Definition zookeeper_patterns (name : string) : list (said_item → Prop) :=
  ran "echo 1" (code 0) ::
  (if startswith "zookeeper" name then [ran "zkServer.sh start" (code 0)] else []).

Lemma says_wait_healthy name timeout :
  says (wait_healthy (W:=W) fuel cl name timeout) (λ _ l, in_order [on name (ran "echo 1" (code 0))] l).
Proof.
  unfold wait_healthy. apply says_probe; intros i; [unfold node_command; apply _..|].
  apply says_when_code.
Qed.

Lemma says_for {A} (l : list A) (body : A → M (st W) unit) (ps : A → list (placed_item → Prop)) :
  (∀ x, says (body x) (λ _ l, in_order (ps x) l)) →
  says (for_ l body) (λ _ k, in_order (l ≫= ps) k).
Proof.
  intros Hb. induction l as [|x l IH]; simpl; [apply says_ret, in_order_nil|].
  by apply says_seq.
Qed.

Lemma says_start name timeout wait user fuzzer :
  says (start_clickhouse (W:=W) fuel cl name timeout wait user fuzzer) (λ _ l, in_order (on name <$>
    ([ran (start_command user) (code 0); ran "ls /tmp/clickhouse-server.pid" (code 0)] ++
     (if wait then [ran_version] else []))) l).
Proof.
  eapply says_mono; [apply says_start_clickhouse|]. intros u l (pid & _ & Hl).
  rewrite fmap_app in Hl. eapply in_order_sublist; [|exact Hl]. by apply sublist_inserts_l.
Qed.

Lemma says_nodes k (body : string → M (st W) unit) ps :
  (∀ name, says (body name) (λ _ l, in_order (on name <$> ps name) l)) →
  says (l ← nodes_of (W:=W) cl k; for_ l body)
    (λ _ l, ∃ names, dget k (nodes cl) = Some names ∧ in_order (names ≫= λ n, on n <$> ps n) l).
Proof.
  intros Hb. apply (says_bind _ _ (λ names l, dget k (nodes cl) = Some names)).
  { intros s0 names s1 E. unfold nodes_of in E. destruct (dget k (nodes cl)) as [x|] eqn:Hx; [|done].
    injection E as <- <-. exists [], []. rewrite app_nil_r. split_and!; try done.
    intros Hok _. by split; [|constructor]. }
  intros names. eapply says_mono; [apply (says_for names body (λ n, on n <$> ps n) Hb)|].
  intros u l Hl l1 Hn. exists names. split; [done|]. by apply in_order_skip_l.
Qed.

(** What brings up the nodes of the cluster, and the whole of it *)
Definition up_patterns (zookeepers names : list string) : list (placed_item → Prop) :=
  (if local cl then [on host (ran "env | grep CLICKHOUSE" (λ _, True))] else []) ++
  (on host <$> compose_patterns) ++
  (zookeepers ≫= λ n, on n <$> zookeeper_patterns n) ++
  (names ≫= λ n, on n <$> node_patterns n).
(** The nodes of a cluster: its ZooKeepers when it starts them, and the
    ClickHouse nodes *)
Definition has_nodes (zookeepers names : list string) : Prop :=
  (if use_zookeeper_nodes cl then dget "zookeeper" (nodes cl) = Some zookeepers else zookeepers = []) ∧
  dget "clickhouse" (nodes cl) = Some names.

Lemma says_up_local :
  says (when (local cl) (up_local (W:=W) fuel cl)) (λ _ l, in_order
    (if local cl then [on host (ran "env | grep CLICKHOUSE" (λ _, True))] else []) l).
Proof.
  destruct (local cl); [|apply says_ret, in_order_nil]. cbn [when]. unfold up_local. cbv zeta.
  do 4 (apply (says_seq _ _ []); [apply says_nothing; unfold set_env; apply _|]; intros ?).
  do 3 (apply (says_seq _ _ []); [apply says_nothing; unfold set_env; apply _|]; intros ?).
  apply (says_seq _ _ [_] []); [|intros; apply says_ret, in_order_nil].
  eapply says_mono; [by apply says_dc|]. intros r l [l0 ->]. apply in_order_last.
  split; [done|]. by exists r.
Qed.

Lemma says_up_zookeepers :
  says (when (use_zookeeper_nodes cl)
      (l ← nodes_of (W:=W) cl "zookeeper";
       for_ l (λ name,
         wait_healthy fuel cl name (sec 300);;
         when (startswith "zookeeper" name) (start_zookeeper fuel cl name))))
    (λ _ l, ∃ zookeepers, (if use_zookeeper_nodes cl then dget "zookeeper" (nodes cl) = Some zookeepers
                           else zookeepers = []) ∧
       in_order (zookeepers ≫= λ n, on n <$> zookeeper_patterns n) l).
Proof.
  destruct (use_zookeeper_nodes cl); [|apply says_ret; exists []; split; [done|apply in_order_nil]].
  apply says_nodes. intros name. apply (says_seq _ _ [_]); [apply says_wait_healthy|]. intros u.
  apply says_when; intros ->; [|apply in_order_nil]. unfold start_zookeeper, zkServer.
  apply (says_seq _ _ [_] []); [|intros; apply says_ret, in_order_nil].
  apply says_ran; [done|]. intros r. by apply (verdict_code 0).
Qed.

Lemma says_up_clickhouse :
  says (l ← nodes_of (W:=W) cl "clickhouse";
        for_ l (λ name,
          wait_healthy fuel cl name (sec 300);;
          when (startswith "clickhouse" name)
            (start_clickhouse fuel cl name (sec 300) true None (thread_fuzzer cl))))
    (λ _ l, ∃ names, dget "clickhouse" (nodes cl) = Some names ∧
       in_order (names ≫= λ n, on n <$> node_patterns n) l).
Proof.
  apply says_nodes. intros name. apply (says_seq _ _ [_]); [apply says_wait_healthy|]. intros u.
  apply says_when; intros ->; [apply says_start|apply in_order_nil].
Qed.

Lemma says_up timeout :
  says (up (W:=W) fuel cl timeout) (λ _ l, ∃ zookeepers names, has_nodes zookeepers names ∧
    in_order (up_patterns zookeepers names) l).
Proof.
  unfold up, up_nodes. eapply says_bind; [apply says_up_local|]. intros u1.
  eapply says_bind; [apply says_up_compose|]. intros u2.
  eapply (says_bind _ _ (λ _ l, ∃ zookeepers names, has_nodes zookeepers names ∧
    in_order ((zookeepers ≫= λ n, on n <$> zookeeper_patterns n) ++
      (names ≫= λ n, on n <$> node_patterns n)) l)).
  - eapply says_bind; [apply says_up_zookeepers|]. intros u3.
    eapply says_mono; [apply says_up_clickhouse|].
    intros u4 l (names & Hn & Hl) l1 (zk & Hz & Hl1). exists zk, names. split; [by split|].
    by apply in_order_app.
  - intros u3. eapply says_mono; [apply says_log; apply _|].
    intros u4 l _ l1 (zk & names & Hn & Hl1) l2 Hl2 l3 Hl3. exists zk, names. split; [done|].
    unfold up_patterns. apply in_order_app; [done|]. apply in_order_app; [done|].
    by apply in_order_skip_r.
Qed.

(** C10: when [up] returns, in local mode or not, the cluster is marked as
    running, an attempt of docker-compose (pull, down, up, ps) succeeded on the
    host with no unhealthy and no exited container, and after it the nodes of
    the cluster came up one by one, in the order of their lists: first, when
    the cluster uses them, every node of the list of ZooKeepers answered in its
    own terminal, and was told there to start ZooKeeper; then the same for the
    nodes of the list "clickhouse", whose servers were started and answered.
    Which node a command was given on is read from the log: it is the one for
    which the terminal of the command was opened. *)
Theorem up_brings_up timeout s s' :
  shells_ok s → up (W:=W) fuel cl timeout s = (Ok tt, s') →
  running s' = true ∧
  ∃ zookeepers names tr xs, has_nodes zookeepers names ∧
    trace s' = trace s ++ tr ∧ spoken (trace s') tr xs ∧
    in_order (up_patterns zookeepers names) xs.
Proof.
  intros Hok E. destruct (says_up timeout s tt s' E) as (tr & xs & Ht & _ & Hk & zk & names & Hn & Hl).
  destruct (Hk Hok I) as [_ Hs]. split; [|by exists zk, names, tr, xs].
  unfold up in E. apply M_bind_Ok_inv in E as ([] & s1 & _ & E). apply M_bind_Ok_inv in E as ([] & s2 & _ & E).
  apply M_bind_Ok_inv in E as ([] & s3 & _ & E). by injection E as <-.
Qed.
End up.

(** ** Examples *)

(** Retrying that gives up after three attempts *)
Section retry3.
Context {W : Type} `{Env W}.

Fixpoint attempts (n i : nat) (d : Z) (body : nat → M (st W) unit) : M (st W) unit :=
  match n with
  | O => raise (Fail "retries exhausted")
  | S n => try_except (body i) (λ _, sleep d;; attempts n (S i) d body)
  end.
Fixpoint repeat_call {A} (n : nat) (m : M (st W) A) : M (st W) A :=
  match n with O => m | S n => try_except m (λ _, repeat_call n m) end.

Definition retry3 : Retrying W :=
  {| retries _ d body := attempts 3 0 d body; retry A n m := repeat_call n m |}.

Lemma attempts_ok n i d body (s s' : st W) :
  attempts n i d body s = (Ok tt, s') →
  ∃ i s1, body i s1 = (Ok tt, s') ∧
    ∀ R : st W → st W → Prop, PreOrder R →
      (∀ i, Preserves R (body i)) → (∀ d, Preserves R (sleep d)) → R s s1.
Proof.
  revert i s. induction n as [|n IH]; intros i s; [done|]. cbn [attempts].
  unfold try_except. destruct (body i s) as [[[]|e|w] s1] eqn:E; [| |done].
  - intros [= <-]. exists i, s. split; [done|]. intros R HR _ _. reflexivity.
  - unfold mbind, M_bind. destruct (sleep d s1) as [[[]|e'|w] s2] eqn:Es; try done. intros Ha.
    destruct (IH _ _ Ha) as (j & s3 & Ej & HR). exists j, s3. split; [done|].
    intros R HRo Hb Hs. specialize (HR R HRo Hb Hs). pose proof (Hb i s) as H1.
    pose proof (Hs d s1) as H2. rewrite E in H1. rewrite Es in H2. simpl in *.
    by do 2 (etrans; [done|]).
Qed.

Lemma repeat_call_ok {A} n (m : M (st W) A) s a s' :
  repeat_call n m s = (Ok a, s') →
  ∃ s1, m s1 = (Ok a, s') ∧
    ∀ R : st W → st W → Prop, PreOrder R →
      Preserves R m → (∀ d, Preserves R (sleep d)) → R s s1.
Proof.
  revert s. induction n as [|n IH]; intros s; cbn [repeat_call].
  { intros E. exists s. split; [done|]. intros R HR _ _. reflexivity. }
  unfold try_except. destruct (m s) as [[b|e|w] s1] eqn:E; [| |done].
  - intros [= <- <-]. exists s. split; [done|]. intros R HR _ _. reflexivity.
  - intros Ha. destruct (IH _ Ha) as (s3 & Ej & HR). exists s3. split; [done|].
    intros R HRo Hb Hs. specialize (HR R HRo Hb Hs). pose proof (Hb s) as H1.
    rewrite E in H1. by etrans.
Qed.

Lemma retry3_laws : @RetryLaws W _ retry3.
Proof.
  split.
  - intros t d body s s'. apply (attempts_ok 3).
  - intros R t d body HR Hb Hs. cbn [retries retry3 attempts]. apply _.
  - intros A n m s a s'. apply repeat_call_ok.
  - intros R A n m HR Hm Hs. cbn [retry retry3]. induction n; cbn [repeat_call]; apply _.
Qed.
End retry3.

(** A server with pid 42 that goes away when told to *)
Definition server : string → exn + shell_result := λ command,
  if String.eqb command "cat /tmp/clickhouse-server.pid" then inr (mkResult 0 ("42" +:+ nl))
  else if String.eqb command "ps 42" then inr (mkResult 1 EmptyString)
  else if startswith "docker-compose ps -q" command then inr (mkResult 0 "abc")
  else inr (mkResult 0 EmptyString).
Definition stopped : res unit * st Z := Eval vm_compute in
  @stop_clickhouse Z (script_env server) (@retry3 Z (script_env server)) 3 plain_config
    "clickhouse1" true demo_state.

Lemma stop_clickhouse_order_witness :
  ∃ tr pid, trace stopped.2 = trace demo_state ++ tr ∧
    in_order
      ([ran_sql "SYSTEM STOP MOVES"; ran_sql "SYSTEM STOP MERGES";
        ran_sql "SYSTEM FLUSH LOGS"; ran "sync" (code 0)] ++
       [ran ("kill -TERM " +:+ pid_str pid) (code 0); ran ("ps " +:+ pid_str pid) (code 1);
        ran "rm -rf /tmp/clickhouse-server.pid" (code 0)])
      (said tr).
Proof.
  apply (@stop_clickhouse_order Z (script_env server) (@retry3 Z (script_env server))
    (@retry3_laws Z (script_env server)) 3 plain_config "clickhouse1" true demo_state stopped.2).
  by vm_compute.
Defined.

(** No server runs until it is started. *)
Definition idle : string → exn + shell_result := λ command,
  if String.eqb command "cat /tmp/clickhouse-server.pid" then inr (mkResult 0 EmptyString)
  else server command.
Definition started : res unit * st Z := Eval vm_compute in
  @start_clickhouse Z (script_env idle) (@retry3 Z (script_env idle)) 3 plain_config
    "clickhouse1" (sec 300) true (Some "clickhouse") false demo_state.

Lemma start_clickhouse_order_witness :
  ∃ tr pid, trace started.2 = trace demo_state ++ tr ∧ truthy pid = false ∧
    in_order
      (pid_probe "/tmp/clickhouse-server.pid" pid ++
       [ran (start_command (Some "clickhouse")) (code 0);
        ran "ls /tmp/clickhouse-server.pid" (code 0)] ++ [ran_version])
      (said tr).
Proof.
  apply (@start_clickhouse_order Z (script_env idle) (@retry3 Z (script_env idle))
    (@retry3_laws Z (script_env idle)) 3 plain_config "clickhouse1" (sec 300) true
    (Some "clickhouse") false demo_state started.2).
  by vm_compute.
Defined.

Definition brought_up : res unit * st Z := Eval vm_compute in
  @up Z (script_env idle) (@retry3 Z (script_env idle)) 3 plain_config (sec 1800)
    (set_thread "MainThread" (init [] 0)).

Lemma up_brings_up_witness :
  running brought_up.2 = true ∧
  ∃ zookeepers names tr xs, has_nodes plain_config zookeepers names ∧
    trace brought_up.2 = [] ++ tr ∧ spoken (trace brought_up.2) tr xs ∧
    in_order (up_patterns plain_config zookeepers names) xs.
Proof.
  apply (@up_brings_up Z (script_env idle) (@retry3 Z (script_env idle))
    (@retry3_laws Z (script_env idle)) 3 plain_config (sec 1800)
    (set_thread "MainThread" (init [] 0)) brought_up.2).
  - constructor; simpl; try done; [constructor|constructor|set_solver].
  - by vm_compute.
Defined.
