(* ===== verification/Steps.v ===== *)
(** * Steps on nodes

    The steps of helpers/common.py that work on a node: adding and removing
    configuration files, marking the server log, copying and creating files,
    users, groups and environment variables.  They are written against the
    interface [NodeApi], which [Cluster] and [ClickHouseNode] implement. *)
From stdpp Require Import gmap.
From S2P Require Import Prelude PyStr PyDict PyMonad World Cluster Termination Query NodeLog.
From S2P Require Import Lifecycle Order XmlConfig.
Local Open Scope Z_scope.

(** What a terminal waits for: its prompt or a regular expression. *)
Inductive pattern := Prompt | Regex (re : string).

(** What the steps need of the cluster and its nodes; [None] as a node stands
    for the host.  Terminals of [node.cluster.shell] are known by number. *)
Class NodeApi (S : Type) := {
  api_command : option string → string → command_args → M S shell_result;
  api_bash : option string → M S nat;
  api_call : nat → string → M S shell_result;
  api_shell : string → M S nat;
  api_enter : nat → M S unit;
  api_exit : nat → M S unit;
  api_close : nat → M S unit;
  api_open : nat → M S unit;
  api_send : nat → string → M S unit;
  api_expect : nat → pattern → option Z → bool → M S (list (option string));
  api_stop_clickhouse : string → bool → M S unit;
  api_start_clickhouse : string → option string → bool → M S unit;
  api_restart_clickhouse : string → bool → bool → option string → M S unit;
  api_environ : string → M S string;
  api_time : M S Z;
  api_sleep : Z → M S unit;
  api_absorbs : exn → bool
}.
#[export] Hint Mode NodeApi ! : typeclass_instances.

(** The command that writes a file by a heredoc with the given end marker *)
Definition heredoc (eof file content : string) : string :=
  "cat <<" +:+ eof +:+ " > " +:+ file +:+ nl +:+ content +:+ nl +:+ eof.

Section steps.
Context {S : Type} `{NodeApi S}.
Variables (fuel : nat) (debug : bool).
Abbreviation M := (M S).

(** [exitcode] may be unbound when it is read. *)
Definition assert_exitcode (exitcode : option Z) (wanted : Z) : M unit :=
  match exitcode with
  | None => raise (UnboundLocalError "exitcode")
  | Some n => assert_ (n =? wanted) EmptyString
  end.

(** [while time.time() - started < timeout: ...], until the command exits
    with the wanted code; the result is the last exit code. *)
Fixpoint poll (fuel : nat) (node : string) (command : string) (wanted timeout started : Z)
    (exitcode_ : option Z) : M (option Z) :=
  match fuel with
  | O => hang OutOfFuel
  | Datatypes.S fuel =>
      t ← api_time;
      if t - started <? timeout then
        r ← api_command (Some node) command args0;
        if exitcode r =? wanted then mret (Some (exitcode r))
        else api_sleep (sec 1);;
             poll fuel node command wanted timeout started (Some (exitcode r))
      else mret exitcode_
  end.

(** The command that looks for the uid of a configuration *)
Definition preprocessed (config : Config) : string :=
  "/var/lib/clickhouse/preprocessed_configs/" +:+ preprocessed_name config.
Definition grep_uid (config : Config) : string :=
  "cat " +:+ preprocessed config +:+ " | grep " +:+ uid config +:+
  (if debug then EmptyString else " > /dev/null").

(** [node.command(command, steps=False, exitcode=0)] with a heredoc *)
Definition write_config (node : string) (config : Config) : M unit :=
  api_command (Some node) (heredoc "HEREDOC" (path config) (content config)) (expect_code 0);;
  mret tt.

(** *** add_invalid_config *)

(** [os.path.join(cluster.environ["CLICKHOUSE_TESTS_DIR"], "configs", node.name,
    "config.d", config.path.split("config.d/")[-1])] *)
Definition system_config_path (node : string) (config : Config) : M string :=
  dir ← api_environ "CLICKHOUSE_TESTS_DIR";
  mret (path_join (path_join (path_join (path_join dir "configs") node) "config.d")
          (List.last (split "config.d/" (path config)) EmptyString)).

Definition host_command (command : string) (timeout : Z) : M unit :=
  api_command None command (mkArgs None None (Code 0) None false (Some timeout));; mret tt.

Definition err_log : string := "/var/log/clickhouse-server/clickhouse-server.err.log".

Definition add_invalid_config (node : string) (config : Config) (message : string)
    (recover_config : option Config) (tail timeout : Z) (restart : bool) (user : option string)
    : M unit :=
  try_finally
    (api_command (Some node) ("echo -e " +:+ q (str_repeat tail ("-" +:+ "\n")) +:+ " > " +:+ err_log)
       args0;;
     write_config node config;;
     started ← api_time;
     exitcode ← poll fuel node (grep_uid config) 0 timeout started None;
     assert_exitcode exitcode 0;;
     when restart (api_restart_clickhouse node false false user))
    (match recover_config with
     | None =>
         file ← system_config_path node config;
         host_command ("rm -rf " +:+ file) timeout;;
         when restart
           (api_restart_clickhouse node false true user;;
            api_restart_clickhouse node false true user)
     | Some recover_config =>
         file ← system_config_path node config;
         host_command ("rm -rf " +:+ file) timeout;;
         host_command (heredoc "HEREDOC" file (content recover_config)) timeout;;
         when restart (api_restart_clickhouse node false true user)
     end);;
  started ← api_time;
  exitcode ← poll fuel node
    ("tail -n " +:+ str_Z tail +:+ " " +:+ err_log +:+ " | grep " +:+ q message) 0 timeout started None;
  assert_exitcode exitcode 0.

(** *** add_config *)

Section config.
Variables (node : string) (config : Config) (timeout : Z) (restart : bool).

(** [with node.cluster.shell(node.name) as bash: m bash], after the prompt
    and the start of [tail] *)
Definition with_tail {A} (m : nat → M A) : M A :=
  bash ← api_shell node;
  api_enter bash;;
  try_finally
    (api_expect bash Prompt None false;;
     api_send bash "tail -v -n 0 -f /var/log/clickhouse-server/clickhouse-server.log";;
     api_expect bash (Regex "<==") None false;;
     api_expect bash (Regex nl) None false;;
     m bash)
    (api_exit bash).

Definition check_preprocessed_config_is_updated (after_removal : bool) : M unit :=
  let wanted := if after_removal then 1 else 0 in
  started ← api_time;
  exitcode ← poll fuel node (grep_uid config) wanted timeout started None;
  when debug (api_command (Some node) ("cat " +:+ preprocessed config) args0;; mret tt);;
  assert_exitcode exitcode wanted.

(** The messages of the server that end the wait *)
Definition reload_regex (file : string) : string :=
  "(ConfigReloader: Loaded config '/etc/clickhouse-server/" +:+ file +:+
  "', performed update on configuration)|" +:+
  "(ConfigReloader: Error updating configuration from '/etc/clickhouse-server/" +:+ file +:+ "')".

(** [choice.group(n)], [None] for a group that did not match *)
Definition group (choice : list (option string)) (n : nat) : option string :=
  default None (choice !! n).

(** The server is restarted, and its log followed from its size before. *)
Definition restart_tailing (bash : nat) (wait_healthy : bool) (user : option string) : M unit :=
  api_close bash;;
  api_stop_clickhouse node false;;
  dir ← api_environ "CLICKHOUSE_TESTS_DIR";
  cmd ← api_command None
    ("stat --format=%s " +:+ dir +:+ "/_instances/" +:+ node +:+ "/logs/clickhouse-server.log")
    args0;
  let logsize := strip (hd EmptyString (split " " (output cmd))) in
  api_start_clickhouse node user wait_healthy;;
  api_open bash;;
  api_send bash ("tail -c +" +:+ logsize +:+
                 " -f /var/log/clickhouse-server/clickhouse-server.log").

Definition wait_for_config_to_be_loaded (bash : nat) (wait_healthy : bool) (user : option string)
    : M unit :=
  when restart (restart_tailing bash wait_healthy user);;
  choice ← api_expect bash
    (Regex (reload_regex (if restart then "config.xml" else preprocessed_name config)))
    (Some timeout) false;
  when (truthy (group choice 2))
    (api_expect bash (Regex (".+" +:+ nl)) (Some (sec 5)) true;;
     raise (Fail "ConfigReloader: Error updating configuration")).

(** The part of [add_config] before the test, and the one after it *)
Definition install_config (check_preprocessed wait_healthy : bool) (user : option string) : M unit :=
  with_tail (λ bash,
    write_config node config;;
    when check_preprocessed
      (check_preprocessed_config_is_updated false;;
       wait_for_config_to_be_loaded bash wait_healthy user)).
Definition remove_config (wait_healthy : bool) : M unit :=
  with_tail (λ bash,
    api_command (Some node) ("rm -rf " +:+ path config) (expect_code 0);;
    check_preprocessed_config_is_updated true;;
    wait_for_config_to_be_loaded bash wait_healthy None).

Definition add_config {A} (modify : bool) (user : option string)
    (wait_healthy check_preprocessed : bool) (body : M A) : M A :=
  bracket (install_config check_preprocessed wait_healthy user) (λ _, body)
    (when (negb modify) (remove_config wait_healthy)).
End config.

(** *** instrument_clickhouse_server_log *)

(** [test.terminating], and the truth of [self.parent.result] at the end *)
Variables (terminating parent_result : M bool).

Definition log_size (node log : string) : M shell_result :=
  api_command (Some node) ("stat --format=%s " +:+ log) args0.

Definition log_mark (node log mark test_name : string) : M unit :=
  api_command (Some node)
    ("echo -e " +:+ q ("\n-- " +:+ mark +:+ ": " +:+ test_name +:+ " --\n") +:+ " >> " +:+ log)
    args0;;
  mret tt.

Definition first_word (s : string) : string := strip (hd EmptyString (split " " s)).

(** [int(s)] *)
Definition int_of (s : string) : M Z := lift (or_raise (ValueError s) (py_int s)).

(** The [finally] block; [true] when it leaves by [return] *)
Definition end_of_log (node log test_name start_logsize : string) (always_dump : bool) : M bool :=
  t ← terminating;
  if (t : bool) then mret true else
  try_except (log_mark node log "end" test_name)
    (λ e, if api_absorbs (S:=S) e then mret tt else raise e);;
  cmd ← log_size node log;
  let end_logsize := first_word (output cmd) in
  r ← (if always_dump then mret true
       else if debug then b ← parent_result; mret (negb b) else mret false : M bool);
  when r
    (e ← int_of end_logsize;
     s ← int_of start_logsize;
     api_command (Some node)
       ("tail -c +" +:+ start_logsize +:+ " " +:+ log +:+ " | head -c " +:+ str_Z (e - s)) args0;;
     mret tt);;
  mret false.

(** The result is [None] when [return] in [finally] drops an exception. *)
Definition instrument_clickhouse_server_log {A} (node test_name log : string) (always_dump : bool)
    (body : M A) : M (option A) :=
  cmd ← log_size node log;
  let start_logsize :=
    if String.eqb (output cmd) ("stat: cannot stat '" +:+ log +:+ "': No such file or directory")
    then "0" else first_word (output cmd) in
  try_finally_return
    (log_mark node log "start" test_name;; body)
    (λ r,
       returned ← end_of_log node log test_name start_logsize always_dump;
       match r with
       | Ok a => mret (Some a)
       | Exc e => if (returned : bool) then mret None else raise e
       | Stuck w => hang w
       end).

(** *** Files, users, groups and variables *)

(** [node.command(command, exitcode=0)] *)
Definition run_ok (node command : string) : M unit :=
  api_command (Some node) command (expect_code 0);; mret tt.

Definition copy {A} (dest_node : string) (src_node : option string) (src_path dest_path eof : string)
    (binary : bool) (body : string → M A) : M A :=
  if binary
  then raise (NotImplementedError "not yet implemented; need to use base64 encoding")
  else
    bash ← api_bash src_node;
    cmd ← api_call bash ("cat " +:+ src_path);
    assert_ (exitcode cmd =? 0) EmptyString;;
    let contents := output cmd in
    bracket
      (api_command (Some dest_node)
         ("cat << " +:+ eof +:+ " > " +:+ dest_path +:+ nl +:+ contents +:+ nl +:+ eof) args0;;
       mret dest_path)
      body
      (api_command (Some dest_node) ("rm -rf " +:+ dest_path) args0;; mret tt).

Definition add_user_to_group_on_node (node group username : string) : M unit :=
  run_ok node ("usermode -g " +:+ group +:+ " " +:+ username).

Definition change_user_on_node {A} (node username : string) (body : M A) : M A :=
  bracket (run_ok node ("su " +:+ username)) (λ _, body) (run_ok node "exit").

Definition add_user_on_node {A} (node : string) (groupname : option string) (username : string)
    (body : M A) : M A :=
  bracket
    (match groupname with
     | None => run_ok node ("useradd -s /bin/bash " +:+ username)
     | Some g => run_ok node ("useradd -g " +:+ g +:+ " -s /bin/bash " +:+ username)
     end)
    (λ _, body) (run_ok node ("deluser " +:+ username)).

Definition add_group_on_node {A} (node groupname : string) (body : M A) : M A :=
  bracket (run_ok node ("groupadd " +:+ groupname)) (λ _, body)
    (api_command (Some node) "delgroup clickhouse" args0;; mret tt).

Definition create_file_on_node {A} (node path content : string) (body : string → M A) : M A :=
  bracket (run_ok node (heredoc "HEREDOC" path content);; mret path) body
    (run_ok node ("rm -rf " +:+ path)).

Definition set_envs_on_node {A} (node : string) (envs : dict string string) (body : M A) : M A :=
  bracket
    (for_ envs (λ kv, run_ok node ("export " +:+ kv.1 +:+ "=" +:+ kv.2))) (λ _, body)
    (for_ (dkeys envs) (λ key, run_ok node ("unset " +:+ key))).
End steps.

(** ** The cluster implements the interface *)

(** What terminals do for [add_config] beyond [Env] *)
Class TerminalEnv (W : Type) := {
  term_close : nat → W → (exn + unit) * W;
  term_open : nat → W → (exn + unit) * W;
  term_expect : nat → pattern → option Z → bool → W → (exn + list (option string)) * W
}.
#[export] Hint Mode TerminalEnv ! : typeclass_instances.

Definition pattern_text (p : pattern) : option string :=
  match p with Prompt => None | Regex re => Some re end.

Definition cluster_api {W} `{Env W, Retrying W, TerminalEnv W} (fuel : nat) (cl : config)
    : NodeApi (st W) := {|
  api_command node cmd a := command fuel cl node cmd a;
  api_bash node := bash0 fuel cl node;
  api_call h cmd := shell_call h cmd None;
  api_shell node := shell fuel cl (Some node) (sec 300);
  api_enter h := shell_enter h;
  api_exit h := shell_exit h;
  api_close h := ask (λ _, EClose h) (term_close h);
  api_open h := ask (λ _, EReopen h) (term_open h);
  api_send h text := shell_send h text;
  api_expect h p t et := ask (λ _, EExpect h (pattern_text p) t) (term_expect h p t et);
  api_stop_clickhouse node safe := stop_clickhouse fuel cl node safe;
  api_start_clickhouse node user wait_healthy :=
    start_clickhouse fuel cl node (sec 300) wait_healthy user false;
  api_restart_clickhouse node safe wait_healthy user :=
    restart_clickhouse fuel cl node (sec 300) safe wait_healthy user;
  api_environ k := v ← gets (λ s, dget k (environ s)); lift (or_raise (KeyError k) v);
  api_time := now;
  api_sleep t := sleep t;
  api_absorbs := env_absorbs (W:=W)
|}.

(** What the steps rely on: a command that has to exit with [n] returns only
    when it did, and time passes. *)
Class NodeLaws (S : Type) `{NodeApi S} := {
  api_code : ∀ node cmd n (s : S) r s',
    api_command node cmd (expect_code n) s = (Ok r, s') → exitcode r = n;
  clock : S → Z;
  api_clock : ∀ s : S, api_time s = (Ok (clock s), s);
  command_clock : ∀ node cmd a (s : S), clock s <= clock (api_command node cmd a s).2;
  sleep_clock : ∀ t (s : S), ∃ s', api_sleep t s = (Ok tt, s') ∧ clock s + Z.max 0 t <= clock s'
}.

(** ** Logging what the steps do *)

(** Calls of the interface, without the time and the environment *)
Inductive call :=
  | CCommand (node : option string) (cmd : string) (a : command_args)
  | CBash (node : option string)
  | CCall (h : nat) (cmd : string)
  | CShell (node : string)
  | CEnter (h : nat)
  | CExit (h : nat)
  | CClose (h : nat)
  | COpen (h : nat)
  | CSend (h : nat) (text : string)
  | CExpect (h : nat) (p : pattern) (timeout : option Z) (expect_timeout : bool)
  | CStop (node : string) (safe : bool)
  | CStart (node : string) (user : option string) (wait_healthy : bool)
  | CRestart (node : string) (safe wait_healthy : bool) (user : option string).

Inductive answer :=
  | Done | Result (r : shell_result) | Terminal (h : nat) | Groups (g : list (option string))
  | Failed.

Section logging.
Context {L S : Type} {N : NodeApi S} (item : call → answer → L).

Definition log_call {A} (c : call) (ans : A → answer) (m : M S A) : M (logged L S) A := λ s,
  let '(r, s') := m s.1 in
  (r, (s', s.2 ++ [item c (match r with Ok a => ans a | _ => Failed end)])).
Definition unlogged {A} (m : M S A) : M (logged L S) A := λ s,
  let '(r, s') := m s.1 in (r, (s', s.2)).
Abbreviation done := (λ _ : unit, Done).

Definition logging_api : NodeApi (logged L S) := {|
  api_command node cmd a := log_call (CCommand node cmd a) Result (api_command node cmd a);
  api_bash node := log_call (CBash node) Terminal (api_bash node);
  api_call h cmd := log_call (CCall h cmd) Result (api_call h cmd);
  api_shell node := log_call (CShell node) Terminal (api_shell node);
  api_enter h := log_call (CEnter h) done (api_enter h);
  api_exit h := log_call (CExit h) done (api_exit h);
  api_close h := log_call (CClose h) done (api_close h);
  api_open h := log_call (COpen h) done (api_open h);
  api_send h text := log_call (CSend h text) done (api_send h text);
  api_expect h p t et := log_call (CExpect h p t et) Groups (api_expect h p t et);
  api_stop_clickhouse node safe := log_call (CStop node safe) done (api_stop_clickhouse node safe);
  api_start_clickhouse node user wait_healthy :=
    log_call (CStart node user wait_healthy) done (api_start_clickhouse node user wait_healthy);
  api_restart_clickhouse node safe wait_healthy user :=
    log_call (CRestart node safe wait_healthy user) done
      (api_restart_clickhouse node safe wait_healthy user);
  api_environ k := unlogged (api_environ k);
  api_time := unlogged api_time;
  api_sleep t := unlogged (api_sleep t);
  api_absorbs := api_absorbs (S:=S)
|}.

#[export] Instance log_call_grows {A} c ans (m : M S A) : Preserves grows (log_call c ans m).
Proof. intros s. unfold log_call. destruct (m s.1). by eexists. Qed.
#[export] Instance unlogged_grows {A} (m : M S A) : Preserves grows (unlogged m).
Proof. intros s. unfold unlogged. destruct (m s.1). exists []. simpl. by rewrite app_nil_r. Qed.

Lemma log_call_leaves {A} c ans (m : M S A) :
  leaves (log_call c ans m) (λ a l, l = [item c (ans a)]).
Proof.
  intros s a s' E. unfold log_call in E. destruct (m s.1) as [r s1]. simplify_eq. by eexists.
Qed.

(** Items that do not depend on the answer *)
Lemma log_call_runs {A} c ans (m : M S A) :
  (∀ x y, item c x = item c y) → runs (log_call c ans m) [item c Done].
Proof.
  intros Hi s. unfold log_call. destruct (m s.1) as [[a|e|w] s1]; [..|done]; simpl.
  - by rewrite (Hi _ Done).
  - exists [item c Done]. by rewrite (Hi _ Done).
Qed.
Lemma log_call_tries {A} c ans (m : M S A) :
  (∀ x y, item c x = item c y) → tries (log_call c ans m) (item c Done).
Proof.
  intros Hi s. unfold log_call. destruct (m s.1) as [[a|e|w] s1]; [..|done]; simpl;
    exists []; by rewrite (Hi _ Done).
Qed.
End logging.

#[export] Typeclasses Opaque log_call unlogged.

(** The calls, and the calls with their answers *)
Definition calls_api {S} (N : NodeApi S) : NodeApi (logged call S) := logging_api (λ c _, c).
Definition answers_api {S} (N : NodeApi S) : NodeApi (logged (call * answer) S) := logging_api pair.

(** ** Steps that clean up *)

Section cleanup.
Context {S A : Type} {N : NodeApi S}.
#[local] Existing Instance calls_api.
Abbreviation LS := (logged call S).
Implicit Types (body : M LS A).
Abbreviation ok_command node cmd := (CCommand (Some node) cmd (expect_code 0)).

(** The steps around a test, with the calls that set up and clean up *)
Inductive node_step body : list call → list call → M LS A → Prop :=
  | step_change_user node username :
      node_step body [ok_command node ("su " +:+ username)] [ok_command node "exit"]
        (change_user_on_node node username body)
  | step_add_user node username :
      node_step body [ok_command node ("useradd -s /bin/bash " +:+ username)]
        [ok_command node ("deluser " +:+ username)]
        (add_user_on_node node None username body)
  | step_add_user_in node group username :
      node_step body [ok_command node ("useradd -g " +:+ group +:+ " -s /bin/bash " +:+ username)]
        [ok_command node ("deluser " +:+ username)]
        (add_user_on_node node (Some group) username body)
  | step_add_group node group :
      node_step body [ok_command node ("groupadd " +:+ group)]
        [CCommand (Some node) "delgroup clickhouse" args0]
        (add_group_on_node node group body)
  | step_create_file node path content :
      node_step body [ok_command node (heredoc "HEREDOC" path content)]
        [ok_command node ("rm -rf " +:+ path)]
        (create_file_on_node node path content (λ _, body))
  | step_set_envs node envs :
      node_step body ((λ kv, ok_command node ("export " +:+ kv.1 +:+ "=" +:+ kv.2)) <$> envs)
        ((λ kv, ok_command node ("unset " +:+ kv.1)) <$> envs)
        (set_envs_on_node node envs body).

Lemma command_runs node cmd a : runs (api_command (S:=LS) node cmd a) [CCommand node cmd a].
Proof. by apply (log_call_runs (λ c _, c)). Qed.
Lemma run_ok_runs node cmd : runs (run_ok (S:=LS) node cmd) [ok_command node cmd].
Proof. apply (runs_bind _ _ [_] []); [apply command_runs|]. intros _. apply runs_ret. Qed.
Lemma runs_for_map {B} (f : B → call) (m : B → M LS unit) (l : list B) :
  (∀ x, runs (m x) [f x]) → runs (for_ l m) (f <$> l).
Proof. intros Hm. rewrite <-list_bind_singleton. by apply runs_for. Qed.

(** A step that changes a node for a test undoes it afterwards: its
    commands run in order, those that undo them run last, whatever the node
    answers and the test does, and only stop at one that fails; a new group is
    not removed unless it is called clickhouse. *)
Lemma node_steps_clean_up body setup cleanup run (s : LS) :
  test_body body → node_step body setup cleanup run →
  match run s with
  | (Stuck _, _) => True
  | (r, s') => ∃ done mid tail, s'.2 = s.2 ++ done ++ mid ++ tail ∧
      prefix done setup ∧ prefix tail cleanup ∧
      (is_ok r = true → done = setup ∧ tail = cleanup) ∧ (done ≠ setup → mid = []) ∧
      ((∀ node cmd a s, is_ok (api_command (S:=LS) node cmd a s).1 = true) → tail = cleanup)
  end.
Proof.
  intros Hb Ht.
  assert (Hok : ∀ node cmd a,
    (∀ node cmd a s, is_ok (api_command (S:=LS) node cmd a s).1 = true) →
    ∀ s, is_ok ((api_command node cmd a;; mret tt : M LS unit) s).1 = true).
  { intros node cmd a Hacc s'. specialize (Hacc node cmd a s'). unfold mbind, M_bind.
    by destruct (api_command _ _ _ s') as [[]]. }
  assert (∃ V (st : M LS V) cl, run s = bracket st (λ _ : V, body) cl s ∧
    runs st setup ∧ runs cl cleanup ∧
    ((∀ node cmd a s, is_ok (api_command (S:=LS) node cmd a s).1 = true) →
     ∀ s, is_ok (cl s).1 = true)) as (V & st & cl & -> & Hs & Hc & Hall).
  { destruct Ht as [n u|n u|n g u|n g|n p c|n envs]; eexists _, _, _; (split; [reflexivity|]).
    1-3: split_and!; [apply run_ok_runs..|by apply Hok].
    - split_and!; [apply run_ok_runs| |by apply Hok].
      apply (runs_bind _ _ [_] []); [apply command_runs|]. intros _. apply runs_ret.
    - split_and!; [|apply run_ok_runs|by apply Hok].
      apply (runs_bind _ _ [_] []); [apply run_ok_runs|]. intros _. apply runs_ret.
    - split_and!.
      + apply runs_for_map. intros x. apply run_ok_runs.
      + change ((λ kv, ok_command n ("unset " +:+ kv.1)) <$> envs) with
          ((λ key, ok_command n ("unset " +:+ key)) ∘ fst <$> envs).
        rewrite list_fmap_compose. apply runs_for_map. intros x. apply run_ok_runs.
      + intros Hacc. apply for_ok. intros x. by apply Hok. }
  pose proof (bracket_runs st (λ _, body) cl _ _ s Hs (λ _, Hb) Hc) as Hbr.
  destruct (bracket _ _ _ s) as [[v|e|w] s']; [| |done].
  all: destruct Hbr as (d & mid & tail & E & Hd & Htl & Hr & Hm & _ & _ & Hfull).
  all: exists d, mid, tail; split_and!; auto.
Qed.
End cleanup.

(** ** Waiting for a command *)

Section polling.
Context {S : Type} `{NodeLaws S}.

(** The turns that [poll] has left at time [now] *)
Definition turns (timeout started now : Z) : nat := Z.to_nat (timeout - (now - started)).

Lemma poll_run n node cmd wanted timeout started last s :
  (turns timeout started (clock s) < n)%nat → last ≠ Some wanted →
  match poll n node cmd wanted timeout started last s with
  | (Stuck OutOfFuel, _) => ∃ s' : S, (api_command (Some node) cmd args0 s').1 = Stuck OutOfFuel
  | (Ok e, s') => e = Some wanted ∨ timeout <= clock s' - started ∧
      (e = None → last = None ∧ timeout <= clock s - started)
  | _ => True
  end.
Proof.
  revert last s. induction n as [|n IH]; intros last s Hn Hlast; [lia|]. cbn [poll].
  erewrite M_bind_Ok by apply api_clock. cbv beta.
  destruct (Z.ltb_spec (clock s - started) timeout) as [Ht|Ht]; [|right; auto].
  pose proof (command_clock (Some node) cmd args0 s) as Hc.
  unfold mbind, M_bind. destruct (api_command (Some node) cmd args0 s) as [[r|e|w] s1] eqn:Er.
  - destruct (Z.eqb_spec (exitcode r) wanted) as [Hw|Hw]; [left; by rewrite <-Hw|].
    destruct (sleep_clock (sec 1) s1) as (s2 & -> & Hs). simpl in Hc.
    specialize (IH (Some (exitcode r)) s2). unfold turns, sec in *.
    destruct (poll n _ _ _ _ _ _ s2) as [[e|e|[]] s3]; [|done|apply IH; [lia|congruence]|done].
    destruct IH as [IH|[IH1 IH2]]; [lia|congruence|by left|]. right. split; [done|].
    intros He. by destruct (IH2 He).
  - done.
  - destruct w; [|done]. exists s. by rewrite Er.
Qed.

(** The wait for an exit code ends: with fuel for one turn per microsecond
    it is never short of fuel, unless a command of the node is; it returns
    the wanted code, or returns another one after the timeout has passed, and
    no code at all only when the timeout is not positive. *)
Lemma poll_ends n node cmd wanted timeout (s : S) :
  (Z.to_nat timeout < n)%nat →
  (∀ s : S, (api_command (Some node) cmd args0 s).1 ≠ Stuck OutOfFuel) →
  match (started ← api_time; poll n node cmd wanted timeout started None) s with
  | (Stuck w, _) => w = SelfDeadlock
  | (Exc _, _) => True
  | (Ok (Some e), s') => e = wanted ∨ clock s + timeout <= clock s'
  | (Ok None, s') => timeout <= 0
  end.
Proof.
  intros Hn Hends. erewrite M_bind_Ok by apply api_clock.
  pose proof (poll_run n node cmd wanted timeout (clock s) None s) as Hp.
  unfold turns in Hp. specialize (Hp ltac:(lia) ltac:(done)).
  destruct (poll n _ _ _ _ _ _ s) as [[[e|]|e|[]] s'] eqn:E; [..|done| |done].
  - destruct Hp as [[= ->]|[Hp _]]; [by left|right; lia].
  - destruct Hp as [|[_ Hp]]; [done|]. destruct (Hp eq_refl). lia.
  - destruct Hp as [s1 Hs1]. by destruct (Hends s1).
Qed.
End polling.

(** ** Adding a configuration *)

Section configuration.
Context {S : Type} {N : NodeApi S} {L : NodeLaws S}.
#[local] Existing Instance answers_api.
Abbreviation LS := (logged (call * answer) S).
Abbreviation item := ((call * answer)%type).

(** Items of the log: the command ran on the node and exited with [n], the
    terminal met [re] and the second group did not match *)
Definition exited_with (node cmd : string) (n : Z) (x : item) : Prop :=
  ∃ a r, x = (CCommand (Some node) cmd a, Result r) ∧ exitcode r = n.
Definition met (re : string) (timeout : Z) (x : item) : Prop :=
  ∃ h g, x = (CExpect h (Regex re) (Some timeout) false, Groups g) ∧ truthy (group g 2) = false.
Definition stopped (node : string) (x : item) : Prop := x = (CStop node false, Done).
Definition started_as (node : string) (user : option string) (wait_healthy : bool) (x : item) : Prop :=
  x = (CStart node user wait_healthy, Done).

Lemma log_call_Ok {A} c ans (m : M S A) (s : LS) a s' :
  log_call pair c ans m s = (Ok a, s') → m s.1 = (Ok a, s'.1).
Proof. unfold log_call. intros E. destruct (m s.1) as [r s1]. by simplify_eq. Qed.

Lemma leaves_item {A} c ans (m : M S A) (P : A → item → Prop) :
  (∀ a, P a (c, ans a)) →
  leaves (log_call pair c ans m : M LS A) (λ a l, ∃ x, l = [x] ∧ P a x).
Proof. intros HP. eapply leaves_mono; [apply log_call_leaves|]. intros a l ->. eauto. Qed.

Lemma in_order_single {B} (p : B → Prop) x : p x → in_order [p] [x].
Proof. apply (in_order_last p []). Qed.

Lemma leaves_command node cmd a :
  leaves (api_command (S:=LS) node cmd a) (λ r l, l = [(CCommand node cmd a, Result r)]).
Proof. apply (log_call_leaves pair). Qed.

Lemma leaves_exit node cmd n :
  leaves (api_command (S:=LS) (Some node) cmd (expect_code n))
    (λ _ l, in_order [exited_with node cmd n] l).
Proof.
  intros s r s' E. pose proof (log_call_Ok _ _ _ _ _ _ E) as Ec. apply api_code in Ec.
  destruct (leaves_command _ _ _ s r s' E) as (l & Hl & ->). eexists; split; [done|].
  apply in_order_single. by exists (expect_code n), r.
Qed.

#[export] Instance command_grows node cmd a : Preserves grows (api_command (S:=LS) node cmd a).
Proof. apply log_call_grows. Qed.
#[export] Instance time_grows : Preserves grows (api_time (S:=LS)).
Proof. apply unlogged_grows. Qed.
#[export] Instance sleep_grows t : Preserves grows (api_sleep (S:=LS) t).
Proof. apply unlogged_grows. Qed.
#[export] Instance environ_grows k : Preserves grows (api_environ (S:=LS) k).
Proof. apply unlogged_grows. Qed.

Lemma leaves_poll n node cmd wanted timeout started last :
  last ≠ Some wanted →
  leaves (poll (S:=LS) n node cmd wanted timeout started last)
    (λ e l, e = Some wanted → in_order [exited_with node cmd wanted] l).
Proof.
  revert last. induction n as [|n IH]; intros last Hlast; cbn [poll]; [by intros s a s'|].
  eapply leaves_bind; [apply leaves_grows, _|]. intros t. cbv beta.
  destruct (_ <? _); [|by apply leaves_ret].
  eapply leaves_bind; [apply leaves_command|]. intros r. cbv beta.
  destruct (Z.eqb_spec (exitcode r) wanted) as [Hw|Hw].
  - apply leaves_ret. intros l1 -> l2 _ _. apply in_order_last. by exists args0, r.
  - eapply leaves_bind; [apply leaves_grows, _|]. intros u.
    eapply leaves_mono; [apply IH; congruence|]. intros e l Hl l1 _ l2 -> l3 _ He.
    by do 3 apply in_order_skip_l; apply Hl.
Qed.

Section file.
Variables (fuel : nat) (debug : bool) (node : string) (config : Config) (timeout : Z)
  (restart : bool).

Lemma leaves_check after :
  leaves (check_preprocessed_config_is_updated (S:=LS) fuel debug node config timeout after)
    (λ _ l, in_order [exited_with node (grep_uid debug config) (if after then 1 else 0)] l).
Proof.
  unfold check_preprocessed_config_is_updated. cbv zeta.
  eapply leaves_bind; [apply leaves_grows, _|]. intros t. cbv beta.
  eapply leaves_bind; [by apply leaves_poll|]. intros e. cbv beta.
  eapply leaves_bind; [apply leaves_grows; apply _|]. intros u. cbv beta.
  unfold assert_exitcode. destruct e as [e|]; [|apply leaves_raise].
  unfold assert_. destruct (Z.eqb_spec e (if after then 1 else 0)) as [->|]; [|apply leaves_raise].
  apply leaves_ret. intros l1 _ l2 Hl l3 _. apply in_order_skip_l.
  rewrite app_nil_r. by apply in_order_skip_r, Hl.
Qed.

(** What the log holds after a restart, and after a configuration was loaded *)
Definition restarted (user : option string) (wait_healthy : bool) : list (item → Prop) :=
  if restart then [stopped node; started_as node user wait_healthy] else [].
Definition loaded (user : option string) (wait_healthy : bool) : list (item → Prop) :=
  restarted user wait_healthy ++
  [met (reload_regex (if restart then "config.xml" else preprocessed_name config)) timeout].

Lemma leaves_call {A} c ans (m : M S A) (p : item → Prop) :
  (∀ a, p (c, ans a)) →
  leaves (log_call pair c ans m : M LS A) (λ _ l, in_order [p] l).
Proof.
  intros Hp. eapply leaves_mono; [apply log_call_leaves|]. intros a l ->.
  apply in_order_single, Hp.
Qed.
Lemma leaves_any {A} c ans (m : M S A) :
  leaves (log_call pair c ans m : M LS A) (λ _ l, in_order [] l).
Proof. apply leaves_grows, _. Qed.

Lemma leaves_restart bash wait_healthy user :
  leaves (when restart (restart_tailing (S:=LS) node bash wait_healthy user))
    (λ _ l, in_order (restarted user wait_healthy) l).
Proof.
  unfold restarted, restart_tailing. apply leaves_when.
  apply (leaves_seq _ _ []); [apply leaves_any|]. intros _.
  apply (leaves_seq _ _ [_]); [by apply leaves_call|]. intros _.
  apply (leaves_seq _ _ []); [apply leaves_grows, _|]. intros dir.
  apply (leaves_seq _ _ []); [apply leaves_any|]. intros cmd. cbv zeta.
  apply (leaves_seq _ _ [_] []); [by apply leaves_call|]. intros _.
  apply (leaves_seq _ _ []); [apply leaves_any|]. intros _. apply leaves_any.
Qed.

Lemma leaves_wait bash wait_healthy user :
  leaves (wait_for_config_to_be_loaded (S:=LS) node config timeout restart bash wait_healthy user)
    (λ _ l, in_order (loaded user wait_healthy) l).
Proof.
  apply leaves_seq; [apply leaves_restart|].
  intros _. eapply leaves_bind; [apply log_call_leaves|]. intros g. cbv beta.
  destruct (truthy (group g 2)) eqn:Hg.
  - cbn [when]. eapply leaves_bind; [apply leaves_any|]. intros g'. apply leaves_raise.
  - apply leaves_ret. intros l ->. simpl. apply in_order_single. by exists bash, g.
Qed.

Lemma leaves_tail {A} (m : nat → M LS A) ps :
  (∀ h, leaves (m h) (λ _ l, in_order ps l)) →
  leaves (with_tail node m) (λ _ l, in_order ps l).
Proof.
  intros Hm. unfold with_tail. apply (leaves_seq _ _ []); [apply leaves_any|]. intros h.
  apply (leaves_seq _ _ []); [apply leaves_any|]. intros _.
  rewrite <-(app_nil_r ps). apply leaves_try_finally; [|apply leaves_any].
  do 4 (apply (leaves_seq _ _ []); [apply leaves_any|]; intros _). apply Hm.
Qed.

(** What is found after the file was written, and all of it; without
    [check_preprocessed] nothing is awaited after the file. *)
Definition in_effect (user : option string) (wait_healthy : bool) : list (item → Prop) :=
  exited_with node (grep_uid debug config) 0 :: loaded user wait_healthy.
Definition written : item → Prop :=
  exited_with node (heredoc "HEREDOC" (path config) (content config)) 0.
Definition installed (user : option string) (wait_healthy : bool) : list (item → Prop) :=
  written :: in_effect user wait_healthy.
Definition removed (wait_healthy : bool) : list (item → Prop) :=
  [exited_with node ("rm -rf " +:+ path config) 0;
   exited_with node (grep_uid debug config) 1] ++ loaded None wait_healthy.

Lemma leaves_install check_preprocessed wait_healthy user :
  leaves (install_config (S:=LS) fuel debug node config timeout restart check_preprocessed
      wait_healthy user)
    (λ _ l, in_order (written :: if check_preprocessed then in_effect user wait_healthy else []) l).
Proof.
  unfold install_config. apply leaves_tail. intros h.
  apply (leaves_seq _ _ [_]).
  { apply (leaves_seq _ _ [_] []); [apply leaves_exit|]. intros r. apply leaves_ret, in_order_nil. }
  intros _. apply leaves_when.
  apply (leaves_seq _ _ [_]); [apply (leaves_check false)|]. intros _. apply leaves_wait.
Qed.
Lemma leaves_remove wait_healthy :
  leaves (remove_config (S:=LS) fuel debug node config timeout restart wait_healthy)
    (λ _ l, in_order (removed wait_healthy) l).
Proof.
  unfold remove_config, removed. apply leaves_tail. intros h.
  apply (leaves_seq _ _ [_]); [apply leaves_exit|]. intros r.
  apply (leaves_seq _ _ [_]); [apply (leaves_check true)|]. intros _. apply leaves_wait.
Qed.
Lemma leaves_add_config_any {A} (modify check_preprocessed wait_healthy : bool) (user : option string)
    (body : M LS A) (Ψ : A → list item → Prop) :
  leaves body Ψ →
  leaves (add_config fuel debug node config timeout restart modify user wait_healthy
      check_preprocessed body)
    (λ a l, ∃ before test after, l = before ++ test ++ after ∧
       in_order (written :: if check_preprocessed then in_effect user wait_healthy else []) before ∧
       Ψ a test ∧ in_order (if modify then [] else removed wait_healthy) after).
Proof.
  intros Hb.
  assert (Hout : leaves (when (negb modify) (remove_config (S:=LS) fuel debug node config timeout restart
      wait_healthy)) (λ _ l, in_order (if modify then [] else removed wait_healthy) l)).
  { replace (if modify then [] else removed wait_healthy) with
      (if negb modify then removed wait_healthy else []) by (by destruct modify).
    apply leaves_when, leaves_remove. }
  apply leaves_bracket; [apply leaves_install|done|done].
Qed.
Lemma leaves_add_config {A} (modify : bool) (user : option string) (wait_healthy : bool)
    (body : M LS A) (Ψ : A → list item → Prop) :
  leaves body Ψ →
  leaves (add_config fuel debug node config timeout restart modify user wait_healthy true body)
    (λ a l, ∃ before test after, l = before ++ test ++ after ∧
       in_order (installed user wait_healthy) before ∧ Ψ a test ∧
       in_order (if modify then [] else removed wait_healthy) after).
Proof. apply (leaves_add_config_any modify true). Qed.

(** C6: When [add_config] returns, the file was written with exit code 0
    before the test.  With [check_preprocessed], its uid was then found in the
    preprocessed configuration and the server said that it loaded the
    configuration (after it was stopped and started, with [restart]), before
    the test too; without it nothing is awaited.  After the test, unless
    [modify] keeps the configuration, the file was removed, its uid was gone and
    the server loaded the configuration again, with [check_preprocessed] or
    not. *)
Theorem add_config_applies {A} (modify check_preprocessed wait_healthy : bool) (user : option string)
    (body : M LS A) (Ψ : A → list item → Prop) :
  leaves body Ψ →
  leaves (add_config fuel debug node config timeout restart modify user wait_healthy
      check_preprocessed body)
    (λ a l, ∃ before test after, l = before ++ test ++ after ∧
       in_order (written :: if check_preprocessed then in_effect user wait_healthy else []) before ∧
       Ψ a test ∧ in_order (if modify then [] else removed wait_healthy) after).
Proof. apply leaves_add_config_any. Qed.
End file.
End configuration.

(** The cluster keeps the laws. *)
Definition cluster_laws {W} `{Env W, !ClockLaws W, Retrying W, TerminalEnv W} (fuel : nat)
    (cl : config) : @NodeLaws (st W) (cluster_api fuel cl).
Proof.
  refine {| clock (s : st W) := time s |}.
  - intros node cmd n s r s' E. destruct (says_command fuel cl node cmd _ _ _ _ E) as (tr & xs & _ & _ & _ & _ & Hv).
    by eapply verdict_code in Hv.
  - done.
  - intros node cmd a s. apply (later_command fuel cl node cmd a s).
  - intros t s. eexists. split; [reflexivity|]. apply (sleep_time t (world s)).
Defined.

(** ** Witnesses *)

(** A node whose commands exit as they should and take a microsecond *)
Definition demo_api : NodeApi Z :=
  let ok (s : Z) : res unit * Z := (Ok tt, s) in {|
  api_command _ _ a s :=
    (Ok (mkResult (match exitcode_ a with Code n => n | _ => 0 end) EmptyString), s + 1);
  api_bash _ s := (Ok 0%nat, s);
  api_call _ _ s := (Ok (mkResult 0 EmptyString), s);
  api_shell _ s := (Ok 0%nat, s);
  api_enter _ := ok; api_exit _ := ok; api_close _ := ok; api_open _ := ok; api_send _ _ := ok;
  api_expect _ _ _ _ s := (Ok [], s);
  api_stop_clickhouse _ _ := ok;
  api_start_clickhouse _ _ _ := ok;
  api_restart_clickhouse _ _ _ _ := ok;
  api_environ _ s := (Ok "/tests", s);
  api_time s := (Ok s, s);
  api_sleep t s := (Ok tt, s + Z.max 0 t);
  api_absorbs _ := false
|}.
Definition demo_laws : @NodeLaws Z demo_api.
Proof.
  refine (@Build_NodeLaws Z demo_api _ (λ s, s) _ _ _); simpl.
  - intros node cmd n s r s' [= <- _]. done.
  - done.
  - intros node cmd a s. lia.
  - intros t s. eexists. split; [done|lia].
Defined.
Definition demo_config : Config := mkConfigFile "<a/>" "/etc/a.xml" "a.xml" "uid1" "config.xml".

Lemma node_steps_clean_up_witness :
  ∃ done mid tail,
    (@create_file_on_node (logged call Z) (calls_api demo_api) unit "n" "/f" "text" (λ _, mret tt)
       (0, [])).2.2 = [] ++ done ++ mid ++ tail ∧
    done = [CCommand (Some "n") (heredoc "HEREDOC" "/f" "text") (expect_code 0)] ∧
    tail = [CCommand (Some "n") "rm -rf /f" (expect_code 0)].
Proof.
  pose proof (@node_steps_clean_up Z unit demo_api (mret tt) _ _ _ (0, [])
    ltac:(intros s; exists []; by rewrite app_nil_r) (step_create_file (mret tt) "n" "/f" "text")) as H.
  destruct H as (done & mid & tail & H1 & _ & _ & H2 & _). exists done, mid, tail.
  split; [exact H1|]. exact (H2 eq_refl).
Defined.

Lemma poll_ends_witness :
  match (started ← @api_time Z demo_api; @poll Z demo_api 2 "n" "true" 0 1 started None) 7 with
  | (Ok (Some e), s') => e = 0 ∨ 8 <= s'
  | _ => False
  end.
Proof.
  exact (@poll_ends Z demo_api demo_laws 2 "n" "true" 0 1 7 ltac:(lia) ltac:(done)).
Defined.

Lemma add_config_applies_witness :
  @leaves (call * answer) Z unit
    (@add_config (logged (call * answer) Z) (answers_api demo_api) 9 false "n" demo_config (sec 300)
       true unit false None true true (mret tt))
    (λ _ l, ∃ before test after, l = before ++ test ++ after ∧
       in_order (written "n" demo_config :: in_effect false "n" demo_config (sec 300) true None true)
         before ∧ test = [] ∧
       in_order (removed false "n" demo_config (sec 300) true true) after).
Proof.
  exact (@add_config_applies Z demo_api demo_laws 9 false "n" demo_config (sec 300) true unit false
    true true None (mret tt) (λ _ l, l = []) (leaves_ret tt (λ _ l, l = []) eq_refl)).
Defined.
