(* ===== verification/StorageConfig.v ===== *)
(** * Storage configurations

    The configuration steps of the storage suites: s3/tests/common.py
    ([add_config] on all servers, the contents of the S3 configurations, the
    disks and policies that tests share) and [add_storage_config] of
    tiered_storage/tests/common.py. *)
From stdpp Require Import gmap.
From S2P Require Import Prelude PyStr PyDict PyMonad Version World Cluster Query NodeLog XmlConfig Steps.
Local Open Scope Z_scope.

(** ** Disks and policies *)

(** The options of a disk, and what the dictionaries of a policy hold *)
Abbreviation options := (dict string string).
Abbreviation disks := (dict string options).
Abbreviation entries := (list (key * entry)).

Definition text_entries (o : options) : entries :=
  (λ kv, (Key kv.1, VText (Some kv.2))) <$> o.
Definition disk_entries (d : disks) : entries :=
  (λ kv, (Key kv.1, VDict (text_entries kv.2))) <$> d.

(** [{"disk": d}], a volume with one disk *)
Definition disk (d : string) : entry := VDict [(Key "disk", VText (Some d))].
(** A volume given by a list of dictionaries *)
Definition volume (l : list (string * string)) : entry :=
  VList ((λ kv, [(Key kv.1, VText (Some kv.2))]) <$> l).
(** [{"volumes": {...}, ...}] *)
Definition policy (volumes : list (string * entry)) (rest : options) : entry :=
  VDict ((Key "volumes", VDict ((λ kv, (Key kv.1, kv.2)) <$> volumes)) :: text_entries rest).
Definition policy_entries (l : list (string * entry)) : entries := (λ kv, (Key kv.1, kv.2)) <$> l.

(** [{"storage_configuration": {"disks": [disks], "policies": policies}}] *)
Definition storage_entries (d : disks) (policies : entries) : entries :=
  [(Key "storage_configuration",
    VDict [(Key "disks", VList [disk_entries d]); (Key "policies", VDict policies)])].

(** The disk on an object storage *)
Definition s3_disk (endpoint access_key_id secret_access_key : string) : options :=
  [("type", "s3"); ("endpoint", endpoint); ("access_key_id", access_key_id);
   ("secret_access_key", secret_access_key)].

(** *** tiered_storage: [add_storage_config] *)

Definition jbods : disks :=
  [("default", [("keep_free_space_bytes", "1024")]);
   ("jbod1", [("path", "/jbod1/")]);
   ("jbod2", [("path", "/jbod2/"); ("keep_free_space_bytes", "10485760")]);
   ("jbod3", [("path", "/jbod3/"); ("keep_free_space_ratio", "0.5")])].

(** [environ[k]], where [environ] may be [None] *)
Definition environ_get (environ : option (dict string string)) (k : string) : res string :=
  match environ with
  | None => Exc (TypeError "'NoneType' object is not subscriptable")
  | Some e => or_raise (KeyError k) (dget k e)
  end.
Definition environ_disk (environ : option (dict string string)) (uri key secret : string)
    : res options :=
  u ← environ_get environ uri;
  k ← environ_get environ key;
  s ← environ_get environ secret;
  mret (s3_disk u k s).

Definition external_disk (with_minio with_aws_s3 with_gcs_s3 : bool)
    (environ : option (dict string string)) : res options :=
  if with_minio then Ok (s3_disk "http://minio:9001/root/data/" "minio" "minio123")
  else if with_aws_s3 then
    environ_disk environ "S3_AMAZON_URI" "S3_AMAZON_KEY_ID" "S3_AMAZON_ACCESS_KEY"
  else if with_gcs_s3 then environ_disk environ "GCS_URI" "GCS_KEY_ID" "GCS_KEY_SECRET"
  else Ok [("path", "/external/")].

Definition tiered_policies : entries := policy_entries
  [("one_small_disk", policy [("main", disk "jbod1")] []);
   ("small_jbod_with_external", policy [("main", disk "jbod1"); ("external", disk "external")] []);
   ("jbods", policy [("main", volume [("disk", "jbod1"); ("disk", "jbod2")])] []);
   ("jbods_with_external",
    policy [("main", volume [("disk", "jbod1"); ("disk", "jbod2");
                             ("max_data_part_size_bytes", "10485760")]);
            ("external", disk "external")] []);
   ("moving_jbod_with_external",
    policy [("main", disk "jbod1"); ("external", disk "external")] [("move_factor", "0.7")]);
   ("jbods_with_external_ratio",
    policy [("main", volume [("disk", "jbod1"); ("disk", "jbod2");
                             ("max_data_part_size_ratio", "0.25")]);
            ("external", disk "external")] []);
   ("moving_max_jbod_with_external",
    policy [("main", disk "jbod1"); ("external", disk "external")] [("move_factor", "1")]);
   ("moving_min_jbod_with_external",
    policy [("main", disk "jbod1"); ("external", disk "external")] [("move_factor", "0")]);
   ("default_disk_with_external",
    policy [("small", volume [("disk", "default"); ("max_data_part_size_bytes", "2097152")]);
            ("big", volume [("disk", "external"); ("max_data_part_size_bytes", "20971520")])] []);
   ("jbod1_with_jbod2", policy [("main", disk "jbod1"); ("external", disk "jbod2")] []);
   ("fast_med_and_slow",
    policy [("fast", disk "jbod1"); ("medium", disk "jbod2"); ("slow", disk "external")] []);
   ("only_jbod1", policy [("main", disk "jbod1")] []);
   ("only_jbod2", policy [("main", disk "jbod2")] []);
   ("only_jbod3", policy [("main", disk "jbod3")] []);
   ("special_warning_zero_volume",
    policy [("special_warning_zero_volume",
             volume [("disk", "default"); ("max_data_part_size_bytes", "0")]);
            ("special_warning_default_volume", disk "external");
            ("special_warning_small_volume",
             volume [("disk", "jbod1"); ("max_data_part_size_bytes", "1024")]);
            ("special_warning_big_volume",
             volume [("disk", "jbod2"); ("max_data_part_size_bytes", "1024000000")])] [])].

(** The entries of [add_storage_config] *)
Definition tiered_entries (with_minio with_aws_s3 with_gcs_s3 : bool)
    (environ : option (dict string string)) : res entries :=
  external ← external_disk with_minio with_aws_s3 with_gcs_s3 environ;
  mret (storage_entries (jbods ++ [("external", external)]) tiered_policies).

(** *** s3: the disks and policies that tests share *)

(** What the tests keep in their context: the storage under test, and the
    options that [add_ssec_s3_option] and [add_batch_delete_option] add *)
Record s3_context := mkS3 {
  s3_uri : string; s3_access_key_id : string; s3_secret_access_key : string;
  s3_options : option options
}.
Definition context_disk (c : s3_context) : options :=
  s3_disk (s3_uri c) (s3_access_key_id c) (s3_secret_access_key c).
Definition default_and_external (c : s3_context) : disks :=
  [("default", [("keep_free_space_bytes", "1024")]); ("external", context_disk c)].

(** [default_s3_and_local_disk] and [default_s3_and_local_volume] *)
Definition local_disk_entries (c : s3_context) : entries :=
  storage_entries (default_and_external c) (policy_entries
    [("default_and_external",
      VDict [(Key "volumes",
        VList [[(Key "default_and_external", volume [("disk", "default"); ("disk", "external")])]])])]).
Definition local_volume_entries (c : s3_context) : entries :=
  storage_entries (default_and_external c) (policy_entries
    [("default_and_external",
      policy [("default", disk "default"); ("external", disk "external")] [])]).

(** [disks["external"].update(o)] *)
Definition update_external (o : options) (d : disks) : res disks :=
  match dget "external" d with
  | None => Exc (KeyError "external")
  | Some old => Ok (dset "external" (dupdate o old) d)
  end.

(** [default_s3_disk_and_volume]; [uri], [access_key_id] and
    [secret_access_key] are not read after their defaults were filled in. *)
Definition cache_disk : options :=
  [("type", "cache"); ("disk", "external"); ("path", "external_caches/");
   ("max_size", "22548578304"); ("cache_on_write_operations", "1");
   ("do_not_evict_index_and_mark_files", "1")].
Definition disk_and_volume_entries (c : s3_context) (version : option string)
    (uri access_key_id secret_access_key : option string) (settings : option options)
    (disk_name policy_name : string) : res entries :=
  let uri := default (s3_uri c) uri in
  let access_key_id := default (s3_access_key_id c) access_key_id in
  let secret_access_key := default (s3_secret_access_key c) secret_access_key in
  let settings := default [] settings in
  cached ← check_clickhouse_version ">=22.8" version;
  let d : disks := if (cached : bool)
                   then dset "s3_cache" cache_disk [(disk_name, context_disk c)]
                   else [(disk_name, context_disk c)] in
  d ← (match s3_options c with Some o => update_external o d | None => mret d end : res disks);
  d ← (match settings with [] => mret d | o => update_external o d end : res disks);
  let external := (policy_name, policy [("external", disk disk_name)] []) in
  let policies := if (cached : bool)
                  then dset "s3_cache" (policy [("external", disk "s3_cache")] []) [external]
                  else [external] in
  mret (storage_entries d (policy_entries policies)).

(** *** ontime_benchmark: the disks of the benchmark *)

Definition benchmark_entries (uri access_key_id secret_access_key : string) : entries :=
  storage_entries
    [("default", [("keep_free_space_bytes", "1024")]);
     ("external", s3_disk uri access_key_id secret_access_key)]
    (policy_entries
      [("default", policy [("default", disk "default")] []);
       ("external", policy [("external", disk "external")] []);
       ("tiered", policy [("default", disk "default"); ("external", disk "external")] [])]).

(** ** Contents of configurations *)

(** [create_xml_config_content] with the default root *)
Definition config_d : string := "/etc/clickhouse-server/config.d".
Definition create_s3_storage_config_content (d : disks) (policies : entries)
    (config_d_dir config_file uid : string) : Config :=
  create_xml_config_content (storage_entries d policies) config_file config_d_dir "yandex" uid.
Definition create_s3_endpoint_config_content (endpoints : entries)
    (config_d_dir config_file uid : string) : Config :=
  create_xml_config_content [(Key "s3", VDict endpoints)] config_file config_d_dir "yandex" uid.

(** The tree of a configuration with one section, which starts with a
    comment, and its text *)
Definition section_tree (section comment : string) (children : list node) : node :=
  Element "yandex" [] None None
    [Element section [] None None (Comment comment None :: children)].
Definition section_config (section comment : string) (children : list node)
    (config_d_dir config_file uid : string) : Config :=
  mkConfigFile (tostring (xml_indent (section_tree section comment children) 0 "  "))
    (path_join config_d_dir config_file) config_file uid "config.xml".

(** The elements for the texts of a dictionary, and of a dictionary of
    dictionaries *)
Definition text_elements (o : options) : list node :=
  (λ kv, xml_append kv.1 (Some kv.2)) <$> o.
Definition option_elements (d : disks) : list node :=
  (λ kv, Element kv.1 [] None None (text_elements kv.2)) <$> d.

Definition create_s3_credentials_config_content (endpoints : disks)
    (config_d_dir config_file uid : string) : Config :=
  section_config "s3" ("S3 environment credentials " +:+ uid) (option_elements endpoints)
    config_d_dir config_file uid.
Definition create_remote_host_filter_config_content (urls : options)
    (config_d_dir config_file uid : string) : Config :=
  section_config "remote_url_allow_hosts" ("Remote Host Filter configuration " +:+ uid)
    (text_elements urls) config_d_dir config_file uid.
Definition create_s3_max_redirects_config_content (profiles : disks)
    (config_d_dir config_file uid : string) : Config :=
  section_config "profiles" ("S3 max redirects configuration " +:+ uid)
    (option_elements profiles) config_d_dir config_file uid.
Definition create_mergetree_config_content (settings : options)
    (config_d_dir config_file uid : string) : Config :=
  section_config "merge_tree" ("MergeTree configuration " +:+ uid) (text_elements settings)
    config_d_dir config_file uid.

(** ** Adding a configuration to all servers *)

Section steps.
Context {S : Type} `{NodeApi S}.
Variables (fuel : nat) (debug : bool).
(** [cluster.nodes] *)
Variable cluster_nodes : dict string (list string).
Abbreviation M := (M S).

Section file.
Variables (config : Config) (timeout : Z) (restart : bool).

(** [wait_for_config_to_be_loaded] of this file, which only waits for the
    message that the configuration was loaded *)
Definition loaded_regex (file : string) : string :=
  "ConfigReloader: Loaded config '/etc/clickhouse-server/" +:+ file +:+
  "', performed update on configuration".
Definition wait_loaded (node : string) (bash : nat) (wait_healthy : bool) (user : option string)
    : M unit :=
  when restart (restart_tailing node bash wait_healthy user);;
  api_expect bash
    (Regex (loaded_regex (if restart then "config.xml" else preprocessed_name config)))
    (Some timeout) false;;
  mret tt.

(** What [add_config] does on one node before and after the test *)
Definition install_on (check_preprocessed wait_healthy : bool) (user : option string)
    (node : string) : M unit :=
  with_tail node (λ bash,
    write_config node config;;
    when check_preprocessed
      (check_preprocessed_config_is_updated fuel debug node config timeout false;;
       wait_loaded node bash wait_healthy user)).
Definition remove_from (wait_healthy : bool) (node : string) : M unit :=
  with_tail node (λ bash,
    api_command (Some node) ("rm -rf " +:+ path config) (expect_code 0);;
    check_preprocessed_config_is_updated fuel debug node config timeout true;;
    wait_loaded node bash wait_healthy None).

(** The nodes of the step: those given, or all servers of the cluster *)
Definition target_nodes (nodes : option (list string)) : M (list string) :=
  match nodes with
  | Some l => mret l
  | None => lift (or_raise (KeyError "clickhouse") (dget "clickhouse" cluster_nodes))
  end.

(** [add_config] of s3/tests/common.py *)
Definition s3_add_config {A} (modify : bool) (nodes : option (list string)) (user : option string)
    (wait_healthy check_preprocessed : bool) (body : M A) : M A :=
  nodes ← target_nodes nodes;
  bracket (for_ nodes (install_on check_preprocessed wait_healthy user)) (λ _, body)
    (for_ nodes (λ node, when (negb modify) (remove_from wait_healthy node))).
End file.

(** The context managers; each has a parameter [timeout], which none passes
    on: [add_config] waits for its default, 300 seconds. *)
Definition with_config {A} (config : Config) (restart : bool) (nodes : option (list string))
    (body : M A) : M A :=
  s3_add_config config (sec 300) restart false nodes None true true body.

Definition s3_storage {A} (d : disks) (policies : entries)
    (config_d_dir config_file uid : string) (timeout : Z) (restart : bool) (config : option Config)
    (nodes : option (list string)) (body : M A) : M A :=
  with_config (default (create_s3_storage_config_content d policies config_d_dir config_file uid)
                 config) restart nodes body.
Definition s3_endpoints {A} (endpoints : entries) (config_d_dir config_file uid : string)
    (timeout : Z) (restart : bool) (config : option Config) (nodes : option (list string))
    (body : M A) : M A :=
  with_config (default (create_s3_endpoint_config_content endpoints config_d_dir config_file uid)
                 config) restart nodes body.
Definition s3_env_credentials {A} (endpoints : disks) (config_d_dir config_file uid : string)
    (timeout : Z) (restart : bool) (config : option Config) (nodes : option (list string))
    (body : M A) : M A :=
  with_config (default (create_s3_credentials_config_content endpoints config_d_dir config_file uid)
                 config) restart nodes body.
Definition remote_host_filter_config {A} (urls : options) (config_d_dir config_file uid : string)
    (timeout : Z) (restart : bool) (config : option Config) (body : M A) : M A :=
  with_config (default (create_remote_host_filter_config_content urls config_d_dir config_file uid)
                 config) restart None body.
Definition s3_max_redirects {A} (profiles : disks) (config_d_dir config_file uid : string)
    (timeout : Z) (restart : bool) (config : option Config) (nodes : option (list string))
    (body : M A) : M A :=
  with_config (default (create_s3_max_redirects_config_content profiles config_d_dir config_file uid)
                 config) restart nodes body.
Definition mergetree_config {A} (settings : options) (config_d_dir config_file uid : string)
    (timeout : Z) (restart : bool) (config : option Config) (nodes : option (list string))
    (body : M A) : M A :=
  with_config (default (create_mergetree_config_content settings config_d_dir config_file uid)
                 config) restart nodes body.

(** [with add_storage_config(...): body], and the steps of s3 that set up
    disks and policies *)
Definition add_entries {A} (e : res entries) (config_file uid : string) (restart : bool)
    (body : M A) : M A :=
  e ← lift e;
  with_config (create_xml_config_content e config_file config_d "yandex" uid) restart None body.
Definition add_storage_config {A} (with_minio with_aws_s3 with_gcs_s3 : bool)
    (environ : option (dict string string)) (uid : string) (body : M A) : M A :=
  add_entries (tiered_entries with_minio with_aws_s3 with_gcs_s3 environ)
    "storage_configuration.xml" uid true body.
Definition default_s3_and_local_disk {A} (c : s3_context) (uid : string) (restart : bool)
    (body : M A) : M A :=
  add_entries (Ok (local_disk_entries c)) "storage.xml" uid restart body.
Definition default_s3_and_local_volume {A} (c : s3_context) (uid : string) (restart : bool)
    (body : M A) : M A :=
  add_entries (Ok (local_volume_entries c)) "storage.xml" uid restart body.
Definition default_s3_disk_and_volume {A} (c : s3_context) (version : option string)
    (uri access_key_id secret_access_key : option string) (settings : option options)
    (disk_name policy_name uid : string) (restart : bool) (body : M A) : M A :=
  add_entries (disk_and_volume_entries c version uri access_key_id secret_access_key settings
                 disk_name policy_name) "storage.xml" uid restart body.
End steps.

(** ** The configurations are in effect *)

Section applies.
Context {S : Type} {N : NodeApi S} {L : NodeLaws S}.
#[local] Existing Instance answers_api.
Abbreviation LS := (logged (call * answer) S).
Abbreviation item := ((call * answer)%type).
Variables (fuel : nat) (debug : bool) (cluster_nodes : dict string (list string)).
Variables (config : Config) (timeout : Z) (restart : bool).

(** The terminal met [re]. *)
Definition saw (re : string) (t : Z) (x : item) : Prop :=
  ∃ h g, x = (CExpect h (Regex re) (Some t) false, Groups g).

(** What the log holds for a node after the configuration was added to it,
    and after it was removed *)
Definition said_loaded (node : string) (user : option string) (wait_healthy : bool)
    : list (item → Prop) :=
  restarted node restart user wait_healthy ++
  [saw (loaded_regex (if restart then "config.xml" else preprocessed_name config)) timeout].
Definition installed_on (user : option string) (wait_healthy : bool) (node : string)
    : list (item → Prop) :=
  [exited_with node (heredoc "HEREDOC" (path config) (content config)) 0;
   exited_with node (grep_uid debug config) 0] ++ said_loaded node user wait_healthy.
Definition removed_from (wait_healthy : bool) (node : string) : list (item → Prop) :=
  [exited_with node ("rm -rf " +:+ path config) 0;
   exited_with node (grep_uid debug config) 1] ++ said_loaded node None wait_healthy.

Lemma leaves_wait_loaded node bash wait_healthy user :
  leaves (wait_loaded (S:=LS) config timeout restart node bash wait_healthy user)
    (λ _ l, in_order (said_loaded node user wait_healthy) l).
Proof.
  apply leaves_seq; [apply leaves_restart|]. intros _. apply (leaves_seq _ _ [_] []).
  - apply leaves_call. intros g. by exists bash, g.
  - intros _. apply leaves_ret, in_order_nil.
Qed.

Lemma leaves_install_on user wait_healthy node :
  leaves (install_on (S:=LS) fuel debug config timeout restart true wait_healthy user node)
    (λ _ l, in_order (installed_on user wait_healthy node) l).
Proof.
  apply leaves_tail. intros h. apply (leaves_seq _ _ [_]).
  { apply (leaves_seq _ _ [_] []); [apply leaves_exit|]. intros r. apply leaves_ret, in_order_nil. }
  intros _. cbn [when]. apply (leaves_seq _ _ [_]); [apply (leaves_check _ _ _ _ _ false)|].
  intros _. apply leaves_wait_loaded.
Qed.

Lemma leaves_remove_from wait_healthy node :
  leaves (remove_from (S:=LS) fuel debug config timeout restart wait_healthy node)
    (λ _ l, in_order (removed_from wait_healthy node) l).
Proof.
  apply leaves_tail. intros h. apply (leaves_seq _ _ [_]); [apply leaves_exit|]. intros r.
  apply (leaves_seq _ _ [_]); [apply (leaves_check _ _ _ _ _ true)|]. intros _. apply leaves_wait_loaded.
Qed.

(** C12: [add_config] of the storage suites returns only after the
    configuration was written, found in the preprocessed configuration and
    loaded on every node, one after the other and all before the test; and
    unless it is kept, after the test it was removed, gone and the removal
    loaded on every node again. *)
Theorem config_applies_everywhere {A} (modify : bool) (nodes : option (list string))
    (user : option string) (wait_healthy : bool) (body : M LS A) (Ψ : A → list item → Prop) :
  leaves body Ψ →
  leaves (s3_add_config fuel debug cluster_nodes config timeout restart modify nodes user
            wait_healthy true body)
    (λ a l, ∃ targets before test after,
       (match nodes with Some k => Some k | None => dget "clickhouse" cluster_nodes end) = Some targets ∧
       l = before ++ test ++ after ∧
       in_order (targets ≫= installed_on user wait_healthy) before ∧ Ψ a test ∧
       in_order (targets ≫= λ n, if modify then [] else removed_from wait_healthy n) after).
Proof.
  intros Hb. unfold s3_add_config. eapply leaves_bind.
  { instantiate (1 := λ targets l, l = [] ∧
      (match nodes with Some k => Some k | None => dget "clickhouse" cluster_nodes end) = Some targets).
    unfold target_nodes. destruct nodes as [k|]; [by apply leaves_ret|].
    destruct (dget "clickhouse" cluster_nodes); [by apply leaves_ret|apply leaves_raise]. }
  intros targets. eapply leaves_mono; [apply (leaves_bracket _ _ _
    (targets ≫= installed_on user wait_healthy)
    (targets ≫= λ n, if modify then [] else removed_from wait_healthy n) Ψ)|].
  - apply leaves_for, leaves_install_on.
  - done.
  - apply leaves_for. intros n. destruct modify; [apply leaves_ret, in_order_nil|].
    apply leaves_remove_from.
  - intros a l (before & test & after & -> & H1 & H2 & H3) l1 [-> Ht]. simpl.
    by exists targets, before, test, after.
Qed.
End applies.

(** ** Policies only name disks that exist *)

(** The disks that a dictionary refers to: the texts of its keys [disk] *)
Definition named_disk (k : key) (v : entry) : list string :=
  if String.eqb (key_name k) "disk" then match v with VText (Some d) => [d] | _ => [] end else [].
Fixpoint disk_refs (v : entry) : list string :=
  match v with
  | VText _ => []
  | VDict e => e ≫= λ kv, named_disk kv.1 kv.2 ++ disk_refs kv.2
  | VList l => l ≫= λ e, e ≫= λ kv, named_disk kv.1 kv.2 ++ disk_refs kv.2
  end.

(** Every disk that a policy, or a disk, names is one of the disks. *)
Definition resolves (d : disks) (policies : entries) : Prop :=
  Forall (.∈ dkeys d) (disk_refs (VDict (disk_entries d)) ++ disk_refs (VDict policies)).

Lemma disk_refs_cons k v e :
  disk_refs (VDict ((k, v) :: e)) = (named_disk k v ++ disk_refs v) ++ disk_refs (VDict e).
Proof. reflexivity. Qed.

Lemma text_refs o : "disk" ∉ dkeys o → disk_refs (VDict (text_entries o)) = [].
Proof.
  induction o as [|[k v] o IH]; [done|]. unfold dkeys. cbn [fmap list_fmap fst].
  intros [Hk Ho]%not_elem_of_cons. cbn [text_entries fmap list_fmap]. rewrite disk_refs_cons.
  fold (text_entries o). rewrite IH by done. unfold named_disk. simpl.
  by destruct (String.eqb_spec k "disk") as [->|].
Qed.

Lemma disk_entries_refs (d : disks) :
  (∀ o, (o ∈ dvalues d) → "disk" ∉ dkeys o) → disk_refs (VDict (disk_entries d)) = [].
Proof.
  induction d as [|[k o] d IH]; [done|]. intros Hd. cbn [disk_entries fmap list_fmap].
  rewrite disk_refs_cons. fold (disk_entries d). rewrite IH by (intros o' Ho'; apply Hd; by right).
  cbn [fst snd]. rewrite text_refs by (apply Hd; by left).
  unfold named_disk. by destruct (String.eqb _ _).
Qed.

Lemma s3_disk_plain u k s : "disk" ∉ dkeys (s3_disk u k s).
Proof. by apply (bool_decide_unpack _). Qed.

Lemma environ_disk_Ok environ uri key secret o :
  environ_disk environ uri key secret = Ok o →
  ∃ e u k s, environ = Some e ∧ dget uri e = Some u ∧ dget key e = Some k ∧
    dget secret e = Some s ∧ o = s3_disk u k s.
Proof.
  unfold environ_disk, environ_get. destruct environ as [e|]; [|done].
  destruct (dget uri e) as [u|] eqn:Hu; [|done]. destruct (dget key e) as [k|] eqn:Hk; [|done].
  destruct (dget secret e) as [s|] eqn:Hs; [|done]. intros [= <-]. by exists e, u, k, s.
Qed.

(** The options of the external disk that each storage calls for *)
Definition external_spec (with_minio with_aws_s3 with_gcs_s3 : bool)
    (environ : option (dict string string)) (o : options) : Prop :=
  if with_minio then o = s3_disk "http://minio:9001/root/data/" "minio" "minio123"
  else if with_aws_s3 || with_gcs_s3 then
    ∃ e u k s, environ = Some e ∧ o = s3_disk u k s ∧
      if with_aws_s3
      then dget "S3_AMAZON_URI" e = Some u ∧ dget "S3_AMAZON_KEY_ID" e = Some k ∧
           dget "S3_AMAZON_ACCESS_KEY" e = Some s
      else dget "GCS_URI" e = Some u ∧ dget "GCS_KEY_ID" e = Some k ∧
           dget "GCS_KEY_SECRET" e = Some s
  else o = [("path", "/external/")].

Lemma external_disk_spec m a g environ o :
  external_disk m a g environ = Ok o →
  external_spec m a g environ o ∧ "disk" ∉ dkeys o.
Proof.
  unfold external_disk, external_spec. destruct m, a, g; simpl;
    try (intros [= <-]; split; [done|by apply (bool_decide_unpack _)]);
    intros (e & u & k & s & -> & Hu & Hk & Hs & ->)%environ_disk_Ok;
    (split; [by exists e, u, k, s|apply s3_disk_plain]).
Qed.

(** the configuration of the tiered storage suite: when the environment
    has what the chosen storage needs, it holds the four local disks and the
    external one with the endpoint and keys of that storage (MinIO before
    Amazon before Google), and every policy only names those disks. *)
Lemma tiered_policies_resolve m a g environ e :
  tiered_entries m a g environ = Ok e →
  ∃ external, external_spec m a g environ external ∧
    e = storage_entries (jbods ++ [("external", external)]) tiered_policies ∧
    resolves (jbods ++ [("external", external)]) tiered_policies.
Proof.
  unfold tiered_entries. destruct (external_disk m a g environ) as [o|x|w] eqn:Ho; [|done..].
  intros [= <-]. apply external_disk_spec in Ho as [Ho Hd]. exists o. split; [done|]. split; [done|].
  unfold resolves. rewrite disk_entries_refs.
  - change (dkeys (jbods ++ [("external", o)]))
      with ["default"; "jbod1"; "jbod2"; "jbod3"; "external"].
    apply (bool_decide_unpack _). by vm_compute.
  - unfold dvalues. rewrite fmap_app. intros x [Hx|Hx]%elem_of_app.
    + revert x Hx. apply Forall_forall. apply (bool_decide_unpack _). by vm_compute.
    + by apply list_elem_of_singleton in Hx as ->.
Qed.

(** *** The disk and volume of the S3 tests *)

Lemma dkeys_dupdate k (e d : options) :
  k ∈ dkeys (dupdate e d) → k ∈ dkeys e ∨ k ∈ dkeys d.
Proof.
  unfold dupdate. revert d. induction e as [|[k' v] e IH]; intros d; [by right|]. simpl.
  intros [H|H]%IH; [left; by right|]. apply elem_of_dkeys_dset in H as [->|H]; [left; by left|by right].
Qed.

(** Options without a key [disk] *)
Definition plain (o : options) : Prop := "disk" ∉ dkeys o.
Lemma plain_update o old : plain o → plain old → plain (dupdate o old).
Proof. intros Ho Hold [H|H]%dkeys_dupdate; done. Qed.

(** The external disk after the options of the context and the settings *)
Definition overridden (c : s3_context) (settings : option options) : options :=
  dupdate (default [] settings) (dupdate (default [] (s3_options c)) (context_disk c)).
(** Are there any? *)
Definition overrides (c : s3_context) (settings : option options) : bool :=
  bool_decide (is_Some (s3_options c)) || negb (bool_decide (default [] settings = [])).

(** The disks and policies of [disk_and_volume_entries] *)
Definition volume_disks (cached : bool) (disk_name : string) (o : options) : disks :=
  if cached then dset "s3_cache" cache_disk [(disk_name, o)] else [(disk_name, o)].
Definition volume_policies (cached : bool) (disk_name policy_name : string) : entries :=
  policy_entries
    (if cached
     then dset "s3_cache" (policy [("external", disk "s3_cache")] [])
            [(policy_name, policy [("external", disk disk_name)] [])]
     else [(policy_name, policy [("external", disk disk_name)] [])]).

Lemma volume_resolves cached disk_name policy_name o :
  plain o →
  resolves (volume_disks cached disk_name o) (volume_policies cached disk_name policy_name) ↔
  (cached = true → disk_name = "external").
Proof.
  intros Ho. unfold resolves, volume_disks, volume_policies.
  assert (Hp : ∀ n d, disk_refs (VDict (policy_entries [(n, policy [("external", disk d)] [])])) = [d]).
  { intros n d. unfold policy_entries. cbn [fmap list_fmap]. rewrite disk_refs_cons.
    unfold named_disk. by destruct (String.eqb _ _). }
  destruct cached.
  2: { rewrite disk_entries_refs by (intros x ->%list_elem_of_singleton; done). rewrite Hp.
       split; [done|]. intros _. repeat constructor. }
  cbn [dset]. destruct (decide ("s3_cache" = disk_name)) as [<-|Hne].
  - split; [|by intros H; specialize (H eq_refl)]. intros Hr. exfalso. revert Hr.
    change (disk_refs (VDict (disk_entries [("s3_cache", cache_disk)]))) with ["external"].
    intros [H _]%Forall_cons. revert H. by apply (bool_decide_unpack _).
  - assert (Hd : disk_refs (VDict (disk_entries [(disk_name, o); ("s3_cache", cache_disk)])) = ["external"]).
    { change (disk_entries _) with [(Key disk_name, VDict (text_entries o));
        (Key "s3_cache", VDict (text_entries cache_disk))].
      rewrite disk_refs_cons, text_refs by done. unfold named_disk. by destruct (String.eqb _ _). }
    rewrite Hd. split.
    + intros Hr _. apply Forall_cons in Hr as [Hr _].
      apply elem_of_cons in Hr as [Hr|Hr]; [done|]. by apply list_elem_of_singleton in Hr.
    + intros He. rewrite (He eq_refl). constructor; [by left|].
      destruct (decide ("s3_cache" = policy_name)); [rewrite Hp; constructor; [by right; left|done]|].
      unfold policy_entries. cbn [fmap list_fmap]. rewrite disk_refs_cons.
      change (disk_refs (VDict [(Key "s3_cache", _)])) with ["s3_cache"].
      unfold named_disk. destruct (String.eqb _ _); repeat constructor; set_solver.
Qed.

(** [default_s3_disk_and_volume] always sets up the storage of the
    context, whatever storage it is given.  Options and settings are put on
    the disk [external]: with another name for the disk they raise [KeyError].
    From version 22.8 on it adds a cache on the disk [external], so that the
    configuration refers to a disk that does not exist, unless the disk has
    that name. *)
Lemma disk_and_volume_outcome c version uri key secret settings disk_name policy_name cached :
  check_clickhouse_version ">=22.8" version = Ok cached →
  (∀ o, s3_options c = Some o ∨ settings = Some o → plain o) →
  disk_and_volume_entries c version uri key secret settings disk_name policy_name =
    (if overrides c settings && negb (String.eqb disk_name "external")
     then Exc (KeyError "external")
     else Ok (storage_entries (volume_disks cached disk_name (overridden c settings))
                (volume_policies cached disk_name policy_name))) ∧
  (resolves (volume_disks cached disk_name (overridden c settings))
     (volume_policies cached disk_name policy_name) ↔ (cached = true → disk_name = "external")).
Proof.
  intros Hv Hplain. split.
  - unfold disk_and_volume_entries. rewrite Hv. cbn [mbind res_bind].
    unfold overrides, overridden, update_external. fold (volume_disks cached disk_name (context_disk c)).
    assert (Hext : ∀ x, volume_disks cached "external" x =
      ("external", x) :: if cached then [("s3_cache", cache_disk)] else []) by by destruct cached.
    assert (Hno : disk_name ≠ "external" → ∀ x, dget "external" (volume_disks cached disk_name x) = None).
    { intros Hne x. unfold volume_disks. destruct cached; simpl; [|by rewrite decide_False].
      destruct (decide _); simpl; by rewrite decide_False. }
    destruct (String.eqb_spec disk_name "external") as [->|Hne].
    + rewrite andb_false_r, !Hext.
      destruct (s3_options c) as [o|], settings as [[|x l]|]; destruct cached; done.
    + specialize (Hno Hne). rewrite andb_true_r.
      destruct (s3_options c) as [o|]; cbn [mbind res_bind]; [by rewrite Hno|].
      destruct settings as [[|x l]|]; cbn [default mbind res_bind mret res_ret]; [|by rewrite Hno|];
        by destruct cached.
  - apply volume_resolves. apply plain_update; [|apply plain_update; [|apply s3_disk_plain]].
    + destruct settings as [o|]; [apply Hplain; by right|]. by apply (bool_decide_unpack _).
    + destruct (s3_options c) as [o|]; [apply Hplain; by left|]. by apply (bool_decide_unpack _).
Qed.

(** The section configurations are XML that reads back as their tree. *)
Lemma section_reads_back section comment children config_d_dir config_file uid_ :
  good (section_tree section comment children) = true →
  ∃ n, read_xml (content (section_config section comment children config_d_dir config_file uid_)) =
         Some n ∧
    strip_node n = strip_node (section_tree section comment children).
Proof.
  intros Hg. eexists. split; [apply read_element; by rewrite good_indent|].
  rewrite strip_norm. by apply strip_indent.
Qed.

(** ** Witnesses *)

Lemma config_applies_everywhere_witness :
  @leaves (call * answer) Z unit
    (@s3_add_config (logged (call * answer) Z) (answers_api demo_api) 9 false
       [("clickhouse", ["n1"; "n2"])] demo_config (sec 300) true unit false None None true true (mret tt))
    (λ _ l, ∃ targets before test after, Some ["n1"; "n2"] = Some targets ∧
       l = before ++ test ++ after ∧
       in_order (targets ≫= installed_on false demo_config (sec 300) true None true) before ∧
       test = [] ∧
       in_order (targets ≫= removed_from false demo_config (sec 300) true true) after).
Proof.
  exact (@config_applies_everywhere Z demo_api demo_laws 9 false [("clickhouse", ["n1"; "n2"])]
    demo_config (sec 300) true unit false None None true (mret tt) (λ _ l, l = [])
    (leaves_ret tt (λ _ l, l = []) eq_refl)).
Defined.

Lemma tiered_policies_resolve_witness :
  ∃ e, tiered_entries false false true
         (Some [("GCS_URI", "u"); ("GCS_KEY_ID", "k"); ("GCS_KEY_SECRET", "s")]) = Ok e ∧
  ∃ external, e = storage_entries (jbods ++ [("external", external)]) tiered_policies ∧
    resolves (jbods ++ [("external", external)]) tiered_policies.
Proof.
  eexists. split; [reflexivity|].
  destruct (tiered_policies_resolve false false true
    (Some [("GCS_URI", "u"); ("GCS_KEY_ID", "k"); ("GCS_KEY_SECRET", "s")]) _ eq_refl)
    as (external & _ & H1 & H2).
  by exists external.
Defined.

Definition demo_s3 : s3_context := mkS3 "http://minio1:9001/root/data/" "minio" "minio123" None.

Lemma disk_and_volume_outcome_witness :
  disk_and_volume_entries demo_s3 (Some "22.8.5.29") (Some "http://other/") None None None
    "disk2" "p" =
    Ok (storage_entries (volume_disks true "disk2" (overridden demo_s3 None))
          (volume_policies true "disk2" "p")) ∧
  ¬ resolves (volume_disks true "disk2" (overridden demo_s3 None)) (volume_policies true "disk2" "p").
Proof.
  destruct (disk_and_volume_outcome demo_s3 (Some "22.8.5.29") (Some "http://other/") None None None
    "disk2" "p" true ltac:(by vm_compute) ltac:(by intros o [|])) as [H1 H2].
  split; [exact H1|]. intros Hr. by apply H2 in Hr.
Defined.
