(* ===== verification/RbacConfig.v ===== *)
(** * The configuration of the RBAC suite

    [add_rbac_config_file] of rbac/helper/common.py, from the parts that it
    calls: the XML of a configuration (XmlConfig) and [add_config] (Steps). *)
From stdpp Require Import gmap.
From S2P Require Import Prelude PyStr PyDict PyMonad World Cluster XmlConfig NodeLog Steps.
Local Open Scope Z_scope.

(** [getuid] of this file: that of helpers/common.py with the name of the
    test. *)
Definition rbac_getuid (basename parentname : string → string) (is_example : bool)
    (test_name uuid : string) : string :=
  getuid basename parentname is_example test_name uuid true.

(** The rights of the user [default] *)
Definition rbac_entries : list (key * entry) :=
  [(Key "users", VDict [(Key "default", VDict
     [(Key "named_collection_control", VText (Some "1"));
      (Key "show_named_collections", VText (Some "1"));
      (Key "show_named_collections_secrets", VText (Some "1"))])])].

Section rbac_config.
Context {S : Type} `{NodeApi S}.
Variables (fuel : nat) (debug : bool).

(** [add_rbac_config_file]; [uid] is the result of [getuid()].  The step
    [add_config] only modifies, so that nothing is undone after it. *)
Definition add_rbac_config_file (config_d_dir config_file : string) (timeout : Z)
    (restart : bool) (node uid : string) : M S unit :=
  api_command (Some node) ("mkdir " +:+ config_d_dir) args0;;
  add_config fuel debug node
    (create_xml_config_content rbac_entries config_file config_d_dir "clickhouse" uid)
    timeout restart true None false false (mret tt).

(** The server is only restarted while [add_config] waits for the
    configuration, which this step does not ask for: [restart] has no
    effect. *)
Lemma rbac_restart_is_ignored dir file timeout node uid :
  add_rbac_config_file dir file timeout true node uid =
  add_rbac_config_file dir file timeout false node uid.
Proof. reflexivity. Qed.
End rbac_config.

(** The users of the suite read the file as these settings. *)
Example rbac_config_text :
  read_xml (content (create_xml_config_content rbac_entries "rbac.xml"
    "/etc/clickhouse-server/users.d" "clickhouse" "u1")) ≠ None.
Proof. by vm_compute. Qed.
