(* ===== verification/Settings.v ===== *)
(** * Settings that a test adds to all of its queries

    The steps of the suites that allow an experimental feature put a setting
    into the list [default_query_settings] of the context, which
    [ClickHouseNode.query] (Query) adds to every query, and take it out after
    the test: extended_precision_data_types/common.py, s3/tests/common.py,
    parquet/tests/common.py, window_functions/tests/common.py,
    lightweight_delete/tests/steps.py, selects/tests/steps/main_steps.py and
    the RBAC tests.  Also the other helpers of
    extended_precision_data_types/common.py. *)
From stdpp Require Import gmap.
From S2P Require Import Prelude PyStr PyDict PyMonad Version DataTypes World Cluster Shells Commands Query NodeLog XmlConfig.
Local Open Scope Z_scope.

(** ** The steps *)

Abbreviation setting := (string * string)%type.

(** A step that adds a setting, in some suites only from a server version on.
    The values are kept as the texts that reach the client. *)
Record setting_step := mkStep { since : option string; added : setting }.

Definition allow_experimental_bigint : setting_step :=
  mkStep None ("allow_experimental_bigint_types", "1").
Definition allow_experimental_map_type : setting_step :=
  mkStep None ("allow_experimental_map_type", "1").
Definition change_max_single_part_upload_size (size : string) : setting_step :=
  mkStep None ("s3_max_single_part_upload_size", size).
Definition allow_s3_truncate : setting_step := mkStep (Some ">=22.3") ("s3_truncate_on_insert", "1").
Definition allow_experimental_window_functions : setting_step :=
  mkStep None ("allow_experimental_window_functions", "1").
Definition allow_distributed_product_mode : setting_step :=
  mkStep None ("distributed_product_mode", "allow").
Definition allow_experimental_lightweight_delete : setting_step :=
  mkStep (Some ">=22.3") ("allow_experimental_lightweight_delete", "1").
Definition allow_experimental_live_view : setting_step :=
  mkStep None ("allow_experimental_live_view", "1").
Definition allow_experimental_alter_materialized_view_structure : setting_step :=
  mkStep None ("allow_experimental_alter_materialized_view_structure", "1").
Definition allow_introspection_functions : setting_step :=
  mkStep None ("allow_introspection_functions", "1").

(** [l.pop(l.index(x))], where [ValueError] is ignored *)
Fixpoint pop_first (x : setting) (l : list setting) : list setting :=
  match l with
  | [] => []
  | y :: l => if decide (x = y) then l else y :: pop_first x l
  end.

(** [try: x = m; body  finally: f(x)], where [x] is [x0] before the
    assignment *)
Definition with_var {S V A} (x0 : V) (m : M S V) (body : M S A) (f : V → M S unit) : M S A := λ s,
  match m s with
  | (Ok x, s) => try_finally body (f x) s
  | (Exc e, s) => try_finally (raise e) (f x0) s
  | (Stuck w, s) => (Stuck w, s)
  end.

Section steps.
Context {W : Type}.
Abbreviation M := (M (st W)).

Definition set_settings (l : option (list setting)) (s : st W) : st W :=
  mkSt (bash_ s) (control_ s) (environ s) (running s) (locked s) (next_id s) (timeouts s)
    (thread s) (clickhouse_version s) l (trace s) (world s).
(** The list of the context is changed in place. *)
Definition in_place (f : list setting → list setting) : M unit :=
  modify (λ s, set_settings (f <$> default_query_settings s) s).

(** [getsattr(current().context, "default_query_settings", [])] of testflows *)
Variable getsattr : M unit.

(** [check_clickhouse_version(since)(current())], for the steps that ask *)
Definition needed (x : setting_step) : M bool :=
  match since x with
  | None => mret true
  | Some v => version ← gets clickhouse_version; lift (check_clickhouse_version v version)
  end.

Definition add_setting (x : setting_step) : M bool :=
  n ← needed x;
  when n (getsattr;; in_place (λ l, l ++ [added x]));;
  mret n.
Definition remove_setting (x : setting_step) (was_added : bool) : M unit :=
  n ← needed x;
  when (n && was_added) (in_place (pop_first (added x))).

(** [with x: body]; the list is only looked at when it was assigned. *)
Definition with_setting {A} (x : setting_step) (body : M A) : M A :=
  with_var false (add_setting x) body (remove_setting x).

(** Steps inside each other *)
Definition with_all {A} (xs : list setting_step) (body : M A) : M A :=
  foldr with_setting body xs.

(** [allow_experimental_analyzer] of the selects suite is not undone. *)
Definition allow_experimental_analyzer : M unit :=
  getsattr;; in_place (λ l, l ++ [("allow_experimental_analyzer", "1")]).
End steps.

(** ** What the steps add and leave *)

(** The settings that the steps add for a server of version [v] *)
Definition active (v : option string) (x : setting_step) : bool :=
  match since x with
  | None => true
  | Some c => match check_clickhouse_version c v with Ok b => b | _ => false end
  end.
Definition news (v : option string) (xs : list setting_step) : list setting :=
  added <$> filter (λ x, active v x = true) xs.

(** The version checks of the steps have an answer. *)
Definition decided (v : option string) (x : setting_step) : Prop :=
  match since x with None => True | Some c => is_ok (check_clickhouse_version c v) = true end.

(** The list that is left when settings are added and taken out again *)
Definition leftover (l new : list setting) : list setting := foldr pop_first (l ++ new) new.

Lemma pop_first_elem x l : x ∈ l → l ≡ₚ x :: pop_first x l.
Proof.
  induction l as [|y l IH]; [set_solver|]. cbn [pop_first]. intros Hx.
  destruct (decide (x = y)) as [->|Hne]; [done|].
  rewrite (IH ltac:(set_solver)) at 1. apply Permutation_swap.
Qed.

Lemma leftover_perm l new : leftover l new ≡ₚ l.
Proof.
  revert l. induction new as [|x new IH]; intros l; unfold leftover; [by rewrite app_nil_r|].
  cbn [foldr]. specialize (IH (l ++ [x])). unfold leftover in IH.
  rewrite <-app_assoc in IH. cbn [app] in IH.
  apply (Permutation_cons_inv (a:=x)).
  rewrite <-(pop_first_elem x) by (rewrite IH; set_solver).
  by rewrite IH, <-Permutation_cons_append.
Qed.

Lemma pop_first_app x l k : x ∉ l → pop_first x (l ++ k) = l ++ pop_first x k.
Proof.
  induction l as [|y l IH]; [done|]. intros [Hx Hl]%not_elem_of_cons. simpl.
  by rewrite decide_False, IH.
Qed.

Lemma leftover_fresh l new : (∀ x, x ∈ new → x ∉ l) → leftover l new = l.
Proof.
  intros Hl. assert (∀ js k, (∀ x, x ∈ js → x ∉ l) →
    foldr pop_first (l ++ k) js = l ++ foldr pop_first k js) as Hpass.
  { induction js as [|x js IH]; intros k Hjs; [done|]. cbn [foldr].
    rewrite IH by set_solver. apply pop_first_app. set_solver. }
  unfold leftover. rewrite Hpass by done. pose proof (leftover_perm [] new) as Hn.
  apply Permutation_nil_r in Hn. unfold leftover in Hn. simpl in Hn. by rewrite Hn, app_nil_r.
Qed.

(** How often a setting is in a list, and what taking settings out leaves *)
Definition occurrences (x : setting) (l : list setting) : nat := length (filter (λ y, x = y) l).
Lemma pop_first_occurrences x y l :
  occurrences x (pop_first y l) = (occurrences x l - if decide (x = y) then 1 else 0)%nat.
Proof.
  unfold occurrences. induction l as [|z l IH]; [done|]. cbn [pop_first].
  destruct (decide (y = z)) as [->|Hyz].
  - rewrite filter_cons. destruct (decide (x = z)); cbn [length]; lia.
  - rewrite !filter_cons. destruct (decide (x = z)) as [->|Hxz]; [|exact IH].
    cbn [length]. rewrite IH, decide_False by done. lia.
Qed.
Lemma popped_occurrences x l new :
  occurrences x (foldr pop_first l new) = (occurrences x l - occurrences x new)%nat.
Proof.
  induction new as [|y new IH]; cbn [foldr]; [unfold occurrences; rewrite filter_nil; cbn; lia|].
  rewrite pop_first_occurrences, IH. unfold occurrences. rewrite filter_cons.
  destruct (decide (x = y)); cbn [length]; lia.
Qed.
Lemma pop_first_sublist x l : sublist (pop_first x l) l.
Proof.
  induction l as [|y l IH]; [done|]. cbn [pop_first].
  destruct (decide (x = y)); [by apply sublist_cons|by apply sublist_skip].
Qed.
Lemma popped_sublist l new : sublist (foldr pop_first l new) l.
Proof. induction new as [|y new IH]; [done|]. cbn [foldr]. etrans; [apply pop_first_sublist|done]. Qed.

(** The state in which the test inside the steps starts *)
Definition entered {W} (xs : list setting_step) (s : st W) : st W :=
  match news (clickhouse_version s) xs with
  | [] => s
  | new => set_settings (Some (default [] (default_query_settings s) ++ new)) s
  end.

Section scoped.
Context {W : Type} `{Env W}.
Variable getsattr : M (st W) unit.
(** [getsattr] makes the attribute an empty list if it is missing. *)
Hypothesis getsattr_law : ∀ s, getsattr s =
  (Ok tt, set_settings (Some (default [] (default_query_settings s))) s).
Implicit Types (s : st W).

Lemma needed_decided x s :
  decided (clickhouse_version s) x → needed x s = (Ok (active (clickhouse_version s) x), s).
Proof.
  unfold decided, needed, active. destruct (since x) as [c|]; [|done].
  unfold mbind, M_bind, gets, lift. simpl.
  by destruct (check_clickhouse_version c (clickhouse_version s)).
Qed.

Lemma add_setting_ok x s :
  decided (clickhouse_version s) x →
  add_setting getsattr x s = (Ok (active (clickhouse_version s) x), entered [x] s).
Proof.
  intros Hx. unfold add_setting, mbind, M_bind. rewrite needed_decided by done.
  unfold entered, news. rewrite filter_cons, filter_nil.
  destruct (active (clickhouse_version s) x); [|done]. simpl.
  by rewrite getsattr_law.
Qed.

Lemma remove_setting_ok x s :
  decided (clickhouse_version s) x →
  ∃ o, remove_setting x (active (clickhouse_version s) x) s = (Ok tt, set_settings o s) ∧
    default [] o = if active (clickhouse_version s) x
                   then pop_first (added x) (default [] (default_query_settings s))
                   else default [] (default_query_settings s).
Proof.
  intros Hx. unfold remove_setting, mbind, M_bind. rewrite needed_decided by done.
  rewrite andb_diag. destruct (active _ x); simpl.
  - eexists. split; [done|]. by destruct (default_query_settings s).
  - exists (default_query_settings s). split; [by destruct s|done].
Qed.

Lemma entered_cons x xs s : entered xs (entered [x] s) = entered (x :: xs) s.
Proof.
  unfold entered, news. rewrite !filter_cons, filter_nil.
  destruct (decide (active (clickhouse_version s) x = true)); [|done].
  rewrite fmap_cons. cbn [fmap list_fmap]. simpl.
  destruct (added <$> filter _ xs) as [|y l]; [done|]. simpl. by rewrite <-app_assoc.
Qed.

Lemma entered_version xs s : clickhouse_version (entered xs s) = clickhouse_version s.
Proof. unfold entered. by destruct (news _ _). Qed.

Lemma entered_settings xs s :
  default [] (default_query_settings (entered xs s)) =
  default [] (default_query_settings s) ++ news (clickhouse_version s) xs.
Proof. unfold entered. destruct (news _ _); [by rewrite app_nil_r|done]. Qed.

Lemma with_all_run {A} xs (body : M (st W) A) s r s1 :
  Forall (decided (clickhouse_version s)) xs →
  body (entered xs s) = (r, s1) → is_stuck r = false →
  clickhouse_version s1 = clickhouse_version s →
  ∃ o, with_all getsattr xs body s = (r, set_settings o s1) ∧
    default [] o = foldr pop_first (default [] (default_query_settings s1))
                     (news (clickhouse_version s) xs).
Proof.
  intros Hxs. revert s Hxs. induction xs as [|x xs IH]; intros s Hxs Hb Hr Hv.
  { exists (default_query_settings s1). split; [|done].
    simpl. unfold entered in Hb. simpl in Hb. rewrite Hb. by destruct s1. }
  apply Forall_cons in Hxs as [Hx Hxs]. rewrite <-entered_cons in Hb.
  destruct (IH (entered [x] s)) as (o & E & Ho); [by rewrite entered_version|done|done| |].
  { by rewrite entered_version. }
  cbn [with_all foldr]. fold (with_all getsattr xs body).
  unfold with_setting, with_var. rewrite add_setting_ok by done. unfold try_finally. rewrite E.
  rewrite entered_version in Ho.
  assert (Hv' : clickhouse_version (set_settings o s1) = clickhouse_version s) by done.
  destruct (remove_setting_ok x (set_settings o s1)) as (o' & E' & Ho'); [by rewrite Hv'|].
  rewrite Hv' in E', Ho'. exists o'. rewrite E'. split; [by destruct r|].
  rewrite Ho'. simpl. unfold news in *. rewrite filter_cons.
  by destruct (active (clickhouse_version s) x); rewrite Ho.
Qed.

(** C22: around a test that keeps the [clickhouse_version] of the context and
    changes its list of default settings only in place, if at all, the steps
    add and take out exactly their own settings: the test runs in the same
    state but for its default settings, which are those before followed by
    those of the steps that the server version calls for; its result is passed
    on; and when it is over, failed or not, one occurrence of each of these is
    taken out of the list that the test leaves, in whose order the others stay.
    So, when the test leaves the list as it found it, the settings are those
    from before up to their order, and in their order unless a step added one
    that was there already. *)
Theorem settings_scoped {A} xs (body : M (st W) A) s r s1 :
  Forall (decided (clickhouse_version s)) xs →
  body (entered xs s) = (r, s1) → is_stuck r = false →
  clickhouse_version s1 = clickhouse_version s →
  let before := default [] (default_query_settings s) in
  let new := news (clickhouse_version s) xs in
  let left := default [] (default_query_settings s1) in
  default [] (default_query_settings (entered xs s)) = before ++ new ∧
  ∃ o, with_all getsattr xs body s = (r, set_settings o s1) ∧
    (∀ x, occurrences x (default [] o) = occurrences x left - occurrences x new)%nat ∧
    sublist (default [] o) left ∧
    (left = before ++ new →
     default [] o ≡ₚ before ∧ ((∀ x, x ∈ new → x ∉ before) → default [] o = before)).
Proof.
  intros Hxs Hb Hr Hv before new left. split; [apply entered_settings|].
  destruct (with_all_run xs body s r s1) as (o & E & Ho); [done..|].
  exists o. split; [done|]. rewrite Ho. fold left new.
  split; [intros x; apply popped_occurrences|]. split; [apply popped_sublist|]. intros ->.
  split; [apply leftover_perm|apply leftover_fresh].
Qed.

(** A short query inside the steps, whose first answer asks for no
    retry, sends its own settings, then the default ones, then those of the
    steps in the order of the steps, and nothing else; afterwards the default
    settings are back. *)
Lemma query_under_settings fuel cl name xs sql a h s r w :
  Forall (decided (clickhouse_version s)) xs →
  (slen sql <= 1024)%nat → q_use_file a = false →
  dget (thread s, name) (bash_ s) = Some h → locked s = false →
  let settings := q_settings a ++ default [] (default_query_settings s) ++
                  news (clickhouse_version s) xs ++
                  match q_query_id a with Some id => [("query_id", id)] | None => [] end in
  let c := inline_command sql settings a in
  let t := match q_timeout a with Some t => t | None => default 0 (timeouts s !! h) end in
  env_call h c t (world s) = (inr r, w) →
  (0 < q_retry_count a →
   ∀ m, m ∈ default MESSAGES_TO_RETRY (q_messages_to_retry a) → contains m (output r) = false) →
  ∃ o, with_all getsattr xs (query fuel cl name sql a) s =
      (if accepted a r then Ok r else Exc (rejection a r),
       set_settings o (set_world [ECall h c t (inr r)] w s)) ∧
    default [] o ≡ₚ default [] (default_query_settings s).
Proof.
  intros Hxs Hlen Hf Hg Hl settings c t E Hm.
  assert (Hs : query_settings (default_query_settings (entered xs s)) (q_settings a) (q_query_id a) =
               settings).
  { unfold query_settings, settings. rewrite entered_settings. by rewrite <-app_assoc. }
  assert (He : ∃ o, entered xs s = set_settings o s).
  { unfold entered. destruct (news _ _); [|by eexists]. exists (default_query_settings s).
    by destruct s. }
  pose proof (query_outcome fuel cl name sql a h (entered xs s) Hlen Hf) as Hq.
  destruct He as [o He]. rewrite Hs, He in Hq. simpl in Hq.
  specialize (Hq Hg Hl r w E Hm). fold c t in Hq. rewrite <-He in Hq.
  destruct (with_all_run xs (query fuel cl name sql a) s _ _ Hxs Hq) as (o' & E' & Ho').
  - by destruct (accepted a r).
  - by rewrite He.
  - exists o'. split; [rewrite E'; by rewrite He|]. rewrite Ho'.
    match goal with |- context [default_query_settings (set_world ?l ?w' ?s')] =>
      change (default_query_settings (set_world l w' s')) with (default_query_settings s') end.
    rewrite entered_settings. apply leftover_perm.
Qed.
End scoped.

(** ** extended_precision_data_types/common.py *)

Section extended_precision.
Context {S : Type} `{SqlNode S}.
Abbreviation M := (M S).

(** [table] *)
Definition ext_table {A} (data_type name : string) (body : M A) : M A :=
  bracket (run_sql ("CREATE TABLE " +:+ name +:+ "(a " +:+ data_type +:+ ") ENGINE = Memory"))
    (λ _, body) (run_sql ("DROP TABLE IF EXISTS " +:+ name)).

(** [getuid]: the name of the test without the characters of an example *)
Definition ext_getuid (basename parentname : string → string) (is_example : bool)
    (test_name uuid : string) : string :=
  let name := if is_example then basename (parentname test_name) else basename test_name in
  let testname := replace "," EmptyString (replace " " "_" name) in
  let testname := fold_left (λ t c, replace c EmptyString t) ["("; ")"; "["; "]"; "'"] testname in
  testname +:+ "_" +:+ replace "-" "_" uuid.

(** [to_data_type] *)
Definition to_data_type (data_type value : string) : string :=
  if String.eqb data_type "Decimal256(0)" then "toDecimal256('" +:+ value +:+ "',0)"
  else "to" +:+ data_type +:+ "('" +:+ value +:+ "')".

(** [execute_query]: the output is compared with the expected text, or with
    the stored snapshot of the test, which [snapshot id output] looks up. *)
Definition execute_query (snapshot : string → string → bool) (snapshot_id version : option string)
    (sql : string) (expected : option string) (format : string)
    (compare_func : option (string → string → bool)) : M unit :=
  r ← sql_query (sql +:+ " FORMAT " +:+ format) query0;
  match expected with
  | Some e =>
      assert_ (match compare_func with
               | None => String.eqb (strip (output r)) e
               | Some f => f (strip (output r)) e
               end) (output r)
  | None =>
      id ← match snapshot_id with
           | Some id => mret id
           | None => old ← lift (check_clickhouse_version "<22.3" version);
                     mret (if (old : bool) then "tests.pre22.3" else "tests.post22.3")
           end;
      assert_ (snapshot id (nl +:+ strip (output r) +:+ nl)) (output r)
  end.
End extended_precision.

Definition data_types : list (string * string * string) :=
  [("Int128", "-170141183460469231731687303715884105728",
    "170141183460469231731687303715884105727");
   ("Int256", "-57896044618658097711785492504343953926634992332820282019728792003956564819968",
    "57896044618658097711785492504343953926634992332820282019728792003956564819967");
   ("UInt128", "0", "340282366920938463463374607431768211455");
   ("UInt256", "0",
    "115792089237316195423570985008687907853269984665640564039457584007913129639935")].
Definition Decimal256_min_max : Z * Z :=
  (-1000000000000000000000000000000000000000000000000000000000000000000000000000,
   1000000000000000000000000000000000000000000000000000000000000000000000000000).

(** The table of the suite has the ends of the ranges of the types, and those
    of Decimal256 are the ends with one digit less than the type allows. *)
Lemma data_types_ranges :
  (λ x, (x.1.1, py_int x.1.2, py_int x.2)) <$> data_types =
    [("Int128", Some (- 2 ^ 127), Some (2 ^ 127 - 1));
     ("Int256", Some (- 2 ^ 255), Some (2 ^ 255 - 1));
     ("UInt128", Some 0, Some (2 ^ 128 - 1)); ("UInt256", Some 0, Some (2 ^ 256 - 1))] ∧
  Decimal256_min_max = (- 10 ^ 75, 10 ^ 75).
Proof. split; by vm_compute. Qed.

(** With an expected text the query succeeds only for that text. *)
Lemma execute_query_expected {S} `{SqlNode S} snapshot id version sql e format (s s' : S) :
  execute_query snapshot id version sql (Some e) format None s = (Ok tt, s') →
  ∃ r, sql_query (sql +:+ " FORMAT " +:+ format) query0 s = (Ok r, s') ∧ strip (output r) = e.
Proof.
  unfold execute_query. intros (r & s1 & E & Ha)%M_bind_Ok_inv. exists r.
  unfold assert_ in Ha. destruct (String.eqb_spec (strip (output r)) e); [|done].
  by injection Ha as <-.
Qed.

(** ** Examples *)

(** The attribute of an object, set to a default when it is missing *)
Definition getsattr_demo {W} : M (st W) unit :=
  modify (λ s, set_settings (Some (default [] (default_query_settings s))) s).

(** A step removes the first setting that is equal to its own, which moves
    one that was there before to the end. *)
Example nested_settings_reordered :
  leftover [("a", "1"); ("a", "2")] [("a", "1")] = [("a", "2"); ("a", "1")].
Proof. reflexivity. Qed.

Definition settings_demo : st Z :=
  set_version (Some "22.3.5.5") (set_settings (Some [("max_threads", "1")]) demo_state).

Lemma settings_scoped_witness :
  ∃ o, with_all getsattr_demo [allow_s3_truncate; allow_experimental_map_type]
      (raise (Fail "test") : M (st Z) unit) settings_demo =
    (Exc (Fail "test"), set_settings o (entered [allow_s3_truncate; allow_experimental_map_type]
                                          settings_demo)) ∧
    default [] o = [("max_threads", "1")].
Proof.
  destruct (@settings_scoped Z getsattr_demo (λ s, eq_refl) unit
    [allow_s3_truncate; allow_experimental_map_type] (raise (Fail "test")) settings_demo
    (Exc (Fail "test")) (entered [allow_s3_truncate; allow_experimental_map_type] settings_demo)
    ltac:(by repeat constructor) eq_refl eq_refl eq_refl)
    as (_ & o & E & _ & _ & Ho).
  exists o. split; [exact E|]. apply (Ho eq_refl), Forall_forall. apply (bool_decide_unpack _). by vm_compute.
Defined.

Lemma query_under_settings_witness :
  (with_all getsattr_demo [allow_s3_truncate; allow_experimental_map_type]
     (@query Z (script_env healthy) 3 plain_config "clickhouse1" "SELECT 1"
        (with_settings [("log", "0")])) settings_demo).1 =
  Ok (mkResult 0 ("echo -e " +:+ q "SELECT 1" +:+ " | clickhouse client -n --log " +:+ q "0" +:+
                  " --max_threads " +:+ q "1" +:+ " --s3_truncate_on_insert " +:+ q "1" +:+
                  " --allow_experimental_map_type " +:+ q "1" +:+ " 2>&1")).
Proof.
  destruct (@query_under_settings Z (script_env healthy) getsattr_demo (λ s, eq_refl) 3
    plain_config "clickhouse1" [allow_s3_truncate; allow_experimental_map_type] "SELECT 1"
    (with_settings [("log", "0")]) 1 settings_demo _ _ ltac:(by repeat constructor)
    ltac:(vm_compute; lia) eq_refl demo_cached eq_refl eq_refl) as (o & E & _).
  - intros _ m Hm. vm_compute in Hm. set_unfold in Hm. by destruct_or! Hm; subst.
  - rewrite E. by vm_compute.
Defined.
