(* ===== verification/Suites.v ===== *)
(** * The entry modules of the suites

    What the [regression] of every suite's entry module (regression.py of its
    directory) does with its arguments: the context of the tests, the cluster
    it sets up, the checks of the server version, and the tests in their order.
    The modules run against the interface [SuiteApi] of the framework and of the
    cluster (Setup, Lifecycle); the tests that they load are not modelled. *)
From stdpp Require Import gmap.
From S2P Require Import Prelude PyStr PyDict PyMonad Argparse Version World Cluster Setup NodeLog XmlConfig StorageConfig.
Local Open Scope Z_scope.

(** What a module assigns to the context *)
Inductive context_value :=
  | Val (v : pyval)
  | TheCluster
  | NodeOf (name : string)
  | NodesOf (names : list string)
  | EmptyDict.

(** [su_set] assigns to [self.context], [su_version] reads its
    [clickhouse_version], which [su_set "clickhouse_version"] and the cluster
    change; [su_open] and [su_close] enter and leave [with Cluster(...)];
    [su_test] runs [load(module, name)] as a test, [su_start] does so in a pool,
    whose tests [su_join] waits for; [su_step] is another step of the suite,
    [su_install] and [su_remove] are what [add_config] (StorageConfig) does with
    a storage configuration before and after the tests; [su_exists] tells
    whether a module can be loaded. *)
Class SuiteApi (S : Type) := {
  su_set : string → context_value → M S unit;
  su_version : M S (option string);
  su_open : cluster_args → M S unit;
  su_close : M S unit;
  su_test : string → string → list (string * pyval) → M S unit;
  su_start : string → string → M S unit;
  su_join : M S unit;
  su_step : string → list pyval → M S unit;
  su_install : entries → M S unit;
  su_remove : M S unit;
  su_exists : string → M S bool
}.
#[export] Hint Mode SuiteApi ! : typeclass_instances.

(** The arguments that all modules have; [r_stress] may be [None]. *)
Record suite_args := mkSuiteArgs {
  r_local : bool;
  r_binary : string;
  r_version : option string;
  r_logs : bool;
  r_stress : pyval
}.

(** *** Directories of docker-compose, where [current_dir()] is [caller_dir py] *)

Definition env_suffix (py : process) : string :=
  if String.eqb (current_cpu py) "aarch64" then "_env_arm64" else "_env".
(** [f"{folder_name}_env"] or its ARM variant, the same with a given name,
    the directory that is not chosen by the platform, and a fixed one *)
Definition named_env (py : process) (name : string) : string :=
  path_join (caller_dir py) (name +:+ env_suffix py).
Definition folder_env (py : process) : string := named_env py (basename (caller_dir py)).
Definition plain_env (py : process) : string :=
  path_join (caller_dir py) (basename (caller_dir py) +:+ "_env").
Definition fixed_env (py : process) (env : string) : string := path_join (caller_dir py) env.

(** *** Clusters *)

(** [Cluster(local, clickhouse_binary_path, collect_service_logs=...,
    nodes=nodes, docker_compose_project_dir=dir)] *)
Definition suite_cluster (a : suite_args) (nodes : dict string (list string)) (dir : string)
    : cluster_args :=
  mkClusterArgs (r_local a) (Some (r_binary a)) None None (Some nodes) "docker-compose" (Some dir)
    "docker-compose.yml" None false (r_logs a) false.
(** With [thread_fuzzer], [environ], [configs_dir] or [use_zookeeper_nodes] *)
Definition fuzzed (b : bool) (c : cluster_args) : cluster_args :=
  mkClusterArgs (a_local c) (a_binary c) (a_odbc_bridge c) (a_configs_dir c) (a_nodes c)
    (a_docker_compose c) (a_project_dir c) (a_compose_file c) (a_environ c) b
    (a_collect_service_logs c) (a_use_zookeeper_nodes c).
Definition with_environ (e : dict string string) (c : cluster_args) : cluster_args :=
  mkClusterArgs (a_local c) (a_binary c) (a_odbc_bridge c) (a_configs_dir c) (a_nodes c)
    (a_docker_compose c) (a_project_dir c) (a_compose_file c) (Some e) (a_thread_fuzzer c)
    (a_collect_service_logs c) (a_use_zookeeper_nodes c).
Definition with_configs (d : string) (c : cluster_args) : cluster_args :=
  mkClusterArgs (a_local c) (a_binary c) (a_odbc_bridge c) (Some d) (a_nodes c)
    (a_docker_compose c) (a_project_dir c) (a_compose_file c) (a_environ c) (a_thread_fuzzer c)
    (a_collect_service_logs c) (a_use_zookeeper_nodes c).
Definition with_zookeepers (c : cluster_args) : cluster_args :=
  mkClusterArgs (a_local c) (a_binary c) (a_odbc_bridge c) (a_configs_dir c) (a_nodes c)
    (a_docker_compose c) (a_project_dir c) (a_compose_file c) (a_environ c) (a_thread_fuzzer c)
    (a_collect_service_logs c) true.

Definition clickhouse_3 : dict string (list string) :=
  [("clickhouse", ["clickhouse1"; "clickhouse2"; "clickhouse3"])].
Definition clickhouse_4 : dict string (list string) :=
  [("zookeeper", ["zookeeper"]);
   ("clickhouse", ["clickhouse1"; "clickhouse2"; "clickhouse3"; "clickhouse4"])].
(** [("bash_tools")] is a text, whose members are its letters. *)
Definition bash_tools : list string := ["b"; "a"; "s"; "h"; "_"; "t"; "o"; "o"; "l"; "s"].
Definition clickhouse_13 : list string :=
  ["clickhouse1"; "clickhouse2"; "clickhouse3"; "clickhouse4"; "clickhouse5"; "clickhouse6";
   "clickhouse7"; "clickhouse8"; "clickhouse9"; "clickhouse10"; "clickhouse11"; "clickhouse12";
   "clickhouse13"].

(** aggregate_functions/tests/steps.py *)
Definition aggregate_functions : list string :=
  ["aggThrow"; "any"; "anyHeavy"; "anyLast"; "argMax"; "argMin"; "avg"; "avgWeighted";
   "boundingRatio"; "categoricalInformationValue"; "contingency"; "corr"; "corrStable"; "count";
   "covarPop"; "covarPopStable"; "covarSamp"; "covarSampStable"; "cramersV";
   "cramersVBiasCorrected"; "deltaSum"; "deltaSumTimestamp"; "dense_rank"; "entropy";
   "exponentialMovingAverage"; "exponentialTimeDecayedAvg"; "exponentialTimeDecayedCount";
   "exponentialTimeDecayedMax"; "exponentialTimeDecayedSum"; "first_value"; "groupArray";
   "groupArrayInsertAt"; "groupArrayMovingAvg"; "groupArrayMovingSum"; "groupArraySample";
   "groupBitAnd"; "groupBitOr"; "groupBitXor"; "groupBitmap"; "groupBitmapAnd"; "groupBitmapOr";
   "groupBitmapXor"; "groupUniqArray"; "histogram"; "intervalLengthSum"; "kurtPop"; "kurtSamp";
   "lagInFrame"; "last_value"; "leadInFrame"; "mannWhitneyUTest"; "max"; "maxIntersections";
   "maxIntersectionsPosition"; "maxMappedArrays"; "meanZTest"; "min"; "minMappedArrays";
   "nonNegativeDerivative"; "nothing"; "nth_value"; "quantile"; "quantileBFloat16";
   "quantileBFloat16Weighted"; "quantileDeterministic"; "quantileExact";
   "quantileExactExclusive"; "quantileExactHigh"; "quantileExactInclusive"; "quantileExactLow";
   "quantileExactWeighted"; "quantileTDigest"; "quantileTDigestWeighted"; "quantileTiming";
   "quantileTimingWeighted"; "quantiles"; "quantilesBFloat16"; "quantilesBFloat16Weighted";
   "quantilesDeterministic"; "quantilesExact"; "quantilesExactExclusive"; "quantilesExactHigh";
   "quantilesExactInclusive"; "quantilesExactLow"; "quantilesExactWeighted"; "quantilesTDigest";
   "quantilesTDigestWeighted"; "quantilesTiming"; "quantilesTimingWeighted"; "rank"; "rankCorr";
   "retention"; "row_number"; "sequenceCount"; "sequenceMatch"; "sequenceNextNode";
   "simpleLinearRegression"; "singleValueOrNull"; "skewPop"; "skewSamp"; "sparkbar";
   "stddevPop"; "stddevPopStable"; "stddevSamp"; "stddevSampStable";
   "stochasticLinearRegression"; "stochasticLogisticRegression"; "studentTTest"; "sum";
   "sumCount"; "sumKahan"; "sumMap"; "minMap"; "maxMap"; "sumMapFiltered";
   "sumMapFilteredWithOverflow"; "sumMapWithOverflow"; "sumMappedArrays"; "sumWithOverflow";
   "theilsU"; "topK"; "topKWeighted"; "uniq"; "uniqCombined"; "uniqCombined64"; "uniqExact";
   "uniqHLL12"; "uniqTheta"; "uniqUpTo"; "varPop"; "varPopStable"; "varSamp"; "varSampStable";
   "welchTTest"; "windowFunnel"].

Section suites.
Context {S : Type} `{SuiteApi S}.
Variable py : process.
Abbreviation M := (M S).

(** ** What the modules share *)

Definition set_val (name : string) (v : pyval) : M unit := su_set name (Val v).
Definition opt_val (o : option string) : pyval := match o with Some s => PStr s | None => PNone end.
Definition set_version (a : suite_args) : M unit :=
  set_val "clickhouse_version" (opt_val (r_version a)).
(** [if stress is not None: self.context.stress = stress] *)
Definition set_stress (a : suite_args) : M unit :=
  when (negb (bool_decide (r_stress a = PNone))) (set_val "stress" (r_stress a)).
Definition begin_suite (a : suite_args) : M unit := set_version a;; set_stress a.
(** [if parallel is not None: self.context.parallel = parallel] *)
Definition set_parallel (parallel : pyval) : M unit :=
  when (negb (bool_decide (parallel = PNone))) (set_val "parallel" parallel).

(** [with Cluster(...) as cluster: body], in most modules with the assignment
    [self.context.cluster = cluster] first *)
Definition inside_cluster (c : cluster_args) (body : M unit) : M unit :=
  su_open c;; try_finally body su_close.
Definition with_cluster (c : cluster_args) (body : M unit) : M unit :=
  inside_cluster c (su_set "cluster" TheCluster;; body).

(** [if check_clickhouse_version(op)(self): skip(reason=...)] *)
Definition skip_if (op reason : string) : M unit :=
  v ← su_version;
  old ← lift (check_clickhouse_version op v);
  when old (raise (Skip reason)).

(** [if "fips" in current().context.clickhouse_version or force: ...] *)
Definition check_fips (force : bool) : M unit :=
  v ← su_version;
  match v with
  | None => raise (TypeError "argument of type 'NoneType' is not iterable")
  | Some v => when (contains "fips" v || force) (set_val "fips_mode" (PBool true))
  end.

(** Tests of the modules of one package, one after the other, or in a pool *)
Definition tests (package : string) (l : list (string * string)) : M unit :=
  for_ l (λ mn, su_test (package +:+ mn.1) mn.2 []).
Definition features (package : string) (l : list string) : M unit :=
  tests package ((λ m, (m, "feature")) <$> l).
Definition in_pool (package : string) (l : list (string * string)) : M unit :=
  try_finally (for_ l (λ mn, su_start (package +:+ mn.1) mn.2)) su_join.

(** ** The suites *)

Definition aes_encryption_regression (a : suite_args) : M unit :=
  begin_suite a;;
  with_cluster (suite_cluster a clickhouse_3 (folder_env py))
    (in_pool "aes_encryption.tests." ((λ m, (m, "feature")) <$>
       ["encrypt"; "decrypt"; "encrypt_mysql"; "decrypt_mysql"; "compatibility.feature"])).

(** The cluster of [create_cluster], a step that closes it after the suite *)
Definition aggregate_functions_regression (a : suite_args) : M unit :=
  begin_suite a;;
  with_cluster (with_configs (caller_dir py) (suite_cluster a clickhouse_3 (plain_env py)))
    (su_set "node" (NodeOf "clickhouse1");;
     su_step "create_table" [PStr "MergeTree() ORDER BY tuple()"];;
     su_step "insert_test_data" [];;
     for_ aggregate_functions (λ name,
       let module := "aggregate_functions.tests." +:+ name in
       there ← su_exists module;
       if (there : bool) then su_start module "feature"
       else su_step "xfail" [PStr name; PStr (name +:+ " tests are not implemented")]);;
     su_join;;
     features "aggregate_functions.tests." ["state"]).

Definition atomic_insert_regression (a : suite_args) (thread_fuzzer : bool) : M unit :=
  set_version a;;
  set_val "transaction_atomic_insert" (PBool true);;
  set_stress a;;
  with_cluster (fuzzed thread_fuzzer (suite_cluster a clickhouse_4 (named_env py "atomic_insert")))
    (skip_if "<22.4" "only supported on ClickHouse version >= 22.4";;
     su_step "create_transactions_configuration" [];;
     features "atomic_insert.tests."
       ["sanity"; "dependent_tables"; "block_fail"; "insert_settings"; "distributed_table";
        "user_rights"; "transaction"; "hard_restart"]).

Definition base_58_regression (a : suite_args) (parallel : pyval) : M unit :=
  set_version a;;
  with_cluster (suite_cluster a clickhouse_3 (plain_env py))
    (set_val "stress" (r_stress a);;
     set_parallel parallel;;
     skip_if "<22.7" "only supported on ClickHouse version >= 22.7";;
     features "base_58.tests."
       ["consistency"; "null"; "alias_input"; "function_input"; "compatibility"; "memory_usage";
        "performance"; "supported_types_constant"; "supported_types_column";
        "unsupported_types_constant"; "unsupported_types_column"]).

(** The port and the texts that the tests of the keeper use *)
Definition set_ssl (ssl : bool) : M unit :=
  set_val "tcp_port_secure" (PBool ssl);;
  set_val "secure" (PInt (if ssl then 1 else 0));;
  if ssl then set_val "port" (PStr "9281");; set_val "ssl" (PStr "true")
  else set_val "ssl" (PStr "false");; set_val "port" (PStr "2181").
Definition clickhouse_keeper_regression (a : suite_args) (ssl : pyval) : M unit :=
  set_version a;;
  set_val "ssl" ssl;;
  set_stress a;;
  set_ssl (truth ssl);;
  with_cluster (suite_cluster a
      [("zookeeper", ["zookeeper1"; "zookeeper2"; "zookeeper3"; "zookeeper"; "zookeeper-fips"]);
       ("bash_tools", bash_tools); ("clickhouse", clickhouse_13)] (folder_env py))
    (skip_if "<21.4" "only supported on ClickHouse version >= 21.4";;
     check_fips false;;
     if truth ssl then
       su_step "create_3_3_cluster_config_ssl" [];;
       features "clickhouse_keeper.tests."
         ["sanity"; "cli"; "synchronization"; "non_distributed_ddl_queries";
          "keeper_cluster_tests"; "alter_column_distributed"; "alter_partition_distributed";
          "servers_start_up"; "ports_ssl_fips"; "fips"]
     else
       su_step "create_3_3_cluster_config" [];;
       features "clickhouse_keeper.tests."
         ["sanity"; "migration"; "synchronization"; "cli"; "servers_start_up"; "cli_converter";
          "non_distributed_ddl_queries"; "keeper_cluster_tests"; "alter_column_distributed";
          "alter_partition_distributed"; "four_letter_word_commands"; "coordination_settings"]).

Definition data_types_regression (a : suite_args) : M unit :=
  begin_suite a;;
  with_cluster (suite_cluster a clickhouse_3 (folder_env py)) (features "data_types.tests." ["map"]).

(** The directory that follows the platform is computed, but not used. *)
Definition datetime64_extended_range_regression (a : suite_args) : M unit :=
  begin_suite a;;
  with_cluster (suite_cluster a clickhouse_3 (fixed_env py "datetime64_extended_range_env"))
    (in_pool "datetime64_extended_range.tests."
       [("generic", "generic"); ("non_existent_time", "feature");
        ("reference_times", "reference_times"); ("date_time_functions", "date_time_funcs");
        ("type_conversion", "type_conversion"); ("format_conversion", "format_conversion")]).

(** This suite checks the version before it sets up the cluster. *)
Definition disk_level_encryption_regression (a : suite_args) : M unit :=
  begin_suite a;;
  skip_if "<21.9" "only supported on ClickHouse version >= 21.9";;
  with_cluster (suite_cluster a (clickhouse_3 ++ [("cmd-clickhouse", ["clickhouse_cmd"])])
                  (folder_env py))
    (features "disk_level_encryption.tests."
       ["memory"; "column_ttl"; "encrypted_disk"; "application_of_changes";
        "wide_access_permission"; "no_access_rights"; "new_directories"; "invalid_disk";
        "distributed_table"; "replicated_table"; "invalid_key_size"; "encryption_algorithms";
        "comparable_performance"; "comparable_part_sizes"; "wide_and_compact_formats";
        "multi_disk_volume"; "multi_volume_policy"; "missing_key";
        "merge_parts_with_different_keys"; "invalid_current_key_id"; "multiple_keys";
        "default_path"; "valid_path"; "invalid_path"; "operations.feature"; "key_formats";
        "encryption_at_rest"]).

Definition dns_regression (a : suite_args) : M unit :=
  begin_suite a;;
  with_cluster (suite_cluster a [("clickhouse", ["clickhouse1"; "clickhouse2"])] (folder_env py))
    (tests "dns.tests." [("lookup.scenario", "scenario"); ("ipv6", "feature")]).

Definition engines_regression (a : suite_args) (thread_fuzzer : bool) : M unit :=
  begin_suite a;;
  with_cluster (fuzzed thread_fuzzer (suite_cluster a clickhouse_3 (named_env py "engines")))
    (su_set "node" (NodeOf "clickhouse1");;
     features "engines.tests."
       ["replacing_merge_tree.replacing_merge_tree";
        "replacing_merge_tree.replicated_replacing_merge_tree"]).

Definition example_regression (a : suite_args) : M unit :=
  begin_suite a;;
  with_cluster (suite_cluster a [("clickhouse", ["clickhouse1"])] (folder_env py))
    (tests "example.tests." [("example", "scenario")]).

Definition extended_precision_data_types_regression (a : suite_args) : M unit :=
  set_version a;;
  with_cluster (suite_cluster a [("clickhouse", ["clickhouse1"])] (folder_env py))
    (set_val "stress" (r_stress a);;
     features "extended_precision_data_types.tests." ["feature"]).

Definition kafka_regression (a : suite_args) : M unit :=
  begin_suite a;;
  with_cluster (suite_cluster a (clickhouse_3 ++ [("kafka", ["kafka1"; "kafka2"; "kafka3"])])
                  (folder_env py))
    (tests "kafka.tests." ((λ m, (m, "scenario")) <$>
       ["distributed"; "non_replicated"; "non_replicated_4_consumers";
        "non_replicated_target_table_not_writable"; "non_replicated_clickhouse_restart";
        "non_replicated_4_consumers_restart"; "replicated_stop_and_restart"])).

Definition kerberos_regression (a : suite_args) : M unit :=
  begin_suite a;;
  with_cluster (suite_cluster a (clickhouse_3 ++ [("kerberos", ["kerberos"])]) (folder_env py))
    (tests "kerberos.tests." [("generic", "generic"); ("config", "config"); ("parallel", "parallel")]).

Definition key_value_regression (a : suite_args) (parallel : pyval) : M unit :=
  set_version a;;
  skip_if "<23.5" "only supported on ClickHouse version >= 23.5";;
  with_cluster (suite_cluster a clickhouse_3 (plain_env py))
    (set_val "stress" (r_stress a);;
     set_parallel parallel;;
     features "key_value.tests."
       ["constant"; "column"; "map"; "array"; "special_symbols_conflict"; "supported_data_types";
        "unsupported_data_types"; "parameters_format"]).

(** ldap/regression.py runs the three modules below in a pool, without a
    cluster of its own. *)
Definition ldap_regression (a : suite_args) : M unit :=
  begin_suite a;;
  in_pool "ldap."
    [("authentication.regression", "regression");
     ("external_user_directory.regression", "regression"); ("role_mapping.regression", "regression")].
Definition ldap_part (a : suite_args) (l : list (string * string)) : M unit :=
  begin_suite a;;
  with_cluster (suite_cluster a clickhouse_3 (folder_env py)) (tests "ldap." l).
Definition ldap_authentication_regression (a : suite_args) : M unit := ldap_part a
  [("authentication.tests.sanity", "scenario"); ("authentication.tests.multiple_servers", "scenario");
   ("authentication.tests.connections", "feature"); ("authentication.tests.server_config", "feature");
   ("authentication.tests.user_config", "feature");
   ("authentication.tests.authentications", "feature")].
Definition ldap_external_user_directory_regression (a : suite_args) : M unit := ldap_part a
  [("authentication.tests.sanity", "scenario"); ("external_user_directory.tests.simple", "scenario");
   ("external_user_directory.tests.restart", "feature");
   ("external_user_directory.tests.server_config", "feature");
   ("external_user_directory.tests.external_user_directory_config", "feature");
   ("external_user_directory.tests.connections", "feature");
   ("external_user_directory.tests.authentications", "feature");
   ("external_user_directory.tests.roles", "feature")].
Definition ldap_role_mapping_regression (a : suite_args) : M unit := ldap_part a
  [("authentication.tests.sanity", "scenario"); ("role_mapping.tests.server_config", "feature");
   ("role_mapping.tests.mapping", "feature"); ("role_mapping.tests.user_dn_detection", "feature");
   ("role_mapping.tests.cluster_secret", "feature")].

Definition lightweight_delete_regression (a : suite_args) (use_alter_delete force_run : bool)
    (parallel : pyval) : M unit :=
  set_version a;;
  set_val "use_alter_delete" (PBool use_alter_delete);;
  with_cluster (suite_cluster a clickhouse_3 (plain_env py))
    (set_val "stress" (r_stress a);;
     set_parallel parallel;;
     when (negb force_run && negb use_alter_delete)
       (skip_if "<22.8" "only supported on ClickHouse version >= 22.8");;
     when (negb use_alter_delete) (su_step "allow_experimental_lightweight_delete" []);;
     features "lightweight_delete.tests."
       ["acceptance_concurrent_alter_and_delete"; "acceptance_column_ttl"; "backup"; "disk_space";
        "zookeeper_load"; "load"; "acceptance"; "acceptance_tiered_storage_ttl";
        "efficient_physical_data_removal"; "multiple_delete_limitations"; "hard_restart"; "s3";
        "lack_of_disk_space"; "multi_disk"; "projections"; "drop_empty_part"; "views";
        "compatibility"; "ontime_tests"; "replicated_tables_concurrent_deletes";
        "replicated_table_with_concurrent_alter_and_delete";
        "replicated_table_with_alter_after_delete_on_single_node"; "nondeterministic_functions";
        "performance"; "distributed_tables"; "replication_queue"; "replicated_tables";
        "delete_and_tiered_storage_ttl"; "encrypted_disk"; "delete_and_column_ttl";
        "alter_after_delete"; "random_concurrent_alter"; "concurrent_alter_and_delete";
        "concurrent_delete"; "invalid_where_clause"; "immediate_removal"; "basic_checks";
        "specific_deletes"]).

Definition part_moves_between_shards_regression (a : suite_args) (thread_fuzzer : bool) : M unit :=
  begin_suite a;;
  with_cluster (fuzzed thread_fuzzer (suite_cluster a clickhouse_4 (named_env py "part_moves")))
    (su_set "node" (NodeOf "clickhouse1");;
     skip_if "<21.4" "only supported on ClickHouse version >= 21.4";;
     features "part_moves_between_shards.tests."
       ["sanity"; "part_moves"; "system_table"; "deduplication"]).

Definition rbac_regression (a : suite_args) : M unit :=
  begin_suite a;;
  with_cluster (suite_cluster a clickhouse_3 (folder_env py))
    (v ← su_version;
     new ← lift (check_clickhouse_version ">=23.2" v);
     when new (for_ ["clickhouse1"; "clickhouse2"; "clickhouse3"]
                 (λ node, su_step "add_rbac_config_file" [PStr node]));;
     features "rbac.tests." ["syntax.feature"; "privileges.feature"; "views.feature"]).

Definition selects_regression (a : suite_args) (thread_fuzzer : bool) : M unit :=
  begin_suite a;;
  with_cluster (fuzzed thread_fuzzer (suite_cluster a clickhouse_3 (named_env py "selects")))
    (su_set "node" (NodeOf "clickhouse1");;
     tests "selects.tests." [("final.feature", "module")]).

Definition session_timezone_regression (a : suite_args) : M unit :=
  begin_suite a;;
  with_cluster (suite_cluster a clickhouse_3 (fixed_env py "session_timezone_env"))
    (skip_if "<23.5" "only supported on ClickHouse version >= 23.5";;
     features "session_timezone.tests."
       ["sanity"; "basic"; "clickhouse_local"; "date_functions"; "tables_with_date_columns"]).

Definition ssl_keeper_regression (a : suite_args) (thread_fuzzer : bool) : M unit :=
  set_version a;;
  set_val "transaction_atomic_insert" (PBool true);;
  set_stress a;;
  with_cluster (fuzzed thread_fuzzer (suite_cluster a (clickhouse_3 ++ [("bash_tools", bash_tools)])
                  (fixed_env py "ssl_keeper_env")))
    (skip_if "<22.4" "only supported on ClickHouse version >= 22.4";;
     features "ssl_keeper.tests." ["sanity"; "fips_ssl"]).

Definition ssl_server_regression (a : suite_args) (force_fips : bool) : M unit :=
  set_version a;;
  set_val "fips_mode" (PBool false);;
  set_stress a;;
  with_cluster (with_zookeepers (suite_cluster a
      (clickhouse_3 ++ [("zookeeper", ["zookeeper"; "zookeeper-fips"])]) (folder_env py)))
    (check_fips force_fips;;
     features "ssl_server.tests."
       ["check_certificate"; "sanity"; "ssl_context"; "certificate_authentication";
        "verification_mode"; "url_table_function"; "dictionary"; "fips"; "zookeeper.feature";
        "zookeeper_fips.feature"; "ca_chain.feature"]).

Definition window_functions_regression (a : suite_args) : M unit :=
  begin_suite a;;
  with_cluster (suite_cluster a clickhouse_3 (plain_env py))
    (features "window_functions.tests." ["feature"]).

(** *** clickhouse_keeper/performance.py *)

(** One cluster for every binary, with and without SSL, and for the keeper
    and ZooKeeper; [default_binary] is the one of the environment, for an empty
    list.  Only the directory without the ARM suffix is one of its own. *)
Definition performance_env : string :=
  path_join (caller_dir py) (basename (caller_dir py) +:+
    (if String.eqb (current_cpu py) "aarch64" then "_env_arm64" else "_performance_env")).
Definition performance_cluster (a : suite_args) (binary : string) : cluster_args :=
  suite_cluster (mkSuiteArgs (r_local a) binary (r_version a) (r_logs a) (r_stress a))
    [("zookeeper", ["zookeeper1"; "zookeeper2"; "zookeeper3"; "zookeeper"]);
     ("bash_tools", bash_tools); ("clickhouse", clickhouse_13)] performance_env.
Definition performance_round (a : suite_args) (binary : string) (ssl : bool) (feature : string)
    : M unit :=
  with_cluster (performance_cluster a binary)
    (skip_if "<21.4" "only supported on ClickHouse version >= 21.4";;
     su_step (if ssl then "create_3_3_cluster_config_ssl" else "create_3_3_cluster_config") [];;
     features "clickhouse_keeper.tests.performance_files." [feature]).
Definition performance_regression (a : suite_args) (binaries : list string) (default_binary : string)
    (repeats inserts : Z) (results_file_name : string) (one_node three_node : bool) : M unit :=
  let binaries := match binaries with [] => [default_binary] | l => l end in
  su_set "configurations_insert_time_values" EmptyDict;;
  set_val "repeats" (PInt repeats);;
  set_val "inserts" (PInt inserts);;
  set_val "results_file_name" (PStr results_file_name);;
  set_val "one_node" (PBool one_node);;
  set_val "three_node" (PBool three_node);;
  for_ binaries (λ binary,
    begin_suite a;;
    for_ [false; true] (λ ssl : bool,
      set_val "ssl" (PStr (if ssl then "true" else "false"));;
      set_val "tcp_port_secure" (PBool ssl);;
      set_val "secure" (PInt (if ssl then 1 else 0));;
      set_val "port" (PStr (if ssl then "9281" else "2181"));;
      for_ ["keeper"; "zookeeper"] (performance_round a binary ssl)));;
  su_step "create_csv_file" [PStr results_file_name; PInt repeats; PInt inserts;
    PList ["all setups"; "ssl"; "Zookeeper"; "altinitystable"]];;
  su_step "create_markdown_and_html_reports" [PStr results_file_name].

(** ** The suites on object storages *)

(** [x.value], where [x] is a [Secret] or [None] *)
Definition secret_value (x : option string) : M string :=
  lift (or_raise (AttributeError "'NoneType' object has no attribute 'value'") x).
(** [if x == None: fail(what + " needs to be set")], and then its value *)
Definition need (x : option string) (what : string) : M string :=
  lift (or_raise (Fail (what +:+ " needs to be set")) x).

(** The secrets of the command line *)
Record secrets := mkSecrets {
  aws_s3_bucket : option string; aws_s3_region : option string; aws_s3_key_id : option string;
  aws_s3_access_key : option string; aws_s3_uri : option string;
  gcs_uri : option string; gcs_key_id : option string; gcs_key_secret : option string
}.

(** *** s3/regression.py *)

Definition s3_features (variant : string) (args : list (string * pyval)) (l : list string) : M unit :=
  for_ l (λ m, su_test ("s3.tests." +:+ m) variant args).

Definition minio_regression (a : suite_args) (uri root_user root_password : string) : M unit :=
  with_cluster (with_environ [("MINIO_ROOT_PASSWORD", root_password); ("MINIO_ROOT_USER", root_user)]
                  (suite_cluster a clickhouse_3 (folder_env py)))
    (su_step "start_minio" [PStr root_user; PStr root_password];;
     (* [start_minio] sets [cluster.minio_bucket] to [root] *)
     let uri_bucket_file := uri +:+ "/root" +:+ "/data/" in
     s3_features "minio" [("uri", PStr uri_bucket_file); ("key", PStr root_user);
                          ("secret", PStr root_password)]
       ["table_function"; "backup"; "table_function_invalid"; "disk"; "disk_invalid"; "sanity";
        "reconnect"; "zero_copy_replication"];;
     su_test "s3.tests.cit" "feature" [("uri", PStr uri)]).

Definition aws_s3_regression (a : suite_args) (x : secrets) : M unit :=
  access_key ← need (aws_s3_access_key x) "AWS S3 access key";
  key_id ← need (aws_s3_key_id x) "AWS S3 key id";
  bucket ← need (aws_s3_bucket x) "AWS S3 bucket";
  region ← need (aws_s3_region x) "AWS S3 region";
  with_cluster (with_environ
      [("S3_AMAZON_ACCESS_KEY", access_key); ("S3_AMAZON_KEY_ID", key_id);
       ("AWS_ACCESS_KEY_ID", key_id); ("AWS_SECRET_ACCESS_KEY", access_key);
       ("AWS_DEFAULT_REGION", region)]
      (suite_cluster a clickhouse_3 (folder_env py)))
    (let uri := "https://s3." +:+ region +:+ ".amazonaws.com/" +:+ bucket +:+ "/data/" in
     let args := [("uri", PStr uri); ("key_id", PStr key_id); ("access_key", PStr access_key)] in
     set_val "cluster.bucket" (PStr bucket);;
     s3_features "aws_s3" args
       ["table_function"; "table_function_invalid"; "disk"; "sanity"; "disk_invalid";
        "zero_copy_replication"; "reconnect"];;
     s3_features "aws_s3" (args ++ [("region", PStr region); ("bucket", PStr bucket)]) ["backup"]).

Definition gcs_regression (a : suite_args) (x : secrets) : M unit :=
  uri ← need (gcs_uri x) "GCS uri";
  access_key ← need (gcs_key_secret x) "GCS access key";
  key_id ← need (gcs_key_id x) "GCS key id";
  with_cluster (with_environ [("GCS_KEY_SECRET", access_key); ("GCS_KEY_ID", key_id)]
                  (suite_cluster a clickhouse_3 (folder_env py)))
    (s3_features "gcs" [("uri", PStr uri); ("key_id", PStr key_id); ("access_key", PStr access_key)]
       ["table_function"; "table_function_invalid"; "disk"; "zero_copy_replication"; "disk_invalid";
        "backup"]).

(** [storages] are the options [--storage], [None] without any. *)
Definition s3_regression (a : suite_args) (storages : option (list string)) (minio_uri : string)
    (minio_root_user minio_root_password : string) (x : secrets) : M unit :=
  set_version a;;
  let storages := default ["minio"] storages in
  when (bool_decide ("minio" ∈ storages))
    (minio_regression a minio_uri minio_root_user minio_root_password);;
  when (bool_decide ("aws_s3" ∈ storages)) (aws_s3_regression a x);;
  when (bool_decide ("gcs" ∈ storages)) (gcs_regression a x).

(** *** tiered_storage/regression.py *)

Definition tiered_tests : list (string * string) :=
  ((λ m, (m, "scenario")) <$>
     ["startup_and_queries"; "metadata"; "no_changes_to_queries";
      "volume_config_either_max_data_part_size_bytes_or_ratio"; "system_tables";
      "system_detached_parts"; "attach_or_replace_partition_different_policies"; "query_parser";
      "keep_free_space"; "no_warning_about_zero_max_data_part_size"; "round_robin";
      "max_data_part_size"; "jbod_overflow"; "start_stop_moves"; "mutate_to_another_disk";
      "alter_table_policy"; "simple_replication_and_moves"; "download_appropriate_disk";
      "download_appropriate_disk_advanced"; "download_appropriate_disk_max_data_part_size";
      "rename"; "freeze"; "double_move_while_select"]) ++
  [("background_move.feature", "feature"); ("alter_move.feature", "feature");
   ("manual_move_with_downtime", "scenario"); ("merge_parts_different_volumes", "scenario");
   ("merge_parts_different_volumes_no_space", "scenario"); ("ttl_moves.feature", "feature");
   ("change_config_norestart.feature", "feature")].

Definition tiered_feature (a : suite_args) (with_minio with_s3amazon with_s3gcs : bool)
    (environ : dict string string) : M unit :=
  inside_cluster (with_environ environ (suite_cluster a clickhouse_3 (folder_env py)))
    (set_val "cluster.with_minio" (PBool with_minio);;
     set_val "cluster.with_s3amazon" (PBool with_s3amazon);;
     set_val "cluster.with_s3gcs" (PBool with_s3gcs);;
     su_set "cluster" TheCluster;;
     config ← lift (tiered_entries with_minio with_s3amazon with_s3gcs (Some environ));
     try_finally (su_install config;; tests "tiered_storage.tests." tiered_tests) su_remove).

(** The environment for Amazon and for Google *)
Definition amazon_environ (x : secrets) : M (dict string string) :=
  secret_value (aws_s3_key_id x);; secret_value (aws_s3_access_key x);;
  secret_value (aws_s3_uri x);;
  key_id ← secret_value (aws_s3_key_id x);
  access_key ← secret_value (aws_s3_access_key x);
  uri ← secret_value (aws_s3_uri x);
  mret [("S3_AMAZON_KEY_ID", key_id); ("S3_AMAZON_ACCESS_KEY", access_key); ("S3_AMAZON_URI", uri)].
Definition google_environ (x : secrets) : M (dict string string) :=
  secret_value (gcs_key_id x);; secret_value (gcs_key_secret x);; secret_value (gcs_uri x);;
  key_id ← secret_value (gcs_key_id x);
  key_secret ← secret_value (gcs_key_secret x);
  uri ← secret_value (gcs_uri x);
  mret [("GCS_KEY_ID", key_id); ("GCS_KEY_SECRET", key_secret); ("GCS_URI", uri)].

Definition tiered_name (with_minio with_s3amazon with_s3gcs : bool) : string :=
  if with_minio then "with minio" else if with_s3amazon then "with s3amazon"
  else if with_s3gcs then "with s3gcs" else "normal".

Definition tiered_storage_regression (a : suite_args) (with_minio with_s3amazon with_s3gcs : bool)
    (x : secrets) : M unit :=
  set_version a;;
  when (with_minio || with_s3amazon || with_s3gcs)
    (su_step "skip" [PStr "/tiered storage/:/manual move with downtime"]);;
  su_step "Shell" [];;
  amazon ← (if with_s3amazon then amazon_environ x else mret [] : M (dict string string));
  google ← (if with_s3gcs then google_environ x else mret [] : M (dict string string));
  su_step "Feature" [PStr (tiered_name with_minio with_s3amazon with_s3gcs)];;
  tiered_feature a with_minio with_s3amazon with_s3gcs (amazon ++ google).

(** *** ontime_benchmark/benchmark.py *)

(** The storage: its URI, its keys and the environment of the cluster; what
    another text leaves in the variables is that of the storage before. *)
Definition benchmark_storage (storage : string) (x : secrets)
    (before : option (string * string * string))
    : M (option (string * string * string) * dict string string) :=
  if String.eqb storage "aws_s3" then
    need (aws_s3_access_key x) "AWS S3 access key";;
    need (aws_s3_key_id x) "AWS S3 key id";;
    need (aws_s3_bucket x) "AWS S3 bucket";;
    need (aws_s3_region x) "AWS S3 region";;
    region ← secret_value (aws_s3_region x);
    bucket ← secret_value (aws_s3_bucket x);
    key_id ← secret_value (aws_s3_key_id x);
    access_key ← secret_value (aws_s3_access_key x);
    mret (Some ("https://s3." +:+ region +:+ ".amazonaws.com/" +:+ bucket +:+ "/data/benchmark/",
                key_id, access_key), [])
  else if String.eqb storage "minio" then
    mret (Some ("http://minio1:9001/root/data/benchmark/", "minio", "minio123"),
          [("MINIO_ROOT_PASSWORD", "minio123"); ("MINIO_ROOT_USER", "minio")])
  else if String.eqb storage "gcs" then
    uri ← secret_value (gcs_uri x);
    key_id ← secret_value (gcs_key_id x);
    key_secret ← secret_value (gcs_key_secret x);
    mret (Some (uri, key_id, key_secret), [])
  else mret (before, []).

(** What a storage that is not set reads as in the text of the disk *)
Definition py_text (o : option string) : string := default "None" o.

Definition benchmark_round (a : suite_args) (node : string) (format : option string)
    (storage : string) (place : option (string * string * string)) (environ : dict string string)
    : M unit :=
  let uri := (λ p, p.1.1) <$> place in
  let key := (λ p, p.1.2) <$> place in
  let secret := snd <$> place in
  set_val "uri" (opt_val uri);;
  set_val "access_key_id" (opt_val key);;
  set_val "secret_access_key" (opt_val secret);;
  set_val "storage" (PStr storage);;
  with_cluster (with_environ environ (suite_cluster a clickhouse_3 (folder_env py)))
    (su_set "node" (NodeOf node);;
     v ← su_version;
     set_val "clickhouse_version" (opt_val v);;
     su_set "nodes" (NodesOf ["clickhouse1"; "clickhouse2"]);;
     try_finally
       (su_install (benchmark_entries (py_text uri) (py_text key) (py_text secret));;
        su_test "ontime_benchmark.tests.benchmark" "feature" [("format", opt_val format)])
       su_remove).

Fixpoint benchmark_rounds (a : suite_args) (node : string) (format : option string) (x : secrets)
    (storages : list string) (before : option (string * string * string)) : M unit :=
  match storages with
  | [] => mret tt
  | storage :: storages =>
      su_step "Feature" [PStr (lower storage)];;
      p ← benchmark_storage (lower storage) x before;
      benchmark_round a node format storage p.1 p.2;;
      benchmark_rounds a node format x storages p.1
  end.
Definition benchmark_regression (a : suite_args) (storages : option (list string))
    (format : option string) (node : string) (x : secrets) : M unit :=
  set_version a;;
  benchmark_rounds a node format x (default ["minio"] storages) None.
End suites.

(** ** The log of a module *)

(** What a module asks of the framework *)
Inductive suite_call :=
  | COpen (c : cluster_args)
  | CClose
  | CTest (module name : string) (args : list (string * pyval))
  | CStart (module name : string)
  | CJoin
  | CContext                   (* an assignment to the context or a look at it *)
  | CStep (name : string)      (* another step *)
  | COther.

(** A module that runs against [log] keeps its calls, and whether they
    returned. *)
Abbreviation suite_item := ((suite_call * bool)%type).
Section log.
Context {S : Type} (U : SuiteApi S).
Definition log_su {A} (c : suite_call) (m : M S A) : M (logged suite_item S) A := λ s,
  let '(r, s') := m s.1 in (r, (s', s.2 ++ [(c, is_ok r)])).
Definition suite_log : SuiteApi (logged suite_item S) := {|
  su_set n v := log_su CContext (su_set n v);
  su_version := log_su CContext su_version;
  su_open c := log_su (COpen c) (su_open c);
  su_close := log_su CClose su_close;
  su_test m n args := log_su (CTest m n args) (su_test m n args);
  su_start m n := log_su (CStart m n) (su_start m n);
  su_join := log_su CJoin su_join;
  su_step n args := log_su (CStep n) (su_step n args);
  su_install e := log_su COther (su_install e);
  su_remove := log_su COther su_remove;
  su_exists m := log_su COther (su_exists m)
|}.
End log.

(** Calls that neither enter nor leave a cluster *)
Definition inner (x : suite_item) : bool := match x.1 with COpen _ | CClose => false | _ => true end.
(** The steps that need no cluster: they open a shell on the host, name the
    tests, skip some of them, and write reports. *)
Definition host_steps : list string :=
  ["skip"; "Shell"; "Feature"; "create_csv_file"; "create_markdown_and_html_reports"].
(** Calls that may be made outside clusters, where [modules] are the entry
    modules that may be started there *)
Definition outer (modules : list string) (x : suite_item) : bool :=
  match x.1 with
  | CContext | CJoin => true
  | CStep name => bool_decide (name ∈ host_steps)
  | CStart module name => bool_decide (module ∈ modules) && String.eqb name "regression"
  | _ => false
  end.

(** A log in which tests and steps only run between the opening of a cluster
    whose arguments satisfy [P] and its closing, which follows whenever the
    opening returned; outside there are only the calls of [outer]. *)
Inductive clustered (P : cluster_args → Prop) (modules : list string) : list suite_item → Prop :=
  | clustered_nil : clustered P modules []
  | clustered_outer x l : outer modules x = true → clustered P modules l → clustered P modules (x :: l)
  | clustered_failed c l : P c → clustered P modules l → clustered P modules ((COpen c, false) :: l)
  | clustered_cluster c tests ok l :
      P c → forallb inner tests = true → clustered P modules l →
      clustered P modules ((COpen c, true) :: tests ++ (CClose, ok) :: l).
#[export] Hint Constructors clustered : core.

Lemma clustered_app P ms l k : clustered P ms l → clustered P ms k → clustered P ms (l ++ k).
Proof.
  induction 1 as [|x l Hx Hl IH|c l Hc Hl IH|c t ok l Hc Ht Hl IH]; intros Hk; simpl; auto.
  rewrite <-app_assoc. cbn [app]. auto.
Qed.

(** [Adds P m]: unless it gets stuck, [m] adds calls to the log that satisfy
    [P]. *)
Class Additive (P : list suite_item → Prop) : Prop := {
  additive_nil : P [];
  additive_app l k : P l → P k → P (l ++ k)
}.
#[export] Instance clustered_additive P ms : Additive (clustered P ms).
Proof. split; [constructor|apply clustered_app]. Qed.
#[export] Instance inner_additive : Additive (λ l, forallb inner l = true).
Proof. split; [done|]. intros l k Hl Hk. by rewrite forallb_app, Hl, Hk. Qed.

Section adds.
Context {S : Type}.
Abbreviation LS := (logged suite_item S).
Class Adds {A} (P : list suite_item → Prop) (m : M LS A) : Prop :=
  adds : ∀ s, is_stuck (m s).1 = false → ∃ l, (m s).2.2 = s.2 ++ l ∧ P l.

Context (P : list suite_item → Prop) `{!Additive P}.
#[export] Instance adds_ret {A} (a : A) : Adds P (mret a : M LS A).
Proof. intros s _. exists []. by rewrite app_nil_r; split; [|apply additive_nil]. Qed.
#[export] Instance adds_raise {A} e : Adds P (raise e : M LS A).
Proof. intros s _. exists []. by rewrite app_nil_r; split; [|apply additive_nil]. Qed.
#[export] Instance adds_lift {A} (r : res A) : Adds P (lift r : M LS A).
Proof. intros s _. exists []. by rewrite app_nil_r; split; [|apply additive_nil]. Qed.
#[export] Instance adds_bind {A B} (m : M LS A) (f : A → M LS B) :
  Adds P m → (∀ a, Adds P (f a)) → Adds P (m ≫= f).
Proof.
  intros Hm Hf s. specialize (Hm s). unfold mbind, M_bind.
  destruct (m s) as [[a|e|w] s1]; simpl in *; [|auto|done]. intros Hs.
  destruct (Hm eq_refl) as (l & Hl & Pl). destruct (Hf a s1 Hs) as (k & Hk & Pk).
  exists (l ++ k). split; [by rewrite Hk, Hl, app_assoc|by apply additive_app].
Qed.
#[export] Instance adds_when b (m : M LS unit) : Adds P m → Adds P (when b m).
Proof. destruct b; [done|]. intros _. apply adds_ret. Qed.
#[export] Instance adds_try_finally {A} (m : M LS A) f :
  Adds P m → Adds P f → Adds P (try_finally m f).
Proof.
  intros Hm Hf s. specialize (Hm s). unfold try_finally.
  destruct (m s) as [[a|e|w] s1]; simpl in *; [| |done];
    destruct (Hm eq_refl) as (l & Hl & Pl); specialize (Hf s1);
    (destruct (f s1) as [[[]|e'|w'] s2]; simpl in *; [| |done]); intros _;
    destruct (Hf eq_refl) as (k & Hk & Pk); exists (l ++ k);
    (split; [by rewrite Hk, Hl, app_assoc|by apply additive_app]).
Qed.
Lemma adds_for_in {A} (l : list A) (body : A → M LS unit) :
  (∀ x, x ∈ l → Adds P (body x)) → Adds P (for_ l body).
Proof.
  induction l as [|x l IH]; intros Hb; [apply adds_ret|].
  apply adds_bind; [apply Hb; left|]. intros _. apply IH. intros y Hy. apply Hb. by right.
Qed.
#[export] Instance adds_for {A} (l : list A) (body : A → M LS unit) :
  (∀ x, Adds P (body x)) → Adds P (for_ l body).
Proof. intros Hb. by apply adds_for_in. Qed.
Lemma adds_log {A} c (m : M S A) : (∀ ok, P [(c, ok)]) → Adds P (log_su c m).
Proof.
  intros Hc s _. unfold log_su. destruct (m s.1) as [r s']. exists [(c, is_ok r)]. by split.
Qed.
End adds.
#[export] Hint Mode Adds + + + ! : typeclass_instances.
#[export] Hint Extern 1 (Adds _ (log_su _ _)) =>
  (apply adds_log; intros ?; solve [reflexivity|repeat constructor]) : typeclass_instances.
#[export] Hint Extern 5 (Adds _ (match ?x with _ => _ end)) => destruct x : typeclass_instances.

Section logged.
Context {S : Type} (U : SuiteApi S).
#[local] Existing Instance suite_log.
Abbreviation LS := (logged suite_item S).

(** Instance search sees the operations as units. *)
Ltac logs c := (refine (adds_log _ c _ _); intros ?; solve [reflexivity|repeat constructor]).
#[local] Hint Extern 1 (Adds _ (su_set _ _)) => logs CContext : typeclass_instances.
#[local] Hint Extern 1 (Adds _ su_version) => logs CContext : typeclass_instances.
#[local] Hint Extern 1 (Adds _ (su_test ?m ?n ?a)) => logs (CTest m n a) : typeclass_instances.
#[local] Hint Extern 1 (Adds _ (su_start ?m ?n)) => logs (CStart m n) : typeclass_instances.
#[local] Hint Extern 1 (Adds _ su_join) => logs CJoin : typeclass_instances.
#[local] Hint Extern 1 (Adds _ (su_step ?n _)) => logs (CStep n) : typeclass_instances.
#[local] Hint Extern 1 (Adds _ (su_install _)) => logs COther : typeclass_instances.
#[local] Hint Extern 1 (Adds _ su_remove) => logs COther : typeclass_instances.
#[local] Hint Extern 1 (Adds _ (su_exists _)) => logs COther : typeclass_instances.

Lemma adds_cluster P ms c (body : M LS unit) :
  P c → Adds (λ l, forallb inner l = true) body → Adds (clustered P ms) (inside_cluster c body).
Proof.
  intros Hc Hb s. unfold inside_cluster, try_finally, mbind, M_bind.
  cbn [su_open su_close suite_log]. unfold log_su.
  destruct (su_open c s.1) as [[[]|e|w] s1]; cbn [is_ok]; [| |done].
  2: { intros _. exists [(COpen c, false)]. split; [done|]. auto. }
  set (s2 := (s1, _)). specialize (Hb s2).
  destruct (body s2) as [[[]|e|w] s3]; [| |done]; cbn [fst snd is_stuck] in Hb;
    destruct (Hb eq_refl) as (l & Hl & Hi);
    destruct (su_close s3.1) as [[[]|e'|w'] s4]; cbn [fst snd is_stuck is_ok]; try done; intros _;
    (eexists; split; [rewrite Hl; subst s2; cbn [snd]; rewrite <-!app_assoc; reflexivity|];
     cbn [app]; by apply clustered_cluster).
Qed.

(** What is expected of the clusters of a module: the directory of
    docker-compose that their constructor comes to, and one of these binaries;
    and the modules that it may start outside clusters *)
Record expectation := mkExpectation {
  x_dir : string; x_binaries : list string; x_modules : list string
}.
Variables (py : process) (a : suite_args).
Definition own (env : string) : expectation := mkExpectation (named_env py env) [r_binary a] [].
Definition ldap_modules : list string :=
  ["ldap.authentication.regression"; "ldap.external_user_directory.regression";
   "ldap.role_mapping.regression"].
Definition performance_dir : string :=
  path_join (caller_dir py) (if String.eqb (current_cpu py) "aarch64" then "clickhouse_keeper_env_arm64"
                             else "clickhouse_keeper_performance_env").

(** The modules with their directory, what is expected of them, and what they
    run *)
Inductive entry_run : string → expectation → M LS unit → Prop :=
  | run_aes : entry_run "aes_encryption" (own "aes_encryption") (aes_encryption_regression py a)
  | run_aggregate :
      entry_run "aggregate_functions" (own "aggregate_functions") (aggregate_functions_regression py a)
  | run_atomic b : entry_run "atomic_insert" (own "atomic_insert") (atomic_insert_regression py a b)
  | run_base_58 v : entry_run "base_58" (own "base_58") (base_58_regression py a v)
  | run_keeper ssl :
      entry_run "clickhouse_keeper" (own "clickhouse_keeper") (clickhouse_keeper_regression py a ssl)
  | run_data_types : entry_run "data_types" (own "data_types") (data_types_regression py a)
  | run_datetime64 : entry_run "datetime64_extended_range" (own "datetime64_extended_range")
                       (datetime64_extended_range_regression py a)
  | run_disk_level : entry_run "disk_level_encryption" (own "disk_level_encryption")
                       (disk_level_encryption_regression py a)
  | run_dns : entry_run "dns" (own "dns") (dns_regression py a)
  | run_engines b : entry_run "engines" (own "engines") (engines_regression py a b)
  | run_example : entry_run "example" (own "example") (example_regression py a)
  | run_extended : entry_run "extended_precision_data_types" (own "extended_precision_data_types")
                     (extended_precision_data_types_regression py a)
  | run_kafka : entry_run "kafka" (own "kafka") (kafka_regression py a)
  | run_kerberos : entry_run "kerberos" (own "kerberos") (kerberos_regression py a)
  | run_key_value v : entry_run "key_value" (own "key_value") (key_value_regression py a v)
  | run_ldap_authentication :
      entry_run "authentication" (own "authentication") (ldap_authentication_regression py a)
  | run_ldap_directory : entry_run "external_user_directory" (own "external_user_directory")
                           (ldap_external_user_directory_regression py a)
  | run_ldap_mapping : entry_run "role_mapping" (own "role_mapping") (ldap_role_mapping_regression py a)
  | run_lightweight u f v : entry_run "lightweight_delete" (own "lightweight_delete")
                              (lightweight_delete_regression py a u f v)
  | run_part_moves b : entry_run "part_moves_between_shards" (own "part_moves")
                         (part_moves_between_shards_regression py a b)
  | run_rbac : entry_run "rbac" (own "rbac") (rbac_regression py a)
  | run_selects b : entry_run "selects" (own "selects") (selects_regression py a b)
  | run_session : entry_run "session_timezone" (own "session_timezone") (session_timezone_regression py a)
  | run_ssl_keeper b : entry_run "ssl_keeper" (own "ssl_keeper") (ssl_keeper_regression py a b)
  | run_ssl_server b : entry_run "ssl_server" (own "ssl_server") (ssl_server_regression py a b)
  | run_window : entry_run "window_functions" (own "window_functions") (window_functions_regression py a)
  | run_s3 l u n p x : entry_run "s3" (own "s3") (s3_regression py a l u n p x)
  | run_tiered m z g x :
      entry_run "tiered_storage" (own "tiered_storage") (tiered_storage_regression py a m z g x)
  | run_benchmark l f n x :
      entry_run "ontime_benchmark" (own "ontime_benchmark") (benchmark_regression py a l f n x)
  | run_ldap : entry_run "ldap" (mkExpectation EmptyString [] ldap_modules) (ldap_regression a)
  | run_performance l d r i f o t :
      entry_run "clickhouse_keeper"
        (mkExpectation performance_dir match l with [] => [d] | _ => l end [])
        (performance_regression py a l d r i f o t).

(** The cluster has the module's arguments, and the directory that its
    constructor makes of the given one is that of the platform. *)
Definition as_expected (x : expectation) (c : cluster_args) : Prop :=
  (a_local c = r_local a ∧ (∃ b, a_binary c = Some b ∧ b ∈ x_binaries x) ∧
   a_collect_service_logs c = r_logs a) ∧
  platform_dir py (default EmptyString (a_project_dir c)) = x_dir x.
Abbreviation in_env env := (as_expected (own env)).

Lemma path_join_suffix d x y :
  x ≠ EmptyString → path_join d x +:+ y = path_join d (x +:+ y).
Proof.
  intros Hx. unfold path_join, startswith. destruct x as [|c x]; [done|].
  rewrite !str_app_cons, !prefix_cons, !prefix_nil, !andb_true_r.
  destruct (Ascii.eqb _ c); [done|]. destruct (_ || _); by rewrite ?str_app_assoc.
Qed.

Lemma str_last_inj s t c d :
  s +:+ String c EmptyString = t +:+ String d EmptyString → c = d.
Proof.
  intros E. assert (Hl : slen s = slen t).
  { apply (f_equal slen) in E. rewrite !slen_app in E. simpl in E. lia. }
  apply (f_equal (str_drop (slen s))) in E. rewrite str_drop_app, Hl, str_drop_app in E. congruence.
Qed.

Lemma not_arm s : endswith "_arm64" (s +:+ "_env") = false.
Proof.
  apply not_true_iff_false. intros [t Ht]%endswith_spec.
  change "_env" with ("_en" +:+ "v") in Ht. change "_arm64" with ("_arm6" +:+ "4") in Ht.
  rewrite <-!str_app_assoc in Ht. by apply str_last_inj in Ht.
Qed.

(** A directory that follows the platform is kept, one that does not gets the
    suffix. *)
Lemma platform_named env : platform_dir py (named_env py env) = named_env py env.
Proof.
  unfold platform_dir, named_env, env_suffix. destruct (String.eqb (current_cpu py) "aarch64"); [|done].
  change "_env_arm64" with ("_env" +:+ "_arm64").
  rewrite <-str_app_assoc, <-path_join_suffix by (intros E; by apply (f_equal slen) in E; rewrite slen_app in E; simpl in E; lia).
  by rewrite (proj2 (endswith_spec _ _)) by (by eexists).
Qed.
Lemma platform_plain env : platform_dir py (path_join (caller_dir py) (env +:+ "_env")) = named_env py env.
Proof.
  unfold platform_dir, named_env, env_suffix. destruct (String.eqb (current_cpu py) "aarch64"); [|done].
  assert (Hne : env +:+ "_env" ≠ EmptyString).
  { intros E. apply (f_equal slen) in E. rewrite slen_app in E. simpl in E. lia. }
  replace (endswith "_arm64" _) with false.
  - cbn [andb negb]. rewrite path_join_suffix by done. by rewrite str_app_assoc.
  - symmetry. unfold path_join. destruct (startswith "/" _); [apply not_arm|].
    destruct (_ || _); rewrite <-?str_app_assoc; apply not_arm.
Qed.

(** The clusters of the modules *)
#[local] Create HintDb suites.
Lemma in_env_named nodes env : in_env env (suite_cluster a nodes (named_env py env)).
Proof. split; [|apply platform_named]. split_and!; [done| |done]. eexists. split; [done|left]. Qed.
Lemma in_env_plain nodes env :
  in_env env (suite_cluster a nodes (path_join (caller_dir py) (env +:+ "_env"))).
Proof. split; [|apply platform_plain]. split_and!; [done| |done]. eexists. split; [done|left]. Qed.
Lemma in_env_fixed nodes env e :
  e = env +:+ "_env" → in_env env (suite_cluster a nodes (path_join (caller_dir py) e)).
Proof. intros ->. apply in_env_plain. Qed.
Lemma in_env_fuzzed env b c : in_env env c → in_env env (fuzzed b c).
Proof. done. Qed.
Lemma in_env_environ env e c : in_env env c → in_env env (with_environ e c).
Proof. done. Qed.
Lemma in_env_configs env d c : in_env env c → in_env env (with_configs d c).
Proof. done. Qed.
Lemma in_env_zookeepers env c : in_env env c → in_env env (with_zookeepers c).
Proof. done. Qed.
#[local] Hint Extern 3 (as_expected (own _) (suite_cluster _ _ (path_join _ _))) =>
  (apply in_env_fixed; reflexivity) : suites.
#[local] Hint Resolve in_env_named in_env_plain in_env_fuzzed in_env_environ in_env_configs
  in_env_zookeepers : suites.

#[local] Hint Extern 1 (Adds (clustered (as_expected _) _) (inside_cluster _ _)) =>
  (apply adds_cluster; [solve [auto with suites]|]) : typeclass_instances.
#[local] Hint Extern 1 (Adds _ (with_cluster _ _)) => unfold with_cluster : typeclass_instances.
#[local] Hint Extern 1 (Adds _ (begin_suite _)) => unfold begin_suite : typeclass_instances.
#[local] Hint Extern 1 (Adds _ (set_version _)) => unfold set_version : typeclass_instances.
#[local] Hint Extern 1 (Adds _ (set_stress _)) => unfold set_stress : typeclass_instances.
#[local] Hint Extern 1 (Adds _ (set_parallel _)) => unfold set_parallel : typeclass_instances.
#[local] Hint Extern 1 (Adds _ (set_val _ _)) => unfold set_val : typeclass_instances.
#[local] Hint Extern 1 (Adds _ (set_ssl _)) => unfold set_ssl : typeclass_instances.
#[local] Hint Extern 1 (Adds _ (skip_if _ _)) => unfold skip_if : typeclass_instances.
#[local] Hint Extern 1 (Adds _ (check_fips _)) => unfold check_fips : typeclass_instances.
#[local] Hint Extern 1 (Adds _ (features _ _)) => unfold features : typeclass_instances.
#[local] Hint Extern 1 (Adds _ (tests _ _)) => unfold tests : typeclass_instances.
#[local] Hint Extern 1 (Adds _ (in_pool _ _)) => unfold in_pool : typeclass_instances.
#[local] Hint Extern 1 (Adds _ (need _ _)) => unfold need : typeclass_instances.
#[local] Hint Extern 1 (Adds _ (secret_value _)) => unfold secret_value : typeclass_instances.
#[local] Hint Extern 1 (Adds _ (s3_features _ _ _)) => unfold s3_features : typeclass_instances.
#[local] Hint Extern 1 (Adds _ (amazon_environ _)) => unfold amazon_environ : typeclass_instances.
#[local] Hint Extern 1 (Adds _ (google_environ _)) => unfold google_environ : typeclass_instances.
#[local] Hint Extern 1 (Adds _ (benchmark_storage _ _ _)) =>
  unfold benchmark_storage : typeclass_instances.

#[local] Instance adds_minio ms u n p :
  Adds (clustered (in_env (basename (caller_dir py))) ms) (minio_regression (S:=LS) py a u n p).
Proof. unfold minio_regression, folder_env. cbv zeta. apply _. Qed.
#[local] Instance adds_aws ms x :
  Adds (clustered (in_env (basename (caller_dir py))) ms) (aws_s3_regression (S:=LS) py a x).
Proof. unfold aws_s3_regression, folder_env. cbv zeta. apply _. Qed.
#[local] Instance adds_gcs ms x :
  Adds (clustered (in_env (basename (caller_dir py))) ms) (gcs_regression (S:=LS) py a x).
Proof. unfold gcs_regression, folder_env. apply _. Qed.
#[local] Instance adds_tiered ms m z g e :
  Adds (clustered (in_env (basename (caller_dir py))) ms) (tiered_feature (S:=LS) py a m z g e).
Proof. unfold tiered_feature, folder_env. apply _. Qed.
#[local] Instance adds_round ms n f t p e :
  Adds (clustered (in_env (basename (caller_dir py))) ms) (benchmark_round (S:=LS) py a n f t p e).
Proof. unfold benchmark_round, folder_env. cbv zeta. apply _. Qed.
#[local] Instance adds_rounds ms n f x l b :
  Adds (clustered (in_env (basename (caller_dir py))) ms) (benchmark_rounds (S:=LS) py a n f x l b).
Proof. revert b. induction l as [|t l IH]; intros b; cbn [benchmark_rounds]; apply _. Qed.

Lemma platform_performance : basename (caller_dir py) = "clickhouse_keeper" →
  platform_dir py (performance_env py) = performance_dir.
Proof.
  intros Hb. unfold performance_env, performance_dir. rewrite Hb.
  destruct (String.eqb (current_cpu py) "aarch64") eqn:E.
  - pose proof (platform_named "clickhouse_keeper") as Hn. unfold named_env, env_suffix in Hn.
    by rewrite E in Hn.
  - unfold platform_dir. by rewrite E.
Qed.
#[local] Instance adds_performance l d r i f o t ms :
  basename (caller_dir py) = "clickhouse_keeper" →
  Adds (clustered (as_expected (mkExpectation performance_dir match l with [] => [d] | _ => l end ms)) ms)
    (performance_regression (S:=LS) py a l d r i f o t).
Proof.
  intros Hb. unfold performance_regression. cbv zeta.
  set (bs := match l with [] => [d] | _ => l end). set (P := as_expected _).
  assert (Hf : ∀ b ssl feature, b ∈ bs →
    Adds (clustered P ms) (performance_round (S:=LS) py a b ssl feature)).
  { intros b ssl feature Hin. unfold performance_round, with_cluster. apply adds_cluster; [|apply _].
    split; [|by apply platform_performance]. split_and!; [done|by exists b|done]. }
  do 6 (apply adds_bind; [apply _|apply _|intros ?]).
  apply adds_bind; [apply _| |apply _]. apply adds_for_in; [apply _|]. intros b Hin.
  assert (Hr : ∀ ssl feature, Adds (clustered P ms) (performance_round (S:=LS) py a b ssl feature)) by auto.
  clear Hf. apply _.
Qed.


(** Without a version the check for FIPS fails, forced or not. *)
Lemma fips_needs_version force (s s1 : LS) :
  su_version s = (Ok None, s1) →
  check_fips force s = (Exc (TypeError "argument of type 'NoneType' is not iterable"), s1).
Proof. intros E. unfold check_fips, mbind, M_bind. by rewrite E. Qed.

(** *** Servers that are too old *)

Definition runs_no_test (x : suite_item) : bool :=
  match x.1 with CTest _ _ _ | CStart _ _ => false | _ => true end.
#[local] Instance no_test_additive : Additive (λ l, forallb runs_no_test l = true).
Proof. split; [done|]. intros l k Hl Hk. by rewrite forallb_app, Hl, Hk. Qed.

(** The suites that ask for a version, and the check that skips them *)
Inductive version_gate : string → M LS unit → Prop :=
  | gate_atomic b : version_gate "<22.4" (atomic_insert_regression py a b)
  | gate_base_58 v : version_gate "<22.7" (base_58_regression py a v)
  | gate_keeper ssl : version_gate "<21.4" (clickhouse_keeper_regression py a ssl)
  | gate_disk_level : version_gate "<21.9" (disk_level_encryption_regression py a)
  | gate_key_value v : version_gate "<23.5" (key_value_regression py a v)
  | gate_lightweight v : version_gate "<22.8" (lightweight_delete_regression py a false false v)
  | gate_part_moves b : version_gate "<21.4" (part_moves_between_shards_regression py a b)
  | gate_session : version_gate "<23.5" (session_timezone_regression py a)
  | gate_ssl_keeper b : version_gate "<22.4" (ssl_keeper_regression py a b)
  | gate_performance l d n i f o t :
      version_gate "<21.4" (performance_regression py a l d n i f o t).

(** What follows the check is not run. *)
Lemma adds_skip {A} v op reason (f : unit → M LS A) :
  (∀ s, su_version (SuiteApi:=U) s = (Ok v, s)) → check_clickhouse_version op v = Ok true →
  Adds (λ l, forallb runs_no_test l = true) (skip_if op reason ≫= f).
Proof.
  intros Hv Hop s _. exists [(CContext, true)]. unfold skip_if, mbind, M_bind.
  cbn [su_version suite_log]. unfold log_su. rewrite Hv. unfold lift. by rewrite Hop.
Qed.
Lemma adds_inside c (body : M LS unit) :
  Adds (λ l, forallb runs_no_test l = true) body →
  Adds (λ l, forallb runs_no_test l = true) (inside_cluster c body).
Proof.
  intros Hb. unfold inside_cluster. apply adds_bind; [apply _|refine (adds_log _ (COpen c) _ _); done|].
  intros _. apply adds_try_finally; [apply _|done|refine (adds_log _ CClose _ _); done].
Qed.
#[local] Hint Extern 0 (Adds _ (skip_if _ _ ≫= _)) => (eapply adds_skip; eassumption) : typeclass_instances.
#[local] Hint Extern 1 (Adds (λ l, forallb runs_no_test l = true) (inside_cluster _ _)) =>
  simple apply adds_inside : typeclass_instances.

Lemma gate_adds v op run :
  (∀ s, su_version (SuiteApi:=U) s = (Ok v, s)) → check_clickhouse_version op v = Ok true →
  version_gate op run → Adds (λ l, forallb runs_no_test l = true) run.
Proof.
  intros Hv Hop Hrun. destruct Hrun;
    unfold atomic_insert_regression, base_58_regression, clickhouse_keeper_regression,
      disk_level_encryption_regression, key_value_regression, lightweight_delete_regression,
      part_moves_between_shards_regression, session_timezone_regression, ssl_keeper_regression,
      performance_regression, performance_round; cbn [negb andb when]; cbv zeta; apply _.
Qed.

(** When the server version that the context holds is older than what a
    suite asks for, the suite runs none of its tests. *)
Lemma old_servers_are_skipped v op (run : M LS unit) (s : LS) :
  (∀ s, su_version (SuiteApi:=U) s = (Ok v, s)) → check_clickhouse_version op v = Ok true →
  version_gate op run → is_stuck (run s).1 = false →
  ∃ l, (run s).2.2 = s.2 ++ l ∧ forallb runs_no_test l = true.
Proof. intros Hv Hop Hrun. by apply (gate_adds v op). Qed.

(** *** Credentials *)

(** The order and the number of the options [--storage] do not matter. *)
Lemma s3_storages_set l l' u n p x :
  (∀ t, t ∈ l ↔ t ∈ l') →
  s3_regression (S:=LS) py a (Some l) u n p x = s3_regression py a (Some l') u n p x.
Proof.
  intros Hl. unfold s3_regression. cbn [default].
  by rewrite (bool_decide_ext _ _ (Hl "minio")), (bool_decide_ext _ _ (Hl "aws_s3")),
    (bool_decide_ext _ _ (Hl "gcs")).
Qed.

(** Without a credential the module of Amazon fails at once. *)
Lemma aws_needs_credentials x (s : LS) :
  aws_s3_access_key x = None ∨ aws_s3_key_id x = None ∨ aws_s3_bucket x = None ∨
  aws_s3_region x = None →
  ∃ what, aws_s3_regression py a x s = (Exc (Fail (what +:+ " needs to be set")), s).
Proof.
  unfold aws_s3_regression, need, mbind, M_bind, lift.
  destruct (aws_s3_access_key x) as [k|]; [|by eexists].
  destruct (aws_s3_key_id x) as [i|]; [|by eexists].
  destruct (aws_s3_bucket x) as [t|]; [|by eexists].
  destruct (aws_s3_region x) as [r|]; [|by eexists].
  naive_solver.
Qed.

(** The credentials of a storage: URI, key and secret *)
Definition amazon_credentials (x : secrets) : option (string * string * string) :=
  match aws_s3_uri x, aws_s3_key_id x, aws_s3_access_key x with
  | Some u, Some k, Some t => Some (u, k, t)
  | _, _, _ => None
  end.
Definition google_credentials (x : secrets) : option (string * string * string) :=
  match gcs_uri x, gcs_key_id x, gcs_key_secret x with
  | Some u, Some k, Some t => Some (u, k, t)
  | _, _, _ => None
  end.
Definition no_value : exn := AttributeError "'NoneType' object has no attribute 'value'".

Lemma amazon_environ_spec x (s : LS) : amazon_environ x s =
  (match amazon_credentials x with
   | Some (u, k, t) => Ok [("S3_AMAZON_KEY_ID", k); ("S3_AMAZON_ACCESS_KEY", t); ("S3_AMAZON_URI", u)]
   | None => Exc no_value
   end, s).
Proof.
  unfold amazon_environ, amazon_credentials, secret_value, mbind, M_bind, lift.
  by destruct (aws_s3_key_id x), (aws_s3_access_key x), (aws_s3_uri x).
Qed.
Lemma google_environ_spec x (s : LS) : google_environ x s =
  (match google_credentials x with
   | Some (u, k, t) => Ok [("GCS_KEY_ID", k); ("GCS_KEY_SECRET", t); ("GCS_URI", u)]
   | None => Exc no_value
   end, s).
Proof.
  unfold google_environ, google_credentials, secret_value, mbind, M_bind, lift.
  by destruct (gcs_key_id x), (gcs_key_secret x), (gcs_uri x).
Qed.

(** What [tiered_storage_regression] does before it needs a credential *)
Definition tiered_start (m z g : bool) : M LS unit :=
  set_version a;;
  when (m || z || g) (su_step "skip" [PStr "/tiered storage/:/manual move with downtime"]);;
  su_step "Shell" [].

(** The external disk of the credentials, by the order of precedence *)
Definition chosen_disk (m z g : bool) (x : secrets) : option options :=
  if m then Some (s3_disk "http://minio:9001/root/data/" "minio" "minio123")
  else if z then (λ c, s3_disk c.1.1 c.1.2 c.2) <$> amazon_credentials x
  else if g then (λ c, s3_disk c.1.1 c.1.2 c.2) <$> google_credentials x
  else Some [("path", "/external/")].

(** The tiered storage suite reads the credentials of every storage that
    it is asked for.  When one is missing, the run ends before a cluster is set
    up, with an attribute error rather than the message of its assertion.
    Otherwise it hands over an environment from which the configuration of the
    disks can always be made, with the credentials of the storage that comes
    first. *)
Lemma tiered_credentials m z g x (s s1 : LS) :
  tiered_start m z g s = (Ok tt, s1) →
  let given := (z = true → is_Some (amazon_credentials x)) ∧
               (g = true → is_Some (google_credentials x)) in
  (¬ given → tiered_storage_regression py a m z g x s = (Exc no_value, s1)) ∧
  (given → ∃ e d,
     tiered_storage_regression py a m z g x s =
       (su_step "Feature" [PStr (tiered_name m z g)];; tiered_feature py a m z g e) s1 ∧
     tiered_entries m z g (Some e) =
       Ok (storage_entries (jbods ++ [("external", d)]) tiered_policies) ∧
     chosen_disk m z g x = Some d).
Proof.
  intros E given.
  assert (Hrun : ∀ f : M LS unit, (set_version a;;
      when (m || z || g) (su_step "skip" [PStr "/tiered storage/:/manual move with downtime"]);;
      su_step "Shell" [];; f) s = f s1).
  { intros f. unfold tiered_start in E. apply M_bind_Ok_inv in E as ([] & s2 & E1 & E).
    apply M_bind_Ok_inv in E as ([] & s3 & E2 & E3).
    by rewrite (M_bind_Ok _ _ _ _ _ E1), (M_bind_Ok _ _ _ _ _ E2), (M_bind_Ok _ _ _ _ _ E3). }
  unfold tiered_storage_regression. rewrite Hrun. clear Hrun E.
  assert (Ha : (if z then amazon_environ x else mret [] : M LS (dict string string)) s1 =
    (match z, amazon_credentials x with
     | true, Some (u, k, t) =>
         Ok [("S3_AMAZON_KEY_ID", k); ("S3_AMAZON_ACCESS_KEY", t); ("S3_AMAZON_URI", u)]
     | true, None => Exc no_value
     | false, _ => Ok []
     end, s1)).
  { destruct z; [|done]. rewrite amazon_environ_spec. by destruct (amazon_credentials x) as [[[]]|]. }
  assert (Hg : (if g then google_environ x else mret [] : M LS (dict string string)) s1 =
    (match g, google_credentials x with
     | true, Some (u, k, t) => Ok [("GCS_KEY_ID", k); ("GCS_KEY_SECRET", t); ("GCS_URI", u)]
     | true, None => Exc no_value
     | false, _ => Ok []
     end, s1)).
  { destruct g; [|done]. rewrite google_environ_spec. by destruct (google_credentials x) as [[[]]|]. }
  unfold mbind, M_bind. rewrite Ha. unfold given, chosen_disk. clear Ha given.
  destruct z.
  { destruct (amazon_credentials x) as [[[u k] t]|].
    2: { split; [done|]. intros [Hz _]. by destruct (Hz eq_refl). }
    rewrite Hg. destruct g; [destruct (google_credentials x) as [[[u' k'] t']|]|].
    2: { split; [done|]. intros [_ Hz]. by destruct (Hz eq_refl). }
    all: split; [intros Hn; exfalso; apply Hn; split; by eauto|]; intros _;
      destruct m; eexists _, _; (split; [done|]); split; done. }
  rewrite Hg. destruct g; [destruct (google_credentials x) as [[[u' k'] t']|]|].
  2: { split; [done|]. intros [_ Hz]. by destruct (Hz eq_refl). }
  all: split; [intros Hn; exfalso; apply Hn; split; by eauto|]; intros _;
    destruct m; eexists _, _; (split; [done|]); split; done.
Qed.
End logged.

(** ** Witnesses *)

(** A framework in which everything succeeds and the version is [v] *)
Definition calm (v : option string) : SuiteApi unit := {|
  su_set _ _ := mret tt; su_version := mret v; su_open _ := mret tt; su_close := mret tt;
  su_test _ _ _ := mret tt; su_start _ _ := mret tt; su_join := mret tt; su_step _ _ := mret tt;
  su_install _ := mret tt; su_remove := mret tt; su_exists _ := mret true
|}.
Definition demo_process : process :=
  mkProcess "/repo/dns" "/repo/dns" "/tmp" "aarch64" (λ s, s) false.
Definition demo_args : suite_args :=
  mkSuiteArgs true "/usr/bin/clickhouse" (Some "22.3.5.5") false PNone.
Definition no_secrets : secrets := mkSecrets None None None None None None None None.


Lemma old_servers_are_skipped_witness :
  ∃ l, (@session_timezone_regression _ (suite_log (calm (Some "22.3.5.5"))) demo_process demo_args
          (tt, [])).2.2 = [] ++ l ∧ forallb runs_no_test l = true.
Proof.
  exact (@old_servers_are_skipped unit (calm (Some "22.3.5.5")) demo_process demo_args
    (Some "22.3.5.5") "<23.5" _ (tt, []) (λ _, eq_refl) eq_refl (gate_session _ _ _) eq_refl).
Defined.

Lemma tiered_credentials_witness :
  tiered_storage_regression (H:=suite_log (calm None)) demo_process demo_args false true false
    no_secrets (tt, []) = (Exc no_value, (tt, [(CContext, true); (CStep "skip", true); (CStep "Shell", true)])).
Proof.
  apply (@tiered_credentials unit (calm None) demo_process demo_args false true false no_secrets
    (tt, []) (tt, [(CContext, true); (CStep "skip", true); (CStep "Shell", true)]) eq_refl).
  intros [Hz _]. by destruct (Hz eq_refl).
Defined.
