(* ===== verification/Scenario.v ===== *)
(** * Scenarios and their clean-ups

    A step of the suites that is a generator sets something up, yields, and
    undoes it in [finally].  testflows keeps the generators of a scenario and
    resumes them when the scenario ends, the last one first, so that a step
    which calls other such steps before its own [yield] is undone before they
    are.  Steps are therefore computations on a state with the clean-ups that
    are still to run. *)
From stdpp Require Import gmap.
From S2P Require Import Prelude PyStr PyDict PyMonad NodeLog.
Local Open Scope Z_scope.

Definition scenario (S : Type) : Type := S * list (M S unit).

Section scenario.
Context {S : Type}.
Abbreviation T := (M (scenario S)).

(** What a step does without a [yield] of its own *)
Definition act {A} (m : M S A) : T A := λ s, let '(r, s1) := m s.1 in (r, (s1, s.2)).

(** [try: m; yield a; finally: c]: [c] is kept for the end of the scenario, or
    run at once when [m] raises. *)
Definition generator {A} (m : T A) (c : M S unit) : T A := λ s,
  match m s with
  | (Ok a, (s1, k)) => (Ok a, (s1, c :: k))
  | (Exc e, s1) => (act c;; raise e) s1
  | (Stuck w, s1) => (Stuck w, s1)
  end.

(** The clean-ups, the last one first; when one raises, the others are run
    all the same, and the first exception is the one that is reported. *)
Fixpoint clean_up (k : list (M S unit)) : M S unit :=
  match k with
  | [] => mret tt
  | c :: k => λ s,
      match c s with
      | (Ok _, s1) => clean_up k s1
      | (Exc e, s1) =>
          match clean_up k s1 with (Stuck w, s2) => (Stuck w, s2) | (_, s2) => (Exc e, s2) end
      | (Stuck w, s1) => (Stuck w, s1)
      end
  end.

(** A scenario with the steps [m] *)
Definition run_scenario {A} (m : T A) : M S A := λ s,
  match m (s, []) with
  | (Ok a, (s1, k)) => (clean_up k;; mret a) s1
  | (Exc e, (s1, k)) =>
      match clean_up k s1 with (Stuck w, s2) => (Stuck w, s2) | (_, s2) => (Exc e, s2) end
  | (Stuck w, (s1, _)) => (Stuck w, s1)
  end.

(** The outcome of [m] as a value, for a [finally] that reads what [m] bound *)
Definition attempt {A} (m : T A) : T (res A) := λ s,
  match m s with
  | (Stuck w, s1) => (Stuck w, s1)
  | (r, s1) => (Ok r, s1)
  end.

Lemma clean_up_app k1 k2 s s' :
  clean_up (k1 ++ k2) s = (Ok tt, s') →
  ∃ s1, clean_up k1 s = (Ok tt, s1) ∧ clean_up k2 s1 = (Ok tt, s').
Proof.
  revert s. induction k1 as [|c k1 IH]; intros s; simpl; [by exists s|].
  destruct (c s) as [[[]|e|w] s1]; [by apply IH| |done].
  by destruct (clean_up (k1 ++ k2) s1) as [[[]| |]].
Qed.

(** Every clean-up is run, whatever the others do. *)
Lemma clean_up_frame (R : S → S → Prop) `{!PreOrder R} k :
  Forall (Preserves R) k → Preserves R (clean_up k).
Proof.
  induction 1 as [|c k Hc Hk IH]; [intros s; simpl; reflexivity|]. intros s. simpl.
  specialize (Hc s). destruct (c s) as [[[]|e|w] s1]; simpl in Hc |- *; [| |done].
  - etrans; [exact Hc|apply IH].
  - specialize (IH s1). destruct (clean_up k s1) as [[[]| |] s2]; simpl in *; by etrans.
Qed.
End scenario.

(** ** Logging *)

(** A call with a log item that is made from its answer, [None] when it did
    not return *)
Definition logs {L S A} (item : option A → L) (m : M S A) : M (logged L S) A := λ s,
  let '(r, s1) := m s.1 in (r, (s1, s.2 ++ [item (match r with Ok a => Some a | _ => None end)])).

Section logs.
Context {L S : Type}.
Abbreviation LS := (logged L S).

Lemma leaves_logs {A} (item : option A → L) (m : M S A) :
  leaves (logs item m) (λ a l, l = [item (Some a)]).
Proof.
  intros s a s' E. unfold logs in E. destruct (m s.1) as [r s1]. simplify_eq. by eexists.
Qed.
Lemma logs_item {A} (item : option A → L) (m : M S A) (p : L → Prop) :
  (∀ a, p (item (Some a))) → leaves (logs item m) (λ _ l, in_order [p] l).
Proof.
  intros Hp. eapply leaves_mono; [apply leaves_logs|]. intros a l ->. apply (in_order_last p []), Hp.
Qed.
Lemma logs_any {A} (item : option A → L) (m : M S A) :
  leaves (logs item m) (λ _ l, in_order [] l).
Proof. eapply leaves_mono; [apply leaves_logs|]. intros. apply in_order_nil. Qed.
#[export] Instance logs_grows {A} (item : option A → L) (m : M S A) : Preserves grows (logs item m).
Proof. intros s. unfold logs. destruct (m s.1). by eexists. Qed.

(** ** What steps set up, and how it is undone *)

(** [sets_up m ps qs]: when [m] returns, what it logged satisfies [ps] in
    order; and when the clean-ups that it left return, they log [qs] in order. *)
Definition sets_up {A} (m : M (scenario LS) A) (ps qs : list (L → Prop)) : Prop :=
  ∀ s k a s' k', m (s, k) = (Ok a, (s', k')) →
  ∃ l k1, k' = k1 ++ k ∧ s'.2 = s.2 ++ l ∧ in_order ps l ∧
    leaves (clean_up k1) (λ _ l, in_order qs l).

Lemma sets_up_ret {A} (a : A) : sets_up (mret a) [] [].
Proof.
  intros s k b s' k' E. unfold mret, M_ret in E. simplify_eq. exists [], []. rewrite app_nil_r.
  split_and!; try done; [apply in_order_nil|]. apply (leaves_ret tt), in_order_nil.
Qed.
Lemma sets_up_raise {A} e ps qs : sets_up (raise e : M (scenario LS) A) ps qs.
Proof. by intros s k a s' k'. Qed.

Lemma sets_up_bind {A B} (m : M (scenario LS) A) (f : A → M (scenario LS) B) ps ps' qs qs' :
  sets_up m ps qs → (∀ a, sets_up (f a) ps' qs') →
  sets_up (m ≫= f) (ps ++ ps') (qs' ++ qs).
Proof.
  intros Hm Hf s k b s' k' E. unfold mbind, M_bind in E.
  destruct (m (s, k)) as [[a|e|w] [s1 k1]] eqn:E1; [|done..].
  destruct (Hm _ _ _ _ _ E1) as (l1 & j1 & -> & Hl1 & Hp1 & Hq1).
  destruct (Hf _ _ _ _ _ _ E) as (l2 & j2 & -> & Hl2 & Hp2 & Hq2).
  exists (l1 ++ l2), (j2 ++ j1). split; [by rewrite app_assoc|].
  split; [by rewrite Hl2, Hl1, app_assoc|]. split; [by apply in_order_app|].
  intros t [] t' Et. apply clean_up_app in Et as (t1 & Et1 & Et2).
  destruct (Hq2 _ _ _ Et1) as (l3 & Hl3 & Hp3). destruct (Hq1 _ _ _ Et2) as (l4 & Hl4 & Hp4).
  exists (l3 ++ l4). split; [by rewrite Hl4, Hl3, app_assoc|]. by apply in_order_app.
Qed.
(** A step that sets up nothing of interest *)
Lemma sets_up_then {A B} (m : M (scenario LS) A) (f : A → M (scenario LS) B) ps qs :
  sets_up m [] [] → (∀ a, sets_up (f a) ps qs) → sets_up (m ≫= f) ps qs.
Proof.
  intros Hm Hf. rewrite <-(app_nil_l ps), <-(app_nil_r qs). by apply sets_up_bind.
Qed.
Lemma sets_up_mono {A} (m : M (scenario LS) A) ps qs ps' qs' :
  ps = ps' → qs = qs' → sets_up m ps qs → sets_up m ps' qs'.
Proof. by intros -> ->. Qed.

Lemma sets_up_sublist {A} (m : M (scenario LS) A) ps qs ps' qs' :
  sublist ps' ps → sublist qs' qs → sets_up m ps qs → sets_up m ps' qs'.
Proof.
  intros Hps Hqs Hm s k a s' k' E. destruct (Hm _ _ _ _ _ E) as (l & k1 & Hk & Hl & Hp & Hq).
  exists l, k1. split_and!; [done..|by eapply in_order_sublist|].
  eapply leaves_mono; [exact Hq|]. intros u l2 Hl2. by eapply in_order_sublist.
Qed.

Lemma sets_up_act {A} (m : M LS A) ps :
  leaves m (λ _ l, in_order ps l) → sets_up (act m) ps [].
Proof.
  intros Hm s k a s' k' E. unfold act in E. simpl in E.
  destruct (m s) as [r s1] eqn:E1. simplify_eq.
  destruct (Hm _ _ _ E1) as (l & Hl & Hp). exists l, []. split_and!; try done.
  apply (leaves_ret tt), in_order_nil.
Qed.

Lemma sets_up_generator {A} (m : M (scenario LS) A) (c : M LS unit) ps qs qs' :
  sets_up m ps qs → leaves c (λ _ l, in_order qs' l) →
  sets_up (generator m c) ps (qs' ++ qs).
Proof.
  intros Hm Hc s k a s' k' E. unfold generator in E.
  destruct (m (s, k)) as [[b|e|w] [s1 k1]] eqn:E1; [| |done].
  - simplify_eq. destruct (Hm _ _ _ _ _ E1) as (l & j & -> & Hl & Hp & Hq).
    exists l, (c :: j). split_and!; try done.
    intros t [] t' Et. simpl in Et.
    destruct (c t) as [[[]|e|w] t1] eqn:Ec; [|by destruct (clean_up j t1) as [[[]| |]]|done].
    destruct (Hc _ _ _ Ec) as (l3 & Hl3 & Hp3). destruct (Hq _ _ _ Et) as (l4 & Hl4 & Hp4).
    exists (l3 ++ l4). split; [by rewrite Hl4, Hl3, app_assoc|]. by apply in_order_app.
  - exfalso. unfold mbind, M_bind, act in E. simpl in E. by destruct (c s1) as [[[]| |]].
Qed.

Lemma sets_up_pure {A B} (a : A) (f : A → M (scenario LS) B) ps qs :
  sets_up (f a) ps qs → sets_up (mret a ≫= f) ps qs.
Proof. intros Hf s k b s' k' E. exact (Hf _ _ _ _ _ E). Qed.
(** A step that is a generator and sets up by itself *)
Lemma sets_up_yield (m c : M LS unit) ps qs :
  leaves m (λ _ l, in_order ps l) → leaves c (λ _ l, in_order qs l) → sets_up (generator (act m) c) ps qs.
Proof.
  intros Hm Hc. rewrite <-(app_nil_r qs). apply sets_up_generator; [by apply sets_up_act|done].
Qed.
(** A step whose result is of use *)
Lemma sets_up_with {A B} (m : M LS A) (f : A → M (scenario LS) B) (Φ : A → Prop) ps qs :
  leaves m (λ a _, Φ a) → (∀ a, Φ a → sets_up (f a) ps qs) → sets_up (act m ≫= f) ps qs.
Proof.
  intros Hm Hf s k b s' k' E. unfold mbind, M_bind, act in E. simpl in E.
  destruct (m s) as [[a|e|w] s1] eqn:E1; [|done..].
  destruct (Hm _ _ _ E1) as (l & Hl & Ha). destruct (Hf a Ha _ _ _ _ _ E) as (l1 & k1 & -> & Hl1 & Hp & Hq).
  exists (l ++ l1), k1. split_and!; [done|by rewrite Hl1, Hl, app_assoc|by apply in_order_skip_l|done].
Qed.

Lemma sets_up_for {X} (xs : list X) (body : X → M (scenario LS) unit) ps qs :
  (∀ x, sets_up (body x) (ps x) (qs x)) →
  sets_up (for_ xs body) (xs ≫= ps) (reverse xs ≫= qs).
Proof.
  intros Hb. induction xs as [|x xs IH]; [apply sets_up_ret|]. cbn [for_].
  rewrite reverse_cons, bind_app. cbn [mbind list_bind]. rewrite app_nil_r.
  by apply sets_up_bind.
Qed.

(** A scenario that returns has set up, run its test and undone the set-up. *)
Lemma leaves_scenario {A B} (m : M (scenario LS) A) (body : A → M LS B) ps qs
    (Ψ : B → list L → Prop) :
  sets_up m ps qs → (∀ a, leaves (body a) Ψ) →
  leaves (run_scenario (a ← m; act (body a)))
    (λ b l, ∃ before test after, l = before ++ test ++ after ∧
       in_order ps before ∧ Ψ b test ∧ in_order qs after).
Proof.
  intros Hm Hb s b s' E. unfold run_scenario, mbind, M_bind in E.
  destruct (m (s, [])) as [[a|e|w] [s1 k1]] eqn:E1;
    [|by destruct (clean_up k1 s1) as [[[]| |]]|done].
  unfold act in E. simpl in E. destruct (body a s1) as [[c|e|w] s2] eqn:E2;
    [|by destruct (clean_up k1 s2) as [[[]| |]]|done].
  destruct (clean_up k1 s2) as [[[]|e|w] s3] eqn:E3; unfold mret, M_ret in E; simplify_eq.
  destruct (Hm _ _ _ _ _ E1) as (l1 & j & Hj & Hl1 & H1 & Hq).
  rewrite app_nil_r in Hj. subst j.
  destruct (Hb _ _ _ _ E2) as (l2 & Hl2 & H2). destruct (Hq _ _ _ E3) as (l3 & Hl3 & H3).
  exists (l1 ++ l2 ++ l3). split; [by rewrite Hl3, Hl2, Hl1, !app_assoc|]. by exists l1, l2, l3.
Qed.
End logs.
#[export] Typeclasses Opaque logs.
