(* ===== verification/Keeper.v ===== *)
(** * The steps of the ClickHouse Keeper suite

    clickhouse_keeper/tests/steps.py: the configurations of Keeper clusters
    and of the servers that use them, starting and stopping both, and the
    checks on tables.  A step is a computation on a scenario (Scenario); what
    it needs of the cluster, the class [KeeperApi], is implemented in
    KeeperOrder by the steps on nodes (Steps). *)
From stdpp Require Import gmap.
From S2P Require Import Prelude PyStr PyDict PyMonad Argparse World Query NodeLog XmlConfig StorageConfig Scenario.
Local Open Scope Z_scope.

(** A call is made once, or as [retry(f, timeout=100, delay=1)]. *)
Inductive attempts := Once | Retried.
#[export] Instance attempts_eq_dec : EqDecision attempts.
Proof. solve_decision. Defined.

(** What [node.cmd] is asked to check *)
Record cmd_check := mkCheck {
  cc_exitcode : option Z; cc_message : option string; cc_no_checks : bool
}.
Definition unasked : cmd_check := mkCheck None None false.
Definition exits (n : Z) : cmd_check := mkCheck (Some n) None false.
Definition says (n : Z) (m : string) : cmd_check := mkCheck (Some n) (Some m) false.

(** The options that the steps give to [add_config]; its [user] is [None] and
    its timeout, which [add_config_section] does not pass on, 300 seconds. *)
Record config_options := mkOptions {
  o_restart : bool; o_modify : bool; o_wait_healthy : bool; o_check_preprocessed : bool
}.

(** [add_config] up to its [yield] and after it, the two parts of
    [instrument_clickhouse_server_log], and the calls on nodes.
    [k_parallel_error] is a parallel step whose call raises, and
    [k_untested_step] one whose [test] is the value [None]. *)
Class KeeperApi (S : Type) := {
  k_getuid : M S string;
  k_context_node : M S string;
  k_install : string → Config → config_options → M S unit;
  k_remove : string → Config → config_options → M S unit;
  k_add_invalid_config : string → Config → option Config → string → Z → Z → bool → M S unit;
  k_log_size : string → M S string;
  k_log_mark : string → string → M S unit;
  k_log_end : string → string → string → bool → M S unit;
  k_cmd : attempts → string → string → cmd_check → M S shell_result;
  k_query : attempts → string → string → query_args → M S shell_result;
  k_stop_clickhouse : attempts → string → bool → M S unit;
  k_start_clickhouse : attempts → string → bool → M S unit;
  k_restart_clickhouse : string → bool → M S unit;
  k_stop : string → M S unit;
  k_sleep : Z → M S unit;
  k_shell : string → M S shell_result;
  k_metric : string → string → string → M S unit;
  k_current_time : M S string;
  k_parallel_error : exn → M S unit;
  k_untested_step : M S unit;
  k_absorbs : exn → bool
}.
#[export] Hint Mode KeeperApi ! : typeclass_instances.

(** What regression.py puts into the context *)
Record keeper_context := mkContext {
  c_tcp_port_secure : bool; c_secure : Z; c_port : string; c_ssl : string
}.

(** [l[a:b]], and [nodes if nodes is not None else l[a:b]] *)
Definition slice {A} (a b : nat) (l : list A) : list A := take (b - a) (drop a l).
Definition or_slice (nodes : option (list string)) (a b : nat) (l : list string) : list string :=
  default (slice a b l) nodes.
(** [range(1, n)] *)
Definition range1 (n : Z) : list Z := seqZ 1 (n - 1).

(** ** Configurations *)

Definition section (name : string) (e : entry) : entries := [(Key name, e)].
Definition text (s : string) : entry := VText (Some s).
Definition texts (o : options) : entry := VDict (text_entries o).

(** A replica, and the cluster of [create_3_3_cluster_config] *)
Definition replica (o : options) : entries := section "replica" (texts o).
Definition replica_plain (host : string) : options := [("host", host); ("port", "9000")].
Definition replica_secure (host : string) : options :=
  [("host", host); ("port", "9440"); ("secure", "1")].
Definition cluster_3_3 (f : string → options) : entries :=
  section "Cluster_3shards_with_3replicas" (VList
    ((λ hosts, section "shard" (VList ((λ h, replica (f h)) <$> hosts))) <$>
     [["clickhouse1"; "clickhouse2"; "clickhouse3"];
      ["clickhouse4"; "clickhouse5"; "clickhouse6"];
      ["clickhouse7"; "clickhouse8"; "clickhouse9"]])).

Definition remote_entries : entries :=
  section "server" (VDict (section "shard" (VDict (replica (replica_plain "clickhouse1"))))).
Definition remote_entries_ssl : entries :=
  section "server" (VDict (section "shard" (VDict (replica (replica_secure "clickhouse1"))))).

Definition server_key : options :=
  [("certificateFile", "/etc/clickhouse-server/config.d/server.crt");
   ("privateKeyFile", "/etc/clickhouse-server/config.d/server.key")].
Definition handler (name : string) : entries :=
  section "invalidCertificateHandler" (texts [("name", name)]).
Definition ssl_entries : entries :=
  [(Key "server", texts (server_key ++
     [("dhParamsFile", "/etc/clickhouse-server/config.d/dhparam.pem");
      ("verificationMode", "none"); ("loadDefaultCAFile", "true"); ("cacheSessions", "true");
      ("disableProtocols", "sslv2,sslv3"); ("preferServerCiphers", "true")]));
   (Key "client", VDict (text_entries (server_key ++
     [("loadDefaultCAFile", "true"); ("cacheSessions", "true");
      ("disableProtocols", "sslv2,sslv3"); ("preferServerCiphers", "true");
      ("verificationMode", "none")]) ++ handler "RejectCertificateHandler"))].

(** What both of the following have for [client] *)
Definition ca_config : options := [("caConfig", "/etc/clickhouse-server/config.d/altinity_blog_ca.crt")].
Definition old_protocols : options :=
  [("requireTLSv1_2", "true"); ("disableProtocols", "sslv2,sslv3,tlsv1,tlsv1_1,tlsv1_3")].
Definition client_ssl : entries :=
  section "client" (VDict (text_entries (server_key ++ ca_config ++
    [("loadDefaultCAFile", "false"); ("cacheSessions", "true")] ++ old_protocols ++
    [("preferServerCiphers", "true"); ("verificationMode", "none")]) ++
    handler "AcceptCertificateHandler")).
Definition _entries_open_ssl : entries :=
  section "server" (texts (server_key ++
    [("dhParamsFile", "/etc/clickhouse-server/config.d/dhparam.pem"); ("verificationMode", "none")] ++
    ca_config ++ [("loadDefaultCAFile", "false"); ("cacheSessions", "true")] ++ old_protocols ++
    [("cipherList", "ECDHE-RSA-AES128-GCM-SHA256:ECDHE-RSA-AES256-GCM-SHA384:ECDHE-ECDSA-AES128-GCM-SHA256:ECDHE-ECDSA-AES256-GCM-SHA384:AES128-GCM-SHA256:AES256-GCM-SHA384");
     ("preferServerCiphers", "true")])) ++ client_ssl.
Definition _entries_client_ssl : entries :=
  section "secure" (text "true") ++ section "openSSL" (VDict client_ssl).

(** *** Keeper and its clients *)

(** A member of the raft group, and all of them, numbered from 1 *)
Definition member (port : string) (id : Z) (name : string) : entries :=
  section "server" (texts [("id", str_Z id); ("hostname", name); ("port", port)]).
Definition members (port : string) (nodes : list string) : list entries :=
  imap (λ i name, member port (Z.of_nat i + 1) name) nodes.

Definition coordination_settings (name value : string) : options :=
  dset name value
    [("operation_timeout_ms", "10000"); ("session_timeout_ms", "30000");
     ("raft_logs_level", "information"); ("rotate_log_storage_interval", "10000");
     ("heart_beat_interval_ms", "5000")].

(** [id2] of the node, the options and the members *)
Definition keeper_server (port tcp_port : string) (id2 : Z) (name value : string)
    (server_part : list entries) : entries :=
  section "keeper_server" (VDict (text_entries
    [(port, tcp_port); ("server_id", str_Z id2);
     ("log_storage_path", "/var/lib/clickhouse/coordination/log");
     ("snapshot_storage_path", "/var/lib/clickhouse/coordination/snapshots")] ++
    [(Key "coordination_settings", texts (coordination_settings name value));
     (Key "raft_configuration", VList server_part)])).
Definition port_key (tcp_port_secure : bool) : string :=
  if tcp_port_secure then "tcp_port_secure" else "tcp_port".

(** The section of [create_config_section] *)
Definition zookeeper_node (ssl : bool) (secure : Z) (name : string) : entries :=
  section "node" (texts
    [("host", name); ("port", if ssl then "9281" else "2181"); ("secure", str_Z secure)]).
Definition zookeeper (ssl : bool) (secure : Z) (control_nodes : list string) : entries :=
  section "zookeeper" (VList (zookeeper_node ssl secure <$> control_nodes)).

(** The parameters of [create_keeper_cluster_configuration] that its callers
    give *)
Record keeper_args := mkKeeperArgs {
  ka_invalid_config : bool; ka_config_d_dir : string; ka_config_file : string;
  ka_nodes : option (list string); ka_test_setting_name : string; ka_test_setting_value : string;
  ka_check_preprocessed : bool; ka_tcp_port : Z; ka_restart : bool; ka_modify : bool
}.
Definition server_d : string := "/etc/clickhouse-server/config.d/".
Definition keeper_defaults : keeper_args :=
  mkKeeperArgs false server_d "serverkeeper.xml" None "startup_timeout" "30000" true 2181 true false.
Definition keeper_ssl_defaults : keeper_args :=
  mkKeeperArgs false server_d "enable_secure_keeper.xml" None "startup_timeout" "30000" false 9281
    false true.
(** The arguments of the steps that start Keepers *)
Definition keeper_for (a : keeper_args) (nodes : list string) (name value : string) (modify : bool)
    : keeper_args :=
  mkKeeperArgs false (ka_config_d_dir a) (ka_config_file a) (Some nodes) name value false
    (ka_tcp_port a) false modify.
Definition with_nodes (nodes : list string) : keeper_args :=
  mkKeeperArgs false server_d "serverkeeper.xml" (Some nodes) "startup_timeout" "30000" true 2181
    true false.

(** Which servers [start_mixed_keeper] starts last *)
Inductive rest_nodes := DefaultRest | NoRestNodes | RestNodes (l : list string).

Section steps.
Context {S : Type} `{KeeperApi S}.
(** [cluster.nodes["clickhouse"]], [cluster.nodes["zookeeper"]], the context *)
Variables (clickhouse zookeepers : list string) (ctx : keeper_context).
Abbreviation M := (M S).
Abbreviation T := (PyMonad.M (scenario S)).

(** ** Steps on single nodes *)

Definition node_cmd (node command : string) (c : cmd_check) : M unit :=
  k_cmd Once node command c;; mret tt.
Definition cmds (node command : string) : M unit := node_cmd node command unasked.
Definition retry_cmd (node command : string) (c : cmd_check) : M unit :=
  k_cmd Retried node command c;; mret tt.
Definition query_node (n : attempts) (node sql : string) (a : query_args) : M unit :=
  k_query n node sql a;; mret tt.
(** [node.query(sql, message=message, exitcode=exitcode)] *)
Definition query_expecting (message : option string) (exitcode : option Z) : query_args :=
  mkQuery message exitcode false false false [] 5 None (sec 5) false "-0" None false false None
    "echo -e" None.

Definition make_config (e : entries) (root config_file config_d_dir : string) : M Config :=
  uid ← k_getuid;
  mret (create_xml_config_content e config_file config_d_dir root uid).

Definition instrument_cluster_nodes (test_name : string) (cluster_nodes : list string)
    (always_dump : bool) : T unit :=
  for_ cluster_nodes (λ name,
    size ← act (k_log_size name);
    generator (act (k_log_mark name test_name)) (k_log_end name test_name size always_dump)).

Definition add_config_section (config : Config) (o : config_options) (node : option string) : T unit :=
  node ← (match node with Some n => mret n | None => act k_context_node end : T string);
  generator (act (k_install node config o))
    (when (negb (o_modify o)) (k_remove node config o)).

(** It has a parameter [node] that it does not use. *)
Definition add_invalid_config_section (config : Config) (message : string)
    (recover_config : option Config) (tail timeout : Z) (restart : bool) (node : option string)
    : T unit :=
  node ← act k_context_node;
  act (k_add_invalid_config node config recover_config message tail timeout restart).

(** The configuration [e] on every node *)
Definition config_on (e : entries) (root config_file config_d_dir : string) (o : config_options)
    (name : string) : T unit :=
  config ← act (make_config e root config_file config_d_dir);
  add_config_section config o (Some name).

Definition create_ssl_configuration (config_d_dir config_file : string)
    (nodes : option (list string)) (e : entries) (restart check_preprocessed : bool) : T unit :=
  for_ (or_slice nodes 0 13 clickhouse)
    (config_on (section "openSSL" (VDict e)) "yandex" config_file config_d_dir
       (mkOptions restart false true check_preprocessed)).

Definition create_remote_configuration (config_d_dir config_file : string)
    (nodes : option (list string)) (e : entries) (restart modify check_preprocessed : bool) : T unit :=
  for_ (or_slice nodes 0 13 clickhouse)
    (config_on (section "remote_servers" (VDict e)) "yandex" config_file config_d_dir
       (mkOptions restart modify true check_preprocessed)).

Definition create_3_3_cluster_config : T unit :=
  create_remote_configuration server_d "remote.xml" None (cluster_3_3 replica_plain) true true true.

(** The configuration of the member [id2], [name]; in the invalid case the
    files are given to the node of the context, whatever [name] is. *)
Definition keeper_member (a : keeper_args) (nodes : list string) (id2 : Z) (name : string) : T unit :=
  let port := port_key (c_tcp_port_secure ctx) in
  let server tcp_port :=
    keeper_server port tcp_port id2 (ka_test_setting_name a) (ka_test_setting_value a)
      (members "44444" nodes) in
  config ← act (make_config (server (str_Z (ka_tcp_port a))) "yandex" (ka_config_file a)
                  (ka_config_d_dir a));
  if ka_invalid_config a then
    recover_config ← act (make_config (server "2181") "yandex" (ka_config_file a) (ka_config_d_dir a));
    add_invalid_config_section config "Exception" (Some recover_config) 30 (sec 300) false None
  else
    add_config_section config
      (mkOptions (ka_restart a) (ka_modify a) false (ka_check_preprocessed a)) (Some name).
(** Its parameter [tcp_port_secure] is overwritten by the context. *)
Definition create_keeper_cluster_configuration (a : keeper_args) (tcp_port_secure : bool) : T unit :=
  let nodes := or_slice (ka_nodes a) 0 3 clickhouse in
  for_ (zip (seqZ 1 (Z.of_nat (length nodes))) nodes)
    (λ x, keeper_member a nodes x.1 x.2).

(** [for name in nodes[:13]: node.cmd(f"rm -rf {config_d_dir}{config_file} ")] *)
Definition remove_files (config_d_dir config_file : string) : M unit :=
  for_ (slice 0 13 clickhouse) (λ name, cmds name ("rm -rf " +:+ config_d_dir +:+ config_file +:+ " ")).

Definition create_config_section (config_d_dir config_file : string)
    (control_nodes cluster_nodes : option (list string))
    (check_preprocessed restart modify ssl : bool) : T unit :=
  generator
    (let control_nodes := or_slice control_nodes 0 3 clickhouse in
     for_ (or_slice cluster_nodes 0 12 clickhouse)
       (config_on (zookeeper ssl (c_secure ctx) control_nodes) "yandex" config_file config_d_dir
          (mkOptions restart modify true check_preprocessed)))
    (remove_files config_d_dir config_file).
Definition create_config_section_ssl (config_d_dir config_file : string)
    (control_nodes cluster_nodes : option (list string))
    (check_preprocessed restart modify : bool) : T unit :=
  create_config_section config_d_dir config_file control_nodes cluster_nodes
    check_preprocessed restart modify true.

(** *** Stopping and starting *)

Definition stop_all_zookeepers : M unit := for_ zookeepers k_stop.

Definition pidfile : string := "/tmp/clickhouse-keeper.pid".
Definition start_keeper (name : string) : M unit :=
  cmds name ("rm -rf " +:+ pidfile);;
  node_cmd name ("clickhouse keeper --config /etc/clickhouse-server/config.xml --pidfile=" +:+ pidfile +:+
            " --daemon") (exits 0);;
  node_cmd name ("ls " +:+ pidfile) (says 0 pidfile).
(** The result of [node.cmd] is true in a condition. *)
Definition stop_keeper (name : string) : M unit :=
  node_cmd name ("ls " +:+ pidfile) (exits 0);;
  r ← k_cmd Once name ("cat " +:+ pidfile) unasked;
  let pid := strip (output r) in
  node_cmd name ("kill -TERM " +:+ pid) (exits 0);;
  retry_cmd name ("ps " +:+ pid) (exits 1).

Definition start_keepers (standalone_keeper_nodes : option (list string)) (manual_cleanup : bool)
    : T unit :=
  let nodes := or_slice standalone_keeper_nodes 9 12 clickhouse in
  generator (act (for_ nodes start_keeper)) (when (negb manual_cleanup) (for_ nodes stop_keeper)).
Definition stop_keepers (cluster_nodes : option (list string)) : M unit :=
  for_ (or_slice cluster_nodes 0 9 clickhouse) stop_keeper.

Definition stop_clickhouses (cluster_nodes : option (list string)) (manual_cleanup : bool) : T unit :=
  let nodes := or_slice cluster_nodes 0 3 clickhouse in
  generator (act (for_ nodes (λ name, k_stop_clickhouse Once name true)))
    (when (negb manual_cleanup) (for_ nodes (λ name, k_start_clickhouse Once name true))).

Definition clean_text : string :=
  "rm -rf /var/lib/clickhouse/coordination/snapshots && rm -rf /var/lib/clickhouse/coordination/log ".
Definition clean_coordination_on_all_nodes (cluster_nodes : option (list string)) : M unit :=
  for_ (or_slice cluster_nodes 0 12 clickhouse) (λ name, cmds name clean_text).

(** ** Tables *)

Definition cluster_33 : string := "'Cluster_3shards_with_3replicas'".

Definition create_simple_table (node : option string) (table_name cluster_name values order_by
    partition_by : string) (manual_cleanup : bool) : T string :=
  let node := default "clickhouse1" node in
  generator
    (act (query_node Retried node ("CREATE TABLE IF NOT EXISTS " +:+ table_name +:+ " on CLUSTER " +:+
       cluster_name +:+ " (" +:+ values +:+
       ") ENGINE = ReplicatedMergeTree('/clickhouse/tables/replicated/{shard}/" +:+ table_name +:+
       "', '{replica}') " +:+ order_by +:+ partition_by) query0);;
     mret table_name)
    (when (negb manual_cleanup)
       (query_node Once node ("DROP TABLE IF EXISTS " +:+ table_name +:+ " ON CLUSTER " +:+
          cluster_name +:+ " SYNC") query0)).
(** [create_simple_table(table_name=table_name, manual_cleanup=manual_cleanup)] *)
Definition simple_table (table_name : string) (manual_cleanup : bool) : T string :=
  create_simple_table None table_name cluster_33 "Id Int32, partition Int32" "ORDER BY Id "
    "PARTITION BY Id" manual_cleanup.

Definition table_insert (node : option string) (exitcode : Z) (node_name table_name values : string)
    : M unit :=
  query_node Retried (default node_name node)
    ("INSERT INTO " +:+ table_name +:+ "(Id, partition) values (" +:+ values +:+ ")")
    (query_expecting None (Some exitcode)).
Definition table_select (node : option string) (node_name table_name message : string) : M unit :=
  query_node Retried (default node_name node) ("SELECT * FROM " +:+ table_name +:+ " FORMAT CSV")
    (query_expecting (Some message) None).

(** ** Starting clusters *)

(** [retry(cluster.node(name).stop_clickhouse, timeout=100, delay=1)(safe=False)] *)
Definition stop_all (nodes : list string) : M unit :=
  for_ nodes (λ name, k_stop_clickhouse Retried name false).
Definition start_all (n : attempts) (wait_healthy : bool) (nodes : list string) : M unit :=
  for_ nodes (λ name, k_start_clickhouse n name wait_healthy).
Definition restart_all (wait_healthy : bool) (nodes : list string) : M unit :=
  for_ nodes (λ name, k_restart_clickhouse name wait_healthy).
(** The answer to [ruok] of every control node *)
Definition check_ruok (control_nodes : list string) (message : string) : M unit :=
  for_ control_nodes (λ name,
    retry_cmd "bash-tools" ("echo ruok | nc " +:+ name +:+ " " +:+ c_port ctx) (says 0 message)).

(** [with Finally(.., flags=TE): m] and the like *)
Definition te (m : M unit) : M unit :=
  try_except m (λ e, if k_absorbs (S:=S) e then mret tt else raise e).

(** The steps that configure clients and servers for SSL *)
Definition create_configuration_ssl (root section_name config_d_dir config_file : string)
    (nodes : option (list string)) (e : entries) (restart modify check_preprocessed : bool) : T unit :=
  for_ (or_slice nodes 0 13 clickhouse)
    (config_on (if String.eqb root "clickhouse" then section section_name (VDict e) else e) root
       config_file config_d_dir (mkOptions restart modify true check_preprocessed)).
Definition create_client_ssl (config_d_dir config_file : string) (nodes : option (list string))
    : T unit :=
  generator
    (create_configuration_ssl "config" "remote_servers" config_d_dir config_file nodes
       _entries_client_ssl false true false)
    (remove_files config_d_dir config_file).
Definition create_open_ssl (config_d_dir config_file : string) (nodes : option (list string))
    : T unit :=
  generator
    (create_configuration_ssl "clickhouse" "openSSL" config_d_dir config_file nodes
       _entries_open_ssl false true false)
    (remove_files config_d_dir config_file).
Definition create_3_3_cluster_config_ssl : T unit :=
  create_configuration_ssl "clickhouse" "remote_servers" server_d "remote.xml" None
    (cluster_3_3 replica_secure) false true true.

Definition keeper_member_ssl (a : keeper_args) (nodes : list string) (id2 : Z) (name : string)
    : T unit :=
  config ← act (make_config
    (keeper_server (port_key (c_tcp_port_secure ctx)) (str_Z (ka_tcp_port a)) id2
       (ka_test_setting_name a) (ka_test_setting_value a)
       (section "secure" (text (c_ssl ctx)) :: members "9444" nodes))
    "yandex" (ka_config_file a) (ka_config_d_dir a));
  if ka_invalid_config a then raise (XFail "need to finsh")
  else add_config_section config
         (mkOptions (ka_restart a) (ka_modify a) false (ka_check_preprocessed a)) (Some name).
Definition create_keeper_cluster_configuration_ssl (a : keeper_args) : T unit :=
  generator
    (let nodes := or_slice (ka_nodes a) 0 3 clickhouse in
     for_ (zip (seqZ 1 (Z.of_nat (length nodes))) nodes)
       (λ x, keeper_member_ssl a nodes x.1 x.2))
    (remove_files (ka_config_d_dir a) (ka_config_file a)).

(** The configurations with and without SSL that the steps below create *)
Definition configure_plain (control_nodes cluster_nodes : list string) (name value : string) : T unit :=
  create_config_section server_d "keeper.xml" (Some control_nodes) (Some cluster_nodes)
    false false false false;;
  create_keeper_cluster_configuration
    (keeper_for keeper_defaults control_nodes name value false) false.
Definition configure_ssl (control_nodes cluster_nodes : list string) (name value : string) : T unit :=
  create_config_section_ssl server_d "use_secure_keeper.xml" (Some control_nodes)
    (Some cluster_nodes) false false true;;
  create_open_ssl server_d "ssl_conf.xml" None;;
  create_client_ssl "/etc/clickhouse-client/" "config.xml" None;;
  create_keeper_cluster_configuration_ssl
    (keeper_for keeper_ssl_defaults control_nodes name value true).

(** [start_standalone_keeper]; the first of its two definitions, without the
    parameter [ssl], is replaced by the second. *)
Definition start_standalone_keeper (control_nodes cluster_nodes : option (list string))
    (test_setting_name test_setting_value : string) (ssl : pyval) : T unit :=
  let ssl := truth (match ssl with PNone => PStr (c_ssl ctx) | v => v end) in
  let control_nodes := or_slice control_nodes 9 12 clickhouse in
  let cluster_nodes := or_slice cluster_nodes 0 9 clickhouse in
  generator
    (act (stop_all cluster_nodes;; stop_all control_nodes;;
          clean_coordination_on_all_nodes None);;
     (if ssl then configure_ssl control_nodes cluster_nodes test_setting_name test_setting_value
      else configure_plain control_nodes cluster_nodes test_setting_name test_setting_value);;
     act (k_sleep (sec 10));;
     start_keepers (Some control_nodes) true;;
     act (check_ruok control_nodes (if ssl then "F" else "imok");;
          start_all Retried true cluster_nodes))
    (te (stop_keepers (Some control_nodes);;
         for_ control_nodes (λ name, k_start_clickhouse Once name false;; k_sleep (sec 5)));;
     clean_coordination_on_all_nodes None).

(** The body that [start_mixed_keeper] and [start_mixed_keeper_ssl] share *)
Definition start_mixed (configure : list string → list string → T unit) (answer : string)
    (control_nodes cluster_nodes : option (list string)) (rest_cluster_nodes : rest_nodes) : T unit :=
  let control_nodes := or_slice control_nodes 6 9 clickhouse in
  let cluster_nodes := or_slice cluster_nodes 0 9 clickhouse in
  generator
    (act (stop_all cluster_nodes;; clean_coordination_on_all_nodes None);;
     configure control_nodes cluster_nodes;;
     act (start_all Retried false control_nodes;;
          check_ruok control_nodes answer;;
          match rest_cluster_nodes with
          | DefaultRest => start_all Retried true (slice 0 6 clickhouse)
          | NoRestNodes => mret tt
          | RestNodes l => start_all Retried true l
          end))
    (clean_coordination_on_all_nodes None).
Definition start_mixed_keeper (control_nodes cluster_nodes : option (list string))
    (rest_cluster_nodes : rest_nodes) (test_setting_name test_setting_value : string) : T unit :=
  start_mixed (λ control cluster, configure_plain control cluster test_setting_name test_setting_value)
    "imok" control_nodes cluster_nodes rest_cluster_nodes.
Definition start_mixed_keeper_ssl (control_nodes cluster_nodes : option (list string))
    (rest_cluster_nodes : rest_nodes) (test_setting_name test_setting_value : string) : T unit :=
  start_mixed (λ control cluster, configure_ssl control cluster test_setting_name test_setting_value)
    "F" control_nodes cluster_nodes rest_cluster_nodes.

Definition start_mixed_ch_keeper (control_nodes cluster_nodes : option (list string))
    (rest_cluster_nodes : rest_nodes) : T unit :=
  if String.eqb (c_ssl ctx) "true"
  then start_mixed_keeper_ssl control_nodes cluster_nodes rest_cluster_nodes "startup_timeout" "30000"
  else start_mixed_keeper control_nodes cluster_nodes rest_cluster_nodes "startup_timeout" "30000".
Definition start_standalone_ch_keeper (control_nodes cluster_nodes : option (list string)) : T unit :=
  start_standalone_keeper control_nodes cluster_nodes "startup_timeout" "30000"
    (PBool (String.eqb (c_ssl ctx) "true")).

(** *** Clusters on the same servers *)

Definition keepers_of (a b : nat) : T unit :=
  create_keeper_cluster_configuration (with_nodes (slice a b clickhouse)) false.
Definition clients_of (control_nodes cluster_nodes : list string) : T unit :=
  create_config_section server_d "keeper.xml" (Some control_nodes) (Some cluster_nodes)
    true true false false.

Definition start_different_shared_keeper : T unit :=
  generator
    (act (k_sleep (sec 10));; keepers_of 0 3;;
     act (k_sleep (sec 10));; keepers_of 3 6;;
     act (k_sleep (sec 10));; keepers_of 6 9;;
     clients_of (slice 6 9 clickhouse) (slice 0 9 clickhouse);;
     act (restart_all false (slice 0 9 clickhouse)))
    (clean_coordination_on_all_nodes None).

(** One shard of [start_different_keeper] *)
Definition own_keeper (pause : bool) (a b : nat) : T unit :=
  act (when pause (k_sleep (sec 10)));; keepers_of a b;;
  act (when pause (k_sleep (sec 10)));; clients_of (slice a b clickhouse) (slice a b clickhouse);;
  act (restart_all false (slice a b clickhouse)).
Definition start_different_keeper : T unit :=
  generator (own_keeper true 0 3;; own_keeper true 3 6;; own_keeper false 6 9)
    (clean_coordination_on_all_nodes None).

Definition connect_zookeeper : T unit :=
  generator
    (clients_of (slice 0 3 zookeepers) (slice 0 9 clickhouse);;
     act (restart_all true (slice 0 9 clickhouse)))
    (cmds "zookeeper1" "rm -rf ../share/").

(** ** Checks *)

Definition simple_synchronization_check : M unit :=
  k_stop_clickhouse Once "clickhouse1" true;;
  table_insert None 0 "clickhouse2" "test" "1,111";;
  k_start_clickhouse Once "clickhouse1" true;;
  table_select None "clickhouse1" "test" "1,111".

(** [f"test{uid}"] where [uid] was bound by [uid = getuid()], if that returned *)
Definition test_name (v : string) (r : res string) : res string :=
  match r with Ok uid => Ok ("test" +:+ uid) | _ => Exc (UnboundLocalError v) end.

Definition insert_in_table_check : T unit :=
  r ← attempt (act k_getuid);
  try_finally
    (uid ← lift r;
     simple_table ("test" +:+ uid) false;;
     act (k_stop_clickhouse Once "clickhouse1" true))
    (table_name ← lift (test_name "table_name" r);
     act (table_insert None 0 "clickhouse2" table_name "1,111";;
          k_start_clickhouse Once "clickhouse1" true;;
          table_select None "clickhouse1" table_name "1,111")).

(** [create_simple_table] has no parameter [node_name]. *)
Definition create_table_check : T unit :=
  r ← attempt (act k_getuid);
  try_finally
    (lift r;; act (k_stop_clickhouse Once "clickhouse1" true))
    (table_name ← lift (test_name "uid" r);
     act (k_parallel_error (TypeError
            "create_simple_table() got an unexpected keyword argument 'node_name'");;
          k_start_clickhouse Once "clickhouse1" true;;
          query_node Retried "clickhouse1" "SHOW TABLES"
            (query_expecting (Some table_name) (Some 0)))).

Definition drop_table (table_name : string) : M unit :=
  query_node Once "clickhouse2"
    ("DROP TABLE IF EXISTS " +:+ table_name +:+ " ON CLUSTER " +:+ cluster_33 +:+ " SYNC") query0.

(** The server is started before the step that should start it in parallel,
    whose [test] is the [None] that [start_clickhouse] returns. *)
Definition drop_table_check : T unit :=
  uid ← act k_getuid;
  table_name ← simple_table ("test" +:+ uid) true;
  act (try_finally (k_stop_clickhouse Once "clickhouse1" true)
         (k_start_clickhouse Once "clickhouse1" true;;
          k_untested_step;;
          drop_table table_name)).

(** Times are in microseconds. *)
Definition iops_check (sleep check_points : Z) : M unit :=
  for_ (range1 check_points) (λ _,
    k_sleep sleep;;
    r ← k_shell "iostat -d nvme0n1 | grep nvme0n1 | awk '{ print $2 }'";
    k_metric "iops" (strip (output r)) "tps";;
    t ← k_current_time;
    k_metric "map insert time" t "sec").
Definition metric_of_query (sleep check_points : Z) (name sql units : string) : M unit :=
  for_ (range1 check_points) (λ _,
    k_sleep sleep;;
    r ← k_query Once "clickhouse1" sql query0;
    k_metric name (strip (output r)) units).
Definition rows_number (sleep check_points : Z) (table_name : string) : M unit :=
  metric_of_query sleep check_points "number_of_rows" ("select count() from " +:+ table_name) "rows".
Definition system_zoo_check (sleep check_points : Z) : M unit :=
  metric_of_query sleep check_points EmptyString
    "select * from system.events where event ilike '%ZooKeeper%';" EmptyString.

Definition openssl_check_step (node : option string) (port : string) : M unit :=
  node_cmd (default "clickhouse1" node) ("openssl s_client -connect clickhouse1:" +:+ port)
    (mkCheck None None true).
End steps.

