(* ===== verification/KeeperConfigs.v ===== *)
(** * What the configurations of Keepers and of their clients say

    Reading the files that the steps of Keeper write, as a server would: the
    members of a raft group agree, and clients are told where they listen. *)
From stdpp Require Import gmap.
From Stdlib Require Import Ascii.
From S2P Require Import Prelude PyStr PyDict PyMonad Argparse World Query NodeLog XmlConfig StorageConfig Scenario Keeper.
Local Open Scope Z_scope.

(** A text that is not blank *)
Definition plain (s : string) : bool := negb (blank (Some s)).

Lemma shown_plain s : plain s = true → shown (Some s) = [s].
Proof. unfold plain, shown, strip_text. by destruct (blank (Some s)). Qed.

Lemma plain_Z n : 0 <= n → plain (str_Z n) = true.
Proof.
  intros Hn. destruct (str_Z_nonneg n Hn) as (Hd & Hne & _). unfold plain, blank.
  rewrite strip_digits by done. by destruct (String.eqb_spec (str_Z n) EmptyString).
Qed.

(** ** Reading dictionaries *)

Lemma values_texts k o : dwf o →
  values [k] (texts o) = match dget k o with Some v => shown (Some v) | None => [] end.
Proof.
  unfold dwf, dkeys, texts, text_entries. cbn [values].
  induction o as [|[k' v] o IH]; [done|]. cbn [fmap list_fmap fst snd].
  intros [Hk Ho]%NoDup_cons. cbn [mbind list_bind dget fst snd key_name].
  rewrite IH by done. destruct (decide (k = k')) as [->|Hne].
  - rewrite String.eqb_refl. assert (dget k' o = None) as ->; [|by rewrite app_nil_r].
    clear -Hk. induction o as [|[k v'] o IH]; [done|]. simpl in *.
    apply not_elem_of_cons in Hk as [Hne Hk]. rewrite decide_False by done. by apply IH.
  - by rewrite (proj2 (String.eqb_neq _ _)) by congruence.
Qed.

Lemma values_section k path e : values (k :: path) (VDict (section k e)) = values path e.
Proof. cbn [values section mbind list_bind fst snd key_name]. by rewrite String.eqb_refl, app_nil_r. Qed.
Lemma values_list k path l : values (k :: path) (VList l) = l ≫= λ e, values (k :: path) (VDict e).
Proof. done. Qed.
Lemma values_app k path e1 e2 :
  values (k :: path) (VDict (e1 ++ e2)) = values (k :: path) (VDict e1) ++ values (k :: path) (VDict e2).
Proof. cbn [values]. by rewrite bind_app. Qed.

(** The same option of every element of a list *)
Lemma values_options {X} k tag (f : X → options) (g : X → string) l :
  (∀ x, x ∈ l → dwf (f x) ∧ dget k (f x) = Some (g x) ∧ plain (g x) = true) →
  values [tag; k] (VList ((λ x, section tag (texts (f x))) <$> l)) = g <$> l.
Proof.
  intros Hf. rewrite values_list. induction l as [|x l IH]; [done|].
  cbn [fmap list_fmap mbind list_bind]. rewrite IH by (intros y Hy; apply Hf; by right).
  destruct (Hf x) as (Hw & Hg & Hp); [by left|].
  by rewrite values_section, values_texts, Hg, shown_plain.
Qed.

(** Members with their numbers *)
Lemma members_zip port nodes :
  members port nodes = (λ x, member port x.1 x.2) <$> zip (seqZ 1 (Z.of_nat (length nodes))) nodes.
Proof.
  unfold members. apply list_eq. intros i.
  rewrite list_lookup_imap, list_lookup_fmap, lookup_zip_with.
  destruct (nodes !! i) as [name|] eqn:E; [|by destruct (seqZ _ _ !! i)].
  apply lookup_lt_Some in E as Hi. rewrite lookup_seqZ_lt by lia. simpl. do 2 f_equal. lia.
Qed.
Lemma zip_fst_seqZ {A} (l : list A) : (zip (seqZ 1 (Z.of_nat (length l))) l).*1 = seqZ 1 (Z.of_nat (length l)).
Proof. apply fst_zip. rewrite length_seqZ. lia. Qed.
Lemma zip_snd_seqZ {A} (l : list A) : (zip (seqZ 1 (Z.of_nat (length l))) l).*2 = l.
Proof. apply snd_zip. rewrite length_seqZ. lia. Qed.

Section members.
Variables (port : string) (nodes : list string).
Hypotheses (Hport : plain port = true) (Hnodes : Forall (λ n, plain n = true) nodes).
Let opts (x : Z * string) : options := [("id", str_Z x.1); ("hostname", x.2); ("port", port)].
Let numbered : list (Z * string) := zip (seqZ 1 (Z.of_nat (length nodes))) nodes.

Lemma numbered_ok x : x ∈ numbered → 0 <= x.1 ∧ plain x.2 = true.
Proof.
  intros Hx. split.
  - assert (x.1 ∈ numbered.*1) as Hi by by apply list_elem_of_fmap_2.
    unfold numbered in Hi. rewrite zip_fst_seqZ in Hi. apply elem_of_seqZ in Hi. lia.
  - assert (x.2 ∈ numbered.*2) as Hi by by apply list_elem_of_fmap_2.
    unfold numbered in Hi. rewrite zip_snd_seqZ in Hi. by eapply Forall_forall in Hnodes.
Qed.

Lemma member_values k (g : Z * string → string) :
  (∀ x, x ∈ numbered → dget k (opts x) = Some (g x) ∧ plain (g x) = true) →
  values ["server"; k] (VList (members port nodes)) = g <$> numbered.
Proof.
  intros Hg. rewrite members_zip. apply (values_options k "server" opts g). intros x Hx.
  split; [by apply (bool_decide_unpack _)|by apply Hg].
Qed.
Lemma member_ids : values ["server"; "id"] (VList (members port nodes)) =
  str_Z <$> seqZ 1 (Z.of_nat (length nodes)).
Proof.
  rewrite (member_values "id" (λ x, str_Z x.1)).
  - rewrite <-(zip_fst_seqZ nodes) at 1. by rewrite <-list_fmap_compose.
  - intros x [Hx _]%numbered_ok. split; [done|by apply plain_Z].
Qed.
Lemma member_hosts : values ["server"; "hostname"] (VList (members port nodes)) = nodes.
Proof.
  rewrite (member_values "hostname" snd); [apply zip_snd_seqZ|]. by intros x [_ Hx]%numbered_ok.
Qed.
Lemma member_ports : values ["server"; "port"] (VList (members port nodes)) = (λ _, port) <$> nodes.
Proof.
  rewrite (member_values "port" (λ _, port)); [|done].
  rewrite <-(zip_snd_seqZ nodes) at 1. by rewrite <-list_fmap_compose.
Qed.
End members.

(** ** What is read in the files *)

Abbreviation raft path := ("keeper_server" :: "raft_configuration" :: path).

(** A server that reads [n] is the member [id] of the raft group of [nodes],
    numbered from 1, whose members talk to each other on [raft_port] (with
    [secure], when it is set); it listens to clients on [port] of the key
    [key], on nothing for the key [other], and has the setting [name]. *)
Record keeper_reads (key other port raft_port : string) (secure : list string)
    (nodes : list string) (id : Z) (name value : string) (n : node) : Prop := mkReads {
  reads_port : settings ["keeper_server"; key] n = [port];
  reads_no_other_port : settings ["keeper_server"; other] n = [];
  reads_id : settings ["keeper_server"; "server_id"] n = [str_Z id];
  reads_ids : settings (raft ["server"; "id"]) n = str_Z <$> seqZ 1 (Z.of_nat (length nodes));
  reads_hosts : settings (raft ["server"; "hostname"]) n = nodes;
  reads_ports : settings (raft ["server"; "port"]) n = (λ _, raft_port) <$> nodes;
  reads_secure : settings (raft ["secure"]) n = secure;
  reads_setting : settings ["keeper_server"; "coordination_settings"; name] n = [value]
}.

(** A server that reads [n] looks for Keeper on [port] of the [nodes]. *)
Record client_reads (port secure : string) (nodes : list string) (n : node) : Prop := mkClient {
  client_hosts : settings ["zookeeper"; "node"; "host"] n = nodes;
  client_ports : settings ["zookeeper"; "node"; "port"] n = (λ _, port) <$> nodes;
  client_secure : settings ["zookeeper"; "node"; "secure"] n = (λ _, secure) <$> nodes
}.

(** What a server reads in the file of a configuration *)
Definition reads (config : Config) (P : node → Prop) : Prop :=
  ∃ n, read_xml (content config) = Some n ∧ P n.

Definition server_part (secure : option string) (nodes : list string) : list entries :=
  match secure with
  | Some s => section "secure" (text s) :: members "9444" nodes
  | None => members "44444" nodes
  end.
Definition raft_port (secure : option string) : string :=
  match secure with Some _ => "9444" | None => "44444" end.

Lemma text_entries_good o : forallb good_name (dkeys o) = true → good_names (texts o) = true.
Proof.
  unfold texts, text_entries, dkeys. induction o as [|[k v] o IH]; [done|].
  cbn [fmap list_fmap forallb fst good_names]. intros [Hk Ho]%andb_true_iff. cbn [good_names] in IH.
  rewrite IH by done. unfold good_key. simpl. by rewrite Hk.
Qed.
Lemma good_app e1 e2 :
  good_names (VDict (e1 ++ e2)) = good_names (VDict e1) && good_names (VDict e2).
Proof. cbn [good_names]. apply forallb_app. Qed.
Lemma good_section k e : good_name k = true → good_names e = true → good_names (VDict (section k e)) = true.
Proof. intros Hk He. simpl. unfold good_key. simpl. by rewrite Hk, He. Qed.
Lemma good_list l : Forall (λ e, good_names (VDict e) = true) l → good_names (VList l) = true.
Proof. induction 1 as [|e l He Hl IH]; [done|]. cbn [good_names forallb] in *. by rewrite He, IH. Qed.

Lemma server_part_good secure nodes : good_names (VList (server_part secure nodes)) = true.
Proof.
  assert (Hm : ∀ port, Forall (λ e, good_names (VDict e) = true) (members port nodes)).
  { intros port. apply Forall_lookup. intros i e Hi. unfold members in Hi.
    rewrite list_lookup_imap in Hi. destruct (nodes !! i); [|done]. simpl in Hi.
    injection Hi as <-. done. }
  apply good_list. destruct secure; [by constructor|apply Hm].
Qed.

Lemma setting_keys_good name value :
  good_name name = true → good_names (texts (coordination_settings name value)) = true.
Proof.
  intros Hn. apply text_entries_good, forallb_forall. intros k Hk%list_elem_of_In.
  unfold coordination_settings in Hk. apply elem_of_dkeys_dset in Hk as [->|Hk]; [done|].
  revert k Hk. apply Forall_forall. by apply (bool_decide_unpack _).
Qed.

Lemma keeper_server_good secure tcp_port id name value nodes s :
  good_name name = true →
  good_names (VDict (keeper_server (port_key secure) tcp_port id name value (server_part s nodes))) = true.
Proof.
  intros Hn. apply good_section; [done|]. rewrite good_app.
  apply andb_true_iff. split; [by destruct secure|].
  change (good_names (VDict (section "coordination_settings" (texts (coordination_settings name value)) ++
    section "raft_configuration" (VList (server_part s nodes)))) = true).
  by rewrite good_app, !good_section by (done || apply setting_keys_good, Hn || apply server_part_good).
Qed.

(** ** The files of Keepers *)

Section keeper_file.
Variables (secure : bool) (tcp_port : string) (id : Z) (name value : string).
Variables (s : option string) (nodes : list string).
Hypotheses (Hport : plain tcp_port = true) (Hid : 0 <= id) (Hvalue : plain value = true).
Hypotheses (Hs : ∀ t, s = Some t → plain t = true) (Hnodes : Forall (λ n, plain n = true) nodes).

Let options_ : options :=
  [(port_key secure, tcp_port); ("server_id", str_Z id);
   ("log_storage_path", "/var/lib/clickhouse/coordination/log");
   ("snapshot_storage_path", "/var/lib/clickhouse/coordination/snapshots")].
Let rest : entries :=
  [(Key "coordination_settings", texts (coordination_settings name value));
   (Key "raft_configuration", VList (server_part s nodes))].
Let entry_ : entry := VDict (keeper_server (port_key secure) tcp_port id name value (server_part s nodes)).

Lemma values_keeper k path :
  values ("keeper_server" :: k :: path) entry_ =
  values (k :: path) (texts options_) ++ values (k :: path) (VDict rest).
Proof.
  unfold entry_, keeper_server. rewrite values_section.
  exact (values_app k path (text_entries options_) rest).
Qed.
Lemma values_option k : k ≠ "coordination_settings" → k ≠ "raft_configuration" →
  values ["keeper_server"; k] entry_ =
  match dget k options_ with Some v => shown (Some v) | None => [] end.
Proof.
  intros H1 H2. rewrite values_keeper, values_texts.
  - unfold rest. cbn [values mbind list_bind fst snd key_name].
    rewrite !(proj2 (String.eqb_neq _ _)) by done. by rewrite app_nil_r.
  - by destruct secure; apply (bool_decide_unpack _).
Qed.
Lemma values_raft k path :
  values (raft (k :: path)) entry_ = values (k :: path) (VList (server_part s nodes)).
Proof.
  rewrite values_keeper. destruct secure; cbn; by rewrite app_nil_r.
Qed.
Lemma values_server_part k : values ["server"; k] (VList (server_part s nodes)) =
  values ["server"; k] (VList (members (raft_port s) nodes)).
Proof. by destruct s. Qed.
Lemma values_setting : values ["keeper_server"; "coordination_settings"; name] entry_ = [value].
Proof.
  rewrite values_keeper. transitivity (values [name] (texts (coordination_settings name value))).
  { destruct secure; cbn [values]; cbn; by rewrite app_nil_r. }
  rewrite values_texts by (apply dwf_dset; by apply (bool_decide_unpack _)).
  unfold coordination_settings. by rewrite dget_dset, shown_plain.
Qed.
Lemma no_secure_members port : values ["secure"] (VList (members port nodes)) = [].
Proof.
  rewrite members_zip, values_list. generalize (zip (seqZ 1 (Z.of_nat (length nodes))) nodes).
  intros l. induction l as [|x l IH]; [done|]. cbn [fmap list_fmap mbind list_bind]. by rewrite IH.
Qed.

(** The configuration of one member *)
Lemma keeper_config_reads config_file config_d_dir uid :
  good_name name = true → without ">"%char uid = true →
  reads (create_xml_config_content (keeper_server (port_key secure) tcp_port id name value (server_part s nodes))
           config_file config_d_dir "yandex" uid)
    (keeper_reads (port_key secure) (port_key (negb secure)) tcp_port (raft_port s)
       (option_list s) nodes id name value).
Proof.
  intros Hname Huid.
  destruct (settings_read_back (keeper_server (port_key secure) tcp_port id name value (server_part s nodes))
    config_file config_d_dir "yandex" uid) as (n & Hn & Hv); [done|done|by apply keeper_server_good|].
  exists n. split; [done|]. fold entry_ in Hv.
  assert (Hr : plain (raft_port s) = true) by by destruct s.
  constructor; rewrite Hv.
  - rewrite values_option by by destruct secure. unfold options_. cbn [dget].
    by rewrite decide_True, shown_plain.
  - rewrite values_option by by destruct secure. by destruct secure.
  - rewrite values_option by done. transitivity (shown (Some (str_Z id))); [by destruct secure|].
    by apply shown_plain, plain_Z.
  - rewrite values_raft, values_server_part. by apply member_ids.
  - rewrite values_raft, values_server_part. by apply member_hosts.
  - rewrite values_raft, values_server_part. by apply member_ports.
  - rewrite values_raft. unfold server_part. destruct s as [t|]; [|apply no_secure_members].
    rewrite values_list. cbn [mbind list_bind]. rewrite values_section.
    pose proof (no_secure_members "9444") as Hm. rewrite values_list in Hm. rewrite Hm.
    cbn [values text]. by rewrite shown_plain by by apply Hs.
  - apply values_setting.
Qed.
End keeper_file.

(** ** The files of their clients *)

Lemma client_config_reads ssl secure nodes config_file config_d_dir uid :
  0 <= secure → Forall (λ n, plain n = true) nodes → without ">"%char uid = true →
  reads (create_xml_config_content (zookeeper ssl secure nodes) config_file config_d_dir "yandex" uid)
    (client_reads (if ssl then "9281" else "2181") (str_Z secure) nodes).
Proof.
  intros Hs Hn Huid.
  set (opts h := [("host", h); ("port", if ssl then "9281" else "2181"); ("secure", str_Z secure)] : options).
  assert (Hw : ∀ h, dwf (opts h)) by (intros h; by apply (bool_decide_unpack _)).
  destruct (settings_read_back (zookeeper ssl secure nodes) config_file config_d_dir "yandex" uid)
    as (n & Hread & Hv); [done|done| |].
  { apply good_section; [done|]. apply good_list, Forall_fmap, Forall_true. intros h. done. }
  assert (Hval : ∀ k g, (∀ h, h ∈ nodes → dget k (opts h) = Some (g h) ∧ plain (g h) = true) →
    settings ["zookeeper"; "node"; k] n = g <$> nodes).
  { intros k g Hg. rewrite Hv. unfold zookeeper. rewrite values_section.
    apply (values_options k "node" opts g). intros h Hh. split; [apply Hw|by apply Hg]. }
  exists n. split; [done|]. constructor.
  - rewrite (Hval "host" id); [by rewrite list_fmap_id|]. intros h Hh. split; [done|].
    by eapply Forall_forall in Hn.
  - apply (Hval "port" (λ _, _)). intros h _. split; [done|]. by destruct ssl.
  - apply (Hval "secure" (λ _, _)). intros h _. split; [done|]. by apply plain_Z.
Qed.
