(* ===== verification/KeeperOrder.v ===== *)
(** * Starting Keeper clusters: what was done when the test begins

    The steps of Keeper run against an implementation that keeps what is asked
    of it.  When a step that starts a cluster returns, the servers were
    stopped, the state of the coordination removed, the configurations given,
    and every Keeper has answered, in this order; and what the steps set up is
    undone at the end of the scenario, the last first. *)
From stdpp Require Import gmap.
From Stdlib Require Import Ascii.
From S2P Require Import Prelude PyStr PyDict PyMonad Argparse World Cluster Termination Query NodeLog Lifecycle Order XmlConfig StorageConfig Suites Scenario Keeper KeeperConfigs Steps.
Local Open Scope Z_scope.

(** ** The log *)

Inductive kcall :=
  | KInstall (node : string) (c : Config) (o : config_options)
  | KRemove (node : string) (c : Config) (o : config_options)
  | KInvalid (node : string) (c : Config) (recover : option Config)
  | KLogMark (node : string)
  | KCmd (n : attempts) (node command : string) (c : cmd_check)
  | KQuery (n : attempts) (node sql : string) (a : query_args)
  | KStopServer (n : attempts) (node : string) (safe : bool)
  | KStartServer (n : attempts) (node : string) (wait_healthy : bool)
  | KRestartServer (node : string) (wait_healthy : bool)
  | KStopNode (node : string)
  | KShell (command : string)
  | KMetric (name value units : string)
  | KParallelError (e : exn)
  | KUntestedStep.
Inductive kanswer := Did | Got (r : shell_result) | NoAnswer.
Abbreviation kitem := ((kcall * kanswer)%type).

Definition did (c : kcall) (a : option unit) : kitem :=
  (c, match a with Some _ => Did | None => NoAnswer end).
Definition got (c : kcall) (a : option shell_result) : kitem :=
  (c, match a with Some r => Got r | None => NoAnswer end).

Definition recorded_keeper {S} (K : KeeperApi S) : KeeperApi (logged kitem S) := {|
  k_getuid := unlogged k_getuid;
  k_context_node := unlogged k_context_node;
  k_install n c o := logs (did (KInstall n c o)) (k_install n c o);
  k_remove n c o := logs (did (KRemove n c o)) (k_remove n c o);
  k_add_invalid_config n c r m tail t restart :=
    logs (did (KInvalid n c r)) (k_add_invalid_config n c r m tail t restart);
  k_log_size n := unlogged (k_log_size n);
  k_log_mark n t := logs (did (KLogMark n)) (k_log_mark n t);
  k_log_end n t size dump := logs (did (KLogMark n)) (k_log_end n t size dump);
  k_cmd at_ n c chk := logs (got (KCmd at_ n c chk)) (k_cmd at_ n c chk);
  k_query at_ n sql a := logs (got (KQuery at_ n sql a)) (k_query at_ n sql a);
  k_stop_clickhouse at_ n safe := logs (did (KStopServer at_ n safe)) (k_stop_clickhouse at_ n safe);
  k_start_clickhouse at_ n w := logs (did (KStartServer at_ n w)) (k_start_clickhouse at_ n w);
  k_restart_clickhouse n w := logs (did (KRestartServer n w)) (k_restart_clickhouse n w);
  k_stop n := logs (did (KStopNode n)) (k_stop n);
  k_sleep t := unlogged (k_sleep t);
  k_shell c := logs (got (KShell c)) (k_shell c);
  k_metric a b c := logs (did (KMetric a b c)) (k_metric a b c);
  k_current_time := unlogged k_current_time;
  k_parallel_error e := logs (did (KParallelError e)) (k_parallel_error e);
  k_untested_step := logs (did KUntestedStep) k_untested_step;
  k_absorbs := k_absorbs (S:=S)
|}.

(** What [cmd] has checked when it returns *)
Definition checked (c : cmd_check) (r : shell_result) : Prop :=
  (∀ n, cc_exitcode c = Some n → exitcode r = n) ∧
  (∀ m, cc_message c = Some m → contains m (output r) = true).
Class KeeperLaws (S : Type) `{KeeperApi S} : Prop := {
  uid_plain : ∀ (s : S) u s', k_getuid s = (Ok u, s') → without ">"%char u = true;
  cmd_checks : ∀ n node c chk (s : S) r s',
    k_cmd n node c chk s = (Ok r, s') → cc_no_checks chk = false → checked chk r
}.

(** ** Items *)

Definition done_ (c : kcall) (x : kitem) : Prop := x = (c, Did).
Definition ran (n : attempts) (node command : string) (c : cmd_check) (x : kitem) : Prop :=
  ∃ r, x = (KCmd n node command c, Got r) ∧ checked c r.
(** The node was given a file in which a server reads [P], and the file was
    removed again. *)
Definition given (o : config_options) (P : node → Prop) (name : string) (x : kitem) : Prop :=
  ∃ c, x = (KInstall name c o, Did) ∧ reads c P.
Definition taken (o : config_options) (name : string) (x : kitem) : Prop :=
  ∃ c, x = (KRemove name c o, Did).

Section order.
Context {S : Type} {K : KeeperApi S} {L : KeeperLaws S}.
#[local] Existing Instance recorded_keeper.
Abbreviation LS := (logged kitem S).
Variables (clickhouse zookeepers : list string).

Lemma leaves_unlogged {A} (m : M S A) : leaves (unlogged m : M LS A) (λ _ l, in_order [] l).
Proof. apply leaves_grows, unlogged_grows. Qed.

Lemma leaves_did c (m : M S unit) : leaves (logs (did c) m : M LS unit) (λ _ l, in_order [done_ c] l).
Proof. by apply logs_item. Qed.

Lemma leaves_cmd n node c chk : cc_no_checks chk = false →
  leaves (k_cmd (S:=LS) n node c chk;; mret tt) (λ _ l, in_order [ran n node c chk] l).
Proof.
  intros Hc. apply (leaves_seq _ _ [_] []); [|intros r; apply leaves_ret, in_order_nil].
  intros s r s' E. destruct (leaves_logs _ _ _ _ _ E) as (l & Hl & ->).
  exists [(KCmd n node c chk, Got r)]. split; [done|]. apply (in_order_last _ []). exists r.
  split; [done|]. unfold k_cmd, recorded_keeper, logs in E.
  destruct (k_cmd n node c chk s.1) as [r' s1] eqn:E1. simplify_eq. by eapply cmd_checks.
Qed.

(** ** Calls on many nodes *)

Definition stopped_servers (nodes : list string) : list (kitem → Prop) :=
  nodes ≫= λ n, [done_ (KStopServer Retried n false)].
Definition started_servers (at_ : attempts) (wait_healthy : bool) (nodes : list string) :=
  nodes ≫= λ n, [done_ (KStartServer at_ n wait_healthy)].
Definition restarted_servers (wait_healthy : bool) (nodes : list string) :=
  nodes ≫= λ n, [done_ (KRestartServer n wait_healthy)].
Definition cleaned : list (kitem → Prop) :=
  slice 0 12 clickhouse ≫= λ n, [ran Once n clean_text unasked].
Definition files_removed (dir file : string) : list (kitem → Prop) :=
  slice 0 13 clickhouse ≫= λ n, [ran Once n ("rm -rf " +:+ dir +:+ file +:+ " ") unasked].
Definition keepers_started (nodes : list string) : list (kitem → Prop) :=
  nodes ≫= λ n,
    [ran Once n ("rm -rf " +:+ pidfile) unasked] ++
    [ran Once n ("clickhouse keeper --config /etc/clickhouse-server/config.xml --pidfile=" +:+ pidfile +:+
            " --daemon") (exits 0)] ++
    [ran Once n ("ls " +:+ pidfile) (says 0 pidfile)].
Definition answered (port message : string) (nodes : list string) : list (kitem → Prop) :=
  nodes ≫= λ n,
    [ran Retried "bash-tools" ("echo ruok | nc " +:+ n +:+ " " +:+ port) (says 0 message)].

Lemma leaves_stop_all nodes :
  leaves (stop_all (S:=LS) nodes) (λ _ l, in_order (stopped_servers nodes) l).
Proof. apply leaves_for. intros n. apply leaves_did. Qed.
Lemma leaves_start_all at_ w nodes :
  leaves (start_all (S:=LS) at_ w nodes) (λ _ l, in_order (started_servers at_ w nodes) l).
Proof. apply leaves_for. intros n. apply leaves_did. Qed.
Lemma leaves_restart_all w nodes :
  leaves (restart_all (S:=LS) w nodes) (λ _ l, in_order (restarted_servers w nodes) l).
Proof. apply leaves_for. intros n. apply leaves_did. Qed.
Lemma leaves_clean :
  leaves (clean_coordination_on_all_nodes (S:=LS) clickhouse None) (λ _ l, in_order cleaned l).
Proof. apply leaves_for. intros n. by apply leaves_cmd. Qed.
Lemma leaves_remove_files dir file :
  leaves (remove_files (S:=LS) clickhouse dir file) (λ _ l, in_order (files_removed dir file) l).
Proof. apply leaves_for. intros n. by apply leaves_cmd. Qed.
Lemma leaves_ruok ctx nodes message :
  leaves (check_ruok (S:=LS) ctx nodes message) (λ _ l, in_order (answered (c_port ctx) message nodes) l).
Proof. apply leaves_for. intros n. by apply leaves_cmd. Qed.
Lemma leaves_start_keepers nodes :
  leaves (for_ nodes (start_keeper (S:=LS))) (λ _ l, in_order (keepers_started nodes) l).
Proof.
  apply leaves_for. intros n. apply (leaves_seq _ _ [_]); [by apply leaves_cmd|]. intros _.
  apply (leaves_seq _ _ [_] [_]); [by apply leaves_cmd|]. intros _. by apply leaves_cmd.
Qed.

(** ** Configurations *)

Lemma leaves_make_config e root file dir (Φ : Config → Prop) :
  (∀ uid, without ">"%char uid = true → Φ (create_xml_config_content e file dir root uid)) →
  leaves (make_config (S:=LS) e root file dir) (λ c _, Φ c).
Proof.
  intros HΦ s c s' E. unfold make_config, mbind, M_bind in E.
  destruct (k_getuid s) as [[uid|x|w] s1] eqn:E1; [|done..].
  unfold mret, M_ret in E. simplify_eq. unfold k_getuid, recorded_keeper, unlogged in E1.
  destruct (k_getuid s.1) as [r s2] eqn:E2. simplify_eq. exists []. rewrite app_nil_r.
  split; [done|]. eapply HΦ, uid_plain, E2.
Qed.

Definition undone (o : config_options) (name : string) : list (kitem → Prop) :=
  if o_modify o then [] else [taken o name].

Lemma sets_up_section c o name P : reads c P →
  sets_up (add_config_section (S:=LS) c o (Some name)) [given o P name] (undone o name).
Proof.
  intros HP. apply sets_up_pure, sets_up_yield.
  - apply logs_item. intros []. by exists c.
  - unfold undone. destruct (o_modify o); cbn [negb when]; [apply leaves_ret, in_order_nil|].
    apply logs_item. intros []. by exists c.
Qed.
Lemma sets_up_config e root file dir o name P :
  (∀ uid, without ">"%char uid = true → reads (create_xml_config_content e file dir root uid) P) →
  sets_up (config_on (S:=LS) e root file dir o name) [given o P name] (undone o name).
Proof.
  intros HP. eapply (sets_up_with _ _ (λ c, reads c P)); [by apply leaves_make_config|].
  intros c. apply sets_up_section.
Qed.

Section cluster.
Variables (ctx : keeper_context) (control cluster : list string) (name value : string).
Hypotheses (Hsecure : 0 <= c_secure ctx) (Hctl : Forall (λ n, plain n = true) control).
Hypotheses (Hname : good_name name = true) (Hvalue : plain value = true) (Hssl : plain (c_ssl ctx) = true).

Lemma sets_up_clients dir file check restart modify ssl :
  let o := mkOptions restart modify true check in
  sets_up (create_config_section (S:=LS) clickhouse ctx dir file (Some control) (Some cluster)
             check restart modify ssl)
    (cluster ≫= λ n, [given o (client_reads (if ssl then "9281" else "2181") (str_Z (c_secure ctx)) control) n])
    (files_removed dir file ++ (reverse cluster ≫= undone o)).
Proof.
  intros o. apply sets_up_generator; [|apply leaves_remove_files].
  apply sets_up_for. intros n. apply sets_up_config. intros uid Hu. by apply client_config_reads.
Qed.

Definition numbered {A} (nodes : list A) : list (Z * A) := zip (seqZ 1 (Z.of_nat (length nodes))) nodes.
Definition keepers_given (o : config_options) (port : string) (secure : option string) : list (kitem → Prop) :=
  numbered control ≫= λ x,
    [given o (keeper_reads (port_key (c_tcp_port_secure ctx)) (port_key (negb (c_tcp_port_secure ctx)))
       port (raft_port secure) (option_list secure) control x.1 name value) x.2].
Definition keepers_undone (o : config_options) : list (kitem → Prop) :=
  reverse (numbered control) ≫= λ x, undone o x.2.

Lemma sets_up_numbered (body : Z * string → M (scenario LS) unit) (p : Z * string → kitem → Prop) qs :
  (∀ i n, 0 <= i → sets_up (body (i, n)) [p (i, n)] (qs (i, n))) →
  sets_up (for_ (numbered control) body) (numbered control ≫= λ x, [p x]) (reverse (numbered control) ≫= qs).
Proof.
  intros Hb. unfold numbered. generalize (Z.of_nat (length control)). intros n.
  assert (Hi : Forall (λ x, 0 <= x.1) (zip (seqZ 1 n) control)).
  { apply Forall_forall. intros [i m] Hx. apply elem_of_zip_l, elem_of_seqZ in Hx. simpl. lia. }
  induction Hi as [|[i m] xs Hx Hxs IH]; [apply sets_up_ret|]. cbn [for_].
  rewrite reverse_cons, bind_app. cbn [mbind list_bind]. rewrite app_nil_r.
  apply (sets_up_bind _ _ [_]); [by apply Hb|]. by intros [].
Qed.

Lemma sets_up_keepers tcp_port restart modify check dir file :
  let a := mkKeeperArgs false dir file (Some control) name value check tcp_port restart modify in
  let o := mkOptions restart modify false check in
  0 <= tcp_port →
  sets_up (create_keeper_cluster_configuration (S:=LS) clickhouse ctx a false)
    (keepers_given o (str_Z tcp_port) None) (keepers_undone o).
Proof.
  intros a o Ht. apply sets_up_numbered. intros i n Hi.
  eapply (sets_up_with _ _ (λ c, reads c _)); [|intros c; apply sets_up_section].
  apply leaves_make_config. intros uid Hu.
  by apply (keeper_config_reads _ _ _ _ _ None); [apply plain_Z| | | | | |].
Qed.
Lemma sets_up_keepers_ssl tcp_port restart modify check dir file :
  let a := mkKeeperArgs false dir file (Some control) name value check tcp_port restart modify in
  let o := mkOptions restart modify false check in
  0 <= tcp_port →
  sets_up (create_keeper_cluster_configuration_ssl (S:=LS) clickhouse ctx a)
    (keepers_given o (str_Z tcp_port) (Some (c_ssl ctx))) (files_removed dir file ++ keepers_undone o).
Proof.
  intros a o Ht. apply sets_up_generator; [|apply leaves_remove_files].
  apply sets_up_numbered. intros i n Hi.
  eapply (sets_up_with _ _ (λ c, reads c _)); [|intros c; apply sets_up_section].
  apply leaves_make_config. intros uid Hu.
  apply (keeper_config_reads _ _ _ _ _ (Some (c_ssl ctx))); try done; [by apply plain_Z|].
  by intros t [= <-].
Qed.
End cluster.

(** *** Certificates *)

Definition has_certificate (side : string) (n : node) : Prop :=
  settings ["openSSL"; side; "certificateFile"] n = ["/etc/clickhouse-server/config.d/server.crt"] ∧
  settings ["openSSL"; side; "privateKeyFile"] n = ["/etc/clickhouse-server/config.d/server.key"].
Definition server_certificates (n : node) : Prop := has_certificate "server" n ∧ has_certificate "client" n.
Definition client_certificates (n : node) : Prop :=
  settings ["secure"] n = ["true"] ∧ has_certificate "client" n.
Definition ssl_options : config_options := mkOptions false true true false.

Lemma sets_up_open_ssl :
  sets_up (create_open_ssl (S:=LS) clickhouse server_d "ssl_conf.xml" None)
    (slice 0 13 clickhouse ≫= λ n, [given ssl_options server_certificates n])
    (files_removed server_d "ssl_conf.xml" ++ (reverse (slice 0 13 clickhouse) ≫= undone ssl_options)).
Proof.
  apply sets_up_generator; [|apply leaves_remove_files]. apply sets_up_for. intros n.
  apply sets_up_config. intros uid Hu.
  destruct (settings_read_back (section "openSSL" (VDict _entries_open_ssl)) "ssl_conf.xml" server_d
    "clickhouse" uid) as (d & Hd & Hv); [done..|].
  exists d. split; [done|]. unfold server_certificates, has_certificate. by rewrite !Hv.
Qed.
Lemma sets_up_client_ssl :
  sets_up (create_client_ssl (S:=LS) clickhouse "/etc/clickhouse-client/" "config.xml" None)
    (slice 0 13 clickhouse ≫= λ n, [given ssl_options client_certificates n])
    (files_removed "/etc/clickhouse-client/" "config.xml" ++
     (reverse (slice 0 13 clickhouse) ≫= undone ssl_options)).
Proof.
  apply sets_up_generator; [|apply leaves_remove_files]. apply sets_up_for. intros n.
  apply sets_up_config. intros uid Hu.
  destruct (settings_read_back _entries_client_ssl "config.xml" "/etc/clickhouse-client/"
    "config" uid) as (d & Hd & Hv); [done..|].
  exists d. split; [done|]. unfold client_certificates, has_certificate. by rewrite !Hv.
Qed.

(** ** Clusters *)

(** What [configure_ssl] and [configure_plain] give to the nodes in the
    context [ctx], and how it is undone *)
Definition clients_given (ctx : keeper_context) (ssl : bool) (o : config_options)
    (control cluster : list string) : list (kitem → Prop) :=
  cluster ≫= λ n,
    [given o (client_reads (if ssl then "9281" else "2181") (str_Z (c_secure ctx)) control) n].
Definition configured (ctx : keeper_context) (ssl : bool) (control cluster : list string)
    (name value : string) : list (kitem → Prop) :=
  if ssl then
    clients_given ctx ssl ssl_options control cluster ++
    (slice 0 13 clickhouse ≫= λ n, [given ssl_options server_certificates n]) ++
    (slice 0 13 clickhouse ≫= λ n, [given ssl_options client_certificates n]) ++
    keepers_given ctx control name value (mkOptions false true false false) "9281" (Some (c_ssl ctx))
  else
    clients_given ctx ssl (mkOptions false false true false) control cluster ++
    keepers_given ctx control name value (mkOptions false false false false) "2181" None.
Definition unconfigured (ssl : bool) (control cluster : list string) : list (kitem → Prop) :=
  if ssl then
    files_removed server_d "enable_secure_keeper.xml" ++
    files_removed "/etc/clickhouse-client/" "config.xml" ++
    files_removed server_d "ssl_conf.xml" ++
    files_removed server_d "use_secure_keeper.xml"
  else
    (reverse (numbered control) ≫= λ x, [taken (mkOptions false false false false) x.2]) ++
    files_removed server_d "keeper.xml" ++
    (reverse cluster ≫= λ n, [taken (mkOptions false false true false) n]).

Lemma bind_nil {X Y} (l : list X) : (l ≫= λ _, [] : list Y) = [].
Proof. by induction l. Qed.

Section clusters.
Variables (ctx : keeper_context) (control cluster : list string) (name value : string).
Hypotheses (Hsecure : 0 <= c_secure ctx) (Hctl : Forall (λ n, plain n = true) control).
Hypotheses (Hname : good_name name = true) (Hvalue : plain value = true) (Hssl : plain (c_ssl ctx) = true).

Lemma sets_up_configure (ssl : bool) :
  sets_up (if ssl then configure_ssl (S:=LS) clickhouse ctx control cluster name value
           else configure_plain clickhouse ctx control cluster name value)
    (configured ctx ssl control cluster name value) (unconfigured ssl control cluster).
Proof.
  destruct ssl.
  - eapply sets_up_mono; [done| |].
    2: { apply sets_up_bind; [by apply sets_up_clients|]. intros _.
         apply sets_up_bind; [apply sets_up_open_ssl|]. intros _.
         apply sets_up_bind; [apply sets_up_client_ssl|]. intros _.
         apply (sets_up_keepers_ssl ctx control name value); done || lia. }
    unfold unconfigured, keepers_undone, undone. cbn [o_modify ssl_options].
    rewrite !bind_nil, !app_nil_r. by rewrite <-!app_assoc.
  - eapply sets_up_mono; [done| |].
    2: { apply sets_up_bind; [by apply sets_up_clients|]. intros _.
         apply (sets_up_keepers ctx control name value); done || lia. }
    done.
Qed.

(** What was done when [start_standalone_keeper] returns *)
Definition standalone_done (ssl : bool) : list (kitem → Prop) :=
  stopped_servers cluster ++ stopped_servers control ++ cleaned ++
  configured ctx ssl control cluster name value ++
  keepers_started control ++
  answered (c_port ctx) (if ssl then "F" else "imok") control ++
  started_servers Retried true cluster.
Definition mixed_done (ssl : bool) (rest : list string) : list (kitem → Prop) :=
  stopped_servers cluster ++ cleaned ++
  configured ctx ssl control cluster name value ++
  started_servers Retried false control ++
  answered (c_port ctx) (if ssl then "F" else "imok") control ++
  started_servers Retried true rest.

#[local] Instance cmd_grows n node c chk : Preserves grows (k_cmd (S:=LS) n node c chk).
Proof. apply logs_grows. Qed.
#[local] Instance start_grows n node w : Preserves grows (k_start_clickhouse (S:=LS) n node w).
Proof. apply logs_grows. Qed.
#[local] Instance pause_grows t : Preserves grows (k_sleep (S:=LS) t).
Proof. apply unlogged_grows. Qed.
#[local] Instance stop_keeper_grows n : Preserves grows (stop_keeper (S:=LS) n).
Proof. unfold stop_keeper, retry_cmd, cmd. apply _. Qed.

Lemma sets_up_start_keepers :
  sets_up (start_keepers (S:=LS) clickhouse (Some control) true) (keepers_started control) [].
Proof. apply sets_up_yield; [apply leaves_start_keepers|apply leaves_ret, in_order_nil]. Qed.

Lemma leaves_end_standalone :
  leaves (te (stop_keepers (S:=LS) clickhouse (Some control);;
              for_ control (λ name, k_start_clickhouse Once name false;; k_sleep (sec 5)));;
          clean_coordination_on_all_nodes clickhouse None)
    (λ _ l, in_order cleaned l).
Proof.
  apply (leaves_seq _ _ []); [|intros _; apply leaves_clean]. apply leaves_grows.
  unfold te, stop_keepers. apply _.
Qed.

Lemma sets_up_standalone (ssl : pyval) :
  let b := truth (match ssl with PNone => PStr (c_ssl ctx) | v => v end) in
  sets_up (start_standalone_keeper (S:=LS) clickhouse ctx (Some control) (Some cluster) name value ssl)
    (standalone_done b) (cleaned ++ unconfigured b control cluster).
Proof.
  intros b. unfold start_standalone_keeper. fold b. cbv zeta. cbn [or_slice default].
  apply sets_up_generator; [|apply leaves_end_standalone].
  eapply sets_up_mono; [| |
    apply sets_up_bind; [apply sets_up_act, leaves_seq; [apply leaves_stop_all|]; intros _;
      apply leaves_seq; [apply leaves_stop_all|intros _; apply leaves_clean]|]; intros _;
    apply sets_up_bind; [apply sets_up_configure|]; intros _;
    apply sets_up_then; [apply sets_up_act, leaves_unlogged|]; intros _;
    apply sets_up_bind; [apply sets_up_start_keepers|]; intros _;
    apply sets_up_act, leaves_seq; [apply leaves_ruok|]; intros _; apply leaves_start_all].
  - unfold standalone_done. by rewrite <-!app_assoc.
  - by rewrite !app_nil_r.
Qed.

Lemma sets_up_mixed (ssl : bool) (configure : list string → list string → M (scenario LS) unit)
    (rest : rest_nodes) :
  configure control cluster =
    (if ssl then configure_ssl clickhouse ctx control cluster name value
     else configure_plain clickhouse ctx control cluster name value) →
  sets_up (start_mixed (S:=LS) clickhouse ctx configure (if ssl then "F" else "imok") (Some control)
             (Some cluster) rest)
    (mixed_done ssl match rest with
                    | DefaultRest => slice 0 6 clickhouse | NoRestNodes => [] | RestNodes l => l
                    end)
    (cleaned ++ unconfigured ssl control cluster).
Proof.
  intros Hc. unfold start_mixed. cbv zeta.
  change (or_slice (Some control) 6 9 clickhouse) with control.
  change (or_slice (Some cluster) 0 9 clickhouse) with cluster. rewrite Hc.
  apply sets_up_generator; [|apply leaves_clean].
  eapply sets_up_mono; [| |
    apply sets_up_bind; [apply sets_up_act, leaves_seq; [apply leaves_stop_all|]; intros _;
      apply leaves_clean|]; intros _;
    apply sets_up_bind; [apply sets_up_configure|]; intros _;
    apply sets_up_act, leaves_seq; [apply leaves_start_all|]; intros _;
    apply leaves_seq; [apply leaves_ruok|]; intros _].
  3: { instantiate (1 := started_servers Retried true match rest with
         | DefaultRest => slice 0 6 clickhouse | NoRestNodes => [] | RestNodes l => l end).
       destruct rest; [apply leaves_start_all|apply leaves_ret, in_order_nil|apply leaves_start_all]. }
  - unfold mixed_done. by rewrite <-!app_assoc.
  - by rewrite !app_nil_r.
Qed.
End clusters.

(** The context that the suite sets up with and without [--ssl] *)
Definition keeper_context_of (ssl : bool) : keeper_context :=
  mkContext ssl (if ssl then 1 else 0) (if ssl then "9281" else "2181") (if ssl then "true" else "false").
Lemma suite_context {S' : Type} `{SuiteApi S'} ssl :
  let c := keeper_context_of ssl in
  Suites.set_ssl (S:=S') ssl =
    (set_val "tcp_port_secure" (PBool (c_tcp_port_secure c));;
     set_val "secure" (PInt (c_secure c));;
     let port := set_val "port" (PStr (c_port c)) in
     let ssl_ := set_val "ssl" (PStr (c_ssl c)) in
     if ssl then port;; ssl_ else ssl_;; port).
Proof. by destruct ssl. Qed.

(** The options of the files of clients and of Keepers *)
Definition keeper_client_options (ssl : bool) : config_options := mkOptions false ssl true false.
Definition keeper_options (ssl : bool) : config_options := mkOptions false ssl false false.

(** What the nodes are given for a cluster in the context of the suite with
    [ssl], by steps that take the files of a cluster with TLS when [b]: all
    files name the same nodes and the same port. *)
Definition keeper_port (b : bool) : string := if b then "9281" else "2181".
Definition cluster_given (b ssl : bool) (control cluster : list string) (name value : string)
    : list (kitem → Prop) :=
  (cluster ≫= λ n,
     [given (keeper_client_options b) (client_reads (keeper_port b) (if ssl then "1" else "0") control) n]) ++
  (if b then
     (slice 0 13 clickhouse ≫= λ n, [given ssl_options server_certificates n]) ++
     (slice 0 13 clickhouse ≫= λ n, [given ssl_options client_certificates n])
   else []) ++
  (numbered control ≫= λ x,
     [given (keeper_options b)
        (keeper_reads (if ssl then "tcp_port_secure" else "tcp_port")
           (if ssl then "tcp_port" else "tcp_port_secure") (keeper_port b)
           (if b then "9444" else "44444") (if b then [if ssl then "true" else "false"] else [])
           control x.1 name value) x.2]).

Lemma cluster_configured b ssl control cluster name value :
  configured (keeper_context_of ssl) b control cluster name value =
  cluster_given b ssl control cluster name value.
Proof.
  destruct b, ssl; unfold cluster_given, configured, clients_given; cbv zeta;
    by rewrite <-?app_assoc.
Qed.

(** What the parameter [ssl] of [start_standalone_keeper] says; the texts of
    the context, which its default stands for, are both true. *)
Definition asks_ssl (arg : option bool) : bool := default true arg.
Definition ssl_argument (arg : option bool) : pyval :=
  match arg with Some b => PBool b | None => PNone end.

Section suite.
Variables (ssl : bool) (control_nodes cluster_nodes : option (list string)) (name value : string).
Let ctx := keeper_context_of ssl.
Let answer := if ssl then "F" else "imok".

Lemma context_plain : 0 <= c_secure ctx ∧ plain (c_ssl ctx) = true.
Proof. by destruct ssl. Qed.

(** C15: when [start_standalone_keeper] returns in the context of its suite,
    every server was stopped, the state of the coordination was removed, every
    server that uses Keeper was given a file in which it reads the hosts of
    the Keepers with the port of the files of these Keepers, every Keeper a file
    in which it reads its own number, the same numbered members as the others
    and the setting under test; then all Keepers were started, each answered
    [ruok] on the port of the context, and the servers were started, in this
    order.  At the end of the scenario the state of the coordination is removed
    before the files are.  The parameter [ssl], a boolean, chooses the files and
    the answer; its default [None] stands for the text of the context and
    always chooses those of TLS.  So the Keepers are asked on the port of their
    files exactly when it agrees with the context, as the callers that pass it
    see to; with the default and without [--ssl] they are not. *)
Theorem standalone_is_ready (arg : option bool) :
  let control := or_slice control_nodes 9 12 clickhouse in
  let cluster := or_slice cluster_nodes 0 9 clickhouse in
  let b := asks_ssl arg in
  Forall (λ n, plain n = true) control → good_name name = true → plain value = true →
  sets_up (start_standalone_keeper (S:=LS) clickhouse ctx control_nodes cluster_nodes name value
             (ssl_argument arg))
    (stopped_servers cluster ++ stopped_servers control ++ cleaned ++
     cluster_given b ssl control cluster name value ++
     keepers_started control ++ answered (c_port ctx) (if b then "F" else "imok") control ++
     started_servers Retried true cluster)
    (cleaned ++ unconfigured b control cluster) ∧
  (c_port ctx = keeper_port b ↔ b = ssl).
Proof.
  intros control cluster b Hc Hn Hv. destruct context_plain as [Hs Hp].
  split; [|by unfold ctx; destruct b, ssl].
  assert (Hb : (λ v, truth (match v with PNone => PStr (c_ssl ctx) | v => v end)) (ssl_argument arg) = b).
  { unfold ctx, b. by destruct arg as [[]|], ssl. }
  cbv beta in Hb.
  pose proof (sets_up_standalone ctx control cluster name value Hs Hc Hn Hv Hp (ssl_argument arg)) as Hx.
  rewrite <-cluster_configured, <-Hb. exact Hx.
Qed.

(** when [start_mixed_ch_keeper] returns, the same holds for Keepers that
    are servers themselves: after the state of the coordination was removed
    and all files were given, these servers were started, without waiting for
    them, each answered [ruok], and the rest of the servers were started. *)
Lemma mixed_is_ready (rest : rest_nodes) :
  let control := or_slice control_nodes 6 9 clickhouse in
  let cluster := or_slice cluster_nodes 0 9 clickhouse in
  Forall (λ n, plain n = true) control →
  sets_up (start_mixed_ch_keeper (S:=LS) clickhouse ctx control_nodes cluster_nodes rest)
    (stopped_servers cluster ++ cleaned ++
     cluster_given ssl ssl control cluster "startup_timeout" "30000" ++
     started_servers Retried false control ++ answered (c_port ctx) answer control ++
     started_servers Retried true
       match rest with DefaultRest => slice 0 6 clickhouse | NoRestNodes => [] | RestNodes l => l end)
    (cleaned ++ unconfigured ssl control cluster).
Proof.
  intros control cluster Hc. destruct context_plain as [Hs Hp].
  assert (start_mixed_ch_keeper (S:=LS) clickhouse ctx control_nodes cluster_nodes rest =
    start_mixed clickhouse ctx
      (if ssl then λ c k, configure_ssl clickhouse ctx c k "startup_timeout" "30000"
       else λ c k, configure_plain clickhouse ctx c k "startup_timeout" "30000")
      answer (Some control) (Some cluster) rest) as ->
    by (unfold ctx, answer; by destruct ssl).
  eapply sets_up_mono; [| |
    eapply (sets_up_mixed ctx control cluster "startup_timeout" "30000" Hs Hc eq_refl eq_refl Hp ssl)].
  - unfold mixed_done. by rewrite <-cluster_configured.
  - done.
  - by destruct ssl.
Qed.
End suite.

(** *** A Keeper for every shard *)

Section shards.
Variable ctx : keeper_context.
Hypotheses (Hsecure : 0 <= c_secure ctx) (Hssl : plain (c_ssl ctx) = true).
Hypothesis Hnodes : Forall (λ n, plain n = true) clickhouse.

Definition shard_keeper_options : config_options := mkOptions true false false true.
Definition shard_client_options : config_options := mkOptions true false true true.
(** The Keepers of the servers [a] to [b], whose clients are these servers *)
Definition shard_keepers (a b : nat) : list (kitem → Prop) :=
  keepers_given ctx (slice a b clickhouse) "startup_timeout" "30000" shard_keeper_options "2181" None.
Definition shard_ready (a b : nat) : list (kitem → Prop) :=
  shard_keepers a b ++
  clients_given ctx false shard_client_options (slice a b clickhouse) (slice a b clickhouse) ++
  restarted_servers false (slice a b clickhouse).
Definition shard_undone (a b : nat) : list (kitem → Prop) :=
  (files_removed server_d "keeper.xml" ++
   (reverse (slice a b clickhouse) ≫= λ n, [taken shard_client_options n])) ++
  (reverse (numbered (slice a b clickhouse)) ≫= λ x, [taken shard_keeper_options x.2]).

Lemma slice_plain a b : Forall (λ n, plain n = true) (slice a b clickhouse).
Proof. by apply Forall_take, Forall_drop. Qed.

Lemma sets_up_keepers_of a b :
  sets_up (keepers_of (S:=LS) clickhouse ctx a b) (shard_keepers a b)
    (reverse (numbered (slice a b clickhouse)) ≫= λ x, [taken shard_keeper_options x.2]).
Proof.
  by apply (sets_up_keepers ctx (slice a b clickhouse) "startup_timeout" "30000"); [apply slice_plain| | |].
Qed.
Lemma sets_up_pause (b : bool) : sets_up (act (when b (k_sleep (S:=LS) (sec 10)))) [] [].
Proof. apply sets_up_act. destruct b; [apply leaves_unlogged|apply leaves_ret, in_order_nil]. Qed.
Lemma sets_up_shard pause a b :
  sets_up (own_keeper (S:=LS) clickhouse ctx pause a b) (shard_ready a b) (shard_undone a b).
Proof.
  unfold own_keeper, shard_ready, shard_undone. apply sets_up_then; [apply sets_up_pause|]. intros _.
  eapply sets_up_mono; [done| |apply sets_up_bind; [apply sets_up_keepers_of|]; intros _;
    apply sets_up_then; [apply sets_up_pause|]; intros _;
    apply sets_up_bind; [by apply sets_up_clients; [|apply slice_plain]|]; intros _;
    apply sets_up_act, leaves_restart_all].
  done.
Qed.

(** When [start_different_keeper] returns, each shard of three servers was
    given Keepers of its own, one of them on every server, its servers were
    told to use just these, on the port they listen on, and were restarted,
    shard by shard; and [start_different_shared_keeper] gives every shard its
    Keepers and then tells all nine servers to use those of the last shard.
    All of it is undone in the opposite order, after the state of the
    coordination was removed. *)
Lemma different_keepers_are_ready :
  sets_up (start_different_keeper (S:=LS) clickhouse ctx)
    (shard_ready 0 3 ++ shard_ready 3 6 ++ shard_ready 6 9)
    (cleaned ++ shard_undone 6 9 ++ shard_undone 3 6 ++ shard_undone 0 3) ∧
  sets_up (start_different_shared_keeper (S:=LS) clickhouse ctx)
    (shard_keepers 0 3 ++ shard_keepers 3 6 ++ shard_keepers 6 9 ++
     clients_given ctx false shard_client_options (slice 6 9 clickhouse) (slice 0 9 clickhouse) ++
     restarted_servers false (slice 0 9 clickhouse))
    (cleaned ++ files_removed server_d "keeper.xml").
Proof.
  assert (Hc : ∀ control cluster, Forall (λ n, plain n = true) control →
    sets_up (clients_of (S:=LS) clickhouse ctx control cluster)
      (clients_given ctx false shard_client_options control cluster)
      (files_removed server_d "keeper.xml" ++ (reverse cluster ≫= undone shard_client_options))).
  { intros control cluster Hp. by apply sets_up_clients. }
  split; (apply sets_up_generator; [|apply leaves_clean]).
  - eapply sets_up_mono; [done| |apply sets_up_bind; [apply sets_up_shard|]; intros _;
      apply sets_up_bind; [apply sets_up_shard|]; intros _; apply sets_up_shard].
    by rewrite <-app_assoc.
  - eapply sets_up_sublist; [reflexivity| |
      do 3 (apply sets_up_then; [apply (sets_up_pause true)|]; intros _;
            apply sets_up_bind; [apply sets_up_keepers_of|]; intros _);
      apply sets_up_bind; [apply Hc, slice_plain|]; intros _;
      apply sets_up_act, leaves_restart_all].
    rewrite <-!app_assoc. cbn [app]. by apply sublist_inserts_r.
Qed.
End shards.

(** without [--ssl], [start_standalone_keeper] with its default for [ssl]
    takes the text "false" for true: it lets the Keepers listen on port 9281,
    without TLS, and returns only when something answers "F" on port 2181. *)
Lemma standalone_default_asks_elsewhere (control cluster : list string) (name value : string) :
  Forall (λ n, plain n = true) control → good_name name = true → plain value = true →
  sets_up (start_standalone_keeper (S:=LS) clickhouse (keeper_context_of false) (Some control)
             (Some cluster) name value PNone)
    ((numbered control ≫= λ x,
        [given (keeper_options true)
           (keeper_reads "tcp_port" "tcp_port_secure" "9281" "9444" ["false"] control x.1 name value) x.2]) ++
     answered "2181" "F" control)
    [].
Proof.
  intros Hc Hn Hv. eapply sets_up_sublist;
    [| |by apply (sets_up_standalone (keeper_context_of false) control cluster name value)].
  - change (truth match PNone with PNone => PStr (c_ssl (keeper_context_of false)) | v => v end)
      with true. unfold standalone_done, configured. do 3 apply sublist_inserts_l.
    apply sublist_app.
    + do 3 apply sublist_inserts_l. done.
    + apply sublist_inserts_l, sublist_inserts_r. done.
  - apply sublist_nil_l.
Qed.
End order.

(** ** The cluster implements the interface *)

Section implementation.
Context {W : Type} `{Env W, Retrying W, TerminalEnv W} (fuel : nat) (debug : bool) (cl : config).
(** testflows' [retry] with a timeout and a delay, the [uuid] of [getuid],
    the parts of the context and of testflows that the steps use *)
Variables (retry_for : ∀ A, Z → Z → M (st W) A → M (st W) A) (uuid context_node current_time : M (st W) string).
Variables (terminating parent_result : M (st W) bool) (host_shell : string → M (st W) shell_result).
Variables (metric : string → string → string → M (st W) unit) (parallel_error : exn → M (st W) unit)
  (untested_step : M (st W) unit).
#[local] Instance nodes_of_cluster : NodeApi (st W) := cluster_api fuel cl.

Definition tried {A} (n : attempts) (m : M (st W) A) : M (st W) A :=
  match n with Once => m | Retried => retry_for A (sec 100) (sec 1) m end.
Definition server_log : string := "/var/log/clickhouse-server/clickhouse-server.log".

Definition keeper_on_cluster : KeeperApi (st W) := {|
  k_getuid := u ← uuid; mret (getuid (λ s, s) (λ s, s) false EmptyString u false);
  k_context_node := context_node;
  k_install n c o :=
    install_config fuel debug n c (sec 300) (o_restart o) (o_check_preprocessed o) (o_wait_healthy o) None;
  k_remove n c o := remove_config fuel debug n c (sec 300) (o_restart o) (o_wait_healthy o);
  k_add_invalid_config n c r m tail t restart := add_invalid_config fuel debug n c m r tail t restart None;
  k_log_size n := r ← log_size n server_log;
    mret (if String.eqb (output r) ("stat: cannot stat '" +:+ server_log +:+ "': No such file or directory")
          then "0" else first_word (output r));
  k_log_mark n t := log_mark n server_log "start" t;
  k_log_end n t size dump :=
    end_of_log debug terminating parent_result n server_log t size dump;; mret tt;
  k_cmd at_ n c chk := tried at_
    (Query.cmd fuel cl n c (cc_message chk) (cc_exitcode chk) "bash --noediting" (cc_no_checks chk) None);
  k_query at_ n sql a := tried at_ (query fuel cl n sql a);
  k_stop_clickhouse at_ n safe := tried at_ (stop_clickhouse fuel cl n safe);
  k_start_clickhouse at_ n w := tried at_ (start_clickhouse fuel cl n (sec 300) w None false);
  k_restart_clickhouse n w := restart_clickhouse fuel cl n (sec 300) true w None;
  k_stop n := match node_class_of cl n with
              | ZooKeeper => ZooKeeperNode_stop fuel cl n (sec 300) 5
              | ClickHouse => ClickHouseNode_stop fuel cl n (sec 300) true 5
              | PlainNode => Node_stop fuel cl n (sec 300) 5
              end;
  k_sleep t := sleep t;
  k_shell c := host_shell c;
  k_metric := metric;
  k_current_time := current_time;
  k_parallel_error := parallel_error;
  k_untested_step := untested_step;
  k_absorbs := env_absorbs (W:=W)
|}.

(** [cmd] returns only a result that passed its checks. *)
Lemma cmd_checked n c m e sh t (s : st W) r s' :
  Query.cmd fuel cl n c m e sh false t s = (Ok r, s') → checked (mkCheck e m false) r.
Proof.
  unfold Query.cmd. intros E. unfold mbind, M_bind in E.
  destruct (run_bash _ _ _ _ _ _ s) as [[a|x|w] s1]; [|done..].
  destruct (match e with Some n => assert_ (exitcode a =? n) (output a) | None => mret tt end s1)
    as [[u|x|w] s2] eqn:E1; [|done..].
  destruct (match m with Some m => assert_ (contains m (output a)) (output a) | None => mret tt end s2)
    as [[u'|x|w] s3] eqn:E2; [|done..].
  unfold mret, M_ret in E. simplify_eq. split; simpl.
  - intros k ->. unfold assert_ in E1. by destruct (Z.eqb_spec (exitcode r) k).
  - intros k ->. unfold assert_ in E2. by destruct (contains k (output r)).
Qed.

(** With a [retry] that returns only what an attempt returned, and UUIDs
    without the character that ends a comment, the laws hold. *)
Lemma keeper_on_cluster_laws :
  (∀ A t d m s (a : A) s', retry_for A t d m s = (Ok a, s') → ∃ s1, m s1 = (Ok a, s')) →
  (∀ s u s', uuid s = (Ok u, s') → without ">"%char (replace "-" "_" u) = true) →
  @KeeperLaws (st W) keeper_on_cluster.
Proof.
  intros Hretry Huuid. constructor.
  - intros s u s' E. cbn [k_getuid keeper_on_cluster] in E. unfold mbind, M_bind in E.
    destruct (uuid s) as [[v|x|w] s1] eqn:E1; [|done..]. unfold mret, M_ret in E. simplify_eq.
    by eapply Huuid.
  - intros at_ n c [e m nc] s r s' E Hnc. simpl in Hnc. subst nc. cbn [k_cmd keeper_on_cluster] in E.
    destruct at_; cbn [tried] in E; [by eapply cmd_checked|].
    apply Hretry in E as [s1 E]. by eapply cmd_checked.
Qed.
End implementation.

(** ** Witnesses: nodes that do what they are asked *)

Definition demo_keeper : KeeperApi unit :=
  let ok : M unit unit := mret tt in {|
  k_getuid := mret "u_1"; k_context_node := mret "clickhouse1";
  k_install _ _ _ := ok; k_remove _ _ _ := ok; k_add_invalid_config _ _ _ _ _ _ _ := ok;
  k_log_size _ := mret "0"; k_log_mark _ _ := ok; k_log_end _ _ _ _ := ok;
  k_cmd _ _ _ c := mret (mkResult (default 0 (cc_exitcode c)) (default EmptyString (cc_message c)));
  k_query _ _ _ _ := mret (mkResult 0 EmptyString);
  k_stop_clickhouse _ _ _ := ok; k_start_clickhouse _ _ _ := ok; k_restart_clickhouse _ _ := ok;
  k_stop _ := ok; k_sleep _ := ok; k_shell _ := mret (mkResult 0 EmptyString);
  k_metric _ _ _ := ok; k_current_time := mret "0"; k_parallel_error _ := ok; k_untested_step := ok;
  k_absorbs _ := false
|}.
Lemma demo_keeper_laws : @KeeperLaws unit demo_keeper.
Proof.
  constructor.
  - by intros s u s' [= <- <-].
  - intros n node c [e m nc] s r s' [= <- <-] _. split; simpl; [by intros k ->|].
    intros k ->. apply contains_refl.
Qed.

Definition thirteen : list string := (λ n, "clickhouse" +:+ str_Z n) <$> seqZ 1 13.
(** A step that returns *)
Definition returns_ok (m : M (scenario (logged kitem unit)) unit) : Prop :=
  (m ((tt, []), [])).1 = Ok tt.

Lemma standalone_is_ready_witness :
  let step := @start_standalone_keeper _ (recorded_keeper demo_keeper) thirteen (keeper_context_of true)
    None None "startup_timeout" "30000" (PBool true) in
  returns_ok step ∧
  sets_up step
    (stopped_servers (slice 0 9 thirteen) ++ stopped_servers (slice 9 12 thirteen) ++ cleaned thirteen ++
     cluster_given thirteen true true (slice 9 12 thirteen) (slice 0 9 thirteen) "startup_timeout" "30000" ++
     keepers_started (slice 9 12 thirteen) ++ answered "9281" "F" (slice 9 12 thirteen) ++
     started_servers Retried true (slice 0 9 thirteen))
    (cleaned thirteen ++ unconfigured thirteen true (slice 9 12 thirteen) (slice 0 9 thirteen)).
Proof.
  split; [reflexivity|].
  exact (proj1 (@standalone_is_ready unit demo_keeper demo_keeper_laws thirteen true None None
    "startup_timeout" "30000" (Some true) ltac:(by apply (bool_decide_unpack _)) eq_refl eq_refl)).
Defined.

Lemma mixed_is_ready_witness :
  let step := @start_mixed_ch_keeper _ (recorded_keeper demo_keeper) thirteen (keeper_context_of false)
    None None NoRestNodes in
  returns_ok step ∧
  sets_up step
    (stopped_servers (slice 0 9 thirteen) ++ cleaned thirteen ++
     cluster_given thirteen false false (slice 6 9 thirteen) (slice 0 9 thirteen) "startup_timeout" "30000" ++
     started_servers Retried false (slice 6 9 thirteen) ++ answered "2181" "imok" (slice 6 9 thirteen) ++ [])
    (cleaned thirteen ++ unconfigured thirteen false (slice 6 9 thirteen) (slice 0 9 thirteen)).
Proof.
  split; [reflexivity|].
  exact (@mixed_is_ready unit demo_keeper demo_keeper_laws thirteen false None None NoRestNodes
    ltac:(by apply (bool_decide_unpack _))).
Defined.

Lemma standalone_default_asks_elsewhere_witness :
  let step := @start_standalone_keeper _ (recorded_keeper demo_keeper) thirteen (keeper_context_of false)
    (Some ["clickhouse10"]) (Some ["clickhouse1"]) "startup_timeout" "30000" PNone in
  returns_ok step ∧
  sets_up step
    [given (keeper_options true)
       (keeper_reads "tcp_port" "tcp_port_secure" "9281" "9444" ["false"] ["clickhouse10"] 1
          "startup_timeout" "30000") "clickhouse10";
     ran Retried "bash-tools" "echo ruok | nc clickhouse10 2181" (says 0 "F")]
    [].
Proof.
  split; [reflexivity|].
  exact (@standalone_default_asks_elsewhere unit demo_keeper demo_keeper_laws thirteen
    ["clickhouse10"] ["clickhouse1"] "startup_timeout" "30000" ltac:(by apply (bool_decide_unpack _)) eq_refl eq_refl).
Defined.

Lemma different_keepers_are_ready_witness :
  let ready := shard_ready thirteen (keeper_context_of false) in
  let step := @start_different_keeper _ (recorded_keeper demo_keeper) thirteen (keeper_context_of false) in
  returns_ok step ∧
  sets_up step (ready 0%nat 3%nat ++ ready 3%nat 6%nat ++ ready 6%nat 9%nat)
    (cleaned thirteen ++ shard_undone thirteen 6 9 ++ shard_undone thirteen 3 6 ++ shard_undone thirteen 0 3).
Proof.
  split; [reflexivity|].
  apply (@different_keepers_are_ready unit demo_keeper demo_keeper_laws thirteen (keeper_context_of false)
    ltac:(done) ltac:(by apply (bool_decide_unpack _))).
Defined.
