(* ===== verification/Ldap.v ===== *)
(** * The LDAP directories of the ldap suites

    The functions of ldap/authentication/tests/common.py and
    ldap/role_mapping/tests/common.py that change the directory of an LDAP
    server: users, groups and who belongs to them.  They write LDIF for the
    tools of OpenLDAP.  A server is a parameter that applies the changes that
    it reads in the LDIF, or refuses them; a reader of LDIF and what its changes
    do to a directory are the reference. *)
From stdpp Require Import gmap.
From Stdlib Require Import Ascii.
From S2P Require Import Prelude PyStr PyDict PyMonad World Cluster NodeLog Steps.
Local Open Scope Z_scope.

(** ** Entries and their LDIF *)

(** The dictionaries that describe users and groups *)
Inductive value := VStr (s : string) | VInt (n : Z) | VStrs (l : list string).
Abbreviation object := (dict string value).

(** The keyword arguments of [add_user_to_ldap] *)
Record new_user := mkNewUser {
  nu_cn : string; nu_userpassword : string; nu_givenname : option string;
  nu_homedirectory : option string; nu_sn : option string; nu_uid : option string;
  nu_uidnumber : option Z
}.
Definition simple_user (cn userpassword : string) : new_user :=
  mkNewUser cn userpassword None None None None None.

Definition entry_dn (ou cn : string) : string :=
  "cn=" +:+ cn +:+ ",ou=" +:+ ou +:+ ",dc=company,dc=com".
Definition user_dn : string → string := entry_dn "users".
Definition group_dn : string → string := entry_dn "groups".

Definition user_object (u : new_user) (node : string) : object := [
  ("dn", VStr (user_dn (nu_cn u)));
  ("cn", VStr (nu_cn u));
  ("gidnumber", VInt 501);
  ("givenname", VStr (default "John" (nu_givenname u)));
  ("homedirectory", VStr (default "/home/users" (nu_homedirectory u)));
  ("objectclass", VStrs ["inetOrgPerson"; "posixAccount"; "top"]);
  ("sn", VStr (default "User" (nu_sn u)));
  ("uid", VStr (default (nu_cn u) (nu_uid u)));
  ("uidnumber", VInt (default 2000 (nu_uidnumber u)));
  ("userpassword", VStr (nu_userpassword u));
  ("_server", VStr node)
].
Definition group_object (cn node : string) : object := [
  ("dn", VStr (group_dn cn));
  ("objectclass", VStrs ["top"; "groupOfUniqueNames"]);
  ("uniquemember", VStr "cn=admin,dc=company,dc=com");
  ("_server", VStr node)
].

(** The lines of an object, names and values: keys that start with an
    underscore are left out, a list (for users [objectclass], the only one)
    takes a line for each of its items. *)
Definition value_texts (v : value) : list string :=
  match v with VStr s => [s] | VInt n => [str_Z n] | VStrs l => l end.
Definition object_lines (o : object) : list (string * string) :=
  o ≫= λ kv, if startswith "_" kv.1 then [] else (λ t, (kv.1, t)) <$> value_texts kv.2.
Definition line (av : string * string) : string := av.1 +:+ ": " +:+ av.2.
Definition ldif (l : list (string * string)) : string := join nl (line <$> l).

(** [echo -e "{ldif}" | tool -x ...] and [ldapdelete] *)
Definition as_admin : string :=
  " -x -H ldap://localhost -D " +:+ q "cn=admin,dc=company,dc=com" +:+ " -w admin".
Definition ldap_tool (tool ldif : string) : string :=
  "echo -e " +:+ q ldif +:+ " | " +:+ tool +:+ as_admin.
Definition ldapdelete (dn : string) : string := "ldapdelete" +:+ as_admin +:+ " " +:+ q dn.

Example ldif_1 :
  ldif (object_lines (group_object "g" "openldap1")) =
  "dn: cn=g,ou=groups,dc=company,dc=com" +:+ nl +:+ "objectclass: top" +:+ nl +:+
  "objectclass: groupOfUniqueNames" +:+ nl +:+ "uniquemember: cn=admin,dc=company,dc=com".
Proof. by_compute. Qed.

(** The records of changes, as the functions write them *)
Definition modify_ldif (op dn attr v : string) : string :=
  ldif [("dn", dn); ("changetype", "modify"); (op, attr); (attr, v)].
Definition rename_ldif (dn cn : string) : string :=
  ldif [("dn", dn); ("changetype", "modrdn"); ("newrdn", "cn = " +:+ cn); ("deleteoldrdn", "1")] +:+ nl.

(** ** The operations *)

(** [_gidnumber], the list that is the default of a parameter and keeps its
    number between the calls of [add_group_to_ldap] *)
Class GidCounter (S : Type) := { gid_get : S → Z; gid_set : Z → S → S }.

(** What a computation ended with, as a value *)
Definition outcome {S A} (m : M S A) : M S (res A) := λ s,
  match m s with (Stuck w, s') => (Stuck w, s') | (r, s') => (Ok r, s') end.

Section operations.
Context {S : Type} `{NodeApi S, GidCounter S}.
(** [current().context.ldap_node] *)
Variable ldap_node : string.
Abbreviation M := (M S).

Definition run_on (node : option string) (command : string) : M shell_result :=
  api_command (Some (default ldap_node node)) command args0.
(** [if exitcode is not None: assert r.exitcode == exitcode] *)
Definition check_exit (wanted : option Z) (r : shell_result) : M unit :=
  match wanted with None => mret tt | Some n => assert_ (exitcode r =? n) EmptyString end.

(** [user['dn']] and other keys whose values are texts *)
Definition field (k : string) (o : object) : M string :=
  lift (match dget k o with
        | Some (VStr s) => Ok s | Some _ => Exc (TypeError k) | None => Exc (KeyError k)
        end).

Definition add_user_to_ldap (u : new_user) (node : option string) : M object :=
  let user := user_object u (default ldap_node node) in
  r ← run_on node (ldap_tool "ldapadd" (ldif (object_lines user)));
  assert_ (exitcode r =? 0) EmptyString;;
  mret user.

(** [delete_user_from_ldap] and [delete_group_from_ldap] *)
Definition delete_from_ldap (o : object) (node : option string) (wanted : option Z) : M unit :=
  dn ← field "dn" o;
  r ← run_on node (ldapdelete dn);
  check_exit wanted r.

Definition change_user_password_in_ldap (user : object) (new_password : string)
    (node : option string) (wanted : option Z) : M unit :=
  dn ← field "dn" user;
  r ← run_on node (ldap_tool "ldapmodify" (modify_ldif "replace" dn "userpassword" new_password));
  check_exit wanted r.

Definition change_user_cn_in_ldap (user : object) (new_cn : string) (node : option string)
    (wanted : option Z) : M object :=
  let new_user := dset "cn" (VStr new_cn) (dset "dn" (VStr (user_dn new_cn)) user) in
  dn ← field "dn" user;
  r ← run_on node (ldap_tool "ldapmodify" (rename_ldif dn new_cn));
  check_exit wanted r;;
  mret new_user.

Definition next_gidnumber : M Z := modify (λ s, gid_set (gid_get s + 1) s);; gets gid_get.

(** The number of the group is not written into its entry. *)
Definition add_group_to_ldap (cn : string) (gidnumber : option Z) (node : option string)
    (wanted : option Z) : M object :=
  n ← next_gidnumber;
  let gidnumber := default n gidnumber in
  let group := group_object cn (default ldap_node node) in
  r ← run_on node (ldap_tool "ldapadd" (ldif (object_lines group)));
  check_exit wanted r;;
  mret group.

(** [add_user_to_group_in_ldap] and [delete_user_from_group_in_ldap] *)
Definition change_membership (op : string) (user group : object) (node : option string)
    (wanted : option Z) : M unit :=
  group ← field "dn" group;
  user ← field "dn" user;
  r ← run_on node (ldap_tool "ldapmodify" (modify_ldif op group "uniquemember" user));
  check_exit wanted r.
Definition add_user_to_group_in_ldap : object → object → option string → option Z → M unit :=
  change_membership "add".
Definition delete_user_from_group_in_ldap : object → object → option string → option Z → M unit :=
  change_membership "delete".

(** The text keeps its backslashes for the shell. *)
Definition fix_ldap_permissions (node : option string) (wanted : option Z) : M unit :=
  let by_admin := " by dn=\" +:+ q "cn=admin,dc=company,dc=com\" +:+ " write" in
  let ldif :=
    "dn: olcDatabase={1}mdb,cn=config" +:+ nl +:+ "changetype: modify" +:+ nl +:+
    "delete: olcAccess" +:+ nl +:+ "-" +:+ nl +:+ "add: olcAccess" +:+ nl +:+
    "olcAccess: to attrs=userPassword,shadowLastChange by self write" +:+ by_admin +:+
    " by anonymous auth by * none" +:+ nl +:+
    "olcAccess: to * by self write" +:+ by_admin +:+ " by users read by * none" in
  r ← run_on node ("echo -e " +:+ q ldif +:+ " | ldapmodify -Y EXTERNAL -Q -H ldapi:///");
  check_exit wanted r.

(** *** Users and groups for the time of a test *)

Definition ldap_user {A} (u : new_user) (node : option string) (body : object → M A) : M A :=
  user ← outcome (add_user_to_ldap u node);
  try_finally (user ← lift user; body user)
    (match user with Ok user => delete_from_ldap user node (Some 0) | _ => mret tt end).

(** [for x in xs: ys.append(add(x))]: the list, and how the loop ended *)
Fixpoint gather {X Y} (add : X → M Y) (xs : list X) (ys : list Y) : M (list Y * res unit) :=
  match xs with
  | [] => mret (ys, Ok tt)
  | x :: xs =>
      y ← outcome (add x);
      match y with
      | Ok y => gather add xs (ys ++ [y])
      | Exc e => mret (ys, Exc e)
      | Stuck w => mret (ys, Stuck w)
      end
  end.
(** [try: ys = []; for x in xs: ys.append(add(x)); yield ys;
    finally: for y in ys: delete(y)] *)
Definition for_the_test {X Y A} (add : X → M Y) (delete : Y → M unit) (xs : list X)
    (body : list Y → M A) : M A :=
  '(ys, ended) ← gather add xs [];
  try_finally (lift ended;; body ys) (for_ ys delete).

Definition ldap_users {A} (users : list new_user) (node : option string) (body : list object → M A)
    : M A :=
  for_the_test (λ u, add_user_to_ldap u node) (λ u, delete_from_ldap u node (Some 0)) users body.
Definition add_ldap_users {A} (users : list new_user) (node : option string)
    (body : list object → M A) : M A :=
  ldap_users users node body.
(** Groups are given by their [cn] and, it may be, a [gidnumber]. *)
Definition add_ldap_groups {A} (groups : list (string * option Z)) (node : option string)
    (body : list object → M A) : M A :=
  for_the_test (λ g, add_group_to_ldap g.1 g.2 node (Some 0))
    (λ g, delete_from_ldap g node (Some 0)) groups body.
End operations.

(** ** Directories

    The attributes of an entry have sets of values; the entries of a directory
    are known by their names. *)
Abbreviation attributes := (gmap string (gset string)).
Abbreviation directory := (gmap string attributes).

Definition add_value (a v : string) (e : attributes) : attributes :=
  <[a := {[v]} ∪ default ∅ (e !! a)]> e.
Definition remove_value (a v : string) (e : attributes) : attributes :=
  <[a := default ∅ (e !! a) ∖ {[v]}]> e.
Definition entry_of (l : list (string * string)) : attributes :=
  foldr (λ av, add_value av.1 av.2) ∅ l.

(** A change to a directory, and its effect; [None] when there is nothing to
    change or the change is already there *)
Inductive change :=
  | Add (dn : string) (e : attributes)
  | Replace (dn attr v : string)
  | AddValue (dn attr v : string)
  | DeleteValue (dn attr v : string)
  | Rename (dn attr v : string).

(** What follows the first comma of a name *)
Definition parent (dn : string) : string := after_first "," dn.
(** The value of the first component of a name *)
Definition rdn_value (dn : string) : string :=
  match cut_first "," dn with Some (rdn, _) => after_first "=" rdn | None => after_first "=" dn end.

Definition apply_change (c : change) (d : directory) : option directory :=
  match c with
  | Add dn e => match d !! dn with None => Some (<[dn := e]> d) | Some _ => None end
  | Replace dn a v => e ← d !! dn; Some (<[dn := <[a := {[v]}]> e]> d)
  | AddValue dn a v =>
      e ← d !! dn;
      if bool_decide (v ∈ default ∅ (e !! a)) then None else Some (<[dn := add_value a v e]> d)
  | DeleteValue dn a v =>
      e ← d !! dn;
      if bool_decide (v ∈ default ∅ (e !! a)) then Some (<[dn := remove_value a v e]> d) else None
  | Rename dn a v =>
      e ← d !! dn;
      let new := a +:+ "=" +:+ v +:+ "," +:+ parent dn in
      match d !! new with
      | None => Some (<[new := add_value a v (remove_value a (rdn_value dn) e)]> (delete dn d))
      | Some _ => None
      end
  end.

(** ** Reading LDIF *)

Fixpoint drop_spaces (s : string) : string :=
  match s with String c s' => if Ascii.eqb c " " then drop_spaces s' else s | _ => s end.
Definition one_of (l : list ascii) (c : ascii) : bool := existsb (Ascii.eqb c) l.
(** A value that begins with one of these is written otherwise. *)
Definition safe_start (s : string) : bool :=
  match s with String c _ => negb (one_of [":"; "<"]%char c) | EmptyString => true end.
Definition read_line (s : string) : option (string * string) :=
  if startswith " " s then None else
  '(a, v) ← cut_first ":" s;
  let v := drop_spaces v in
  if safe_start v then Some (a, v) else None.

(** The lines of a record: those before the first that is empty *)
Fixpoint record_lines (l : list string) : list string :=
  match l with
  | [] => []
  | s :: l => if String.eqb s EmptyString then [] else s :: record_lines l
  end.
Definition read_record (s : string) : option (list (string * string)) :=
  mapM read_line (record_lines (split nl s)).

Definition read_modify (dn op a b v : string) : option change :=
  if String.eqb a b then
    match op with
    | "replace" => Some (Replace dn a v)
    | "add" => Some (AddValue dn a v)
    | "delete" => Some (DeleteValue dn a v)
    | _ => None
    end
  else None.
Definition read_rename (dn rdn : string) : option change :=
  '(a, v) ← cut_first "=" rdn; Some (Rename dn (strip a) (strip v)).

Definition read_typed (dn kind : string) (l : list (string * string)) : option change :=
  match l with
  | [(op, a); (b, v)] =>
      if String.eqb kind "modify" then read_modify dn op a b v
      else if String.eqb kind "modrdn" && String.eqb op "newrdn" && String.eqb b "deleteoldrdn" &&
              String.eqb v "1" then read_rename dn a
      else None
  | _ => None
  end.

(** The change of a record: adding an entry, which needs no [changetype], one
    modification, or a new name that takes the place of the old one; others are
    not read. *)
Definition read_change (s : string) : option change :=
  l ← read_record s;
  match l with
  | (k, dn) :: (a, v) :: l =>
      if negb (String.eqb k "dn") then None
      else if String.eqb a "changetype" then read_typed dn v l
      else Some (Add dn (entry_of ((a, v) :: l)))
  | _ => None
  end.
(** The tool that makes the change *)
Definition tool_of (c : change) : string :=
  match c with Add _ _ => "ldapadd" | _ => "ldapmodify" end.

(** Texts that a shell leaves as they are between double quotes, and [echo -e]
    prints as they are *)
Definition shell_plain : string → bool :=
  str_forallb (λ c, negb (one_of [ascii_of_nat 34; "$"; "`"; "\"; "!"]%char c)).
(** Values that can be written as they are *)
Definition good_value (s : string) : bool :=
  shell_plain s && lacks (ascii_of_nat 10) s && safe_start s && negb (startswith " " s).
(** Names of users and groups that need no escapes in a distinguished name *)
Definition good_cn (s : string) : bool :=
  str_forallb (λ c, negb (is_space c ||
    one_of [ascii_of_nat 34; "$"; "`"; "\"; "!"; ","; "="; ":"; "+"; "<"; ">"; ";"; "#"]%char c)) s &&
  negb (String.eqb s EmptyString).

(** ** Reading what the functions write *)

Lemma drop_spaces_good s : startswith " " s = false → drop_spaces s = s.
Proof.
  destruct s as [|c s]; [done|]. unfold startswith. rewrite prefix_cons, prefix_nil, andb_true_r.
  intros Hc. simpl. rewrite Ascii.eqb_sym. by rewrite Hc.
Qed.

(** Names of attributes *)
Definition good_attr (s : string) : bool :=
  shell_plain s && lacks (ascii_of_nat 10) s && lacks ":" s && negb (startswith " " s) &&
  negb (String.eqb s EmptyString).

Lemma read_written a v : good_attr a = true → good_value v = true → read_line (line (a, v)) = Some (a, v).
Proof.
  unfold good_attr, good_value. rewrite !andb_true_iff, !negb_true_iff, String.eqb_neq.
  intros [[[[_ _] Hc] Hs] Hn] [[[_ _] Hv] Hvs].
  unfold read_line, line. cbn [fst snd].
  assert (startswith " " (a +:+ ": " +:+ v) = false) as ->.
  { destruct a as [|c a]; [done|]. rewrite str_app_cons. unfold startswith in *.
    rewrite prefix_cons, prefix_nil in *. done. }
  change (a +:+ ": " +:+ v) with (a +:+ String ":" (" " +:+ v)). rewrite cut_first_char by done.
  cbn [mbind option_bind]. change (drop_spaces (" " +:+ v)) with (drop_spaces v).
  by rewrite drop_spaces_good, Hv.
Qed.

Definition good_line (av : string * string) : bool := good_attr av.1 && good_value av.2.

Lemma good_line_nl av : good_line av = true → lacks (ascii_of_nat 10) (line av) = true.
Proof.
  destruct av as [a v]. unfold good_line, good_attr, good_value, line.
  rewrite !andb_true_iff. simpl. intros [[[[[_ Ha] _] _] _] [[[_ Hv] _] _]].
  rewrite !lacks_app, Ha, Hv. done.
Qed.
Lemma record_all l : Forall (λ s, s ≠ EmptyString) l → record_lines l = l.
Proof.
  induction 1 as [|s l Hs Hl IH]; [done|]. cbn [record_lines]. rewrite IH.
  by rewrite (proj2 (String.eqb_neq s EmptyString)).
Qed.
Lemma record_app l k : Forall (λ s, s ≠ EmptyString) l → record_lines (l ++ EmptyString :: k) = l.
Proof.
  induction 1 as [|s l Hs Hl IH]; [done|]. cbn [record_lines app]. rewrite IH.
  by rewrite (proj2 (String.eqb_neq s EmptyString)).
Qed.
Lemma line_filled av : line av ≠ EmptyString.
Proof. destruct av as [[|c a] v]; unfold line; simpl; by rewrite ?str_app_nil_l, ?str_app_cons. Qed.

Lemma lines_read l : Forall (λ av, good_line av = true) l → mapM read_line (line <$> l) = Some l.
Proof.
  intros Hl. apply mapM_Some. apply Forall2_fmap_l.
  induction Hl as [|[a v] l Hav Hl IH]; constructor; [|done].
  apply andb_true_iff in Hav as [Ha Hv]. by apply read_written.
Qed.
Lemma split_ldif l : l ≠ [] → Forall (λ av, good_line av = true) l → split nl (ldif l) = line <$> l.
Proof.
  intros Hn Hl. apply split_join_char; [by destruct l|]. apply Forall_fmap.
  eapply Forall_impl; [exact Hl|]. intros av. apply good_line_nl.
Qed.
Lemma lines_filled l : Forall (λ s, s ≠ EmptyString) (line <$> l).
Proof. apply Forall_fmap, Forall_true. apply line_filled. Qed.

(** The lines of a record read back. *)
Lemma ldif_reads_back l :
  l ≠ [] → Forall (λ av, good_line av = true) l → read_record (ldif l) = Some l.
Proof.
  intros Hn Hl. unfold read_record. rewrite split_ldif by done.
  rewrite record_all by apply lines_filled. by apply lines_read.
Qed.
Lemma ldif_nl_reads_back l :
  l ≠ [] → Forall (λ av, good_line av = true) l → read_record (ldif l +:+ nl) = Some l.
Proof.
  intros Hn Hl. unfold read_record.
  replace (ldif l +:+ nl) with (join nl ((line <$> l) ++ [EmptyString])).
  - change nl with (String (ascii_of_nat 10) EmptyString).
    rewrite split_join_char; [|by destruct l|].
    + rewrite record_app by apply lines_filled. by apply lines_read.
    + apply Forall_app. split; [|by repeat constructor]. apply Forall_fmap.
      eapply Forall_impl; [exact Hl|]. intros av. apply good_line_nl.
  - unfold ldif. clear Hl. induction l as [|av l IH]; [done|]. destruct l as [|av' l].
    + simpl. by rewrite str_app_nil_r.
    + cbn [fmap list_fmap app] in *. rewrite join_cons by done. rewrite IH by done.
      rewrite (join_cons _ (line av)) by done. by rewrite !str_app_assoc.
Qed.

(** *** Values *)

Lemma one_of_app l k c : one_of (l ++ k) c = one_of l c || one_of k c.
Proof. apply existsb_app. Qed.
Lemma cn_chars (f : ascii → bool) s :
  (∀ c, negb (is_space c ||
     one_of [ascii_of_nat 34; "$"; "`"; "\"; "!"; ","; "="; ":"; "+"; "<"; ">"; ";"; "#"]%char c) = true →
     f c = true) →
  good_cn s = true → str_forallb f s = true.
Proof. intros Hf [Hs _]%andb_true_iff. revert Hs. by apply str_forallb_mono. Qed.

(** A fact on all characters, by trying each of them *)
Ltac each_char := intros [[] [] [] [] [] [] [] []] Hchar; first [reflexivity|by cbv in Hchar].

Lemma cn_shell s : good_cn s = true → shell_plain s = true.
Proof. apply cn_chars. each_char. Qed.
Lemma cn_lacks c s :
  c ∈ [ascii_of_nat 10; ","; "="; ":"; "+"]%char → good_cn s = true → lacks c s = true.
Proof.
  rewrite !elem_of_cons. intros Hc. apply cn_chars.
  destruct Hc as [->|[->|[->|[->|[->|Hc]]]]]; [each_char..|]. by apply not_elem_of_nil in Hc.
Qed.
Lemma cn_start s : good_cn s = true → safe_start s = true ∧ startswith " " s = false.
Proof.
  destruct s as [|c s]; [done|]. intros [[Hc _]%andb_true_iff _]%andb_true_iff.
  unfold startswith. rewrite prefix_cons, prefix_nil, andb_true_r. cbn [safe_start].
  revert c Hc. intros c Hc. split; revert c Hc; [each_char|].
  intros c Hc. apply negb_true_iff. revert c Hc. each_char.
Qed.
Lemma cn_value s : good_cn s = true → good_value s = true.
Proof.
  intros Hs. destruct (cn_start s Hs) as [H1 H2]. unfold good_value.
  rewrite cn_shell, cn_lacks, H1, H2 by (done || set_solver). done.
Qed.

Lemma shell_app s t : shell_plain (s +:+ t) = shell_plain s && shell_plain t.
Proof. apply str_forallb_app. Qed.
Lemma start_app s t : s ≠ EmptyString →
  safe_start (s +:+ t) = safe_start s ∧ startswith " " (s +:+ t) = startswith " " s.
Proof.
  destruct s as [|c s]; [done|]. intros _. rewrite str_app_cons. split; [done|].
  unfold startswith. by rewrite !prefix_cons, !prefix_nil.
Qed.
Lemma value_app s t : s ≠ EmptyString →
  good_value s = true → shell_plain t = true → lacks (ascii_of_nat 10) t = true →
  good_value (s +:+ t) = true.
Proof.
  unfold good_value. rewrite !andb_true_iff, !negb_true_iff. intros Hn [[[H1 H2] H3] H4] Ht Hl.
  destruct (start_app s t Hn) as [-> ->]. by rewrite shell_app, lacks_app, H1, H2, Ht, Hl.
Qed.

Lemma dn_value ou cn : shell_plain ou = true → lacks (ascii_of_nat 10) ou = true → good_cn cn = true →
  good_value (entry_dn ou cn) = true.
Proof.
  intros Ho Hl Hcn. unfold entry_dn.
  apply (value_app "cn="); [done..| |]; rewrite ?shell_app, ?lacks_app.
  - by rewrite Ho, (cn_shell cn Hcn).
  - by rewrite Hl, (cn_lacks (ascii_of_nat 10) cn) by (done || set_solver).
Qed.
Lemma digits_value s : str_forallb is_digit s = true → good_value s = true.
Proof.
  intros Hs. unfold good_value. rewrite !andb_true_iff. split_and!.
  - eapply str_forallb_mono; [|exact Hs]. each_char.
  - by apply digits_not_char.
  - destruct s as [|c s]; [done|]. apply andb_true_iff in Hs as [Hc _]. cbn [safe_start].
    revert c Hc. each_char.
  - destruct s as [|c s]; [done|]. apply andb_true_iff in Hs as [Hc _].
    unfold startswith. rewrite prefix_cons, prefix_nil, andb_true_r. revert c Hc. each_char.
Qed.
Lemma number_value n : 0 <= n → good_value (str_Z n) = true.
Proof. intros Hn. by apply digits_value, str_Z_nonneg. Qed.

(** *** Records *)

Lemma good_line_of a v : good_attr a = true → good_value v = true → good_line (a, v) = true.
Proof. intros Ha Hv. unfold good_line. simpl. by rewrite Ha, Hv. Qed.
Lemma line_shell av : good_line av = true → shell_plain (line av) = true.
Proof.
  destruct av as [a v]. unfold good_line, good_attr, good_value, line. simpl.
  rewrite !andb_true_iff, !shell_app. intros [[[[[Ha _] _] _] _] [[[Hv _] _] _]]. by rewrite Ha, Hv.
Qed.
Lemma ldif_shell l : Forall (λ av, good_line av = true) l → shell_plain (ldif l) = true.
Proof.
  induction 1 as [|[a v] l Hav Hl IH]; [done|].
  assert (shell_plain (line (a, v)) = true) as Hline by by apply line_shell.
  destruct l as [|av l]; [done|]. unfold ldif in *. cbn [fmap list_fmap] in *.
  rewrite join_cons by done. by rewrite !shell_app, Hline, IH.
Qed.

(** The record [l] is written in a way that the tools understand as [c]. *)
Definition writes (text : string) (c : change) : Prop :=
  shell_plain text = true ∧ read_change text = Some c.

Lemma writes_add dn a v l :
  a ≠ "changetype" → Forall (λ av, good_line av = true) (("dn", dn) :: (a, v) :: l) →
  writes (ldif (("dn", dn) :: (a, v) :: l)) (Add dn (entry_of ((a, v) :: l))).
Proof.
  intros Ha Hl. split; [by apply ldif_shell|]. unfold read_change.
  rewrite ldif_reads_back by done. cbn [mbind option_bind].
  by rewrite (proj2 (String.eqb_neq a "changetype")).
Qed.
Lemma writes_modify op dn a v c :
  good_value dn = true → good_attr a = true → good_value v = true → good_attr op = true →
  good_value a = true → read_modify dn op a a v = Some c → writes (modify_ldif op dn a v) c.
Proof.
  intros Hdn Ha Hv Ho Hav Hc.
  assert (Forall (λ av, good_line av = true)
    [("dn", dn); ("changetype", "modify"); (op, a); (a, v)]) as Hl.
  { repeat constructor; by apply good_line_of. }
  split; [by apply ldif_shell|]. unfold modify_ldif, read_change.
  by rewrite ldif_reads_back by done.
Qed.
Lemma strip_cn s : good_cn s = true → strip s = s.
Proof. intros Hs. apply strip_no_space. revert Hs. apply cn_chars. each_char. Qed.
Lemma strip_blank s : strip (" " +:+ s) = strip s.
Proof. rewrite str_app_cons, str_app_nil_l. unfold strip. simpl. by destruct (rstrip s). Qed.
Lemma writes_rename dn cn :
  good_value dn = true → good_cn cn = true → writes (rename_ldif dn cn) (Rename dn "cn" cn).
Proof.
  intros Hdn Hcn.
  assert (Forall (λ av, good_line av = true)
    [("dn", dn); ("changetype", "modrdn"); ("newrdn", "cn = " +:+ cn); ("deleteoldrdn", "1")]) as Hl.
  { repeat constructor; apply good_line_of; try done.
    apply value_app; [done..|by apply cn_shell|apply cn_lacks; [set_solver|done]]. }
  split; [unfold rename_ldif; by rewrite shell_app, ldif_shell|].
  unfold rename_ldif, read_change. rewrite ldif_nl_reads_back by done.
  cbn [mbind option_bind]. change (read_rename dn ("cn " +:+ String "=" (" " +:+ cn)) = Some (Rename dn "cn" cn)).
  unfold read_rename. rewrite cut_first_char by done. cbn [mbind option_bind].
  cbv beta iota. rewrite (strip_blank cn), (strip_cn cn Hcn). reflexivity.
Qed.

(** *** Objects *)

Definition good_user (u : new_user) : bool :=
  good_cn (nu_cn u) && good_value (nu_userpassword u) &&
  good_value (default "John" (nu_givenname u)) &&
  good_value (default "/home/users" (nu_homedirectory u)) && good_value (default "User" (nu_sn u)) &&
  good_value (default (nu_cn u) (nu_uid u)) && (0 <=? default 2000 (nu_uidnumber u)).

Lemma user_dn_value u : good_user u = true → good_value (user_dn (nu_cn u)) = true.
Proof.
  unfold good_user. rewrite !andb_true_iff. intros [[[[[[H _] _] _] _] _] _]. by apply dn_value.
Qed.

(** The entry that an object describes: all of its lines but the name *)
Definition object_entry (o : object) : attributes := entry_of (tl (object_lines o)).

Lemma writes_user u node : good_user u = true →
  writes (ldif (object_lines (user_object u node)))
    (Add (user_dn (nu_cn u)) (object_entry (user_object u node))).
Proof.
  unfold good_user. rewrite !andb_true_iff. intros [[[[[[H1 H2] H3] H4] H5] H6] H7%Z.leb_le].
  apply writes_add; [done|].
  repeat (apply Forall_cons; split; [apply good_line_of; [reflexivity|]|]);
    [..|constructor]; try done; [by apply dn_value|by apply cn_value|by apply number_value].
Qed.
Lemma writes_group cn node : good_cn cn = true →
  writes (ldif (object_lines (group_object cn node)))
    (Add (group_dn cn) (object_entry (group_object cn node))).
Proof.
  intros Hcn. apply writes_add; [done|].
  repeat (apply Forall_cons; split; [apply good_line_of; [reflexivity|]|]);
    [..|constructor]; try done; by apply dn_value.
Qed.

(** ** Servers *)

(** A server makes the changes that it reads, or refuses and leaves the
    directory as it is; it refuses what is not possible.  An entry with none
    below it can be deleted. *)
Class LdapServer (S : Type) `{NodeApi S, GidCounter S} := {
  dir : S → string → directory;
  dir_gid : ∀ n s node, dir (gid_set n s) node = dir s node;
  ldap_changes : ∀ node text c (s : S), writes text c →
    ∃ r s', api_command (Some node) (ldap_tool (tool_of c) text) args0 s = (Ok r, s') ∧
      if exitcode r =? 0
      then ∃ d, apply_change c (dir s node) = Some d ∧
             ∀ n, dir s' n = if decide (n = node) then d else dir s n
      else ∀ n, dir s' n = dir s n;
  ldap_deletes : ∀ node dn (s : S),
    shell_plain dn = true → is_Some (dir s node !! dn) →
    (∀ rdn, dir s node !! (rdn +:+ "," +:+ dn) = None) →
    ∃ r s', api_command (Some node) (ldapdelete dn) args0 s = (Ok r, s') ∧ exitcode r = 0 ∧
      ∀ n, dir s' n = if decide (n = node) then delete dn (dir s node) else dir s n
}.

(** ** Entries for the time of a test *)

Abbreviation named_entry := (string * attributes)%type.
Definition with_entries (l : list named_entry) (d : directory) : directory :=
  foldl (λ d x, <[x.1 := x.2]> d) d l.
Definition without_entries (l : list named_entry) (d : directory) : directory :=
  foldl (λ d x, delete x.1 d) d l.
(** The entries can be added one after the other. *)
Fixpoint fresh (d : directory) (l : list named_entry) : Prop :=
  match l with [] => True | x :: l => d !! x.1 = None ∧ fresh (<[x.1 := x.2]> d) l end.

Lemma fresh_absent d l x : fresh d l → x ∈ l → d !! x.1 = None.
Proof.
  revert d. induction l as [|y l IH]; intros d; [set_solver|]. intros [Hy Hl] [->|Hx]%elem_of_cons; [done|].
  specialize (IH _ Hl Hx). apply lookup_insert_None in IH. naive_solver.
Qed.
Lemma fresh_NoDup d l : fresh d l → NoDup l.*1.
Proof.
  revert d. induction l as [|y l IH]; intros d; [constructor|]. intros [Hy Hl].
  constructor; [|by eapply IH]. intros (x & Hx1 & Hx)%list_elem_of_fmap.
  pose proof (fresh_absent _ _ _ Hl Hx) as Hf. rewrite <-Hx1 in Hf. by rewrite lookup_insert_eq in Hf.
Qed.
Lemma lookup_with l d k : k ∉ l.*1 → with_entries l d !! k = d !! k.
Proof.
  revert d. induction l as [|x l IH]; intros d Hk; [done|]. cbn in Hk. apply not_elem_of_cons in Hk as [H1 H2].
  simpl. rewrite IH by done. by rewrite lookup_insert_ne.
Qed.
Lemma lookup_with_in l d x : NoDup l.*1 → x ∈ l → with_entries l d !! x.1 = Some x.2.
Proof.
  revert d. induction l as [|y l IH]; intros d; [set_solver|]. intros [Hy Hl]%NoDup_cons.
  intros [->|Hx]%elem_of_cons; simpl; [by rewrite lookup_with, lookup_insert_eq|by apply IH].
Qed.
Lemma lookup_without l d k :
  without_entries l d !! k = if bool_decide (k ∈ l.*1) then None else d !! k.
Proof.
  revert d. induction l as [|x l IH]; intros d; [done|]. simpl. rewrite IH.
  destruct (decide (k = x.1)) as [->|Hk].
  - rewrite lookup_delete_eq. rewrite (bool_decide_true (x.1 ∈ _ :: _)) by set_solver. by case_bool_decide.
  - rewrite lookup_delete_ne by done. apply (f_equal (λ b : bool, if b then None else d !! k)).
    apply bool_decide_ext. set_solver.
Qed.
Lemma with_without l d : fresh d l → without_entries l (with_entries l d) = d.
Proof.
  intros Hf. apply map_eq. intros k. rewrite lookup_without. case_bool_decide as Hk.
  - apply list_elem_of_fmap in Hk as (x & -> & Hx). by rewrite (fresh_absent d l x).
  - by apply lookup_with.
Qed.

Section server.
Context {S : Type} {N : NodeApi S} {G : GidCounter S} {L : LdapServer S}.
Variable ldap_node : string.
Implicit Types (s : S).

(** The directories before and after *)
Definition changed (node : string) (d : directory) s s' : Prop :=
  ∀ n, dir s' n = if decide (n = node) then d else dir s n.
Definition same s s' : Prop := ∀ n, dir s' n = dir s n.

Lemma changed_dir node d s s' : changed node d s s' → dir s' node = d.
Proof. intros H. by rewrite H, decide_True. Qed.
Lemma changed_self node s s' : changed node (dir s node) s s' ↔ same s s'.
Proof.
  split; intros H n; rewrite H; [by case_decide; subst|]. by case_decide; subst.
Qed.
Lemma changed_trans node d1 d2 s1 s2 s3 :
  changed node d1 s1 s2 → changed node d2 s2 s3 → changed node d2 s1 s3.
Proof. intros H1 H2 n. rewrite H2. case_decide; [done|]. by rewrite H1, decide_False. Qed.
Lemma same_changed node d s1 s2 s3 : same s1 s2 → changed node d s2 s3 → changed node d s1 s3.
Proof. intros H1 H2 n. by rewrite H2, H1. Qed.
Lemma changed_same node d s1 s2 s3 : changed node d s1 s2 → same s2 s3 → changed node d s1 s3.
Proof. intros H1 H2 n. by rewrite H2, H1. Qed.
Lemma same_trans s1 s2 s3 : same s1 s2 → same s2 s3 → same s1 s3.
Proof. intros H1 H2 n. by rewrite H2, H1. Qed.

(** *** Single changes *)

(** The functions that make one change, with the exit code that they want *)
Inductive makes : option Z → string → M S unit → change → Prop :=
  | makes_user u node : good_user u = true →
      makes (Some 0) (default ldap_node node) (add_user_to_ldap ldap_node u node;; mret tt)
        (Add (user_dn (nu_cn u)) (object_entry (user_object u (default ldap_node node))))
  | makes_group cn gidnumber node wanted : good_cn cn = true →
      makes wanted (default ldap_node node)
        (add_group_to_ldap ldap_node cn gidnumber node wanted;; mret tt)
        (Add (group_dn cn) (object_entry (group_object cn (default ldap_node node))))
  | makes_password u new_password node wanted :
      good_user u = true → good_value new_password = true →
      makes wanted (default ldap_node node)
        (change_user_password_in_ldap ldap_node (user_object u (default ldap_node node)) new_password
           node wanted)
        (Replace (user_dn (nu_cn u)) "userpassword" new_password)
  | makes_cn u new_cn node wanted :
      good_user u = true → good_cn new_cn = true →
      makes wanted (default ldap_node node)
        (change_user_cn_in_ldap ldap_node (user_object u (default ldap_node node)) new_cn node wanted;;
         mret tt)
        (Rename (user_dn (nu_cn u)) "cn" new_cn)
  | makes_member u cn node wanted :
      good_user u = true → good_cn cn = true →
      makes wanted (default ldap_node node)
        (add_user_to_group_in_ldap ldap_node (user_object u (default ldap_node node))
           (group_object cn (default ldap_node node)) node wanted)
        (AddValue (group_dn cn) "uniquemember" (user_dn (nu_cn u)))
  | makes_no_member u cn node wanted :
      good_user u = true → good_cn cn = true →
      makes wanted (default ldap_node node)
        (delete_user_from_group_in_ldap ldap_node (user_object u (default ldap_node node))
           (group_object cn (default ldap_node node)) node wanted)
        (DeleteValue (group_dn cn) "uniquemember" (user_dn (nu_cn u))).

(** Whether the function accepts an exit code *)
Definition accepts (wanted : option Z) (code : Z) : bool :=
  match wanted with None => true | Some n => code =? n end.
(** One command was run on the node, with a text that reads back as the change:
    when its exit code is 0, the change was possible and is in the directory of
    the node, and otherwise no directory is changed; the function returns when
    it accepts the code, and raises the assertion on it when it does not. *)
Definition made (wanted : option Z) (node : string) (c : change) s (r : res unit) s' : Prop :=
  ∃ text s1 answer, writes text c ∧ same s s1 ∧
    api_command (Some node) (ldap_tool (tool_of c) text) args0 s1 = (Ok answer, s') ∧
    (if exitcode answer =? 0
     then ∃ d, apply_change c (dir s node) = Some d ∧ changed node d s s'
     else same s s') ∧
    r = if accepts wanted (exitcode answer) then Ok tt else Exc (AssertionError EmptyString).

Lemma same_refl s : same s s.
Proof. by intros n. Qed.
(** Running a tool and checking its exit code *)
Lemma change_made text c node wanted s : writes text c →
  match (r ← run_on ldap_node node (ldap_tool (tool_of c) text); check_exit wanted r) s with
  | (r, s') => made wanted (default ldap_node node) c s r s'
  end.
Proof.
  intros Hw. destruct (ldap_changes (default ldap_node node) text c s Hw) as (r & s' & E & Hr).
  unfold run_on. erewrite M_bind_Ok by exact E.
  assert (Hc : check_exit wanted r s' =
    (if accepts wanted (exitcode r) then Ok tt else Exc (AssertionError EmptyString), s')).
  { unfold check_exit, assert_, accepts. destruct wanted as [n|]; [|done].
    by destruct (exitcode r =? n). }
  rewrite Hc. exists text, s, r. split_and!; [done|apply same_refl|done|exact Hr|done].
Qed.
Lemma forget {X Y} (m : M S X) (f : X → M S unit) (a : Y) s :
  ((r ← m; f r;; mret a);; mret tt) s = (r ← m; f r) s.
Proof.
  unfold mbind, M_bind. destruct (m s) as [[x|e|w] s1]; [|done..].
  by destruct (f x s1) as [[[]|e|w] s2].
Qed.
Lemma bind_eq {X Y} (m : M S X) (f g : X → M S Y) s : (∀ x s, f x s = g x s) → (m ≫= f) s = (m ≫= g) s.
Proof. intros Hf. unfold mbind, M_bind. by destruct (m s) as [[x|e|w] s1]. Qed.

Lemma field_dn {Y} dn o (f : string → M S Y) s :
  dget "dn" o = Some (VStr dn) → (dn ← field "dn" o; f dn) s = f dn s.
Proof. intros H. unfold field. by rewrite H. Qed.

Lemma made_same wanted node c s0 s r s' :
  same s0 s → made wanted node c s r s' → made wanted node c s0 r s'.
Proof.
  intros Hs (text & s1 & answer & Hw & H1 & E & Hm & Hr).
  exists text, s1, answer. split_and!; [done|by eapply same_trans|done| |done].
  destruct (exitcode answer =? 0); [|by eapply same_trans].
  destruct Hm as (d & Hd & Hc). exists d. rewrite <-(Hs node). split; [done|]. by eapply same_changed.
Qed.
Lemma made_after wanted node c (m : M S unit) s0 s :
  same s0 s → (match m s with (r, s') => made wanted node c s r s' end) →
  match m s with (r, s') => made wanted node c s0 r s' end.
Proof. intros Hs. destruct (m s) as [r s']. by apply made_same. Qed.
Lemma same_gid n s : same s (gid_set n s).
Proof. intros node. apply dir_gid. Qed.

(** C30: Every function that changes the directory makes exactly its change, for
    all names and values that need no quoting and whatever exit code it is told
    to expect, none included: it runs one command on its node, whose LDIF reads
    back as the change; when the exit code of the command is 0, the change was
    possible and is in the directory of its node, and no other node's directory
    is touched; with another code no directory is changed.  The function
    returns exactly when no code is expected or the code is the expected one,
    and raises the assertion on it otherwise.  So, when 0 is expected, the
    change is made exactly when the function returns. *)
Theorem ldap_changes_made wanted node m c s :
  makes wanted node m c →
  match m s with (r, s') => made wanted node c s r s' end.
Proof.
  intros Hm. destruct Hm as [u node Hu|cn gid node wanted Hcn|u pw node wanted Hu Hpw
    |u cn node wanted Hu Hcn|u cn node wanted Hu Hcn|u cn node wanted Hu Hcn].
  - unfold add_user_to_ldap. cbv zeta. rewrite (forget _ (λ r, check_exit (Some 0) r)).
    exact (change_made _ _ node (Some 0) s (writes_user u _ Hu)).
  - pose proof (change_made _ _ node wanted (gid_set (gid_get s + 1) s) (writes_group cn (default ldap_node node) Hcn)) as H.
    rewrite <-(forget _ _ (group_object cn (default ldap_node node))) in H.
    exact (made_after _ _ _ _ _ _ (same_gid _ _) H).
  - refine (change_made _ (Replace _ _ _) node wanted s _). apply writes_modify; try done.
    by apply user_dn_value.
  - pose proof (change_made _ (Rename (user_dn (nu_cn u)) "cn" cn) node wanted s
      (writes_rename _ _ (user_dn_value u Hu) Hcn)) as H.
    rewrite <-(forget _ _ (dset "cn" (VStr cn) (dset "dn" (VStr (user_dn cn))
      (user_object u (default ldap_node node))))) in H. exact H.
  - refine (change_made _ (AddValue _ _ _) node wanted s _). apply writes_modify; try done.
    + by apply dn_value.
    + by apply user_dn_value.
  - refine (change_made _ (DeleteValue _ _ _) node wanted s _). apply writes_modify; try done.
    + by apply dn_value.
    + by apply user_dn_value.
Qed.

(** *** Entries for the time of a test *)

(** An entry is added, and described by the object that is returned, or the
    assertion on the exit code is raised. *)
Definition added (node : string) (x : named_entry) (o : object) s (r : res object) s' : Prop :=
  match r with
  | Ok o' => o' = o ∧ dir s node !! x.1 = None ∧ changed node (<[x.1 := x.2]> (dir s node)) s s'
  | Exc e => e = AssertionError EmptyString ∧ same s s'
  | Stuck _ => False
  end.
Lemma added_after node x o (m : M S object) s0 s :
  same s0 s → (match m s with (r, s') => added node x o s r s' end) →
  match m s with (r, s') => added node x o s0 r s' end.
Proof.
  intros Hs. unfold added. destruct (m s) as [[o'|e|w] s']; [..|done].
  - intros (-> & Hd & Hc). rewrite (Hs node) in Hd, Hc. split_and!; try done. by eapply same_changed.
  - intros [-> H]. split; [done|]. by eapply same_trans.
Qed.

Section entries.
Context {X : Type}.
Variables (add : X → M S object) (del : object → M S unit) (node : string)
  (item : X → named_entry) (obj : X → object) (good_item : X → Prop).

(** Nothing is below the entry. *)
Definition leaf (dn : string) s : Prop := ∀ rdn, dir s node !! (rdn +:+ "," +:+ dn) = None.

Hypothesis Hadd : ∀ x s, good_item x →
  match add x s with (r, s') => added node (item x) (obj x) s r s' end.
Hypothesis Hdel : ∀ x s, good_item x → is_Some (dir s node !! (item x).1) → leaf (item x).1 s →
  ∃ s', del (obj x) s = (Ok tt, s') ∧ changed node (delete (item x).1 (dir s node)) s s'.
Hypothesis Hbelow : ∀ x y rdn, good_item x → good_item y → rdn +:+ "," +:+ (item x).1 ≠ (item y).1.

Lemma gather_run xs ys s : Forall good_item xs →
  match gather add xs ys s with
  | (Ok (os, r), s') => ∃ ds, prefix ds xs ∧ os = ys ++ (obj <$> ds) ∧
      fresh (dir s node) (item <$> ds) ∧ changed node (with_entries (item <$> ds) (dir s node)) s s' ∧
      (r = Ok tt ∧ ds = xs ∨ r = Exc (AssertionError EmptyString))
  | _ => False
  end.
Proof using Hadd.
  intros Hg. revert ys s. induction Hg as [|x xs Hx Hxs IH]; intros ys s; cbn [gather].
  { exists []. simpl. rewrite app_nil_r. split_and!; auto. by apply changed_self. }
  unfold mbind, M_bind, outcome. specialize (Hadd x s Hx).
  destruct (add x s) as [[o|e|w] s1]; [|destruct Hadd as [-> Hs]|done].
  - destruct Hadd as (-> & Hd & Hc). specialize (IH (ys ++ [obj x]) s1).
    destruct (gather _ _ _ s1) as [[[os r]|e|w] s2]; [|done..].
    destruct IH as (ds & Hp & -> & Hf & Hc2 & Hr). rewrite (changed_dir _ _ _ _ Hc) in Hf, Hc2.
    exists (x :: ds). split_and!.
    + destruct Hp as [rest ->]. by exists rest.
    + by rewrite <-app_assoc.
    + done.
    + by eapply changed_trans.
    + destruct Hr as [[-> ->]| ->]; auto.
  - exists []. simpl. rewrite app_nil_r. split_and!; auto; [by exists (x :: xs)|by apply changed_self].
Qed.

Lemma deletes_run xs s : Forall good_item xs → NoDup (item <$> xs).*1 →
  (∀ x, x ∈ xs → is_Some (dir s node !! (item x).1) ∧ leaf (item x).1 s) →
  ∃ s', for_ (obj <$> xs) del s = (Ok tt, s') ∧
    changed node (without_entries (item <$> xs) (dir s node)) s s'.
Proof using Hdel.
  clear add Hadd Hbelow. intros Hg. revert s. induction Hg as [|x xs Hx Hxs IH]; intros s Hn Hp.
  { exists s. split; [done|]. by apply changed_self. }
  cbn in Hn. apply NoDup_cons in Hn as [Hnx Hn].
  destruct (Hp x ltac:(set_solver)) as [Hs Hl]. destruct (Hdel x s Hx Hs Hl) as (s1 & E & Hc).
  destruct (IH s1 Hn) as (s2 & E2 & Hc2).
  - intros y Hy. destruct (Hp y ltac:(set_solver)) as [Hsy Hly]. unfold leaf.
    rewrite (changed_dir _ _ _ _ Hc). split.
    + rewrite lookup_delete_ne; [done|]. intros He. apply Hnx. rewrite He.
      apply list_elem_of_fmap. exists (item y). split; [done|]. by apply list_elem_of_fmap_2.
    + intros rdn. apply lookup_delete_None. right. apply Hly.
  - exists s2. cbn [fmap list_fmap for_]. unfold mbind, M_bind. rewrite E. split; [done|].
    rewrite (changed_dir _ _ _ _ Hc) in Hc2. by eapply changed_trans.
Qed.

(** The entries are there for the test, and gone after it. *)
Definition scoped {A} (l : list named_entry) (os : list object) (body : list object → M S A)
    s (r : res A) s' : Prop :=
  match r with
  | Stuck _ => True
  | _ =>
      (∃ s1 s2, fresh (dir s node) l ∧ changed node (with_entries l (dir s node)) s s1 ∧
         body os s1 = (r, s2) ∧ changed node (without_entries l (dir s2 node)) s2 s' ∧
         (same s1 s2 → same s s')) ∨
      (r = Exc (AssertionError EmptyString) ∧ same s s')
  end.
(** The test lets the entries be: when it ends they are still there, and still
    nothing is below them. *)
Definition present (l : list named_entry) s : Prop :=
  ∀ x, x ∈ l → is_Some (dir s node !! x.1) ∧ leaf x.1 s.
Definition lets_be {A} (l : list named_entry) (body : list object → M S A) : Prop :=
  ∀ os s, present l s → present l (body os s).2.

Lemma for_the_test_scoped {A} xs (body : list object → M S A) s :
  Forall good_item xs → (∀ x, x ∈ xs → leaf (item x).1 s) → lets_be (item <$> xs) body →
  match for_the_test add del xs body s with
  | (r, s') => scoped (item <$> xs) (obj <$> xs) body s r s'
  end.
Proof using Hadd Hdel Hbelow.
  intros Hg Hl Hb. unfold for_the_test, mbind, M_bind.
  pose proof (gather_run xs [] s Hg) as Hrun.
  destruct (gather add xs [] s) as [[[os r]|e|w] s1]; [|done..].
  destruct Hrun as (ds & [rest Hp] & -> & Hf & Hc & Hr). cbn [app].
  assert (Hgd : Forall good_item ds) by (rewrite Hp in Hg; by apply Forall_app in Hg as [? _]).
  assert (Hpre : present (item <$> ds) s1).
  { intros x (y & -> & Hy)%list_elem_of_fmap. unfold leaf. rewrite (changed_dir _ _ _ _ Hc). split.
    - rewrite lookup_with_in; [by eexists|by eapply fresh_NoDup|by apply list_elem_of_fmap_2].
    - intros rdn. rewrite lookup_with; [apply Hl; set_solver|].
      intros (x & Hx & (z & -> & Hz)%list_elem_of_fmap)%list_elem_of_fmap.
      rewrite Forall_forall in Hgd. by eapply Hbelow; [..|exact Hx]; apply Hgd. }
  assert (Hafter : ∀ s2, present (item <$> ds) s2 →
    ∃ s3, for_ (obj <$> ds) del s2 = (Ok tt, s3) ∧
      changed node (without_entries (item <$> ds) (dir s2 node)) s2 s3).
  { intros s2 H2. apply deletes_run; [done|by eapply fresh_NoDup|].
    intros x Hx. apply H2. by apply list_elem_of_fmap_2. }
  assert (Hsame : ∀ s2 s3, same s1 s2 →
    changed node (without_entries (item <$> ds) (dir s2 node)) s2 s3 → same s s3).
  { intros s2 s3 H2 H3. rewrite (H2 node), (changed_dir _ _ _ _ Hc), with_without in H3 by done.
    apply (changed_self node). eapply changed_trans; [|exact H3]. by eapply changed_same. }
  unfold try_finally. destruct Hr as [[-> ->]| ->]; cbn [lift].
  - specialize (Hb (obj <$> xs) s1 Hpre). destruct (Hafter _ Hb) as (s3 & E3 & H3).
    specialize (Hsame (body (obj <$> xs) s1).2 s3).
    destruct (body (obj <$> xs) s1) as [r s2] eqn:Eb. cbn [snd] in *.
    destruct r as [a|e|w]; [..|done]; rewrite E3; left; exists s1, s2; (split_and!; [done..|auto]).
  - destruct (Hafter s1 Hpre) as (s3 & E3 & H3). simpl. rewrite E3. right. split; [done|].
    by apply (Hsame s1).
Qed.
End entries.

(** *** Users and groups *)

Lemma add_spec text dn e node (o : object) s : writes text (Add dn e) →
  match (r ← run_on ldap_node node (ldap_tool "ldapadd" text); check_exit (Some 0) r;; mret o) s with
  | (r, s') => added (default ldap_node node) (dn, e) o s r s'
  end.
Proof.
  intros Hw. pose proof (change_made _ _ node (Some 0) s Hw) as H. rewrite <-(forget _ _ o) in H.
  change (tool_of (Add dn e)) with "ldapadd" in H.
  unfold mbind, M_bind in *. destruct (run_on _ _ _ s) as [[r|x|w] s1]; cbv beta iota in H |- *;
    [destruct (check_exit (Some 0) r s1) as [[u|x|w] s2]; cbv beta iota in H |- *|..].
  all: destruct H as (text' & s3 & answer & _ & _ & _ & Hm & Hr); unfold accepts in Hr;
    destruct (exitcode answer =? 0); try done; try (by injection Hr as ->).
  destruct Hm as (d & Hd & Hc). simpl in Hd. destruct (dir s _ !! dn) eqn:E; [done|]. by simplify_eq.
Qed.

Lemma delete_spec (o : object) dn node s :
  dget "dn" o = Some (VStr dn) → good_value dn = true →
  is_Some (dir s (default ldap_node node) !! dn) → leaf (default ldap_node node) dn s →
  ∃ s', delete_from_ldap ldap_node o node (Some 0) s = (Ok tt, s') ∧
    changed (default ldap_node node) (delete dn (dir s (default ldap_node node))) s s'.
Proof.
  unfold good_value. rewrite !andb_true_iff. intros Ho [[[Hdn _] _] _] Hs Hl.
  destruct (ldap_deletes _ dn s Hdn Hs Hl) as (r & s' & E & Hr & Hc).
  exists s'. split; [|exact Hc]. unfold delete_from_ldap. rewrite (field_dn dn) by done.
  unfold run_on. erewrite M_bind_Ok by exact E. unfold check_exit, assert_. by rewrite Hr.
Qed.

Lemma not_below ou rdn cn cn' : good_cn cn' = true → rdn +:+ "," +:+ entry_dn ou cn ≠ entry_dn ou cn'.
Proof.
  intros Hcn He. unfold entry_dn in He.
  assert (rdn +:+ "," +:+ "cn=" +:+ cn = "cn=" +:+ cn') as Heq.
  { apply (str_app_inv_r _ _ (",ou=" +:+ ou +:+ ",dc=company,dc=com")). by rewrite !str_app_assoc. }
  assert (lacks "," ("cn=" +:+ cn') = true) as Hl.
  { rewrite lacks_app, (cn_lacks "," cn'); [done| |done]. rewrite !elem_of_cons. auto. }
  by rewrite <-Heq, !lacks_app, andb_false_r in Hl.
Qed.

Definition user_item (node : option string) (u : new_user) : named_entry :=
  (user_dn (nu_cn u), object_entry (user_object u (default ldap_node node))).
Definition group_item (node : option string) (g : string * option Z) : named_entry :=
  (group_dn g.1, object_entry (group_object g.1 (default ldap_node node))).

Lemma add_user_spec node u s : good_user u = true →
  match add_user_to_ldap ldap_node u node s with
  | (r, s') => added (default ldap_node node) (user_item node u) (user_object u (default ldap_node node))
                 s r s'
  end.
Proof. intros Hu. exact (add_spec _ _ _ node _ s (writes_user u (default ldap_node node) Hu)). Qed.
Lemma add_group_spec node g s : good_cn g.1 = true →
  match add_group_to_ldap ldap_node g.1 g.2 node (Some 0) s with
  | (r, s') => added (default ldap_node node) (group_item node g)
                 (group_object g.1 (default ldap_node node)) s r s'
  end.
Proof.
  intros Hg. exact (added_after _ _ _ _ _ _ (same_gid (gid_get s + 1) s)
    (add_spec _ _ _ node _ _ (writes_group g.1 (default ldap_node node) Hg))).
Qed.

(** The functions that keep entries for a test [body], which is given their
    objects *)
Inductive ldap_fixture {A} (body : list object → M S A) :
    string → list named_entry → list object → M S A → Prop :=
  | fixture_user u node : good_user u = true →
      ldap_fixture body (default ldap_node node) [user_item node u]
        [user_object u (default ldap_node node)]
        (ldap_user ldap_node u node (λ o, body [o]))
  | fixture_users users node : Forall (λ u, good_user u = true) users →
      ldap_fixture body (default ldap_node node) (user_item node <$> users)
        ((λ u, user_object u (default ldap_node node)) <$> users)
        (ldap_users ldap_node users node body)
  | fixture_groups groups node : Forall (λ g, good_cn g.1 = true) groups →
      ldap_fixture body (default ldap_node node) (group_item node <$> groups)
        ((λ g, group_object g.1 (default ldap_node node)) <$> groups)
        (add_ldap_groups ldap_node groups node body).

Lemma one_user {A} u node (body : list object → M S A) s :
  ldap_user ldap_node u node (λ o, body [o]) s = ldap_users ldap_node [u] node body s.
Proof.
  unfold ldap_user, ldap_users, for_the_test, outcome, try_finally. cbn [gather].
  unfold mbind, M_bind, outcome.
  destruct (add_user_to_ldap ldap_node u node s) as [[o|e|w] s1]; simpl; [|done..].
  destruct (body [o] s1) as [[a|e|w] s2]; [..|done]; unfold mbind, M_bind;
    by destruct (delete_from_ldap _ _ _ _ s2) as [[[]|e'|w'] s3].
Qed.

(** C29: The functions that add users or groups for a test add them for its time
    only: either the test runs, whatever its result, in the directory with
    exactly the given entries added, which were not there before, and when the
    function ends exactly these entries are taken out of the directory that the
    test leaves; or the server refuses an entry, the function raises the
    assertion on the exit code, and the directories are as they were.  The test
    may change all directories, but must leave the added entries where they
    are, with nothing below them; when it leaves the directories as it found
    them, they are as before. *)
Theorem ldap_entries_scoped {A} (body : list object → M S A) node l os m s :
  ldap_fixture body node l os m → (∀ x, x ∈ l → leaf node x.1 s) →
  lets_be node l body →
  match m s with (r, s') => scoped node l os body s r s' end.
Proof.
  intros Hm Hl Hb.
  assert (∀ users node, Forall (λ u, good_user u = true) users →
    (∀ x, x ∈ user_item node <$> users → leaf (default ldap_node node) x.1 s) →
    lets_be (default ldap_node node) (user_item node <$> users) body →
    match ldap_users ldap_node users node body s with
    | (r, s') => scoped (default ldap_node node) (user_item node <$> users)
        ((λ u, user_object u (default ldap_node node)) <$> users) body s r s'
    end) as Husers.
  { clear Hm Hl Hb. intros users n Hu Hl Hb. eapply for_the_test_scoped; try done.
    - intros u s1 H1. by apply add_user_spec.
    - intros u s1 H1 H2 H3. apply delete_spec; try done. by apply user_dn_value.
    - intros u v rdn H1 H2. apply not_below. unfold good_user in H2. by destruct (good_cn (nu_cn v)).
    - intros u Hx. apply Hl. by apply list_elem_of_fmap_2. }
  destruct Hm as [u node Hu|users node Hu|groups node Hg].
  - rewrite one_user. apply (Husers [u]); [by repeat constructor|done..].
  - by apply Husers.
  - eapply for_the_test_scoped; try done.
    + intros g s1 H1. by apply add_group_spec.
    + intros g s1 H1 H2 H3. apply delete_spec; try done. by apply dn_value.
    + intros g h rdn H1 H2. by apply not_below.
    + intros g Hx. apply Hl. by apply list_elem_of_fmap_2.
Qed.
End server.

(** *** A user with another name *)

(** The object that [change_user_cn_in_ldap] returns *)
Definition renamed_object (u : new_user) (new_cn node : string) : object :=
  dset "cn" (VStr new_cn) (dset "dn" (VStr (user_dn new_cn)) (user_object u node)).

Lemma user_dn_parts cn : good_cn cn = true →
  rdn_value (user_dn cn) = cn ∧ parent (user_dn cn) = "ou=users,dc=company,dc=com".
Proof.
  intros Hcn.
  assert (cut_first "," (user_dn cn) = Some ("cn=" +:+ cn, "ou=users,dc=company,dc=com")) as E.
  { unfold user_dn, entry_dn. rewrite <-str_app_assoc.
    change (",ou=" +:+ "users" +:+ ",dc=company,dc=com") with
      (String "," "ou=users,dc=company,dc=com").
    apply cut_first_char. rewrite lacks_app, (cn_lacks "," cn); [done| |done]. rewrite !elem_of_cons. auto. }
  unfold rdn_value, parent, after_first. rewrite E. split; [|done].
  change ("cn=" +:+ cn) with ("cn" +:+ String "=" cn). by rewrite cut_first_char.
Qed.

Lemma entry_lacks l a : a ∉ l.*1 → entry_of l !! a = None.
Proof.
  induction l as [|x l IH]; [done|]. cbn. intros [Hx Hl]%not_elem_of_cons. unfold add_value.
  rewrite lookup_insert_ne by done. by apply IH.
Qed.

Lemma moved_value (v w : string) :
  {[v]} ∪ ({[w]} ∪ ∅) ∖ {[w]} =@{gset string} {[v]} ∪ ∅.
Proof. set_solver. Qed.

(** The object describes the entry that the server has after the change. *)
Lemma renamed_entry u new_cn node d :
  good_user u = true → good_cn new_cn = true → d !! user_dn new_cn = None → d !! user_dn (nu_cn u) = None →
  new_cn ≠ nu_cn u →
  apply_change (Rename (user_dn (nu_cn u)) "cn" new_cn)
    (<[user_dn (nu_cn u) := object_entry (user_object u node)]> d) =
  Some (<[user_dn new_cn := object_entry (renamed_object u new_cn node)]> d).
Proof.
  intros Hu Hn Hd Hd' Hne. assert (good_cn (nu_cn u) = true) as Hcn.
  { unfold good_user in Hu. by destruct (good_cn (nu_cn u)). }
  unfold apply_change. rewrite lookup_insert_eq. cbn [mbind option_bind].
  destruct (user_dn_parts _ Hcn) as [-> ->].
  change ("cn" +:+ "=" +:+ new_cn +:+ "," +:+ "ou=users,dc=company,dc=com") with (user_dn new_cn).
  assert (user_dn (nu_cn u) ≠ user_dn new_cn) as Hdn.
  { intros He. apply Hne. destruct (user_dn_parts _ Hcn) as [H1 _], (user_dn_parts _ Hn) as [H2 _].
    by rewrite <-H1, <-H2, He. }
  rewrite lookup_insert_ne, Hd by done. f_equal.
  rewrite delete_insert_id by done. f_equal.
  unfold object_entry, entry_of, renamed_object.
  set (rest := entry_of (tl (tl (object_lines (user_object u node))))).
  change (add_value "cn" new_cn (remove_value "cn" (nu_cn u) (add_value "cn" (nu_cn u) rest)) =
    add_value "cn" new_cn rest).
  assert (rest !! "cn" = None) as Hr.
  { apply entry_lacks.
    change ((tl (tl (object_lines (user_object u node)))).*1) with
      ["gidnumber"; "givenname"; "homedirectory"; "objectclass"; "objectclass"; "objectclass"; "sn";
       "uid"; "uidnumber"; "userpassword"]. by apply (bool_decide_unpack _). }
  unfold add_value, remove_value. rewrite Hr, !lookup_insert_eq, !insert_insert_eq. cbn [default].
  apply (f_equal (λ v, <["cn" := v]> rest)), moved_value.
Qed.

(** ** Witnesses *)

(** A server that makes every change that is possible *)
Definition demo_dir (s : gmap string directory * Z) (node : string) : directory := default ∅ (s.1 !! node).
Definition read_tool (tool command : string) : option string :=
  if startswith ("echo -e " +:+ String (ascii_of_nat 34) EmptyString) command then
    '(text, rest) ← cut_first (String (ascii_of_nat 34) EmptyString) (str_drop 9 command);
    if String.eqb rest (" | " +:+ tool +:+ as_admin) then Some text else None
  else None.
Definition read_delete (command : string) : option string :=
  let start := "ldapdelete" +:+ as_admin +:+ " " +:+ String (ascii_of_nat 34) EmptyString in
  if startswith start command then
    '(dn, _) ← cut_first (String (ascii_of_nat 34) EmptyString) (str_drop (slen start) command); Some dn
  else None.
Definition demo_change (d : directory) (command : string) : option directory :=
  match read_delete command with
  | Some dn => if decide (is_Some (d !! dn)) then Some (delete dn d) else None
  | None =>
      match (text ← read_tool "ldapadd" command; read_change text) with
      | Some c => if String.eqb (tool_of c) "ldapadd" then apply_change c d else None
      | None => c ← (text ← read_tool "ldapmodify" command; read_change text); apply_change c d
      end
  end.
Definition demo_ldap : NodeApi (gmap string directory * Z) :=
  let ok s : res unit * (gmap string directory * Z) := (Ok tt, s) in {|
  api_command node cmd _ s :=
    match node with
    | Some node =>
        match demo_change (demo_dir s node) cmd with
        | Some d => (Ok (mkResult 0 EmptyString), (<[node := d]> s.1, s.2))
        | None => (Ok (mkResult 1 EmptyString), s)
        end
    | None => (Ok (mkResult 0 EmptyString), s)
    end;
  api_bash _ s := (Ok 0%nat, s);
  api_call _ _ s := (Ok (mkResult 0 EmptyString), s);
  api_shell _ s := (Ok 0%nat, s);
  api_enter _ := ok; api_exit _ := ok; api_close _ := ok; api_open _ := ok; api_send _ _ := ok;
  api_expect _ _ _ _ s := (Ok [], s);
  api_stop_clickhouse _ _ := ok;
  api_start_clickhouse _ _ _ := ok;
  api_restart_clickhouse _ _ _ _ := ok;
  api_environ _ s := (Ok "/tests", s);
  api_time s := (Ok 0, s);
  api_sleep _ := ok;
  api_absorbs _ := false
|}.
Definition demo_gid : GidCounter (gmap string directory * Z) :=
  {| gid_get := snd; gid_set n s := (s.1, n) |}.

Lemma shell_no_quote s : shell_plain s = true → lacks (ascii_of_nat 34) s = true.
Proof. apply str_forallb_mono. each_char. Qed.
Lemma read_tool_back tool tool' text : shell_plain text = true →
  read_tool tool' (ldap_tool tool text) =
  if String.eqb (" | " +:+ tool +:+ as_admin) (" | " +:+ tool' +:+ as_admin) then Some text else None.
Proof.
  intros Ht. unfold read_tool, ldap_tool.
  change ("echo -e " +:+ q text +:+ " | " +:+ tool +:+ as_admin) with
    (("echo -e " +:+ String (ascii_of_nat 34) EmptyString) +:+
     (text +:+ String (ascii_of_nat 34) EmptyString) +:+ " | " +:+ tool +:+ as_admin).
  rewrite startswith_app. rewrite (str_drop_app ("echo -e " +:+ String (ascii_of_nat 34) EmptyString)).
  rewrite (str_app_assoc text).
  change (String (ascii_of_nat 34) EmptyString +:+ " | " +:+ tool +:+ as_admin) with
    (String (ascii_of_nat 34) (" | " +:+ tool +:+ as_admin)).
  by rewrite (cut_first_char (ascii_of_nat 34) text) by by apply shell_no_quote.
Qed.
Lemma read_delete_back dn : shell_plain dn = true → read_delete (ldapdelete dn) = Some dn.
Proof.
  intros Hd. unfold read_delete, ldapdelete. cbv zeta.
  set (start := "ldapdelete" +:+ as_admin +:+ " " +:+ String (ascii_of_nat 34) EmptyString).
  change ("ldapdelete" +:+ as_admin +:+ " " +:+ q dn) with
    (start +:+ dn +:+ String (ascii_of_nat 34) EmptyString).
  rewrite startswith_app, str_drop_app, cut_first_char by by apply shell_no_quote. done.
Qed.
Lemma demo_dir_changed node d s n :
  demo_dir (<[node := d]> s.1, s.2) n = if decide (n = node) then d else demo_dir s n.
Proof.
  unfold demo_dir. simpl. case_decide as Hn; [subst; by rewrite lookup_insert_eq|].
  by rewrite lookup_insert_ne.
Qed.

Lemma demo_change_reads text c d : writes text c →
  demo_change d (ldap_tool (tool_of c) text) = apply_change c d.
Proof.
  intros [Ht Hc]. unfold demo_change. change (read_delete (ldap_tool (tool_of c) text)) with (@None string).
  rewrite !read_tool_back by done. by destruct c; cbn [tool_of String.eqb mbind option_bind]; simpl; rewrite Hc.
Qed.
Definition demo_server : @LdapServer _ demo_ldap demo_gid.
Proof.
  refine (@Build_LdapServer _ demo_ldap demo_gid demo_dir _ _ _); [done|..].
  - intros node text c s Hw.
    change (@api_command _ demo_ldap (Some node) (ldap_tool (tool_of c) text) args0 s) with
      (match demo_change (demo_dir s node) (ldap_tool (tool_of c) text) with
       | Some d => (Ok (mkResult 0 EmptyString), (<[node := d]> s.1, s.2))
       | None => (Ok (mkResult 1 EmptyString), s)
       end).
    rewrite demo_change_reads by done. destruct (apply_change c (demo_dir s node)) as [d|].
    + eexists _, _. split; [reflexivity|]. exists d. split; [done|]. intros n. apply demo_dir_changed.
    + by eexists _, _.
  - intros node dn s Hdn Hs _.
    change (@api_command _ demo_ldap (Some node) (ldapdelete dn) args0 s) with
      (match demo_change (demo_dir s node) (ldapdelete dn) with
       | Some d => (Ok (mkResult 0 EmptyString), (<[node := d]> s.1, s.2))
       | None => (Ok (mkResult 1 EmptyString), s)
       end).
    unfold demo_change. rewrite read_delete_back, decide_True by done.
    eexists _, _. split; [reflexivity|]. split; [done|]. intros n. apply demo_dir_changed.
Defined.

Definition empty_server : gmap string directory * Z := (∅, 600).

Lemma ldap_changes_made_witness :
  (@add_user_to_ldap _ demo_ldap "openldap1" (simple_user "myuser" "secret") None empty_server).1 =
    Ok (user_object (simple_user "myuser" "secret") "openldap1") ∧
  match (@add_user_to_ldap _ demo_ldap "openldap1" (simple_user "myuser" "secret") None;; mret tt)
    empty_server with
  | (r, s') => @made _ demo_ldap demo_gid demo_server (Some 0) "openldap1"
      (Add (user_dn "myuser") (object_entry (user_object (simple_user "myuser" "secret") "openldap1")))
      empty_server r s'
  end.
Proof.
  split; [reflexivity|].
  exact (@ldap_changes_made _ demo_ldap demo_gid demo_server "openldap1" (Some 0) "openldap1" _ _
    empty_server (@makes_user _ demo_ldap demo_gid "openldap1" (simple_user "myuser" "secret") None eq_refl)).
Defined.

Lemma ldap_entries_scoped_witness :
  (@ldap_users _ demo_ldap "openldap1" unit [simple_user "user1" "pw1"; simple_user "user2" "pw2"]
     None (λ _, mret tt) empty_server).1 = Ok tt ∧
  match @ldap_users _ demo_ldap "openldap1" unit [simple_user "user1" "pw1"; simple_user "user2" "pw2"]
    None (λ _, mret tt) empty_server with
  | (r, s') => @scoped _ demo_ldap demo_gid demo_server "openldap1" unit
      (user_item "openldap1" None <$> [simple_user "user1" "pw1"; simple_user "user2" "pw2"])
      ((λ u, user_object u "openldap1") <$> [simple_user "user1" "pw1"; simple_user "user2" "pw2"])
      (λ _, mret tt) empty_server r s'
  end.
Proof.
  split; [reflexivity|].
  apply (@ldap_entries_scoped _ demo_ldap demo_gid demo_server "openldap1" unit (λ _, mret tt) "openldap1").
  - apply (fixture_users "openldap1" _ [simple_user "user1" "pw1"; simple_user "user2" "pw2"] None).
    by repeat constructor.
  - intros x _ rdn. unfold dir. simpl. unfold demo_dir. simpl. by rewrite lookup_empty.
  - intros os s n. done.
Defined.
