(* ===== verification/LdapConfig.v ===== *)
(** * The configurations of the ldap suites

    The contents of the files that tell a server about LDAP servers, users that
    they authenticate and external user directories
    (ldap/authentication/tests/common.py,
    ldap/external_user_directory/tests/common.py and
    ldap/role_mapping/tests/common.py), and what a server reads in them. *)
From stdpp Require Import gmap.
From Stdlib Require Import Ascii.
From S2P Require Import Prelude PyStr PyDict PyMonad World Cluster XmlConfig Steps StorageConfig.
Local Open Scope Z_scope.

(** ** Contents *)

(** A file with one section, which starts with a comment *)
Definition ldap_config (section comment : string) (children : list node)
    (config_d_dir config_file uid preprocessed : string) : Config :=
  mkConfigFile (xml_with_utf8 +:+ tostring (xml_indent (section_tree section comment children) 0 "  "))
    (path_join config_d_dir config_file) config_file uid preprocessed.

Definition create_ldap_servers_config_content (servers : disks) (config_d_dir config_file uid : string)
    : Config :=
  ldap_config "ldap_servers" ("LDAP servers " +:+ uid) (option_elements servers)
    config_d_dir config_file uid "config.xml".

(** Users with the name of their server *)
Record directory_user := mkDirectoryUser { lu_username : string; lu_server : string }.
Definition user_element (u : directory_user) : node :=
  Element (lu_username u) [] None None
    [Element "ldap" [] None None [xml_append "server" (Some (lu_server u))]].
Definition create_ldap_users_config_content (users : list directory_user)
    (config_d_dir config_file uid : string) : Config :=
  ldap_config "users" ("LDAP users " +:+ uid) (user_element <$> users)
    config_d_dir config_file uid "users.xml".

(** An entry for a directory: its servers, and its lists of roles; servers,
    roles and lists of roles may be [None]. *)
Definition directory_entry : Type := list (option string) * list (option (list (option string))).
Definition roles_element (roles : option (list (option string))) : node :=
  Element "roles" [] None None
    (default [] roles ≫= λ role, match role with Some r => [xml_append r (Some EmptyString)] | None => [] end).
Definition directory_element (e : directory_entry) : node :=
  Element "ldap" [] None None
    ((e.1 ≫= λ server, match server with Some s => [xml_append "server" (Some s)] | None => [] end) ++
     (roles_element <$> e.2)).
(** [create_entries_ldap_external_user_directory_config_content] and
    [create_ldap_external_user_directory_config_content] of
    external_user_directory *)
Definition create_entries_directory_config_content (entries : list directory_entry)
    (config_d_dir config_file uid : string) : Config :=
  ldap_config "user_directories" ("LDAP external user directories " +:+ uid)
    (directory_element <$> entries) config_d_dir config_file uid "config.xml".
Definition create_directory_config_content (server : option string) (roles : option (list string))
    (config_d_dir config_file uid : string) : Config :=
  create_entries_directory_config_content [([server], [fmap (M:=list) Some <$> roles])]
    config_d_dir config_file uid.

(** [create_ldap_external_user_directory_config_content] of role_mapping, which
    also takes role mappings *)
Definition given_text (s : option string) : list string :=
  match s with Some s => if String.eqb s EmptyString then [] else [s] | None => [] end.
Definition mapping_directory_entries (server : option string) (roles : option (list string))
    (role_mappings : option (list options)) : entries :=
  [(Key "user_directories", VDict [(Key "ldap", VList (
     ((λ s, [(Key "server", VText (Some s))]) <$> given_text server) ++
     match roles with
     | Some ((_ :: _) as roles) => [[(Key "roles", VList ((λ r, [(Key r, VText None)]) <$> roles))]]
     | _ => []
     end ++
     ((λ m, [(Key "role_mapping", VDict (text_entries m))]) <$> default [] role_mappings)))])].
Definition create_mapping_directory_config_content (server : option string)
    (roles : option (list string)) (role_mappings : option (list options))
    (config_d_dir config_file uid : string) : Config :=
  create_xml_config_content (mapping_directory_entries server roles role_mappings)
    config_file config_d_dir "yandex" uid.

(** ** Reading *)

(** The children with a tag, all children that are elements *)
Definition children_of (n : node) : list node :=
  match n with Element _ _ _ _ children => children | Comment _ _ => [] end.
Definition tag_of (n : node) : option string :=
  match n with Element tag _ _ _ _ => Some tag | Comment _ _ => None end.
Definition named (tag : string) (n : node) : list node :=
  List.filter (λ c, bool_decide (tag_of c = Some tag)) (children_of n).
Fixpoint elements (path : list string) (n : node) : list node :=
  match path with [] => [n] | tag :: path => named tag n ≫= elements path end.
Definition tags (n : node) : list string := omap tag_of (children_of n).
Definition text_of (n : node) : option string :=
  match n with Element _ _ text _ _ => strip_text text | Comment _ _ => None end.

(** LDAP servers with their options, users with their servers, and directories
    with their servers, roles and role mappings, as a server finds them *)
Definition options_of (n : node) : list (string * option string) :=
  omap (λ c, (λ t, (t, text_of c)) <$> tag_of c) (children_of n).
Definition read_servers (n : node) : list (string * list (string * option string)) :=
  elements ["ldap_servers"] n ≫= λ s, omap (λ c, (λ t, (t, options_of c)) <$> tag_of c) (children_of s).
Definition read_users (n : node) : list (string * list string) :=
  elements ["users"] n ≫= λ u, omap (λ c, (λ t, (t, settings ["ldap"; "server"] c)) <$> tag_of c) (children_of u).
Record directory := mkDirectory {
  d_servers : list string; d_roles : list (list string);
  d_mappings : list (list (string * option string))
}.
Definition read_directory (n : node) : directory :=
  mkDirectory (settings ["server"] n) (tags <$> named "roles" n) (options_of <$> named "role_mapping" n).
Definition read_directories (n : node) : list directory :=
  read_directory <$> elements ["user_directories"; "ldap"] n.

(** The document is read as XML in which [f] finds [v]. *)
Definition found {A} (f : node → A) (c : Config) (v : A) : Prop :=
  ∃ n, read_xml (content c) = Some n ∧ f n = v.

(** *** Blank texts do not matter. *)

Lemma children_strip n : children_of (strip_node n) = strip_node <$> children_of n.
Proof. by destruct n. Qed.
Lemma tag_strip n : tag_of (strip_node n) = tag_of n.
Proof. by destruct n. Qed.
Lemma text_strip n : text_of (strip_node n) = text_of n.
Proof.
  destruct n as [tag attrib t tail children|]; [|done]. simpl. unfold strip_text.
  destruct (blank t) eqn:E; simpl; by rewrite ?E.
Qed.
Lemma filter_strip (p : node → bool) l :
  (∀ n, p (strip_node n) = p n) → List.filter p (strip_node <$> l) = strip_node <$> List.filter p l.
Proof.
  intros Hp. induction l as [|n l IH]; [done|]. cbn [fmap list_fmap List.filter]. rewrite Hp.
  destruct (p n); cbn [fmap list_fmap]; by rewrite <-IH.
Qed.
Lemma named_strip tag n : named tag (strip_node n) = strip_node <$> named tag n.
Proof. unfold named. rewrite children_strip. apply filter_strip. intros c. by rewrite tag_strip. Qed.
Lemma elements_strip path n : elements path (strip_node n) = strip_node <$> elements path n.
Proof.
  revert n. induction path as [|tag path IH]; intros n; [done|]. cbn [elements].
  rewrite named_strip. induction (named tag n) as [|c l IHl]; [done|].
  cbn [fmap list_fmap mbind list_bind]. by rewrite IH, fmap_app, <-IHl.
Qed.
Lemma omap_strip {A} (f : node → option A) (l : list node) :
  (∀ n, f (strip_node n) = f n) → omap f (strip_node <$> l) = omap f l.
Proof. intros Hf. induction l as [|n l IH]; [done|]. cbn. by rewrite Hf, IH. Qed.
Lemma tags_strip n : tags (strip_node n) = tags n.
Proof. unfold tags. rewrite children_strip. apply omap_strip, tag_strip. Qed.
Lemma options_strip n : options_of (strip_node n) = options_of n.
Proof.
  unfold options_of. rewrite children_strip. apply omap_strip. intros c.
  by rewrite tag_strip, text_strip.
Qed.
Lemma map_strip {A} (f : node → A) (l : list node) :
  (∀ n, f (strip_node n) = f n) → f <$> (strip_node <$> l) = f <$> l.
Proof. intros Hf. rewrite <-list_fmap_compose. apply list_fmap_ext. intros i n _. apply Hf. Qed.
Lemma bind_strip {A} (f : node → list A) (l : list node) :
  (∀ n, f (strip_node n) = f n) → (strip_node <$> l) ≫= f = l ≫= f.
Proof. intros Hf. induction l as [|n l IH]; [done|]. cbn. by rewrite Hf, <-IH. Qed.

Lemma servers_strip n : read_servers (strip_node n) = read_servers n.
Proof.
  unfold read_servers. rewrite elements_strip. apply bind_strip. intros s.
  rewrite children_strip. apply omap_strip. intros c. by rewrite tag_strip, options_strip.
Qed.
Lemma users_strip n : read_users (strip_node n) = read_users n.
Proof.
  unfold read_users. rewrite elements_strip. apply bind_strip. intros s.
  rewrite children_strip. apply omap_strip. intros c. by rewrite tag_strip, settings_strip.
Qed.
Lemma directories_strip n : read_directories (strip_node n) = read_directories n.
Proof.
  unfold read_directories. rewrite elements_strip. apply map_strip. intros d.
  unfold read_directory. rewrite settings_strip, !named_strip. f_equal.
  - apply map_strip, tags_strip.
  - apply map_strip, options_strip.
Qed.

(** ** What is read *)

Lemma read_section section comment children config_d_dir config_file uid preprocessed :
  good (section_tree section comment children) = true →
  ∃ n, read_xml (content (ldap_config section comment children config_d_dir config_file uid preprocessed)) =
         Some n ∧ strip_node n = strip_node (section_tree section comment children).
Proof.
  intros Hg. eexists. split; [apply read_document; by rewrite good_indent|].
  rewrite strip_norm. by apply strip_indent.
Qed.
(** A fact that blank texts do not matter for can be read off the tree. *)
Lemma section_found {A} (f : node → A) section comment children config_d_dir config_file uid preprocessed :
  (∀ n, f (strip_node n) = f n) → good (section_tree section comment children) = true →
  found f (ldap_config section comment children config_d_dir config_file uid preprocessed)
    (f (section_tree section comment children)).
Proof.
  intros Hf Hg. destruct (read_section section comment children config_d_dir config_file uid preprocessed Hg)
    as (n & Hn & Hs). exists n. split; [done|]. by rewrite <-Hf, Hs, Hf.
Qed.

(** The section of a tree *)
Lemma section_elements section comment children path :
  elements (section :: path) (section_tree section comment children) =
  elements path (Element section [] None None (Comment comment None :: children)).
Proof.
  unfold section_tree. cbn [elements named children_of List.filter].
  rewrite bool_decide_true by done. cbn. by rewrite app_nil_r.
Qed.

Lemma omap_fmap {A B} (f : node → option B) (h : A → B) (g : A → node) (l : list A) :
  (∀ x, f (g x) = Some (h x)) → omap f (g <$> l) = h <$> l.
Proof. intros Hf. induction l as [|x l IH]; [done|]. cbn. by rewrite Hf, IH. Qed.

(** *** Servers *)

Definition shown_options (o : options) : list (string * option string) :=
  (λ kv, (kv.1, strip_text (Some kv.2))) <$> o.
Definition good_options (o : options) : bool := forallb (λ kv, good_name kv.1) o.

Lemma options_text_elements o tag attrib text tail :
  options_of (Element tag attrib text tail (text_elements o)) = shown_options o.
Proof.
  unfold options_of, text_elements, shown_options. cbn [children_of].
  induction o as [|[k v] o IH]; [done|]. cbn. by rewrite IH.
Qed.
Lemma good_text_elements o : forallb good (text_elements o) = good_options o.
Proof.
  induction o as [|[k v] o IH]; [done|]. cbn [text_elements fmap list_fmap forallb].
  unfold text_elements in IH. rewrite IH. simpl. by rewrite !andb_true_r.
Qed.
Lemma good_root_section section comment children :
  good_name section = true → without ">" comment = true → forallb good children = true →
  good (section_tree section comment children) = true.
Proof.
  intros H1 H2 H3. unfold section_tree. cbn [good forallb]. rewrite H1, H2, H3. done.
Qed.

Lemma servers_found servers config_d_dir config_file uid :
  without ">" uid = true → forallb (λ s, good_name s.1 && good_options s.2) servers = true →
  found read_servers (create_ldap_servers_config_content servers config_d_dir config_file uid)
    ((λ s, (s.1, shown_options s.2)) <$> servers).
Proof.
  intros Hu Hg.
  assert (read_servers (section_tree "ldap_servers" ("LDAP servers " +:+ uid) (option_elements servers)) =
    (λ s, (s.1, shown_options s.2)) <$> servers) as <-.
  { unfold read_servers. rewrite section_elements. cbn [elements mbind list_bind children_of].
    rewrite app_nil_r.
    apply (omap_fmap _ (λ s, (s.1, shown_options s.2))). intros [k o].
    cbn [tag_of fmap option_fmap option_map]. by rewrite options_text_elements. }
  unfold create_ldap_servers_config_content.
  apply (section_found read_servers); [apply servers_strip|]. apply good_root_section; [done| |].
  - by rewrite without_app, Hu.
  - unfold option_elements. induction servers as [|[k o] servers IH]; [done|].
    cbn [fmap list_fmap forallb fst snd] in *. apply andb_true_iff in Hg as [Hg Hs].
    rewrite IH by done. cbn [good]. rewrite good_text_elements. by rewrite andb_true_r, andb_true_r.
Qed.

(** *** Users *)

Lemma users_found users config_d_dir config_file uid :
  without ">" uid = true → forallb (λ u, good_name (lu_username u)) users = true →
  found read_users (create_ldap_users_config_content users config_d_dir config_file uid)
    ((λ u, (lu_username u, shown (Some (lu_server u)))) <$> users).
Proof.
  intros Hu Hg.
  assert (read_users (section_tree "users" ("LDAP users " +:+ uid) (user_element <$> users)) =
    (λ u, (lu_username u, shown (Some (lu_server u)))) <$> users) as <-.
  { unfold read_users. rewrite section_elements. cbn [elements mbind list_bind children_of].
    rewrite app_nil_r.
    apply (omap_fmap _ (λ u, (lu_username u, shown (Some (lu_server u))))). intros [k o]. cbn.
    by rewrite !app_nil_r. }
  unfold create_ldap_users_config_content.
  apply (section_found read_users); [apply users_strip|]. apply good_root_section; [done| |].
  - by rewrite without_app, Hu.
  - induction users as [|[k o] users IH]; [done|]. cbn in *. apply andb_true_iff in Hg as [Hg Hs].
    by rewrite Hg, IH.
Qed.

(** *** Directories *)

Definition present {A} (l : list (option A)) : list A := omap id l.
(** What the entries say *)
Definition entry_directory (e : directory_entry) : directory :=
  mkDirectory (present e.1 ≫= λ s, shown (Some s)) ((λ r, present (default [] r)) <$> e.2) [].
Definition good_entry (e : directory_entry) : bool :=
  forallb (λ r, forallb good_name (present (default [] r))) e.2.

Lemma option_elements_present {A B} (f : A → B) l :
  (l ≫= λ x : option A, match x with Some a => [f a] | None => [] end) = f <$> present l.
Proof.
  induction l as [|[a|] l IH]; [done| |exact IH]. exact (f_equal (cons (f a)) IH).
Qed.

Lemma roles_tags r : tags (roles_element r) = present (default [] r).
Proof.
  unfold tags, roles_element. cbn [children_of]. rewrite option_elements_present.
  induction (present (default [] r)) as [|a l IH]; [done|]. cbn. by rewrite IH.
Qed.
Lemma named_app tag t a x y l k :
  named tag (Element t a x y (l ++ k)) = named tag (Element t a x y l) ++ named tag (Element t a x y k).
Proof. unfold named. cbn [children_of]. apply List.filter_app. Qed.
Lemma named_none tag t a x y l :
  Forall (λ c, tag_of c ≠ Some tag) l → named tag (Element t a x y l) = [].
Proof.
  intros Hl. unfold named. cbn [children_of]. induction Hl as [|c l Hc Hl IH]; [done|].
  cbn [List.filter]. by rewrite bool_decide_false.
Qed.
Lemma named_all tag t a x y l :
  Forall (λ c, tag_of c = Some tag) l → named tag (Element t a x y l) = l.
Proof.
  intros Hl. unfold named. cbn [children_of]. induction Hl as [|c l Hc Hl IH]; [done|].
  cbn [List.filter]. by rewrite bool_decide_true, IH.
Qed.
Lemma settings_app p path t a x y l k :
  settings (p :: path) (Element t a x y (l ++ k)) =
  settings (p :: path) (Element t a x y l) ++ settings (p :: path) (Element t a x y k).
Proof. cbn [settings]. apply bind_app. Qed.
Lemma settings_none p path t a x y k :
  Forall (λ c, tag_of c ≠ Some p) k → settings (p :: path) (Element t a x y k) = [].
Proof.
  induction 1 as [|c k Hc Hk IH]; [done|]. rewrite (settings_app _ _ _ _ _ _ [c] k), IH, app_nil_r.
  destruct c as [tag ? ? ? ?|]; [|done]. cbn [settings mbind list_bind].
  rewrite (proj2 (String.eqb_neq tag p)); [done|]. simpl in Hc. congruence.
Qed.
Lemma settings_servers t a x y l k :
  Forall (λ c, tag_of c ≠ Some "server") k →
  settings ["server"] (Element t a x y (((λ s, xml_append "server" (Some s)) <$> l) ++ k)) =
  l ≫= λ s, shown (Some s).
Proof.
  intros Hk. rewrite settings_app, (settings_none _ _ _ _ _ _ k Hk), app_nil_r.
  induction l as [|s l IH]; [done|]. cbn [fmap list_fmap mbind list_bind].
  etrans; [exact (settings_app "server" [] t a x y [xml_append "server" (Some s)] _)|].
  rewrite IH. cbn. by rewrite app_nil_r.
Qed.

Lemma directory_read e : read_directory (directory_element e) = entry_directory e.
Proof.
  destruct e as [servers roles]. unfold read_directory, directory_element, entry_directory. cbn [fst snd].
  rewrite (option_elements_present (λ s, xml_append "server" (Some s))).
  assert (Forall (λ c, tag_of c = Some "roles") (roles_element <$> roles)) as Hr.
  { apply Forall_fmap, Forall_true. done. }
  f_equal.
  - apply (settings_servers _ _ _ _ (present servers)). eapply Forall_impl; [exact Hr|]. by intros c ->.
  - rewrite named_app, named_none, (named_all "roles" "ldap" [] None None _ Hr); [|by apply Forall_fmap, Forall_true].
    cbn [app]. rewrite <-list_fmap_compose. apply list_fmap_ext. intros i r _. apply roles_tags.
  - rewrite named_app, !named_none; [done|..]; [|by apply Forall_fmap, Forall_true].
    eapply Forall_impl; [exact Hr|]. by intros c ->.
Qed.

Lemma directories_found entries config_d_dir config_file uid :
  without ">" uid = true → forallb good_entry entries = true →
  found read_directories (create_entries_directory_config_content entries config_d_dir config_file uid)
    (entry_directory <$> entries).
Proof.
  intros Hu Hg.
  assert (read_directories (section_tree "user_directories" ("LDAP external user directories " +:+ uid)
      (directory_element <$> entries)) = entry_directory <$> entries) as <-.
  { unfold read_directories. rewrite section_elements. cbn [elements].
    change (named "ldap" (Element "user_directories" [] None None
        (Comment ("LDAP external user directories " +:+ uid) None :: (directory_element <$> entries)))) with
      (named "ldap" (Element "user_directories" [] None None (directory_element <$> entries))).
    rewrite named_all by by apply Forall_fmap, Forall_true.
    rewrite (list_bind_singleton id). rewrite list_fmap_id, <-list_fmap_compose.
    apply list_fmap_ext. intros i e _. apply directory_read. }
  unfold create_entries_directory_config_content.
  apply (section_found read_directories); [apply directories_strip|]. apply good_root_section; [done| |].
  - by rewrite without_app, Hu.
  - induction entries as [|e entries IH]; [done|]. cbn [fmap list_fmap forallb] in *.
    apply andb_true_iff in Hg as [Hg Hs]. rewrite IH by done. rewrite andb_true_r.
    clear -Hg. destruct e as [servers roles]. unfold directory_element, good_entry in *. cbn [fst snd] in *.
    cbn [good]. apply andb_true_iff. split; [done|]. rewrite forallb_app. apply andb_true_iff. split.
    + rewrite (option_elements_present (λ s, xml_append "server" (Some s))).
      by induction (present servers).
    + induction roles as [|r roles IH]; [done|]. cbn [fmap list_fmap forallb] in *.
      apply andb_true_iff in Hg as [Hg Hs]. rewrite IH by done. rewrite andb_true_r.
      unfold roles_element. rewrite option_elements_present. cbn [good]. clear -Hg.
      induction (present (default [] r)) as [|a l IH]; [done|]. cbn in *.
      apply andb_true_iff in Hg as [Hg Hs]. rewrite Hg. apply IH, Hs.
Qed.

(** *** Directories with role mappings *)

Definition mapping_element (m : options) : node := Element "role_mapping" [] None None (text_elements m).
Lemma mapping_children server roles mappings :
  ((((λ s, [(Key "server", VText (Some s))]) <$> given_text server) ++
    match roles with
    | Some ((_ :: _) as roles) => [[(Key "roles", VList ((λ r, [(Key r, VText None)]) <$> roles))]]
    | _ => []
    end ++
    ((λ m, [(Key "role_mapping", VDict (text_entries m))]) <$> mappings))
   ≫= λ e, (λ kv, xml_element kv.1 kv.2) <$> e) =
  ((λ s, xml_append "server" (Some s)) <$> given_text server) ++
  match roles with
  | Some ((_ :: _) as roles) => [Element "roles" [] None None ((λ r, xml_append r None) <$> roles)]
  | _ => []
  end ++ (mapping_element <$> mappings).
Proof.
  rewrite !bind_app. f_equal; [|f_equal].
  - induction (given_text server) as [|s l IH]; [done|]. cbn. by rewrite <-IH.
  - destruct roles as [[|r l]|]; [done| |done]. cbn [mbind list_bind fmap list_fmap app].
    cbn [fst snd xml_element key_name key_attrib]. do 2 f_equal.
    change ([(Key r, VText None)] :: ((λ r0, [(Key r0, VText None)]) <$> l)) with
      ((λ r0, [(Key r0, VText None)]) <$> (r :: l)).
    change (xml_append r None :: ((λ r0, xml_append r0 None) <$> l)) with
      ((λ r0, xml_append r0 None) <$> (r :: l)).
    induction (r :: l) as [|a k IH]; [done|]. cbn. by rewrite <-IH.
  - induction mappings as [|m l IH]; [done|]. cbn [fmap list_fmap mbind list_bind app].
    rewrite IH. f_equal. unfold mapping_element, text_elements, text_entries.
    cbn [fst snd xml_element key_name key_attrib]. f_equal. by rewrite <-list_fmap_compose.
Qed.

Lemma present_all {A} (l : list A) : present (Some <$> l) = l.
Proof. induction l as [|x l IH]; [done|]. exact (f_equal (cons x) IH). Qed.

(** What the arguments say *)
Definition roles_said (roles : option (list string)) : list (list string) :=
  match roles with Some ((_ :: _) as roles) => [roles] | _ => [] end.
Definition mapping_directory (server : option string) (roles : option (list string))
    (role_mappings : option (list options)) : directory :=
  mkDirectory (shown server) (roles_said roles) (shown_options <$> default [] role_mappings).
Lemma given_shown server : (given_text server ≫= λ s, shown (Some s)) = shown server.
Proof.
  destruct server as [s|]; [|done]. cbn [given_text].
  destruct (String.eqb_spec s EmptyString) as [->|]; [done|]. cbn. by rewrite app_nil_r.
Qed.
Lemma tags_append l : tags (Element "roles" [] None None ((λ r, xml_append r None) <$> l)) = l.
Proof. unfold tags. cbn [children_of]. induction l as [|r l IH]; [done|]. cbn. by rewrite IH. Qed.

Lemma mapping_read server roles mappings :
  read_directory (Element "ldap" [] None None
    (((λ s, xml_append "server" (Some s)) <$> given_text server) ++
     match roles with
     | Some ((_ :: _) as roles) => [Element "roles" [] None None ((λ r, xml_append r None) <$> roles)]
     | _ => []
     end ++ (mapping_element <$> mappings))) =
  mkDirectory (shown server) (roles_said roles) (shown_options <$> mappings).
Proof.
  set (R := match roles with Some ((_ :: _) as roles) => [_] | _ => [] end).
  assert (Forall (λ c, tag_of c = Some "roles") R) as HR.
  { unfold R. destruct roles as [[|r l]|]; by repeat constructor. }
  assert (Forall (λ c, tag_of c = Some "role_mapping") (mapping_element <$> mappings)) as HM
    by by apply Forall_fmap, Forall_true.
  assert (∀ t, t ≠ "server" → Forall (λ c, tag_of c ≠ Some t)
    ((λ s, xml_append "server" (Some s)) <$> given_text server)) as HS.
  { intros t Ht. apply Forall_fmap, Forall_true. intros s [= E]. congruence. }
  unfold read_directory. f_equal.
  - rewrite settings_servers, given_shown; [done|]. apply Forall_app. split;
      (eapply Forall_impl; [eassumption|]); by intros c ->.
  - rewrite !named_app, named_none by by apply HS.
    rewrite (named_all "roles" "ldap" [] None None R HR), named_none
      by (eapply Forall_impl; [exact HM|]; by intros c ->).
    rewrite app_nil_r. unfold R, roles_said. destruct roles as [[|r l]|]; [done| |done].
    cbn [fmap list_fmap app]. f_equal. apply (tags_append (r :: l)).
  - rewrite !named_app, named_none by by apply HS.
    rewrite (named_none "role_mapping" "ldap" [] None None R)
      by (eapply Forall_impl; [exact HR|]; by intros c ->).
    rewrite named_all by done. cbn [app]. rewrite <-list_fmap_compose.
    apply list_fmap_ext. intros i m _. apply options_text_elements.
Qed.

Definition good_arguments (uid : string) (roles : option (list string))
    (role_mappings : option (list options)) : bool :=
  without ">" uid && forallb good_name (default [] roles) &&
  forallb good_options (default [] role_mappings).

Lemma mapping_found server roles role_mappings config_d_dir config_file uid :
  good_arguments uid roles role_mappings = true →
  found read_directories
    (create_mapping_directory_config_content server roles role_mappings config_d_dir config_file uid)
    [mapping_directory server roles role_mappings].
Proof.
  unfold good_arguments. rewrite !andb_true_iff. intros [[Hu Hr] Hm].
  unfold create_mapping_directory_config_content.
  destruct (read_back (mapping_directory_entries server roles role_mappings) config_file config_d_dir
    "yandex" uid) as (n & Hn & Hs).
  { apply good_config; [done|by rewrite without_app, Hu|].
    unfold mapping_directory_entries. cbn [good_names forallb fst snd]. rewrite !andb_true_r.
    change (forallb (λ e, forallb (λ kv, good_key kv.1 && good_names kv.2) e)
      (((λ s, [(Key "server", VText (Some s))]) <$> given_text server) ++
       match roles with
       | Some ((_ :: _) as roles) => [[(Key "roles", VList ((λ r, [(Key r, VText None)]) <$> roles))]]
       | _ => []
       end ++
       ((λ m, [(Key "role_mapping", VDict (text_entries m))]) <$> default [] role_mappings)) = true).
    rewrite !forallb_app, !andb_true_iff. split_and!.
    - by induction (given_text server).
    - destruct roles as [[|r l]|]; [done| |done]. cbn [forallb fst snd good_names]. rewrite !andb_true_r.
      cbn [default] in Hr. clear -Hr. change (forallb (λ e, forallb (λ kv, good_key kv.1 && good_names kv.2) e)
        ((λ r0, [(Key r0, VText None)]) <$> (r :: l)) = true).
      induction (r :: l) as [|a k IH]; [done|]. cbn in *. apply andb_true_iff in Hr as [Ha Hk].
      unfold good_key. simpl. rewrite Ha. by apply IH.
    - clear -Hm. induction (default [] role_mappings) as [|m l IH]; [done|].
      cbn [fmap list_fmap forallb fst snd good_names] in *. apply andb_true_iff in Hm as [Ha Hk].
      rewrite IH by done. rewrite !andb_true_r. clear -Ha. unfold text_entries, good_options in *.
      change (forallb (λ kv, good_key kv.1 && good_names kv.2) ((λ kv, (Key kv.1, VText (Some kv.2))) <$> m) = true).
      induction m as [|[k v] m IH]; [done|]. cbn in *. apply andb_true_iff in Ha as [Ha Hk].
      unfold good_key. simpl. rewrite Ha. by apply IH. }
  exists n. split; [done|]. rewrite <-directories_strip, Hs, directories_strip.
  unfold read_directories, config_tree, mapping_directory_entries, create_xml_tree.
  cbn [elements named children_of fmap list_fmap fst snd xml_element key_name key_attrib].
  rewrite mapping_children.
  match goal with |- context [Element "ldap" [] None None ?c] => set (D := Element "ldap" [] None None c) end.
  change ([read_directory D] = [mapping_directory server roles role_mappings]).
  f_equal. apply mapping_read.
Qed.

(** C38: The two functions that write the configuration of an external user
    directory agree: each file is XML in which a server finds one directory with
    the given server and the given roles in their order, for the second also
    with all options of the role mappings; with at least one role and without
    mappings they say the same.  Without roles they differ, as the first writes
    an empty list of roles and the second none. *)
Theorem directory_configs_agree server roles role_mappings config_d_dir1 config_file1 uid1
    config_d_dir2 config_file2 uid2 :
  good_arguments uid1 roles None = true → good_arguments uid2 roles role_mappings = true →
  found read_directories
    (create_directory_config_content server roles config_d_dir1 config_file1 uid1)
    [mkDirectory (shown server) [default [] roles] []] ∧
  found read_directories
    (create_mapping_directory_config_content server roles role_mappings config_d_dir2 config_file2 uid2)
    [mapping_directory server roles role_mappings] ∧
  (mkDirectory (shown server) [default [] roles] [] = mapping_directory server roles role_mappings ↔
   default [] roles ≠ [] ∧ default [] role_mappings = []).
Proof.
  intros H1 H2. split; [|split].
  - unfold good_arguments in H1. rewrite !andb_true_iff in H1. destruct H1 as [[Hu Hr] _].
    assert (entry_directory ([server], [fmap (M:=list) Some <$> roles]) =
      mkDirectory (shown server) [default [] roles] []) as <-.
    { unfold entry_directory. cbn [fst snd fmap list_fmap]. f_equal.
      - destruct server as [s|]; [|done]. cbn. by rewrite app_nil_r.
      - f_equal. by destruct roles as [l|]; [apply present_all|]. }
    apply (directories_found [_]); [done|]. cbn [forallb]. rewrite andb_true_r. unfold good_entry.
    cbn [forallb snd]. rewrite andb_true_r. destruct roles as [l|]; [|done].
    change (forallb good_name (present (Some <$> l)) = true). by rewrite present_all.
  - by apply mapping_found.
  - unfold mapping_directory. split.
    + intros E. pose proof (f_equal d_roles E) as Hr. pose proof (f_equal d_mappings E) as Hm.
      split; [by destruct roles as [[|r l]|]|by destruct (default [] role_mappings)].
    + intros [Hr ->]. f_equal. by destruct roles as [[|r l]|].
Qed.

Lemma directory_configs_agree_witness :
  good_arguments "u1" (Some ["role1"]) None = true ∧
  found read_directories
    (create_mapping_directory_config_content (Some "openldap1") (Some ["role1"]) None "/d" "f.xml" "u1")
    [mkDirectory ["openldap1"] [["role1"]] []].
Proof.
  split; [reflexivity|].
  exact (proj1 (proj2 (directory_configs_agree (Some "openldap1") (Some ["role1"]) None "/d" "f.xml" "u1"
    "/d" "f.xml" "u1" eq_refl eq_refl))).
Defined.

(** C39: The file that defines LDAP servers says what it is given: a server reads
    the servers in their order, each with all of its options and their texts, up
    to blank ones; texts may hold any characters. *)
Theorem ldap_servers_read_back servers config_d_dir config_file uid :
  without ">" uid = true → forallb (λ s, good_name s.1 && good_options s.2) servers = true →
  found read_servers (create_ldap_servers_config_content servers config_d_dir config_file uid)
    ((λ s, (s.1, shown_options s.2)) <$> servers).
Proof. apply servers_found. Qed.

Definition demo_servers : disks :=
  [("openldap1", [("host", "openldap1"); ("port", "389"); ("auth_dn_suffix", ",ou=users & <groups>")])].
Lemma ldap_servers_read_back_witness :
  found read_servers (create_ldap_servers_config_content demo_servers "/d" "f.xml" "u")
    [("openldap1", [("host", Some "openldap1"); ("port", Some "389");
                    ("auth_dn_suffix", Some ",ou=users & <groups>")])].
Proof. exact (ldap_servers_read_back demo_servers "/d" "f.xml" "u" eq_refl eq_refl). Defined.
