(* ===== verification/LdapSteps.v ===== *)
(** * The steps of the ldap suites on servers

    The context managers and checks of ldap/authentication/tests/common.py,
    ldap/external_user_directory/tests/common.py and
    ldap/role_mapping/tests/common.py that work on ClickHouse servers: adding
    configurations, users and roles, configurations that a server must refuse,
    and logging in. *)
From stdpp Require Import gmap.
From Stdlib Require Import Ascii.
From S2P Require Import Prelude PyStr PyDict PyMonad World Cluster Termination Query NodeLog XmlConfig Rbac Lifecycle Order Steps StorageConfig LdapConfig.
Local Open Scope Z_scope.

(** What the steps need of nodes: the calls of other steps, SQL, and
    [node.restart(safe, wait_healthy)] *)
Class LdapApi (S : Type) := {
  l_nodes :: NodeApi S;
  l_query : string → string → query_args → M S shell_result;
  l_restart : string → bool → bool → M S unit
}.
#[export] Hint Mode LdapApi ! : typeclass_instances.

(** A query as a user *)
Definition login_args (username password : string) (exitcode : option Z) (message : option string)
    (no_checks : bool) (timeout : option Z) : query_args :=
  mkQuery message exitcode no_checks false false [("user", username); ("password", password)] 5 None
    (sec 5) false "-0" None false false None "echo -e" timeout.

(** The users that [login] is given: dictionaries in which [login], [exitcode]
    and [message] may be missing, and [password] too *)
Record login_user := mkLogin {
  l_user : directory_user; l_login : bool; l_password : option string; l_exitcode : option Z;
  l_message : option string
}.

(** Where the steps write configurations *)
Definition users_d : string := "/etc/clickhouse-server/users.d".

Section steps.
Context {S : Type} `{LdapApi S}.
Variables (fuel : nat) (debug : bool).
(** [current().context.node] *)
Variable context_node : string.
Abbreviation M := (M S).

Definition on_node (node : option string) : string := default context_node node.
(** [node.query(sql)] *)
Definition do_query (node sql : string) : M unit := l_query node sql query0;; mret tt.
(** [with By(.., flags=TE): m] *)
Definition with_te (m : M unit) : M unit :=
  try_except m (λ e, if api_absorbs (S:=S) e then mret tt else raise e).

(** *** Configurations *)

Definition modify_config {A} (config : Config) (restart : bool) (node : option string) (body : M A) : M A :=
  add_config fuel debug (on_node node) config (sec 300) restart true None true true body.

(** The parameter [timeout] of [ldap_servers] is not passed on. *)
Definition ldap_servers {A} (servers : disks) (config_d_dir config_file uid : string) (timeout : Z)
    (restart : bool) (config : option Config) (node : option string) (body : M A) : M A :=
  add_config fuel debug (on_node node)
    (default (create_ldap_servers_config_content servers config_d_dir config_file uid) config)
    (sec 300) restart false None true true body.
Definition add_ldap_servers_configuration {A} (servers : disks) (config : option Config)
    (config_d_dir config_file uid : string) (timeout : Z) (restart : bool) (node : option string)
    (body : M A) : M A :=
  ldap_servers servers config_d_dir config_file uid timeout restart config node body.
(** [with ldap_servers(servers): body] *)
Definition with_servers {A} (servers : disks) (uid : string) (body : M A) : M A :=
  ldap_servers servers config_d "ldap_servers.xml" uid (sec 300) false None None body.

Definition add_users_identified_with_ldap {A} (users : list directory_user) (node : option string)
    (body : M A) : M A :=
  bracket
    (for_ users (λ u, do_query (on_node node)
       ("CREATE USER '" +:+ lu_username u +:+ "' IDENTIFIED WITH LDAP SERVER '" +:+ lu_server u +:+ "'")))
    (λ _, body)
    (for_ users (λ u, with_te
       (do_query (on_node node) ("DROP USER IF EXISTS '" +:+ lu_username u +:+ "'")))).

(** [uid1] is the result of [getuid] for the name of the file, [uid2] the one
    for the content. *)
Definition ldap_authenticated_users {A} (users : list directory_user) (config_d_dir : string)
    (config_file : option string) (uid1 uid2 : string) (timeout : Z) (restart : bool)
    (config : option Config) (rbac : bool) (node : option string) (body : M A) : M A :=
  if rbac then add_users_identified_with_ldap users node body
  else
    let config_file := default ("ldap_users_" +:+ uid1 +:+ ".xml") config_file in
    add_config fuel debug (on_node node)
      (default (create_ldap_users_config_content users config_d_dir config_file uid2) config)
      timeout restart false None true true body.
Definition add_ldap_authenticated_users {A} (users : list directory_user) (config_file : option string)
    (uid1 uid2 : string) (rbac : bool) (node : option string) (restart : bool) (body : M A) : M A :=
  let config_file := default ("ldap_users_" +:+ uid1 +:+ ".xml") config_file in
  ldap_authenticated_users users users_d (Some config_file) uid1 uid2 (sec 300) restart None rbac node body.

Definition ldap_external_user_directory {A} (server : option string) (roles : option (list string))
    (config_d_dir : string) (config_file : option string) (uid1 uid2 : string) (timeout : Z)
    (restart : bool) (config : option Config) (body : M A) : M A :=
  let config_file := default ("ldap_external_user_directory_" +:+ uid1 +:+ ".xml") config_file in
  add_config fuel debug context_node
    (default (create_directory_config_content server roles config_d_dir config_file uid2) config)
    (sec 300) restart false None true true body.
Definition add_ldap_external_user_directory {A} (server : option string) (roles : option (list string))
    (role_mappings : option (list options)) (config_d_dir : string) (config_file : option string)
    (uid1 uid2 : string) (timeout : Z) (restart : bool) (config : option Config) (node : option string)
    (body : M A) : M A :=
  let config_file :=
    default ("ldap_external_user_directory_with_role_mapping_" +:+ uid1 +:+ ".xml") config_file in
  add_config fuel debug (on_node node)
    (default (create_mapping_directory_config_content server roles role_mappings config_d_dir
                config_file uid2) config)
    (sec 300) restart false None true true body.

(** *** Tables, users and roles of the server *)

(** [table] of external_user_directory and [create_table] of role_mapping *)
Definition ldap_table {A} (name create_statement : string) (on_cluster : option string)
    (node : option string) (body : string → M A) : M A :=
  bracket
    (sql ← lift (format [("name", name)] create_statement); do_query (on_node node) sql;; mret name)
    body
    (do_query (on_node node)
       ("DROP TABLE IF EXISTS " +:+ name +:+
        match on_cluster with
        | Some c => if String.eqb c EmptyString then EmptyString else " ON CLUSTER " +:+ c
        | None => EmptyString
        end)).

Definition create_local_user (node username password : string) : M unit :=
  do_query node ("CREATE USER OR REPLACE " +:+ username +:+ " IDENTIFIED WITH PLAINTEXT_PASSWORD BY '" +:+
                 password +:+ "'").
Definition drop_local_user (node username : string) : M unit :=
  with_te (do_query node ("DROP USER IF EXISTS " +:+ username)).

(** Users with their [cn] and [userpassword] *)
Definition rbac_users {A} (users : list (string * string)) (node : option string)
    (body : list (string * string) → M A) : M A :=
  bracket (for_ users (λ u, create_local_user (on_node node) u.1 u.2);; mret users) body
    (for_ users (λ u, drop_local_user (on_node node) u.1)).
(** [user.get(k1, None) or user[k2]] *)
Definition user_key (k1 k2 : string) (user : dict string string) : M string :=
  match dget k1 user with
  | Some s => if String.eqb s EmptyString then lift (or_raise (KeyError k2) (dget k2 user)) else mret s
  | None => lift (or_raise (KeyError k2) (dget k2 user))
  end.
Definition add_rbac_users {A} (users : list (dict string string)) (node : option string)
    (body : list (dict string string) → M A) : M A :=
  bracket
    (for_ users (λ u,
       username ← user_key "username" "cn" u;
       password ← user_key "password" "userpassword" u;
       create_local_user (on_node node) username password);; mret users)
    body
    (for_ users (λ u, username ← user_key "username" "cn" u; drop_local_user (on_node node) username)).
Definition rbac_roles {A} (roles : list string) (node : option string) (body : list string → M A) : M A :=
  bracket (for_ roles (λ r, do_query (on_node node) ("CREATE ROLE OR REPLACE " +:+ r));; mret roles) body
    (for_ roles (λ r, with_te (do_query (on_node node) ("DROP ROLE IF EXISTS " +:+ r)))).
Definition add_rbac_roles {A} (roles : list string) (node : option string) (body : list string → M A) : M A :=
  rbac_roles roles node body.

(** *** Restarting a server *)

(** [restart] of authentication: the message in the log is waited for. *)
Definition restart_and_wait (node : option string) (safe : bool) (timeout : Z) : M unit :=
  let node := on_node node in
  bash ← api_shell node;
  api_enter bash;;
  try_finally
    (api_expect bash Prompt None false;;
     api_close bash;;
     r ← api_command (Some node) "stat --format=%s /var/log/clickhouse-server/clickhouse-server.log" args0;
     let logsize := first_word (output r) in
     l_restart node safe true;;
     api_open bash;;
     api_send bash ("tail -c +" +:+ logsize +:+ " -f /var/log/clickhouse-server/clickhouse-server.log");;
     api_expect bash (Regex (loaded_regex "config.xml")) (Some timeout) false;;
     mret tt)
    (api_exit bash).

(** *** Configurations that a server must refuse *)

(** [echo -e "..." > clickhouse-server.err.log], with [tail] times a text *)
Definition clear_errors (node text : string) (tail : Z) : M unit :=
  api_command (Some node) ("echo -e " +:+ q (str_repeat tail text) +:+ " > " +:+ err_log) args0;; mret tt.
Definition grep_errors (tail : Z) (message : string) : string :=
  "tail -n " +:+ str_Z tail +:+ " " +:+ err_log +:+ " | grep " +:+ q message.
(** [while time.time() - started < timeout: ...; assert exitcode == 0] *)
Definition wait_command (node command : string) (timeout : Z) : M unit :=
  started ← api_time;
  exitcode ← poll fuel node command 0 timeout started None;
  assert_exitcode exitcode 0.

Definition refused_config (text : string) (config : Config) (message : string) (tail timeout : Z) : M unit :=
  try_finally
    (clear_errors context_node text tail;;
     write_config context_node config;;
     wait_command context_node (grep_errors tail message) timeout)
    (run_ok context_node ("rm -rf " +:+ path config)).

Definition failed_to_merge (file : string) : string :=
  "Exception: Failed to merge config with '/etc/clickhouse-server/" +:+ file +:+ "'".
Definition invalid_server_config (servers : disks) (message : option string) (tail timeout : Z)
    (uid : string) : M unit :=
  refused_config ("-" +:+ "\n")
    (create_ldap_servers_config_content servers config_d "ldap_servers.xml" uid)
    (default (failed_to_merge "config.d/ldap_servers.xml") message) tail timeout.
Definition invalid_user_config (servers : disks) (config : Config) (message : option string)
    (tail timeout : Z) (uid : string) : M unit :=
  with_servers servers uid
    (refused_config "\n" config (default (failed_to_merge "users.d/ldap_users.xml") message) tail timeout).

(** [dir] is [current_dir()]. *)
Definition invalid_ldap_external_user_directory_config (dir : string) (server : option string)
    (roles : option (list string)) (message : string) (tail timeout : Z) (config : option Config)
    (uid : string) : M unit :=
  let config := default (create_directory_config_content server roles config_d
                           "ldap_external_user_directories.xml" uid) config in
  try_finally
    (clear_errors context_node ("-" +:+ "\n") tail;;
     write_config context_node config;;
     wait_command context_node (grep_uid debug config) timeout;;
     l_restart context_node false false)
    (host_command ("rm -rf " +:+
       path_join (path_join (path_join (path_join (path_join dir "..") "configs") context_node) "config.d")
         (List.last (split "config.d/" (path config)) EmptyString)) timeout;;
     l_restart context_node false true);;
  wait_command context_node (grep_errors tail message) timeout.

(** *** Logging in *)

(** The queries of [login] *)
Definition log_in (u : login_user) : M unit :=
  when (l_login u)
    (password ← lift (or_raise (KeyError "password") (l_password u));
     l_query context_node "SELECT 1"
       (login_args (lu_username (l_user u)) password (l_exitcode u) (l_message u) false None);;
     mret tt).
Definition login (servers : disks) (users : list login_user) (config : option Config)
    (uid uid1 uid2 : string) : M unit :=
  with_servers servers uid
    (ldap_authenticated_users (l_user <$> users) users_d None uid1 uid2 (sec 300) true config false None
       (for_ users log_in)).
(** [login] of external_user_directory: the directory uses the host of one of
    the servers. *)
Definition login_directory (servers : disks) (directory_server : string) (users : list login_user)
    (config : option Config) (uid role_uid uid1 uid2 : string) : M unit :=
  with_servers servers uid
    (rbac_roles ["role_" +:+ role_uid] None (λ roles,
       host ← lift (server ← or_raise (KeyError directory_server) (dget directory_server servers);
                    or_raise (KeyError "host") (dget "host" server));
       ldap_external_user_directory (Some host) (Some roles) config_d None uid1 uid2 (sec 60) true config
         (for_ users log_in))).

(** The exit code and message that a login waits for *)
Definition wanted_login (exitcode_ : option Z) (message : option string) (r : shell_result) : bool :=
  (exitcode r =? default 0 exitcode_) &&
  match message with Some m => contains m (output r) | None => true end.

(** [while True: ...] *)
Fixpoint login_loop (n : nat) (username password : string) (exitcode_ : option Z)
    (message : option string) (timeout started : Z) : M unit :=
  match n with
  | O => hang OutOfFuel
  | Datatypes.S n =>
      r ← l_query context_node "SELECT 1" (login_args username password None None true (Some timeout));
      if wanted_login exitcode_ message r then mret tt
      else
        t ← api_time;
        if timeout <? t - started then raise (Fail "timeout trying to login")
        else login_loop n username password exitcode_ message timeout started
  end.
Definition login_and_execute_query (username password : string) (exitcode_ : option Z)
    (message : option string) (timeout : Z) (poll_ : bool) : M unit :=
  if poll_ then
    started ← api_time;
    login_loop fuel username password exitcode_ message timeout started
  else
    l_query context_node "SELECT 1"
      (login_args username password (Some (default 0 exitcode_)) message false (Some timeout));;
    mret tt.
End steps.

(** The cluster implements the interface. *)
Definition cluster_ldap {W} `{Env W, Retrying W, TerminalEnv W} (fuel : nat) (cl : config)
    : LdapApi (st W) := {|
  l_nodes := cluster_api fuel cl;
  l_query := query fuel cl;
  l_restart node safe wait_healthy :=
    ClickHouseNode_restart fuel cl node (sec 300) safe true wait_healthy 5 None
|}.

(** ** What is done when a step returns *)

Section order.
Context {S : Type} {N : NodeApi S} {L : NodeLaws S}.
#[local] Existing Instance answers_api.
Abbreviation LS := (logged (call * answer) S).
Abbreviation item := ((call * answer)%type).

(** Queries and restarts, and what they leave in the log *)
Variables (run_query : string → string → query_args → M LS shell_result)
  (asked : string → string → query_args → item → Prop)
  (restart_node : string → bool → bool → M LS unit) (restarted : string → bool → item → Prop).
Hypothesis Hquery : ∀ node sql a, leaves (run_query node sql a) (λ _ l, in_order [asked node sql a] l).
Hypothesis Hrestart : ∀ node safe wait_healthy,
  leaves (restart_node node safe wait_healthy) (λ _ l, in_order [restarted node wait_healthy] l).
Definition recorded_ldap : LdapApi LS :=
  {| l_nodes := answers_api N; l_query := run_query; l_restart := restart_node |}.
#[local] Existing Instance recorded_ldap.

Variables (fuel : nat) (debug : bool) (context_node : string).

Definition exited (cmd : string) (n : Z) : item → Prop := exited_with context_node cmd n.

(** A configuration around what is done *)
Definition around (node : string) (config : Config) (timeout : Z) (restart : bool)
    (ps : list (item → Prop)) : list (item → Prop) :=
  installed debug node config timeout restart None true ++ ps ++
  removed debug node config timeout restart true.
Lemma leaves_around {A} node config timeout restart (body : M LS A) ps :
  leaves body (λ _ l, in_order ps l) →
  leaves (add_config fuel debug node config timeout restart false None true true body)
    (λ _ l, in_order (around node config timeout restart ps) l).
Proof using L.
  intros Hb. eapply leaves_mono; [by apply leaves_add_config|].
  intros a l (before & test & after & -> & H1 & H2 & H3).
  apply in_order_app; [done|]. by apply in_order_app.
Qed.

(** *** Logging in *)

Definition logins (users : list login_user) : list (item → Prop) :=
  users ≫= λ u, if l_login u then [λ x, ∃ password, l_password u = Some password ∧
    asked context_node "SELECT 1"
      (login_args (lu_username (l_user u)) password (l_exitcode u) (l_message u) false None) x] else [].

Lemma leaves_log_in users :
  leaves (for_ users (log_in (S:=LS) context_node)) (λ _ l, in_order (logins users) l).
Proof using Hquery.
  apply leaves_for. intros u. unfold log_in. apply leaves_when.
  destruct (l_password u) as [password|]; [|apply leaves_raise].
  apply (leaves_mono (run_query context_node "SELECT 1" (login_args (lu_username (l_user u)) password
    (l_exitcode u) (l_message u) false None);; mret tt) (λ _ l, in_order [asked context_node "SELECT 1"
    (login_args (lu_username (l_user u)) password (l_exitcode u) (l_message u) false None)] l)).
  - apply (leaves_seq _ _ [_] []); [apply Hquery|]. intros r. apply leaves_ret, in_order_nil.
  - intros _ l. apply in_order_mono. repeat constructor. intros x Hx. by exists password.
Qed.

(** C31: When [login] returns, the LDAP servers were added to the server and
    the server said that it loaded them, then the users, for which it was
    restarted, then every user who has to log in has run its query, in the given
    order and with its own name and password; and then the configurations were
    removed again, the last first, and the server loaded it each time. *)
Theorem login_in_order servers users config uid uid1 uid2 :
  leaves (login (S:=LS) fuel debug context_node servers users config uid uid1 uid2)
    (λ _ l, in_order
       (around context_node (create_ldap_servers_config_content servers config_d "ldap_servers.xml" uid)
          (sec 300) false
          (around context_node
             (default (create_ldap_users_config_content (l_user <$> users) users_d
                         ("ldap_users_" +:+ uid1 +:+ ".xml") uid2) config)
             (sec 300) true (logins users))) l).
Proof using L Hquery. apply leaves_around, leaves_around, leaves_log_in. Qed.

(** *** Configurations that are refused *)

Lemma leaves_command_any node cmd a :
  leaves (api_command (S:=LS) node cmd a;; mret tt) (λ _ l, in_order [] l).
Proof using. apply (leaves_seq _ _ [] []); [apply leaves_any|]. intros r. apply leaves_ret, in_order_nil. Qed.
Lemma leaves_wait_command node cmd timeout :
  leaves (wait_command (S:=LS) fuel node cmd timeout) (λ _ l, in_order [exited_with node cmd 0] l).
Proof using.
  unfold wait_command. eapply leaves_bind; [apply leaves_grows, _|]. intros t. cbv beta.
  eapply leaves_bind; [by apply leaves_poll|]. intros e. cbv beta.
  unfold assert_exitcode. destruct e as [e|]; [|apply leaves_raise].
  unfold assert_. destruct (Z.eqb_spec e 0) as [->|]; [|apply leaves_raise].
  apply leaves_ret. intros l1 Hl l2 _. apply in_order_skip_l. rewrite app_nil_r. by apply Hl.
Qed.
Lemma leaves_write config :
  leaves (write_config (S:=LS) context_node config)
    (λ _ l, in_order [exited (heredoc "HEREDOC" (path config) (content config)) 0] l).
Proof using L. apply (leaves_seq _ _ [_] []); [apply leaves_exit|]. intros r. apply leaves_ret, in_order_nil. Qed.

Definition refused (config : Config) (message : string) (tail : Z) : list (item → Prop) :=
  [exited (heredoc "HEREDOC" (path config) (content config)) 0; exited (grep_errors tail message) 0;
   exited ("rm -rf " +:+ path config) 0].
Lemma leaves_refused text config message tail timeout :
  leaves (refused_config (S:=LS) fuel context_node text config message tail timeout)
    (λ _ l, in_order (refused config message tail) l).
Proof using L.
  unfold refused_config. apply (leaves_try_finally _ _ [_; _] [_]).
  - apply (leaves_seq _ _ []); [apply leaves_command_any|]. intros _.
    apply (leaves_seq _ _ [_] [_]); [apply leaves_write|]. intros _. apply leaves_wait_command.
  - apply (leaves_seq _ _ [_] []); [apply leaves_exit|]. intros r. apply leaves_ret, in_order_nil.
Qed.

(** The checks that a server refuses a configuration, with what is in the log
    when they return *)
Definition ran_on_host (cmd : string) (timeout : Z) (x : item) : Prop :=
  ∃ r, x = (CCommand None cmd (mkArgs None None (Code 0) None false (Some timeout)), Result r).
Inductive invalid_check : M LS unit → list (item → Prop) → Prop :=
  | invalid_server servers message tail timeout uid :
      invalid_check (invalid_server_config fuel context_node servers message tail timeout uid)
        (refused (create_ldap_servers_config_content servers config_d "ldap_servers.xml" uid)
           (default (failed_to_merge "config.d/ldap_servers.xml") message) tail)
  | invalid_user servers config message tail timeout uid :
      invalid_check (invalid_user_config fuel debug context_node servers config message tail timeout uid)
        (around context_node (create_ldap_servers_config_content servers config_d "ldap_servers.xml" uid)
           (sec 300) false
           (refused config (default (failed_to_merge "users.d/ldap_users.xml") message) tail))
  | invalid_directory dir server roles message tail timeout config uid :
      let c := default (create_directory_config_content server roles config_d
                          "ldap_external_user_directories.xml" uid) config in
      invalid_check (invalid_ldap_external_user_directory_config fuel debug context_node dir server roles
                       message tail timeout config uid)
        [exited (heredoc "HEREDOC" (path c) (content c)) 0; exited (grep_uid debug c) 0;
         restarted context_node false;
         ran_on_host ("rm -rf " +:+
           path_join (path_join (path_join (path_join (path_join dir "..") "configs") context_node) "config.d")
             (List.last (split "config.d/" (path c)) EmptyString)) timeout;
         restarted context_node true; exited (grep_errors tail message) 0].

(** C40: When a check returns that a server refuses a configuration, the file was
    written, then the message was found in the error log, and the file is
    removed; for users this happens while the LDAP servers are configured; for
    directories the server had seen the file and was restarted with it, the file
    was removed and the server restarted, and only then the message was
    found. *)
Theorem invalid_configs_detected m ps : invalid_check m ps → leaves m (λ _ l, in_order ps l).
Proof using L Hrestart.
  intros Hm. destruct Hm as [servers message tail timeout uid|servers config message tail timeout uid
    |dir server roles message tail timeout config uid c].
  - apply leaves_refused.
  - apply leaves_around, leaves_refused.
  - unfold invalid_ldap_external_user_directory_config. cbv zeta. fold c.
    apply (leaves_seq _ _ [_; _; _; _; _] [_]); [|intros _; apply leaves_wait_command].
    apply (leaves_try_finally _ _ [_; _; _] [_; _]).
    + apply (leaves_seq _ _ []); [apply leaves_command_any|]. intros _.
      apply (leaves_seq _ _ [_] [_; _]); [apply leaves_write|]. intros _.
      apply (leaves_seq _ _ [_] [_]); [apply leaves_wait_command|]. intros _. apply Hrestart.
    + apply (leaves_seq _ _ [_] [_]); [|intros _; apply Hrestart].
      apply (leaves_seq _ _ [_] []); [|intros r; apply leaves_ret, in_order_nil].
      eapply leaves_mono; [apply leaves_command|]. intros r l ->. apply (in_order_last _ []). by exists r.
Qed.
End order.

(** ** Trying to log in *)

Section polling.
Context {S : Type} {K : LdapApi S} {L : NodeLaws S}.
Variables (context_node username password : string) (exitcode_ : option Z) (message : option string)
  (timeout : Z).
(** The query of a login takes time. *)
Hypothesis Htakes : ∀ node sql a (s : S), clock s < clock (l_query node sql a s).2.
Abbreviation attempt :=
  (l_query context_node "SELECT 1" (login_args username password None None true (Some timeout))).

(** The outcome of a loop that started at a time *)
Definition login_outcome (started : Z) (r : res unit) (s' : S) : Prop :=
  match r with
  | Ok _ => ∃ s1 r, attempt s1 = (Ok r, s') ∧ wanted_login exitcode_ message r = true
  | Exc e => e = Fail "timeout trying to login" ∧ started + timeout < clock s' ∨
             (∃ s1, attempt s1 = (Exc e, s'))
  | Stuck w => ∃ s1, attempt s1 = (Stuck w, s')
  end.

Lemma login_loop_run n started s : (Z.to_nat (timeout - (clock s - started) + 1) < n)%nat →
  match login_loop context_node n username password exitcode_ message timeout started s with
  | (r, s') => login_outcome started r s'
  end.
Proof using L Htakes.
  revert s. induction n as [|n IH]; intros s Hn; [lia|]. cbn [login_loop].
  pose proof (Htakes context_node "SELECT 1" (login_args username password None None true (Some timeout)) s)
    as Ht.
  unfold mbind at 1, M_bind at 1.
  destruct (attempt s) as [[r|e|w] s1] eqn:E; [|right; by exists s|by exists s].
  destruct (wanted_login exitcode_ message r) eqn:Hw; [by exists s, r|].
  erewrite M_bind_Ok by apply api_clock. cbv beta. simpl in Ht.
  destruct (Z.ltb_spec timeout (clock s1 - started)) as [Hs|Hs].
  - left. split; [done|lia].
  - apply IH. lia.
Qed.

(** Trying to log in ends: with fuel for one attempt per microsecond of the
    timeout it never runs out, however the server answers; it returns only after
    an attempt that exited with the wanted code and said the wanted message, and
    it fails only after the timeout has passed. *)
Lemma login_attempts_end fuel s : (Z.to_nat (timeout + 1) < fuel)%nat →
  match login_and_execute_query fuel context_node username password exitcode_ message timeout true s with
  | (r, s') => login_outcome (clock s) r s'
  end.
Proof using L Htakes.
  intros Hf. unfold login_and_execute_query. erewrite M_bind_Ok by apply api_clock. cbv beta.
  apply login_loop_run. lia.
Qed.
End polling.

(** ** Witnesses *)

(** A node that knows whether the last file was written or removed: commands that
    look for it exit with 0 or 1. *)
Definition file_api : NodeApi (Z * bool) :=
  let ok (s : Z * bool) : res unit * (Z * bool) := (Ok tt, s) in {|
  api_command _ cmd a s :=
    let removed := if startswith "rm -rf" cmd then true else if startswith "cat <<" cmd then false else s.2 in
    (Ok (mkResult (match exitcode_ a with Code n => n | _ => if removed then 1 else 0 end) EmptyString),
     (s.1 + 1, removed));
  api_bash _ s := (Ok 0%nat, s);
  api_call _ _ s := (Ok (mkResult 0 EmptyString), s);
  api_shell _ s := (Ok 0%nat, s);
  api_enter _ := ok; api_exit _ := ok; api_close _ := ok; api_open _ := ok; api_send _ _ := ok;
  api_expect _ _ _ _ s := (Ok [], s);
  api_stop_clickhouse _ _ := ok;
  api_start_clickhouse _ _ _ := ok;
  api_restart_clickhouse _ _ _ _ := ok;
  api_environ _ s := (Ok "/tests", s);
  api_time s := (Ok s.1, s);
  api_sleep t s := (Ok tt, (s.1 + Z.max 0 t, s.2));
  api_absorbs _ := false
|}.
Definition file_laws : @NodeLaws (Z * bool) file_api.
Proof.
  refine (@Build_NodeLaws (Z * bool) file_api _ fst _ _ _); simpl.
  - intros node cmd n s r s' [= <- _]. done.
  - done.
  - intros node cmd a s. lia.
  - intros t s. eexists. split; [done|]. simpl. lia.
Defined.

Abbreviation demo_state := (logged (call * answer) (Z * bool)).
Definition demo_query (node sql : string) (a : query_args) : M demo_state shell_result :=
  log_call pair (CCall 0 sql) Result (λ s, (Ok (mkResult 0 "1"), s)).
Definition demo_restart (node : string) (safe wait_healthy : bool) : M demo_state unit :=
  log_call pair (CRestart node safe wait_healthy None) (λ _, Done) (λ s, (Ok tt, s)).
Definition demo_asked (node sql : string) (a : query_args) (x : call * answer) : Prop :=
  ∃ r, x = (CCall 0 sql, Result r).
Definition demo_restarted (node : string) (wait_healthy : bool) (x : call * answer) : Prop :=
  ∃ safe, x = (CRestart node safe wait_healthy None, Done).
Lemma demo_query_leaves node sql a :
  leaves (demo_query node sql a) (λ _ l, in_order [demo_asked node sql a] l).
Proof. apply leaves_call. intros r. by exists r. Qed.
Lemma demo_restart_leaves node safe wait_healthy :
  leaves (demo_restart node safe wait_healthy) (λ _ l, in_order [demo_restarted node wait_healthy] l).
Proof. apply leaves_call. intros r. by exists safe. Qed.
Definition demo_ldap : LdapApi demo_state := recorded_ldap (N:=file_api) demo_query demo_restart.

Definition demo_users : list login_user :=
  [mkLogin (mkDirectoryUser "user1" "openldap1") true (Some "user1") None None].
Lemma login_in_order_witness :
  is_ok (@login _ demo_ldap 9 false "clickhouse1" demo_servers demo_users None "u" "u1" "u2" (0, false, [])).1
    = true ∧
  leaves (@login _ demo_ldap 9 false "clickhouse1" demo_servers demo_users None "u" "u1" "u2")
    (λ _ l, in_order
       (around false "clickhouse1"
          (create_ldap_servers_config_content demo_servers config_d "ldap_servers.xml" "u") (sec 300) false
          (around false "clickhouse1"
             (create_ldap_users_config_content [mkDirectoryUser "user1" "openldap1"] users_d
                "ldap_users_u1.xml" "u2") (sec 300) true
             (logins demo_asked "clickhouse1" demo_users))) l).
Proof.
  split; [reflexivity|].
  exact (@login_in_order (Z * bool) file_api file_laws demo_query demo_asked demo_restart demo_query_leaves 9
    false "clickhouse1" demo_servers demo_users None "u" "u1" "u2").
Defined.

Lemma invalid_configs_detected_witness :
  is_ok (@invalid_server_config _ demo_ldap 9 "clickhouse1" demo_servers None 30 (sec 300) "u"
           (0, false, [])).1 = true ∧
  leaves (@invalid_server_config _ demo_ldap 9 "clickhouse1" demo_servers None 30 (sec 300) "u")
    (λ _ l, in_order
       (refused "clickhouse1"
          (create_ldap_servers_config_content demo_servers config_d "ldap_servers.xml" "u")
          (failed_to_merge "config.d/ldap_servers.xml") 30) l).
Proof.
  split; [reflexivity|].
  exact (@invalid_configs_detected (Z * bool) file_api file_laws demo_query demo_restart demo_restarted
    demo_restart_leaves 9 false "clickhouse1" _ _
    (@invalid_server (Z * bool) file_api demo_query demo_restart demo_restarted 9 false "clickhouse1"
       demo_servers None 30 (sec 300) "u")).
Defined.

Definition slow_ldap : LdapApi Z := {|
  l_nodes := demo_api; l_query _ _ _ s := (Ok (mkResult 4 "no"), s + 1); l_restart _ _ _ s := (Ok tt, s)
|}.
Lemma login_attempts_end_witness :
  match @login_and_execute_query _ slow_ldap 9 "clickhouse1" "user" "pw" None None 5 true 0 with
  | (r, s') => r = Exc (Fail "timeout trying to login") ∧ s' = 6 ∧
      @login_outcome _ slow_ldap demo_laws "clickhouse1" "user" "pw" None None 5 0 r s'
  end.
Proof.
  pose proof (@login_attempts_end _ slow_ldap demo_laws "clickhouse1" "user" "pw" None None 5
    ltac:(intros node sql a s; simpl; lia) 9 0 ltac:(lia)) as H.
  split; [reflexivity|]. split; [reflexivity|]. exact H.
Defined.
