(* ===== verification/Calendar.v ===== *)
(** * Python's datetime

    What the suites use of the module [datetime]: dates of the proleptic
    Gregorian calendar with their ordinals (the number of days, 1 for the
    first of January of year 1), moments with microseconds, the addition and
    subtraction of time spans, weekdays, ISO weeks, and [strftime]. *)
From Stdlib Require Import Ascii.
From S2P Require Import Prelude PyStr PyMonad.
Local Open Scope Z_scope.

(** Division and remainder as equations for [lia] *)
Ltac dlia := Z.to_euclidean_division_equations; lia.

(** ** Years *)

Definition is_leap (y : Z) : bool :=
  (y mod 4 =? 0) && (negb (y mod 100 =? 0) || (y mod 400 =? 0)).
Definition year_days (y : Z) : Z := if is_leap y then 366 else 365.
(** The number of days before the first of January *)
Definition days_before_year (y : Z) : Z :=
  let y := y - 1 in y * 365 + y / 4 - y / 100 + y / 400.

(** The year of an ordinal: cycles of 400, 100, 4 years and of one year *)
Definition ordinal_year (n : Z) : Z :=
  let n := n - 1 in
  let n400 := n / 146097 in
  let n := n mod 146097 in
  let n100 := n / 36524 in
  let n := n mod 36524 in
  let n4 := n / 1461 in
  let n1 := n mod 1461 / 365 in
  let y := n400 * 400 + n100 * 100 + n4 * 4 + n1 in
  if (n1 =? 4) || (n100 =? 4) then y else y + 1.

Lemma is_leap_cases y :
  is_leap y = true ↔ y mod 4 = 0 ∧ (y mod 100 ≠ 0 ∨ y mod 400 = 0).
Proof.
  unfold is_leap. rewrite andb_true_iff, orb_true_iff, negb_true_iff, !Z.eqb_eq, Z.eqb_neq. done.
Qed.
Lemma days_before_next y : days_before_year (y + 1) = days_before_year y + year_days y.
Proof.
  unfold days_before_year, year_days. replace (y + 1 - 1) with y by lia.
  destruct (is_leap y) eqn:E.
  - apply is_leap_cases in E. dlia.
  - assert (¬ (y mod 4 = 0 ∧ (y mod 100 ≠ 0 ∨ y mod 400 = 0))) as Hn.
    { intros Hl. apply is_leap_cases in Hl. congruence. }
    dlia.
Qed.
Lemma year_days_bounds y : 365 <= year_days y <= 366.
Proof. unfold year_days. case_match; lia. Qed.
Lemma days_before_mono y z : y < z → days_before_year y + 365 <= days_before_year z.
Proof.
  intros Hyz. replace z with (y + 1 + (z - y - 1)) by lia.
  generalize (Z.to_nat (z - y - 1)) (Z2Nat.id (z - y - 1)). intros n Hn.
  rewrite <-Hn by lia. clear z Hyz Hn. induction n as [|n IH].
  - rewrite Z.add_0_r, days_before_next. pose proof (year_days_bounds y). lia.
  - replace (y + 1 + Z.of_nat (S n)) with (y + 1 + Z.of_nat n + 1) by lia.
    rewrite days_before_next. pose proof (year_days_bounds (y + 1 + Z.of_nat n)). lia.
Qed.

Lemma days_before_le y z : y <= z → days_before_year y <= days_before_year z.
Proof.
  intros Hyz. destruct (Z.eq_dec y z) as [-> |]; [lia|]. pose proof (days_before_mono y z). lia.
Qed.

(** The cycles that a year consists of *)
Lemma days_before_cycles a b c d :
  0 <= b <= 3 → 0 <= c <= 24 → 0 <= d <= 3 →
  days_before_year (400 * a + 100 * b + 4 * c + d + 1) = 146097 * a + 36524 * b + 1461 * c + 365 * d.
Proof.
  intros Hb Hc Hd. unfold days_before_year. cbv zeta.
  replace (400 * a + 100 * b + 4 * c + d + 1 - 1) with (400 * a + 100 * b + 4 * c + d) by lia. dlia.
Qed.
Lemma leap_cycles a b c :
  0 <= b <= 3 → 0 <= c <= 24 → c ≠ 24 ∨ b = 3 → year_days (400 * a + 100 * b + 4 * c + 4) = 366.
Proof.
  intros Hb Hc Hl. unfold year_days. replace (is_leap _) with true; [done|].
  symmetry. apply is_leap_cases. dlia.
Qed.

(** An ordinal lies in its year, and in no other. *)
Lemma ordinal_year_spec n :
  days_before_year (ordinal_year n) < n <= days_before_year (ordinal_year n + 1).
Proof.
  rewrite days_before_next. unfold ordinal_year. cbv zeta.
  set (m := n - 1). set (a := m / 146097). set (r := m mod 146097).
  set (b := r / 36524). set (r2 := r mod 36524). set (c := r2 / 1461). set (r3 := r2 mod 1461).
  set (d := r3 / 365).
  assert (Ha : m = 146097 * a + r ∧ 0 <= r < 146097) by (unfold a, r; dlia).
  assert (Hb : r = 36524 * b + r2 ∧ 0 <= r2 < 36524 ∧ 0 <= b <= 4) by (unfold b, r2; dlia).
  assert (Hc : r2 = 1461 * c + r3 ∧ 0 <= r3 < 1461 ∧ 0 <= c <= 24) by (unfold c, r3; dlia).
  assert (Hd : 365 * d <= r3 < 365 * d + 365 ∧ 0 <= d <= 4) by (unfold d; dlia).
  assert (Hm : n = m + 1) by lia. clearbody m a r b r2 c r3 d.
  destruct (Z.eqb_spec d 4) as [-> |Hd4], (Z.eqb_spec b 4) as [-> |Hb4]; cbn [orb]; [lia|..].
  - replace (a * 400 + b * 100 + c * 4 + 4) with (400 * a + 100 * b + 4 * c + 3 + 1) by lia.
    rewrite days_before_cycles by lia.
    replace (400 * a + 100 * b + 4 * c + 3 + 1) with (400 * a + 100 * b + 4 * c + 4) by lia.
    rewrite leap_cycles by lia. lia.
  - replace (a * 400 + 4 * 100 + c * 4 + d) with (400 * a + 100 * 3 + 4 * 24 + 3 + 1) by lia.
    rewrite days_before_cycles by lia.
    replace (400 * a + 100 * 3 + 4 * 24 + 3 + 1) with (400 * a + 100 * 3 + 4 * 24 + 4) by lia.
    rewrite leap_cycles by lia. lia.
  - replace (a * 400 + b * 100 + c * 4 + d + 1) with (400 * a + 100 * b + 4 * c + d + 1) by lia.
    rewrite days_before_cycles by lia.
    pose proof (year_days_bounds (400 * a + 100 * b + 4 * c + d + 1)) as Hy.
    destruct (Z.eq_dec d 3) as [-> |]; [|lia].
    destruct (Z.eq_dec c 24) as [-> |]; [lia|].
    replace (400 * a + 100 * b + 4 * c + 3 + 1) with (400 * a + 100 * b + 4 * c + 4) by lia.
    rewrite leap_cycles by lia. lia.
Qed.
Lemma ordinal_year_unique n y :
  days_before_year y < n <= days_before_year (y + 1) → ordinal_year n = y.
Proof.
  intros Hn. pose proof (ordinal_year_spec n) as Hs. set (z := ordinal_year n) in *.
  destruct (Z.lt_trichotomy z y) as [Hz|[Hz|Hz]]; [|done|].
  - pose proof (days_before_le (z + 1) y). lia.
  - pose proof (days_before_le (y + 1) z). lia.
Qed.

(** ** Days of a year *)

Definition month_days (leap : bool) : list Z :=
  [31; if leap then 29 else 28; 31; 30; 31; 30; 31; 31; 30; 31; 30; 31].
(** The month and the day of the [k]-th day of a year, counted from 0 *)
Fixpoint month_day (lengths : list Z) (m k : Z) : Z * Z :=
  match lengths with
  | [] => (m, k + 1)
  | n :: lengths => if k <? n then (m, k + 1) else month_day lengths (m + 1) (k - n)
  end.
Definition days_before_month (leap : bool) (m : Z) : Z :=
  fold_left Z.add (take (Z.to_nat (m - 1)) (month_days leap)) 0.
Definition days_in_month (leap : bool) (m : Z) : Z :=
  default 0 (month_days leap !! Z.to_nat (m - 1)).

(** [date(y, m, d).toordinal()], and [date.fromordinal(n)] *)
Definition ordinal (y m d : Z) : Z := days_before_year y + days_before_month (is_leap y) m + d.
Definition from_ordinal (n : Z) : Z * Z * Z :=
  let y := ordinal_year n in
  let '(m, d) := month_day (month_days (is_leap y)) 1 (n - 1 - days_before_year y) in (y, m, d).

(** The facts on the days of a year, decided by computation *)
Definition day_ok (leap : bool) (k : Z) : bool :=
  let '(m, d) := month_day (month_days leap) 1 k in
  (1 <=? m) && (m <=? 12) && (1 <=? d) && (d <=? days_in_month leap m) &&
  (days_before_month leap m + d =? k + 1) &&
  Bool.eqb ((m =? 12) && (d =? 31)) (k =? if leap then 365 else 364).
Lemma all_days_ok (leap : bool) : forallb (day_ok leap) (seqZ 0 (if leap then 366 else 365)) = true.
Proof. destruct leap; by_compute. Qed.
Definition date_ok (leap : bool) (m : Z) : bool :=
  forallb (λ d, let k := days_before_month leap m + d - 1 in
     bool_decide (month_day (month_days leap) 1 k = (m, d)) &&
     (0 <=? k) && (k <? if leap then 366 else 365)) (seqZ 1 (days_in_month leap m)).
Lemma all_dates_ok (leap : bool) : forallb (date_ok leap) (seqZ 1 12) = true.
Proof. destruct leap; by_compute. Qed.

Lemma day_of_year leap k :
  0 <= k < (if leap : bool then 366 else 365) → day_ok leap k = true.
Proof.
  intros Hk. pose proof (all_days_ok leap) as H. rewrite forallb_forall in H.
  apply H, list_elem_of_In, elem_of_seqZ. destruct leap; lia.
Qed.
Lemma date_of_year leap m d :
  1 <= m <= 12 → 1 <= d <= days_in_month leap m →
  let k := days_before_month leap m + d - 1 in
  month_day (month_days leap) 1 k = (m, d) ∧ 0 <= k < (if leap : bool then 366 else 365).
Proof.
  intros Hm Hd k. pose proof (all_dates_ok leap) as H. rewrite forallb_forall in H.
  assert (Hok : date_ok leap m = true) by (apply H, list_elem_of_In, elem_of_seqZ; lia).
  unfold date_ok in Hok. rewrite forallb_forall in Hok.
  assert (Hin : In d (seqZ 1 (days_in_month leap m))) by (apply list_elem_of_In, elem_of_seqZ; lia).
  specialize (Hok d Hin). cbv zeta in Hok. fold k in Hok.
  rewrite !andb_true_iff, bool_decide_eq_true, Z.leb_le, Z.ltb_lt in Hok. tauto.
Qed.

Definition valid_date (y m d : Z) : Prop :=
  1 <= y <= 9999 ∧ 1 <= m <= 12 ∧ 1 <= d <= days_in_month (is_leap y) m.

Lemma ordinal_year_of y m d :
  1 <= m <= 12 → 1 <= d <= days_in_month (is_leap y) m → ordinal_year (ordinal y m d) = y.
Proof.
  intros Hm Hd. apply ordinal_year_unique. rewrite days_before_next.
  destruct (date_of_year (is_leap y) m d Hm Hd) as [_ Hk]. unfold ordinal, year_days. lia.
Qed.
Lemma from_to_ordinal y m d :
  1 <= m <= 12 → 1 <= d <= days_in_month (is_leap y) m → from_ordinal (ordinal y m d) = (y, m, d).
Proof.
  intros Hm Hd. unfold from_ordinal. rewrite ordinal_year_of by done.
  destruct (date_of_year (is_leap y) m d Hm Hd) as [Hmd _].
  unfold ordinal.
  replace (days_before_year y + days_before_month (is_leap y) m + d - 1 - days_before_year y)
    with (days_before_month (is_leap y) m + d - 1) by lia. by rewrite Hmd.
Qed.
(** The date of an ordinal: its year, a valid day of it, and whether it is
    the last one *)
Lemma from_ordinal_spec n y m d :
  from_ordinal n = (y, m, d) →
  y = ordinal_year n ∧ 1 <= m <= 12 ∧ 1 <= d <= days_in_month (is_leap y) m ∧ ordinal y m d = n ∧
  (m = 12 ∧ d = 31 ↔ n = days_before_year (y + 1)).
Proof.
  unfold from_ordinal. destruct (month_day _ _ _) as [m' d'] eqn:E. intros [= <- <- <-].
  split; [done|]. pose proof (ordinal_year_spec n) as Hs. rewrite days_before_next in Hs |- *.
  set (y := ordinal_year n) in *. unfold year_days in *. set (k := n - 1 - days_before_year y) in *.
  assert (Hk : day_ok (is_leap y) k = true) by (apply day_of_year; destruct (is_leap y); lia).
  unfold day_ok in Hk. rewrite E in Hk.
  apply andb_true_iff in Hk as [Hk Hl]. rewrite !andb_true_iff, !Z.leb_le, Z.eqb_eq in Hk.
  apply eqb_prop in Hl. unfold ordinal. split_and!; try lia.
  assert (Hlast : (m' =? 12) && (d' =? 31) = true ↔ (k =? if is_leap y then 365 else 364) = true)
    by by rewrite Hl.
  rewrite andb_true_iff, !Z.eqb_eq in Hlast. destruct (is_leap y); lia.
Qed.

(** ** Moments *)

Record datetime := mkDatetime {
  year : Z; month : Z; day : Z; hour : Z; minute : Z; second : Z; microsecond : Z
}.
#[export] Instance datetime_eq_dec : EqDecision datetime.
Proof. solve_decision. Defined.

Definition valid (dt : datetime) : Prop :=
  valid_date (year dt) (month dt) (day dt) ∧ 0 <= hour dt <= 23 ∧ 0 <= minute dt <= 59 ∧
  0 <= second dt <= 59 ∧ 0 <= microsecond dt <= 999999.
#[export] Instance valid_dec dt : Decision (valid dt).
Proof. unfold valid, valid_date. apply _. Defined.

(** [datetime.datetime(y, m, d, h, mi, s, us)] *)
Definition datetime_new (y m d h mi s us : Z) : res datetime :=
  let dt := mkDatetime y m d h mi s us in
  if decide (valid dt) then Ok dt else Exc (ValueError "datetime field is out of range").

(** [dt.toordinal()], and the microseconds since the day before year 1; a
    [timedelta] is its number of microseconds. *)
Definition toordinal (dt : datetime) : Z := ordinal (year dt) (month dt) (day dt).
Definition second_us : Z := 1000000.
Definition day_us : Z := 86400 * second_us.
Definition time_us (dt : datetime) : Z :=
  ((hour dt * 60 + minute dt) * 60 + second dt) * second_us + microsecond dt.
Definition moment (dt : datetime) : Z := toordinal dt * day_us + time_us dt.

Definition timedelta (days hours minutes seconds : Z) : Z :=
  days * day_us + ((hours * 60 + minutes) * 60 + seconds) * second_us.
(** [td.days] and [td.seconds]: the normal form of a negative span has
    negative days only. *)
Definition td_days (td : Z) : Z := td / day_us.
Definition td_seconds (td : Z) : Z := td mod day_us / second_us.

Definition OverflowError : exn := OtherException "OverflowError: date value out of range".
Definition max_ordinal : Z := 3652059.
Definition from_moment (t : Z) : res datetime :=
  let n := t / day_us in
  let us := t mod day_us in
  if (1 <=? n) && (n <=? max_ordinal) then
    let '(y, m, d) := from_ordinal n in
    let s := us / second_us in
    Ok (mkDatetime y m d (s / 3600) (s / 60 mod 60) (s mod 60) (us mod second_us))
  else Exc OverflowError.
(** [dt + td], [dt - other], [dt <= other] *)
Definition dt_add (dt : datetime) (td : Z) : res datetime := from_moment (moment dt + td).
Definition dt_sub (dt other : datetime) : Z := moment dt - moment other.
Definition dt_leb (dt other : datetime) : bool := moment dt <=? moment other.

Lemma time_us_bounds dt : valid dt → 0 <= time_us dt < day_us.
Proof. unfold valid, time_us, day_us, second_us. lia. Qed.
Lemma year_ordinals y n :
  1 <= y <= 9999 → days_before_year y < n <= days_before_year (y + 1) → 1 <= n <= max_ordinal.
Proof.
  intros Hy Hn. pose proof (days_before_le 1 y ltac:(lia)). pose proof (days_before_le (y + 1) 10000 ltac:(lia)).
  change (days_before_year 1) with 0 in *. change (days_before_year 10000) with max_ordinal in *. lia.
Qed.
Lemma toordinal_bounds dt : valid dt → 1 <= toordinal dt <= max_ordinal.
Proof.
  intros ((Hy & Hm & Hd) & _). unfold toordinal. apply (year_ordinals (year dt)); [done|].
  pose proof (ordinal_year_spec (ordinal (year dt) (month dt) (day dt))) as Hs.
  by rewrite ordinal_year_of in Hs.
Qed.
Lemma moment_ordinal dt : valid dt → moment dt / day_us = toordinal dt ∧ moment dt mod day_us = time_us dt.
Proof.
  intros Hv. pose proof (time_us_bounds dt Hv). unfold moment.
  split; symmetry.
  - apply (Z.div_unique _ _ _ (time_us dt)); [by left|lia].
  - apply (Z.mod_unique _ _ (toordinal dt)); [by left|lia].
Qed.

(** The hours, minutes and seconds of a day *)
Lemma clock_fields us :
  0 <= us < day_us →
  let s := us / second_us in
  0 <= s / 3600 <= 23 ∧ 0 <= s / 60 mod 60 <= 59 ∧ 0 <= s mod 60 <= 59 ∧
  0 <= us mod second_us <= 999999 ∧
  ((s / 3600 * 60 + s / 60 mod 60) * 60 + s mod 60) * second_us + us mod second_us = us.
Proof.
  intros Hus s. assert (Hs : 0 <= s < 86400 ∧ us = s * second_us + us mod second_us ∧
    0 <= us mod second_us <= 999999) by (unfold s, day_us, second_us in *; dlia).
  clearbody s. destruct Hs as (Hs & Hu & Hm).
  assert (Hsum : (s / 3600 * 60 + s / 60 mod 60) * 60 + s mod 60 = s) by dlia.
  rewrite Hsum. split_and!; try lia; dlia.
Qed.

(** A moment and its fields *)
Lemma from_moment_valid t dt : from_moment t = Ok dt → valid dt ∧ moment dt = t.
Proof.
  unfold from_moment. cbv zeta. destruct (_ && _) eqn:En; [|done].
  apply andb_true_iff in En as [Hn1%Z.leb_le Hn2%Z.leb_le].
  destruct (from_ordinal (t / day_us)) as [[y m] d] eqn:E. intros [= <-].
  apply from_ordinal_spec in E as (Hy & Hm & Hd & Ho & _).
  assert (Hyb : 1 <= y <= 9999).
  { pose proof (ordinal_year_spec (t / day_us)) as Hs. rewrite <-Hy in Hs.
    change max_ordinal with (days_before_year 10000) in Hn2.
    split.
    - destruct (Z.le_gt_cases 1 y); [done|]. exfalso. pose proof (days_before_le (y + 1) 1 ltac:(lia)).
      change (days_before_year 1) with 0 in *. lia.
    - destruct (Z.le_gt_cases y 9999); [done|]. exfalso. pose proof (days_before_le 10000 y ltac:(lia)). lia. }
  assert (Hus : 0 <= t mod day_us < day_us) by by apply Z.mod_pos_bound.
  destruct (clock_fields _ Hus) as (Hh & Hmi & Hs & Hu & Hsum). cbv zeta in *.
  split; [unfold valid, valid_date; cbn; split_and!; lia|].
  unfold moment, toordinal, time_us. cbn [year month day hour minute second microsecond].
  rewrite Ho, Hsum. rewrite (Z.div_mod t day_us) at 3 by done. lia.
Qed.
Lemma from_to_moment dt : valid dt → from_moment (moment dt) = Ok dt.
Proof.
  intros Hv. unfold from_moment. destruct (moment_ordinal dt Hv) as [-> ->]. cbv zeta.
  pose proof (toordinal_bounds dt Hv) as [H1%Z.leb_le H2%Z.leb_le]. rewrite H1, H2. cbn [andb].
  destruct Hv as ((Hy & Hm & Hd) & Ht). unfold toordinal. rewrite from_to_ordinal by done.
  destruct dt as [y m d h mi s us]. unfold time_us, second_us. cbn in *. f_equal. f_equal; dlia.
Qed.

(** [from_moment] for a day and a time of the range *)
Lemma from_moment_ok n us :
  1 <= n <= max_ordinal → 0 <= us < day_us →
  ∃ dt, from_moment (n * day_us + us) = Ok dt ∧ valid dt ∧ toordinal dt = n ∧ time_us dt = us ∧
    from_ordinal n = (year dt, month dt, day dt).
Proof.
  intros Hn Hus. assert (Hd : (n * day_us + us) / day_us = n).
  { symmetry. apply (Z.div_unique _ _ _ us); [by left|lia]. }
  assert (∃ dt, from_moment (n * day_us + us) = Ok dt) as [dt E].
  { unfold from_moment. rewrite Hd. destruct Hn as [H1%Z.leb_le H2%Z.leb_le]. rewrite H1, H2.
    cbv zeta. destruct (from_ordinal n) as [[y m] d]. cbn [andb]. by eexists. }
  destruct (from_moment_valid _ _ E) as [Hv Hm]. exists dt.
  destruct (moment_ordinal dt Hv) as [Ho Ht]. rewrite Hm in Ho, Ht.
  rewrite Hd in Ho. split_and!; try done.
  - rewrite <-Ht. symmetry. apply (Z.mod_unique _ _ n); [by left|lia].
  - destruct Hv as ((_ & Hmo & Hda) & _). rewrite Ho at 1. by apply from_to_ordinal.
Qed.
Lemma toordinal_year dt :
  valid dt → ordinal_year (toordinal dt) = year dt ∧
  days_before_year (year dt) < toordinal dt <= days_before_year (year dt + 1).
Proof.
  intros ((_ & Hm & Hd) & _). unfold toordinal.
  pose proof (ordinal_year_spec (ordinal (year dt) (month dt) (day dt))) as Hs.
  by rewrite ordinal_year_of in Hs |- *.
Qed.

(** ** Weeks *)

(** 0 for a Monday *)
Definition ordinal_weekday (n : Z) : Z := (n + 6) mod 7.
Definition weekday (dt : datetime) : Z := ordinal_weekday (toordinal dt).
(** The Monday of the first week of an ISO year: the one with its first
    Thursday *)
Definition iso_week1_monday (y : Z) : Z :=
  let first := ordinal y 1 1 in
  let first_weekday := ordinal_weekday first in
  if first_weekday >? 3 then first - first_weekday + 7 else first - first_weekday.
(** [dt.isocalendar()]: the year, the week and the day of the week *)
Definition isocalendar (dt : datetime) : Z * Z * Z :=
  let today := toordinal dt in
  let y := year dt in
  let days := today - iso_week1_monday y in
  let '(y, days) :=
    if days / 7 <? 0 then (y - 1, today - iso_week1_monday (y - 1))
    else if (52 <=? days / 7) && (iso_week1_monday (y + 1) <=? today) then (y + 1, days mod 7)
    else (y, days) in
  (y, days / 7 + 1, days mod 7 + 1).

Lemma iso_week1_bounds y :
  iso_week1_monday y mod 7 = 1 ∧ ordinal y 1 1 - 3 <= iso_week1_monday y <= ordinal y 1 1 + 3.
Proof.
  unfold iso_week1_monday, ordinal_weekday. cbv zeta. set (n := ordinal y 1 1).
  destruct (Z.gtb_spec ((n + 6) mod 7) 3); dlia.
Qed.
Lemma ordinal_first y : ordinal y 1 1 = days_before_year y + 1.
Proof.
  unfold ordinal. assert (days_before_month (is_leap y) 1 = 0) as -> by by destruct (is_leap y). lia.
Qed.

(** ** Texts *)

(** [str(n).zfill(w)] for [n >= 0] *)
Definition zfill (w : nat) (n : Z) : string := rjust0 w (str_Z n).
Definition directive (c : Ascii.ascii) (dt : datetime) : string :=
  if Ascii.eqb c "Y"%char then str_Z (year dt)
  else if Ascii.eqb c "m"%char then zfill 2 (month dt)
  else if Ascii.eqb c "d"%char then zfill 2 (day dt)
  else if Ascii.eqb c "H"%char then zfill 2 (hour dt)
  else if Ascii.eqb c "M"%char then zfill 2 (minute dt)
  else if Ascii.eqb c "S"%char then zfill 2 (second dt)
  else if Ascii.eqb c "f"%char then zfill 6 (microsecond dt)
  else String "%"%char (String c EmptyString).
(** [dt.strftime(fmt)] with the directives that the suites use *)
Fixpoint strftime (fmt : string) (dt : datetime) : string :=
  match fmt with
  | EmptyString => EmptyString
  | String "%" (String c fmt) => directive c dt +:+ strftime fmt dt
  | String c fmt => String c (strftime fmt dt)
  end.

Example calendar_1 :
  isocalendar (mkDatetime 1927 1 1 0 0 0 0) = (1926, 52, 6) ∧
  isocalendar (mkDatetime 2018 12 31 0 0 0 0) = (2019, 1, 1) ∧
  weekday (mkDatetime 2000 2 29 0 0 0 0) = 1 ∧
  dt_add (mkDatetime 1999 12 31 23 59 59 123000) (timedelta 0 0 0 1) = Ok (mkDatetime 2000 1 1 0 0 0 123000) ∧
  strftime "%Y-%m-%d %H:%M:%S.%f" (mkDatetime 1970 1 2 3 4 5 6) = "1970-01-02 03:04:05.000006".
Proof. split_and!; by_compute. Qed.
