(* ===== verification/DateTimes.v ===== *)
(** * The steps of the DateTime64 suite

    datetime64_extended_range/tests/common.py: the years, dates and times that
    the tests run through, and the step that compares the answer of a query;
    and generic.py, the sweeps over the times of a day.  The list of all time
    zones of pytz is a parameter. *)
From stdpp Require Import gmap.
From Stdlib Require Import Ascii.
From S2P Require Import Prelude PyStr PyMonad World Query NodeLog Scenario Calendar.
Local Open Scope Z_scope.

(** ** Ranges *)

(** [range(a, b, step)] *)
Definition py_range (a b step : Z) : res (list Z) :=
  if step =? 0 then Exc (ValueError "range() arg 3 must not be zero")
  else
    let n := if step >? 0 then (b - a + step - 1) / step else (a - b - step - 1) / - step in
    Ok ((λ i, a + i * step) <$> seqZ 0 n).

(** Does the stop of the range come after [x]? *)
Definition before (step x b : Z) : Prop := if step >? 0 then x < b else b < x.
Lemma py_range_spec a b step l :
  py_range a b step = Ok l →
  ∀ x, x ∈ l ↔ ∃ i, 0 <= i ∧ x = a + i * step ∧ before step x b.
Proof.
  unfold py_range, before. destruct (Z.eqb_spec step 0) as [|Hs]; [done|]. intros [= <-] x.
  rewrite list_elem_of_fmap. setoid_rewrite elem_of_seqZ.
  destruct (Z.gtb_spec step 0).
  - split.
    + intros (i & -> & Hi). exists i. split_and!; [lia|done|].
      pose proof (Z.mul_div_le (b - a + step - 1) step). nia.
    + intros (i & Hi & -> & Hx). exists i. split; [done|]. split; [lia|].
      cut (i + 1 <= (b - a + step - 1) / step); [lia|]. apply Z.div_le_lower_bound; nia.
  - split.
    + intros (i & -> & Hi). exists i. split_and!; [lia|done|].
      pose proof (Z.mul_div_le (a - b - step - 1) (- step)). nia.
    + intros (i & Hi & -> & Hx). exists i. split; [done|]. split; [lia|].
      cut (i + 1 <= (a - b - step - 1) / - step); [lia|]. apply Z.div_le_lower_bound; nia.
Qed.

(** ** Dates *)

(** [in_normal_range(dt)] *)
Definition in_normal_range (dt : datetime) : bool :=
  dt_leb dt (mkDatetime 2105 12 31 23 59 59 999999) && dt_leb (mkDatetime 1970 1 1 0 0 0 0) dt.

Definition years_range (stress : bool) (padding : Z * Z) : list Z :=
  if stress then (λ i, 1925 + padding.1 + i) <$> seqZ 0 (2238 - padding.2 - (1925 + padding.1))
  else [1927; 2000; 2236].

Definition timezones_range (all_timezones : list string) (stress : bool) : list string :=
  if stress then all_timezones else ["UTC"; "Asia/Novosibirsk"; "America/Denver"].

(** [datetime_generator(year, microseconds)], run to its end *)
Definition generator_step : Z := timedelta 1 1 1 1.
Fixpoint generator_loop (fuel : nat) (date : datetime) : res (list datetime) :=
  match fuel with
  | O => Stuck OutOfFuel
  | S fuel =>
      if (month date =? 12) && (day date =? 31) then Ok []
      else
        next ← dt_add date generator_step;
        dates ← generator_loop fuel next;
        Ok (date :: dates)
  end.
Definition datetime_generator (fuel : nat) (y : Z) (microseconds : bool) : res (list datetime) :=
  date ← datetime_new y 1 1 0 0 0 0;
  date ← (if microseconds then datetime_new y 1 1 0 0 0 123000 else Ok date : res datetime);
  generator_loop fuel date.

(** [year % 4 == 0 and (year % 100 != 0 or year % 400 == 0)] *)
Definition has_leap_day (y : Z) : bool :=
  (y mod 4 =? 0) && (negb (y mod 100 =? 0) || (y mod 400 =? 0)).

(** [select_dates_in_year(year, stress, microseconds)]: under stress the
    microseconds are not passed on. *)
Definition select_dates_in_year (fuel : nat) (y : Z) (stress microseconds : bool)
    : res (list datetime) :=
  if stress then datetime_generator fuel y false
  else
    first ← datetime_new y 1 1 0 0 0 0;
    last ← datetime_new y 12 31 23 59 59 0;
    dates ← (if microseconds then
               first ← datetime_new y 1 1 0 0 0 123000;
               last ← datetime_new y 12 31 23 59 59 123000;
               Ok [first; last]
             else Ok [first; last] : res (list datetime));
    if has_leap_day y then leap ← datetime_new y 2 29 11 11 11 123000; Ok (dates ++ [leap])
    else Ok dates.

(** ** Steps *)

Section steps.
Context {S : Type} `{SqlNode S}.
Abbreviation M := (M S).

(** [with create_table(timezone, node): body] *)
Definition create_table {A} (timezone : string) (body : M A) : M A :=
  try_finally
    (run_sql ("CREATE TABLE dt(timestamp DateTime64(3, " +:+ timezone +:+ ")) Engine = TinyLog");; body)
    (run_sql "DROP TABLE dt").

Definition to_datetime64 (datetime : string) (precision : Z) (timezone : string) : string :=
  "toDateTime64('" +:+ datetime +:+ "', " +:+ str_Z precision +:+ ", '" +:+ timezone +:+ "')".
Definition select_check_datetime (datetime expected : string) (precision : Z) (timezone : string)
    : M unit :=
  r ← sql_query ("SELECT " +:+ to_datetime64 datetime precision timezone) query0;
  assert_ (String.eqb (output r) expected) (output r).
Definition insert_check_datetime (datetime expected : string) (precision : Z) (timezone : string)
    : M unit :=
  r ← create_table timezone
        (sql_query ("SELECT " +:+ to_datetime64 datetime precision timezone) query0);
  assert_ (String.eqb (output r) expected) (output r).

(** [exec_query(request, expected, exitcode)] *)
Definition exec_query (request : string) (expected : option string) (exit : option Z) : M unit :=
  r ← sql_query request query0;
  match expected, exit with
  | Some e, _ => assert_ (String.eqb (output r) e) (output r)
  | None, Some c => assert_ (exitcode r =? c) (output r)
  | None, None => mret tt
  end.

(** ** Sweeps over the times of a day *)

(** [for hrs in hours: for mins in minutes: ...]; the minutes are a range
    that is made anew for every hour. *)
Definition day_times (hours minutes : res (list Z)) : res (list (Z * Z)) :=
  match hours with
  | Ok [] => Ok []
  | Ok hours => mins ← minutes; Ok (hours ≫= λ h, (λ m, (h, m)) <$> mins)
  | Exc e => Exc e
  | Stuck w => Stuck w
  end.
(** The times of [walk_datetime_in_incrementing_steps] and of
    [walk_datetime_in_decrementing_steps] *)
Definition incrementing_times (stress : bool) (hrs_range : Z * Z) (step : Z) : res (list (Z * Z)) :=
  if stress then day_times (py_range hrs_range.1 hrs_range.2 1) (py_range 0 60 step)
  else day_times (Ok [hrs_range.1; hrs_range.2 - 1]) (Ok [0; 59]).
Definition decrementing_times (stress : bool) (hrs_range : Z * Z) (step : Z) : res (list (Z * Z)) :=
  if stress then day_times (py_range hrs_range.1 hrs_range.2 (-1)) (py_range 59 0 (- step))
  else day_times (Ok [hrs_range.2; hrs_range.1]) (Ok [59; 0]).

Definition seconds_text (precision : Z) : string :=
  "00" +:+ (if precision >? 0 then "." else EmptyString) +:+ str_repeat precision "0".
Definition time_text (date : string) (precision : Z) (hm : Z * Z) : string :=
  date +:+ " " +:+ zfill 2 hm.1 +:+ ":" +:+ zfill 2 hm.2 +:+ ":" +:+ seconds_text precision.
Definition check_times (date : string) (precision : Z) (timezone : string) (times : list (Z * Z))
    : M unit :=
  for_ times (λ hm, let datetime := time_text date precision hm in
    select_check_datetime datetime datetime precision timezone).

Definition walk_datetime_in_incrementing_steps (stress : bool) (date : string) (hrs_range : Z * Z)
    (step : Z) (timezone : string) (precision : Z) : M unit :=
  times ← lift (incrementing_times stress hrs_range step); check_times date precision timezone times.
Definition walk_datetime_in_decrementing_steps (stress : bool) (date : string) (hrs_range : Z * Z)
    (step : Z) (timezone : string) (precision : Z) : M unit :=
  times ← lift (decrementing_times stress hrs_range step); check_times date precision timezone times.

(** generic.py *)
Definition normal_range_start (stress : bool) : M unit :=
  walk_datetime_in_incrementing_steps stress "1970-01-01" (0, 24) 1 "UTC" 3.
Definition normal_range_end (stress : bool) : M unit :=
  walk_datetime_in_decrementing_steps stress "2105-12-31" (23, 0) 1 "UTC" 3.
Definition extended_range_start (stress : bool) : M unit :=
  walk_datetime_in_incrementing_steps stress "1925-01-01" (0, 24) 1 "UTC" 5.
Definition extended_range_end (stress : bool) : M unit :=
  walk_datetime_in_decrementing_steps stress "2238-12-31" (23, 0) 1 "UTC" 5.
Definition timezone_local_below_normal_range (stress : bool) : M unit :=
  walk_datetime_in_incrementing_steps stress "1969-12-31" (17, 24) 1 "America/Phoenix" 0.
Definition timezone_local_above_normal_range (stress : bool) : M unit :=
  walk_datetime_in_decrementing_steps stress "2106-01-01" (6, 0) 1 "Asia/Novosibirsk" 0.
End steps.

(** ** The dates of a year *)

(** The number of steps to the last day of a year *)
Definition steps_in_year (y : Z) : Z := if is_leap y then 351 else 350.

Lemma valid_first y us :
  1 <= y <= 9999 → 0 <= us <= 999999 → datetime_new y 1 1 0 0 0 us = Ok (mkDatetime y 1 1 0 0 0 us).
Proof.
  intros Hy Hu. unfold datetime_new. cbv zeta. rewrite decide_True; [done|].
  unfold valid, valid_date. cbn [year month day hour minute second microsecond].
  assert (days_in_month (is_leap y) 1 = 31) as -> by by destruct (is_leap y). lia.
Qed.

(** The [k]-th moment of the generator, its day in the year, and the loop from
    there *)
Lemma generator_day y us k :
  0 <= us < 1000000 → 0 <= k <= steps_in_year y →
  let t := us + k * generator_step in
  0 <= t ∧ t / day_us < year_days y ∧ (t / day_us = year_days y - 1 ↔ k = steps_in_year y).
Proof.
  intros Hu Hk t. unfold steps_in_year, year_days, t, day_us, second_us in *.
  change generator_step with 90061000000. destruct (is_leap y); dlia.
Qed.
Lemma generator_loop_spec y us (n : nat) (fuel : nat) date k :
  1 <= y <= 9999 → 0 <= us < 1000000 → 0 <= k → k + Z.of_nat n = steps_in_year y →
  (n < fuel)%nat → valid date →
  moment date = (days_before_year y + 1) * day_us + us + k * generator_step →
  ∃ l, generator_loop fuel date = Ok l ∧ length l = n ∧
    ∀ i d, l !! i = Some d → valid d ∧ year d = y ∧ moment d = moment date + Z.of_nat i * generator_step.
Proof.
  intros Hy Hus. revert fuel date k. induction n as [|n IH]; intros [|fuel] date k Hk Hn Hf Hv Hm; try lia.
  all: destruct (generator_day y us k) as (Ht0 & Htb & Htl); [done|lia|].
  all: set (t := us + k * generator_step) in *.
  all: assert (Ho : toordinal date = days_before_year y + 1 + t / day_us);
    [destruct (moment_ordinal date Hv) as [<- _]; rewrite Hm;
     replace ((days_before_year y + 1) * day_us + us + k * generator_step)
       with (t + (days_before_year y + 1) * day_us) by (unfold t; lia);
     rewrite Z.div_add by done; lia|].
  all: assert (Hyear : year date = y);
    [destruct (toordinal_year date Hv) as [<- _]; apply ordinal_year_unique; rewrite days_before_next;
     assert (0 <= t / day_us) by (apply Z.div_pos; [done|reflexivity]); lia|].
  all: assert (Hlast : (month date =? 12) && (day date =? 31) = (t / day_us =? year_days y - 1));
    [apply eq_true_iff_eq; rewrite andb_true_iff, !Z.eqb_eq;
     destruct Hv as ((_ & Hmo & Hda) & _);
     destruct (from_ordinal_spec (toordinal date) (year date) (month date) (day date)) as (_ & _ & _ & _ & Hl);
     [by apply from_to_ordinal|]; rewrite Hl, Ho, Hyear, days_before_next; lia|].
  all: cbn [generator_loop]; rewrite Hlast.
  - rewrite (proj2 (Z.eqb_eq _ _)) by lia. exists []. by split_and!.
  - rewrite (proj2 (Z.eqb_neq _ _)) by lia.
    destruct (generator_day y us (k + 1)) as (Ht1 & Htb1 & _); [done|lia|].
    set (t1 := us + (k + 1) * generator_step) in *.
    assert (Hq : 0 <= t1 / day_us) by (apply Z.div_pos; [done|reflexivity]).
    destruct (from_moment_ok (days_before_year y + 1 + t1 / day_us) (t1 mod day_us))
      as (next & En & Hvn & _).
    { apply (year_ordinals y); [done|]. rewrite days_before_next. lia. }
    { by apply Z.mod_pos_bound. }
    assert (Hadd : (days_before_year y + 1 + t1 / day_us) * day_us + t1 mod day_us = moment date + generator_step).
    { rewrite Hm. pose proof (Z.div_mod t1 day_us ltac:(done)). unfold t1 in *. lia. }
    rewrite Hadd in En. destruct (from_moment_valid _ _ En) as [_ Hmn].
    destruct (IH fuel next (k + 1)) as (l & El & Hlen & Hl); [lia..|done|rewrite Hmn, Hm; lia|].
    unfold dt_add. rewrite En. cbn [mbind res_bind]. rewrite El. cbn [mbind res_bind].
    exists (date :: l). split_and!; [done|by cbn; rewrite Hlen|].
    intros [|i] d Hd; cbn in Hd; [simplify_eq; split_and!; [done..|lia]|].
    destruct (Hl i d Hd) as (H1 & H2 & H3). split_and!; [done..|]. rewrite H3, Hmn. lia.
Qed.

Lemma has_leap_day_spec y : has_leap_day y = is_leap y.
Proof. done. Qed.
Lemma valid_last y us :
  1 <= y <= 9999 → 0 <= us <= 999999 →
  datetime_new y 12 31 23 59 59 us = Ok (mkDatetime y 12 31 23 59 59 us).
Proof.
  intros Hy Hu. unfold datetime_new. cbv zeta. rewrite decide_True; [done|].
  unfold valid, valid_date. cbn [year month day hour minute second microsecond].
  assert (days_in_month (is_leap y) 12 = 31) as -> by by destruct (is_leap y). lia.
Qed.
Lemma valid_leap y :
  1 <= y <= 9999 → is_leap y = true →
  datetime_new y 2 29 11 11 11 123000 = Ok (mkDatetime y 2 29 11 11 11 123000).
Proof.
  intros Hy Hl. unfold datetime_new. cbv zeta. rewrite decide_True; [done|].
  unfold valid, valid_date. cbn [year month day hour minute second microsecond]. rewrite Hl.
  change (days_in_month true 2) with 29. lia.
Qed.
Lemma datetime_new_Ok y m d h mi s us dt :
  datetime_new y m d h mi s us = Ok dt → valid dt ∧ dt = mkDatetime y m d h mi s us.
Proof. unfold datetime_new. cbv zeta. case_decide; [|done]. by intros [= <-]. Qed.

(** The 29th of February, as the dates of a leap year have it *)
Definition leap_date (y : Z) : datetime := mkDatetime y 2 29 11 11 11 123000.

Lemma few_dates y us :
  1 <= y <= 9999 → 0 <= us <= 999999 →
  let dates := [mkDatetime y 1 1 0 0 0 us; mkDatetime y 12 31 23 59 59 us] in
  ∃ l, (if is_leap y then datetime_new y 2 29 11 11 11 123000 ≫= λ leap, Ok (dates ++ [leap])
        else Ok dates) = Ok l ∧
    Forall (λ d, valid d ∧ year d = y) l ∧
    mkDatetime y 1 1 0 0 0 us ∈ l ∧ mkDatetime y 12 31 23 59 59 us ∈ l ∧
    (leap_date y ∈ l ↔ is_leap y = true).
Proof.
  intros Hy Hus dates.
  pose proof (datetime_new_Ok _ _ _ _ _ _ _ _ (valid_first y us Hy Hus)) as [Hv1 _].
  pose proof (datetime_new_Ok _ _ _ _ _ _ _ _ (valid_last y us Hy Hus)) as [Hv2 _].
  destruct (is_leap y) eqn:Hl.
  - pose proof (datetime_new_Ok _ _ _ _ _ _ _ _ (valid_leap y Hy Hl)) as [Hv3 _].
    rewrite valid_leap by done. eexists. split; [reflexivity|].
    split; [by repeat (apply Forall_cons_2; [done|]); apply Forall_nil_2|].
    split_and!; [by left|by right; left|]. split; [done|]. intros _. by right; right; left.
  - eexists. split; [reflexivity|].
    split; [by repeat (apply Forall_cons_2; [done|]); apply Forall_nil_2|].
    split_and!; [by left|by right; left|]. split; [|done].
    unfold dates. rewrite !elem_of_cons, elem_of_nil. unfold leap_date. intros [?|[?|[]]]; simplify_eq.
Qed.

(** The dates under stress *)
Lemma stress_dates (fuel : nat) y microseconds :
  1 <= y <= 9999 → (351 < fuel)%nat →
  ∃ l, select_dates_in_year fuel y true microseconds = Ok l ∧
    Forall (λ d, valid d ∧ year d = y) l ∧ Z.of_nat (length l) = steps_in_year y ∧
    ∀ i d, l !! i = Some d → moment d = moment (mkDatetime y 1 1 0 0 0 0) + Z.of_nat i * generator_step.
Proof.
  intros Hy Hf. unfold select_dates_in_year, datetime_generator.
  rewrite valid_first by lia. cbn [mbind res_bind]. set (date := mkDatetime y 1 1 0 0 0 0).
  assert (Hs : steps_in_year y = 350 ∨ steps_in_year y = 351)
    by (unfold steps_in_year; case_match; auto).
  destruct (generator_loop_spec y 0 (Z.to_nat (steps_in_year y)) fuel date 0) as (l & El & Hlen & Hl);
    [done|lia..| | |].
  { by destruct (datetime_new_Ok _ _ _ _ _ _ _ _ (valid_first y 0 Hy ltac:(lia))). }
  { unfold moment, toordinal, time_us, date. cbn [year month day hour minute second microsecond].
    rewrite ordinal_first. unfold day_us, second_us. lia. }
  exists l. rewrite El. split_and!; [done| |lia|].
  - apply Forall_forall. intros d Hd. apply list_elem_of_lookup in Hd as [i Hi].
    destruct (Hl i d Hi) as (H1 & H2 & _). by split.
  - intros i d Hd. by apply Hl.
Qed.
(** and without it *)
Lemma plain_dates (fuel : nat) y (microseconds : bool) :
  1 <= y <= 9999 →
  ∃ l, select_dates_in_year fuel y false microseconds = Ok l ∧
    Forall (λ d, valid d ∧ year d = y) l ∧
    let us := if microseconds then 123000 else 0 in
    mkDatetime y 1 1 0 0 0 us ∈ l ∧ mkDatetime y 12 31 23 59 59 us ∈ l ∧
    (leap_date y ∈ l ↔ is_leap y = true).
Proof.
  intros Hy. unfold select_dates_in_year. rewrite valid_first, valid_last by lia.
  destruct microseconds; rewrite ?valid_first, ?valid_last by lia; cbn [mbind res_bind];
    rewrite has_leap_day_spec; by apply few_dates.
Qed.
Lemma year_dates (fuel : nat) y stress microseconds :
  1 <= y <= 9999 → (351 < fuel)%nat →
  ∃ l, select_dates_in_year fuel y stress microseconds = Ok l ∧ Forall (λ d, valid d ∧ year d = y) l.
Proof.
  intros Hy Hf. destruct stress.
  - destruct (stress_dates fuel y microseconds Hy Hf) as (l & ? & ? & _). by exists l.
  - destruct (plain_dates fuel y microseconds Hy) as (l & ? & ? & _). by exists l.
Qed.

(** C20: For every year, the selection of dates ends without an exception, and
    all its dates are dates of that year: without stress the first and the last
    second and, exactly in leap years, the 29th of February; under stress the
    dates 25 hours, a minute and a second apart, from the first second up to
    the last day, which the loop meets in every year. *)
Theorem dates_of_year (fuel : nat) y stress microseconds :
  1 <= y <= 9999 → (351 < fuel)%nat →
  ∃ l, select_dates_in_year fuel y stress microseconds = Ok l ∧
    Forall (λ d, valid d ∧ year d = y) l ∧
    if stress then
      Z.of_nat (length l) = steps_in_year y ∧
      ∀ i d, l !! i = Some d → moment d = moment (mkDatetime y 1 1 0 0 0 0) + Z.of_nat i * generator_step
    else
      let us := if microseconds then 123000 else 0 in
      mkDatetime y 1 1 0 0 0 us ∈ l ∧ mkDatetime y 12 31 23 59 59 us ∈ l ∧
      (leap_date y ∈ l ↔ is_leap y = true).
Proof.
  intros Hy Hf. destruct stress; [by apply stress_dates|by apply plain_dates].
Qed.

(** ** The times of a sweep *)

Lemma day_times_elem hours minutes hs ms h m l :
  hours = Ok hs → minutes = Ok ms → day_times hours minutes = Ok l →
  ((h, m) ∈ l ↔ h ∈ hs ∧ m ∈ ms).
Proof.
  intros -> ->. destruct hs as [|h0 hs].
  - intros [= <-]. rewrite !elem_of_nil. tauto.
  - intros E. assert (l = (h0 :: hs) ≫= λ h, (λ m, (h, m)) <$> ms) as -> by by injection E.
    rewrite list_elem_of_bind. setoid_rewrite list_elem_of_fmap. naive_solver.
Qed.

(** Under stress the incrementing sweep checks the minutes that are
    multiples of the step in all hours of the range; the decrementing sweep
    checks those at a multiple of the step before minute 59, in the hours after
    the last one, so that it leaves out minute 0 of every hour and the whole
    last hour, both of which it checks without stress. *)
Lemma sweep_times a b step :
  0 < step →
  ∃ up down, incrementing_times true (a, b) step = Ok up ∧ decrementing_times true (a, b) step = Ok down ∧
    (∀ h m, (h, m) ∈ up ↔ a <= h < b ∧ 0 <= m < 60 ∧ (step | m)) ∧
    (∀ h m, (h, m) ∈ down ↔ b < h <= a ∧ 0 < m <= 59 ∧ (step | (59 - m))) ∧
    (∀ h, (h, 0) ∉ down) ∧ (∀ m, (b, m) ∉ down) ∧
    ∃ few, decrementing_times false (a, b) step = Ok few ∧ (b, 0) ∈ few.
Proof.
  intros Hs. unfold incrementing_times, decrementing_times. cbn [fst snd].
  destruct (py_range a b 1) as [h1|e|w] eqn:E1; [|done..].
  destruct (py_range a b (-1)) as [h2|e|w] eqn:E2; [|done..].
  destruct (py_range 0 60 step) as [m1|e|w] eqn:E3;
    [|unfold py_range in E3; rewrite (proj2 (Z.eqb_neq step 0)) in E3 by lia; done..].
  destruct (py_range 59 0 (- step)) as [m2|e|w] eqn:E4;
    [|unfold py_range in E4; rewrite (proj2 (Z.eqb_neq (- step) 0)) in E4 by lia; done..].
  assert (Hex : ∀ hs ms : list Z, ∃ l, day_times (Ok hs) (Ok ms) = Ok l) by (intros [|] ?; eauto).
  destruct (Hex h1 m1) as [up Eu]. destruct (Hex h2 m2) as [down Ed]. exists up, down.
  assert (Hup : ∀ h m, (h, m) ∈ up ↔ a <= h < b ∧ 0 <= m < 60 ∧ (step | m)).
  { intros h m. rewrite (day_times_elem _ _ _ _ h m up eq_refl eq_refl Eu).
    rewrite (py_range_spec _ _ _ _ E1), (py_range_spec _ _ _ _ E3). unfold before.
    rewrite (proj2 (Z.gtb_lt step 0)) by lia. cbn. split.
    - intros [(i & Hi & -> & Hb) (j & Hj & -> & Hm)]. split; [lia|]. split; [nia|]. exists j. lia.
    - intros (Hh & Hm & [j ->]). split; [exists (h - a); lia|]. exists j. split; [nia|lia]. }
  assert (Hdown : ∀ h m, (h, m) ∈ down ↔ b < h <= a ∧ 0 < m <= 59 ∧ (step | (59 - m))).
  { intros h m. rewrite (day_times_elem _ _ _ _ h m down eq_refl eq_refl Ed).
    rewrite (py_range_spec _ _ _ _ E2), (py_range_spec _ _ _ _ E4). unfold before.
    assert ((- step >? 0) = false) as -> by (destruct (Z.gtb_spec (- step) 0); [lia|done]). cbn. split.
    - intros [(i & Hi & -> & Hb) (j & Hj & -> & Hm)]. split; [lia|]. split; [nia|]. exists j. lia.
    - intros (Hh & Hm & [j Hj]). split; [exists (a - h); lia|]. exists j. split; [nia|lia]. }
  split_and!; [done..| | |].
  - intros h [_ [? _]]%Hdown. lia.
  - intros m [? _]%Hdown. lia.
  - eexists. split; [reflexivity|]. right; left.
Qed.

(** ** Concrete runs *)

Example dates_of_year_witness :
  (∃ l, select_dates_in_year 352 2000 true false = Ok l ∧ Z.of_nat (length l) = 351) ∧
  (∃ l, select_dates_in_year 352 1927 false true = Ok l ∧ leap_date 1927 ∉ l).
Proof.
  split.
  - destruct (dates_of_year 352 2000 true false) as (l & El & _ & Hl & _); [lia|lia|].
    exists l. exact (conj El Hl).
  - destruct (dates_of_year 352 1927 false true) as (l & El & _ & _ & _ & Hl); [lia|lia|].
    exists l. split; [exact El|]. intros Hin%Hl. by vm_compute in Hin.
Defined.
Example sweep_times_witness :
  ∃ down, decrementing_times true (23, 0) 1 = Ok down ∧ (22, 1) ∈ down ∧ (22, 0) ∉ down.
Proof.
  destruct (sweep_times 23 0 1) as (up & down & _ & Ed & _ & Hd & H0 & _); [lia|].
  exists down. split_and!; [done| |by apply H0]. apply Hd. split; [lia|]. split; [lia|]. by exists 58.
Defined.

(** The microseconds that a caller asks for are lost under stress, and the
    29th of February has some that no caller asked for. *)
Lemma microseconds_lost fuel y :
  select_dates_in_year fuel y true true = select_dates_in_year fuel y true false.
Proof. done. Qed.
Example leap_microseconds :
  select_dates_in_year 1 2000 false false =
  Ok [mkDatetime 2000 1 1 0 0 0 0; mkDatetime 2000 12 31 23 59 59 0;
      mkDatetime 2000 2 29 11 11 11 123000].
Proof. by_compute. Qed.
