(* ===== verification/DateTimeChecks.v ===== *)
(** * The expected values of the DateTime64 suite

    datetime64_extended_range/tests/date_time_functions.py compares the answers
    of ClickHouse's functions on dates with values that it computes in Python:
    what it computes, the queries, and the theorems that compare the values
    with the calendar.  The conversion between time zones (pytz) and the
    addition of months and years (dateutil) are parameters. *)
From stdpp Require Import gmap.
From Stdlib Require Import Ascii.
From S2P Require Import Prelude PyStr PyMonad Version World Query NodeLog Scenario Calendar DateTimes.
Local Open Scope Z_scope.

Definition fmt : string := "%Y-%m-%d %H:%M:%S".
Definition fmt_day : string := "%Y-%m-%d".

(** ** The values *)

(** What [to_date_part] evaluates on the converted moment *)
Inductive date_part := Year | Month | Quarter.
Definition date_part_value (p : date_part) (dt : datetime) : Z :=
  match p with
  | Year => year dt
  | Month => month dt
  | Quarter => (month dt - 1) / 3 + 1
  end.
(** What [to_day_of] reads from the time tuple; Mondays are 1. *)
Inductive day_part := tm_yday | tm_mday | tm_wday.
Definition day_part_value (p : day_part) (dt : datetime) : Z :=
  match p with
  | tm_yday => toordinal dt - days_before_year (year dt)
  | tm_mday => day dt
  | tm_wday => weekday dt + 1
  end.
Inductive time_part := Hour | Minute | Second.
Definition time_part_value (p : time_part) (dt : datetime) : Z :=
  match p with Hour => hour dt | Minute => minute dt | Second => second dt end.

(** [iso_year_start(dt)] *)
Fixpoint iso_start_loop (fuel : nat) (y : Z) (dt_s : datetime) : res datetime :=
  match fuel with
  | O => Stuck OutOfFuel
  | S fuel =>
      if (isocalendar dt_s).1.1 =? y then Ok dt_s
      else dt_s ← dt_add dt_s (timedelta 1 0 0 0); iso_start_loop fuel y dt_s
  end.
Definition iso_year_start (fuel : nat) (dt : datetime) : res datetime :=
  dt_s ← datetime_new (year dt - 1) 12 23 0 0 0 0; iso_start_loop fuel (year dt) dt_s.

(** The month of [to_start_of_quarter], where [t] is the converted moment *)
Definition quarter_month (t : datetime) : Z := month t / 3 * 3 + 1.
Definition start_of_quarter (y : Z) (t : datetime) : string :=
  str_Z y +:+ "-" +:+ zfill 2 (quarter_month t) +:+ "-01".
(** The days that [to_monday] and [to_start_of_week] add *)
Definition monday_days (dt : datetime) : Z :=
  if weekday dt <=? 3 then - weekday dt else 7 - weekday dt.
Definition week_days (mode : Z) (dt : datetime) : Z :=
  if weekday dt <=? 3 + mode then mode - weekday dt else mode + 7 - weekday dt.
Definition minutes_interval (interval : Z) (dt : datetime) : string :=
  strftime "%Y-%m-%d %H:" dt +:+ zfill 2 (minute dt / interval * interval) +:+ ":00".

(** *** [to_start_of_interval_helper] *)

Inductive interval_type := SECOND | MINUTE | HOUR | DAY | WEEK | MONTH | QUARTER | YEAR.
(** [intervals_in_seconds] *)
Definition interval_seconds (i : interval_type) : option Z :=
  match i with
  | SECOND => Some 1 | MINUTE => Some 60 | HOUR => Some 3600 | DAY => Some 68400 | WEEK => Some 604800
  | _ => None
  end.
Definition zero_datetime : datetime := mkDatetime 1970 1 1 0 0 0 0.
Section intervals.
(** [dt + relativedelta(months=n)] and [dt + relativedelta(years=n)] *)
Variables add_months add_years : datetime → Z → res datetime.

(** A division by zero raises. *)
Definition py_div (a b : Z) : res Z :=
  if b =? 0 then Exc (OtherException "ZeroDivisionError") else Ok (a / b).
Definition seconds_start (dt : datetime) (value unit : Z) : res datetime :=
  let delta := dt_sub dt zero_datetime in
  let divisor := value * unit in
  q ← py_div (td_seconds delta) divisor;
  dt_add zero_datetime (timedelta 0 0 0 (q * divisor)).
Definition to_start_of_interval_helper (dt : datetime) (type : interval_type) (value : Z) : res string :=
  match interval_seconds type with
  | Some unit =>
      retval ← seconds_start dt value unit;
      Ok (strftime (match type with WEEK => fmt_day | _ => fmt end) retval)
  | None =>
      let years := year dt - 1970 in
      match type with
      | MONTH =>
          q ← py_div (years * 12 + (month dt - 1)) value;
          t ← add_months zero_datetime (q * value); Ok (strftime fmt_day t)
      | QUARTER =>
          q ← py_div (years * 4 + (month dt / 4 - 1 / 4)) value;
          t ← add_months zero_datetime (q * value * 4); Ok (strftime fmt_day t)
      | _ =>
          q ← py_div years value;
          t ← add_years zero_datetime (q * value); Ok (strftime fmt_day t)
      end
  end.
End intervals.

(** *** [to_week_compute_expected] *)

(** [while ex.weekday() != w: ex += timedelta(days=1)] *)
Fixpoint next_weekday (fuel : nat) (w : Z) (ex : datetime) : res datetime :=
  match fuel with
  | O => Stuck OutOfFuel
  | S fuel =>
      if weekday ex =? w then Ok ex
      else ex ← dt_add ex (timedelta 1 0 0 0); next_weekday fuel w ex
  end.
(** The number of the week: [j1] is the weekday of the first of January,
    [days k] are the days from it to [dt] and [k] more. *)
Definition week_number (mode j1 first_monday first_sunday : Z) (days : Z → Z) : option Z :=
  match mode with
  | 0 | 2 => Some (days (- first_sunday) / 7 + 1)
  | 1 | 3 => Some (if j1 <=? 3 then days (7 + j1) / 7 else days j1 / 7)
  | 4 | 6 => Some (if j1 <=? 3 then days (8 + j1) / 7 else days (j1 + 1) / 7)
  | 5 | 7 => Some (days (- first_monday) / 7 + 1)
  | 8 => Some (days ((j1 + 1) mod 7) / 7 + 1)
  | 9 => Some (days (j1 mod 7) / 7 + 1)
  | _ => None
  end.
(** The modes without a week 0 *)
Definition wraps (mode : Z) : bool := (mode =? 2) || (mode =? 3) || (mode =? 6) || (mode =? 7).
Fixpoint to_week_compute_expected (fuel : nat) (dt : datetime) (mode : Z) (ret_year : bool) : res string :=
  match fuel with
  | O => Stuck OutOfFuel
  | S fuel =>
      ex ← datetime_new (year dt) 1 1 0 0 0 0;
      monday ← next_weekday 7 0 ex;
      sunday ← next_weekday 7 6 ex;
      let days k := td_days (dt_sub dt ex + timedelta k 0 0 0) in
      expected ← or_raise (UnboundLocalError "expected")
                   (week_number mode (weekday ex) (day monday - 1) (day sunday - 1) days);
      if wraps mode && (expected =? 0) then
        last ← datetime_new (year dt - 1) 12 31 0 0 0 0;
        to_week_compute_expected fuel last mode false
      else Ok (if ret_year then str_Z (year dt) +:+ zfill 2 expected else str_Z expected)
  end.

(** *** The relative numbers *)

Definition relative_quarter (y : Z) (dt : datetime) : Z := (y - 1970) * 4 + (month dt - 1) / 3.
Definition relative_week (dt : datetime) : res Z :=
  t ← dt_add dt (timedelta 8 0 0 0);
  t ← dt_add t (- timedelta (weekday dt) 0 0 0);
  Ok (td_days (dt_sub t zero_datetime) / 7).
Definition relative_month (y : Z) (dt : datetime) : Z := (y - 1970) * 12 + month dt.
Definition relative_day (dt : datetime) : Z := td_days (dt_sub dt zero_datetime).
(** [total_seconds() // divisor] is a float. *)
Definition relative_time (divisor : Z) (dt : datetime) : string :=
  str_Z (dt_sub dt zero_datetime / (divisor * second_us)) +:+ ".0".

(** ** Whole days *)

(** Adding days to a moment that has a next one *)
Lemma days_added dt n t :
  valid dt → valid t → toordinal t = toordinal dt + n → time_us t = time_us dt →
  dt_add dt (timedelta n 0 0 0) = Ok t.
Proof.
  intros Hd Ht Ho Hus. unfold dt_add. rewrite <-(from_to_moment t Ht). f_equal.
  unfold moment, timedelta. rewrite Ho, Hus. lia.
Qed.
Lemma add_days_ok dt n :
  valid dt → 1 <= toordinal dt + n <= max_ordinal →
  ∃ t, dt_add dt (timedelta n 0 0 0) = Ok t ∧ valid t ∧ toordinal t = toordinal dt + n ∧
    time_us t = time_us dt.
Proof.
  intros Hd Hm. pose proof (time_us_bounds dt Hd).
  destruct (from_moment_ok (toordinal dt + n) (time_us dt)) as (t & E & Hv & Ho & Ht & _); [lia|lia|].
  exists t. split_and!; try done. unfold dt_add. rewrite <-E. f_equal. unfold moment, timedelta. lia.
Qed.
(** The next day *)
Lemma next_day dt :
  valid dt → toordinal dt < max_ordinal →
  ∃ t, dt_add dt (timedelta 1 0 0 0) = Ok t ∧ valid t ∧ toordinal t = toordinal dt + 1 ∧
    time_us t = time_us dt.
Proof. intros Hd Hm. pose proof (toordinal_bounds dt Hd). apply add_days_ok; [done|lia]. Qed.
Lemma days_since dt other k :
  valid dt → time_us other = 0 →
  td_days (dt_sub dt other + timedelta k 0 0 0) = toordinal dt - toordinal other + k.
Proof.
  intros Hd Ho. pose proof (time_us_bounds dt Hd). unfold td_days, dt_sub, moment, timedelta. rewrite Ho.
  symmetry. apply (Z.div_unique _ _ _ (time_us dt)); [by left|lia].
Qed.

(** ** The start of an ISO year *)

Lemma iso_week1_step y :
  iso_week1_monday y + 364 <= iso_week1_monday (y + 1).
Proof.
  destruct (iso_week1_bounds y) as [Hm Hb]. destruct (iso_week1_bounds (y + 1)) as [Hm' Hb'].
  rewrite !ordinal_first, days_before_next in *. pose proof (year_days_bounds y). dlia.
Qed.
(** The ISO year of a day *)
Lemma iso_year_of dt :
  (isocalendar dt).1.1 =
    if toordinal dt <? iso_week1_monday (year dt) then year dt - 1
    else if iso_week1_monday (year dt + 1) <=? toordinal dt then year dt + 1 else year dt.
Proof.
  unfold isocalendar. cbv zeta. set (t := toordinal dt). set (w := iso_week1_monday (year dt)).
  pose proof (iso_week1_step (year dt)) as Hs. fold w in Hs.
  destruct (Z.ltb_spec ((t - w) / 7) 0), (Z.ltb_spec t w); cbn; try done; [dlia|dlia|].
  destruct (Z.leb_spec (iso_week1_monday (year dt + 1)) t), (Z.leb_spec 52 ((t - w) / 7)); cbn; try done.
  dlia.
Qed.

Lemma iso_start_loop_spec y (n : nat) fuel dt :
  2 <= y <= 9999 → valid dt → ordinal y 1 1 - 9 <= toordinal dt →
  iso_week1_monday y = toordinal dt + Z.of_nat n → (n < fuel)%nat →
  ∃ d, iso_start_loop fuel y dt = Ok d ∧ valid d ∧ toordinal d = iso_week1_monday y ∧
    time_us d = time_us dt ∧ (isocalendar d).1.1 = y.
Proof.
  intros Hy. revert fuel dt. induction n as [|n IH]; intros [|fuel] dt Hv Hlo Hn Hf; try lia;
    cbn [iso_start_loop]; rewrite iso_year_of.
  all: destruct (toordinal_year dt Hv) as [_ Hr]; destruct (iso_week1_bounds y) as [Hm Hb];
    rewrite ordinal_first in *.
  all: assert (Hyear : year dt = y ∨ year dt = y - 1).
  1,3: destruct (Z.lt_trichotomy (year dt) (y - 1)) as [Hl|[->|Hl]]; [|by right|];
    [pose proof (days_before_mono (year dt + 1) y ltac:(lia)); lia|
     destruct (Z.eq_dec (year dt) y) as [|Hne]; [by left|];
     pose proof (days_before_le (y + 1) (year dt) ltac:(lia)); rewrite days_before_next in *;
     pose proof (year_days_bounds y); lia].
  - assert (Hiso : (if toordinal dt <? iso_week1_monday (year dt) then year dt - 1
       else if iso_week1_monday (year dt + 1) <=? toordinal dt then year dt + 1 else year dt) = y).
    { pose proof (iso_week1_step y). destruct Hyear as [-> | ->].
      - rewrite (proj2 (Z.ltb_ge _ _)), (proj2 (Z.leb_gt _ _)) by lia. done.
      - replace (y - 1 + 1) with y by lia. pose proof (iso_week1_step (y - 1)) as Hs.
        replace (y - 1 + 1) with y in Hs by lia.
        rewrite (proj2 (Z.ltb_ge _ _)), (proj2 (Z.leb_le _ _)) by lia. done. }
    rewrite Hiso, Z.eqb_refl. exists dt. split_and!; [done..|lia|done|by rewrite iso_year_of].
  - assert (Hiso : (if toordinal dt <? iso_week1_monday (year dt) then year dt - 1
       else if iso_week1_monday (year dt + 1) <=? toordinal dt then year dt + 1 else year dt) ≠ y).
    { destruct Hyear as [-> | ->].
      - rewrite (proj2 (Z.ltb_lt _ _)) by lia. lia.
      - replace (y - 1 + 1) with y by lia. rewrite (proj2 (Z.leb_gt (iso_week1_monday y) _)) by lia.
        case_match; lia. }
    rewrite (proj2 (Z.eqb_neq _ _) Hiso).
    destruct (next_day dt Hv) as (t & -> & Hvt & Hot & Htt).
    { destruct (year_ordinals y (ordinal y 1 1 + 4)) as [_ ?]; [lia| |rewrite ordinal_first in *; lia].
      rewrite ordinal_first, days_before_next. pose proof (year_days_bounds y). lia. }
    cbn [mbind res_bind]. destruct (IH fuel t) as (d & Ed & Hvd & Hod & Htd & Hid); [done|lia..|].
    exists d. split_and!; [done..|by rewrite Htd|done].
Qed.

Lemma valid_dec_23 y :
  2 <= y <= 9999 → datetime_new (y - 1) 12 23 0 0 0 0 = Ok (mkDatetime (y - 1) 12 23 0 0 0 0) ∧
  valid (mkDatetime (y - 1) 12 23 0 0 0 0) ∧ toordinal (mkDatetime (y - 1) 12 23 0 0 0 0) = ordinal y 1 1 - 9.
Proof.
  intros Hy. assert (Hv : valid (mkDatetime (y - 1) 12 23 0 0 0 0)).
  { unfold valid, valid_date. cbn [year month day hour minute second microsecond].
    assert (days_in_month (is_leap (y - 1)) 12 = 31) as -> by by destruct (is_leap (y - 1)). lia. }
  split_and!; [unfold datetime_new; by rewrite decide_True|done|].
  unfold toordinal. cbn [year month day]. rewrite ordinal_first.
  replace y with (y - 1 + 1) at 2 by lia. rewrite days_before_next. unfold ordinal, year_days.
  destruct (is_leap (y - 1)); [change (days_before_month true 12) with 335|change (days_before_month false 12) with 334]; lia.
Qed.

Lemma iso_year_found (fuel : nat) dt :
  valid dt → 2 <= year dt → (12 < fuel)%nat →
  ∃ d, iso_year_start fuel dt = Ok d ∧ valid d ∧ toordinal d = iso_week1_monday (year dt) ∧
    time_us d = 0 ∧ (isocalendar d).1.1 = year dt.
Proof.
  intros Hv Hy2 Hf. set (y := year dt) in *. assert (Hy : 2 <= y <= 9999) by (split; [done|apply Hv]).
  destruct (valid_dec_23 y Hy) as (E & Hv0 & Ho). unfold iso_year_start. fold y. rewrite E.
  cbn [mbind res_bind]. set (start := mkDatetime (y - 1) 12 23 0 0 0 0) in *.
  destruct (iso_week1_bounds y) as [Hm Hb].
  destruct (iso_start_loop_spec y (Z.to_nat (iso_week1_monday y - toordinal start)) fuel start)
    as (d & Ed & Hvd & Hod & Htd & Hid); [done..|lia|lia|lia|].
  by exists d.
Qed.
(** The Monday of the first week of year [y], in the ISO calendar *)
Lemma week1_monday_iso y d :
  valid d → toordinal d = iso_week1_monday y → (isocalendar d).1.1 = y → isocalendar d = (y, 1, 1).
Proof.
  intros Hvd Hod Hid. rewrite iso_year_of in Hid. unfold isocalendar. cbv zeta. rewrite Hod in *.
  destruct (Z.ltb_spec (iso_week1_monday y) (iso_week1_monday (year d))) as [Hlt|Hge].
  - pose proof (iso_week1_step y) as Hs. replace y with (year d - 1) in Hlt, Hs by lia.
    exfalso. destruct (toordinal_year d Hvd) as [_ Hr]. rewrite Hod in Hr.
    destruct (iso_week1_bounds (year d)) as [_ Hb']. rewrite !ordinal_first in *.
    replace y with (year d - 1) in * by lia. replace (year d - 1 + 1) with (year d) in * by lia.
    pose proof (days_before_next (year d - 1)) as Hn. replace (year d - 1 + 1) with (year d) in Hn by lia.
    destruct (iso_week1_bounds (year d - 1)) as [_ Hb]. rewrite ordinal_first in Hb.
    pose proof (year_days_bounds (year d - 1)). lia.
  - destruct (Z.leb_spec (iso_week1_monday (year d + 1)) (iso_week1_monday y)) as [Hle|Hgt].
    + assert (Hyd : year d = y - 1) by lia. rewrite Hyd in *.
      pose proof (iso_week1_step (y - 1)) as Hs. destruct (iso_week1_bounds (y - 1)) as [Hm' _].
      destruct (iso_week1_bounds y) as [Hm _]. replace (y - 1 + 1) with y in * by lia.
      rewrite (proj2 (Z.ltb_ge _ _)), (proj2 (Z.leb_le 52 _)) by dlia. cbn [andb].
      replace (y - 1 + 1) with y by lia.
      assert ((iso_week1_monday y - iso_week1_monday (y - 1)) mod 7 = 0) as -> by dlia. done.
    + assert (Hyd : year d = y) by lia. rewrite Hyd, Z.sub_diag. done.
Qed.

(** C26: The start of the ISO year is found for every date from year 2 on: a
    Monday, at midnight, that the calendar puts into the first week of the year
    of the date.  It is the start of the ISO year that the date lies in exactly
    when that is the year of the date. *)
Theorem iso_year_start_found (fuel : nat) dt :
  valid dt → 2 <= year dt → (12 < fuel)%nat →
  ∃ d, iso_year_start fuel dt = Ok d ∧ valid d ∧ time_us d = 0 ∧ isocalendar d = (year dt, 1, 1) ∧
    (toordinal d = iso_week1_monday (isocalendar dt).1.1 ↔ (isocalendar dt).1.1 = year dt).
Proof.
  intros Hv Hy2 Hf. destruct (iso_year_found fuel dt Hv Hy2 Hf) as (d & Ed & Hvd & Hod & Htd & Hid).
  exists d. split_and!; [done..|by apply week1_monday_iso|]. set (y := year dt) in *.
  rewrite Hod. split; [|by intros ->]. intros Heq.
  destruct (Z.lt_trichotomy (isocalendar dt).1.1 y) as [Hl|[He|Hl]]; [|done|]; exfalso;
    rewrite iso_year_of in Hl, Heq; fold y in Hl, Heq;
    pose proof (iso_week1_step y); pose proof (iso_week1_step (y - 1)) as Hp;
    replace (y - 1 + 1) with y in Hp by lia; repeat case_match; lia.
Qed.

(** ** Weeks *)

Definition january (y i : Z) : datetime := mkDatetime y 1 (1 + i) 0 0 0 0.
Lemma january_ok y i :
  1 <= y <= 9999 → 0 <= i <= 30 → valid (january y i) ∧ toordinal (january y i) = ordinal y 1 1 + i.
Proof.
  intros Hy Hi. split.
  - unfold valid, valid_date, january. cbn [year month day hour minute second microsecond].
    assert (days_in_month (is_leap y) 1 = 31) as -> by by destruct (is_leap y). lia.
  - unfold toordinal, january, ordinal. cbn [year month day].
    assert (days_before_month (is_leap y) 1 = 0) as -> by by destruct (is_leap y). lia.
Qed.
(** The days from the first of January to the first one that is a [w] *)
Definition days_to (y w : Z) : Z := (w - ordinal_weekday (ordinal y 1 1)) mod 7.
Lemma next_weekday_found y w (n fuel : nat) i :
  1 <= y <= 9999 → 0 <= w < 7 → 0 <= i → i + Z.of_nat n = days_to y w → (n < fuel)%nat →
  next_weekday fuel w (january y i) = Ok (january y (days_to y w)).
Proof.
  intros Hy Hw. revert fuel i. induction n as [|n IH]; intros [|fuel] i Hi Hn Hf; try lia;
    cbn [next_weekday]; unfold weekday.
  all: assert (Hd : 0 <= days_to y w < 7) by by apply Z.mod_pos_bound.
  all: destruct (january_ok y i) as [Hv Ho]; [done|lia|]; rewrite Ho.
  - replace i with (days_to y w) by lia. rewrite (proj2 (Z.eqb_eq _ _)); [done|].
    unfold days_to, ordinal_weekday in *. set (o := ordinal y 1 1) in *. clearbody o. dlia.
  - rewrite (proj2 (Z.eqb_neq _ _)).
    2: { unfold days_to, ordinal_weekday in *. set (o := ordinal y 1 1) in *. clearbody o. dlia. }
    destruct (january_ok y (i + 1)) as [Hv' Ho']; [done|lia|].
    rewrite (days_added _ 1 (january y (i + 1))); [|done|done|lia|done].
    cbn [mbind res_bind]. apply IH; lia.
Qed.

(** The first day of week 1 of a year, as the comments on the modes say: weeks
    start on a Sunday or a Monday, and week 1 is the first with that day, the
    first with four days or more in the year, or the one with the first of
    January. *)
Definition first_of_week (mode : Z) : Z := if (mode =? 0) || (mode =? 2) || (mode =? 4) || (mode =? 6) || (mode =? 8) then 6 else 0.
Definition week_one (mode y w : Z) : Prop :=
  let jan1 := ordinal y 1 1 in
  ordinal_weekday w = first_of_week mode ∧
  match mode with
  | 0 | 2 | 5 | 7 => jan1 <= w < jan1 + 7
  | 1 | 3 | 4 | 6 => jan1 - 3 <= w <= jan1 + 3
  | 8 | 9 => jan1 - 6 <= w <= jan1
  | _ => False
  end.
(** Day [n] lies in week [k] of year [y]. *)
Definition in_week (mode y k n : Z) : Prop :=
  ∃ w, week_one mode y w ∧ w + 7 * (k - 1) <= n < w + 7 * k.

(** The four days fail for weeks that start on Sunday when the first of
    January is a Thursday. *)
Definition miscounted (mode y : Z) : bool :=
  ((mode =? 4) || (mode =? 6)) && (ordinal_weekday (ordinal y 1 1) =? 3).

Lemma ten_modes mode :
  0 <= mode <= 9 → mode = 0 ∨ mode = 1 ∨ mode = 2 ∨ mode = 3 ∨ mode = 4 ∨ mode = 5 ∨ mode = 6 ∨
    mode = 7 ∨ mode = 8 ∨ mode = 9.
Proof. lia. Qed.
Ltac each_mode H := apply ten_modes in H; destruct_or! H; subst.

Lemma week_number_spec mode y n :
  0 <= mode <= 9 →
  ∃ k, week_number mode (ordinal_weekday (ordinal y 1 1)) (days_to y 0) (days_to y 6)
         (λ d, n - ordinal y 1 1 + d) = Some k ∧
       in_week mode y (if miscounted mode y then k - 1 else k) n.
Proof.
  intros Hm. unfold days_to, miscounted, in_week, week_one. set (o := ordinal y 1 1). clearbody o.
  unfold ordinal_weekday. set (j := (o + 6) mod 7).
  assert (Hj : 0 <= j < 7 ∧ ∃ q, o + 6 = 7 * q + j).
  { split; [by apply Z.mod_pos_bound|]. exists ((o + 6) / 7). by apply Z.div_mod. }
  clearbody j. destruct Hj as [Hj [q Hq]]. assert (Ho : o = 7 * q + j - 6) by lia. clear Hq. subst o.
  set (o := 7 * q + j - 6). each_mode Hm; cbn [week_number]; eexists; (split; [reflexivity|]);
    cbn [first_of_week Z.eqb Pos.eqb orb andb].
  1,3: exists (o + (6 - j) mod 7); unfold o; dlia.
  1,2: exists (if j <=? 3 then o - j else o - j + 7); unfold o; destruct (Z.leb_spec j 3); dlia.
  1,3: exists (if (j <=? 2) || (j =? 6) then o - (j + 1) mod 7 else o - (j + 1) mod 7 + 7); unfold o;
    destruct (Z.leb_spec j 3), (Z.leb_spec j 2), (Z.eqb_spec j 6), (Z.eqb_spec j 3); cbn [orb]; dlia.
  1,2: exists (o + (0 - j) mod 7); unfold o; dlia.
  - exists (o - (j + 1) mod 7); unfold o; dlia.
  - exists (o - j); unfold o; dlia.
Qed.

Lemma week_number_ext mode j m s f g :
  (∀ k, f k = g k) → week_number mode j m s f = week_number mode j m s g.
Proof. intros H. unfold week_number. repeat case_match; by rewrite ?H. Qed.

(** One call: a number of the calendar, or, for number 0 in the modes without
    one, the call for the last day of the year before *)
Lemma week_call (fuel : nat) dt mode ret_year :
  valid dt → 0 <= mode <= 9 →
  ∃ k, in_week mode (year dt) (if miscounted mode (year dt) then k - 1 else k) (toordinal dt) ∧
    to_week_compute_expected (S fuel) dt mode ret_year =
      if wraps mode && (k =? 0) then
        last ← datetime_new (year dt - 1) 12 31 0 0 0 0; to_week_compute_expected fuel last mode false
      else Ok (if ret_year then str_Z (year dt) +:+ zfill 2 k else str_Z k).
Proof.
  intros Hv Hm. assert (Hy : 1 <= year dt <= 9999) by apply Hv. set (y := year dt) in *.
  destruct (week_number_spec mode y (toordinal dt) Hm) as (k & Ek & Hk). exists k. split; [done|].
  cbn [to_week_compute_expected]. fold y. rewrite valid_first by lia.
  change (mkDatetime y 1 1 0 0 0 0) with (january y 0). cbn [mbind res_bind].
  assert (Hd : ∀ w, 0 <= days_to y w < 7) by by intros w; apply Z.mod_pos_bound.
  pose proof (Hd 0). pose proof (Hd 6).
  rewrite (next_weekday_found y 0 (Z.to_nat (days_to y 0))) by lia. cbn [mbind res_bind].
  rewrite (next_weekday_found y 6 (Z.to_nat (days_to y 6))) by lia. cbn [mbind res_bind].
  destruct (january_ok y 0) as [Hv0 Ho0]; [done|lia|]. unfold weekday. rewrite Ho0, Z.add_0_r.
  replace (day (january y (days_to y 0)) - 1) with (days_to y 0) by (cbn [january day]; lia).
  replace (day (january y (days_to y 6)) - 1) with (days_to y 6) by (cbn [january day]; lia).
  rewrite (week_number_ext _ _ _ _ _ (λ d, toordinal dt - ordinal y 1 1 + d)), Ek; [done|].
  intros d. rewrite days_since by done. rewrite Ho0. lia.
Qed.

Lemma in_week_nonneg mode y k n : 0 <= mode <= 9 → ordinal y 1 1 <= n → in_week mode y k n → 0 <= k.
Proof.
  intros Hm Hn (w & [_ Hw] & Hk). assert (w <= ordinal y 1 1 + 6); [|lia].
  each_mode Hm; lia.
Qed.
(** The last day of a year is far from its week 0. *)
Lemma last_day_week mode y k : 0 <= mode <= 9 → in_week mode (y - 1) k (ordinal y 1 1 - 1) → 2 <= k.
Proof.
  intros Hm (w & [_ Hw] & Hk).
  assert (Hjan : ordinal (y - 1) 1 1 <= ordinal y 1 1 - 365).
  { rewrite !ordinal_first. pose proof (days_before_mono (y - 1) y). lia. }
  assert (w <= ordinal (y - 1) 1 1 + 6); [each_mode Hm; lia|lia].
Qed.
(** A day before week 1 lies in the week of the last day of the year before. *)
Lemma last_week mode y k n :
  0 <= mode <= 9 → ordinal y 1 1 <= n → in_week mode y 0 n → in_week mode (y - 1) k (ordinal y 1 1 - 1) →
  in_week mode (y - 1) k n ∧ 1 <= k.
Proof.
  intros Hm Hn (w & [Hwd Hw] & Hk) (w' & [Hwd' Hw'] & Hk').
  assert (Hjan : ordinal (y - 1) 1 1 <= ordinal y 1 1 - 365).
  { rewrite !ordinal_first. pose proof (days_before_mono (y - 1) y). lia. }
  assert (Hle : w' <= ordinal (y - 1) 1 1 + 6 ∧ w <= ordinal y 1 1 + 6).
  { each_mode Hm; lia. }
  assert (Hmod : w mod 7 = w' mod 7) by (rewrite <-Hwd' in Hwd; unfold ordinal_weekday in Hwd; dlia).
  split; [|lia]. exists w'. split; [by split|]. dlia.
Qed.

Lemma valid_dec_31 y :
  2 <= y <= 9999 → datetime_new (y - 1) 12 31 0 0 0 0 = Ok (mkDatetime (y - 1) 12 31 0 0 0 0) ∧
  valid (mkDatetime (y - 1) 12 31 0 0 0 0) ∧ toordinal (mkDatetime (y - 1) 12 31 0 0 0 0) = ordinal y 1 1 - 1.
Proof.
  intros Hy. destruct (valid_dec_23 y Hy) as (_ & Hv & Ho).
  assert (Hv' : valid (mkDatetime (y - 1) 12 31 0 0 0 0)).
  { unfold valid, valid_date in *. cbn [year month day hour minute second microsecond] in *.
    assert (days_in_month (is_leap (y - 1)) 12 = 31) as Hd by by destruct (is_leap (y - 1)). lia. }
  split_and!; [unfold datetime_new; by rewrite decide_True|done|].
  unfold toordinal, ordinal in *. cbn [year month day] in *. lia.
Qed.

(** The number that the suite expects: that of the week [k] in which the date
    lies in year [y], one higher in years that are miscounted *)
Definition counted_week (mode y k : Z) : Z := if miscounted mode y then k + 1 else k.
Lemma week_counted (fuel : nat) dt mode ret_year :
  valid dt → 2 <= year dt → 0 <= mode <= 9 → (1 < fuel)%nat →
  ∃ k, in_week mode (year dt) k (toordinal dt) ∧ 0 <= k ∧
    let n := counted_week mode (year dt) k in
    if wraps mode && (n =? 0) then
      ∃ k', in_week mode (year dt - 1) k' (toordinal dt) ∧ 1 <= k' ∧
        to_week_compute_expected fuel dt mode ret_year = Ok (str_Z (counted_week mode (year dt - 1) k'))
    else to_week_compute_expected fuel dt mode ret_year =
         Ok (if ret_year then str_Z (year dt) +:+ zfill 2 n else str_Z n).
Proof.
  intros Hv Hy2 Hm Hf. destruct fuel as [|[|fuel]]; [lia..|].
  assert (Hy : 2 <= year dt <= 9999) by (split; [done|apply Hv]). set (y := year dt) in *.
  assert (Hjan : ordinal y 1 1 <= toordinal dt).
  { rewrite ordinal_first. destruct (toordinal_year dt Hv) as [_ Hr]. fold y in Hr. lia. }
  destruct (week_call (S fuel) dt mode ret_year Hv Hm) as (k & Hk & ->). fold y in Hk.
  set (k0 := if miscounted mode y then k - 1 else k) in *.
  assert (Hn : counted_week mode y k0 = k) by (unfold counted_week, k0; case_match; lia).
  pose proof (in_week_nonneg _ _ _ _ Hm Hjan Hk) as H0. exists k0. split_and!; [done..|].
  cbv zeta. rewrite Hn. destruct (wraps mode && (k =? 0)) eqn:Hw; [|done].
  apply andb_true_iff in Hw as [Hw ->%Z.eqb_eq].
  assert (Hk0 : k0 = 0) by (unfold k0 in *; case_match; lia). rewrite Hk0 in Hk.
  fold y. destruct (valid_dec_31 y Hy) as (-> & Hv1 & Ho1). cbn [mbind res_bind].
  destruct (week_call fuel (mkDatetime (y - 1) 12 31 0 0 0 0) mode false Hv1 Hm) as (k' & Hk' & ->).
  cbn [year] in Hk'. rewrite Ho1 in Hk'.
  destruct (last_week mode y _ (toordinal dt) Hm Hjan Hk Hk') as [Hin H1].
  eexists. split_and!; [exact Hin|exact H1|]. rewrite (proj2 (Z.eqb_neq k' 0)), andb_false_r by (case_match; lia).
  do 2 f_equal. unfold counted_week. case_match; lia.
Qed.

(** C19: The expected week of a date is the number of the week in which the date
    lies in a year, counted as the comments on the modes say, plus one exactly
    when that year is [miscounted], that is, in modes 4 and 6 (weeks from
    Sunday, week 1 with four days or more), when the year begins on a Thursday.
    The year is the one of the date; in the modes without a week 0, for a date
    in week 0 of a year that is not miscounted, it is the year before. *)
Theorem week_numbers_match (fuel : nat) dt mode :
  valid dt → 2 <= year dt → 0 <= mode <= 9 → (1 < fuel)%nat →
  ∃ y k, in_week mode y k (toordinal dt) ∧
    to_week_compute_expected fuel dt mode false = Ok (str_Z (if miscounted mode y then k + 1 else k)) ∧
    ((y = year dt ∧ 0 <= k ∧ (wraps mode = true → k = 0 → miscounted mode y = true)) ∨
     (y = year dt - 1 ∧ 1 <= k ∧ wraps mode = true ∧ miscounted mode (year dt) = false ∧
      in_week mode (year dt) 0 (toordinal dt))).
Proof.
  intros Hv Hy2 Hm Hf. destruct (week_counted fuel dt mode false Hv Hy2 Hm Hf) as (k & Hk & H0 & E).
  cbv zeta in E. unfold counted_week in E at 1.
  destruct (wraps mode && _) eqn:Hw.
  - apply andb_true_iff in Hw as [Hw Hz%Z.eqb_eq].
    destruct (miscounted mode (year dt)) eqn:Hc; [lia|]. subst k.
    destruct E as (k' & Hk' & H1 & E). exists (year dt - 1), k'. split_and!; [done..|by right].
  - exists (year dt), k. split_and!; [done..|left]. split_and!; [done..|]. intros Hwr ->.
    rewrite Hwr in Hw. by destruct (miscounted mode (year dt)).
Qed.

(** ** The other starts *)

(** What the suite computes for the start of a quarter is its first month
    except in the last month of every quarter, and month 13 in December; for
    the Monday of a week it is the nearest Monday, which is the one of the week
    up to Thursdays only; and the start of a week from Sunday (mode 0) or Monday
    (mode 1) is a Monday or a Tuesday. *)
Lemma quarter_and_week_starts dt :
  valid dt →
  (quarter_month dt = (month dt - 1) / 3 * 3 + 1 ↔ month dt mod 3 ≠ 0) ∧
  (month dt = 12 → quarter_month dt = 13) ∧
  ordinal_weekday (toordinal dt + monday_days dt) = 0 ∧ -3 <= monday_days dt <= 3 ∧
  (toordinal dt + monday_days dt = toordinal dt - weekday dt ↔ weekday dt <= 3) ∧
  (∀ mode, 0 <= mode <= 1 → ordinal_weekday (toordinal dt + week_days mode dt) = mode).
Proof.
  intros ((_ & Hm & _) & _). unfold quarter_month, monday_days, week_days, weekday, ordinal_weekday.
  set (n := toordinal dt). set (m := month dt) in *. clearbody n m. split_and!.
  - dlia.
  - by intros ->.
  - destruct (Z.leb_spec ((n + 6) mod 7) 3); dlia.
  - destruct (Z.leb_spec ((n + 6) mod 7) 3); dlia.
  - destruct (Z.leb_spec ((n + 6) mod 7) 3); dlia.
  - destruct (Z.leb_spec ((n + 6) mod 7) 3); dlia.
  - intros mode Hmode. destruct (Z.leb_spec ((n + 6) mod 7) (3 + mode)); dlia.
Qed.

Lemma zero_valid : valid zero_datetime.
Proof. by apply (bool_decide_unpack _); vm_compute. Qed.
Lemma seconds_start_in_1970 dt value unit :
  valid dt → 0 < value * unit →
  ∃ t, seconds_start dt value unit = Ok t ∧ valid t ∧ toordinal t = toordinal zero_datetime ∧
    time_us t <= time_us dt.
Proof.
  intros Hv Hd. unfold seconds_start, py_div. cbv zeta. rewrite (proj2 (Z.eqb_neq (value * unit) 0)) by lia.
  cbn [mbind res_bind]. set (s := td_seconds (dt_sub dt zero_datetime)).
  pose proof (time_us_bounds dt Hv) as Hb.
  assert (Hmod : dt_sub dt zero_datetime mod day_us = time_us dt).
  { unfold dt_sub, moment. change (time_us zero_datetime) with 0.
    symmetry. apply (Z.mod_unique _ _ (toordinal dt - toordinal zero_datetime)); [by left|lia]. }
  assert (Hs : 0 <= s ∧ s * second_us <= time_us dt).
  { unfold s, td_seconds. rewrite Hmod. unfold second_us in *. dlia. }
  set (d := value * unit) in *. assert (Hq : 0 <= s / d * d <= s).
  { pose proof (Z.mul_div_le s d Hd). pose proof (Z.div_pos s d ltac:(lia) Hd). nia. }
  destruct (from_moment_ok (toordinal zero_datetime) (s / d * d * second_us)) as (t & Et & Hvt & Ho & Hu & _).
  { apply toordinal_bounds, zero_valid. }
  { unfold second_us in *. lia. }
  exists t. split_and!; [|done..|rewrite Hu; unfold second_us in *; lia].
  rewrite <-Et. unfold dt_add. by f_equal.
Qed.

(** The start of an interval of seconds up to weeks that the suite expects
    lies on the first of January 1970, whatever the date, as only the seconds
    of the day are counted; a day is taken to have 68400 of them. *)
Lemma interval_starts_in_1970 add_months add_years dt type unit value :
  valid dt → interval_seconds type = Some unit → 0 < value →
  ∃ t, valid t ∧ toordinal t = toordinal zero_datetime ∧ time_us t <= time_us dt ∧
    to_start_of_interval_helper add_months add_years dt type value =
      Ok (strftime (match type with WEEK => fmt_day | _ => fmt end) t).
Proof.
  intros Hv Hu Hval.
  destruct (seconds_start_in_1970 dt value unit Hv) as (t & Et & Hvt & Ho & Ht).
  { destruct type; simplify_eq/=; lia. }
  exists t. split_and!; [done..|]. unfold to_start_of_interval_helper. by rewrite Hu, Et.
Qed.

(** ** The theorems at concrete dates *)

Definition new_year_1927 : datetime := mkDatetime 1927 1 1 0 0 0 0.
Definition leap_day_2000 : datetime := mkDatetime 2000 2 29 11 11 11 123000.
Lemma sample_dates : valid new_year_1927 ∧ valid leap_day_2000.
Proof. split; apply (bool_decide_unpack _); vm_compute; exact I. Qed.

Lemma iso_year_start_found_witness :
  ∃ d, iso_year_start 13 new_year_1927 = Ok d ∧ valid d ∧ time_us d = 0 ∧ isocalendar d = (1927, 1, 1) ∧
    (toordinal d = iso_week1_monday (isocalendar new_year_1927).1.1 ↔ (isocalendar new_year_1927).1.1 = 1927).
Proof.
  apply (iso_year_start_found 13 new_year_1927); [apply sample_dates|cbn; lia|lia].
Defined.

Lemma week_numbers_match_witness :
  ∃ y k, in_week 3 y k (toordinal leap_day_2000) ∧
    to_week_compute_expected 2 leap_day_2000 3 false = Ok (str_Z (if miscounted 3 y then k + 1 else k)) ∧
    ((y = 2000 ∧ 0 <= k ∧ (wraps 3 = true → k = 0 → miscounted 3 y = true)) ∨
     (y = 2000 - 1 ∧ 1 <= k ∧ wraps 3 = true ∧ miscounted 3 2000 = false ∧
      in_week 3 2000 0 (toordinal leap_day_2000))).
Proof. apply (week_numbers_match 2 leap_day_2000 3); [apply sample_dates|cbn; lia|lia|lia]. Defined.

Lemma quarter_and_week_starts_witness :
  quarter_month leap_day_2000 = (2 - 1) / 3 * 3 + 1.
Proof. apply (quarter_and_week_starts leap_day_2000); [apply sample_dates|discriminate]. Defined.

Lemma interval_starts_in_1970_witness :
  ∃ t, valid t ∧ toordinal t = toordinal zero_datetime ∧ time_us t <= time_us leap_day_2000 ∧
    to_start_of_interval_helper (λ d _, Ok d) (λ d _, Ok d) leap_day_2000 DAY 1 =
      Ok (strftime fmt t).
Proof.
  apply (interval_starts_in_1970 (λ d _, Ok d) (λ d _, Ok d) leap_day_2000 DAY 68400 1);
    [apply sample_dates|reflexivity|lia].
Defined.

(** The year is dropped when the week belongs to the year before, and mode 3
    does not end the year with the ISO week. *)
Example week_values :
  to_week_compute_expected 2 (mkDatetime 2000 1 1 0 0 0 0) 2 true = Ok "52" ∧
  to_week_compute_expected 2 (mkDatetime 2018 12 31 0 0 0 0) 3 false = Ok "53" ∧
  isocalendar (mkDatetime 2018 12 31 0 0 0 0) = (2019, 1, 1).
Proof. split_and!; by_compute. Qed.
