(* ===== verification/DateScenarios.v ===== *)
(** * The scenarios of the DateTime64 functions

    datetime64_extended_range/tests/date_time_functions.py: every scenario walks
    over years, dates and time zones, computes what a function of ClickHouse
    should answer (DateTimeChecks) and compares it with the answer.  A scenario
    is a [date_check]: the pairs of a query and its expected answer, in the order
    in which they are checked.  The theorems say which servers the scenarios
    accept.  pytz and dateutil are parameters. *)
From stdpp Require Import gmap.
From S2P Require Import Prelude PyStr PyMonad Version World Query NodeLog Scenario Calendar DateTimes DateTimeChecks.
Local Open Scope Z_scope.

(** ** Checks *)

(** A query and the answer that it should have *)
Definition case : Type := res (string * string).
Record date_check := mkCheck {
  padding : Z * Z;
  with_microseconds : bool;
  cases : list string → Z → datetime → list case }.

Section run.
Context {S : Type} `{SqlNode S}.
Variables (fuel : nat) (all_timezones : list string) (stress : bool).

Definition check_case (c : case) : M S unit :=
  q ← lift c; exec_query q.1 (Some q.2) None.
Definition run_check (c : date_check) : M S unit :=
  for_ (years_range stress (padding c)) (λ y,
    dates ← lift (select_dates_in_year fuel y stress (with_microseconds c));
    for_ dates (λ dt, for_ (cases c (timezones_range all_timezones stress) y dt) check_case)).
End run.

(** The date in one time zone *)
Definition zone_check (microseconds : bool) (f : Z → datetime → string → list case) : date_check :=
  mkCheck (0, 0) microseconds (λ zones y dt, zones ≫= f y dt).
(** and in every pair of them: [itertools.product(timezones, timezones)] *)
Definition pair_check (f : Z → datetime → string → string → list case) : date_check :=
  mkCheck (0, 0) false (λ zones y dt, zones ≫= λ tz1, zones ≫= f y dt tz1).

Definition sql_date (dt : datetime) (tz : string) : string := to_datetime64 (strftime fmt dt) 0 tz.
(** [func(toDateTime64(...))], with the time zone as another argument, and with one more *)
Definition select (func : string) (dt : datetime) (tz : string) : string :=
  "SELECT " +:+ func +:+ "(" +:+ sql_date dt tz +:+ ")".
Definition select_to (func : string) (dt : datetime) (tz1 tz2 : string) : string :=
  "SELECT " +:+ func +:+ "(" +:+ sql_date dt tz1 +:+ ", '" +:+ tz2 +:+ "')".
Definition select_with (func : string) (dt : datetime) (tz arg : string) : string :=
  "SELECT " +:+ func +:+ "(" +:+ sql_date dt tz +:+ ", " +:+ arg +:+ ")".

(** ** The scenarios with one time zone *)

(** A value that depends on the date only *)
Definition plain_check (microseconds : bool) (func : string) (expected : datetime → string) : date_check :=
  zone_check microseconds (λ _ dt tz, [Ok (select func dt tz, expected dt)]).

Definition to_start_of_iso_year : date_check :=
  zone_check false (λ _ dt tz,
    [expected ← iso_year_start 13 dt; Ok (select "toStartOfISOYear" dt tz, strftime fmt_day expected)]).
Definition to_start_of_day : date_check :=
  plain_check false "toStartOfDay" (λ dt, strftime fmt_day dt +:+ " 00:00:00").
Definition to_start_of_hour : date_check :=
  plain_check false "toStartOfHour" (λ dt, strftime "%Y-%m-%d %H" dt +:+ ":00:00").
Definition to_start_of_minute : date_check :=
  plain_check false "toStartOfMinute" (λ dt, strftime "%Y-%m-%d %H:%M" dt +:+ ":00").
Definition to_start_of_second : date_check :=
  zone_check true (λ _ dt tz,
    [Ok ("SELECT toStartOfSecond(" +:+ to_datetime64 (strftime "%Y-%m-%d %H:%M:%S.%f" dt) 6 tz +:+ ")",
         strftime fmt dt +:+ ".000000")]).

Definition to_start_of_minutes_interval (interval : Z) (func : string) : date_check :=
  plain_check true func (minutes_interval interval).
Definition to_start_of_five_minute : date_check := to_start_of_minutes_interval 5 "toStartOfFiveMinute".
Definition to_start_of_ten_minutes : date_check := to_start_of_minutes_interval 10 "toStartOfTenMinutes".
Definition to_start_of_fifteen_minutes : date_check :=
  to_start_of_minutes_interval 15 "toStartOfFifteenMinutes".
Definition time_slot : date_check := to_start_of_minutes_interval 30 "timeSlot".

(** [isocalendar()[pos]] *)
Definition to_iso (func : string) (pos : Z * Z * Z → Z) : date_check :=
  plain_check true func (λ dt, str_Z (pos (isocalendar dt))).
Definition to_iso_year : date_check := to_iso "toISOYear" (λ t, t.1.1).
Definition to_iso_week : date_check := to_iso "toISOWeek" (λ t, t.1.2).
Definition to_time : date_check :=
  plain_check true "toTime" (λ dt, "1970-01-02 " +:+ strftime "%H:%M:%S" dt).

Definition to_relative_quarter_num : date_check :=
  zone_check true (λ y dt tz, [Ok (select "toRelativeQuarterNum" dt tz, str_Z (relative_quarter y dt))]).
Definition to_relative_week_num : date_check :=
  zone_check true (λ _ dt tz,
    [week_num ← relative_week dt; Ok (select "toRelativeWeekNum" dt tz, str_Z week_num)]).
Definition to_relative_month_num : date_check :=
  zone_check true (λ y dt tz, [Ok (select "toRelativeMonthNum" dt tz, str_Z (relative_month y dt))]).
Definition to_relative_day_num : date_check :=
  plain_check true "toRelativeDayNum" (λ dt, str_Z (relative_day dt)).
Definition to_relative_time (divisor : Z) (func : string) : date_check :=
  plain_check true func (relative_time divisor).
Definition to_relative_hour_num : date_check := to_relative_time 3600 "toRelativeHourNum".
Definition to_relative_minute_num : date_check := to_relative_time 60 "toRelativeMinuteNum".
Definition to_relative_second_num : date_check := to_relative_time 1 "toRelativeSecondNum".

Definition to_week_year_week (clh_func : string) (ret_year : bool) : date_check :=
  zone_check false (λ _ dt tz, (λ mode,
    expected ← to_week_compute_expected 2 dt mode ret_year;
    Ok (select_with clh_func dt tz (str_Z mode), expected)) <$> seqZ 0 10).
Definition to_week : date_check := to_week_year_week "toWeek" false.
Definition to_year_week : date_check := to_week_year_week "toYearWeek" true.

Definition to_yyyymm : date_check := plain_check false "toYYYYMM" (strftime "%Y%m").
Definition to_yyyymmddhhmmss : date_check := plain_check false "toYYYYMMDDhhmmss" (strftime "%Y%m%d%H%M%S").

Definition zone_scenarios : list date_check :=
  [to_start_of_iso_year; to_start_of_day; to_start_of_hour; to_start_of_minute; to_start_of_second;
   to_start_of_five_minute; to_start_of_ten_minutes; to_start_of_fifteen_minutes; time_slot;
   to_iso_year; to_iso_week; to_time; to_relative_quarter_num; to_relative_week_num;
   to_relative_month_num; to_relative_day_num; to_relative_hour_num; to_relative_minute_num;
   to_relative_second_num; to_week; to_year_week; to_yyyymm; to_yyyymmddhhmmss].

(** *** Intervals *)

Definition interval_name (i : interval_type) : string :=
  match i with
  | SECOND => "SECOND" | MINUTE => "MINUTE" | HOUR => "HOUR" | DAY => "DAY" | WEEK => "WEEK"
  | MONTH => "MONTH" | QUARTER => "QUARTER" | YEAR => "YEAR"
  end.
Definition intervals_testing_ranges : list (interval_type * list Z) :=
  [(SECOND, seqZ 1 14); (MINUTE, seqZ 1 14); (HOUR, seqZ 1 9); (DAY, [1; 5; 10]); (WEEK, seqZ 1 4);
   (MONTH, seqZ 1 5); (QUARTER, seqZ 1 3); (YEAR, seqZ 1 4)].

Section libraries.
(** [dt + relativedelta( **{key: n})], and
    [pytz.timezone(tz1).localize(dt).astimezone(pytz.timezone(tz2))] without its zone, and
    [tzone.normalize(tzone.localize(dt))] *)
Variables (relativedelta : string → datetime → Z → res datetime)
  (convert : datetime → string → string → res datetime)
  (normalize : datetime → string → res datetime).

Definition to_start_of_interval : date_check :=
  zone_check false (λ _ dt tz, intervals_testing_ranges ≫= λ '(interval, values), (λ value,
    expected ← to_start_of_interval_helper (relativedelta "months") (relativedelta "years") dt interval value;
    Ok (select_with "toStartOfInterval" dt tz
          ("INTERVAL " +:+ str_Z value +:+ " " +:+ interval_name interval), expected)) <$> values).

(** [add_subtract_functions] *)
Definition add_subtract_functions (clh_func py_key : string) (test_range : list Z)
    (years_padding : Z * Z) (modifier mult : Z) : date_check :=
  mkCheck years_padding false (λ zones _ dt, zones ≫= λ tz, (λ incr,
    dt_new ← relativedelta py_key dt (mult * incr * modifier);
    dt_norm ← normalize dt_new tz;
    Ok (select_with clh_func dt tz (str_Z incr), strftime fmt dt_norm)) <$> test_range).
Definition add_years : date_check := add_subtract_functions "addYears" "years" [0; 1] (0, 1) 1 1.
Definition subtract_years : date_check :=
  add_subtract_functions "subtractYears" "years" [0; 1] (1, 0) 1 (-1).
Definition add_quarters : date_check :=
  add_subtract_functions "addQuarters" "months" (seqZ 1 4) (0, 1) 3 1.
Definition subtract_quarters : date_check :=
  add_subtract_functions "subtractQuarters" "months" (seqZ 1 4) (1, 0) 3 (-1).
Definition add_months : date_check := add_subtract_functions "addMonths" "months" (seqZ 1 12) (0, 1) 1 1.
Definition subtract_months : date_check :=
  add_subtract_functions "subtractMonths" "months" (seqZ 1 12) (1, 0) 1 (-1).
Definition add_weeks : date_check := add_subtract_functions "addWeeks" "days" (seqZ 0 6) (0, 1) 7 1.
Definition subtract_weeks : date_check :=
  add_subtract_functions "subtractWeeks" "days" (seqZ 0 6) (1, 0) 7 (-1).
Definition add_days : date_check := add_subtract_functions "addDays" "days" (seqZ 0 50) (1, 1) 1 1.
Definition subtract_days : date_check :=
  add_subtract_functions "subtractDays" "days" (seqZ 0 50) (1, 1) 1 (-1).
Definition add_hours : date_check := add_subtract_functions "addHours" "hours" (seqZ 0 25) (1, 1) 1 1.
Definition subtract_hours : date_check :=
  add_subtract_functions "subtractHours" "hours" (seqZ 0 25) (1, 1) 1 (-1).
Definition add_minutes : date_check := add_subtract_functions "addMinutes" "minutes" (seqZ 0 60) (1, 1) 1 1.
Definition subtract_minutes : date_check :=
  add_subtract_functions "subtractMinutes" "minutes" (seqZ 0 60) (1, 1) 1 (-1).
Definition add_seconds : date_check := add_subtract_functions "addSeconds" "seconds" (seqZ 0 60) (1, 1) 1 1.
Definition subtract_seconds : date_check :=
  add_subtract_functions "subtractSeconds" "seconds" (seqZ 0 60) (1, 1) 1 (-1).

(** ** The scenarios with two time zones *)

(** A value of the date [t] that [dt] is in the other zone *)
Definition converted_check (query : datetime → string → string → string)
    (expected : Z → datetime → datetime → res string) : date_check :=
  pair_check (λ y dt tz1 tz2,
    [t ← convert dt tz1 tz2; e ← expected y dt t; Ok (query dt tz1 tz2, e)]).

Definition to_date_part (part : date_part) (ch_func : string) : date_check :=
  converted_check (select_to ch_func) (λ _ _ t, Ok (str_Z (date_part_value part t))).
Definition to_year : date_check := to_date_part Year "toYear".
Definition to_month : date_check := to_date_part Month "toMonth".
Definition to_quarter : date_check := to_date_part Quarter "toQuarter".

(** [toDayOfWeek] has a mode from version 23 on. *)
Definition to_day_of (clickhouse_version : option string) (part : day_part) (ch_func : string) : date_check :=
  pair_check (λ _ dt tz1 tz2,
    [t ← convert dt tz1 tz2;
     mode ← (if String.eqb ch_func "toDayOfWeek" then check_clickhouse_version ">=23" clickhouse_version
             else Ok false : res bool);
     Ok (if mode : bool then select_with ch_func dt tz1 ("0, '" +:+ tz2 +:+ "'") else select_to ch_func dt tz1 tz2,
         str_Z (day_part_value part t))]).
Definition to_day_of_year (clickhouse_version : option string) : date_check :=
  to_day_of clickhouse_version tm_yday "toDayOfYear".
Definition to_day_of_month (clickhouse_version : option string) : date_check :=
  to_day_of clickhouse_version tm_mday "toDayOfMonth".
Definition to_day_of_week (clickhouse_version : option string) : date_check :=
  to_day_of clickhouse_version tm_wday "toDayOfWeek".

Definition to_time_part (part : time_part) (ch_func : string) : date_check :=
  converted_check (select_to ch_func) (λ _ _ t, Ok (str_Z (time_part_value part t))).
Definition to_hour : date_check := to_time_part Hour "toHour".
Definition to_minute : date_check := to_time_part Minute "toMinute".
Definition to_second : date_check := to_time_part Second "toSecond".

Definition to_start_of_year : date_check :=
  converted_check (select_to "toStartOfYear") (λ _ _ t, Ok (str_Z (year t) +:+ "-01-01")).
Definition to_start_of_quarter : date_check :=
  converted_check (select_to "toStartOfQuarter") (λ y _ t, Ok (start_of_quarter y t)).
(** The query is the one of the quarter. *)
Definition to_start_of_month : date_check :=
  converted_check (select_to "toStartOfQuarter") (λ _ _ t, Ok (strftime "%Y-%m" t +:+ "-01")).
Definition to_monday : date_check :=
  converted_check (select_to "toMonday") (λ _ dt t,
    expected_date ← dt_add t (timedelta (monday_days dt) 0 0 0); Ok (strftime fmt_day expected_date)).
Definition to_start_of_week : date_check :=
  pair_check (λ _ dt tz1 tz2, (λ mode : Z,
    t ← convert dt tz1 tz2;
    expected_date ← dt_add t (timedelta (week_days mode dt) 0 0 0);
    Ok (select_with "toStartOfWeek" dt tz1 (str_Z mode +:+ ", '" +:+ tz2 +:+ "'"),
        strftime fmt_day expected_date)) <$> [0; 1]).
End libraries.

(** ** What the scenarios decide *)

(** From every state, [m] returns when [P] holds and fails an assertion when it
    does not. *)
Definition decides {S} (m : M S unit) (P : Prop) : Prop :=
  ∀ s, ∃ s', (m s = (Ok tt, s') ∧ P) ∨ (∃ out, m s = (Exc (AssertionError out), s') ∧ ¬ P).

Section decides.
Context {S : Type}.
Implicit Types (m : M S unit).

Lemma decides_iff m P Q : (P ↔ Q) → decides m P → decides m Q.
Proof. intros HPQ Hm s. destruct (Hm s) as (s' & [[? ?]|(out & ? & ?)]); exists s'; naive_solver. Qed.
Lemma decides_for {A} (l : list A) (body : A → M S unit) (P : A → Prop) :
  (∀ x, x ∈ l → decides (body x) (P x)) → decides (for_ l body) (∀ x, x ∈ l → P x).
Proof.
  induction l as [|x l IH]; intros Hb s.
  { exists s. left. split; [done|]. by intros ? ?%elem_of_nil. }
  cbn [for_]. destruct (Hb x ltac:(by left) s) as (s1 & [[E Hx]|(out & E & Hx)]).
  - rewrite (M_bind_Ok _ _ _ _ _ E).
    destruct (IH (λ y Hy, Hb y ltac:(by right)) s1) as (s2 & [[E2 Hl]|(out & E2 & Hl)]); exists s2.
    + left. split; [done|]. by intros y [->|Hy]%elem_of_cons; [|apply Hl].
    + right. exists out. split; [done|]. intros Hall. apply Hl. intros y Hy. apply Hall. by right.
  - exists s1. right. exists out. split; [unfold mbind, M_bind; by rewrite E|].
    intros Hall. apply Hx, Hall. by left.
Qed.
Lemma decides_lift {A} (r : res A) (f : A → M S unit) (P : A → Prop) :
  (∃ a, r = Ok a) → (∀ a, r = Ok a → decides (f a) (P a)) →
  decides (a ← lift r; f a) (∀ a, r = Ok a → P a).
Proof.
  intros [a ->] Hf. eapply decides_iff; [|by apply (Hf a)]. split; [by intros ? ? [= <-]|by intros H; apply H].
Qed.
End decides.

(** A server that answers every statement with a text that depends on the
    statement only *)
Definition answers {S} `{SqlNode S} (answer : string → string) : Prop :=
  ∀ sql (s : S), ∃ code s', sql_query sql query0 s = (Ok (mkResult code (answer sql)), s').

(** All answers to the queries of a check are the expected ones. *)
Definition answers_match (answer : string → string) (fuel : nat) (all_timezones : list string)
    (stress : bool) (c : date_check) : Prop :=
  ∀ y, y ∈ years_range stress (padding c) →
  ∀ dates, select_dates_in_year fuel y stress (with_microseconds c) = Ok dates →
  ∀ dt, dt ∈ dates → ∀ x, x ∈ cases c (timezones_range all_timezones stress) y dt →
  ∀ q, x = Ok q → answer q.1 = q.2.

Lemma years_bounds stress y : y ∈ years_range stress (0, 0) → 1925 <= y <= 2237.
Proof.
  destruct stress; unfold years_range.
  - intros (i & -> & Hi%elem_of_seqZ)%list_elem_of_fmap. cbn in *. lia.
  - rewrite !elem_of_cons, elem_of_nil. lia.
Qed.

(** The expected values exist. *)
Definition computed (c : date_check) : Prop :=
  ∀ zones y dt x, 1925 <= y <= 2237 → valid dt → year dt = y → x ∈ cases c zones y dt → ∃ q, x = Ok q.

Section answers.
Context {S : Type} {N : SqlNode S} (answer : string → string) (Hanswer : answers (S := S) answer).

Lemma check_case_decides (x : case) :
  (∃ q, x = Ok q) → decides (check_case (S := S) x) (∀ q, x = Ok q → answer q.1 = q.2).
Proof.
  intros Hx. apply decides_lift; [done|]. intros [q e] _ s. unfold exec_query. cbn [fst snd].
  destruct (Hanswer q s) as (code & s' & E). rewrite (M_bind_Ok _ _ _ _ _ E). cbn [output].
  exists s'. destruct (String.eqb_spec (answer q) e) as [|Hne]; [by left|right]. by eexists.
Qed.

Lemma run_check_decides (fuel : nat) all_timezones stress c :
  padding c = (0, 0) → computed c → (351 < fuel)%nat →
  decides (run_check (S := S) fuel all_timezones stress c) (answers_match answer fuel all_timezones stress c).
Proof.
  intros Hp Hc Hf. unfold run_check, answers_match. rewrite Hp.
  apply decides_for. intros y Hy%years_bounds.
  destruct (year_dates fuel y stress (with_microseconds c)) as (dates & E & Hd); [lia|done|].
  apply decides_lift; [by eexists|]. intros ? E'. rewrite E in E'. injection E' as <-.
  apply decides_for. intros dt Hdt. apply decides_for. intros x Hx. apply check_case_decides.
  rewrite Forall_forall in Hd. destruct (Hd dt Hdt) as [Hv Hyear]. by eapply Hc.
Qed.
End answers.

Lemma zone_computed microseconds f :
  (∀ y dt tz x, 1925 <= y <= 2237 → valid dt → year dt = y → x ∈ f y dt tz → ∃ q, x = Ok q) →
  computed (zone_check microseconds f).
Proof. intros Hf zones y dt x Hy Hv Hyear (tz & Hx & _)%list_elem_of_bind. by eapply Hf. Qed.
Lemma plain_computed microseconds func expected : computed (plain_check microseconds func expected).
Proof. apply zone_computed. intros y dt tz x _ _ _ ->%list_elem_of_singleton. by eexists. Qed.
#[local] Hint Resolve plain_computed : core.

Lemma week_computed dt mode ret_year :
  valid dt → 2 <= year dt → 0 <= mode < 10 → ∃ w, to_week_compute_expected 2 dt mode ret_year = Ok w.
Proof.
  intros Hv Hy Hm. destruct (week_call 1 dt mode ret_year Hv) as (k & _ & ->); [lia|].
  destruct (wraps mode && (k =? 0)); [|by eexists].
  assert (Hb : year dt <= 9999) by apply Hv.
  destruct (valid_dec_31 (year dt)) as (-> & Hv1 & Ho1); [lia|]. cbn [mbind res_bind].
  destruct (week_call 0 (mkDatetime (year dt - 1) 12 31 0 0 0 0) mode false Hv1) as (k' & Hk & ->); [lia|].
  rewrite Ho1 in Hk. apply last_day_week in Hk; [|lia]. cbn [year] in Hk.
  rewrite (proj2 (Z.eqb_neq k' 0)), andb_false_r by (case_match; lia). by eexists.
Qed.
Lemma relative_week_computed dt : valid dt → year dt <= 2237 → ∃ n, relative_week dt = Ok n.
Proof.
  intros Hv Hy. unfold relative_week.
  destruct (add_days_ok dt 8 Hv) as (t & -> & Hvt & Hot & _).
  { destruct (toordinal_year dt Hv) as [_ Hr]. pose proof (toordinal_bounds dt Hv).
    pose proof (days_before_le (year dt + 1) 2238 ltac:(lia)). unfold max_ordinal in *.
    assert (days_before_year 2238 = 817047) as He by reflexivity. lia. }
  cbn [mbind res_bind]. pose proof (Z.mod_pos_bound (toordinal dt + 6) 7 ltac:(lia)) as Hw.
  change ((toordinal dt + 6) mod 7) with (weekday dt) in Hw.
  destruct (add_days_ok t (- weekday dt) Hvt) as (t' & E & _).
  { pose proof (toordinal_bounds dt Hv). pose proof (toordinal_bounds t Hvt). lia. }
  assert (- timedelta (weekday dt) 0 0 0 = timedelta (- weekday dt) 0 0 0) as -> by (unfold timedelta; lia).
  rewrite E. by eexists.
Qed.

Lemma zone_scenarios_computed c : c ∈ zone_scenarios → padding c = (0, 0) ∧ computed c.
Proof.
  unfold zone_scenarios. intros Hc.
  repeat (apply elem_of_cons in Hc as [->|Hc]; [split; [done|]; try apply plain_computed|]);
    [..|by apply elem_of_nil in Hc]; apply zone_computed; intros y dt tz x Hy Hv Hyear.
  - intros ->%list_elem_of_singleton. destruct (iso_year_found 13 dt) as (d & -> & _); [done|lia|lia|].
    by eexists.
  - intros ->%list_elem_of_singleton. by eexists.
  - intros ->%list_elem_of_singleton. by eexists.
  - intros ->%list_elem_of_singleton. destruct (relative_week_computed dt) as [n ->]; [done|lia|].
    by eexists.
  - intros ->%list_elem_of_singleton. by eexists.
  - intros (mode & -> & Hm%elem_of_seqZ)%list_elem_of_fmap.
    destruct (week_computed dt mode false) as [w ->]; [done|lia..|]. by eexists.
  - intros (mode & -> & Hm%elem_of_seqZ)%list_elem_of_fmap.
    destruct (week_computed dt mode true) as [w ->]; [done|lia..|]. by eexists.
Qed.

(** ** A server that is refused *)

(** Day [dt] has number [k] by the comments on the modes: a day before week 1
    has number 0, or the number of its week in the year before in the modes
    without a week 0. *)
Definition week_of (mode : Z) (dt : datetime) (k : Z) : Prop :=
  if wraps mode then
    (1 <= k ∧ in_week mode (year dt) k (toordinal dt)) ∨
    (in_week mode (year dt) 0 (toordinal dt) ∧ in_week mode (year dt - 1) k (toordinal dt))
  else in_week mode (year dt) k (toordinal dt).

Definition new_year (y : Z) : datetime := mkDatetime y 1 1 0 0 0 0.
Lemma new_year_selected (fuel : nat) y stress dates :
  1 <= y <= 9999 → (351 < fuel)%nat → select_dates_in_year fuel y stress false = Ok dates →
  new_year y ∈ dates.
Proof.
  intros Hy Hf E. destruct stress.
  - destruct (stress_dates fuel y false Hy Hf) as (l & El & Hv & Hlen & Hl).
    rewrite E in El. injection El as <-. destruct dates as [|d dates].
    { unfold steps_in_year in Hlen. case_match; cbn in Hlen; lia. }
    specialize (Hl 0%nat d eq_refl). apply Forall_cons in Hv as [[Hvd _] _].
    assert (d = new_year y) as ->; [|by left].
    assert (Hvn : valid (new_year y)).
    { by destruct (datetime_new_Ok _ _ _ _ _ _ _ _ (valid_first y 0 Hy ltac:(lia))). }
    pose proof (from_to_moment d Hvd) as H1. pose proof (from_to_moment _ Hvn) as H2.
    rewrite Hl, Z.add_0_r in H1. unfold new_year in H2 |- *. congruence.
  - destruct (plain_dates fuel y false Hy) as (l & El & _ & Hin & _).
    rewrite E in El. by injection El as <-.
Qed.

Lemma new_year_2236_week : week_of 6 (new_year 2236) 52.
Proof.
  right. split; [exists 816319|exists 815955].
  all: assert (toordinal (new_year 2236) = 816317) as -> by reflexivity.
  1: assert (year (new_year 2236) = 2236) as -> by reflexivity.
  2: assert (year (new_year 2236) - 1 = 2235) as -> by reflexivity.
  all: (split; [split; [reflexivity|]|lia]).
  - assert (ordinal 2236 1 1 = 816317) as -> by reflexivity. lia.
  - assert (ordinal 2235 1 1 = 815952) as -> by reflexivity. lia.
Qed.
Lemma new_year_2236_expected : to_week_compute_expected 2 (new_year 2236) 6 false = Ok "53".
Proof. reflexivity. Qed.
Lemma year_2236 stress : 2236 ∈ years_range stress (0, 0).
Proof.
  destruct stress; [|by apply (bool_decide_unpack _)]. unfold years_range. apply list_elem_of_fmap.
  exists 311. split; [done|]. apply elem_of_seqZ. cbn. lia.
Qed.

(** C25: The scenario of toWeek refuses a server that gives the first of
    January 2236 the week that it has by the comment on mode 6, the 52nd of
    2235, with or without stress and whatever it answers otherwise: 2235 begins
    on a Thursday, and the scenario expects 53. *)
Theorem right_week_refused {S} {N : SqlNode S} (answer : string → string) (fuel : nat) all_timezones
    stress tz (s : S) :
  answers (S := S) answer → (351 < fuel)%nat → tz ∈ timezones_range all_timezones stress →
  (∀ k, week_of 6 (new_year 2236) k →
    answer (select_with "toWeek" (new_year 2236) tz (str_Z 6)) = str_Z k) →
  ∃ out s', run_check fuel all_timezones stress to_week s = (Exc (AssertionError out), s').
Proof.
  intros Ha Hf Htz Hk. destruct (zone_scenarios_computed to_week) as [Hp Hok].
  { unfold zone_scenarios. rewrite !elem_of_cons. tauto. }
  destruct (run_check_decides answer Ha fuel all_timezones stress to_week Hp Hok Hf s)
    as (s' & [[_ Hm]|(out & E & _)]); [|by exists out, s'].
  exfalso. destruct (year_dates fuel 2236 stress false) as (dates & Ed & _); [lia|done|].
  specialize (Hk 52 new_year_2236_week).
  assert (Hx : answer (select_with "toWeek" (new_year 2236) tz (str_Z 6)) = "53").
  { pose (q := (select_with "toWeek" (new_year 2236) tz (str_Z 6), "53")).
    apply (Hm 2236 (year_2236 stress) dates Ed (new_year 2236)
      (new_year_selected fuel 2236 stress dates ltac:(lia) Hf Ed) (Ok q)) with (q := q); [|reflexivity].
    apply list_elem_of_bind. exists tz. split; [|done]. apply list_elem_of_fmap. exists 6.
    split; [|apply elem_of_seqZ; lia]. by rewrite new_year_2236_expected. }
  rewrite Hx in Hk. discriminate Hk.
Qed.

(** ** Concrete runs *)

(** A server that gives every statement the same answer *)
Definition constant_node (answer : string) : SqlNode unit := λ _ _ s, (Ok (mkResult 0 answer), s).
Lemma constant_answers a : answers (S := unit) (H := constant_node a) (λ _, a).
Proof. intros sql []. by eexists _, _. Qed.

Lemma week_of_2236_unique k : week_of 6 (new_year 2236) k → k = 52.
Proof.
  unfold week_of, in_week, week_one. change (wraps 6) with true. cbv beta iota.
  assert (toordinal (new_year 2236) = 816317) as -> by reflexivity.
  assert (year (new_year 2236) = 2236) as -> by reflexivity. change (2236 - 1) with 2235.
  assert (ordinal 2236 1 1 = 816317) as -> by reflexivity.
  assert (ordinal 2235 1 1 = 815952) as -> by reflexivity.
  unfold ordinal_weekday, first_of_week. cbn [Z.eqb Pos.eqb orb].
  intros [[H1 (w & [Hw ?] & ?)]|[_ (w & [Hw ?] & ?)]]; dlia.
Qed.

Lemma right_week_refused_witness :
  ∃ out s', run_check (S := unit) (H := constant_node "52") 352 [] false to_week tt
    = (Exc (AssertionError out), s').
Proof.
  apply (right_week_refused (N := constant_node "52") (λ _, "52") 352 [] false "UTC" tt).
  - apply constant_answers.
  - lia.
  - by left.
  - intros k ->%week_of_2236_unique. reflexivity.
Defined.
