(* ===== verification/DateAnswers.v ===== *)
(** * What the DateTime64 scenarios ask for

    The scenarios of DateScenarios with one time zone, against a reference that
    is written without the code of the suite: for every function the text of
    its statement, and the value of the calendar (days counted from year 1,
    microseconds counted from there) that the scenario holds to be right.  A
    scenario accepts exactly the servers that give the values of the
    reference. *)
From stdpp Require Import gmap.
From S2P Require Import Prelude PyStr PyMonad Version World Query NodeLog Scenario Calendar DateTimes DateTimeChecks DateScenarios.
Local Open Scope Z_scope.

(** ** The reference *)

Definition two (n : Z) : string := zfill 2 n.
Definition date_text (t : datetime) : string :=
  str_Z (year t) +:+ "-" +:+ two (month t) +:+ "-" +:+ two (day t).
Definition clock_text (t : datetime) : string :=
  two (hour t) +:+ ":" +:+ two (minute t) +:+ ":" +:+ two (second t).
Definition moment_text (t : datetime) : string := date_text t +:+ " " +:+ clock_text t.

(** The text of a moment, given in microseconds, and of a day *)
Definition at_moment (text : datetime → string) (m : Z) : string :=
  match from_moment m with Ok t => text t | _ => EmptyString end.
Definition seconds (n : Z) : Z := n * 1000000.
Definition at_day (n : Z) : string := at_moment date_text (n * seconds 86400).
(** The start of the unit of [n] seconds in which the moment lies *)
Definition start_of (n : Z) (t : datetime) : string :=
  at_moment moment_text (moment t / seconds n * seconds n).

(** The first day from [n] on that has the weekday [w], 0 for a Monday *)
Definition first_from (n w : Z) : Z := n + (w - (n - 1)) mod 7.
(** The year and the number of the ISO week of a day: those of its Thursday *)
Definition thursday (n : Z) : Z := n - (n - 1) mod 7 + 3.
Definition iso_year (n : Z) : Z := ordinal_year (thursday n).
Definition iso_week (n : Z) : Z := (thursday n - ordinal (iso_year n) 1 1) / 7 + 1.

(** Months, days and microseconds since the first of January 1970 *)
Definition months_since (t : datetime) : Z := (year t - 1970) * 12 + (month t - 1).
Definition days_since_1970 (t : datetime) : Z := toordinal t - ordinal 1970 1 1.
Definition since_1970 (t : datetime) : Z := moment t - ordinal 1970 1 1 * seconds 86400.
(** The float that a number of units of [n] seconds is in Python *)
Definition units_since (n : Z) (t : datetime) : string := str_Z (since_1970 t / seconds n) +:+ ".0".

(** The number of the week by the comments on the ten modes: weeks start on
    Sunday in the modes [from_sunday], week 1 is the first that starts in the
    year, the first with four days or more, or the one with the first of
    January; in some modes, a day before week 1 has its number in the year
    before.  [thursday_years]: in modes 4 and 6 the suite expects one more when
    the year begins on a Thursday, and then has no week 0. *)
Definition from_sunday (mode : Z) : bool := bool_decide (mode ∈ [0; 2; 4; 6; 8]).
Definition first_week (mode y : Z) : Z :=
  first_from (ordinal y 1 1 - (if bool_decide (mode ∈ [0; 2; 5; 7]) then 0
                               else if bool_decide (mode ∈ [1; 3; 4; 6]) then 3 else 6))
    (if from_sunday mode then 6 else 0).
Definition thursday_years (mode y : Z) : Z :=
  if bool_decide (mode ∈ [4; 6]) && ((ordinal y 1 1 - 1) mod 7 =? 3) then 1 else 0.
Definition week_in (mode y n : Z) : Z := (n - first_week mode y) / 7 + 1 + thursday_years mode y.
Definition no_week_0 (mode : Z) : bool := bool_decide (mode ∈ [2; 3; 6; 7]).
(** With the year in front, as [toYearWeek] gives it; the suite leaves it out
    when it takes the number of the year before. *)
Definition week_text (with_year : bool) (mode : Z) (t : datetime) : string :=
  let k := week_in mode (year t) (toordinal t) in
  if no_week_0 mode && (k =? 0) then str_Z (week_in mode (year t - 1) (toordinal t))
  else if with_year then str_Z (year t) +:+ two k else str_Z k.

(** A function, whether its moments have microseconds and its argument shows
    them, its other argument (the modes of the weeks), and its value *)
Record reference := mkReference {
  r_function : string;
  r_microseconds : bool;
  r_shown : bool;
  r_modes : list (option Z);
  r_value : Z → datetime → string
}.
Definition moments (microseconds : bool) (func : string) (value : datetime → string) : reference :=
  mkReference func microseconds false [None] (λ _, value).
Definition references : list reference :=
  [moments false "toStartOfISOYear" (λ t, at_day (first_from (ordinal (year t) 1 1 - 3) 0));
   moments false "toStartOfDay" (start_of 86400);
   moments false "toStartOfHour" (start_of 3600);
   moments false "toStartOfMinute" (start_of 60);
   mkReference "toStartOfSecond" true true [None] (λ _ t, start_of 1 t +:+ ".000000");
   moments true "toStartOfFiveMinute" (start_of (5 * 60));
   moments true "toStartOfTenMinutes" (start_of (10 * 60));
   moments true "toStartOfFifteenMinutes" (start_of (15 * 60));
   moments true "timeSlot" (start_of (30 * 60));
   moments true "toISOYear" (λ t, str_Z (iso_year (toordinal t)));
   moments true "toISOWeek" (λ t, str_Z (iso_week (toordinal t)));
   moments true "toTime" (λ t, at_day (ordinal 1970 1 2) +:+ " " +:+ clock_text t);
   moments true "toRelativeQuarterNum" (λ t, str_Z (months_since t / 3));
   moments true "toRelativeWeekNum" (λ t, str_Z ((toordinal t - ordinal 1969 12 29) / 7));
   moments true "toRelativeMonthNum" (λ t, str_Z (months_since t + 1));
   moments true "toRelativeDayNum" (λ t, str_Z (days_since_1970 t));
   moments true "toRelativeHourNum" (units_since 3600);
   moments true "toRelativeMinuteNum" (units_since 60);
   moments true "toRelativeSecondNum" (units_since 1);
   mkReference "toWeek" false false (Some <$> seqZ 0 10) (week_text false);
   mkReference "toYearWeek" false false (Some <$> seqZ 0 10) (week_text true);
   moments false "toYYYYMM" (λ t, str_Z (year t) +:+ two (month t));
   moments false "toYYYYMMDDhhmmss" (λ t,
     str_Z (year t) +:+ two (month t) +:+ two (day t) +:+ two (hour t) +:+ two (minute t) +:+ two (second t))].

(** The statement: [SELECT f(toDateTime64('YYYY-MM-DD hh:mm:ss', 0, 'tz'), mode)] *)
Definition statement (r : reference) (t : datetime) (tz : string) (mode : option Z) : string :=
  "SELECT " +:+ r_function r +:+ "(toDateTime64('" +:+ moment_text t +:+
  (if r_shown r then "." +:+ zfill 6 (microsecond t) +:+ "', 6" else "', 0") +:+
  ", '" +:+ tz +:+ "')" +:+ match mode with Some m => ", " +:+ str_Z m | None => EmptyString end +:+ ")".

(** All answers are those of the reference: for the years of the suite, its
    dates in them, the time zones and the modes. *)
Definition right_answers (answer : string → string) (fuel : nat) (all_timezones : list string)
    (stress : bool) (r : reference) : Prop :=
  ∀ y dates t tz mode,
    y ∈ years_range stress (0, 0) → select_dates_in_year fuel y stress (r_microseconds r) = Ok dates →
    t ∈ dates → tz ∈ timezones_range all_timezones stress → mode ∈ r_modes r →
    answer (statement r t tz mode) = r_value r (default 0 mode) t.

(** ** The scenarios follow the reference *)

Definition follows (c : date_check) (r : reference) : Prop :=
  padding c = (0, 0) ∧ with_microseconds c = r_microseconds r ∧
  ∀ zones y t, 1925 <= y <= 2237 → valid t → year t = y →
    cases c zones y t =
    (tz ← zones; (λ mode, Ok (statement r t tz mode, r_value r (default 0 mode) t)) <$> r_modes r).

Lemma strftime_day t : strftime fmt_day t = date_text t.
Proof. unfold date_text. cbn. by rewrite !str_app_nil_r. Qed.
Lemma strftime_fmt t : strftime fmt t = moment_text t.
Proof. unfold moment_text, date_text, clock_text. cbn. rewrite !str_app_nil_r, !str_app_assoc. reflexivity. Qed.

(** *** The statements *)

Lemma select_statement r t tz mode :
  r_shown r = false →
  statement r t tz mode =
    match mode with Some m => select_with (r_function r) t tz (str_Z m) | None => select (r_function r) t tz end.
Proof.
  intros Hs. unfold statement, select_with, select, sql_date, to_datetime64. rewrite Hs, strftime_fmt.
  destruct mode; rewrite !str_app_assoc; reflexivity.
Qed.

(** A scenario whose value depends on the date only *)
Lemma follows_zone microseconds func f (value : datetime → string) :
  (∀ y t tz, 1925 <= y <= 2237 → valid t → year t = y → f y t tz = [Ok (select func t tz, value t)]) →
  follows (zone_check microseconds f) (moments microseconds func value).
Proof.
  intros Hf. split_and!; [done..|]. intros zones y t Hy Hv Hyear. cbn [cases zone_check moments r_modes].
  induction zones as [|tz zones IH]; [done|]. rewrite !bind_cons, IH, Hf by done. cbn [fmap list_fmap].
  by rewrite select_statement.
Qed.
Lemma follows_plain microseconds func expected (value : datetime → string) :
  (∀ t, 1925 <= year t <= 2237 → valid t → expected t = value t) →
  follows (plain_check microseconds func expected) (moments microseconds func value).
Proof. intros He. apply follows_zone. intros y t tz Hy Hv <-. by rewrite He. Qed.

(** *** Starts of units *)

(** The moment whose day is that of [t] and whose time is rounded down *)
Lemma start_found n t t' :
  valid t → valid t' → 0 < n → (86400 mod n = 0) → toordinal t' = toordinal t →
  time_us t' = time_us t / seconds n * seconds n → start_of n t = moment_text t'.
Proof.
  intros Hv Hv' Hn Hd Ho Ht. unfold start_of, at_moment.
  assert (moment t / seconds n * seconds n = moment t') as ->; [|by rewrite from_to_moment].
  unfold moment. rewrite Ho, Ht. apply Z.mod_divide in Hd as [q Hq]; [|lia].
  assert (day_us = q * seconds n) as -> by (unfold day_us, second_us, seconds; lia).
  rewrite Z.mul_assoc, (Z.add_comm _ (time_us t)), Z.div_add by (unfold seconds; lia). lia.
Qed.
Definition clock_set (t : datetime) (h mi s : Z) : datetime :=
  mkDatetime (year t) (month t) (day t) h mi s 0.
Lemma clock_set_valid t h mi s :
  valid t → 0 <= h <= 23 → 0 <= mi <= 59 → 0 <= s <= 59 → valid (clock_set t h mi s).
Proof. intros [Hd _] ? ? ?. unfold valid, clock_set in *. cbn in *. split; [done|lia]. Qed.

Lemma start_of_day_text t : valid t → start_of 86400 t = moment_text (clock_set t 0 0 0).
Proof.
  intros Hv. apply start_found; [done|by apply clock_set_valid|done..|].
  pose proof (time_us_bounds t Hv) as Ht. rewrite (Z.div_small (time_us t)); [done|].
  unfold day_us, second_us, seconds in *. lia.
Qed.
Lemma start_of_hour_text t : valid t → start_of 3600 t = moment_text (clock_set t (hour t) 0 0).
Proof.
  intros Hv. assert (Hc := proj2 Hv). apply start_found; [done|apply clock_set_valid; [done|lia..]|done..|].
  unfold time_us, clock_set, seconds, second_us. cbn [hour minute second microsecond]. dlia.
Qed.
Lemma start_of_minute_text t : valid t → start_of 60 t = moment_text (clock_set t (hour t) (minute t) 0).
Proof.
  intros Hv. assert (Hc := proj2 Hv). apply start_found; [done|apply clock_set_valid; [done|lia..]|done..|].
  unfold time_us, clock_set, seconds, second_us. cbn [hour minute second microsecond]. dlia.
Qed.
Lemma start_of_second_text t :
  valid t → start_of 1 t = moment_text (clock_set t (hour t) (minute t) (second t)).
Proof.
  intros Hv. assert (Hc := proj2 Hv). apply start_found; [done|apply clock_set_valid; [done|lia..]|done..|].
  unfold time_us, clock_set, seconds, second_us. cbn [hour minute second microsecond]. dlia.
Qed.
Lemma start_of_minutes_text k t :
  valid t → k ∈ [5; 10; 15; 30] → start_of (k * 60) t = minutes_interval k t.
Proof.
  intros Hv Hk. assert (Hc := proj2 Hv).
  assert (Hs : start_of (k * 60) t = moment_text (clock_set t (hour t) (minute t / k * k) 0)).
  { rewrite !elem_of_cons, elem_of_nil in Hk. destruct_or! Hk; subst k; try done.
    all: apply start_found; [done|apply clock_set_valid; [done|lia|dlia|lia]|done..|].
    all: unfold time_us, clock_set, seconds, second_us; cbn [hour minute second microsecond]; dlia. }
  rewrite Hs. unfold minutes_interval, moment_text, date_text, clock_text, clock_set.
  cbn. repeat (rewrite ?str_app_assoc, ?str_app_cons). reflexivity.
Qed.

(** *** Days *)

Lemma at_day_text t : valid t → time_us t = 0 → at_day (toordinal t) = date_text t.
Proof.
  intros Hv Ht. unfold at_day, at_moment.
  assert (toordinal t * seconds 86400 = moment t) as ->
    by (unfold moment, day_us, second_us, seconds; lia).
  by rewrite from_to_moment.
Qed.
Lemma first_monday y : first_from (ordinal y 1 1 - 3) 0 = iso_week1_monday y.
Proof.
  unfold first_from, iso_week1_monday, ordinal_weekday. cbv zeta. set (o := ordinal y 1 1). clearbody o.
  destruct (Z.gtb_spec ((o + 6) mod 7) 3); dlia.
Qed.

(** The ISO year of a day is the year of its Thursday. *)
Lemma week1_thursday y n :
  iso_week1_monday y <= n < iso_week1_monday (y + 1) → iso_year n = y.
Proof.
  intros Hn. apply ordinal_year_unique. unfold thursday.
  destruct (iso_week1_bounds y) as [Hm Hb], (iso_week1_bounds (y + 1)) as [Hm' Hb'].
  rewrite !ordinal_first in *. dlia.
Qed.
Lemma from_thursday w d n :
  w mod 7 = 1 → d + 1 - 3 <= w <= d + 1 + 3 →
  (n - w) / 7 = (n - (n - 1) mod 7 + 3 - (d + 1)) / 7 ∧ (n - w) mod 7 = (n - 1) mod 7.
Proof. intros Hw Hd. split; dlia. Qed.
Lemma isocalendar_thursday t :
  valid t → isocalendar t =
    (iso_year (toordinal t), iso_week (toordinal t), (toordinal t - 1) mod 7 + 1).
Proof.
  intros Hv. pose proof (toordinal_year t Hv) as [_ Hr]. unfold iso_week.
  pose proof (iso_week1_step (year t - 1)) as Hs0. pose proof (iso_week1_step (year t)) as Hs1.
  pose proof (iso_week1_bounds (year t - 1)) as Hb0. pose proof (iso_week1_bounds (year t)) as Hb1.
  pose proof (iso_week1_bounds (year t + 1)) as Hb2.
  pose proof (iso_week1_bounds (year t + 1 + 1)) as Hb3. pose proof (iso_week1_step (year t + 1)) as Hs2.
  pose proof (days_before_next (year t)) as Hd. pose proof (year_days_bounds (year t)).
  pose proof (days_before_next (year t - 1)) as Hd'. pose proof (year_days_bounds (year t - 1)).
  replace (year t - 1 + 1) with (year t) in * by lia.
  assert (Hy : iso_year (toordinal t) = (isocalendar t).1.1).
  { rewrite iso_year_of. rewrite !ordinal_first in *.
    destruct (Z.ltb_spec (toordinal t) (iso_week1_monday (year t))).
    - apply week1_thursday. replace (year t - 1 + 1) with (year t) by lia. lia.
    - destruct (Z.leb_spec (iso_week1_monday (year t + 1)) (toordinal t)); apply week1_thursday; lia. }
  rewrite Hy. clear Hy. unfold isocalendar. cbv zeta. unfold thursday. rewrite !ordinal_first in *.
  set (n := toordinal t) in *. set (w := iso_week1_monday (year t)) in *.
  destruct (Z.ltb_spec ((n - w) / 7) 0) as [Hlt|Hge]; [|destruct (Z.leb_spec 52 ((n - w) / 7)) as [H52|H52];
    [destruct (Z.leb_spec (iso_week1_monday (year t + 1)) n) as [Hnx|Hnx]|]];
    cbn [andb fst snd]; (f_equal; [f_equal|]).
  all: destruct (from_thursday (iso_week1_monday (year t - 1)) (days_before_year (year t - 1)) n) as [E0 E0'];
    [lia..|]; destruct (from_thursday w (days_before_year (year t)) n) as [E1 E1']; [lia..|];
    destruct (from_thursday (iso_week1_monday (year t + 1)) (days_before_year (year t + 1)) n) as [E2 E2'];
    [lia..|]; rewrite <-?E0, <-?E1, <-?E2; dlia.
Qed.

(** *** Relative numbers *)

Lemma zero_moment : moment zero_datetime = ordinal 1970 1 1 * seconds 86400.
Proof. reflexivity. Qed.
Lemma relative_day_since t : valid t → relative_day t = days_since_1970 t.
Proof.
  intros Hv. unfold relative_day. pose proof (days_since t zero_datetime 0 Hv eq_refl) as H.
  replace (dt_sub t zero_datetime + timedelta 0 0 0 0) with (dt_sub t zero_datetime) in H
    by (unfold timedelta; lia). rewrite H. unfold days_since_1970.
  change (toordinal zero_datetime) with (ordinal 1970 1 1). lia.
Qed.
Lemma relative_time_units n t : relative_time n t = units_since n t.
Proof. reflexivity. Qed.
Lemma relative_week_since t :
  valid t → year t <= 2237 → relative_week t = Ok ((toordinal t - ordinal 1969 12 29) / 7).
Proof.
  intros Hv Hy. unfold relative_week. pose proof (toordinal_bounds t Hv) as Hb.
  destruct (add_days_ok t 8 Hv) as (t8 & -> & Hv8 & Ho8 & Ht8).
  { destruct (toordinal_year t Hv) as [_ Hr].
    pose proof (days_before_le (year t + 1) 2238 ltac:(lia)). unfold max_ordinal in *.
    assert (days_before_year 2238 = 817047) as He by reflexivity. lia. }
  cbn [mbind res_bind]. pose proof (Z.mod_pos_bound (toordinal t + 6) 7 ltac:(lia)) as Hw.
  change ((toordinal t + 6) mod 7) with (weekday t) in Hw.
  pose proof (toordinal_bounds t8 Hv8). destruct (add_days_ok t8 (- weekday t) Hv8) as (t' & E & Hv' & Ho' & Ht'); [lia|].
  assert (- timedelta (weekday t) 0 0 0 = timedelta (- weekday t) 0 0 0) as -> by (unfold timedelta; lia).
  rewrite E. cbn [mbind res_bind]. f_equal.
  pose proof (relative_day_since t' Hv') as Hd. unfold relative_day, days_since_1970 in Hd. rewrite Hd.
  rewrite Ho', Ho8. unfold weekday, ordinal_weekday.
  assert (ordinal 1970 1 1 = 719163) as -> by reflexivity.
  assert (ordinal 1969 12 29 = 719160) as -> by reflexivity. dlia.
Qed.

(** *** Numbers of weeks *)

Lemma first_week_found mode y w : 0 <= mode <= 9 → week_one mode y w → first_week mode y = w.
Proof.
  intros Hm [Hwd Hw]. unfold first_week, first_from, from_sunday, ordinal_weekday in *.
  set (o := ordinal y 1 1) in *. clearbody o. each_mode Hm;
    cbn [first_of_week Z.eqb Pos.eqb orb] in *;
    repeat match goal with |- context [bool_decide ?P] =>
      let b := eval vm_compute in (bool_decide P) in change (bool_decide P) with b end; cbv iota in *; dlia.
Qed.
Lemma week_in_counted mode y k n :
  0 <= mode <= 9 → in_week mode y k n → week_in mode y n = counted_week mode y k.
Proof.
  intros Hm (w & Hw & Hk). unfold week_in, counted_week. rewrite (first_week_found mode y w) by done.
  assert ((n - w) / 7 + 1 = k) as -> by dlia. unfold thursday_years, miscounted, ordinal_weekday.
  replace ((ordinal y 1 1 + 6) mod 7) with ((ordinal y 1 1 - 1) mod 7) by dlia.
  replace (bool_decide (mode ∈ [4; 6])) with ((mode =? 4) || (mode =? 6)) by (by each_mode Hm).
  case_match; lia.
Qed.
Lemma week_expected t mode with_year :
  valid t → 2 <= year t → 0 <= mode <= 9 →
  to_week_compute_expected 2 t mode with_year = Ok (week_text with_year mode t).
Proof.
  intros Hv Hy Hm. destruct (week_counted 2 t mode with_year Hv Hy Hm) as (k & Hk & _ & E); [lia|].
  cbv zeta in E. unfold week_text. cbv zeta. rewrite (week_in_counted mode _ k) by done.
  replace (no_week_0 mode) with (wraps mode) by (by each_mode Hm).
  destruct (wraps mode && _); [|exact E].
  destruct E as (k' & Hk' & _ & ->). by rewrite (week_in_counted mode _ k').
Qed.
Lemma follows_week func with_year :
  follows (to_week_year_week func with_year)
    (mkReference func false false (Some <$> seqZ 0 10) (week_text with_year)).
Proof.
  split_and!; [done..|]. intros zones y t Hy Hv Hyear. cbn [cases to_week_year_week zone_check r_modes].
  induction zones as [|tz zones IH]; [done|]. rewrite !bind_cons, IH. f_equal.
  rewrite <-list_fmap_compose. apply list_fmap_ext. intros i mode Hi%list_elem_of_lookup_2%elem_of_seqZ.
  cbn [compose default r_value]. rewrite week_expected by (done || lia). cbn [mbind res_bind].
  by rewrite select_statement.
Qed.

(** *** All scenarios *)

Lemma follows_second : follows to_start_of_second
  (mkReference "toStartOfSecond" true true [None] (λ _ t, start_of 1 t +:+ ".000000")).
Proof.
  split_and!; [done..|]. intros zones y t Hy Hv Hyear.
  cbn [cases to_start_of_second zone_check r_modes r_value fmap list_fmap].
  induction zones as [|tz zones IH]; [done|]. rewrite !bind_cons, IH. f_equal. f_equal. f_equal. f_equal.
  - unfold statement, to_datetime64, moment_text, date_text, clock_text, two. cbn.
    repeat (rewrite ?str_app_assoc, ?str_app_cons, ?str_app_nil_r). reflexivity.
  - rewrite start_of_second_text by done. rewrite strftime_fmt. by destruct t.
Qed.

Lemma all_follow : Forall2 follows zone_scenarios references.
Proof.
  unfold zone_scenarios, references.
  repeat (apply Forall2_cons; split); [..|by apply Forall2_nil].
  - apply follows_zone. intros y t tz Hy Hv Hyear.
    destruct (iso_year_found 13 t) as (d & -> & Hvd & Hod & Htd & _); [done|lia|lia|]. cbn [mbind res_bind].
    by rewrite strftime_day, first_monday, <-Hod, at_day_text.
  - apply follows_plain. intros t _ Hv. rewrite start_of_day_text, strftime_day by done. reflexivity.
  - apply follows_plain. intros t _ Hv. rewrite start_of_hour_text by done.
    unfold moment_text, date_text, clock_text. cbn. repeat (rewrite ?str_app_assoc, ?str_app_cons). reflexivity.
  - apply follows_plain. intros t _ Hv. rewrite start_of_minute_text by done.
    unfold moment_text, date_text, clock_text. cbn. repeat (rewrite ?str_app_assoc, ?str_app_cons). reflexivity.
  - apply follows_second.
  - apply follows_plain. intros t _ Hv. by rewrite start_of_minutes_text by (done || set_solver).
  - apply follows_plain. intros t _ Hv. by rewrite start_of_minutes_text by (done || set_solver).
  - apply follows_plain. intros t _ Hv. by rewrite start_of_minutes_text by (done || set_solver).
  - apply follows_plain. intros t _ Hv. by rewrite start_of_minutes_text by (done || set_solver).
  - apply follows_plain. intros t _ Hv. by rewrite isocalendar_thursday.
  - apply follows_plain. intros t _ Hv. by rewrite isocalendar_thursday.
  - apply follows_plain. intros t _ Hv. unfold clock_text. cbn. by rewrite ?str_app_nil_r.
  - apply follows_zone. intros y t tz Hy Hv <-. unfold relative_quarter, months_since. do 4 f_equal. dlia.
  - apply follows_zone. intros y t tz Hy Hv <-. by rewrite relative_week_since by (done || lia).
  - apply follows_zone. intros y t tz Hy Hv <-. unfold relative_month, months_since. do 4 f_equal. lia.
  - apply follows_plain. intros t _ Hv. by rewrite relative_day_since.
  - by apply follows_plain.
  - by apply follows_plain.
  - by apply follows_plain.
  - apply follows_week.
  - apply follows_week.
  - apply follows_plain. intros t _ Hv. cbn. by rewrite ?str_app_nil_r.
  - apply follows_plain. intros t _ Hv. cbn. by rewrite ?str_app_nil_r.
Qed.

Section decides.
Context {S : Type} {N : SqlNode S} (answer : string → string) (Hanswer : answers (S := S) answer).

Lemma follows_decides (fuel : nat) all_timezones stress c r :
  follows c r → (351 < fuel)%nat →
  decides (run_check (S := S) fuel all_timezones stress c) (right_answers answer fuel all_timezones stress r).
Proof.
  intros (Hp & Hmic & Hcases) Hf.
  eapply decides_iff; [|apply (run_check_decides answer Hanswer); [done| |done]].
  - unfold answers_match, right_answers. rewrite Hp, Hmic. split.
    + intros Hm y dates t tz mode Hy Hd Ht Htz Hmode.
      destruct (year_dates fuel y stress (r_microseconds r)) as (l & E & Hl);
        [apply years_bounds in Hy; lia|done|]. rewrite Hd in E. injection E as <-.
      rewrite Forall_forall in Hl. destruct (Hl t Ht) as [Hv Hyear].
      refine (Hm y Hy dates Hd t Ht (Ok (_, _)) _ _ eq_refl).
      rewrite Hcases by (done || by apply years_bounds in Hy). apply list_elem_of_bind. exists tz.
      split; [|done]. apply list_elem_of_fmap. by exists mode.
    + intros Hm y Hy dates Hd t Ht x Hx q ->.
      destruct (year_dates fuel y stress (r_microseconds r)) as (l & E & Hl);
        [apply years_bounds in Hy; lia|done|]. rewrite Hd in E. injection E as <-.
      rewrite Forall_forall in Hl. destruct (Hl t Ht) as [Hv Hyear].
      rewrite Hcases in Hx by (done || by apply years_bounds in Hy).
      apply list_elem_of_bind in Hx as (tz & (mode & [= ->] & Hmode)%list_elem_of_fmap & Htz). by eapply Hm.
  - intros zones y t x Hy Hv Hyear Hx. rewrite Hcases in Hx by done.
    apply list_elem_of_bind in Hx as (tz & (mode & -> & _)%list_elem_of_fmap & _). by eexists.
Qed.
End decides.


(** ** Concrete values *)

Definition noon_of_leap_day : datetime := mkDatetime 2000 2 29 12 34 56 789000.
Definition value_of (func : string) (mode : Z) (t : datetime) : option string :=
  (λ r, r_value r mode t) <$> List.find (λ r, String.eqb (r_function r) func) references.
Example reference_values :
  (λ f, value_of f 3 noon_of_leap_day) <$>
    ["toStartOfISOYear"; "toStartOfHour"; "toStartOfSecond"; "toStartOfFiveMinute"; "timeSlot"; "toISOWeek";
     "toTime"; "toRelativeQuarterNum"; "toRelativeWeekNum"; "toRelativeHourNum"; "toYearWeek"; "toYYYYMM"] =
    Some <$>
    ["2000-01-03"; "2000-02-29 12:00:00"; "2000-02-29 12:34:56.000000"; "2000-02-29 12:30:00";
     "2000-02-29 12:30:00"; "9"; "1970-01-02 12:34:56"; "120"; "1574"; "264396.0"; "200009"; "200002"].
Proof. by_compute. Qed.
Example reference_statements :
  (λ r, statement r noon_of_leap_day "UTC" (Some 3)) <$> take 1 (drop 19 references) =
    ["SELECT toWeek(toDateTime64('2000-02-29 12:34:56', 0, 'UTC'), 3)"] ∧
  (λ r, statement r noon_of_leap_day "UTC" None) <$> take 1 (drop 4 references) =
    ["SELECT toStartOfSecond(toDateTime64('2000-02-29 12:34:56.789000', 6, 'UTC'))"].
Proof. split; by_compute. Qed.

