(* ===== verification/Parquet.v ===== *)
(** * The data files of the Parquet suite

    parquet/data/test_file_generators.py makes a table with a column for every
    combination of types, its Arrow schema, and the text of its columns as
    Python expressions, which parquet/regression.py reads back.  What pyarrow
    does with the table and the schema is not modelled. *)
From stdpp Require Import gmap.
From Stdlib Require Import Ascii.
From S2P Require Import Prelude PyStr PyDict PyMonad DataTypes.
Local Open Scope Z_scope.
Local Set Warnings "-register-all".

(** ** The generator *)

(** Values of Python: a float is kept as its literal. *)
Inductive pq_value := VBool (b : bool) | VInt (n : Z) | VFloat (literal : string) | VStr (s : string).
(** The value of a column in one row *)
Inductive pq_data := Atom (v : pq_value) | ListOf (l : list pq_data) | TupleOf (l : list pq_data).

(** Types of pyarrow: [pa.uint8()] and the like by the name that the file
    gives them, and the constructors *)
Inductive arrow :=
  | ABase (name : string)
  | AList (t : arrow)
  | AStruct (fields : list (string * arrow))
  | AMap (k v : arrow).

Definition data_types_and_values : dict string (list pq_value) := [
  ("bool", [VBool true; VBool false; VBool true]);
  ("uint8", [VInt 0; VInt 255; VInt 128]);
  ("int8", [VInt (-128); VInt 127; VInt 101]);
  ("uint16", [VInt 0; VInt 65535; VInt 32767]);
  ("int16", [VInt (-32768); VInt 32767; VInt 10101]);
  ("uint32", [VInt 0; VInt 4294967295; VInt 101010101]);
  ("int32", [VInt (-2147483648); VInt 2147483647; VInt 10101010]);
  ("uint64", [VInt 0; VInt 18446744073709551615; VInt 1010101010101010]);
  ("int64", [VInt (-9223372036854775808); VInt 9223372036854775807; VInt 1010101010101010]);
  ("float", [VFloat "-3.4028235e38"; VFloat "3.4028235e38"; VInt 10101010]);
  ("double", [VFloat "-1.7976909999999999e308"; VFloat "1.7976909999999999e308"; VFloat "5.6e266"]);
  ("date32", [VInt 0; VInt 65535; VInt 10]);
  ("timestamp", [VInt 0; VFloat "4.29496e09"; VInt 10]);
  ("string", [VStr "''";
    VStr "'abcdefghijklmnopqrstuvwxyzABCDEFGHIJKLMNOPQRTUVWXYZ!@#$%^&*()_-=+[]\{\}\|\/?<>,.:;~`'";
    VStr "'hello'"]);
  ("binary", [VStr "1"; VStr "0"; VStr "111100111111"])
].

(** [pyarrow_types], in its own order *)
Definition pyarrow_types : dict string arrow := (λ n, (n, ABase n)) <$>
  ["bool"; "uint8"; "int8"; "uint16"; "int16"; "uint32"; "int32"; "uint64"; "int64"; "float";
   "double"; "date32"; "timestamp"; "string"; "binary"].

Definition pq_to_ch_types : dict string string := [
  ("bool", "UInt8()"); ("uint8", "UInt8()"); ("int8", "Int8()"); ("uint16", "UInt16()");
  ("int16", "Int16()"); ("uint32", "UInt32()"); ("int32", "Int32()"); ("uint64", "UInt64()");
  ("int64", "Int64()"); ("float", "Float32()"); ("double", "Float64()");
  ("timestamp", "DateTime()"); ("date32", "Date()"); ("string", "String()"); ("binary", "String()")
].

(** The three things that the generator collects *)
Record generated := mkGenerated {
  value_dict : dict string (list pq_data);
  schema : list (string * arrow);
  ch_table_def : list string
}.

Definition arrow_type (t : string) : res arrow := or_raise (KeyError t) (dget t pyarrow_types).
Definition ch_type_text (t : string) : res string := or_raise (KeyError t) (dget t pq_to_ch_types).

(** [value_dict[name] = values; schema.append((name, type));
    ch_table_def.append(name + " " + text)] *)
Definition add_column (name : string) (values : list pq_data) (type : arrow) (text : string)
    (g : generated) : generated :=
  mkGenerated (dset name values (value_dict g)) (schema g ++ [(name, type)])
    (ch_table_def g ++ [name +:+ " " +:+ text]).

Definition struct_a (t : arrow) : arrow := AStruct [("a", t)].
Definition tuple_1 (v : pq_value) : pq_data := TupleOf [Atom v].
Definition pair_of (k : pq_value) (v : pq_data) : pq_data := TupleOf [Atom k; v].

(** The columns of a type by itself *)
Definition type_columns (type : string) (values : list pq_value) (g : generated) : res generated :=
  t ← arrow_type type;
  ch ← ch_type_text type;
  mret (add_column ("list_struct_" +:+ type) ((λ v, ListOf [tuple_1 v]) <$> values)
          (AList (struct_a t)) ("Array(Tuple([" +:+ ch +:+ "]))")
       (add_column ("list_" +:+ type) ((λ v, ListOf [Atom v]) <$> values)
          (AList t) ("Array(" +:+ ch +:+ ")")
       (add_column type (Atom <$> values) t ch g))).

(** The columns of maps from a type to another *)
Definition map_columns (type : string) (values : list pq_value) (inner_key : string)
    (inner_values : list pq_value) (g : generated) : res generated :=
  t ← arrow_type type;
  i ← arrow_type inner_key;
  ch ← ch_type_text type;
  chi ← ch_type_text inner_key;
  let rows (row : pq_value → list pq_data) := (λ v, ListOf (row v)) <$> values in
  mret (add_column ("map_" +:+ type +:+ "_struct_" +:+ inner_key)
          (rows (λ v, (λ w, pair_of v (tuple_1 w)) <$> inner_values))
          (AMap t (struct_a i)) ("Map(" +:+ ch +:+ ", Tuple([" +:+ chi +:+ "]))")
       (add_column ("map_" +:+ type +:+ "_list_" +:+ inner_key)
          (rows (λ v, (λ w, pair_of v (ListOf [Atom w])) <$> inner_values))
          (AMap t (AList i)) ("Map(" +:+ ch +:+ ", Array(" +:+ chi +:+ "))")
       (add_column ("list_map_" +:+ type +:+ "_" +:+ inner_key)
          (rows (λ v, (λ w, ListOf [pair_of v (Atom w)]) <$> inner_values))
          (AList (AMap t i)) ("Array(Map(" +:+ ch +:+ "," +:+ chi +:+ "))")
       (add_column ("map_" +:+ type +:+ "_" +:+ inner_key)
          (rows (λ v, (λ w, pair_of v (Atom w)) <$> inner_values))
          (AMap t i) ("Map(" +:+ ch +:+ "," +:+ chi +:+ ")") g)))).

Fixpoint res_fold {A B} (f : A → B → res B) (l : list A) (b : B) : res B :=
  match l with [] => Ok b | x :: l => b ← f x b; res_fold f l b end.

(** Maps have no keys of the types that are not exact. *)
Definition key_types : list string := ["float"; "double"; "timestamp"].
Definition all_columns (type : string) (values : list pq_value) (g : generated) : res generated :=
  g ← type_columns type values g;
  if bool_decide (type ∈ key_types) then mret g
  else res_fold (λ iv, map_columns type values iv.1 iv.2) data_types_and_values g.

(** The column with a field of every type, whose text has its brackets in the
    wrong order *)
Definition struct_column (g : generated) : res generated :=
  texts ← res_mapM ch_type_text (dkeys data_types_and_values);
  rows ← res_mapM (λ i : nat, l ← res_mapM (λ l : list pq_value, or_raise IndexError (l !! i))
                                   (dvalues data_types_and_values);
                              mret (TupleOf (Atom <$> l))) [0; 1; 2]%nat;
  mret (add_column "struct" rows (AStruct pyarrow_types)
          ("Tuple[(" +:+ join "," texts +:+ "])") g).

Definition generate : res generated :=
  g ← res_fold (λ tv, all_columns tv.1 tv.2) data_types_and_values (mkGenerated [] [] []);
  struct_column g.
(** The text of clickhouse_table_def.txt *)
Definition table_def (g : generated) : string := join "." (ch_table_def g).

(** ** Reading the columns back *)

(** The classes of helpers/datatypes.py that the texts call *)
Definition classes : list (string * datatype) := [
  ("UInt8", TUInt UInt8); ("UInt16", TUInt UInt16); ("UInt32", TUInt UInt32);
  ("UInt64", TUInt UInt64); ("Int8", TInt Int8); ("Int16", TInt Int16); ("Int32", TInt Int32);
  ("Int64", TInt Int64); ("Float32", TFloat32); ("Float64", TFloat64); ("Date", TDate);
  ("DateTime", TDateTime); ("String", TString)
].

(** [eval] of the constructor calls of these classes, of [Array], [Map] and
    [Tuple]: the value and the rest of the text; [None] for other texts. *)
Definition expect_char (c : ascii) (s : string) : option string :=
  match s with String d s => if Ascii.eqb c d then Some s else None | EmptyString => None end.
Fixpoint skip_spaces (s : string) : string :=
  match s with String " " s => skip_spaces s | s => s end.

Fixpoint eval_go (fuel : nat) (s : string) : option (datatype * string) :=
  match fuel with
  | O => None
  | S fuel =>
      '(name, s) ← cut_first "(" s;
      if String.eqb name "Array" then
        '(t, s) ← eval_go fuel s;
        s ← expect_char ")" s;
        Some (TArray t, s)
      else if String.eqb name "Map" then
        '(k, s) ← eval_go fuel s;
        s ← expect_char "," s;
        '(v, s) ← eval_go fuel (skip_spaces s);
        s ← expect_char ")" s;
        Some (TMap k v, s)
      else if String.eqb name "Tuple" then
        s ← expect_char "[" s;
        '(l, s) ← eval_list fuel s;
        s ← expect_char ")" s;
        Some (TTuple l, s)
      else
        t ← dget name classes;
        s ← expect_char ")" s;
        Some (t, s)
  end
with eval_list (fuel : nat) (s : string) : option (list datatype * string) :=
  match fuel with
  | O => None
  | S fuel =>
      '(t, s) ← eval_go fuel s;
      match expect_char "," s with
      | Some s => '(l, s) ← eval_list fuel s; Some (t :: l, s)
      | None => s ← expect_char "]" s; Some ([t], s)
      end
  end.
(** The brackets of a text match: the tokenizer of Python raises [SyntaxError]
    for those that do not. *)
Fixpoint brackets_match (closers : list ascii) (s : string) : bool :=
  match s with
  | EmptyString => bool_decide (closers = [])
  | String c s =>
      if Ascii.eqb c "(" then brackets_match (")"%char :: closers) s
      else if Ascii.eqb c "[" then brackets_match ("]"%char :: closers) s
      else if Ascii.eqb c ")" || Ascii.eqb c "]" then
        match closers with d :: closers => Ascii.eqb c d && brackets_match closers s | [] => false end
      else brackets_match closers s
  end.
Definition SyntaxError : exn := OtherException "SyntaxError".
(** Other texts with matching brackets, which no file of the suite has, are
    left out: their exception is not the one of Python. *)
Definition eval (s : string) : res datatype :=
  match eval_go (2 * slen s) s with
  | Some (t, EmptyString) => Ok t
  | _ => Exc (if brackets_match [] s then OtherException s else SyntaxError)
  end.

(** [name, datatype = column.split(" ", 1)], the type evaluated *)
Definition read_column (column : string) : res (string * datatype) :=
  match cut_first " " column with
  | None => Exc (ValueError "not enough values to unpack (expected 2, got 1)")
  | Some (name, text) => t ← eval text; mret (name, t)
  end.
(** The columns of parquet/regression.py, from the output of
    [cat clickhouse_table_def.txt] *)
Definition read_columns (output : string) : res (list (string * datatype)) :=
  res_mapM read_column (split "." (strip output)).

(** ** Texts that evaluate *)

(** [text] is an expression for [d]: wherever it stands, reading it gives [d]
    and leaves what follows; it neither starts with a space nor has a point. *)
Record prints (text : string) (d : datatype) : Prop := {
  prints_eval fuel rest :
    (2 * slen text <= fuel)%nat → eval_go fuel (text +:+ rest) = Some (d, rest);
  prints_head rest : skip_spaces (text +:+ rest) = text +:+ rest;
  prints_no_dot : lacks "." text = true
}.

Lemma prints_eval_ok text d : prints text d → eval text = Ok d.
Proof.
  intros Hp. unfold eval. rewrite <-(str_app_nil_r text) at 2. by rewrite (prints_eval _ _ Hp).
Qed.

Lemma cut_paren name s :
  lacks "(" name = true → cut_first "(" (name +:+ "(" +:+ s) = Some (name, s).
Proof. apply cut_first_char. Qed.

Lemma eval_go_S fuel name s :
  lacks "(" name = true → name ≠ "Array" → name ≠ "Map" → name ≠ "Tuple" →
  eval_go (S fuel) (name +:+ "(" +:+ s) =
  t ← dget name classes; s ← expect_char ")" s; Some (t, s).
Proof.
  intros Hn Ha Hm Ht. cbn [eval_go]. rewrite cut_paren by done. cbn [mbind option_bind].
  apply String.eqb_neq in Ha, Hm, Ht. by rewrite Ha, Hm, Ht.
Qed.

(** A class without arguments *)
Lemma prints_name c d :
  dget c classes = Some d → lacks "(" c && lacks "." c = true →
  c ≠ "Array" → c ≠ "Map" → c ≠ "Tuple" → (∀ rest, skip_spaces (c +:+ rest) = c +:+ rest) →
  prints (c +:+ "()") d.
Proof.
  intros Hc [Hp Hd]%andb_true_iff H1 H2 H3 Hh. split.
  - intros [|fuel] rest Hf; [rewrite slen_app in Hf; simpl in Hf; lia|].
    rewrite str_app_assoc. change ("()" +:+ rest) with ("(" +:+ ")" +:+ rest).
    rewrite eval_go_S by done. by rewrite Hc.
  - intros rest. by rewrite str_app_assoc, Hh.
  - by rewrite lacks_app, Hd.
Qed.
Lemma prints_class c d : (c, d) ∈ classes → prints (c +:+ "()") d.
Proof.
  intros Hc%list_elem_of_In. cbn [classes List.In] in Hc.
  destruct_or! Hc; simplify_eq; by apply prints_name.
Qed.

Lemma prints_eq text text' d d' : prints text d → text' = text → d' = d → prints text' d'.
Proof. by intros ? -> ->. Qed.

Lemma prints_array t d : prints t d → prints ("Array(" +:+ t +:+ ")") (TArray d).
Proof.
  intros [He Hh Hd]. split; [|done|].
  - intros [|fuel] rest Hf; rewrite !slen_app in Hf; simpl in Hf; [lia|].
    rewrite !str_app_assoc. change ("Array(" +:+ ?s) with ("Array" +:+ "(" +:+ s).
    cbn [eval_go]. rewrite (cut_paren "Array") by done. cbn [mbind option_bind].
    change (String.eqb "Array" "Array") with true. cbv iota. rewrite He by lia. done.
  - by rewrite !lacks_app, Hd.
Qed.

Lemma prints_map (space : bool) k dk v dv : prints k dk → prints v dv →
  prints ("Map(" +:+ k +:+ (if space then ", " else ",") +:+ v +:+ ")") (TMap dk dv).
Proof.
  intros [Hk _ Hkd] [Hv Hvh Hvd]. split; [|done|].
  - intros [|fuel] rest Hf; rewrite !slen_app in Hf; simpl in Hf; [lia|].
    rewrite !str_app_assoc. change ("Map(" +:+ ?s) with ("Map" +:+ "(" +:+ s).
    cbn [eval_go]. rewrite (cut_paren "Map") by done. cbn [mbind option_bind].
    change (String.eqb "Map" "Array") with false. change (String.eqb "Map" "Map") with true.
    cbv iota. rewrite Hk by lia. cbn [mbind option_bind].
    destruct space.
    + change (expect_char "," (", " +:+ ?s)) with (Some (String " " s)). cbn [mbind option_bind].
      change (skip_spaces (String " " ?s)) with (skip_spaces s). by rewrite Hvh, Hv by lia.
    + change (expect_char "," ("," +:+ ?s)) with (Some s). cbn [mbind option_bind].
      by rewrite Hvh, Hv by lia.
  - rewrite !lacks_app, Hkd, Hvd. by destruct space.
Qed.

Lemma prints_tuple1 t d : prints t d → prints ("Tuple([" +:+ t +:+ "])") (TTuple [d]).
Proof.
  intros [He Hh Hd]. split; [|done|].
  - intros fuel rest Hf; rewrite !slen_app in Hf; simpl in Hf. do 2 (destruct fuel as [|fuel]; [lia|]).
    rewrite !str_app_assoc. change ("Tuple([" +:+ ?s) with ("Tuple" +:+ "(" +:+ "[" +:+ s).
    cbn [eval_go]. rewrite (cut_paren "Tuple") by done. cbn [mbind option_bind].
    change (String.eqb "Tuple" "Array") with false. change (String.eqb "Tuple" "Map") with false.
    change (String.eqb "Tuple" "Tuple") with true. cbv iota.
    change (expect_char "[" ("[" +:+ ?s)) with (Some s). cbn [mbind option_bind eval_list].
    by rewrite He by lia.
  - by rewrite !lacks_app, Hd.
Qed.

(** ** What the generator makes *)

(** The ClickHouse types of the Arrow types *)
Definition base_types : dict string datatype := [
  ("bool", TUInt UInt8); ("uint8", TUInt UInt8); ("int8", TInt Int8); ("uint16", TUInt UInt16);
  ("int16", TInt Int16); ("uint32", TUInt UInt32); ("int32", TInt Int32); ("uint64", TUInt UInt64);
  ("int64", TInt Int64); ("float", TFloat32); ("double", TFloat64); ("date32", TDate);
  ("timestamp", TDateTime); ("string", TString); ("binary", TString)
].
Fixpoint ch_type (t : arrow) : datatype :=
  match t with
  | ABase n => default TString (dget n base_types)
  | AList t => TArray (ch_type t)
  | AStruct l => TTuple (List.map (λ f, ch_type f.2) l)
  | AMap k v => TMap (ch_type k) (ch_type v)
  end.

(** A name of a type: the tables know it, and it has neither a space nor a
    point. *)
Record base_name (t : string) : Prop := {
  base_arrow : arrow_type t = Ok (ABase t);
  base_text : ∃ text, ch_type_text t = Ok text ∧ prints text (ch_type (ABase t));
  base_plain : lacks " " t && lacks "." t = true
}.
Lemma base_names t vs : (t, vs) ∈ data_types_and_values → base_name t ∧ length vs = 3%nat.
Proof.
  intros Ht%list_elem_of_In. cbn [data_types_and_values List.In] in Ht.
  destruct_or! Ht; simplify_eq; (split; [|done]);
    (split; [reflexivity| |reflexivity]); eexists; (split; [reflexivity|]);
    lazymatch goal with |- prints ?t _ =>
      let c := eval vm_compute in (str_take (slen t - 2) t) in change t with (c +:+ "()") end;
    apply prints_class, list_elem_of_In; cbn [classes List.In]; intuition reflexivity.
Qed.

(** A column, its rows and the text of its definition agree. *)
Definition column_text (c : string * arrow) (d : string) : Prop :=
  ∃ text, d = c.1 +:+ " " +:+ text ∧ lacks " " c.1 && lacks "." c.1 = true ∧
    prints text (ch_type c.2).
Definition three_rows (kv : string * list pq_data) : Prop := length kv.2 = 3%nat.
Record agrees (g : generated) : Prop := {
  agrees_text : Forall2 column_text (schema g) (ch_table_def g);
  agrees_keys : NoDup (schema g).*1 → dkeys (value_dict g) = (schema g).*1;
  agrees_rows : Forall three_rows (value_dict g)
}.

Lemma Forall_dset {K V} `{EqDecision K} (P : K * V → Prop) k v (d : dict K V) :
  P (k, v) → Forall P d → Forall P (dset k v d).
Proof.
  intros Hkv. induction 1 as [|[k' v'] d Hx Hd IH]; [by repeat constructor|]. simpl.
  destruct (decide (k = k')) as [->|]; by constructor.
Qed.

Lemma added_keys name values type text g :
  agrees g → NoDup (schema (add_column name values type text g)).*1 →
  dkeys (value_dict (add_column name values type text g)) =
  (schema (add_column name values type text g)).*1.
Proof.
  intros Hg. cbn [schema value_dict add_column]. rewrite fmap_app. cbn [fmap list_fmap fst].
  intros (Hn & Hd & _)%NoDup_app. specialize (agrees_keys g Hg Hn) as Hk.
  rewrite dset_fresh.
  - unfold dkeys. rewrite fmap_app. fold (dkeys (value_dict g)). by rewrite Hk.
  - rewrite Hk. intros Hin. apply (Hd name Hin). by left.
Qed.

Lemma add_column_agrees name values type text g :
  lacks " " name && lacks "." name = true → prints text (ch_type type) →
  length values = 3%nat → agrees g → agrees (add_column name values type text g).
Proof.
  intros Hn Hp Hv Hg. split; [|by apply added_keys|].
  - apply Forall2_app; [apply Hg|]. constructor; [by exists text|constructor].
  - apply Forall_dset; [done|apply Hg].
Qed.

Lemma type_columns_agree type values g :
  base_name type → length values = 3%nat → agrees g →
  ∃ g', type_columns type values g = Ok g' ∧ agrees g'.
Proof.
  intros [Ha (text & Ht & Hp) Hn] Hv Hg. apply andb_true_iff in Hn as [Hs Hd].
  unfold type_columns. rewrite Ha, Ht. cbn [mbind res_bind mret res_ret]. eexists. split; [done|].
  repeat (apply add_column_agrees; [by rewrite ?lacks_app, ?Hs, ?Hd| |by rewrite ?length_fmap|]).
  - eapply prints_eq; [apply prints_array, (prints_tuple1 _ _ Hp)|by rewrite !str_app_assoc|done].
  - by apply prints_array.
  - done.
  - done.
Qed.

Lemma map_columns_agree type values inner_key inner_values g :
  base_name type → base_name inner_key → length values = 3%nat → agrees g →
  ∃ g', map_columns type values inner_key inner_values g = Ok g' ∧ agrees g'.
Proof.
  intros [Ha (text & Ht & Hp) Hn] [Hai (texti & Hti & Hpi) Hni] Hv Hg.
  apply andb_true_iff in Hn as [Hs Hd], Hni as [Hsi Hdi].
  unfold map_columns. rewrite Ha, Ht, Hai, Hti. cbn [mbind res_bind mret res_ret].
  eexists. split; [done|].
  repeat (apply add_column_agrees;
    [by rewrite ?lacks_app, ?Hs, ?Hd, ?Hsi, ?Hdi| |by rewrite ?length_fmap|]).
  - eapply prints_eq; [apply (prints_map true _ _ _ _ Hp (prints_tuple1 _ _ Hpi))|
      by rewrite !str_app_assoc|done].
  - eapply prints_eq; [apply (prints_map true _ _ _ _ Hp (prints_array _ _ Hpi))|
      by rewrite !str_app_assoc|done].
  - eapply prints_eq; [apply prints_array, (prints_map false _ _ _ _ Hp Hpi)|
      by rewrite !str_app_assoc|done].
  - apply (prints_map false _ _ _ _ Hp Hpi).
  - done.
Qed.

Lemma res_fold_inv {A B} (f : A → B → res B) (I : B → Prop) l b :
  (∀ x b, x ∈ l → I b → ∃ b', f x b = Ok b' ∧ I b') → I b →
  ∃ b', res_fold f l b = Ok b' ∧ I b'.
Proof.
  revert b. induction l as [|x l IH]; intros b Hf Hb; [by exists b|]. cbn [res_fold].
  destruct (Hf x b) as (b1 & E & H1); [by left|done|]. rewrite E. cbn [mbind res_bind].
  apply IH; [|done]. intros y c Hy. apply Hf. by right.
Qed.

Lemma columns_agree :
  ∃ g, res_fold (λ tv, all_columns tv.1 tv.2) data_types_and_values (mkGenerated [] [] []) = Ok g ∧
    agrees g.
Proof.
  apply res_fold_inv.
  2: { split; [constructor| |constructor]. done. }
  intros [type values] g Hin Hg. cbn [fst snd].
  destruct (base_names _ _ Hin) as [Hb Hv]. unfold all_columns.
  destruct (type_columns_agree type values g Hb Hv Hg) as (g1 & E & H1). rewrite E.
  cbn [mbind res_bind]. destruct (bool_decide _); [by exists g1|].
  apply res_fold_inv; [|done]. intros [i w] b Hi Hag. cbn [fst snd].
  apply map_columns_agree; [done|apply (base_names _ _ Hi)|done..].
Qed.

(** ** The generated files *)

Lemma read_column_text c d : column_text c d → read_column d = Ok (c.1, ch_type c.2).
Proof.
  intros (text & -> & [Hs _]%andb_true_iff & Hp). unfold read_column.
  change (c.1 +:+ " " +:+ text) with (c.1 +:+ String " " text).
  rewrite cut_first_char by done. by rewrite (prints_eval_ok _ _ Hp).
Qed.
Lemma column_text_no_dot c d : column_text c d → lacks "." d = true.
Proof.
  intros (text & -> & [_ Hd]%andb_true_iff & Hp). by rewrite !lacks_app, Hd, (prints_no_dot _ _ Hp).
Qed.

Lemma read_texts l ds :
  Forall2 column_text l ds → res_mapM read_column ds = Ok ((λ c, (c.1, ch_type c.2)) <$> l).
Proof.
  induction 1 as [|c d l ds Hc _ IH]; [done|]. cbn [res_mapM]. rewrite (read_column_text _ _ Hc).
  cbn [mbind res_bind]. by rewrite IH.
Qed.

Lemma join_last sep l b d :
  last l = Some (b +:+ String d EmptyString) → ∃ s, join sep l = s +:+ String d EmptyString.
Proof.
  induction l as [|x l IH]; [done|]. destruct l as [|y l]; intros Hl.
  - injection Hl as ->. by exists b.
  - destruct (IH Hl) as (s & E). rewrite join_cons by done. rewrite E.
    exists (x +:+ sep +:+ s). by rewrite !str_app_assoc.
Qed.
Lemma strip_join sep c a x l b d :
  is_space c = false → is_space d = false → last (x :: l) = Some (b +:+ String d EmptyString) →
  strip (join sep (String c a :: x :: l)) = join sep (String c a :: x :: l).
Proof.
  intros Hc Hd Hl. destruct (join_last sep (x :: l) b d Hl) as (s & E).
  rewrite join_cons by done. rewrite E, str_app_cons.
  rewrite <-(str_app_assoc sep), <-str_app_assoc. by apply strip_ends.
Qed.

(** What only computation shows: the names differ, and how the texts start
    and end. *)
Definition generated_ok (g : generated) : bool :=
  nodup_str ("struct" :: (schema g).*1) &&
  match ch_table_def g with first :: _ :: _ => String.eqb first "bool UInt8()" | _ => false end &&
  match last (ch_table_def g) with
  | Some s => String.eqb s "map_binary_struct_binary Map(String(), Tuple([String()]))"
  | None => false
  end.
Lemma generated_facts :
  (if res_fold (λ tv, all_columns tv.1 tv.2) data_types_and_values (mkGenerated [] [] []) is Ok g
   then generated_ok g else false) = true.
Proof. vm_compute. reflexivity. Qed.

Definition struct_text : string := "struct Tuple[(UInt8(),UInt8(),Int8(),UInt16(),Int16(),UInt32(),Int32(),UInt64(),Int64(),Float32(),Float64(),Date(),DateTime(),String(),String()])".
Lemma struct_column_eq g :
  ∃ rows text, struct_column g = Ok (add_column "struct" rows (AStruct pyarrow_types) text g) ∧
    "struct" +:+ " " +:+ text = struct_text ∧
    length rows = 3%nat.
Proof. eexists _, _. split_and!; reflexivity. Qed.
Lemma read_struct : read_column struct_text = Exc SyntaxError ∧ lacks "." struct_text = true.
Proof. split; vm_compute; reflexivity. Qed.

Lemma res_mapM_app_exc {A B} (f : A → res B) l x k e :
  res_mapM f l = Ok k → f x = Exc e → res_mapM f (l ++ [x]) = Exc e.
Proof.
  intros Hl%res_mapM_ok Hx. induction Hl as [|y z l k Hy _ IH]; cbn [app res_mapM].
  - by rewrite Hx.
  - rewrite Hy. cbn [mbind res_bind]. by rewrite IH.
Qed.

(** The text of a file is split into the columns it was joined from. *)
Lemma read_joined c a x l b d :
  is_space c = false → is_space d = false → last (x :: l) = Some (b +:+ String d EmptyString) →
  Forall (λ s, lacks "." s = true) (String c a :: x :: l) →
  read_columns (join "." (String c a :: x :: l)) = res_mapM read_column (String c a :: x :: l).
Proof.
  intros Hc Hd Hl Hdots. unfold read_columns. rewrite (strip_join _ _ _ _ _ b d) by done.
  by rewrite split_join_char.
Qed.

(** C23: the generator of the Parquet test files makes a column for every
    combination of types: their names differ, the values are in the order of
    the schema, three per column, and the text of clickhouse_table_def.txt
    without its last column reads back, in the evaluation of the suite, as the
    names of the schema with the ClickHouse types of its Arrow types.  The last
    column, a struct with a field of every type, is written with its brackets
    in the wrong order, so that the file as it is generated cannot be read. *)
Theorem table_def_reads_back :
  ∃ g columns, generate = Ok g ∧
    schema g = columns ++ [("struct", AStruct pyarrow_types)] ∧
    NoDup (schema g).*1 ∧ dkeys (value_dict g) = (schema g).*1 ∧
    Forall three_rows (value_dict g) ∧
    read_columns (join "." (removelast (ch_table_def g))) =
      Ok ((λ c, (c.1, ch_type c.2)) <$> columns) ∧
    read_columns (table_def g) = Exc SyntaxError.
Proof.
  destruct columns_agree as (g & E & Hg). pose proof generated_facts as H. rewrite E in H.
  apply andb_true_iff in H as [[Hn%nodup_str_ok Hf]%andb_true_iff Hlast].
  destruct (ch_table_def g) as [|first [|x l]] eqn:Hl; [done..|].
  apply String.eqb_eq in Hf as ->.
  destruct (last _) as [z|] eqn:Hz in Hlast; [|done]. apply String.eqb_eq in Hlast as ->.
  destruct (struct_column_eq g) as (rows & text & Es & Et & Hr).
  assert (Hdots : Forall (λ s, lacks "." s = true) (ch_table_def g)).
  { eapply Forall2_Forall_r; [apply (agrees_text g Hg)|].
    apply Forall_forall. intros c _ d. apply column_text_no_dot. }
  pose proof (read_texts _ _ (agrees_text g Hg)) as Hread. rewrite Hl in Hdots, Hread.
  eexists _, (schema g). split; [unfold generate; rewrite E; exact Es|].
  assert (Hnd : NoDup (schema (add_column "struct" rows (AStruct pyarrow_types) text g)).*1).
  { cbn [schema add_column]. rewrite fmap_app, Permutation_app_comm. exact Hn. }
  split_and!; [done|exact Hnd|by apply added_keys|by apply Forall_dset, Hg| |];
    unfold table_def; cbn [ch_table_def add_column]; rewrite Et, Hl; rewrite ?removelast_last.
  - by rewrite (read_joined _ _ _ _ "map_binary_struct_binary Map(String(), Tuple([String()])" ")").
  - cbn [app]. rewrite (read_joined _ _ _ _ (str_take (slen struct_text - 1) struct_text) ")").
    + by eapply (res_mapM_app_exc _ (_ :: x :: l)); [|apply read_struct].
    + done.
    + done.
    + by rewrite (app_comm_cons l _ x), last_snoc.
    + apply (Forall_app _ (_ :: x :: l)). split; [done|]. constructor; [apply read_struct|done].
Qed.
