(* ===== verification/ParquetSteps.v ===== *)
(** * The steps and the entry module of the Parquet suite

    parquet/tests/common.py: the columns of the tests, their types in MySQL
    and PostgreSQL, and the step [table]; and what the [regression] of
    parquet/regression.py does: it reads the columns of the test files
    (Parquet), checks the types that helpers/tables.py provides (Tables), and
    runs its tests.  The steps that call boto3 and MinIO clients are not
    modelled but for being made. *)
From stdpp Require Import gmap.
From S2P Require Import Prelude PyStr PyDict PyMonad Argparse Version DataTypes World Cluster Query Setup NodeLog Tables XmlConfig StorageConfig Suites Scenario Parquet.
Local Open Scope Z_scope.

(** ** The columns of the tests *)

Definition parquet_test_columns : list datatype :=
  [TBoolean; TUInt UInt8; TInt Int8; TUInt UInt16; TInt Int16; TUInt UInt32; TInt Int32;
   TUInt UInt64; TInt Int64; TFloat32; TFloat64; TDecimal Decimal128 38; TDate; TDateTime; TString;
   TFixedString 51].

Definition mysql_datatypes : list datatype :=
  [TUInt UInt8; TInt Int8; TUInt UInt16; TInt Int16; TUInt UInt32; TInt Int32; TUInt UInt64;
   TInt Int64; TFloat32; TFloat64; TDate; TDateTime; TString; TFixedString 51].
Definition mysql_test_columns : list column :=
  columns_of (mysql_datatypes ++ generate_nullable_datatypes mysql_datatypes).

Definition postgresql_datatypes : list datatype :=
  [TInt Int16; TInt Int32; TInt Int64; TFloat32; TFloat64; TDate; TDateTime; TString].
Definition postgresql_test_columns : list column :=
  let nullable := generate_nullable_datatypes postgresql_datatypes in
  columns_of (postgresql_datatypes ++ nullable ++
              generate_array_datatypes (postgresql_datatypes ++ nullable)).

(** ** Types of other databases *)

(** [isinstance(d, C)] for the classes that the conversions test; DateTime64
    is a DateTime, a DateTime is a Date, a FixedString is a String. *)
Definition isinstance (C : string) (d : datatype) : bool :=
  match d with
  | TUInt UInt8 => String.eqb C "UInt8"
  | TUInt UInt16 => String.eqb C "UInt16"
  | TUInt UInt32 => String.eqb C "UInt32"
  | TUInt UInt64 => String.eqb C "UInt64"
  | TInt Int8 => String.eqb C "Int8"
  | TInt Int16 => String.eqb C "Int16"
  | TInt Int32 => String.eqb C "Int32"
  | TInt Int64 => String.eqb C "Int64"
  | TFloat32 => String.eqb C "Float32"
  | TFloat64 => String.eqb C "Float64"
  | TDate | TDate32 => String.eqb C "Date"
  | TDateTime | TDateTime64 _ _ => String.eqb C "DateTime" || String.eqb C "Date"
  | TString => String.eqb C "String"
  | TFixedString _ => String.eqb C "FixedString" || String.eqb C "String"
  | _ => false
  end.

(** [type(d).__name__] *)
Definition class_name (d : datatype) : string :=
  match d with
  | TInt Int8 => "Int8" | TInt Int16 => "Int16" | TInt Int32 => "Int32" | TInt Int64 => "Int64"
  | TInt Int128 => "Int128" | TInt Int256 => "Int256"
  | TUInt UInt8 => "UInt8" | TUInt UInt16 => "UInt16" | TUInt UInt32 => "UInt32"
  | TUInt UInt64 => "UInt64" | TUInt UInt128 => "UInt128" | TUInt UInt256 => "UInt256"
  | TFloat32 => "Float32" | TFloat64 => "Float64"
  | TDecimal Decimal32 _ => "Decimal32" | TDecimal Decimal64 _ => "Decimal64"
  | TDecimal Decimal128 _ => "Decimal128" | TDecimal Decimal256 _ => "Decimal256"
  | TDate => "Date" | TDate32 => "Date32" | TDateTime => "DateTime" | TDateTime64 _ _ => "DateTime64"
  | TString => "String" | TFixedString _ => "FixedString" | TBoolean => "Boolean" | TUUID => "UUID"
  | TNullable _ => "Nullable" | TLowCardinality _ => "LowCardinality" | TTuple _ => "Tuple"
  | TMap _ _ => "Map" | TArray _ => "Array"
  end.

(** The branches of a conversion in their order: the class, and the text
    after the name of the column *)
Definition mysql_branches : list (string * string) :=
  [("UInt8", "TINYINT UNSIGNED"); ("Int8", "TINYINT SIGNED");
   ("UInt16", "SMALLINT UNSIGNED"); ("Int16", "SMALLINT SIGNED");
   ("UInt32", "INT UNSIGNED"); ("Int32", "INT UNSIGNED");
   ("UInt64", "BIGINT UNSIGNED"); ("Int64", "BIGINT SIGNED");
   ("Float32", "DOUBLE"); ("Float64", "DOUBLE"); ("FixedString", "BLOB"); ("String", "BLOB");
   ("DateTime", "DATETIME"); ("Date", "DATE")].
Definition branch (test : string → bool) (branches : list (string * string)) : option string :=
  snd <$> List.find (λ b, test b.1) branches.

(** The type of a column in MySQL, without its name *)
Definition mysql_type (d : datatype) : option string :=
  branch (λ C, isinstance C d || isinstance C (unwrap d)) mysql_branches.
Definition mysql_conversion (c : column) : res string :=
  let d := datatype_of c in
  match mysql_type d with
  | Some t => Ok ("`" +:+ col_name c +:+ "` " +:+ t +:+ " " +:+
                  (if is_nullable d then "NULL" else "NOT NULL"))
  | None => Exc (OtherException
      ("invalid type <class 'helpers.datatypes." +:+ class_name d +:+ "'>"))
  end.

Definition postgresql_branches : list (string * string) :=
  [("Int16", "SMALLINT"); ("Int32", "INTEGER"); ("Int64", "BIGINT"); ("Float32", "REAL");
   ("Float64", "DOUBLE PRECISION"); ("DateTime", "TIMESTAMP"); ("Date", "DATE"); ("String", "TEXT")].
(** The result is [None] for another type. *)
Definition postgresql_conversion (c : column) : option string :=
  let d := datatype_of c in
  let '(datatype, suffix) := match d with TArray d => (unwrap d, "[]") | d => (unwrap d, EmptyString) end in
  let suffix := suffix +:+ (if is_nullable d then EmptyString else " NOT NULL") in
  (λ t, col_name c +:+ " " +:+ t +:+ suffix) <$> branch (λ C, isinstance C datatype) postgresql_branches.

(** ** The step [table] *)

Definition space20 : string := str_repeat 20 " ".
Definition create_table_text (name table_def engine : string) : string :=
  nl +:+ space20 +:+ "CREATE TABLE " +:+ name +:+ " " +:+ table_def +:+ nl +:+
  space20 +:+ "Engine = " +:+ engine +:+ nl +:+ str_repeat 16 " ".
Definition attach_text (name path table_def engine : string) : string :=
  nl +:+ space20 +:+ "ATTACH TABLE " +:+ name +:+ " FROM '" +:+ path +:+ "' " +:+ table_def +:+ nl +:+
  space20 +:+ "Engine = " +:+ engine +:+ nl +:+ space20.
(** An absent [path] reads as [None] in the text. *)
Definition shown_path (path : option string) : string := default "None" path.

Section table.
Context {S : Type} `{SqlNode S}.

(** ["(" + ",".join(generate_all_column_types()) + ")"]: the columns are
    objects, which [join] refuses, unless there are none. *)
Definition join_columns (columns : list column) : res string :=
  match columns with
  | [] => Ok EmptyString
  | _ => Exc (TypeError "sequence item 0: expected str instance, Column found")
  end.
Definition table_def_or (version : option string) (table_def : option string) : res string :=
  match table_def with
  | Some d => Ok d
  | None => l ← generate_all_column_types version []; s ← join_columns l; Ok ("(" +:+ s +:+ ")")
  end.

Definition make_table (engine name : string) (create : string) (path : option string)
    (table_def : string) : M S unit :=
  if String.eqb create "CREATE" then
    sql_query (create_table_text name table_def engine)
      (with_settings [("allow_suspicious_low_cardinality_types", "1")]);; mret tt
  else if String.eqb create "ATTACH" then
    run_sql (attach_text name (shown_path path) table_def engine)
  else mret tt.
Definition parquet_table {A} (version : option string) (uid engine : string) (name : option string)
    (create : string) (path table_def : option string) (body : M S A) : M S A :=
  let name := default ("table_" +:+ uid) name in
  table_def ← lift (table_def_or version table_def);
  bracket (make_table engine name create path table_def) (λ _, body)
    (run_sql ("DROP TABLE IF EXISTS " +:+ name)).
End table.

(** ** The converted types hold the values *)

(** The ranges of the integer types that the manuals of the databases give *)
Definition integer_types : list (string * (Z * Z)) :=
  [("TINYINT SIGNED", (-128, 127)); ("TINYINT UNSIGNED", (0, 255));
   ("SMALLINT SIGNED", (-32768, 32767)); ("SMALLINT UNSIGNED", (0, 65535));
   ("INT SIGNED", (-2147483648, 2147483647)); ("INT UNSIGNED", (0, 4294967295));
   ("BIGINT SIGNED", (-9223372036854775808, 9223372036854775807));
   ("BIGINT UNSIGNED", (0, 18446744073709551615));
   ("SMALLINT", (-32768, 32767)); ("INTEGER", (-2147483648, 2147483647));
   ("BIGINT", (-9223372036854775808, 9223372036854775807))].

(** The range of a class of integers *)
Definition integer_range (d : datatype) : option (Z * Z) :=
  match min (attrs d), max (attrs d) with AInt lo, AInt hi => Some (lo, hi) | _, _ => None end.

Lemma elem_of_columns_of l c : c ∈ columns_of l → datatype_of c ∈ l.
Proof.
  unfold columns_of. intros (i & d & -> & Hd)%elem_of_lookup_imap.
  by apply list_elem_of_lookup_2 in Hd.
Qed.

(** Is every value of the type within the range of the text? *)
Definition within (t : string) (d : datatype) : bool :=
  match integer_range d, dget t integer_types with
  | Some (lo, hi), Some (lo', hi') => (lo' <=? lo) && (hi <=? hi')
  | Some _, None => false
  | None, _ => true
  end.

Section databases.
(** [holds t n]: a column of type [t] of the database holds the integer [n]. *)
Variable holds : string → Z → Prop.
Hypothesis documented :
  Forall (λ r, ∀ n, holds r.1 n ↔ r.2.1 <= n <= r.2.2) integer_types.

Definition holds_all (t : string) (d : datatype) : Prop :=
  ∀ lo hi n, integer_range d = Some (lo, hi) → lo <= n <= hi → holds t n.
Lemma documented_range t lo hi n : dget t integer_types = Some (lo, hi) → (holds t n ↔ lo <= n <= hi).
Proof.
  intros H%dget_Some. rewrite Forall_forall in documented. exact (documented _ H n).
Qed.
Lemma holds_within t d : within t d = true → holds_all t d.
Proof.
  unfold within, holds_all. intros Hw lo hi n Hr Hn. rewrite Hr in Hw.
  destruct (dget t integer_types) as [[lo' hi']|] eqn:E; [|done].
  apply andb_true_iff in Hw as [?%Z.leb_le ?%Z.leb_le].
  apply (documented_range _ _ _ _ E). lia.
Qed.

(** The type without the array of a column *)
Definition element (d : datatype) : datatype := unwrap (match d with TArray d => d | d => d end).

Lemma mysql_types :
  Forall (λ d, ∃ t, mysql_type d = Some t ∧ mysql_type (TNullable d) = Some t ∧ unwrap d = d ∧
    is_nullable d = false ∧ (d ≠ TInt Int32 → within t d = true) ∧ (d = TInt Int32 → t = "INT UNSIGNED"))
    mysql_datatypes.
Proof. repeat constructor; eexists; split_and!; done. Qed.
Lemma postgresql_types :
  Forall (λ d, ∃ t, branch (λ C, isinstance C d) postgresql_branches = Some t ∧ unwrap d = d ∧
    is_nullable d = false ∧ (∀ d', d ≠ TArray d') ∧ within t d = true) postgresql_datatypes.
Proof. repeat constructor; eexists; split_and!; done. Qed.

Lemma int32_lost : ¬ holds_all "INT UNSIGNED" (TInt Int32).
Proof.
  intros H. specialize (H (-2147483648) 2147483647 (-1) eq_refl).
  apply (documented_range "INT UNSIGNED" 0 4294967295) in H; [lia|done|lia].
Qed.

Lemma mysql_column d :
  d ∈ mysql_datatypes ++ generate_nullable_datatypes mysql_datatypes →
  ∃ t, mysql_type d = Some t ∧ (holds_all t (unwrap d) ↔ unwrap d ≠ TInt Int32).
Proof.
  intros Hd. assert (∃ e, e ∈ mysql_datatypes ∧ unwrap d = unwrap e ∧ (d = e ∨ d = TNullable e))
    as (e & He & -> & Hde).
  { apply elem_of_app in Hd as [Hd|(e & -> & He)%list_elem_of_fmap]; eauto 6. }
  pose proof mysql_types as Ht. rewrite Forall_forall in Ht.
  destruct (Ht e He) as (t & H1 & H2 & -> & _ & Hw & H32). exists t.
  split; [destruct Hde as [-> | ->]; done|]. split.
  - intros Hall ->. rewrite (H32 eq_refl) in Hall. by apply int32_lost.
  - intros Hne. by apply holds_within, Hw.
Qed.

Definition postgresql_suffix (d : datatype) : string :=
  match d with
  | TArray _ => "[] NOT NULL"
  | d => if is_nullable d then EmptyString else " NOT NULL"
  end.
Lemma postgresql_column c :
  c ∈ postgresql_test_columns →
  ∃ t, postgresql_conversion c =
         Some (col_name c +:+ " " +:+ t +:+ postgresql_suffix (datatype_of c)) ∧
       holds_all t (element (datatype_of c)).
Proof.
  intros Hc%elem_of_columns_of. unfold postgresql_conversion. set (d := datatype_of c) in *. clearbody d.
  assert (∃ e, e ∈ postgresql_datatypes ∧
    (d = e ∨ d = TNullable e ∨ d = TArray e ∨ d = TArray (TNullable e))) as (e & He & Hde).
  { rewrite !elem_of_app in Hc. destruct Hc as [Hc|[(e & -> & He)%list_elem_of_fmap|
      (x & -> & [He|(e & -> & He)%list_elem_of_fmap]%elem_of_app)%list_elem_of_fmap]]; eauto 8. }
  pose proof postgresql_types as Ht. rewrite Forall_forall in Ht.
  destruct (Ht e He) as (t & H1 & Hu & Hn & Ha & Hw). exists t.
  destruct Hde as [-> |[-> |[-> | ->]]].
  - destruct e; unfold postgresql_suffix, element; rewrite ?Hu, ?Hn, ?H1; try done;
      solve [by destruct (Ha e)|split; [done|by apply holds_within]].
  - unfold element. cbv beta iota. change (unwrap (TNullable e)) with (unwrap e). rewrite Hu, H1.
    split; [done|]. by apply holds_within.
  - unfold element. rewrite Hu, H1. split; [done|]. by apply holds_within.
  - unfold element. change (unwrap (TNullable e)) with (unwrap e). rewrite Hu, H1.
    split; [done|]. by apply holds_within.
Qed.

(** C24: Every column of the MySQL and PostgreSQL tests is converted, and its
    type there holds every value of its integer type, except that an Int32
    becomes an unsigned MySQL integer, which does not hold it. *)
Theorem converted_columns_hold_values :
  (∀ c, c ∈ mysql_test_columns → ∃ t,
     mysql_conversion c = Ok ("`" +:+ col_name c +:+ "` " +:+ t +:+ " " +:+
       (if is_nullable (datatype_of c) then "NULL" else "NOT NULL")) ∧
     (holds_all t (unwrap (datatype_of c)) ↔ unwrap (datatype_of c) ≠ TInt Int32)) ∧
  (∀ c, c ∈ postgresql_test_columns → ∃ t,
     postgresql_conversion c =
       Some (col_name c +:+ " " +:+ t +:+ postgresql_suffix (datatype_of c)) ∧
     holds_all t (element (datatype_of c))).
Proof.
  split; [|exact postgresql_column]. intros c Hc.
  destruct (mysql_column (datatype_of c)) as (t & Ht & Hh); [by apply elem_of_columns_of|].
  exists t. split; [|done]. unfold mysql_conversion. by rewrite Ht.
Qed.
End databases.

(** A database that holds what its manual says *)
Definition manual_holds (t : string) (n : Z) : Prop :=
  match dget t integer_types with Some (lo, hi) => lo <= n <= hi | None => False end.
Example converted_columns_hold_values_witness :
  ∃ t, mysql_conversion (Column_init 0 (TNullable (TInt Int16)) None) =
         Ok ("`nullable_int16_` " +:+ t +:+ " NULL") ∧ manual_holds t (-5) ∧ t = "SMALLINT SIGNED".
Proof.
  assert (Hdoc : Forall (λ r, ∀ n, manual_holds r.1 n ↔ r.2.1 <= n <= r.2.2) integer_types).
  { repeat (apply Forall_cons_2; [intros n; reflexivity|]). by apply Forall_nil_2. }
  pose (c := Column_init 17 (TNullable (TInt Int16)) None).
  assert (Hc : c ∈ mysql_test_columns) by (apply (list_elem_of_lookup_2 _ 17); reflexivity).
  destruct (proj1 (converted_columns_hold_values manual_holds Hdoc) c Hc) as (t & Ht & Hh).
  exists t. split; [exact Ht|].
  assert (Ht' : t = "SMALLINT SIGNED").
  { injection Ht as Ht. symmetry. by apply (str_app_inv_r _ t " NULL"). }
  split; [|exact Ht']. by apply (proj2 Hh (ltac:(done)) (-32768) 32767).
Defined.

(** ** parquet/regression.py *)

(** What the entry module uses besides the operations of the other modules:
    the output of a command of a node, [context.parquet_table_columns], and
    [boto3.client("s3", ...)] as [context.s3_client] *)
Class ParquetApi (S : Type) := {
  pq_suite :: SuiteApi S;
  pq_output : string → string → M S string;
  pq_columns : list (string * datatype) → M S unit;
  pq_client : string → string → M S unit
}.
#[export] Hint Mode ParquetApi ! : typeclass_instances.

(** The classes that helpers/tables.py must provide *)
Definition needed_classes : list string :=
  ["UInt8"; "Int8"; "UInt16"; "UInt32"; "UInt64"; "Int16"; "Int32"; "Int64"; "Float32"; "Float64";
   "Date"; "DateTime"; "String"; "Decimal128"; "Array"; "Tuple"; "Map"; "Nullable";
   "LowCardinality"].
Definition parquet_features : list string :=
  ["file"; "query"; "int_list_multiple_chunks"; "url"; "mysql"; "postgresql"; "remote";
   "chunked_array"; "broken"; "encoding"; "compression"; "datatypes"; "complex_datatypes";
   "indexing"; "cache"; "glob"; "rowgroups"].

Section regression.
Context {S : Type} `{ParquetApi S}.
Variable py : process.
Abbreviation M := (M S).

(** [assert datatype in datatypes, fail(...)]: the message raises. *)
Definition check_types (provided : list datatype) : M unit :=
  for_ needed_classes (λ c,
    if existsb (λ d, String.eqb c (class_name d)) provided then mret tt
    else raise (Fail ("Common code did not provide <class 'helpers.datatypes." +:+ c +:+ "'>"))).

Definition aws_s3_storage (x : secrets) : M unit :=
  access_key ← need (aws_s3_access_key x) "AWS S3 access key";
  key_id ← need (aws_s3_key_id x) "AWS S3 key id";
  bucket ← need (aws_s3_bucket x) "AWS S3 bucket";
  region ← need (aws_s3_region x) "AWS S3 region";
  set_val "storage" (PStr "aws_s3");;
  set_val "aws_s3_bucket" (PStr bucket);;
  set_val "uri" (PStr ("https://s3." +:+ region +:+ ".amazonaws.com/" +:+ bucket +:+ "/data/parquet/"));;
  set_val "access_key_id" (PStr key_id);;
  set_val "secret_access_key" (PStr access_key);;
  pq_client key_id access_key;;
  su_step "Feature" [PStr "aws s3"];;
  su_test "parquet.tests.s3" "feature" [].
Definition minio_storage : M unit :=
  set_val "storage" (PStr "minio");;
  set_val "uri" (PStr "http://minio:9001/root/data/parquet/");;
  set_val "access_key_id" (PStr "minio");;
  set_val "secret_access_key" (PStr "minio123");;
  su_step "start_minio" [PStr "minio"; PStr "minio123"];;
  su_step "Feature" [PStr "minio"];;
  su_test "parquet.tests.s3" "feature" [].
Definition gcs_storage : M unit :=
  su_step "Feature" [PStr "gcs"];; raise (Fail "GCS not implemented").

(** [if storages is None: pass  else: ...] *)
Definition on_storages (storages : option (list string)) (x : secrets) : M unit :=
  match storages with
  | None => mret tt
  | Some storages =>
      when (bool_decide ("aws_s3" ∈ storages)) (aws_s3_storage x);;
      when (bool_decide ("minio" ∈ storages)) minio_storage;;
      when (bool_decide ("gcs" ∈ storages)) gcs_storage
  end.

Definition parquet_regression (a : suite_args) (storages : option (list string)) (x : secrets)
    : M unit :=
  begin_suite a;;
  with_cluster (suite_cluster a clickhouse_3 (folder_env py))
    (output ← pq_output "clickhouse1" "cat /var/lib/test_files/clickhouse_table_def.txt";
     columns ← lift (read_columns output);
     pq_columns columns;;
     v ← su_version;
     provided ← lift (generate_all_datatypes v parquet_test_columns);
     check_types provided;;
     in_pool "parquet.tests." ((λ m, (m, "feature")) <$> parquet_features);;
     on_storages storages x).
End regression.

(** *** The types are provided *)

(** Whatever the version of the server, all classes are among the types. *)
Lemma provided_classes version old :
  check_clickhouse_version "<22.4" version = Ok old →
  ∃ l, generate_all_datatypes version parquet_test_columns = Ok l ∧
    forallb (λ c, existsb (λ d, String.eqb c (class_name d)) l) needed_classes = true.
Proof.
  intros Hold. unfold generate_all_datatypes, member_datatypes. cbv zeta.
  set (basic := parquet_test_columns). change (match basic with [] => _ | _ => Ok basic end) with (Ok basic).
  cbn [mbind res_bind]. rewrite !(generate_low_card_filter _ _ Hold). cbn [mbind res_bind].
  set (null := generate_nullable_datatypes basic). set (low := TLowCardinality <$> _).
  set (members := basic ++ null ++ low ++ common_complex_datatypes). eexists. split; [reflexivity|]. apply forallb_forall.
  assert (Hb : TUInt UInt8 ∈ basic) by (right; left).
  assert (Hm : TUInt UInt8 ∈ members) by by apply elem_of_app; left.
  intros c Hc. apply existsb_exists.
  cut (∃ d, class_name d = c ∧ d ∈ basic ++ generate_map_datatypes members ++ null ++
         generate_array_datatypes members ++ low ++ [generate_tuple_datatype members]).
  { intros (d & <- & Hd). exists d. split; [exact (proj1 (list_elem_of_In _ _) Hd)|apply String.eqb_refl]. }
  assert (Hbasic : Forall (λ c, existsb (λ d, String.eqb c (class_name d)) basic = true)
    (take 14 needed_classes)).
  { repeat (apply Forall_cons_2; [reflexivity|]). by apply Forall_nil_2. }
  rewrite <-(take_drop 14 needed_classes) in Hc. apply list_elem_of_In, elem_of_app in Hc as [Hc|Hc].
  - rewrite Forall_forall in Hbasic. specialize (Hbasic c Hc).
    apply existsb_exists in Hbasic as (d & Hin%list_elem_of_In & Hd%String.eqb_eq). exists d.
    split; [done|]. by apply elem_of_app; left.
  - change (drop 14 needed_classes) with ["Array"; "Tuple"; "Map"; "Nullable"; "LowCardinality"] in Hc.
    rewrite !elem_of_cons, elem_of_nil in Hc.
    destruct Hc as [-> |[-> |[-> |[-> |[-> |[]]]]]].
    + exists (TArray (TUInt UInt8)). split; [done|]. rewrite !elem_of_app. right; right; right; left.
      by apply list_elem_of_fmap_2.
    + exists (TTuple members). split; [done|]. rewrite !elem_of_app. do 5 right. by left.
    + exists (TMap (TUInt UInt8) (TUInt UInt8)). split; [done|]. rewrite !elem_of_app. right; left.
      apply list_elem_of_bind. exists (TUInt UInt8). split; [|done]. by apply list_elem_of_fmap_2.
    + exists (TNullable (TUInt UInt8)). split; [done|]. rewrite !elem_of_app. right; right; left.
      by apply list_elem_of_fmap_2.
    + exists (TLowCardinality (TUInt UInt8)). split; [done|]. rewrite !elem_of_app.
      right; right; right; right; left. apply list_elem_of_fmap_2.
      apply list_elem_of_In, filter_In. split; [apply list_elem_of_In, elem_of_app; by left|].
      by destruct old.
Qed.

(** *** What the entry module does, in order *)

Inductive pq_event :=
  | QOpen (c : cluster_args) | QClose
  | QOutput (text : option string)
  | QColumns (columns : list (string * datatype))
  | QSet (name : string) (v : context_value)
  | QStart (module name : string) | QJoin
  | QTest (module name : string)
  | QOther.

#[export] Instance pq_log {S} (P : ParquetApi S) : ParquetApi (logged pq_event S) := {|
  pq_suite := {|
    su_set n v := logs (λ _, QSet n v) (su_set n v);
    su_version := logs (λ _, QOther) su_version;
    su_open c := logs (λ _, QOpen c) (su_open c);
    su_close := logs (λ _, QClose) su_close;
    su_test m n args := logs (λ _, QTest m n) (su_test m n args);
    su_start m n := logs (λ _, QStart m n) (su_start m n);
    su_join := logs (λ _, QJoin) su_join;
    su_step n args := logs (λ _, QOther) (su_step n args);
    su_install e := logs (λ _, QOther) (su_install e);
    su_remove := logs (λ _, QOther) su_remove;
    su_exists m := logs (λ _, QOther) (su_exists m)
  |};
  pq_output node cmd := logs QOutput (pq_output node cmd);
  pq_columns l := logs (λ _, QColumns l) (pq_columns l);
  pq_client k s := logs (λ _, QOther) (pq_client k s)
|}.

(** The tests on a storage, each with the storage in the context *)
Definition storage_tests (storages : option (list string)) : list (pq_event → Prop) :=
  let on (name : string) := [eq (QSet "storage" (Val (PStr name))); eq (QTest "parquet.tests.s3" "feature")] in
  match storages with
  | None => []
  | Some l => (if bool_decide ("aws_s3" ∈ l) then on "aws_s3" else []) ++
              (if bool_decide ("minio" ∈ l) then on "minio" else [])
  end.

Section in_order.
Context {S : Type} {P : ParquetApi S} (py : process).
Abbreviation LS := (logged pq_event S).

(** A computation whose log does not matter *)
Definition any {A} (m : M LS A) : Prop := leaves m (λ _ l, in_order [] l).
Lemma any_seq {A B} (m : M LS A) (f : A → M LS B) ps :
  any m → (∀ a, leaves (f a) (λ _ l, in_order ps l)) → leaves (m ≫= f) (λ _ l, in_order ps l).
Proof. intros Hm Hf. exact (leaves_seq m f [] ps Hm Hf). Qed.
Lemma any_lift {A} (r : res A) : any (lift r).
Proof. intros s a s' E. exists []. unfold lift in E. simplify_eq. rewrite app_nil_r. split; [done|apply in_order_nil]. Qed.
Lemma any_need x what : any (need (S:=LS) x what).
Proof. apply any_lift. Qed.
Lemma any_set n v : any (set_val (S:=LS) n v).
Proof. apply logs_any. Qed.
Lemma any_begin a : any (begin_suite (S:=LS) a).
Proof.
  unfold begin_suite. apply any_seq; [apply any_set|]. intros _. unfold set_stress, any.
  pose proof (leaves_when (negb (bool_decide (r_stress a = PNone))) (set_val (S:=LS) "stress" (r_stress a)) [] (any_set _ _)) as Hw.
  by destruct (negb _).
Qed.

Lemma aws_s3_in_order x :
  leaves (aws_s3_storage (S:=LS) x)
    (λ _ l, in_order [eq (QSet "storage" (Val (PStr "aws_s3"))); eq (QTest "parquet.tests.s3" "feature")] l).
Proof.
  unfold aws_s3_storage. do 4 (apply any_seq; [apply any_need|intros ?]).
  apply (leaves_seq _ _ [_]); [by apply logs_item|intros _].
  do 4 (apply any_seq; [apply any_set|intros _]). do 2 (apply any_seq; [apply logs_any|intros _]).
  by apply logs_item.
Qed.
Lemma minio_in_order :
  leaves (minio_storage (S:=LS))
    (λ _ l, in_order [eq (QSet "storage" (Val (PStr "minio"))); eq (QTest "parquet.tests.s3" "feature")] l).
Proof.
  unfold minio_storage. apply (leaves_seq _ _ [_]); [by apply logs_item|intros _].
  do 3 (apply any_seq; [apply any_set|intros _]). do 2 (apply any_seq; [apply logs_any|intros _]).
  by apply logs_item.
Qed.

(** With Google's storage the module never returns. *)
Lemma storages_in_order storages x :
  leaves (on_storages (S:=LS) storages x) (λ _ l, in_order (storage_tests storages) l ∧
    ∀ st, storages = Some st → "gcs" ∉ st).
Proof.
  destruct storages as [st|]; [|apply leaves_ret; by split; [apply in_order_nil|]].
  unfold on_storages, storage_tests.
  eapply leaves_bind; [apply leaves_when, aws_s3_in_order|intros u].
  eapply leaves_bind; [apply leaves_when, minio_in_order|intros u'].
  case_bool_decide as Hg.
  - cbn [when]. unfold gcs_storage. eapply leaves_bind; [apply logs_any|intros v]. apply leaves_raise.
  - cbn [when]. apply leaves_ret. intros l1 H1 l2 H2. rewrite app_nil_r.
    split; [by apply in_order_app|]. by intros ? [= <-].
Qed.

Lemma features_in_order l :
  leaves (in_pool (S:=LS) "parquet.tests." ((λ m, (m, "feature")) <$> l))
    (λ _ k, in_order (((λ m, eq (QStart ("parquet.tests." +:+ m) "feature")) <$> l) ++ [eq QJoin]) k).
Proof.
  apply leaves_try_finally; [|by apply logs_item].
  induction l as [|m l IH]; [apply leaves_ret, in_order_nil|]. cbn [for_ fmap list_fmap].
  apply (leaves_seq _ _ [_]); [by apply logs_item|intros _]. exact IH.
Qed.

(** The checks of the types do not stop the module. *)
Lemma any_check provided : any (check_types (S:=LS) provided).
Proof.
  unfold check_types, any. induction needed_classes as [|c l IH]; [apply leaves_ret, in_order_nil|].
  cbn [for_]. destruct (existsb _ provided).
  - apply any_seq; [apply leaves_ret, in_order_nil|intros _; exact IH].
  - intros s a s' E. done.
Qed.

(** The tests of the module, after the columns are set *)
Definition suite_tests (storages : option (list string)) : list (pq_event → Prop) :=
  ((λ m, eq (QStart ("parquet.tests." +:+ m) "feature")) <$> parquet_features) ++ [eq QJoin] ++
  storage_tests storages.

Definition read_and_test (storages : option (list string)) (x : secrets) : M LS unit :=
  output ← pq_output "clickhouse1" "cat /var/lib/test_files/clickhouse_table_def.txt";
  columns ← lift (read_columns output);
  pq_columns columns;;
  v ← su_version;
  provided ← lift (generate_all_datatypes v parquet_test_columns);
  check_types provided;;
  in_pool "parquet.tests." ((λ m, (m, "feature")) <$> parquet_features);;
  on_storages storages x.

Lemma tests_in_order storages x :
  leaves (read_and_test storages x) (λ _ l,
    (∃ output columns, read_columns output = Ok columns ∧
       in_order ([eq (QOutput (Some output)); eq (QColumns columns)] ++ suite_tests storages) l) ∧
    (∀ st, storages = Some st → "gcs" ∉ st)).
Proof.
  unfold read_and_test. eapply leaves_bind; [apply leaves_logs|intros output].
  destruct (read_columns output) as [columns|e|w] eqn:Ec; [|by intros s a s'..].
  eapply leaves_mono with (Φ := λ _ l, in_order ([eq (QColumns columns)] ++ suite_tests storages) l ∧
    ∀ st, storages = Some st → "gcs" ∉ st).
  { change (leaves (pq_columns columns;; v ← su_version;
      provided ← lift (generate_all_datatypes v parquet_test_columns); check_types provided;;
      in_pool "parquet.tests." ((λ m, (m, "feature")) <$> parquet_features);; on_storages (S:=LS) storages x)
      (λ _ l, in_order ([eq (QColumns columns)] ++ suite_tests storages) l ∧
        ∀ st, storages = Some st → "gcs" ∉ st)).
    eapply (leaves_bind _ _ (λ _ l, in_order [eq (QColumns columns)] l)); [by apply logs_item|intros u].
    eapply (leaves_bind _ _ (λ _ l, in_order [] l)); [apply logs_any|intros v].
    eapply (leaves_bind _ _ (λ _ l, in_order [] l)); [apply any_lift|intros provided].
    eapply (leaves_bind _ _ (λ _ l, in_order [] l)); [apply any_check|intros u1].
    eapply leaves_bind; [apply features_in_order|intros u2].
    eapply leaves_mono; [apply storages_in_order|]. intros _ l [Hl Hg] l1 H1 l2 H2 l3 H3 l4 H4 l5 H5.
    split; [|exact Hg]. apply in_order_app; [done|]. unfold suite_tests. rewrite (app_assoc _ [eq QJoin]).
    apply in_order_skip_l, in_order_skip_l, in_order_skip_l. by apply in_order_app. }
  intros _ l [Hl Hg] l1 ->. split; [|exact Hg]. exists output, columns. split; [done|].
  apply (in_order_app [_] _ [_]); [by apply (in_order_last _ [])|exact Hl].
Qed.

(** When parquet/regression.py returns, it opened its cluster, read the
    columns of the test files there and put them into the context, started all
    features and waited for them, tested each chosen storage with that storage
    in the context, and closed the cluster, in this order; and Google's
    storage was not chosen. *)
Lemma parquet_suite_in_order (a : suite_args) storages x :
  leaves (parquet_regression (S:=LS) py a storages x) (λ _ l,
    (∃ output columns, read_columns output = Ok columns ∧
       in_order ([eq (QOpen (suite_cluster a clickhouse_3 (folder_env py)));
                  eq (QOutput (Some output)); eq (QColumns columns)] ++
                 suite_tests storages ++ [eq QClose]) l) ∧
    (∀ st, storages = Some st → "gcs" ∉ st)).
Proof.
  unfold parquet_regression, with_cluster, inside_cluster.
  eapply (leaves_bind _ _ (λ _ l, in_order [] l)); [apply any_begin|intros u].
  eapply (leaves_bind _ _ (λ _ l,
    in_order [eq (QOpen (suite_cluster a clickhouse_3 (folder_env py)))] l)); [by apply logs_item|intros u1].
  intros s b s' E.
  change (try_finally (su_set "cluster" TheCluster;; read_and_test storages x) su_close s = (Ok b, s')) in E.
  unfold try_finally in E.
  destruct ((su_set "cluster" TheCluster;; read_and_test storages x) s) as [[[]|e|w] s1] eqn:E1;
    [|by destruct (su_close s1) as [[[]|e'|w'] s2]|done].
  destruct (su_close s1) as [[[]|e|w] s2] eqn:E2; simplify_eq.
  assert (Hc : leaves (su_close (S:=LS)) (λ _ l, in_order [eq QClose] l)) by by apply logs_item.
  destruct (Hc _ _ _ E2) as (l2 & Hl2 & H2).
  assert (Hb : leaves (su_set "cluster" TheCluster;; read_and_test storages x) (λ _ l,
    (∃ output columns, read_columns output = Ok columns ∧
       in_order ([eq (QOutput (Some output)); eq (QColumns columns)] ++ suite_tests storages) l) ∧
    (∀ st, storages = Some st → "gcs" ∉ st))).
  { eapply (leaves_bind _ _ (λ _ _, True)); [eapply leaves_mono; [apply logs_any|done]|intros u2].
    eapply leaves_mono; [apply tests_in_order|]. intros _ l [(o & cs & Ho & Hl) Hg] l1 _.
    split; [|exact Hg]. exists o, cs. split; [done|by apply in_order_skip_l]. }
  destruct (Hb _ _ _ E1) as (l1 & Hl1 & (o & cs & Ho & H1) & Hg). exists (l1 ++ l2).
  split; [by rewrite Hl2, Hl1, app_assoc|]. intros k Hk j _. split; [|exact Hg].
  exists o, cs. split; [done|]. apply in_order_skip_l.
  exact (in_order_app [_] _ k (l1 ++ l2) Hk (in_order_app (_ :: _ :: suite_tests storages) [_] l1 l2 H1 H2)).
Qed.
End in_order.

(** ** Concrete runs *)

(** A framework in which nothing fails *)
Definition demo_suite (version : string) : SuiteApi unit := {|
  su_set _ _ := mret tt;
  su_version := mret (Some version);
  su_open _ := mret tt;
  su_close := mret tt;
  su_test _ _ _ := mret tt;
  su_start _ _ := mret tt;
  su_join := mret tt;
  su_step _ _ := mret tt;
  su_install _ := mret tt;
  su_remove := mret tt;
  su_exists _ := mret true
|}.
Definition demo_parquet (text version : string) : ParquetApi unit := {|
  pq_suite := demo_suite version;
  pq_output _ _ := mret text;
  pq_columns _ := mret tt;
  pq_client _ _ := mret tt
|}.
Definition no_secrets : secrets := mkSecrets None None None None None None None None.

(** The module returns on MinIO, and fails on Google's storage. *)
Definition demo_run (storages : list string) : res unit :=
  (@parquet_regression unit (demo_parquet "bool UInt8().date32 Date()" "23.3.1.1") demo_process
     (mkSuiteArgs true "/bin/clickhouse" (Some "23.3.1.1") false PNone) (Some storages) no_secrets tt).1.
Example parquet_suite_runs :
  demo_run ["minio"] = Ok tt ∧ demo_run ["gcs"] = Exc (Fail "GCS not implemented") ∧
  demo_run ["aws_s3"] = Exc (Fail "AWS S3 access key needs to be set").
Proof. split_and!; by_compute. Qed.
