(* ===== verification/LightweightDelete.v ===== *)
(** * The steps of the lightweight delete suite

    lightweight_delete/tests/steps.py: the tables of the suite and the rows
    that [insert] puts into them, [delete] in its two forms, the [ALTER]
    statements, and the steps that delete, alter and compare the number of rows
    on the nodes; with the scenarios that alter_after_delete.py and
    basic_checks.py build from them.  What the steps need of the nodes, of the
    context and of the test framework is the interface [LwdApi].  That the
    checks decide whether the server deletes is shown in LwdChecks. *)
From stdpp Require Import gmap.
From S2P Require Import Prelude PyStr PyDict PyMonad World Cluster Query NodeLog XmlConfig StorageConfig.
Local Open Scope Z_scope.

(** [self.context.node] by its name, which steps read and assign; the nodes of
    the group clickhouse; queries, commands and the restart of a node;
    [self.context.use_alter_delete] and [table_engine]; [random.random() / 10]
    as a time; [retries(delay, timeout)] around an attempt; steps that run in
    parallel and are joined; [add_config(config, restart, modify, user)]. *)
Class LwdApi (S : Type) := {
  lw_node : M S string;
  lw_set_node : string → M S unit;
  lw_nodes : M S (list string);
  lw_query : string → string → query_args → M S shell_result;
  lw_command : string → string → option Z → M S unit;
  lw_restart_clickhouse : string → M S unit;
  lw_use_alter_delete : M S bool;
  lw_table_engine : M S string;
  lw_random_delay : M S Z;
  lw_sleep : Z → M S unit;
  lw_retries : Z → Z → M S unit → M S unit;
  lw_parallel : list (M S unit) → M S unit;
  lw_add_config : Config → bool → bool → option string → M S unit;
  lw_absorbs : exn → bool
}.
#[export] Hint Mode LwdApi ! : typeclass_instances.

(** [node.query(sql, settings=settings, no_checks=no_checks)] *)
Definition query_with (settings : list (string * string)) (no_checks : bool) : query_args :=
  mkQuery None None no_checks false false settings 5 None (sec 5) false "-0" None false false None
    "echo -e" None.

Definition mutations_sync : list (string * string) := [("mutations_sync", "2")].
(** [f"'{partition_expr}'"] or [f"{partition_expr}"] *)
Definition quoted (quote : bool) (s : string) : string := if quote then "'" +:+ s +:+ "'" else s.
Definition range (n : Z) : list Z := seqZ 0 n.

(** ** Texts *)

Definition acceptance_columns (after_b : string) : string :=
"              Date DateTime,
              timestamp UInt32,
              version LowCardinality(String),
              remoteIP String,
              clientIP String,
              Id UInt64 DEFAULT CAST(0, 'UInt64'),
              originIds Array(UInt64),
              Ids Array(UInt64),
              str String,
              str_arr Array(String),
              a UInt8,
              b UInt16" +:+ after_b +:+ ",
              c UInt16,
              int_arr Array(UInt32),
            )".
Definition acceptance_order : string := "
            ENGINE = MergeTree()
            PARTITION BY (Date, timestamp)
            ORDER BY (Id, Ids[1], originIds[1], timestamp)".
Definition acceptance_create (table_name after_b : string) : string :=
  "CREATE TABLE " +:+ table_name +:+ " (" +:+ nl +:+ acceptance_columns after_b +:+ acceptance_order.
Definition acceptance_ttl (storage_policy : string) (ttl_delete : bool) : string := "
            TTL Date TO VOLUME 'volume0',
            Date + INTERVAL 1 HOUR TO VOLUME 'volume1'" +:+ (if ttl_delete then "
            Date + INTERVAL 4 HOUR DELETE" else EmptyString) +:+ "
            SETTINGS storage_policy = '" +:+ storage_policy +:+ "'
            ,merge_with_ttl_timeout = 1".
Definition ontime_create : string := "CREATE TABLE `ontime`
(
    `Year`                            UInt16,
    `Quarter`                         UInt8,
    `Month`                           UInt8,
    `DayofMonth`                      UInt8,
    `DayOfWeek`                       UInt8,
    `FlightDate`                      Date,
    `Reporting_Airline`               LowCardinality(String),
    `DOT_ID_Reporting_Airline`        Int32,
    `IATA_CODE_Reporting_Airline`     LowCardinality(String),
    `Tail_Number`                     LowCardinality(String),
    `Flight_Number_Reporting_Airline` LowCardinality(String),
    `OriginAirportID`                 Int32,
    `OriginAirportSeqID`              Int32,
    `OriginCityMarketID`              Int32,
    `Origin`                          FixedString(5),
    `OriginCityName`                  LowCardinality(String),
    `OriginState`                     FixedString(2),
    `OriginStateFips`                 FixedString(2),
    `OriginStateName`                 LowCardinality(String),
    `OriginWac`                       Int32,
    `DestAirportID`                   Int32,
    `DestAirportSeqID`                Int32,
    `DestCityMarketID`                Int32,
    `Dest`                            FixedString(5),
    `DestCityName`                    LowCardinality(String),
    `DestState`                       FixedString(2),
    `DestStateFips`                   FixedString(2),
    `DestStateName`                   LowCardinality(String),
    `DestWac`                         Int32,
    `CRSDepTime`                      Int32,
    `DepTime`                         Int32,
    `DepDelay`                        Int32,
    `DepDelayMinutes`                 Int32,
    `DepDel15`                        Int32,
    `DepartureDelayGroups`            LowCardinality(String),
    `DepTimeBlk`                      LowCardinality(String),
    `TaxiOut`                         Int32,
    `WheelsOff`                       LowCardinality(String),
    `WheelsOn`                        LowCardinality(String),
    `TaxiIn`                          Int32,
    `CRSArrTime`                      Int32,
    `ArrTime`                         Int32,
    `ArrDelay`                        Int32,
    `ArrDelayMinutes`                 Int32,
    `ArrDel15`                        Int32,
    `ArrivalDelayGroups`              LowCardinality(String),
    `ArrTimeBlk`                      LowCardinality(String),
    `Cancelled`                       Int8,
    `CancellationCode`                FixedString(1),
    `Diverted`                        Int8,
    `CRSElapsedTime`                  Int32,
    `ActualElapsedTime`               Int32,
    `AirTime`                         Int32,
    `Flights`                         Int32,
    `Distance`                        Int32,
    `DistanceGroup`                   Int8,
    `CarrierDelay`                    Int32,
    `WeatherDelay`                    Int32,
    `NASDelay`                        Int32,
    `SecurityDelay`                   Int32,
    `LateAircraftDelay`               Int32,
    `FirstDepTime`                    Int16,
    `TotalAddGTime`                   Int16,
    `LongestAddGTime`                 Int16,
    `DivAirportLandings`              Int8,
    `DivReachedDest`                  Int8,
    `DivActualElapsedTime`            Int16,
    `DivArrDelay`                     Int16,
    `DivDistance`                     Int16,
    `Div1Airport`                     LowCardinality(String),
    `Div1AirportID`                   Int32,
    `Div1AirportSeqID`                Int32,
    `Div1WheelsOn`                    Int16,
    `Div1TotalGTime`                  Int16,
    `Div1LongestGTime`                Int16,
    `Div1WheelsOff`                   Int16,
    `Div1TailNum`                     LowCardinality(String),
    `Div2Airport`                     LowCardinality(String),
    `Div2AirportID`                   Int32,
    `Div2AirportSeqID`                Int32,
    `Div2WheelsOn`                    Int16,
    `Div2TotalGTime`                  Int16,
    `Div2LongestGTime`                Int16,
    `Div2WheelsOff`                   Int16,
    `Div2TailNum`                     LowCardinality(String),
    `Div3Airport`                     LowCardinality(String),
    `Div3AirportID`                   Int32,
    `Div3AirportSeqID`                Int32,
    `Div3WheelsOn`                    Int16,
    `Div3TotalGTime`                  Int16,
    `Div3LongestGTime`                Int16,
    `Div3WheelsOff`                   Int16,
    `Div3TailNum`                     LowCardinality(String),
    `Div4Airport`                     LowCardinality(String),
    `Div4AirportID`                   Int32,
    `Div4AirportSeqID`                Int32,
    `Div4WheelsOn`                    Int16,
    `Div4TotalGTime`                  Int16,
    `Div4LongestGTime`                Int16,
    `Div4WheelsOff`                   Int16,
    `Div4TailNum`                     LowCardinality(String),
    `Div5Airport`                     LowCardinality(String),
    `Div5AirportID`                   Int32,
    `Div5AirportSeqID`                Int32,
    `Div5WheelsOn`                    Int16,
    `Div5TotalGTime`                  Int16,
    `Div5LongestGTime`                Int16,
    `Div5WheelsOff`                   Int16,
    `Div5TailNum`                     LowCardinality(String)
) ENGINE = MergeTree
  ORDER BY (Year, Quarter, Month, DayofMonth, FlightDate, IATA_CODE_Reporting_Airline);".

(** The values that [insert] makes: for every [x] of [range(partitions)] and
    [y] of [range(block_size * parts_per_partition)], in the shape of the
    engine's table *)
Inductive row_shape := Plain | Signed | Graphite.
Definition shape_of (table_engine : string) : row_shape :=
  if bool_decide (table_engine ∈ ["CollapsingMergeTree"; "VersionedCollapsingMergeTree"]) then Signed
  else if String.eqb table_engine "GraphiteMergeTree" then Graphite else Plain.
Definition values_row (shape : row_shape) (row : Z * Z) : string :=
  match shape with
  | Signed => "(" +:+ str_Z row.1 +:+ "," +:+ str_Z row.2 +:+ ",1)"
  | Graphite => "(" +:+ str_Z row.1 +:+ ", " +:+ str_Z row.2 +:+ ", '1', toDateTime(10), 10.0, 10)"
  | Plain => "(" +:+ str_Z row.1 +:+ "," +:+ str_Z row.2 +:+ ")"
  end.
Definition grid (partitions n : Z) : list (Z * Z) :=
  x ← range partitions; y ← range n; [(x, y)].
Definition values_text (table_engine : string) (rows : list (Z * Z)) : string :=
  join "," (values_row (shape_of table_engine) <$> rows).

Section steps.
Context {S : Type} `{LwdApi S}.
Abbreviation M := (M S).

(** [if node is None: node = self.context.node] *)
Definition at_node {A} (node : option string) (f : string → M A) : M A :=
  match node with Some n => f n | None => n ← lw_node; f n end.
Definition do_query (n sql : string) (a : query_args) : M unit := lw_query n sql a;; mret tt.

(** ** Tables *)

(** [with Finally(.., flags=TE): m]: the test goes on when [m] fails *)
Definition finally_te (m : M unit) : M unit :=
  try_except m (λ e, if lw_absorbs (S:=S) e then mret tt else raise e).

(** A table for the rest of the test [body] *)
Definition with_table {A} (node : option string) (create table_name : string) (body : M A) : M A :=
  at_node node (λ n, bracket (do_query n create query0) (λ _, body)
    (finally_te (do_query n ("DROP TABLE IF EXISTS " +:+ table_name +:+ " SYNC") query0))).

Definition create_acceptance_table_with_tiered_storage_ttl {A} (storage_policy table_name : string)
    (node : option string) (ttl_delete : bool) (body : M A) : M A :=
  with_table node (acceptance_create table_name EmptyString +:+
                   acceptance_ttl storage_policy ttl_delete) table_name body.
Definition create_acceptance_table_with_column_ttl {A} (table_name : string) (node : option string)
    (body : M A) : M A :=
  with_table node (acceptance_create table_name " DEFAULT 777 TTL Date + INTERVAL 1 HOUR")
    table_name body.
Definition create_acceptance_table {A} (storage_policy : option string) (table_name : string)
    (node : option string) (body : M A) : M A :=
  with_table node (acceptance_create table_name EmptyString +:+
      match storage_policy with
      | None => EmptyString
      | Some p => "
            SETTINGS storage_policy = '" +:+ p +:+ "'"
      end) table_name body.

Definition insert_into_acceptance_table (table_name : string) (rows_number : Z)
    (node : option string) : M unit :=
  at_node node (λ n, do_query n ("insert into " +:+ table_name +:+ " select (now() - 30*60*(Date%10)), 1,
              version,remoteIP,clientIP,
              (Id % 10), [(originIds[1] % 10)],[(Ids[1] % 10)],
              str, str_arr,
              a, b,
              c,[(int_arr[1] % 10)]
              from generateRandom('Date UInt16,
              timestamp UInt32,
              version String,
              remoteIP String,
              clientIP String,
              serverIP String,
              Id UInt64,
              originIds Array(UInt64),
              Ids Array(UInt64),
              str String,
              str_arr Array(String),
              a UInt8,
              b UInt16,
              c UInt16,
              int_arr Array(UInt32)', 1, 1, 1) limit " +:+ str_Z rows_number)
    query0).

Definition insert_ontime_data (year : Z) (node : option string) : M unit :=
  at_node node (λ n, do_query n ("INSERT INTO ontime SELECT * FROM s3('https://clickhouse-public-datasets.s3.amazonaws.com/ontime/csv_by_year/" +:+ str_Z year +:+ ".csv.gz', CSVWithNames) SETTINGS max_insert_threads = 40;") query0).
Definition add_ontime_table {A} (from_year to_year : Z) (node : option string) (body : M A) : M A :=
  at_node node (λ n, bracket
    (do_query n ontime_create query0;;
     lw_parallel ((λ year, insert_ontime_data year None) <$> seqZ from_year (to_year - from_year)))
    (λ _, body)
    (finally_te (do_query n "DROP TABLE IF EXISTS ontime SYNC" query0))).

Record table_args := mkTableArgs {
  t_extra_table_col : string; t_cluster : string; t_engine : string; t_partition : string;
  t_order : string; t_settings : string; t_options : string
}.
(** The defaults with another engine, more columns, settings and options *)
Definition table_with (engine extra_table_col settings options : string) : table_args :=
  mkTableArgs extra_table_col EmptyString engine "PARTITION BY id" "ORDER BY id" settings options.
Definition create_text (table_name : string) (a : table_args) : string :=
  "CREATE TABLE " +:+ table_name +:+ " " +:+ t_cluster a +:+ " (id Int64, x Int64" +:+
  t_extra_table_col a +:+ ")" +:+ " Engine = " +:+ t_engine a +:+ " " +:+ t_partition a +:+ " " +:+
  t_order a +:+ " " +:+ t_options a +:+ " " +:+ t_settings a.
Definition create_partitioned_table {A} (table_name : string) (a : table_args)
    (node : option string) (body : M A) : M A :=
  with_table node (create_text table_name a) table_name body.

Section engines.
Context {A : Type}.
Implicit Types (table_name settings options : string) (node : option string) (body : M A).

Definition create_replacing_merge_tree_table table_name node settings options body : M A :=
  create_partitioned_table table_name
    (table_with "ReplacingMergeTree()" EmptyString settings options) node body.
Definition create_summing_merge_tree_table table_name node settings options body : M A :=
  create_partitioned_table table_name
    (table_with "SummingMergeTree(x)" EmptyString settings options) node body.
Definition create_aggregating_merge_tree_table table_name node settings options body : M A :=
  create_partitioned_table table_name
    (table_with "AggregatingMergeTree()" EmptyString settings options) node body.
Definition create_collapsing_merge_tree_table table_name node settings options body : M A :=
  create_partitioned_table table_name
    (table_with "CollapsingMergeTree(Sign)" " ,Sign Int8" settings options) node body.
Definition create_versioned_collapsing_merge_tree_table table_name node settings options body : M A :=
  create_partitioned_table table_name
    (table_with "VersionedCollapsingMergeTree(Sign, id)" " ,Sign Int8" settings options) node body.
Definition create_graphite_merge_tree_table table_name node settings options body : M A :=
  create_partitioned_table table_name
    (table_with "GraphiteMergeTree('graphite_rollup_example')"
       " ,Path String, Time DateTime, Value Float64, Timestamp Int64" settings options) node body.

(** A replica on every node of the cluster; the context keeps the last node. *)
Fixpoint on_replicas (i : Z) (names : list string) table_name (engine : Z → string)
    (extra_table_col : string) body : M A :=
  match names with
  | [] => body
  | name :: names =>
      lw_set_node name;;
      create_partitioned_table table_name
        (table_with (engine i) extra_table_col EmptyString EmptyString) (Some name)
        (on_replicas (i + 1) names table_name engine extra_table_col body)
  end.
Definition replicated table_name (engine extra_args extra_table_col : string) body : M A :=
  names ← lw_nodes;
  on_replicas 0 names table_name (λ i, engine +:+ "('/clickhouse/tables/shard0/" +:+ table_name +:+
    "', 'replica" +:+ str_Z i +:+ "'" +:+ extra_args +:+ ")") extra_table_col body.

Definition create_replicated_table table_name body : M A :=
  replicated table_name "ReplicatedMergeTree" EmptyString EmptyString body.
Definition create_replicated_replacing_merge_tree_table table_name body : M A :=
  replicated table_name "ReplicatedReplacingMergeTree" EmptyString EmptyString body.
Definition create_replicated_summing_merge_tree_table table_name body : M A :=
  replicated table_name "ReplicatedSummingMergeTree" ", x" EmptyString body.
Definition create_replicated_aggregating_merge_tree_table table_name body : M A :=
  replicated table_name "ReplicatedAggregatingMergeTree" EmptyString EmptyString body.
Definition create_replicated_collapsing_merge_tree_table table_name body : M A :=
  replicated table_name "ReplicatedCollapsingMergeTree" ", Sign" " ,Sign Int8" body.
Definition create_replicated_versioned_collapsing_merge_tree_table table_name body : M A :=
  replicated table_name "ReplicatedVersionedCollapsingMergeTree" ", Sign, id" " ,Sign Int8" body.
Definition create_replicated_graphite_merge_tree_table table_name body : M A :=
  replicated table_name "ReplicatedGraphiteMergeTree" ", 'graphite_rollup_example'"
    " ,Path String, Time DateTime, Value Int64, Timestamp Int64" body.

(** The chain of [if table_engine == ...]; no table for another engine *)
Definition table_for (engine table_name settings options : string) body : M A :=
  let eqs e := String.eqb engine e in
  if eqs "MergeTree" then
    create_partitioned_table table_name (table_with "MergeTree" EmptyString settings options) None body
  else if eqs "ReplacingMergeTree" then
    create_replacing_merge_tree_table table_name None settings options body
  else if eqs "SummingMergeTree" then
    create_summing_merge_tree_table table_name None settings options body
  else if eqs "AggregatingMergeTree" then
    create_aggregating_merge_tree_table table_name None settings options body
  else if eqs "CollapsingMergeTree" then
    create_collapsing_merge_tree_table table_name None settings options body
  else if eqs "VersionedCollapsingMergeTree" then
    create_versioned_collapsing_merge_tree_table table_name None settings options body
  else if eqs "GraphiteMergeTree" then
    create_graphite_merge_tree_table table_name None settings options body
  else if eqs "ReplicatedMergeTree" then create_replicated_table table_name body
  else if eqs "ReplicatedReplacingMergeTree" then
    create_replicated_replacing_merge_tree_table table_name body
  else if eqs "ReplicatedSummingMergeTree" then
    create_replicated_summing_merge_tree_table table_name body
  else if eqs "ReplicatedAggregatingMergeTree" then
    create_replicated_aggregating_merge_tree_table table_name body
  else if eqs "ReplicatedCollapsingMergeTree" then
    create_replicated_collapsing_merge_tree_table table_name body
  else if eqs "ReplicatedVersionedCollapsingMergeTree" then
    create_replicated_versioned_collapsing_merge_tree_table table_name body
  else if eqs "ReplicatedGraphiteMergeTree" then
    create_replicated_graphite_merge_tree_table table_name body
  else body.
Definition create_table table_name (table_engine : option string) settings options body : M A :=
  match table_engine with
  | Some e => table_for e table_name settings options body
  | None => e ← lw_table_engine; table_for e table_name settings options body
  end.
End engines.

(** ** Inserting and deleting *)

(** The arguments of [insert]; [values] is a text of rows. *)
Record insert_args := mkInsert {
  i_values : option string; i_partitions : Z; i_parts_per_partition : Z; i_block_size : Z;
  i_no_checks : bool; i_settings : list (string * string); i_node : option string;
  i_table_engine : option string
}.
Definition insert0 (partitions parts_per_partition block_size : Z) : insert_args :=
  mkInsert None partitions parts_per_partition block_size false [] None None.
Definition insert_sql (table_name values : string) : string :=
  "INSERT INTO " +:+ table_name +:+ " VALUES " +:+ values.
Definition insert (table_name : string) (a : insert_args) : M shell_result :=
  at_node (i_node a) (λ n,
    engine ← match i_table_engine a with Some e => mret e | None => lw_table_engine end;
    let values := match i_values a with
                  | Some v => v
                  | None => values_text engine
                      (grid (i_partitions a) (i_block_size a * i_parts_per_partition a))
                  end in
    lw_query n (insert_sql table_name values)
      (query_with (("max_block_size", str_Z (i_block_size a)) :: i_settings a) (i_no_checks a))).
(** [table_engine[10:]] drops [Replicated]. *)
Definition insert_replicated (table_name : string) (values : option string)
    (partitions parts_per_partition block_size : Z) (settings : list (string * string))
    (table_engine : option string) : M unit :=
  engine ← match table_engine with Some e => mret e | None => lw_table_engine end;
  lw_set_node "clickhouse1";;
  insert table_name (mkInsert values partitions parts_per_partition block_size false
    (("insert_distributed_sync", "1") :: settings) None (Some (str_drop 10 engine)));;
  mret tt.

(** A condition, or with [multiple] a list of them *)
Inductive condition := One (c : string) | Multiple (l : list string).
(** [f"{condition}"]; a list reads as its Python text, here for conditions
    without backslashes, double quotes and line breaks. *)
Definition repr (s : string) : string := if contains "'" s then q s else "'" +:+ s +:+ "'".
Definition condition_text (c : condition) : string :=
  match c with One c => c | Multiple l => "[" +:+ join ", " (repr <$> l) +:+ "]" end.

Record delete_args := mkDelete {
  d_use_alter_delete : bool; d_no_checks : bool; d_check : bool; d_delay : Z;
  d_settings : list (string * string); d_node : option string
}.
Definition delete0 : delete_args := mkDelete false false false 0 mutations_sync None.
Definition delete_checked (settings : list (string * string)) (check : bool) : delete_args :=
  mkDelete false false check 0 settings None.
Definition delete_with (settings : list (string * string)) (delay : Z) (node : option string)
    : delete_args := mkDelete false false false delay settings node.

(** The statement of a deletion, and the repeated check that nothing is left *)
Definition delete_sql (alter : bool) (table_name c : string) : string :=
  if alter then "ALTER TABLE " +:+ table_name +:+ " DELETE WHERE " +:+ c
  else "DELETE FROM " +:+ table_name +:+ " WHERE " +:+ c.
Definition delete_command (alter : bool) (table_name : string) (c : condition) : string :=
  match c with
  | One c => delete_sql alter table_name c
  | Multiple l => join ";" (delete_sql alter table_name <$> l)
  end.
Definition rows_are_deleted (n table_name : string) (c : condition) : M unit :=
  r ← lw_query n ("SELECT count() FROM " +:+ table_name +:+ " WHERE " +:+ condition_text c) query0;
  assert_ (String.eqb (output r) "0") (output r).
Definition delete (table_name : string) (c : condition) (a : delete_args) : M shell_result :=
  at_node (d_node a) (λ n,
    alter ← (if d_use_alter_delete a then mret true else lw_use_alter_delete : M bool);
    r ← lw_query n (delete_command alter table_name c) (query_with (d_settings a) (d_no_checks a));
    when (d_check a) (lw_retries (sec 1 / 10) (sec (if (alter : bool) then 600 else 30))
                        (rows_are_deleted n table_name c));;
    when (negb (d_delay a =? 0)) (lw_sleep (d_delay a));;
    mret r).
Definition delete_ (table_name c : string) (a : delete_args) : M unit :=
  delete table_name (One c) a;; mret tt.

Definition optimize_table (table_name : string) (final : bool) (node : option string)
    : M shell_result :=
  at_node node (λ n, lw_query n ("OPTIMIZE TABLE " +:+ table_name +:+
                                 (if final then " FINAL" else EmptyString)) query0).
Definition stop_merges {A} (node : option string) (body : M A) : M A :=
  at_node node (λ n, bracket (do_query n "SYSTEM STOP MERGES" query0) (λ _, body)
    (do_query n "SYSTEM START MERGES" query0)).

(** The rows that [delete_odd] deletes have an even [x]. *)
Definition odd_condition (i : Z) : string := " (id = " +:+ str_Z i +:+ ") AND (x % 2 = 0)".
Definition delete_odd (num_partitions : Z) (table_name : string) (settings : list (string * string))
    (node : option string) : M unit :=
  for_ (range num_partitions) (λ i,
    delay ← lw_random_delay;
    delete_ table_name (odd_condition i) (delete_with settings delay node)).

(** ** Altering *)

Section alter.
Variables (settings : list (string * string)) (node : option string).
Implicit Types (table_name partition_expr : string) (quote : bool).

(** [ALTER TABLE] with the rest of the statement *)
Definition alter table_name (rest : string) : M unit :=
  at_node node (λ n, do_query n ("ALTER TABLE " +:+ table_name +:+ rest) (query_with settings false)).
Definition alter_detach_partition table_name partition_expr quote : M unit :=
  alter table_name (" DETACH PARTITION " +:+ quoted quote partition_expr).
Definition alter_drop_partition table_name partition_expr quote : M unit :=
  alter table_name (" DROP PARTITION " +:+ quoted quote partition_expr).
Definition alter_drop_detached_partition table_name partition_expr quote : M unit :=
  alter table_name (" DROP DETACHED PARTITION " +:+ quoted quote partition_expr).
Definition alter_attach_partition table_name partition_expr quote : M unit :=
  alter table_name (" ATTACH PARTITION " +:+ quoted quote partition_expr).
Definition alter_replace_partition (table_name_2 table_name_1 : string) partition_expr quote : M unit :=
  alter table_name_2 (" REPLACE PARTITION " +:+ quoted quote partition_expr +:+ " FROM " +:+ table_name_1).
Definition alter_fetch_partition table_name partition_expr (path : string) quote : M unit :=
  alter table_name (" FETCH PARTITION " +:+ quoted quote partition_expr +:+ " FROM '" +:+ path +:+ "'").
Definition alter_move_partition (table_name_1 table_name_2 : string) partition_expr quote : M unit :=
  alter table_name_1 (" MOVE PARTITION " +:+ quoted quote partition_expr +:+ " to TABLE " +:+ table_name_2).
Definition alter_freeze_partition table_name partition_expr quote : M unit :=
  alter table_name (" FREEZE PARTITION " +:+ quoted quote partition_expr).
Definition alter_unfreeze_partition table_name partition_expr quote : M unit :=
  alter table_name (" UNFREEZE PARTITION " +:+ quoted quote partition_expr +:+
                    " WITH NAME 'backup_name'").
Definition alter_update_in_partition table_name (update_expr : string) partition_expr : M unit :=
  alter table_name (" UPDATE " +:+ update_expr +:+ " " +:+ partition_expr).
Definition alter_delete_in_partition table_name partition_expr (where_expr : string) quote : M unit :=
  alter table_name (" DELETE IN PARTITION " +:+ quoted quote partition_expr +:+ " " +:+ where_expr).
Definition alter_add_column table_name (column_name column_type default_expr : string) : M unit :=
  alter table_name (" ADD COLUMN IF NOT EXISTS " +:+ column_name +:+ " " +:+ column_type +:+ " " +:+
                    default_expr +:+ " FIRST ").
Definition alter_drop_column table_name (column_name : string) : M unit :=
  alter table_name (" DROP COLUMN IF EXISTS " +:+ column_name).
Definition alter_clear_column table_name (column_name : string) partition_expr : M unit :=
  alter table_name (" CLEAR COLUMN IF EXISTS " +:+ column_name +:+ " " +:+ partition_expr).
Definition alter_comment_column table_name (column_name column_comment : string) : M unit :=
  alter table_name (" COMMENT COLUMN " +:+ column_name +:+ " '" +:+ column_comment +:+ "'").
Definition alter_modify_column table_name (column_name column_type default_expr : string) : M unit :=
  alter table_name (" MODIFY COLUMN IF EXISTS " +:+ column_name +:+ " " +:+ column_type +:+ " " +:+
                    default_expr).
End alter.

(** ** Deleting, altering and counting *)

Definition select_count (table_name : string) : string := "SELECT count(*) FROM " +:+ table_name.
Definition count_where (table_name c : string) : string := select_count table_name +:+ " WHERE " +:+ c.
Definition not_even : string := "NOT(x % 2 == 0)".

(** [r = node.query(sql); assert r.output == output, error()] *)
Definition expect_output (n sql expected : string) : M unit :=
  r ← lw_query n sql query0; assert_ (String.eqb (output r) expected) (output r).
(** The check on the given nodes, each of which becomes the node of the
    context *)
Definition check_nodes (nodes : list string) (sql expected : string) : M unit :=
  for_ nodes (λ name, lw_set_node name;; expect_output name sql expected).

(** What the steps have in common: the count that is expected is read first. *)
Definition counted (node : option string) (table_name c : string) (nodes : list string)
    (change : string → M unit) : M unit :=
  at_node node (λ n,
    expected ← lw_query n (count_where table_name c) query0;
    change n;;
    check_nodes nodes (select_count table_name) (output expected)).

Section after_delete.
Variables (table_name : string) (partitions : Z) (partition_expr : string).
Variables (nodes : list string) (node : option string).
Abbreviation delete_odd_rows := (delete_odd partitions table_name mutations_sync None).

Definition detach_partition_after_delete_in_the_table : M unit :=
  counted node table_name ("NOT(x % 2 == 0 or id = " +:+ partition_expr +:+ ")") nodes (λ n,
    delete_odd_rows;;
    alter_detach_partition mutations_sync (Some n) table_name partition_expr true).
Definition drop_partition_after_delete_in_the_table : M unit :=
  counted node table_name ("NOT(x % 2 == 0 or id = " +:+ partition_expr +:+ ")") nodes (λ n,
    delete_odd_rows;;
    alter_drop_partition mutations_sync (Some n) table_name partition_expr true).
Definition attach_partition_after_delete_in_the_table : M unit :=
  counted node table_name ("NOT(x % 2 == 0 and id != " +:+ partition_expr +:+ ")") nodes (λ n,
    alter_detach_partition mutations_sync (Some n) table_name partition_expr true;;
    delete_odd_rows;;
    alter_attach_partition mutations_sync (Some n) table_name partition_expr true).
Definition freeze_partition_after_delete_in_the_table : M unit :=
  counted node table_name not_even nodes (λ n,
    delete_odd_rows;;
    alter_freeze_partition mutations_sync (Some n) table_name partition_expr true).
Definition unfreeze_partition_after_delete_in_the_table : M unit :=
  counted node table_name not_even nodes (λ n,
    alter_freeze_partition mutations_sync (Some n) table_name partition_expr true;;
    delete_odd_rows;;
    alter_unfreeze_partition mutations_sync (Some n) table_name partition_expr true).
Definition add_column_after_delete_in_the_table (column_name column_type default_expr : string) : M unit :=
  counted node table_name not_even nodes (λ n,
    delete_odd_rows;;
    alter_add_column mutations_sync (Some n) table_name column_name column_type default_expr).
Definition drop_column_after_delete_in_the_table (column_name : string) : M unit :=
  counted node table_name not_even nodes (λ n,
    delete_odd_rows;; alter_drop_column mutations_sync (Some n) table_name column_name).
Definition clear_column_after_delete_in_the_table (column_name : string) : M unit :=
  at_node node (λ n,
    output1 ← lw_query n (count_where table_name "NOT(x % 2 == 0 or id != 0)") query0;
    output2 ← lw_query n (count_where table_name not_even) query0;
    delete_odd_rows;;
    alter_clear_column mutations_sync (Some n) table_name column_name "IN PARTITION 0";;
    for_ nodes (λ name,
      lw_set_node name;;
      expect_output name ("SELECT count() FROM " +:+ table_name +:+ " where x=0") (output output1);;
      expect_output name (select_count table_name) (output output2))).
Definition modify_column_after_delete_in_the_table (column_name column_type default_expr : string)
    : M unit :=
  counted node table_name not_even nodes (λ n,
    delete_odd_rows;;
    alter_modify_column mutations_sync (Some n) table_name column_name column_type default_expr).
Definition comment_column_after_delete_in_the_table (column_name column_comment : string) : M unit :=
  counted node table_name not_even nodes (λ n,
    delete_odd_rows;;
    alter_comment_column mutations_sync (Some n) table_name column_name column_comment).
End after_delete.

(** ** Loops and other steps *)

Definition delete_in_loop (table_name c : string) (partitions : Z) (node : option string) : M unit :=
  for_ (range partitions) (λ partition,
    delete_ table_name (c +:+ " AND id = " +:+ str_Z partition) (delete_with mutations_sync 0 node)).
Definition create_and_check_replicated_table {A} (table_name : string) (partitions block_size : Z)
    (body : M A) : M A :=
  create_replicated_table table_name
    (names ← lw_nodes;
     check_nodes names (select_count table_name) (str_Z (partitions * block_size));;
     body).
Definition clear_update_in_loop (table_name column_name : string) (iterations delay : Z)
    (node : option string) : M unit :=
  for_ (range iterations) (λ _,
    alter_clear_column mutations_sync node table_name column_name EmptyString;;
    lw_sleep (delay / 2);;
    alter_update_in_partition mutations_sync node table_name (column_name +:+ " = 777") "WHERE true";;
    lw_sleep (delay / 2)).
Definition modify_column_in_loop (table_name column_name : string) (iterations delay : Z)
    (node : option string) : M unit :=
  for_ (range iterations) (λ _,
    alter_modify_column mutations_sync node table_name column_name "String" "DEFAULT 48";;
    lw_sleep (delay / 2);;
    alter_modify_column mutations_sync node table_name column_name "Int32" "DEFAULT 48";;
    lw_sleep (delay / 2)).
Definition add_drop_column_in_loop (table_name column_name column_type default_expr : string)
    (iterations delay : Z) (node : option string) : M unit :=
  for_ (range iterations) (λ _,
    alter_add_column mutations_sync node table_name column_name column_type default_expr;;
    lw_sleep (delay / 2);;
    alter_drop_column mutations_sync node table_name column_name;;
    lw_sleep (delay / 2)).
Definition attach_detach_in_loop (table_name partition_expr : string) (iterations delay : Z)
    (node : option string) (quote : bool) : M unit :=
  for_ (range iterations) (λ _,
    alter_detach_partition mutations_sync node table_name partition_expr quote;;
    lw_sleep (delay / 2);;
    alter_attach_partition mutations_sync node table_name partition_expr quote;;
    lw_sleep (delay / 2)).
Definition check_query_on_all_nodes (query output : string) : M unit :=
  names ← lw_nodes; check_nodes names query output.
Definition inserts (table_name : string) (inserts_number delay : Z) : M unit :=
  for_ (range inserts_number) (λ _, insert table_name (insert0 2 1 1000);; lw_sleep delay).
Definition merges (table_name : string) (merges_number delay : Z) : M unit :=
  for_ (range merges_number) (λ _, optimize_table table_name true None;; lw_sleep delay).
Definition deletes (table_name : string) (deletes_number : Z) (c : string) (delay : Z) : M unit :=
  for_ (range deletes_number) (λ _, delete_ table_name c (delete_checked [] false);; lw_sleep delay).

(** The queries of the load tests; their [node] is not used. *)
Section load_queries.
Variables (settings : list (string * string)) (check : bool).
Abbreviation deleted table_name c := (delete_ table_name c (delete_checked settings check)).
Definition delete_query_1_ontime : M unit := deleted "ontime" "Year = 1990".
Definition delete_query_2_ontime : M unit := deleted "ontime" "Year % 2 = 0".
Definition delete_query_3_ontime : M unit := deleted "ontime" "Month = 2".
Definition delete_query_4_ontime : M unit := deleted "ontime" "DayofMonth = 2".
Definition delete_query_5_ontime : M unit := deleted "ontime" "FlightDate = '2020-01-01'".
Definition delete_query_1_acceptance : M unit := deleted "acceptance_table" "Id = 1 and has(Ids, 2)".
Definition delete_query_2_acceptance : M unit := deleted "acceptance_table" "has(Ids, 1)".
Definition delete_query_3_acceptance : M unit := deleted "acceptance_table" "has(int_arr, 1)".
End load_queries.
Definition insert_query_ontime (number : Z) (node : option string) : M unit :=
  at_node node (λ n, do_query n ("INSERT INTO ontime SELECT * FROM ontime WHERE Month = " +:+
                                 str_Z number) query0).
Definition insert_query_acceptance (rows_number : Z) (node : option string) : M unit :=
  at_node node (λ n, do_query n
    ("insert into acceptance_table select * from acceptance_table limit " +:+ str_Z rows_number) query0).
Definition select_query_ontime (node : option string) : M unit :=
  at_node node (λ n, do_query n "SELECT count(*) FROM (SELECT avg(c1) FROM (SELECT Year, Month, count(*) AS c1 FROM ontime GROUP BY Year, Month))" query0).
Definition select_query_acceptance (node : option string) : M unit :=
  at_node node (λ n, do_query n
    "SELECT count(*) FROM (SELECT * FROM acceptance_table where has(Ids, 1))" query0).

Definition create_view {A} (view_type view_name c : string) (node : option string) (body : M A) : M A :=
  at_node node (λ n, bracket
    (do_query n ("CREATE " +:+ view_type +:+ " VIEW " +:+ view_name +:+ " as " +:+ c)
       (if String.eqb view_type "LIVE" then query_with [("allow_experimental_live_view", "1")] false
        else if String.eqb view_type "WINDOW" then
          query_with [("allow_experimental_window_view", "1")] false
        else query0))
    (λ _, body)
    (do_query n ("DROP VIEW " +:+ view_name +:+ " SYNC") query0)).

(** ** Directories and disks *)

Definition create_directory {A} (path : string) (node : option string) (body : M A) : M A :=
  at_node node (λ n, bracket (lw_command n ("mkdir '" +:+ path +:+ "'") (Some 0)) (λ _, body)
    (lw_command n ("rm -rf '" +:+ path +:+ "'") (Some 0))).
Definition create_directories_multi_disk_volume {A} (number_of_disks : Z) (body : M A) : M A :=
  foldr (λ i, create_directory ("disk_local" +:+ str_Z i +:+ "/") None) body (range number_of_disks).
(** [config.content.replace(key, value)] for every item of [format] *)
Definition format_content (xml_symbols : bool) (format : dict string string) (c : Config) : Config :=
  fold_left (λ c kv, mkConfigFile
    (replace kv.1 (if xml_symbols then escape_cdata kv.2 else kv.2) (content c))
    (path c) (config_name c) (uid c) (preprocessed_name c)) format c.
Definition add_disk_configuration (e : entries) (uid : string) (xml_symbols modify restart : bool)
    (format : option (dict string string)) (user : option string) : M unit :=
  let config := create_xml_config_content e "storage_conf.xml" config_d "yandex" uid in
  lw_add_config match format with
                | Some f => format_content xml_symbols f config
                | None => config
                end restart modify user.
Definition add_config_multi_disk_volume (number_of_disks : Z) (uid : string) : M unit :=
  let local i := "local" +:+ str_Z i in
  add_disk_configuration
    [(Key "storage_configuration", VDict
       [(Key "disks", VList ((λ i, disk_entries
            [(local i, [("path", "/disk_local" +:+ str_Z i +:+ "/")])]) <$> range number_of_disks));
        (Key "policies", VDict (policy_entries [("local",
            policy [("volume1", volume ((λ i, ("disk", local i)) <$> range number_of_disks))] [])]))])]
    uid true false true None None.
End steps.
