(* ===== verification/LwdChecks.v ===== *)
(** * The checks of the lightweight delete suite against a server

    The scenarios of lightweight_delete/tests/alter_after_delete.py and
    basic_checks.py, built from the steps of LightweightDelete, and a server
    that runs their statements on a table as ClickHouse documents them, with
    deletions that either work or do nothing.  The scenarios decide which of the
    two the server is: they pass on the first and fail on the second. *)
From stdpp Require Import gmap.
From S2P Require Import Prelude PyStr PyDict PyMonad World Cluster Query NodeLog LightweightDelete.
Local Open Scope Z_scope.

(** ** The scenarios *)

Section scenarios.
Context {S : Type} `{LwdApi S}.
Abbreviation M := (M S).

(** A table with the rows of some inserts for the rest of the test *)
Definition with_rows (table_name : string) (l : list insert_args) (body : M unit) : M unit :=
  create_table table_name None EmptyString EmptyString
    (for_ l (λ a, insert table_name a;; mret tt);; body).

(** *** alter_after_delete.py *)

Section alter_after_delete.
Variables (partitions parts_per_partition block_size : Z) (node : option string).
(** What [getuid()] returns: once in most scenarios, twice in the last two *)
Variables (uid uid' : string).
Let table_name := "table_" +:+ uid.
Let table_name_1 := "table_" +:+ uid +:+ "_1".
Let table_name_2 := "table_" +:+ uid' +:+ "_2".
Definition after_insert (step : M unit) : M unit :=
  at_node node (λ _, with_rows table_name [insert0 partitions parts_per_partition block_size] step).
Definition on_clickhouse1 : list string := ["clickhouse1"].

Definition detach_partition_after_delete : M unit := after_insert
  (detach_partition_after_delete_in_the_table table_name partitions "3" on_clickhouse1 None).
Definition drop_partition_after_delete : M unit := after_insert
  (drop_partition_after_delete_in_the_table table_name partitions "3" on_clickhouse1 None).
Definition attach_partition_after_delete : M unit := after_insert
  (attach_partition_after_delete_in_the_table table_name partitions "3" on_clickhouse1 None).
Definition freeze_partition_after_delete : M unit := after_insert
  (freeze_partition_after_delete_in_the_table table_name partitions "3" on_clickhouse1 None).
Definition unfreeze_partition_after_delete : M unit := after_insert
  (unfreeze_partition_after_delete_in_the_table table_name partitions "3" on_clickhouse1 None).
Definition add_column_after_delete : M unit := after_insert
  (add_column_after_delete_in_the_table table_name partitions on_clickhouse1 None
     "added_column" "UInt32" "DEFAULT 7").
Definition drop_column_after_delete : M unit := after_insert
  (drop_column_after_delete_in_the_table table_name partitions on_clickhouse1 None "x").
Definition clear_column_after_delete : M unit := after_insert
  (clear_column_after_delete_in_the_table table_name partitions on_clickhouse1 None "x").
Definition modify_column_after_delete : M unit := after_insert
  (modify_column_after_delete_in_the_table table_name partitions on_clickhouse1 None
     "x" "String" "DEFAULT '777'").
Definition comment_column_after_delete : M unit := after_insert
  (comment_column_after_delete_in_the_table table_name partitions on_clickhouse1 None "x" "hello").

(** [int(output)] of a result *)
Definition int_output (r : shell_result) : M Z :=
  lift (or_raise (ValueError "invalid literal for int() with base 10") (py_int (output r))).

(** Two tables with the same rows for the rest of the test *)
Definition after_inserts (step : string → M unit) : M unit :=
  at_node node (λ n,
    create_table table_name_1 None EmptyString EmptyString
      (create_table table_name_2 None EmptyString EmptyString
        (insert table_name_1 (insert0 partitions parts_per_partition block_size);;
         insert table_name_2 (insert0 partitions parts_per_partition block_size);;
         step n))).
Definition move_partition_after_delete : M unit := after_inserts (λ n,
  output11 ← lw_query n (select_count table_name_2) query0;
  output12 ← lw_query n (count_where table_name_1 "NOT(x % 2 == 0 OR id != 3)") query0;
  output2 ← lw_query n (count_where table_name_2 "NOT(x % 2 == 0 or id = 3)") query0;
  delete_odd partitions table_name_1 mutations_sync None;;
  alter_move_partition mutations_sync None table_name_1 table_name_2 "3" true;;
  r ← lw_query n (select_count table_name_2) query0;
  n11 ← int_output output11;
  n12 ← int_output output12;
  assert_ (String.eqb (output r) (str_Z (n11 + n12))) (output r);;
  expect_output n (select_count table_name_1) (output output2)).
Definition replace_partition_after_delete : M unit := after_inserts (λ n,
  output1 ← lw_query n (count_where table_name_1 "NOT(x % 2 == 0 AND id = 3)") query0;
  output2 ← lw_query n (count_where table_name_2 not_even) query0;
  delete_odd partitions table_name_1 mutations_sync None;;
  alter_replace_partition mutations_sync None table_name_2 table_name_1 "3" true;;
  expect_output n (select_count table_name_2) (output output1);;
  expect_output n (select_count table_name_1) (output output2)).

(** The scenarios of the module *)
Definition alter_after_delete : list (M unit) :=
  [detach_partition_after_delete; drop_partition_after_delete; attach_partition_after_delete;
   freeze_partition_after_delete; unfreeze_partition_after_delete; add_column_after_delete;
   drop_column_after_delete; clear_column_after_delete; modify_column_after_delete;
   comment_column_after_delete; move_partition_after_delete; replace_partition_after_delete].
End alter_after_delete.

(** *** basic_checks.py *)

Definition restart_and (n : string) (checks : M unit) : M unit := lw_restart_clickhouse n;; checks.
Definition rows_json (table_name where_order : string) : string :=
  "SELECT * FROM " +:+ table_name +:+ where_order +:+ " FORMAT JSONEachRow".

Section outlines.
Variables (table_name : string) (node : option string).

Definition delete_zero_rows : M unit := at_node node (λ n,
  let count := select_count table_name +:+ " FORMAT JSONEachRow" in
  pre_delete ← lw_query n count query0;
  delete_ table_name "id < -1" delete0;;
  expect_output n count (output pre_delete);;
  restart_and n (expect_output n count (output pre_delete))).
Definition delete_all_rows : M unit := at_node node (λ n,
  let checks := expect_output n (rows_json table_name " ORDER BY id, x") EmptyString;;
                expect_output n (select_count table_name) "0" in
  delete_ table_name "id > -1" delete0;;
  checks;;
  restart_and n checks).
(** The outlines for some of the rows; after the restart the rows of the last
    of them are ordered by [id] only. *)
Definition delete_subset (c order : string) : M unit := at_node node (λ n,
  all ← lw_query n (select_count table_name) query0;
  del ← lw_query n (count_where table_name c) query0;
  count_all ← int_output all;
  count_del ← int_output del;
  let expected_count := str_Z (count_all - count_del) in
  let checks order :=
    expect_output n (rows_json table_name (" WHERE " +:+ c +:+ " ORDER BY " +:+ order)) EmptyString;;
    expect_output n (select_count table_name) expected_count in
  delete_ table_name c delete0;;
  checks "id, x";;
  restart_and n (checks order)).
Definition delete_small_subset : M unit := delete_subset "x < 10" "id, x".
Definition delete_large_subset : M unit := delete_subset "x > 10" "id, x".
Definition delete_all_rows_from_half_of_parts : M unit := delete_subset "id < 5" "id".
Definition one_row (engine : string) : option string :=
  if bool_decide (engine ∈ ["MergeTree"; "ReplacingMergeTree"; "SummingMergeTree";
                            "AggregatingMergeTree"]) then Some "(-1,-1)"
  else if bool_decide (engine ∈ ["CollapsingMergeTree"; "VersionedCollapsingMergeTree"])
  then Some "(-1,-1,1)"
  else if String.eqb engine "GraphiteMergeTree" then Some "(-1,-1, '1', toDateTime(10), 10, 10)"
  else None.
Definition delete_one_row : M unit := at_node node (λ n,
  let checks expected :=
    expect_output n (rows_json table_name " WHERE id < 0 ORDER BY id") EmptyString;;
    expect_output n (select_count table_name) expected in
  count_all ← lw_query n (select_count table_name) query0;
  engine ← lw_table_engine;
  match one_row engine with
  | Some v => do_query n (insert_sql table_name v) query0
  | None => mret tt
  end;;
  delete_ table_name "id < 0" delete0;;
  checks (output count_all);;
  restart_and n (checks (output count_all))).
End outlines.

(** The inserts of the features, and a scenario of a feature *)
Definition basic_features : list (string * list insert_args) :=
  [("one partition one part", [insert0 1 1 1000]);
   ("one partition many parts", [insert0 1 100 1000]);
   ("one partition mixed parts", [insert0 1 1 1000; insert0 1 100 10]);
   ("many partition one part", [insert0 10 1 1000]);
   ("many partition many parts", [insert0 100 100 100]);
   ("many partition mixed parts", [insert0 1 1 10000; insert0 10 100 10]);
   ("one million datapoints", [insert0 100 10 1000])].
Definition basic_outlines : list (string → option string → M unit) :=
  [delete_zero_rows; delete_all_rows; delete_small_subset; delete_large_subset; delete_all_rows_from_half_of_parts;
   delete_one_row].
Definition basic_scenario (outline : string → option string → M unit) (l : list insert_args)
    (uid : string) : M unit :=
  with_rows ("table_" +:+ uid) l (outline ("table_" +:+ uid) None).
End scenarios.

(** ** The server *)

(** A table with a column for the partition and another, and the rows of its
    detached partitions *)
Abbreviation row := (Z * Z)%type.
Record stored := mkStored { rows : list row; detached : list row }.

(** The conditions of the scenarios: their texts and their meaning *)
Inductive cond :=
  | EvenIn (i : Z) | NotEven | NotEvenOrId3 | NotEvenAndNotId3 | NotEvenOrNotId0
  | NotEvenOrNotId3 | NotEvenAndId3
  | IdLess (n : Z) | IdMore (n : Z) | XLess (n : Z) | XMore (n : Z).
#[export] Instance cond_eq_dec : EqDecision cond.
Proof. solve_decision. Defined.
Definition cond_text (c : cond) : string :=
  match c with
  | EvenIn i => odd_condition i
  | NotEven => not_even
  | NotEvenOrId3 => "NOT(x % 2 == 0 or id = 3)"
  | NotEvenAndNotId3 => "NOT(x % 2 == 0 and id != 3)"
  | NotEvenOrNotId0 => "NOT(x % 2 == 0 or id != 0)"
  | NotEvenOrNotId3 => "NOT(x % 2 == 0 OR id != 3)"
  | NotEvenAndId3 => "NOT(x % 2 == 0 AND id = 3)"
  | IdLess n => "id < " +:+ str_Z n
  | IdMore n => "id > " +:+ str_Z n
  | XLess n => "x < " +:+ str_Z n
  | XMore n => "x > " +:+ str_Z n
  end.
Definition holds (c : cond) (r : row) : bool :=
  match c with
  | EvenIn i => (r.1 =? i) && Z.even r.2
  | NotEven => negb (Z.even r.2)
  | NotEvenOrId3 => negb (Z.even r.2 || (r.1 =? 3))
  | NotEvenAndNotId3 => negb (Z.even r.2 && negb (r.1 =? 3))
  | NotEvenOrNotId0 => negb (Z.even r.2 || negb (r.1 =? 0))
  | NotEvenOrNotId3 => negb (Z.even r.2 || negb (r.1 =? 3))
  | NotEvenAndId3 => negb (Z.even r.2 && (r.1 =? 3))
  | IdLess n => r.1 <? n
  | IdMore n => n <? r.1
  | XLess n => r.2 <? n
  | XMore n => n <? r.2
  end.

Inductive stmt :=
  | Create | DropTable
  | Insert (l : list row)
  | Count (c : option cond) | CountJSON | CountClear
  | Rows (c : option cond) (order : string)
  | Delete (alter : bool) (c : cond)
  | Detach | Attach | DropPartition
  | ClearColumn
  | OtherAlter (rest : string).   (* no row is added, moved or deleted *)
Definition where_text (c : option cond) : string :=
  match c with Some c => " WHERE " +:+ cond_text c | None => EmptyString end.
Definition stmt_text (t : string) (st : stmt) : string :=
  match st with
  | Create => create_text t (table_with "MergeTree" EmptyString EmptyString EmptyString)
  | DropTable => "DROP TABLE IF EXISTS " +:+ t +:+ " SYNC"
  | Insert l => insert_sql t (values_text "MergeTree" l)
  | Count c => select_count t +:+ where_text c
  | CountJSON => select_count t +:+ " FORMAT JSONEachRow"
  | CountClear => "SELECT count() FROM " +:+ t +:+ " where x=0"
  | Rows c order => rows_json t (where_text c +:+ " ORDER BY " +:+ order)
  | Delete alter c => delete_sql alter t (cond_text c)
  | Detach => "ALTER TABLE " +:+ t +:+ " DETACH PARTITION '3'"
  | Attach => "ALTER TABLE " +:+ t +:+ " ATTACH PARTITION '3'"
  | DropPartition => "ALTER TABLE " +:+ t +:+ " DROP PARTITION '3'"
  | ClearColumn => "ALTER TABLE " +:+ t +:+ " CLEAR COLUMN IF EXISTS x IN PARTITION 0"
  | OtherAlter rest => "ALTER TABLE " +:+ t +:+ rest
  end.

Section server.
(** The rows as text, in a given order, and a number of rows *)
Variable json : string → list row → string.
Variable json_count : nat → string.
(** Whether deletions work *)
Variable works : bool.

Definition matching (c : option cond) (l : list row) : list row :=
  match c with Some c => List.filter (holds c) l | None => l end.
Definition in_3 (r : row) : bool := r.1 =? 3.
Definition clear_0 (r : row) : row := if r.1 =? 0 then (0, 0) else r.

(** The table after a statement and its output *)
Definition exec (st : stmt) (tb : stored) : stored * string :=
  match st with
  | Create | DropTable => (mkStored [] [], EmptyString)
  | Insert l => (mkStored (rows tb ++ l) (detached tb), EmptyString)
  | Count c => (tb, str_Z (Z.of_nat (length (matching c (rows tb)))))
  | CountJSON => (tb, json_count (length (rows tb)))
  | CountClear => (tb, str_Z (Z.of_nat (length (List.filter (λ r, r.2 =? 0) (rows tb)))))
  | Rows c order => (tb, json order (matching c (rows tb)))
  | Delete _ c =>
      (if works then mkStored (List.filter (λ r, negb (holds c r)) (rows tb)) (detached tb) else tb,
       EmptyString)
  | Detach =>
      (mkStored (List.filter (λ r, negb (in_3 r)) (rows tb))
         (detached tb ++ List.filter in_3 (rows tb)), EmptyString)
  | Attach => (mkStored (rows tb ++ detached tb) [], EmptyString)
  | DropPartition => (mkStored (List.filter (λ r, negb (in_3 r)) (rows tb)) (detached tb), EmptyString)
  | ClearColumn => (mkStored (clear_0 <$> rows tb) (detached tb), EmptyString)
  | OtherAlter _ => (tb, EmptyString)
  end.
Definition is_delete (st : stmt) : bool := match st with Delete _ _ | ClearColumn => true | _ => false end.
End server.

(** The statements on two tables: the partition 3 of the first is moved to the
    second, or takes the place of the one of the second. *)
Inductive pair_stmt := Move | Replace.
Definition pair_text (t1 t2 : string) (st : pair_stmt) : string :=
  match st with
  | Move => "ALTER TABLE " +:+ t1 +:+ " MOVE PARTITION '3' to TABLE " +:+ t2
  | Replace => "ALTER TABLE " +:+ t2 +:+ " REPLACE PARTITION '3' FROM " +:+ t1
  end.
Definition pair_exec (st : pair_stmt) (tb1 tb2 : stored) : stored * stored :=
  let outside_3 := List.filter (λ r, negb (in_3 r)) in
  match st with
  | Move => (mkStored (outside_3 (rows tb1)) (detached tb1),
             mkStored (rows tb2 ++ List.filter in_3 (rows tb1)) (detached tb2))
  | Replace => (tb1, mkStored (outside_3 (rows tb2) ++ List.filter in_3 (rows tb1)) (detached tb2))
  end.

(** The context of the steps, and another table of the server, which the
    statements on a table leave alone *)
Record env := mkEnv { e_node : string; e_alter : bool; e_engine : string; e_other : stored }.
Definition set_node (n : string) (e : env) : env := mkEnv n (e_alter e) (e_engine e) (e_other e).
Definition with_other (tb : stored) (e : env) : env := mkEnv (e_node e) (e_alter e) (e_engine e) tb.

Lemma with_other_same e : with_other (e_other e) e = e.
Proof. by destruct e. Qed.

(** A server whose nodes all show the table [t], and which answers at least
    the statements of [supported] like [exec]; mutations are done when they
    return if they are asked to be.  The context and the clock behave as the
    framework documents. *)
Class Server (S : Type) `{LwdApi S} (json : string → list row → string) (json_count : nat → string)
    (works : bool) (t : string) (supported : stmt → Prop) := {
  sv_table : S → stored;
  sv_env : S → env;
  sv_query st n a s :
    supported st → (is_delete st = true → q_settings a = mutations_sync) →
    ∃ s', lw_query n (stmt_text t st) a s =
            (Ok (mkResult 0 (exec json json_count works st (sv_table s)).2), s') ∧
      sv_table s' = (exec json json_count works st (sv_table s)).1 ∧ sv_env s' = sv_env s;
  sv_node s : lw_node s = (Ok (e_node (sv_env s)), s);
  sv_use_alter s : lw_use_alter_delete s = (Ok (e_alter (sv_env s)), s);
  sv_engine s : lw_table_engine s = (Ok (e_engine (sv_env s)), s);
  sv_set_node n s : ∃ s', lw_set_node n s = (Ok tt, s') ∧ sv_table s' = sv_table s ∧
    sv_env s' = set_node n (sv_env s);
  sv_restart n s : ∃ s', lw_restart_clickhouse n s = (Ok tt, s') ∧ sv_table s' = sv_table s ∧
    sv_env s' = sv_env s;
  sv_delay s : ∃ d s', lw_random_delay s = (Ok d, s') ∧ sv_table s' = sv_table s ∧
    sv_env s' = sv_env s;
  sv_sleep d s : ∃ s', lw_sleep d s = (Ok tt, s') ∧ sv_table s' = sv_table s ∧ sv_env s' = sv_env s
}.

(** A server with two such tables, each of which is the other one of the other,
    and which answers the statements on both. *)
Class TwoTables (S : Type) `{LwdApi S} (json : string → list row → string)
    (json_count : nat → string) (works : bool) (t1 t2 : string) (supported : stmt → Prop) := {
  tw_first : Server S json json_count works t1 supported;
  tw_second : Server S json json_count works t2 supported;
  tw_other s : sv_table (Server := tw_second) s = e_other (sv_env (Server := tw_first) s);
  tw_env s : sv_env (Server := tw_second) s =
    with_other (sv_table (Server := tw_first) s) (sv_env (Server := tw_first) s);
  tw_query st n a s :
    q_settings a = mutations_sync →
    let tables := pair_exec st (sv_table (Server := tw_first) s) (sv_table (Server := tw_second) s) in
    ∃ s', lw_query n (pair_text t1 t2 st) a s = (Ok (mkResult 0 EmptyString), s') ∧
      sv_table (Server := tw_first) s' = tables.1 ∧
      sv_env (Server := tw_first) s' = with_other tables.2 (sv_env (Server := tw_first) s)
}.

(** ** Running steps on the server *)

(** The end of checks that are satisfied or not *)
Definition verdict (b : bool) : option unit := if b then Some tt else None.

Section runs.
Context {S : Type} `{LwdApi S} {json : string → list row → string} {json_count : nat → string}.
Context {works : bool} {t : string} {supported : stmt → Prop}.
Context {sv : Server S json json_count works t supported}.
Abbreviation M := (M S).
Abbreviation run st tb := (exec json json_count works st tb).

(** [ends m tb e o tb' e']: from the table [tb] and the context [e], [m] ends
    with the result [o], or with a failed assertion for [None], and leaves
    [tb'] and [e']. *)
Definition ends {A} (m : M A) tb e (o : option A) tb' e' : Prop :=
  ∀ s, sv_table s = tb → sv_env s = e → ∃ s', sv_table s' = tb' ∧ sv_env s' = e' ∧
    match o with
    | Some a => m s = (Ok a, s')
    | None => ∃ out, m s = (Exc (AssertionError out), s')
    end.

Lemma ends_ret {A} (a : A) tb e : ends (mret a) tb e (Some a) tb e.
Proof. intros s <- <-. by exists s. Qed.
Lemma ends_bind {A B} (m : M A) (f : A → M B) tb e a tb1 e1 o tb2 e2 :
  ends m tb e (Some a) tb1 e1 → ends (f a) tb1 e1 o tb2 e2 → ends (m ≫= f) tb e o tb2 e2.
Proof.
  intros Hm Hf s Ht He. destruct (Hm s Ht He) as (s1 & Ht1 & He1 & E).
  destruct (Hf s1 Ht1 He1) as (s2 & Ht2 & He2 & E2). exists s2. split_and!; [done..|].
  rewrite (M_bind_Ok _ _ _ _ _ E). by destruct o.
Qed.
Lemma ends_bind_fails {A B} (m : M A) (f : A → M B) tb e tb1 e1 :
  ends m tb e None tb1 e1 → ends (m ≫= f) tb e None tb1 e1.
Proof.
  intros Hm s Ht He. destruct (Hm s Ht He) as (s1 & Ht1 & He1 & out & E). exists s1.
  split_and!; [done..|]. exists out. unfold mbind, M_bind. by rewrite E.
Qed.
Lemma ends_query st n a tb e :
  supported st → (is_delete st = true → q_settings a = mutations_sync) →
  ends (lw_query n (stmt_text t st) a) tb e (Some (mkResult 0 (run st tb).2)) (run st tb).1 e.
Proof.
  intros Hs Ha s <- <-. destruct (sv_query st n a s Hs Ha) as (s' & E & Ht & He). by exists s'.
Qed.
Lemma ends_do_query st n a tb e :
  supported st → (is_delete st = true → q_settings a = mutations_sync) →
  ends (do_query n (stmt_text t st) a) tb e (Some tt) (run st tb).1 e.
Proof. intros. eapply ends_bind; [by apply ends_query|]. apply ends_ret. Qed.
Lemma ends_at_node {A} (f : string → M A) tb e o tb' e' :
  ends (f (e_node e)) tb e o tb' e' → ends (at_node None f) tb e o tb' e'.
Proof.
  apply ends_bind. intros s Ht <-. exists s. split_and!; [done..|]. apply sv_node.
Qed.
Lemma ends_expect st n expected tb e :
  supported st → is_delete st = false → (run st tb).1 = tb →
  ends (expect_output n (stmt_text t st) expected) tb e
    (verdict (String.eqb (run st tb).2 expected)) tb e.
Proof.
  intros Hs Hd Ht. eapply ends_bind; [by apply ends_query; [|rewrite Hd]|]. rewrite Ht.
  cbn [output]. intros s Hts Hes. exists s. split_and!; [done..|]. unfold assert_.
  destruct (String.eqb _ _); [done|by eexists].
Qed.
Lemma ends_finally {A} (m : M A) (f : M unit) tb e o tb1 e1 tb2 e2 :
  ends m tb e o tb1 e1 → ends f tb1 e1 (Some tt) tb2 e2 → ends (try_finally m f) tb e o tb2 e2.
Proof.
  intros Hm Hf s Ht He. destruct (Hm s Ht He) as (s1 & Ht1 & He1 & E).
  destruct (Hf s1 Ht1 He1) as (s2 & Ht2 & He2 & E2). exists s2. split_and!; [done..|].
  unfold try_finally. destruct o as [a|]; [by rewrite E, E2|].
  destruct E as (out & E). exists out. by rewrite E, E2.
Qed.
Lemma ends_te (m : M unit) tb e tb' e' :
  ends m tb e (Some tt) tb' e' → ends (finally_te m) tb e (Some tt) tb' e'.
Proof.
  intros Hm s Ht He. destruct (Hm s Ht He) as (s' & Ht' & He' & E).
  exists s'. unfold finally_te, try_except. by rewrite E.
Qed.
Lemma ends_for {X} (l : list X) (body : X → M unit) (f : X → stored → stored) tb e :
  (∀ x tb, x ∈ l → ends (body x) tb e (Some tt) (f x tb) e) →
  ends (for_ l body) tb e (Some tt) (fold_left (λ tb x, f x tb) l tb) e.
Proof.
  revert tb. induction l as [|x l IH]; intros tb Hb; cbn [for_ fold_left]; [apply ends_ret|].
  eapply ends_bind; [by apply Hb; left|]. apply IH. intros y tb1 Hy. apply Hb. by right.
Qed.
Lemma ends_sleep d tb e : ends (lw_sleep d) tb e (Some tt) tb e.
Proof. intros s <- <-. destruct (sv_sleep d s) as (s' & E & Ht & He). by exists s'. Qed.
Lemma ends_set_node n tb e : ends (lw_set_node n) tb e (Some tt) tb (set_node n e).
Proof. intros s <- <-. destruct (sv_set_node n s) as (s' & E & Ht & He). by exists s'. Qed.
Lemma ends_restart n tb e : ends (lw_restart_clickhouse n) tb e (Some tt) tb e.
Proof. intros s <- <-. destruct (sv_restart n s) as (s' & E & Ht & He). by exists s'. Qed.
Lemma ends_delay {A} (f : Z → M A) tb e o tb' e' :
  (∀ d, ends (f d) tb e o tb' e') → ends (d ← lw_random_delay; f d) tb e o tb' e'.
Proof.
  intros Hf s Ht He. destruct (sv_delay s) as (d & s1 & E & Ht1 & He1).
  destruct (Hf d s1) as (s' & Ht' & He' & E'); [congruence..|]. exists s'. split_and!; [done..|].
  rewrite (M_bind_Ok _ _ _ _ _ E). done.
Qed.
Lemma ends_engine tb e : ends lw_table_engine tb e (Some (e_engine e)) tb e.
Proof. intros s Ht <-. exists s. split_and!; [done..|]. apply sv_engine. Qed.
Lemma ends_use_alter tb e : ends lw_use_alter_delete tb e (Some (e_alter e)) tb e.
Proof. intros s Ht <-. exists s. split_and!; [done..|]. apply sv_use_alter. Qed.
Lemma ends_when b (m : M unit) tb e :
  ends m tb e (Some tt) tb e → ends (when b m) tb e (Some tt) tb e.
Proof. destruct b; [done|]. intros _. apply ends_ret. Qed.

Lemma ends_and (m m' : M unit) b b' tb e tb1 e1 :
  ends m tb e (verdict b) tb1 e1 → ends m' tb1 e1 (verdict b') tb1 e1 →
  ends (m;; m') tb e (verdict (b && b')) tb1 e1.
Proof.
  intros Hm Hm'. destruct b; simpl; [by eapply ends_bind|by apply ends_bind_fails].
Qed.

Lemma ends_same (m m' : M unit) b tb e tb1 e1 :
  ends m tb e (verdict b) tb1 e1 → ends m' tb1 e1 (verdict b) tb1 e1 →
  ends (m;; m') tb e (verdict b) tb1 e1.
Proof. intros. rewrite <-(andb_diag b). by eapply ends_and. Qed.
Lemma ends_then_nothing (m : M unit) b tb e tb1 e1 :
  ends m tb e (verdict b) tb1 e1 → ends (m;; mret tt) tb e (verdict b) tb1 e1.
Proof.
  intros. rewrite <-(andb_true_r b). eapply ends_and; [done|apply ends_ret].
Qed.

(** *** The steps *)

Lemma ends_create_table (body : M unit) tb e o tb1 e1 :
  e_engine e = "MergeTree" → supported Create → supported DropTable →
  ends body (mkStored [] []) e o tb1 e1 →
  ends (create_table t None EmptyString EmptyString body) tb e o (mkStored [] []) e1.
Proof.
  intros He Hc Hd Hb. eapply ends_bind; [apply ends_engine|]. rewrite He. apply ends_at_node.
  eapply (ends_finally _ _ _ _ _ tb1 e1).
  - eapply ends_bind; [by apply (ends_do_query Create)|]. exact Hb.
  - by apply ends_te, (ends_do_query DropTable).
Qed.

Lemma ends_insert partitions parts block tb e :
  e_engine e = "MergeTree" → supported (Insert (grid partitions (block * parts))) →
  ends (insert t (insert0 partitions parts block)) tb e (Some (mkResult 0 EmptyString))
    (run (Insert (grid partitions (block * parts))) tb).1 e.
Proof.
  intros He Hs. apply ends_at_node.
  eapply ends_bind; [apply ends_engine|]. rewrite He.
  by apply (ends_query (Insert (grid partitions (block * parts)))).
Qed.

(** A deletion with the given [delay], which waits for the mutation *)
Lemma ends_delete c a tb e :
  supported (Delete (e_alter e) c) → d_use_alter_delete a = false → d_check a = false →
  d_settings a = mutations_sync → d_node a = None →
  ends (delete_ t (cond_text c) a) tb e (Some tt) (run (Delete (e_alter e) c) tb).1 e.
Proof.
  intros Hs Hu Hc Hm Hn. unfold delete_, delete. rewrite Hu, Hc, Hn.
  eapply ends_bind; [|apply ends_ret]. apply ends_at_node.
  eapply ends_bind; [apply ends_use_alter|].
  eapply ends_bind; [by apply (ends_query (Delete (e_alter e) c))|].
  eapply ends_bind; [apply ends_ret|]. eapply ends_bind; [apply ends_when, ends_sleep|].
  apply ends_ret.
Qed.

Definition deleted_odd (alter : bool) (partitions : Z) (tb : stored) : stored :=
  fold_left (λ tb i, (run (Delete alter (EvenIn i)) tb).1) (range partitions) tb.
Lemma ends_delete_odd partitions tb e :
  (∀ i, i ∈ range partitions → supported (Delete (e_alter e) (EvenIn i))) →
  ends (delete_odd partitions t mutations_sync None) tb e (Some tt)
    (deleted_odd (e_alter e) partitions tb) e.
Proof.
  intros Hs. apply (ends_for _ _ (λ i tb, (run (Delete (e_alter e) (EvenIn i)) tb).1)).
  intros i tb1 Hi. apply ends_delay. intros d. by apply (ends_delete (EvenIn i)); [apply Hs|..].
Qed.

Lemma ends_alter st rest n tb e :
  supported st → stmt_text t st = "ALTER TABLE " +:+ t +:+ rest →
  ends (alter mutations_sync (Some n) t rest) tb e (Some tt) (run st tb).1 e.
Proof. intros Hs E. unfold alter. cbn [at_node]. rewrite <-E. by apply ends_do_query. Qed.

Lemma str_eqb n m : String.eqb (str_Z n) (str_Z m) = (n =? m).
Proof.
  destruct (Z.eqb_spec n m) as [->|Hn]; [apply String.eqb_refl|].
  apply String.eqb_neq. unfold str_Z. intros E. apply Hn. by apply (inj pretty).
Qed.

Definition same_length {X} (l k : list X) : option unit := verdict (Nat.eqb (length l) (length k)).
Lemma count_eqb (n m : nat) : String.eqb (str_Z (Z.of_nat n)) (str_Z (Z.of_nat m)) = Nat.eqb n m.
Proof. rewrite str_eqb. destruct (Nat.eqb_spec n m); lia. Qed.

(** A step of alter_after_delete passes when as many rows are left as were
    counted before. *)
Lemma ends_counted c (change : string → M unit) tb e tb1 :
  supported (Count (Some c)) → supported (Count None) →
  ends (change (e_node e)) tb e (Some tt) tb1 e →
  ends (counted None t (cond_text c) on_clickhouse1 change) tb e
    (same_length (rows tb1) (matching (Some c) (rows tb))) tb1 (set_node "clickhouse1" e).
Proof.
  intros Hc Hn Hch. apply ends_at_node.
  eapply ends_bind; [by apply (ends_query (Count (Some c)))|].
  eapply ends_bind; [exact Hch|]. cbn [check_nodes for_ on_clickhouse1 output].
  assert (Hx : ends (lw_set_node "clickhouse1";;
      expect_output "clickhouse1" (select_count t) (run (Count (Some c)) tb).2) tb1 e
      (same_length (rows tb1) (matching (Some c) (rows tb))) tb1 (set_node "clickhouse1" e)).
  { eapply ends_bind; [apply ends_set_node|]. unfold same_length.
    rewrite <-count_eqb, <-(str_app_nil_r (select_count t)). by apply (ends_expect (Count None)). }
  by apply ends_then_nothing.
Qed.
End runs.

(** ** The rows of the scenarios *)

Lemma filter_false {A} (P : A → bool) l : (∀ x, x ∈ l → P x = false) → List.filter P l = [].
Proof.
  induction l as [|x l IH]; intros HP; [done|]. simpl. rewrite (HP x) by by left.
  apply IH. intros y Hy. apply HP. by right.
Qed.
Lemma filter_same {A} (P Q : A → bool) l :
  (∀ x, x ∈ l → P x = Q x) → List.filter P l = List.filter Q l.
Proof.
  induction l as [|x l IH]; intros HP; [done|]. simpl. rewrite (HP x) by by left.
  rewrite IH; [done|]. intros y Hy. apply HP. by right.
Qed.
Lemma filter_filter {A} (P Q : A → bool) l :
  List.filter P (List.filter Q l) = List.filter (λ x, Q x && P x) l.
Proof.
  induction l as [|x l IH]; [done|]. simpl. destruct (Q x); simpl; [|done].
  by destruct (P x); rewrite IH.
Qed.
Lemma filter_fmap {A B} (P : B → bool) (f : A → B) l :
  length (List.filter P (f <$> l)) = length (List.filter (λ x, P (f x)) l).
Proof.
  induction l as [|x l IH]; [done|]. rewrite fmap_cons. cbn [List.filter].
  destruct (P (f x)); cbn [length]; by rewrite IH.
Qed.
(** Rows that satisfy one of two exclusive conditions *)
Lemma filter_either {A} (P Q R : A → bool) l :
  (∀ x, R x = P x || Q x) → (∀ x, P x && Q x = false) →
  length (List.filter R l) = (length (List.filter P l) + length (List.filter Q l))%nat.
Proof.
  intros HR Hd. induction l as [|x l IH]; [done|]. simpl. specialize (Hd x). rewrite HR.
  destruct (P x), (Q x); simpl; [done|lia..].
Qed.
(** A weaker condition that one more row satisfies *)
Lemma filter_more {A} (P Q : A → bool) l x :
  (∀ y, P y = true → Q y = true) → x ∈ l → Q x = true → P x = false →
  (length (List.filter P l) < length (List.filter Q l))%nat.
Proof.
  intros HPQ Hx HQ HP. assert (Hle : ∀ k, (length (List.filter P k) <= length (List.filter Q k))%nat).
  { induction k as [|y k IH]; [done|]. simpl. specialize (HPQ y).
    destruct (P y), (Q y); simpl; lia || by specialize (HPQ eq_refl). }
  induction Hx as [x l|x y l Hx IH]; simpl.
  - rewrite HQ, HP. simpl. specialize (Hle l). lia.
  - specialize (HPQ y) as Hy. specialize (IH HQ HP). destruct (P y), (Q y); simpl; lia || by specialize (Hy eq_refl).
Qed.

Lemma grid_spec partitions n r :
  r ∈ grid partitions n ↔ 0 <= r.1 < partitions ∧ 0 <= r.2 < n.
Proof.
  unfold grid, range. rewrite list_elem_of_bind. split.
  - intros (x & (y & Hr%list_elem_of_singleton & Hy)%list_elem_of_bind & Hx).
    apply elem_of_seqZ in Hx, Hy. subst r. simpl. lia.
  - intros [Hx Hy]. exists r.1. rewrite elem_of_seqZ. split; [|lia].
    apply list_elem_of_bind. exists r.2. rewrite elem_of_seqZ, list_elem_of_singleton.
    split; [by destruct r|lia].
Qed.
Lemma grid_first partitions n : 1 <= partitions → 1 <= n → (0, 0) ∈ grid partitions n.
Proof. intros. apply grid_spec. simpl. lia. Qed.

Section effects.
Context {json : string → list row → string} {json_count : nat → string}.

Lemma deleted_odd_works alter partitions tb :
  @deleted_odd json json_count true alter partitions tb =
  mkStored (List.filter (λ r, negb (existsb (λ i, holds (EvenIn i) r) (range partitions))) (rows tb))
    (detached tb).
Proof.
  unfold deleted_odd. generalize (range partitions) as l. intros l. revert tb.
  induction l as [|i l IH]; intros [rs ds]; cbn [fold_left existsb].
  - simpl. f_equal. induction rs as [|r rs IHr]; [done|]. simpl. by rewrite <-IHr.
  - rewrite IH. cbn [exec fst rows detached]. rewrite filter_filter. f_equal.
    apply filter_same. intros r _. by rewrite negb_orb.
Qed.
Lemma deleted_odd_idle alter partitions tb :
  @deleted_odd json json_count false alter partitions tb = tb.
Proof.
  unfold deleted_odd. generalize (range partitions) as l. intros l.
  induction l as [|i l IH]; [done|]. cbn [fold_left exec fst]. exact IH.
Qed.

Definition odd (r : row) : bool := negb (Z.even r.2).
Lemma odd_rows partitions r : 0 <= r.1 < partitions →
  negb (existsb (λ i, holds (EvenIn i) r) (range partitions)) = odd r.
Proof.
  intros Hr. unfold odd. f_equal. destruct (Z.even r.2) eqn:E.
  - apply existsb_exists. exists r.1. split; [apply list_elem_of_In, elem_of_seqZ; lia|].
    simpl. by rewrite Z.eqb_refl, E.
  - destruct (existsb _ _) eqn:Ex; [|done]. apply existsb_exists in Ex as (i & _ & Hi).
    simpl in Hi. by rewrite E, andb_false_r in Hi.
Qed.

(** After [delete_odd] the rows with an odd [x] are left, wherever they are
    among the partitions it goes through. *)
Lemma deleted_odd_spec (works : bool) alter partitions tb :
  (∀ r, r ∈ rows tb → 0 <= r.1 < partitions) →
  @deleted_odd json json_count works alter partitions tb =
  mkStored (if works then List.filter odd (rows tb) else rows tb) (detached tb).
Proof.
  intros Hr. destruct works; [|rewrite deleted_odd_idle; by destruct tb].
  rewrite deleted_odd_works. f_equal. apply filter_same. intros r Hin. by apply odd_rows, Hr.
Qed.
End effects.

(** ** The scenarios of alter_after_delete.py *)

(** The statements that the scenarios need the server to answer *)
Definition other_alters : list string :=
  [" FREEZE PARTITION '3'"; " UNFREEZE PARTITION '3' WITH NAME 'backup_name'";
   " ADD COLUMN IF NOT EXISTS added_column UInt32 DEFAULT 7 FIRST ";
   " DROP COLUMN IF EXISTS x"; " MODIFY COLUMN IF EXISTS x String DEFAULT '777'";
   " COMMENT COLUMN x 'hello'"].
Definition alter_statements (partitions n : Z) : list stmt :=
  [Create; DropTable; Insert (grid partitions n); Count None; Count (Some NotEven);
   Count (Some NotEvenOrId3); Count (Some NotEvenAndNotId3); Count (Some NotEvenOrNotId0);
   Count (Some NotEvenOrNotId3); Count (Some NotEvenAndId3);
   CountClear; Detach; Attach; DropPartition; ClearColumn] ++
  (OtherAlter <$> other_alters) ++
  (i ← range partitions; [Delete true (EvenIn i); Delete false (EvenIn i)]).

Section alter_checks.
Context {S : Type} `{LwdApi S} {json : string → list row → string} {json_count : nat → string}.
Context {works : bool} {supported : stmt → Prop} {uid : string}.
Let t := "table_" +:+ uid.
Context {sv : Server S json json_count works t supported}.
Variables (partitions parts block : Z) (e : env).
Let n := block * parts.
Hypothesis Hpartitions : 1 <= partitions.
Hypothesis Hn : 1 <= n.
Hypothesis Hengine : e_engine e = "MergeTree".
Hypothesis Hsupported : ∀ st, st ∈ alter_statements partitions n → supported st.
Let filled := mkStored (grid partitions n) [].

Ltac supports :=
  apply Hsupported, list_elem_of_In; cbn [alter_statements app List.In fmap list_fmap other_alters];
  repeat first [left; reflexivity | right].
Lemma supports_deletes alter i : i ∈ range partitions → supported (Delete alter (EvenIn i)).
Proof.
  intros Hi. apply Hsupported. apply elem_of_app. right. apply elem_of_app. right.
  apply list_elem_of_bind. exists i. split; [|done]. destruct alter; [left|right; left].
Qed.

(** A step that has passed or failed on the table *)
Definition decided (m : M S unit) : Prop := ∃ tb e', ends (sv := sv) m filled e (verdict works) tb e'.

Lemma after_insert_decided step tb :
  decided step → ∀ s, sv_table (Server := sv) s = tb → sv_env (Server := sv) s = e →
  ∃ s', if works then after_insert partitions parts block None uid step s = (Ok tt, s')
        else ∃ out, after_insert partitions parts block None uid step s = (Exc (AssertionError out), s').
Proof.
  intros (tb1 & e1 & Hs) s Ht He.
  assert (Hx : ends (sv := sv) (after_insert partitions parts block None uid step) tb e
                 (verdict works) (mkStored [] []) e1).
  { apply ends_at_node, ends_create_table with (tb1 := tb1); [done|supports..|].
    cbn [for_]. eapply ends_bind; [|exact Hs].
    eapply ends_bind; [|apply ends_ret]. eapply ends_bind; [|apply ends_ret].
    by apply ends_insert; [|supports]. }
  destruct (Hx s Ht He) as (s' & _ & _ & E). exists s'. by destruct works.
Qed.

Lemma ids_in_range r : r ∈ grid partitions n → 0 <= r.1 < partitions.
Proof. by intros [? _]%grid_spec. Qed.
Lemma odd_deleted alter tb :
  (∀ r, r ∈ rows tb → r ∈ grid partitions n) →
  deleted_odd (json := json) (json_count := json_count) (works := works) alter partitions tb =
  mkStored (if works then List.filter odd (rows tb) else rows tb) (detached tb).
Proof. intros Hr. apply deleted_odd_spec. intros r Hin. by apply ids_in_range, Hr. Qed.
Lemma ends_odd tb :
  (∀ r, r ∈ rows tb → r ∈ grid partitions n) →
  ends (sv := sv) (delete_odd partitions t mutations_sync None) tb e (Some tt)
    (mkStored (if works then List.filter odd (rows tb) else rows tb) (detached tb)) e.
Proof.
  intros Hr. rewrite <-(odd_deleted (e_alter e)) by done. apply ends_delete_odd.
  intros i. apply supports_deletes.
Qed.

(** Equally many rows when deletions work, too many otherwise: the row [(0, 0)]
    is one that should be gone. *)
Lemma decided_lengths (k k' l : list row) :
  length k = length l → (length l < length k')%nat →
  same_length (if works then k else k') l = verdict works.
Proof.
  intros Hk Hk'. unfold same_length, verdict. destruct works.
  - by rewrite Hk, Nat.eqb_refl.
  - by rewrite (proj2 (Nat.eqb_neq _ _)) by lia.
Qed.
Lemma fewer_rows (P Q : row → bool) :
  (∀ r, P r = true → Q r = true) → Q (0, 0) = true → P (0, 0) = false →
  (length (List.filter P (grid partitions n)) < length (List.filter Q (grid partitions n)))%nat.
Proof. intros HPQ. apply filter_more; [done|by apply grid_first]. Qed.

Lemma decided_counted c change tb1 k k' :
  supported (Count (Some c)) →
  ends (sv := sv) (change (e_node e)) filled e (Some tt) tb1 e →
  rows tb1 = (if works then k else k') →
  length k = length (List.filter (holds c) (grid partitions n)) →
  (length (List.filter (holds c) (grid partitions n)) < length k')%nat →
  decided (counted None t (cond_text c) on_clickhouse1 change).
Proof.
  intros Hc Hch Hr Hk Hk'. eexists _, _.
  rewrite <-(decided_lengths k k' (List.filter (holds c) (grid partitions n)) Hk Hk'), <-Hr.
  apply (ends_counted c); [done|supports|done].
Qed.

Lemma fewer_all (P : row → bool) :
  P (0, 0) = false →
  (length (List.filter P (grid partitions n)) < length (grid partitions n))%nat.
Proof.
  intros HP. assert (Hall : List.filter (λ _, true) (grid partitions n) = grid partitions n).
  { induction (grid partitions n) as [|r l IH]; [done|]. simpl. by rewrite IH. }
  rewrite <-Hall at 2. by apply fewer_rows.
Qed.

(** The table after [delete_odd] *)
Let remaining := if works then List.filter odd (grid partitions n) else grid partitions n.
Let after_odd := mkStored remaining [].
Lemma ends_odd_filled :
  ends (sv := sv) (delete_odd partitions t mutations_sync None) filled e (Some tt) after_odd e.
Proof. by apply (ends_odd filled). Qed.

(** Alterations that keep the rows *)
Lemma ends_other rest m tb : rest ∈ other_alters →
  ends (sv := sv) (alter mutations_sync (Some m) t rest) tb e (Some tt) tb e.
Proof.
  intros Hrest. apply (ends_alter (OtherAlter rest)); [|done].
  apply Hsupported. apply elem_of_app. right. apply elem_of_app. left.
  by apply list_elem_of_fmap_2.
Qed.
Lemma decided_other change :
  (∀ m, ends (sv := sv) (change m) filled e (Some tt) after_odd e) →
  decided (counted None t (cond_text NotEven) on_clickhouse1 change).
Proof.
  intros Hc. apply (decided_counted NotEven _ after_odd
    (List.filter odd (grid partitions n)) (grid partitions n)); [supports|done..|].
  by apply fewer_all.
Qed.
Lemma delete_then rest m : rest ∈ other_alters →
  ends (sv := sv) (delete_odd partitions t mutations_sync None;;
                   alter mutations_sync (Some m) t rest) filled e (Some tt) after_odd e.
Proof. intros Hr. eapply ends_bind; [apply ends_odd_filled|by apply ends_other]. Qed.

(** Detached and dropped partitions *)
Lemma not_3_lengths :
  length (List.filter (λ r, negb (in_3 r)) (List.filter odd (grid partitions n))) =
    length (List.filter (holds NotEvenOrId3) (grid partitions n)) ∧
  (length (List.filter (holds NotEvenOrId3) (grid partitions n)) <
   length (List.filter (λ r, negb (in_3 r)) (grid partitions n)))%nat.
Proof.
  split.
  - rewrite filter_filter. f_equal. apply filter_same. intros r _. unfold odd, in_3. simpl.
    by rewrite negb_orb.
  - apply fewer_rows; [|done..]. intros r. unfold in_3. simpl. rewrite negb_orb.
    by intros [_ ?]%andb_true_iff.
Qed.
Lemma decided_without_3 st rest :
  supported st → stmt_text t st = "ALTER TABLE " +:+ t +:+ rest →
  (∀ tb, rows (exec json json_count works st tb).1 = List.filter (λ r, negb (in_3 r)) (rows tb)) →
  decided (counted None t (cond_text NotEvenOrId3) on_clickhouse1 (λ m,
    delete_odd partitions t mutations_sync None;; alter mutations_sync (Some m) t rest)).
Proof.
  intros Hs Ht Hr. destruct not_3_lengths as [H1 H2]. eapply (decided_counted NotEvenOrId3 _ _
    (List.filter (λ r, negb (in_3 r)) (List.filter odd (grid partitions n)))
    (List.filter (λ r, negb (in_3 r)) (grid partitions n))); [supports| | |done..].
  - eapply ends_bind; [apply ends_odd_filled|]. by apply (ends_alter st).
  - rewrite Hr. cbn [rows after_odd]. unfold remaining. by destruct works.
Qed.

(** A partition that is away during the deletion and comes back *)
Lemma decided_attach :
  decided (attach_partition_after_delete_in_the_table t partitions "3" on_clickhouse1 None).
Proof.
  set (g := grid partitions n). set (others := List.filter (λ r, negb (in_3 r)) g).
  assert (Hsplit : ∀ P, (∀ r, holds NotEvenAndNotId3 r = P r || in_3 r) → (∀ r, P r && in_3 r = false) →
    length (List.filter P g ++ List.filter in_3 g) =
    length (List.filter (holds NotEvenAndNotId3) g)).
  { intros P HP Hd. rewrite length_app. symmetry. by apply filter_either. }
  eapply (decided_counted NotEvenAndNotId3 _ _ (List.filter odd others ++ List.filter in_3 g)
    (others ++ List.filter in_3 g)); [supports| | | |].
  - eapply ends_bind; [apply (ends_alter Detach); [supports|done]|]. cbn [exec fst rows detached app].
    eapply ends_bind; [apply (ends_odd (mkStored _ _))|by apply (ends_alter Attach); [supports|]].
    cbn [rows]. intros r [Hr _]%list_elem_of_In%filter_In. by apply list_elem_of_In.
  - cbn [exec fst rows detached]. fold g others. by destruct works.
  - unfold others. rewrite filter_filter. apply Hsplit; intros r; unfold in_3, odd; simpl;
      by destruct (Z.even r.2), (r.1 =? 3).
  - apply Nat.lt_le_trans with (length g).
    + by apply fewer_all.
    + unfold others. rewrite length_app, <-(filter_either _ _ (λ _, true)).
      * clear. induction g as [|r l IH]; [done|]. simpl. lia.
      * intros r. by destruct (in_3 r).
      * intros r. by destruct (in_3 r).
Qed.

(** The cleared column: the rows of partition 0, and all of them *)
Lemma cleared_lengths :
  let zero := λ r : row, r.2 =? 0 in
  length (List.filter zero (clear_0 <$> List.filter odd (grid partitions n))) =
    length (List.filter (holds NotEvenOrNotId0) (grid partitions n)) ∧
  (length (List.filter (holds NotEvenOrNotId0) (grid partitions n)) <
   length (List.filter zero (clear_0 <$> grid partitions n)))%nat.
Proof.
  cbv zeta. rewrite !filter_fmap. split.
  - rewrite filter_filter. f_equal. apply filter_same. intros [x y] _. unfold odd, clear_0. simpl.
    destruct (Z.eqb_spec x 0); simpl; [by destruct (Z.even y)|].
    destruct (Z.eqb_spec y 0) as [->|]; simpl; [done|by destruct (Z.even y)].
  - apply fewer_rows; [|done..]. intros [x y]. unfold clear_0. simpl.
    destruct (Z.eqb_spec x 0); simpl; [done|by rewrite orb_true_r].
Qed.
Lemma decided_clear :
  decided (clear_column_after_delete_in_the_table t partitions on_clickhouse1 None "x").
Proof.
  destruct cleared_lengths as [H1 H2]. eexists _, _. apply ends_at_node.
  eapply ends_bind; [by apply (ends_query (Count (Some NotEvenOrNotId0))); [supports|]|].
  eapply ends_bind; [by apply (ends_query (Count (Some NotEven))); [supports|]|].
  eapply ends_bind; [apply ends_odd_filled|].
  eapply ends_bind; [by apply (ends_alter ClearColumn); [supports|]|].
  cbn [for_ on_clickhouse1 exec fst snd rows detached matching output after_odd].
  assert (Hclear : String.eqb
      (str_Z (Z.of_nat (length (List.filter (λ r : row, r.2 =? 0) (clear_0 <$> remaining)))))
      (str_Z (Z.of_nat (length (List.filter (holds NotEvenOrNotId0) (grid partitions n))))) = works).
  { rewrite count_eqb. unfold remaining. destruct works.
    - by rewrite H1, Nat.eqb_refl.
    - apply Nat.eqb_neq. lia. }
  assert (Hall : String.eqb
      (str_Z (Z.of_nat (length (matching None (clear_0 <$> remaining)))))
      (str_Z (Z.of_nat (length (List.filter (holds NotEven) (grid partitions n))))) = works).
  { rewrite count_eqb. cbn [matching]. rewrite length_fmap. unfold remaining. destruct works.
    - apply Nat.eqb_refl.
    - apply Nat.eqb_neq. assert (length (List.filter (holds NotEven) (grid partitions n)) <
        length (grid partitions n))%nat by by apply fewer_all. lia. }
  apply (ends_then_nothing _ _ _ _ (mkStored (clear_0 <$> remaining) []) (set_node "clickhouse1" e)).
  eapply ends_bind; [apply ends_set_node|].
  apply ends_same.
  - pose proof (ends_expect (sv := sv) CountClear "clickhouse1"
      (str_Z (Z.of_nat (length (List.filter (holds NotEvenOrNotId0) (grid partitions n)))))
      (mkStored (clear_0 <$> remaining) []) (set_node "clickhouse1" e)) as Hc.
    cbn [exec snd rows] in Hc. rewrite Hclear in Hc. apply Hc; [supports|done..].
  - pose proof (ends_expect (sv := sv) (Count None) "clickhouse1"
      (str_Z (Z.of_nat (length (List.filter (holds NotEven) (grid partitions n)))))
      (mkStored (clear_0 <$> remaining) []) (set_node "clickhouse1" e)) as Hc.
    cbn [exec snd rows] in Hc. rewrite Hall in Hc.
    rewrite <-(str_app_nil_r (select_count t)). apply Hc; [supports|done..].
Qed.

Lemma single_scenarios_decided uid' scenario :
  scenario ∈ take 10 (alter_after_delete partitions parts block None uid uid') →
  ∃ step, scenario = after_insert partitions parts block None uid step ∧ decided step.
Proof.
  unfold alter_after_delete. cbn [take]. fold t.
  repeat (intros [->|Hin]%elem_of_cons; [eexists; split; [reflexivity|]|revert Hin]).
  - by apply (decided_without_3 Detach); [supports|..].
  - by apply (decided_without_3 DropPartition); [supports|..].
  - apply decided_attach.
  - apply decided_other. intros m. apply delete_then. by apply (bool_decide_unpack _).
  - apply decided_other. intros m. eapply ends_bind; [by apply ends_other, (bool_decide_unpack _)|].
    apply delete_then. by apply (bool_decide_unpack _).
  - apply decided_other. intros m. apply delete_then. by apply (bool_decide_unpack _).
  - apply decided_other. intros m. apply delete_then. by apply (bool_decide_unpack _).
  - apply decided_clear.
  - apply decided_other. intros m. apply delete_then. by apply (bool_decide_unpack _).
  - apply decided_other. intros m. apply delete_then. by apply (bool_decide_unpack _).
  - by intros ?%elem_of_nil.
Qed.
End alter_checks.

(** Two checks, the second of which fails unless [w] *)
Lemma decides_last (w k : bool) (x y : nat) :
  (w = true → k = true ∧ x = y) → (w = false → y < x)%nat → k && Nat.eqb x y = w.
Proof.
  intros Ht Hf. destruct w.
  - destruct (Ht eq_refl) as [-> ->]. apply Nat.eqb_refl.
  - rewrite (proj2 (Nat.eqb_neq _ _)) by (specialize (Hf eq_refl); lia). apply andb_false_r.
Qed.

(** The scenarios on two tables *)
Section pair_checks.
Context {S : Type} `{LwdApi S} {json : string → list row → string} {json_count : nat → string}.
Context {works : bool} {supported : stmt → Prop} {uid uid' : string}.
Let t1 := "table_" +:+ uid +:+ "_1".
Let t2 := "table_" +:+ uid' +:+ "_2".
Context {tw : TwoTables S json json_count works t1 t2 supported}.
Abbreviation sv1 := (tw_first (TwoTables := tw)).
Abbreviation sv2 := (tw_second (TwoTables := tw)).
Variables (partitions parts block : Z) (e : env).
Let n := block * parts.
Hypothesis Hpartitions : 1 <= partitions.
Hypothesis Hn : 1 <= n.
Hypothesis Hengine : e_engine e = "MergeTree".
Hypothesis Hsupported : ∀ st, st ∈ alter_statements partitions n → supported st.
Let g := grid partitions n.
Let filled := mkStored g [].

Ltac supports :=
  apply Hsupported, list_elem_of_In; cbn [alter_statements app List.In fmap list_fmap other_alters];
  repeat first [left; reflexivity | right].

(** A run on both tables, seen from the first one *)
Definition both {A} (m : M S A) a b (o : option A) a' b' : Prop :=
  ends (sv := sv1) m a (with_other b e) o a' (with_other b' e).
Lemma both_second {A} (m : M S A) a b o a' b' :
  both m a b o a' b' ↔ ends (sv := sv2) m b (with_other a e) o b' (with_other a' e).
Proof.
  split; intros Hm s Ht He.
  - destruct (Hm s) as (s' & Ht' & He' & E).
    + pose proof (tw_env s) as Hs. rewrite He in Hs. by inversion Hs.
    + pose proof (tw_env s) as Hs. rewrite He in Hs. rewrite tw_other in Ht.
      destruct (sv_env s) as [? ? ? ?]. inversion Hs. cbn in *. by subst.
    + exists s'. split_and!; [by rewrite tw_other, He'|by rewrite tw_env, He', Ht'|done].
  - destruct (Hm s) as (s' & Ht' & He' & E).
    + by rewrite tw_other, He.
    + by rewrite tw_env, He, Ht.
    + exists s'. rewrite tw_env in He'. rewrite tw_other in Ht'. split_and!; [by inversion He'| |done].
      destruct (sv_env s') as [? ? ? ?]. inversion He'. cbn in *. by subst.
Qed.
Lemma both_pair st m a b rest :
  pair_text t1 t2 st = "ALTER TABLE " +:+ m +:+ rest →
  both (alter mutations_sync None m rest) a b (Some tt) (pair_exec st a b).1 (pair_exec st a b).2.
Proof.
  intros Ht. apply ends_at_node. rewrite <-Ht. eapply ends_bind; [|apply ends_ret].
  intros s Hts Hes. destruct (tw_query st (e_node (with_other b e)) (query_with mutations_sync false) s
    eq_refl) as (s' & E & Ht1 & He1). exists s'. rewrite tw_other, Hts, Hes in Ht1, He1. cbn in *.
  by rewrite E.
Qed.

Lemma both_bind {A B} (m : M S A) (f : A → M S B) a b x a1 b1 o a2 b2 :
  both m a b (Some x) a1 b1 → both (f x) a1 b1 o a2 b2 → both (m ≫= f) a b o a2 b2.
Proof. apply ends_bind. Qed.
Lemma both_assert (k : bool) out a b : both (assert_ k out) a b (verdict k) a b.
Proof.
  intros s Ht He. exists s. split; [exact Ht|]. split; [exact He|]. unfold assert_.
  destruct k; [done|by eexists].
Qed.
Lemma both_count1 node c a b :
  supported (Count c) →
  both (lw_query node (select_count t1 +:+ where_text c) query0) a b
    (Some (mkResult 0 (str_Z (Z.of_nat (length (matching c (rows a))))))) a b.
Proof. intros. by apply (ends_query (Count c)). Qed.
Lemma both_count2 node c a b :
  supported (Count c) →
  both (lw_query node (select_count t2 +:+ where_text c) query0) a b
    (Some (mkResult 0 (str_Z (Z.of_nat (length (matching c (rows b))))))) a b.
Proof. intros. apply both_second. by apply (ends_query (Count c)). Qed.
Lemma both_expect1 node k a b :
  both (expect_output node (select_count t1) (str_Z (Z.of_nat k))) a b
    (verdict (Nat.eqb (length (rows a)) k)) a b.
Proof.
  rewrite <-count_eqb, <-(str_app_nil_r (select_count t1)).
  by apply (ends_expect (Count None)); [supports|..].
Qed.
Lemma both_expect2 node k a b :
  both (expect_output node (select_count t2) (str_Z (Z.of_nat k))) a b
    (verdict (Nat.eqb (length (rows b)) k)) a b.
Proof.
  apply both_second. rewrite <-count_eqb, <-(str_app_nil_r (select_count t2)).
  by apply (ends_expect (Count None)); [supports|..].
Qed.
Lemma both_delete_odd b :
  both (delete_odd partitions t1 mutations_sync None) filled b (Some tt)
    (mkStored (if works then List.filter odd g else g) []) b.
Proof. by apply (ends_odd (uid := uid +:+ "_1") (sv := sv1) partitions parts block). Qed.

(** The tables are created, filled and dropped around the step. *)
Lemma after_inserts_ends step a b o a' b' :
  both (step (e_node e)) filled filled o a' b' →
  both (after_inserts partitions parts block None uid uid' step) a b o (mkStored [] []) (mkStored [] []).
Proof.
  intros Hs. apply ends_at_node. eapply ends_create_table; [done|supports..|].
  apply both_second. eapply ends_create_table; [done|supports..|]. apply both_second.
  eapply both_bind; [by apply ends_insert; [|supports]|]. apply both_second.
  eapply ends_bind; [by apply ends_insert; [|supports]|]. apply both_second. exact Hs.
Qed.

(** The rows of partition 3, with an odd [x] or not *)
Lemma moved_lengths :
  length (List.filter in_3 (List.filter odd g)) = length (List.filter (holds NotEvenOrNotId3) g) ∧
  length (List.filter (λ r, negb (in_3 r)) g ++ List.filter in_3 (List.filter odd g)) =
    length (List.filter (holds NotEvenAndId3) g).
Proof.
  split.
  - rewrite filter_filter. f_equal. apply filter_same. intros r _. unfold odd, in_3. simpl.
    by rewrite negb_orb, negb_involutive.
  - rewrite length_app, filter_filter. symmetry. apply filter_either; intros r; unfold odd, in_3; simpl;
      by destruct (Z.even r.2), (r.1 =? 3).
Qed.

(** The check of the first table decides, if the one before it passes when
    deletions work. *)
Lemma both_last node a b (k : bool) c (m : M S unit) :
  both m a b (verdict k) a b →
  (works = true → k = true ∧ length (rows a) = length (List.filter (holds c) g)) →
  (works = false → length (List.filter (holds c) g) < length (rows a))%nat →
  both (m;; expect_output node (select_count t1) (str_Z (Z.of_nat (length (List.filter (holds c) g)))))
    a b (verdict works) a b.
Proof.
  intros Hm Hl Hi. rewrite <-(decides_last works k (length (rows a))
    (length (List.filter (holds c) g))) by done.
  eapply ends_and; [exact Hm|]. apply both_expect1.
Qed.

Let remaining := if works then List.filter odd g else g.
Lemma remaining_works : works = true → remaining = List.filter odd g.
Proof. unfold remaining. by intros ->. Qed.
Lemma remaining_idle : works = false → remaining = g.
Proof. unfold remaining. by intros ->. Qed.

Lemma move_decided a b :
  both (move_partition_after_delete partitions parts block None uid uid') a b (verdict works)
    (mkStored [] []) (mkStored [] []).
Proof.
  destruct moved_lengths as [Hm _], (not_3_lengths partitions parts block) as [H1 H2]; [done..|].
  eapply after_inserts_ends.
  eapply both_bind; [rewrite <-(str_app_nil_r (select_count _)); by apply (both_count2 _ None); supports|].
  eapply both_bind; [by apply (both_count1 _ (Some NotEvenOrNotId3)); supports|].
  eapply both_bind; [by apply (both_count2 _ (Some NotEvenOrId3)); supports|].
  eapply both_bind; [apply both_delete_odd|]. eapply both_bind; [by apply (both_pair Move)|].
  eapply both_bind; [rewrite <-(str_app_nil_r (select_count _)); by apply (both_count2 _ None); supports|].
  unfold int_output. cbn [pair_exec fst snd rows detached output matching]. fold remaining.
  rewrite !py_int_str_Z by lia. cbn [or_raise lift].
  eapply both_bind; [apply ends_ret|]. eapply both_bind; [apply ends_ret|].
  rewrite <-Nat2Z.inj_add, count_eqb. eapply both_last; cbn [rows].
  - apply both_assert.
  - intros Hw. rewrite (remaining_works Hw), length_app, Hm. by rewrite Nat.eqb_refl.
  - intros Hw. by rewrite (remaining_idle Hw).
Qed.
Lemma replace_decided a b :
  both (replace_partition_after_delete partitions parts block None uid uid') a b (verdict works)
    (mkStored [] []) (mkStored [] []).
Proof.
  destruct moved_lengths as [_ Hm]. eapply after_inserts_ends.
  eapply both_bind; [by apply (both_count1 _ (Some NotEvenAndId3)); supports|].
  eapply both_bind; [by apply (both_count2 _ (Some NotEven)); supports|].
  eapply both_bind; [apply both_delete_odd|]. eapply both_bind; [by apply (both_pair Replace)|].
  cbn [pair_exec fst snd rows detached output matching]. fold remaining.
  eapply both_last; [apply both_expect2|..]; cbn [rows].
  - intros Hw. rewrite (remaining_works Hw). change (rows filled) with g. rewrite Hm. by rewrite Nat.eqb_refl.
  - intros Hw. rewrite (remaining_idle Hw). by apply fewer_all.
Qed.

Lemma both_decides (m : M S unit) (s : S) :
  both m (sv_table (Server := sv1) s) (e_other (sv_env (Server := sv1) s)) (verdict works)
    (mkStored [] []) (mkStored [] []) →
  with_other (e_other (sv_env (Server := sv1) s)) e = sv_env (Server := sv1) s →
  ∃ s', if works then m s = (Ok tt, s') else ∃ out, m s = (Exc (AssertionError out), s').
Proof.
  intros Hm He. destruct (Hm s eq_refl (eq_sym He)) as (s' & _ & _ & E). exists s'.
  revert E. generalize works. by intros [].
Qed.
End pair_checks.

(** C13: on a server that keeps the tables of the test and answers its
    statements as documented, each of the twelve scenarios of
    alter_after_delete.py, with the tables of the engine MergeTree, any number
    of partitions and rows and either form of [DELETE], ends normally when
    deletions work, and with a failed assertion when they do nothing. *)
Theorem alter_checks_decide {S} `{LwdApi S} json json_count works supported uid uid'
    (sv : Server S json json_count works ("table_" +:+ uid) supported)
    (tw : TwoTables S json json_count works ("table_" +:+ uid +:+ "_1") ("table_" +:+ uid' +:+ "_2")
            supported)
    partitions parts block (scenario : M S unit) (s : S) :
  1 <= partitions → 1 <= block * parts → e_engine (sv_env (Server := sv) s) = "MergeTree" →
  (∀ st, st ∈ alter_statements partitions (block * parts) → supported st) →
  scenario ∈ alter_after_delete partitions parts block None uid uid' →
  ∃ s', if works then scenario s = (Ok tt, s')
        else ∃ out, scenario s = (Exc (AssertionError out), s').
Proof.
  intros Hp Hn He Hs Hin.
  rewrite <-(firstn_skipn 10) in Hin. apply elem_of_app in Hin as [Hin|Hin].
  - destruct (single_scenarios_decided partitions parts block (sv_env (Server := sv) s)
      Hp Hn Hs uid' scenario Hin) as (step & -> & Hd).
    by eapply (after_insert_decided (sv := sv)).
  - assert (He' : e_engine (sv_env (Server := tw_first (TwoTables := tw)) s) = "MergeTree").
    { pose proof (sv_engine (Server := sv) s) as E.
      rewrite (sv_engine (Server := tw_first (TwoTables := tw))) in E. congruence. }
    eapply (both_decides (tw := tw)); [|apply with_other_same]. cbn [skipn alter_after_delete] in Hin.
    apply elem_of_cons in Hin as [->|[->|[]%elem_of_nil]%elem_of_cons].
    + by apply move_decided.
    + by apply replace_decided.
Qed.

(** ** The scenarios of basic_checks.py *)

Definition subsets : list cond := [XLess 10; XMore 10; IdLess 5].
Definition deletions : list cond := subsets ++ [IdMore (-1); IdLess 0; IdLess (-1)].
Definition insert_rows (a : insert_args) : list row :=
  grid (i_partitions a) (i_block_size a * i_parts_per_partition a).
Definition basic_statements (l : list insert_args) : list stmt :=
  [Create; DropTable; CountJSON; Count None; Rows None "id, x"; Rows (Some (IdLess 0)) "id"; Insert [(-1, -1)]] ++
  (c ← subsets; [Count (Some c); Rows (Some c) "id, x"; Rows (Some c) "id"]) ++
  (c ← deletions; [Delete true c; Delete false c]) ++
  ((λ a, Insert (insert_rows a)) <$> l).
(** Inserts like those of the features *)
Definition plain_insert (a : insert_args) : Prop :=
  a = insert0 (i_partitions a) (i_parts_per_partition a) (i_block_size a) ∧
  1 <= i_partitions a ∧ 12 <= i_block_size a * i_parts_per_partition a.

Section basic_checks.
Context {S : Type} `{LwdApi S} {json : string → list row → string} {json_count : nat → string}.
Context {works : bool} {supported : stmt → Prop} {uid : string}.
Let t := "table_" +:+ uid.
Context {sv : Server S json json_count works t supported}.
Variables (l : list insert_args) (e : env).
Hypothesis Hjson_nil : ∀ o, json o [] = EmptyString.
Hypothesis Hjson_cons : ∀ o r k, json o (r :: k) ≠ EmptyString.
Hypothesis Hengine : e_engine e = "MergeTree".
Hypothesis Hsupported : ∀ st, st ∈ basic_statements l → supported st.
Hypothesis Hplain : Forall plain_insert l.
Hypothesis Hsome : l ≠ [].
Let all := l ≫= insert_rows.
Let filled := mkStored all [].

Ltac supports :=
  apply Hsupported, list_elem_of_In; cbn; repeat first [left; reflexivity | right].
Lemma supports_delete alter c : c ∈ deletions → supported (Delete alter c).
Proof.
  intros Hc. apply Hsupported. unfold basic_statements. rewrite !elem_of_app.
  right; right; left. apply list_elem_of_bind. exists c. split; [|done].
  destruct alter; [left|right; left].
Qed.
Lemma supports_subset c st : c ∈ subsets →
  st ∈ [Count (Some c); Rows (Some c) "id, x"; Rows (Some c) "id"] → supported st.
Proof.
  intros Hc Hst. apply Hsupported. unfold basic_statements. rewrite !elem_of_app.
  right; left. apply list_elem_of_bind. by exists c.
Qed.

Lemma rows_nonneg r : r ∈ all → 0 <= r.1 ∧ 0 <= r.2.
Proof. intros (a & Hr & _)%list_elem_of_bind. apply grid_spec in Hr. lia. Qed.
Lemma some_insert : ∃ a, a ∈ l ∧ plain_insert a.
Proof.
  clear - Hplain Hsome. destruct l as [|a k]; [done|]. exists a. inversion Hplain; subst.
  split; [left|done].
Qed.
Lemma row_0 y : 0 <= y < 12 → (0, y) ∈ all.
Proof.
  intros Hy. destruct some_insert as (a & Ha & _ & Hp & Hn). apply list_elem_of_bind. exists a.
  split; [|done]. apply grid_spec. simpl. lia.
Qed.
Lemma no_filter (P : row → bool) k : List.filter P (List.filter (λ r, negb (P r)) k) = [].
Proof.
  apply filter_false. intros r [_ Hr]%list_elem_of_In%filter_In. by apply negb_true_iff.
Qed.

(** The rows that a check asks for and their number *)
Definition checks_ok (c : option cond) (number : nat) (tb : stored) : bool :=
  bool_decide (matching c (rows tb) = []) && Nat.eqb (length (rows tb)) number.
Lemma ends_checks n c order number tb :
  supported (Rows c order) → supported (Count None) →
  ends (sv := sv) (expect_output n (rows_json t (where_text c +:+ " ORDER BY " +:+ order)) EmptyString;;
        expect_output n (select_count t) (str_Z (Z.of_nat number)))
    tb e (verdict (checks_ok c number tb)) tb e.
Proof.
  intros Hr Hc. unfold checks_ok. eapply ends_and.
  - pose proof (ends_expect (sv := sv) (Rows c order) n EmptyString tb e Hr eq_refl eq_refl) as Hx.
    replace (bool_decide _) with (String.eqb (json order (matching c (rows tb))) EmptyString); [exact Hx|].
    destruct (matching c (rows tb)) as [|r k]; [by rewrite Hjson_nil|].
    by apply String.eqb_neq, Hjson_cons.
  - pose proof (ends_expect (sv := sv) (Count None) n (str_Z (Z.of_nat number)) tb e Hc eq_refl eq_refl)
      as Hx. cbn [exec snd matching] in Hx. rewrite count_eqb in Hx.
    rewrite <-(str_app_nil_r (select_count t)). exact Hx.
Qed.

Lemma ends_restart_and n (m : M S unit) b tb :
  ends (sv := sv) m tb e (verdict b) tb e → ends (sv := sv) (restart_and n m) tb e (verdict b) tb e.
Proof. intros Hm. eapply ends_bind; [apply ends_restart|exact Hm]. Qed.

(** The deletion, the checks, and the checks after the restart *)
Lemma ends_delete_and_check n c w order order' number tb :
  c ∈ deletions →
  supported (Rows w order) → supported (Rows w order') →
  let checks order :=
    expect_output n (rows_json t (where_text w +:+ " ORDER BY " +:+ order)) EmptyString;;
    expect_output n (select_count t) (str_Z (Z.of_nat number)) in
  let tb' := (exec json json_count works (Delete (e_alter e) c) tb).1 in
  ends (sv := sv) (delete_ t (cond_text c) delete0;; checks order;; restart_and n (checks order'))
    tb e (verdict (checks_ok w number tb')) tb' e.
Proof.
  intros Hc Hr Hr' checks tb'. eapply ends_bind.
  - apply (ends_delete c); [by apply supports_delete|done..].
  - apply ends_same; [apply ends_checks; [done|supports]|].
    apply ends_restart_and, ends_checks; [done|supports].
Qed.

Lemma ends_verdict (m : M S unit) b b' tb e1 tb' e' :
  ends (sv := sv) m tb e1 (verdict b) tb' e' → b = b' → ends (sv := sv) m tb e1 (verdict b') tb' e'.
Proof. by intros ? <-. Qed.

(** What is left passes the checks exactly when the deletion has worked. *)
Lemma checks_decide c w number tb :
  matching w (List.filter (λ r, negb (holds c r)) (rows tb)) = [] →
  length (List.filter (λ r, negb (holds c r)) (rows tb)) = number →
  matching w (rows tb) ≠ [] →
  ∀ alter, checks_ok w number (exec json json_count works (Delete alter c) tb).1 = works.
Proof.
  intros Hw Hn Hb alter. unfold checks_ok. cbn [exec fst]. destruct works; cbn [rows].
  - by rewrite Hw, Hn, Nat.eqb_refl.
  - by rewrite bool_decide_eq_false_2.
Qed.

Definition decided_basic (m : M S unit) : Prop :=
  ∃ tb e', ends (sv := sv) m filled e (verdict works) tb e'.

Lemma keeps_row (P : row → bool) y :
  0 <= y < 12 → P (0, y) = true → List.filter P all ≠ [].
Proof.
  intros Hy HP Hnil. assert (Hin : (0, y) ∈ List.filter P all).
  { apply list_elem_of_In, filter_In. split; [|done]. by apply list_elem_of_In, row_0. }
  rewrite Hnil in Hin. by apply elem_of_nil in Hin.
Qed.

Lemma decided_all_rows : decided_basic (delete_all_rows t None).
Proof.
  eexists _, _. apply ends_at_node.
  assert (Hnone : List.filter (λ r, negb (holds (IdMore (-1)) r)) all = []).
  { apply filter_false. intros r Hr%rows_nonneg. apply negb_false_iff, Z.ltb_lt. lia. }
  eapply ends_verdict.
  - apply (ends_delete_and_check _ (IdMore (-1)) None "id, x" "id, x" 0);
      [by apply (bool_decide_unpack _)|supports..].
  - apply checks_decide; cbn [rows filled matching]; [done|by rewrite Hnone|].
    intros Hnil. pose proof (row_0 0 ltac:(lia)) as H0. rewrite Hnil in H0. by apply elem_of_nil in H0.
Qed.

Lemma length_rest (P : row → bool) k :
  length (List.filter (λ r, negb (P r)) k) = (length k - length (List.filter P k))%nat.
Proof.
  assert (length (List.filter P k) + length (List.filter (λ r, negb (P r)) k) = length k)%nat; [|lia].
  induction k as [|r k IH]; [done|]. simpl. destruct (P r); simpl; lia.
Qed.

Lemma decided_subset c order y :
  c ∈ subsets → order ∈ ["id, x"; "id"] → 0 <= y < 12 → holds c (0, y) = true →
  decided_basic (delete_subset t None (cond_text c) order).
Proof.
  intros Hc Ho Hy Hh. eexists _, _. apply ends_at_node.
  assert (Hs : ∀ st, st ∈ [Count (Some c); Rows (Some c) "id, x"; Rows (Some c) "id"] → supported st).
  { intros st. by apply supports_subset. }
  assert (Horder : supported (Rows (Some c) order)).
  { apply Hs. apply elem_of_cons in Ho as [->|[->|[]%elem_of_nil]%elem_of_cons];
      [right; left|right; right; left]. }
  eapply ends_bind.
  { rewrite <-(str_app_nil_r (select_count t)). by apply (ends_query (Count None)); [supports|]. }
  eapply ends_bind; [by apply (ends_query (Count (Some c))); [apply Hs; left|]|].
  cbn [exec fst snd matching rows filled]. unfold int_output. cbn [output].
  rewrite !py_int_str_Z by lia. cbn [or_raise lift].
  eapply ends_bind; [apply ends_ret|]. eapply ends_bind; [apply ends_ret|].
  rewrite <-Nat2Z.inj_sub by apply filter_length_le. eapply ends_verdict.
  - rewrite <-!(str_app_assoc " WHERE ").
    apply (ends_delete_and_check _ c (Some c) "id, x" order); [|apply Hs; right; left|done].
    by apply elem_of_app; left.
  - apply checks_decide; cbn [rows filled matching]; [apply no_filter|apply length_rest|].
    by apply (keeps_row _ y).
Qed.

Lemma decided_one_row : decided_basic (delete_one_row t None).
Proof.
  eexists _, _. apply ends_at_node.
  eapply ends_bind.
  { rewrite <-(str_app_nil_r (select_count t)). by apply (ends_query (Count None)); [supports|]. }
  eapply ends_bind; [apply ends_engine|]. rewrite Hengine. change (one_row "MergeTree") with (Some "(-1,-1)").
  cbn [exec fst snd matching rows filled output].
  eapply ends_bind; [by apply (ends_do_query (Insert [(-1, -1)])); [supports|]|].
  cbn [exec fst rows detached]. eapply ends_verdict.
  - apply (ends_delete_and_check _ (IdLess 0) (Some (IdLess 0)) "id" "id");
      [by apply (bool_decide_unpack _)|supports..].
  - apply checks_decide; cbn [rows matching].
    + apply no_filter.
    + rewrite length_rest, List.filter_app, !length_app. cbn [List.filter holds fst]. simpl length.
      rewrite (filter_false (holds (IdLess 0)) all); [simpl; lia|].
      intros r Hr%rows_nonneg. apply Z.ltb_ge. lia.
    + rewrite List.filter_app. by intros [_ ?]%app_nil.
Qed.

Lemma basic_outlines_decided outline :
  outline ∈ tail basic_outlines → decided_basic (outline t None).
Proof.
  repeat (intros [->|Hin]%elem_of_cons; [|revert Hin]).
  - apply decided_all_rows.
  - by apply (decided_subset (XLess 10) "id, x" 0); [apply (bool_decide_unpack _)..|lia|].
  - by apply (decided_subset (XMore 10) "id, x" 11); [apply (bool_decide_unpack _)..|lia|].
  - by apply (decided_subset (IdLess 5) "id" 0); [apply (bool_decide_unpack _)..|lia|].
  - apply decided_one_row.
  - by intros ?%elem_of_nil.
Qed.

(** The outline that deletes no rows passes in both cases. *)
Lemma zero_rows_pass : ends (sv := sv) (delete_zero_rows t None) filled e (Some tt) filled e.
Proof.
  apply ends_at_node.
  assert (Hx : ends (sv := sv) (expect_output (e_node e) (select_count t +:+ " FORMAT JSONEachRow")
    (json_count (length all))) filled e (verdict true) filled e).
  { pose proof (ends_expect (sv := sv) CountJSON (e_node e) (json_count (length all)) filled e) as Hc.
    cbn [exec snd rows filled] in Hc. rewrite String.eqb_refl in Hc. apply Hc; [supports|done..]. }
  eapply ends_bind; [by apply (ends_query CountJSON); [supports|]|].
  change (exec json json_count works CountJSON filled).1 with filled.
  eapply ends_bind.
  - apply (ends_delete (IdLess (-1))); [|done..].
    apply supports_delete. by apply (bool_decide_unpack _).
  - assert ((exec json json_count works (Delete (e_alter e) (IdLess (-1))) filled).1 = filled) as ->.
    { cbn [exec fst]. destruct works; [|done]. unfold filled at 2. f_equal. cbn [rows filled].
      clear Hx. assert (Hn : ∀ r, r ∈ all → negb (holds (IdLess (-1)) r) = true).
      { intros r Hr%rows_nonneg. apply negb_true_iff, Z.ltb_ge. lia. }
      induction all as [|r k IH]; [done|]. simpl. simpl in Hn. rewrite (Hn r) by left.
      f_equal. apply IH. intros r' Hr'. apply Hn. by right. }
    eapply (ends_bind _ _ _ _ tt); [exact Hx|]. by apply (ends_restart_and _ _ true).
Qed.

Lemma ends_inserts : ends (sv := sv) (for_ l (λ a, insert t a;; mret tt)) (mkStored [] []) e (Some tt) filled e.
Proof.
  assert (Hx : ends (sv := sv) (for_ l (λ a, insert t a;; mret tt)) (mkStored [] []) e (Some tt)
    (fold_left (λ tb a, mkStored (rows tb ++ insert_rows a) (detached tb)) l (mkStored [] [])) e).
  { apply (ends_for l _ (λ a tb, mkStored (rows tb ++ insert_rows a) (detached tb))).
    intros a tb Ha. rewrite Forall_forall in Hplain. destruct (Hplain a Ha) as (-> & _ & _).
    eapply ends_bind; [|apply ends_ret]. apply ends_insert; [done|]. apply Hsupported. unfold basic_statements. rewrite !elem_of_app.
    right; right; right. apply list_elem_of_fmap. by exists a. }
  replace filled with (fold_left (λ tb a, mkStored (rows tb ++ insert_rows a) (detached tb)) l (mkStored [] []));
    [exact Hx|]. unfold filled, all. clear.
  assert (Hf : ∀ k, fold_left (λ tb a, mkStored (rows tb ++ insert_rows a) (detached tb)) l (mkStored k []) =
    mkStored (k ++ (l ≫= insert_rows)) []); [|apply Hf].
  induction l as [|a l' IH]; intros k; [by rewrite app_nil_r|]. cbn [fold_left rows detached].
  rewrite IH. by rewrite bind_cons, app_assoc.
Qed.
Lemma basic_scenario_ends outline tb b :
  (∃ tb1 e1, ends (sv := sv) (outline t None) filled e (verdict b) tb1 e1) →
  ∃ e', ends (sv := sv) (basic_scenario outline l uid) tb e (verdict b) (mkStored [] []) e'.
Proof.
  intros (tb1 & e1 & Hd). exists e1.
  apply ends_create_table with (tb1 := tb1); [done|supports..|].
  eapply ends_bind; [apply ends_inserts|exact Hd].
Qed.
Lemma ends_run (m : M S unit) b s :
  (∃ tb' e', ends (sv := sv) m (sv_table (Server := sv) s) (sv_env (Server := sv) s) (verdict b) tb' e') →
  ∃ s', if b then m s = (Ok tt, s') else ∃ out, m s = (Exc (AssertionError out), s').
Proof.
  intros (tb' & e' & Hm). destruct (Hm s eq_refl eq_refl) as (s' & _ & _ & E).
  exists s'. by destruct b.
Qed.
End basic_checks.

(** C16: on such a server, the first outline of basic_checks.py, which deletes
    no rows, ends normally whatever deletions do; each of the five others, for
    inserts like those of the features into a table of the engine MergeTree,
    ends normally when deletions work and with a failed assertion when they do
    nothing. *)
Theorem basic_checks_decide {S} `{LwdApi S} json json_count works supported uid
    (sv : Server S json json_count works ("table_" +:+ uid) supported)
    (l : list insert_args) k outline (s : S) :
  (∀ o, json o [] = EmptyString) → (∀ o r k, json o (r :: k) ≠ EmptyString) →
  e_engine (sv_env (Server := sv) s) = "MergeTree" →
  (∀ st, st ∈ basic_statements l → supported st) →
  Forall plain_insert l → l ≠ [] → basic_outlines !! k = Some outline →
  ∃ s', if Nat.eqb k 0 || works then basic_scenario outline l uid s = (Ok tt, s')
        else ∃ out, basic_scenario outline l uid s = (Exc (AssertionError out), s').
Proof.
  intros Hn Hc He Hs Hp Hl Ho. apply (ends_run (sv := sv)).
  eexists. apply (basic_scenario_ends (sv := sv)); [done..|].
  destruct k as [|k]; cbn [Nat.eqb orb].
  - injection Ho as <-. eexists _, _. by apply zero_rows_pass.
  - apply basic_outlines_decided; try done. by apply (list_elem_of_lookup_2 _ k).
Qed.

(** The inserts of the features are such inserts. *)
Lemma features_plain : Forall (λ f, Forall plain_insert f.2 ∧ f.2 ≠ []) basic_features.
Proof. repeat (constructor; [split; [repeat constructor; simpl; lia|done]|]). constructor. Qed.

(** ** A server that answers a list of statements *)

(** Its tables by their number *)
Record demo := mkDemo { dm_tables : nat → stored; dm_env : env }.
Definition put_table (i : nat) (tb : stored) (f : nat → stored) : nat → stored :=
  λ j, if (j =? i)%nat then tb else f j.
Definition demo_json (order : string) (l : list row) : string :=
  match l with [] => EmptyString | _ => "rows" end.
Definition demo_count (n : nat) : string := str_Z (Z.of_nat n).

Section demo.
(** The names of the tables, the second and third of which are a pair *)
Variables (works : bool) (names : list string) (known : list stmt).
Definition name (i : nat) : string := nth i names EmptyString.
Definition known_texts : list (string * (nat * stmt)) :=
  i ← seq 0 (length names); st ← known; [(stmt_text (name i) st, (i, st))].
Definition pair_texts : list (string * pair_stmt) :=
  (λ st, (pair_text (name 1) (name 2) st, st)) <$> [Move; Replace].
Definition demo_query (sql : string) (a : query_args) : M demo shell_result := λ s,
  match List.find (λ x, String.eqb x.1 sql) known_texts, List.find (λ x, String.eqb x.1 sql) pair_texts with
  | Some (_, (i, st)), _ =>
      let done := exec demo_json demo_count works st (dm_tables s i) in
      if is_delete st && negb (bool_decide (q_settings a = mutations_sync)) then
        (Ok (mkResult 0 EmptyString), s)
      else (Ok (mkResult 0 done.2), mkDemo (put_table i done.1 (dm_tables s)) (dm_env s))
  | None, Some (_, st) =>
      let done := pair_exec st (dm_tables s 1) (dm_tables s 2) in
      (Ok (mkResult 0 EmptyString),
       mkDemo (put_table 1 done.1 (put_table 2 done.2 (dm_tables s))) (dm_env s))
  | None, None => (Exc (QueryRuntimeException sql), s)
  end.
Definition demo_api : LwdApi demo := {|
  lw_node s := (Ok (e_node (dm_env s)), s);
  lw_set_node n s := (Ok tt, mkDemo (dm_tables s) (set_node n (dm_env s)));
  lw_nodes s := (Ok ["clickhouse1"; "clickhouse2"; "clickhouse3"], s);
  lw_query _ := demo_query;
  lw_command _ _ _ s := (Ok tt, s);
  lw_restart_clickhouse _ s := (Ok tt, s);
  lw_use_alter_delete s := (Ok (e_alter (dm_env s)), s);
  lw_table_engine s := (Ok (e_engine (dm_env s)), s);
  lw_random_delay s := (Ok 0, s);
  lw_sleep _ s := (Ok tt, s);
  lw_retries _ _ m := m;
  lw_parallel l := for_ l (λ m, m);
  lw_add_config _ _ _ _ s := (Ok tt, s);
  lw_absorbs _ := false
|}.

Lemma find_key {A} (l : list (string * A)) k a : NoDup l.*1 → (k, a) ∈ l →
  List.find (λ x, String.eqb x.1 k) l = Some (k, a).
Proof.
  intros Hd Ha. induction l as [|[k' a'] l IH]; [by apply elem_of_nil in Ha|].
  apply NoDup_cons in Hd as [Hn Hd]. cbn [List.find fst].
  apply elem_of_cons in Ha as [[= -> ->]|Ha]; [by rewrite String.eqb_refl|].
  rewrite (proj2 (String.eqb_neq _ _)); [by apply IH|]. intros ->. apply Hn.
  apply list_elem_of_fmap. by exists (k, a).
Qed.
Lemma find_no_key {A} (l : list (string * A)) k : k ∉ l.*1 → List.find (λ x, String.eqb x.1 k) l = None.
Proof.
  induction l as [|[k' a'] l IH]; [done|]. cbn. intros [Hk Hl]%not_elem_of_cons.
  rewrite (proj2 (String.eqb_neq _ _)); [by apply IH|done].
Qed.

Hypothesis Hdistinct : nodup_str (known_texts.*1 ++ pair_texts.*1) = true.
(** A table with the number [i], where [j] is that of the other one *)
Definition demo_server (i j : nat) (Hi : (i < length names)%nat) (Hj : j ≠ i) :
  @Server demo demo_api demo_json demo_count works (name i) (λ st, st ∈ known).
Proof.
  refine {| sv_table s := dm_tables s i; sv_env s := with_other (dm_tables s j) (dm_env s) |};
    [|intros; repeat eexists..].
  intros st n a s Hst Ha. cbn [lw_query demo_api]. unfold demo_query.
  rewrite (find_key _ _ (i, st)).
  - assert (is_delete st && negb (bool_decide (q_settings a = mutations_sync)) = false) as ->.
    { destruct (is_delete st); [|done]. by rewrite bool_decide_eq_true_2 by by apply Ha. }
    eexists. split; [done|]. cbn. unfold put_table. rewrite Nat.eqb_refl.
    by rewrite (proj2 (Nat.eqb_neq _ _)).
  - apply nodup_str_ok, NoDup_app in Hdistinct. tauto.
  - apply list_elem_of_bind. exists i. split; [|apply elem_of_seq; lia].
    apply list_elem_of_bind. exists st. by rewrite list_elem_of_singleton.
Defined.
Definition demo_pair (H3 : (2 < length names)%nat) :
  @TwoTables demo demo_api demo_json demo_count works (name 1) (name 2) (λ st, st ∈ known).
Proof.
  refine (@Build_TwoTables demo demo_api demo_json demo_count works (name 1) (name 2) _
    (demo_server 1 2 ltac:(lia) ltac:(done)) (demo_server 2 1 ltac:(lia) ltac:(done)) _ _ _); [done|done|].
  intros st n a s Ha. cbn [lw_query demo_api]. unfold demo_query.
  pose proof Hdistinct as (_ & Hno & Hd)%nodup_str_ok%NoDup_app.
  assert (Hp : (pair_text (name 1) (name 2) st, st) ∈ pair_texts).
  { apply list_elem_of_fmap. exists st. split; [done|]. destruct st; [left|right; left]. }
  rewrite find_no_key.
  - rewrite (find_key _ _ st) by done. by eexists.
  - intros Hin. apply (Hno _ Hin), list_elem_of_fmap. by exists (pair_text (name 1) (name 2) st, st).
Defined.
End demo.

Definition demo_env : env := mkEnv "clickhouse1" false "MergeTree" (mkStored [] []).
Definition demo_start : demo := mkDemo (λ _, mkStored [] []) demo_env.
Definition demo_names : list string := ["table_u"; "table_u_1"; "table_v_2"].

Lemma alter_checks_decide_witness :
  let known := alter_statements 4 2 in
  (∃ s', @move_partition_after_delete demo (demo_api true demo_names known) 4 1 2 None "u" "v" demo_start
         = (Ok tt, s')) ∧
  (∃ s' out, @attach_partition_after_delete demo (demo_api false demo_names known) 4 1 2 None "u" demo_start
         = (Exc (AssertionError out), s')).
Proof.
  cbv zeta. split.
  - apply (@alter_checks_decide demo (demo_api true demo_names (alter_statements 4 2)) _ _ true _ "u" "v"
      (demo_server true demo_names (alter_statements 4 2) ltac:(vm_compute; reflexivity) 0 1
         ltac:(simpl; lia) ltac:(done))
      (demo_pair true demo_names (alter_statements 4 2) ltac:(vm_compute; reflexivity) ltac:(simpl; lia))
      4 1 2); [lia..|done|done|do 10 right; left].
  - apply (@alter_checks_decide demo (demo_api false demo_names (alter_statements 4 2)) _ _ false _ "u" "v"
      (demo_server false demo_names (alter_statements 4 2) ltac:(vm_compute; reflexivity) 0 1
         ltac:(simpl; lia) ltac:(done))
      (demo_pair false demo_names (alter_statements 4 2) ltac:(vm_compute; reflexivity) ltac:(simpl; lia))
      4 1 2); [lia..|done|done|right; right; left].
Defined.

Lemma basic_checks_decide_witness :
  let known := basic_statements [insert0 1 1 12] in
  (∃ s', @basic_scenario demo (demo_api true demo_names known) (delete_large_subset (H := demo_api true demo_names known))
           [insert0 1 1 12] "u" demo_start = (Ok tt, s')) ∧
  (∃ s' out, @basic_scenario demo (demo_api false demo_names known) (delete_large_subset (H := demo_api false demo_names known))
           [insert0 1 1 12] "u" demo_start = (Exc (AssertionError out), s')).
Proof.
  cbv zeta. split.
  - apply (@basic_checks_decide demo (demo_api true demo_names (basic_statements [insert0 1 1 12])) _ _ true _ "u"
      (demo_server true demo_names (basic_statements [insert0 1 1 12]) ltac:(vm_compute; reflexivity) 0 1
         ltac:(simpl; lia) ltac:(done)) _ 3);
      [done|done|done|done|repeat constructor; simpl; lia|done|done].
  - apply (@basic_checks_decide demo (demo_api false demo_names (basic_statements [insert0 1 1 12])) _ _ false _ "u"
      (demo_server false demo_names (basic_statements [insert0 1 1 12]) ltac:(vm_compute; reflexivity) 0 1
         ltac:(simpl; lia) ltac:(done)) _ 3);
      [done|done|done|done|repeat constructor; simpl; lia|done|done].
Defined.
