(* ===== verification/Cicd.v ===== *)
(** * The CI/CD trigger script

    cicd-trigger.py: the arguments of the script and the run that triggers a
    GitLab pipeline.  The GitLab client is a parameter; what the script prints
    is left out, except where printing reads a value that may be missing. *)
From stdpp Require Import gmap.
From S2P Require Import Prelude PyStr PyDict PyMonad Argparse World NodeLog.
Local Open Scope Z_scope.

Definition PROJECT_ID : Z := 39540585.

(** The text of [--help] *)
Definition description : string := "Script to launch CI/CD pipeline.
    
    Either pass GitLab user token using the '--token' option (make sure it has the 'api' scope)
    or even better set $GITLAB_TOKEN environment variable that will be used by default.
    
    Examples:
    
    Run all available suites on master branch with a specified token:
        python3 cicd_trigger.py --branch master --token $GITLAB_TOKEN

     Run all available suites wait for the run to complete:
        python3 cicd_trigger.py --wait

    Run all available suites and upload artifacts to public aws s3 bucket:
        python3 cicd_trigger.py --artifacts public

    Run all available suites on a specific build:
        python3 cicd_trigger.py --package https://s3.amazonaws.com/altinity-build-artifacts/217/c14c89992f760772f487f91fdb8bb71367b51e81/package_release/clickhouse-common-static_22.8.11.17.altinityfips_amd64.deb --version 22.8.11.17.altinityfips

    Run aes_encryption suite:
        python3 cicd_trigger.py --suite aes_encryption

    Run aggregate_function suite:
        python3 cicd_trigger.py --suite aggregate_function

    Run atomic_insert suite:
        python3 cicd_trigger.py --suite atomic_insert

    Run base_58 suite:
        python3 cicd_trigger.py --suite base_58

    Run clickhouse_keeper suite:
        python3 cicd_trigger.py --suite clickhouse_keeper

    Run datetime64_extended_range suite:
        python3 cicd_trigger.py --suite datetime64_extended_range

    Run disk_level_encryption suite:
        python3 cicd_trigger.py --suite disk_level_encryption

    Run dns suite:
        python3 cicd_trigger.py --suite dns

    Run example suite:
        python3 cicd_trigger.py --suite example

    Run extended_precision_data_types suite:
        python3 cicd_trigger.py --suite extended_precision_data_types

    Run extended_precision_data_types suite:
        python3 cicd_trigger.py --suite functional

    Run kafka suite:
        python3 cicd_trigger.py --suite kafka

    Run kerberos suite:
        python3 cicd_trigger.py --suite kerberos

    Run ldap suite:
        python3 cicd_trigger.py --suite ldap

    Run lightweight_delete suite:
        python3 cicd_trigger.py --suite lightweight_delete

    Run map_type suite:
        python3 cicd_trigger.py --suite map_type

    Run parquet suite:
        python3 cicd_trigger.py --suite parquet

    Run part_moves_between_shards suite:
        python3 cicd_trigger.py --suite part_moves_between_shards

    Run rbac suite:
        python3 cicd_trigger.py --suite rbac

    Run s3 suite:
        python3 cicd_trigger.py --suite s3

    Run s3_aws suite:
        python3 cicd_trigger.py --suite s3_aws

    Run s3_gcs suite:
        python3 cicd_trigger.py --suite s3_gcs

    Run selects suite:
        python3 cicd_trigger.py --suite selects

    Run ssl_server suite:
        python3 cicd_trigger.py --suite ssl_server

    Run tiered_storage suite:
        python3 cicd_trigger.py --suite tiered_storage

    Run tiered_storage_aws suite:
        python3 cicd_trigger.py --suite tiered_storage_aws

    Run tiered_storage_gcs suite:
        python3 cicd_trigger.py --suite tiered_storage_gcs

    Run window_functions suite:
        python3 cicd_trigger.py --suite window_functions

    Run benchmark suite:
        python3 cicd_trigger.py --suite benchmark
    ".

(** ** Arguments *)

Definition suites : list string :=
  ["all"; "aes_encryption"; "aggregate_functions"; "atomic_insert"; "base_58";
   "clickhouse_keeper"; "datetime64_extended_range"; "disk_level_encryption"; "dns"; "example";
   "extended_precision_data_types"; "functional"; "kafka"; "kerberos"; "ldap";
   "lightweight_delete"; "map_type"; "parquet"; "part_moves_between_shards"; "rbac"; "s3";
   "s3_aws"; "s3_gcs"; "selects"; "ssl_server"; "tiered_storage"; "tiered_storage_aws";
   "tiered_storage_gcs"; "window_functions"; "benchmark"].
Definition outputs : list string := ["classic"; "nice"].
Definition arches : list string := ["amd64"; "arm64"].
Definition parallel_choices : list string := ["on"; "off"].
Definition artifact_locations : list string := ["internal"; "public"].
Definition default_package : string := "docker://clickhouse/clickhouse-server".
Definition default_version : string := "22.3.9.19-alpine".
Definition default_package_post_fix : string := "amd64".
Definition default_suite : string := "all".
Definition default_output : string := "classic".
Definition default_parallel : string := "on".
Definition default_artifact_location : string := "internal".
Definition default_arch : string := "amd64".
Definition default_branch : string := "main".

(** [argparser(parser)]; [token] is the environment variable GITLAB_TOKEN. *)
Definition argparser (token : pyval) : list argument := [
  mkArgument ["--wait"] "wait" StoreTrue (PBool false) None;
  mkArgument ["--package"] "package" Store (PStr default_package) None;
  mkArgument ["--version"] "version" Store (PStr default_version) None;
  mkArgument ["--package-postfix"] "package_postfix" Store (PStr default_package_post_fix) None;
  mkArgument ["-s"; "--suite"] "suite" Store (PStr default_suite) (Some suites);
  mkArgument ["-o"; "--output"] "output" Store (PStr default_output) (Some outputs);
  mkArgument ["--parallel"] "parallel" Store (PStr default_parallel) (Some parallel_choices);
  mkArgument ["--token"] "token" Store token None;
  mkArgument ["--options"] "options" Store (PStr EmptyString) None;
  mkArgument ["--arch"] "arch" Store (PStr default_arch) (Some arches);
  mkArgument ["--branch"] "branch" Store (PStr default_branch) None;
  mkArgument ["--artifacts"] "artifacts" Store (PStr default_artifact_location)
    (Some artifact_locations);
  mkArgument ["--debug"] "debug" StoreTrue (PBool false) None;
  mkArgument ["--from-github"] "from_github" StoreTrue (PBool false) None;
  mkArgument ["--commit-sha"] "commit_sha" Store PNone None;
  mkArgument ["--github-actor"] "github_actor" Store PNone None
].

Abbreviation parsed token := (parsed_by (argparser token)).

(** ** Triggering a pipeline *)

Record gl_trigger := mkTrigger { trigger_description : string; trigger_token : string }.
(** The state of a pipeline: has it finished, and its status *)
Record gl_pipeline := mkPipeline { pipeline_id : Z; finished : bool; status : string }.

Class Gitlab (S : Type) := {
  gl_auth : pyval → M S string;
  gl_project : Z → M S unit;
  gl_triggers : M S (list gl_trigger);
  gl_create : string → M S gl_trigger;
  gl_trigger_pipeline : pyval → string → dict string string → M S gl_pipeline;
  gl_refresh : gl_pipeline → M S gl_pipeline;
  gl_sleep : Z → M S unit
}.
#[export] Hint Mode Gitlab ! : typeclass_instances.

Section script.
Context {S : Type} `{Gitlab S}.
Abbreviation M := (M S).

Definition SystemExit : exn := OtherException "SystemExit(1)".

(** [with Action(name): m], in debug mode or not *)
Definition Action {A} (debug : bool) (m : M A) : M A :=
  try_except m (λ e, if debug then raise e else raise SystemExit).

(** The first trigger with the description, else a new one *)
Definition get_or_create_pipeline_trigger (username : string) : M gl_trigger :=
  let description := "cicd-trigger-" +:+ username in
  triggers ← gl_triggers;
  match List.find (λ t, String.eqb (trigger_description t) description) triggers with
  | Some t => mret t
  | None => gl_create description
  end.

Section run.
Variable args : namespace.

(** [args.k] *)
Definition arg (k : string) : M pyval :=
  lift (or_raise (AttributeError k) (dget k args)).

(** [if args.k: variables[k] = str(args.k)] *)
Definition add_variable (k : string) (variables : dict string string) : M (dict string string) :=
  v ← arg k; mret (if truth v then dset k (py_str v) variables else variables).

(** [args.package.startswith(...)]; only texts have the method. *)
Definition check_package : M unit :=
  v ← arg "package";
  if truth v then
    match v with
    | PStr s =>
        assert_ (startswith "deb://" s || startswith "docker://" s || startswith "https://" s)
          "package name should start with deb://, docker:// or https://"
    | _ => raise (AttributeError "startswith")
    end
  else mret tt.

Fixpoint add_variables (ks : list string) (variables : dict string string)
    : M (dict string string) :=
  match ks with
  | [] => mret variables
  | k :: ks => variables ← add_variable k variables; add_variables ks variables
  end.

Definition variable_names : list string :=
  ["package"; "version"; "package_postfix"; "suite"; "output"; "parallel"; "options"; "arch";
   "artifacts"; "from_github"; "commit_sha"; "github_actor"].
Definition pipeline_variables : M (dict string string) :=
  check_package;; add_variables variable_names [].

(** The bucket with the logs; unbound for other locations *)
Definition log_path (artifacts : pyval) : option string :=
  match artifacts with
  | PStr "internal" => Some "altinity-internal-test-reports"
  | PStr "public" => Some "altinity-test-reports"
  | _ => None
  end.

Definition trigger_pipeline (token : string) : M gl_pipeline :=
  variables ← pipeline_variables;
  branch ← arg "branch";
  pipeline ← gl_trigger_pipeline branch token variables;
  (* the link to the logs *)
  artifacts ← arg "artifacts";
  lift (or_raise (UnboundLocalError "log_path") (log_path artifacts));;
  lift (or_raise (KeyError "version") (dget "version" variables));;
  mret pipeline.

Fixpoint wait_finished (fuel : nat) (pipeline : gl_pipeline) : M gl_pipeline :=
  if finished pipeline then mret pipeline else
  match fuel with
  | O => hang OutOfFuel
  | Datatypes.S fuel =>
      pipeline ← gl_refresh pipeline;
      gl_sleep (sec 1);;
      wait_finished fuel pipeline
  end.

(** [trigger()] *)
Definition trigger (fuel : nat) : M unit :=
  d ← arg "debug";
  let debug := truth d in
  token ← arg "token";
  username ← Action debug (gl_auth token);
  Action debug (gl_project PROJECT_ID);;
  trigger ← Action debug (get_or_create_pipeline_trigger username);
  pipeline ← Action debug (trigger_pipeline (trigger_token trigger));
  wait ← arg "wait";
  if truth wait then
    Action debug
      (pipeline ← wait_finished fuel pipeline;
       assert_ (String.eqb (status pipeline) "success") "not successful")
  else mret tt.
End run.
End script.

(** The suites that the description runs *)
Definition documented_suites (text : string) : list string :=
  omap (λ line, match cut_first "--suite " line with Some (_, s) => Some s | None => None end)
    (split nl text).

(** All of them can be chosen, but for one that is misspelt. *)
Lemma documented_suites_accepted :
  List.filter (λ s, negb (existsb (String.eqb s) suites)) (documented_suites description) =
  ["aggregate_function"].
Proof. by_compute. Qed.

(** ** What the script does *)

(** Calls of the client with what they returned *)
Inductive gl_call :=
  | GAuth (user : option string)
  | GProject
  | GTriggers (answer : option (list gl_trigger))
  | GCreate (description : string) (answer : option gl_trigger)
  | GPipeline (branch : pyval) (token : string) (variables : dict string string)
      (answer : option gl_pipeline)
  | GRefresh (answer : option gl_pipeline).

Section logged.
Context {S : Type} {G : Gitlab S}.
Abbreviation LS := (logged gl_call S).

Definition res_option {A} (r : res A) : option A := match r with Ok a => Some a | _ => None end.
Definition log_gl {A} (item : option A → gl_call) (m : M S A) : M LS A := λ s,
  let '(r, s') := m s.1 in (r, (s', s.2 ++ [item (res_option r)])).

#[export] Instance gitlab_log : Gitlab LS := {|
  gl_auth token := log_gl GAuth (gl_auth token);
  gl_project id := log_gl (λ _, GProject) (gl_project id);
  gl_triggers := log_gl GTriggers gl_triggers;
  gl_create d := log_gl (GCreate d) (gl_create d);
  gl_trigger_pipeline b t v := log_gl (GPipeline b t v) (gl_trigger_pipeline b t v);
  gl_refresh p := log_gl GRefresh (gl_refresh p);
  gl_sleep t s := let '(r, s') := gl_sleep t s.1 in (r, (s', s.2))
|}.

Implicit Types (s : LS) (l : list gl_call).

(** The pipeline as it was seen last, after [p] *)
Definition last_seen (p : gl_pipeline) l : gl_pipeline :=
  fold_left (λ p c, match c with GRefresh (Some p') => p' | _ => p end) l p.
Definition pipelines l : list gl_call :=
  List.filter (λ c, match c with GPipeline _ _ _ _ => true | _ => false end) l.

(** [ran m s Φ]: from [s], [m] ends with a result and an addition to the log
    that satisfy [Φ]. *)
Definition ran {A} (m : M LS A) s (Φ : res A → list gl_call → Prop) : Prop :=
  wp m (λ r s', ∃ l, s'.2 = s.2 ++ l ∧ Φ r l) s.

Lemma ran_mono {A} (m : M LS A) s (Φ Ψ : res A → list gl_call → Prop) :
  ran m s Φ → (∀ r l, Φ r l → Ψ r l) → ran m s Ψ.
Proof. intros Hm HΦ. unfold ran, wp in *. destruct Hm as (l & Hl & HP). eauto. Qed.
Lemma ran_pure {A} (m : M LS A) s r (Φ : res A → list gl_call → Prop) :
  m s = (r, s) → Φ r [] → ran m s Φ.
Proof. intros E HΦ. unfold ran, wp. rewrite E. exists []. by rewrite app_nil_r. Qed.
Lemma ran_log {A} item (m : M S A) s (Φ : res A → list gl_call → Prop) :
  (∀ r, Φ r [item (res_option r)]) → ran (log_gl item m) s Φ.
Proof. intros HΦ. unfold ran, wp, log_gl. destruct (m s.1) as [r s1]. by eexists. Qed.
Lemma ran_bind {A B} (m : M LS A) (f : A → M LS B) s (Φ : res A → list gl_call → Prop)
    (Ψ : res B → list gl_call → Prop) :
  ran m s Φ →
  (∀ a s', ran (f a) s' (λ r l, ∀ l1, Φ (Ok a) l1 → Ψ r (l1 ++ l))) →
  (∀ e l, Φ (Exc e) l → Ψ (Exc e) l) → (∀ w l, Φ (Stuck w) l → Ψ (Stuck w) l) →
  ran (m ≫= f) s Ψ.
Proof.
  intros Hm Hf He Hw. unfold ran, wp, mbind, M_bind in *. destruct Hm as (l1 & Hl1 & HP).
  destruct (m s) as [[a|e|w] s1]; simpl in *; [|eauto..].
  destruct (Hf a s1) as (l2 & Hl2 & HQ). exists (l1 ++ l2).
  split; [by rewrite Hl2, Hl1, app_assoc|auto].
Qed.

Lemma ran_step {A B} (m : M LS A) (f : A → M LS B) a s (Φ : res B → list gl_call → Prop) :
  m s = (Ok a, s) → ran (f a) s Φ → ran (m ≫= f) s Φ.
Proof. intros E Hf. unfold ran, wp. by rewrite (M_bind_Ok _ _ _ _ _ E). Qed.

(** The result of a failed action *)
Definition action_exn (debug : bool) (e : exn) : exn := if debug then e else SystemExit.
Lemma ran_action {A} debug (m : M LS A) s (Φ : res A → list gl_call → Prop) :
  ran m s (λ r l, Φ (match r with Exc e => Exc (action_exn debug e) | r => r end) l) →
  ran (Action debug m) s Φ.
Proof.
  unfold ran, wp, Action, try_except. destruct (m s) as [[a|e|w] s']; simpl; try done.
  by destruct debug.
Qed.

Lemma ran_wait fuel p s :
  ran (wait_finished fuel p) s (λ r l, pipelines l = [] ∧
    ∀ p', r = Ok p' → finished p' = true ∧ last_seen p l = p').
Proof.
  revert p s. induction fuel as [|n IH]; intros p s; cbn [wait_finished].
  1,2: destruct (finished p) eqn:Hp;
    [apply (ran_pure _ _ (Ok p)); [done|]; split; [done|]; by intros p' [= <-]|].
  - by apply (ran_pure _ _ (Stuck OutOfFuel)).
  - eapply ran_bind; [apply (ran_log GRefresh _ _ (λ r l, l = [GRefresh (res_option r)])); done|..].
    + intros p1 s1. cbv beta. eapply (ran_bind _ _ _ (λ _ l, l = [])).
      * unfold ran, wp. cbn [gl_sleep gitlab_log]. destruct (gl_sleep _ s1.1) as [r s2].
        exists []. by rewrite app_nil_r.
      * intros u s2. eapply ran_mono; [apply IH|]. intros r l [H1 H2] l1 -> l2 ->. simpl.
        split; [done|]. intros p' Hr. by apply H2.
      * intros e l -> l1 ->. by split.
      * intros w l -> l1 ->. by split.
    + intros e l ->. by split.
    + intros w l ->. by split.
Qed.
End logged.

(** ** The outcome of the script *)

Definition value (args : namespace) (k : string) : pyval := default PNone (dget k args).
(** The variables of the pipeline: the arguments that are not empty *)
Definition variables_of (args : namespace) (ks : list string) : dict string string :=
  omap (λ k, let v := value args k in if truth v then Some (k, py_str v) else None) ks.
(** Does the package have one of the three forms, if it is given? *)
Definition good_package (args : namespace) : bool :=
  match value args "package" with
  | PStr s => String.eqb s EmptyString || startswith "deb://" s || startswith "docker://" s ||
              startswith "https://" s
  | _ => true
  end.

(** Membership of a name in a literal list *)
Ltac member := repeat first [left | right].
Ltac known := apply (bool_decide_unpack _); vm_compute; exact I.

Section outcome.
Context {S : Type} {G : Gitlab S}.
Abbreviation LS := (logged gl_call S).
Variables (token : pyval) (args : namespace).
Hypothesis Hargs : parsed token args.
Implicit Types (s : LS) (l : list gl_call).

Lemma parsed_value a : a ∈ argparser token →
  dget (dest a) args = Some (value args (dest a)) ∧ admissible a (value args (dest a)).
Proof using Hargs.
  intros Ha. unfold parsed in Hargs. rewrite Forall_forall in Hargs.
  destruct (Hargs a Ha) as (v & Hv & Had). unfold value. by rewrite Hv.
Qed.
Lemma arg_value k s :
  k ∈ dest <$> argparser token → arg args k s = (Ok (value args k), s).
Proof using Hargs.
  intros (a & -> & Ha)%list_elem_of_fmap. unfold arg. by rewrite (proj1 (parsed_value a Ha)).
Qed.

Lemma variables_keys ks : dkeys (variables_of args ks) ⊆ ks.
Proof using.
  intros k. unfold dkeys, variables_of. rewrite list_elem_of_fmap. intros ([k' v] & -> & Hk).
  apply list_elem_of_omap in Hk as (k & Hin & E). destruct (truth _); by simplify_eq/=.
Qed.

Lemma add_variables_value ks acc s :
  ks ⊆ dest <$> argparser token → NoDup ks → (∀ k, k ∈ ks → k ∉ dkeys acc) →
  add_variables args ks acc s = (Ok (acc ++ variables_of args ks), s).
Proof using Hargs.
  revert acc. induction ks as [|k ks IH]; intros acc Hks Hnd Hacc; cbn [add_variables].
  { by rewrite app_nil_r. }
  apply NoDup_cons in Hnd as [Hk Hnd].
  erewrite M_bind_Ok. 2: { unfold add_variable. by erewrite M_bind_Ok by (apply arg_value, Hks; left). }
  cbv beta. unfold variables_of. cbn [omap list_omap].
  destruct (truth (value args k)) eqn:Ht; [|apply IH; [|done|]; intros k' Hk'; [apply Hks|apply Hacc]; by right].
  rewrite dset_fresh by (apply Hacc; left).
  rewrite IH; [by rewrite <-app_assoc|intros k' Hk'; apply Hks; by right|done|].
  intros k' Hk' Hin. unfold dkeys in Hin. rewrite fmap_app in Hin. simpl in Hin.
  apply elem_of_app in Hin as [Hin|Hin]; [apply (Hacc k'); [by right|done]|].
  apply list_elem_of_singleton in Hin as ->. done.
Qed.

Lemma pipeline_variables_value s :
  pipeline_variables args s =
  (if good_package args then Ok (variables_of args variable_names)
   else Exc (AssertionError "package name should start with deb://, docker:// or https://"), s).
Proof using Hargs.
  assert (Hp : ∃ p, value args "package" = PStr p).
  { destruct (parsed_value (mkArgument ["--package"] "package" Store (PStr default_package) None))
      as [_ Ha]; [member|]. simpl in Ha. destruct Ha as [->|Ha]; [by eexists|].
    simpl in Ha. destruct (value args "package"); try done; by eexists. }
  destruct Hp as [p Hp]. unfold pipeline_variables, check_package, good_package.
  unfold mbind at 1, M_bind at 1. erewrite M_bind_Ok by (apply arg_value; known). cbv beta.
  rewrite Hp. clear Hp. cbn [truth]. destruct (String.eqb p EmptyString); simpl negb; cbn [orb].
  2: destruct (_ || _); [|done]. all: cbn [assert_]; unfold mret, M_ret.
  all: apply (add_variables_value _ []); [known| |by intros k _ ?%not_elem_of_nil].
  all: by apply nodup_str_spec.
Qed.

Lemma log_path_bound : is_Some (log_path (value args "artifacts")).
Proof using Hargs.
  destruct (parsed_value (mkArgument ["--artifacts"] "artifacts" Store
    (PStr default_artifact_location) (Some artifact_locations))) as [_ Ha]; [member|].
  simpl in Ha. destruct Ha as [-> |Ha]; [by eexists|]. simpl in Ha.
  destruct (value args "artifacts") as [| |a| |]; try done. unfold artifact_locations in Ha.
  set_unfold in Ha. destruct Ha as [-> |[-> |[]]]; by eexists.
Qed.

Lemma version_variable :
  truth (value args "version") = true →
  is_Some (dget "version" (variables_of args variable_names)).
Proof using.
  intros Ht. apply dget_is_Some. unfold dkeys. apply list_elem_of_fmap.
  exists ("version", py_str (value args "version")). split; [done|].
  apply list_elem_of_omap. exists "version". split; [known|].
  cbv zeta. by rewrite Ht.
Qed.
Lemma no_version_variable :
  truth (value args "version") = false → dget "version" (variables_of args variable_names) = None.
Proof using.
  intros Ht. apply dget_None. unfold dkeys. intros ([k v] & E & Hk)%list_elem_of_fmap.
  simpl in E. subst k. apply list_elem_of_omap in Hk as (k & _ & E). cbv zeta in E.
  destruct (truth (value args k)) eqn:Hk; [|done]. simplify_eq. congruence.
Qed.

Definition triggered (tok : string) (ans : option gl_pipeline) : gl_call :=
  GPipeline (value args "branch") tok (variables_of args variable_names) ans.

Lemma ran_trigger_pipeline tok s :
  ran (trigger_pipeline args tok) s (λ r l,
    if good_package args then
      ∃ ans, l = [triggered tok ans] ∧
        ∀ p, r = Ok p → ans = Some p ∧ truth (value args "version") = true
    else l = [] ∧ is_ok r = false).
Proof using Hargs.
  unfold trigger_pipeline. pose proof (pipeline_variables_value s) as Hv.
  destruct (good_package args).
  - eapply ran_step; [exact Hv|]. cbv beta.
    eapply ran_step; [apply arg_value; known|]. cbv beta.
    eapply ran_bind; [apply (ran_log (triggered tok) _ s (λ r l, l = [triggered tok (res_option r)]));
      by intros r|..].
    + intros p s1. eapply ran_step; [apply arg_value; known|]. cbv beta.
      destruct log_path_bound as [lp ->].
      apply (ran_step (lift (Ok lp)) _ lp); [done|]. cbv beta.
      destruct (truth (value args "version")) eqn:Hver.
      * destruct (version_variable Hver) as [ver ->].
        apply (ran_pure _ _ (Ok p)); [done|]. intros l ->. exists (Some p). split; [done|].
        by intros p' [= <-].
      * rewrite (no_version_variable Hver).
        apply (ran_pure _ _ (Exc (KeyError "version"))); [done|]. intros l ->. by exists (Some p).
    + intros e l ->. by exists None.
    + intros w l ->. by exists None.
  - unfold ran, wp, mbind, M_bind. rewrite Hv. exists []. by rewrite app_nil_r.
Qed.

(** What the script has done when it ends *)
Definition outcome (r : res unit) l : Prop :=
  (∀ c, c ∈ pipelines l → ∃ tok ans, c = triggered tok ans) ∧
  (length (pipelines l) <= 1)%nat ∧
  (good_package args = false → pipelines l = []) ∧
  (r = Ok tt → length (pipelines l) = 1%nat ∧ truth (value args "version") = true ∧
     (truth (value args "wait") = true → ∃ tok p l1 l2,
        l = l1 ++ triggered tok (Some p) :: l2 ∧ finished (last_seen p l2) = true ∧
        status (last_seen p l2) = "success")) ∧
  (∀ e, r = Exc e → truth (value args "debug") = false → e = SystemExit).

Lemma pipelines_app l k : pipelines (l ++ k) = pipelines l ++ pipelines k.
Proof using. apply List.filter_app. Qed.

Lemma outcome_app r l1 l : pipelines l1 = [] → outcome r l → outcome r (l1 ++ l).
Proof using.
  intros E (H1 & H2 & H3 & H4 & H5). unfold outcome. rewrite pipelines_app, E. simpl.
  split_and!; try done. intros Hr. destruct (H4 Hr) as (H6 & H7 & H8). split_and!; try done.
  intros Hw. destruct (H8 Hw) as (tok & p & k1 & k2 & -> & H9).
  exists tok, p, (l1 ++ k1), k2. by rewrite <-app_assoc.
Qed.

(** Actions before the pipeline is triggered *)
Definition quiet {A} (r : res A) l : Prop :=
  pipelines l = [] ∧ ∀ e, r = Exc e → truth (value args "debug") = false → e = SystemExit.

Lemma quiet_action {A} (m : M LS A) s :
  ran m s (λ _ l, pipelines l = []) → ran (Action (truth (value args "debug")) m) s quiet.
Proof using.
  intros Hm. apply ran_action. eapply ran_mono; [exact Hm|]. intros r l Hl. split; [done|].
  intros e E Hd. destruct r as [a|e'|w]; simplify_eq/=. unfold action_exn. by rewrite Hd.
Qed.
Lemma quiet_bind {A} (m : M LS A) (f : A → M LS unit) s :
  ran m s quiet → (∀ a s', ran (f a) s' outcome) → ran (m ≫= f) s outcome.
Proof using.
  intros Hm Hf. eapply ran_bind; [exact Hm|..].
  - intros a s'. eapply ran_mono; [apply Hf|]. intros r l Ho l1 [Hl1 _]. by apply outcome_app.
  - intros e l [Hl He]. unfold outcome. rewrite Hl. split_and!; simpl; try done; [|lia|].
    + intros c Hc. by apply not_elem_of_nil in Hc.
    + intros e' [= <-] Hd. by apply He.
  - intros w l [Hl _]. unfold outcome. rewrite Hl. split_and!; simpl; try done; [|lia].
    intros c Hc. by apply not_elem_of_nil in Hc.
Qed.

Lemma ran_get_trigger username s :
  ran (get_or_create_pipeline_trigger username) s (λ _ l, pipelines l = []).
Proof using.
  unfold get_or_create_pipeline_trigger. cbv zeta.
  eapply ran_bind; [apply (ran_log GTriggers _ s (λ _ l, pipelines l = [])); by intros r|..];
    [|done|done].
  intros ts s1. destruct (List.find _ ts) as [t|].
  - apply (ran_pure _ _ (Ok t)); [done|]. intros l Hl. by rewrite pipelines_app, Hl.
  - apply (ran_log (GCreate _)). intros r l Hl. by rewrite pipelines_app, Hl.
Qed.

Lemma ran_wait_action fuel p s :
  ran (Action (truth (value args "debug"))
         (p ← wait_finished fuel p;
          assert_ (String.eqb (status p) "success") "not successful")) s
    (λ r l, quiet r l ∧ (r = Ok tt →
       finished (last_seen p l) = true ∧ status (last_seen p l) = "success")).
Proof using.
  apply ran_action. eapply ran_bind; [apply ran_wait|..].
  - intros p' s1. destruct (String.eqb_spec (status p') "success") as [Hs|Hs].
    + apply (ran_pure _ _ (Ok tt)); [done|]. intros l [Hl Hp]. rewrite app_nil_r.
      destruct (Hp p' eq_refl) as [Hf <-]. by repeat split.
    + apply (ran_pure _ _ (Exc (AssertionError "not successful"))); [done|]. intros l [Hl _].
      rewrite app_nil_r. split; [|done]. split; [done|]. intros e [= <-] Hd. unfold action_exn. by rewrite Hd.
  - intros e l [Hl _]. split; [|done]. split; [done|]. intros e' [= <-] Hd. unfold action_exn. by rewrite Hd.
  - intros w l [Hl _]. by repeat split.
Qed.

(** One pipeline was triggered, then only asked about. *)
Lemma outcome_triggered tok ans r l :
  good_package args = true → pipelines l = [] →
  (∀ e, r = Exc e → truth (value args "debug") = false → e = SystemExit) →
  (r = Ok tt → truth (value args "version") = true ∧ ∃ p, ans = Some p ∧
     (truth (value args "wait") = true →
      finished (last_seen p l) = true ∧ status (last_seen p l) = "success")) →
  outcome r (triggered tok ans :: l).
Proof using.
  intros Hg Hl He Hok. unfold outcome. change (triggered tok ans :: l) with ([triggered tok ans] ++ l).
  rewrite pipelines_app, Hl. cbn [pipelines List.filter triggered app]. split_and!; try done.
  - intros c ->%list_elem_of_singleton. by eexists _, _.
  - by rewrite Hg.
  - intros Hr. destruct (Hok Hr) as (Hv & p & -> & Hw). split_and!; [done..|]. intros Ht.
    exists tok, p, [], l. by destruct (Hw Ht).
Qed.

Lemma outcome_untriggered r :
  (∀ e, r = Exc e → truth (value args "debug") = false → e = SystemExit) →
  is_ok r = false → outcome r [].
Proof using.
  intros He Hr. unfold outcome. split_and!; simpl; try done; [|lia|by intros ->].
  intros c Hc. by apply not_elem_of_nil in Hc.
Qed.

Lemma ran_triggering tok s :
  ran (Action (truth (value args "debug")) (trigger_pipeline args tok)) s (λ r l,
    (∀ e, r = Exc e → truth (value args "debug") = false → e = SystemExit) ∧
    if good_package args then
      ∃ ans, l = [triggered tok ans] ∧
        ∀ p, r = Ok p → ans = Some p ∧ truth (value args "version") = true
    else l = [] ∧ is_ok r = false).
Proof using Hargs.
  apply ran_action. eapply ran_mono; [apply ran_trigger_pipeline|]. intros r l Hl. split.
  - intros e E Hd. destruct r as [a|e'|w]; simplify_eq/=. unfold action_exn. by rewrite Hd.
  - destruct (good_package args); [|by destruct r].
    destruct Hl as (ans & -> & Hp). exists ans. split; [done|]. intros p E. apply Hp. by destruct r.
Qed.

Lemma ran_pipeline fuel tok s :
  ran (pipeline ← Action (truth (value args "debug")) (trigger_pipeline args tok);
       wait ← arg args "wait";
       if truth wait then
         Action (truth (value args "debug"))
           (p ← wait_finished fuel pipeline;
            assert_ (String.eqb (status p) "success") "not successful")
       else mret tt) s outcome.
Proof using Hargs.
  eapply ran_bind; [apply ran_triggering|..].
  - intros p s1. cbv beta. eapply ran_step; [apply arg_value; known|]. cbv beta.
    destruct (good_package args) eqn:Hg; [destruct (truth (value args "wait")) eqn:Hw|].
    + eapply ran_mono; [apply ran_wait_action|]. intros r l [[Hl He] Hok] l1 [_ (ans & -> & Hp)].
      destruct (Hp p eq_refl) as [-> Hv]. apply outcome_triggered; try done.
      intros Hr. split; [done|]. exists p. split; [done|]. intros _. by apply Hok.
    + apply (ran_pure _ _ (Ok tt)); [done|]. intros l1 [_ (ans & -> & Hp)].
      destruct (Hp p eq_refl) as [-> Hv]. apply outcome_triggered; try done.
      intros _. split; [done|]. exists p. split; [done|]. congruence.
    + eapply (ran_mono _ _ (λ _ _, True)); [|intros r l _ l1 (_ & _ & Hr); discriminate Hr].
      destruct (truth (value args "wait")); [|by apply (ran_pure _ _ (Ok tt))].
      eapply ran_mono; [apply ran_wait_action|done].
  - intros e l [He Hl]. destruct (good_package args) eqn:Hg.
    + destruct Hl as (ans & -> & _). apply outcome_triggered; try done. intros e' [= <-]. by apply He.
    + destruct Hl as [-> _]. apply outcome_untriggered; [|done]. intros e' [= <-]. by apply He.
  - intros w l [_ Hl]. destruct (good_package args) eqn:Hg.
    + destruct Hl as (ans & -> & _). by apply outcome_triggered.
    + destruct Hl as [-> _]. by apply outcome_untriggered.
Qed.

(** C37: With arguments as the parser returns them, a run of the script
    triggers at most one pipeline, on the given branch and with exactly the
    arguments that are not empty as its variables; none for a package of an
    unknown form; when it returns, it has triggered one, the version was not
    empty and, if asked to wait, the pipeline has finished with success; and
    without the debug mode every failure ends in exit code 1. *)
Theorem trigger_outcome fuel s : ran (trigger args fuel) s outcome.
Proof using Hargs.
  unfold trigger. eapply ran_step; [apply arg_value; known|]. cbv beta zeta.
  eapply ran_step; [apply arg_value; known|]. cbv beta.
  apply quiet_bind; [apply quiet_action, (ran_log GAuth); by intros r|]. intros user s1.
  apply quiet_bind; [apply quiet_action, (ran_log (λ _, GProject)); by intros r|]. intros _ s2.
  apply quiet_bind; [apply quiet_action, ran_get_trigger|]. intros t s3.
  apply ran_pipeline.
Qed.
End outcome.

(** The namespace of a call without arguments *)
Definition default_namespace (token : pyval) : namespace :=
  (λ a, (dest a, arg_default a)) <$> argparser token.

(** A GitLab where the pipeline succeeds on the second look *)
Definition demo_gitlab : Gitlab Z := {|
  gl_auth _ s := (Ok "user", s);
  gl_project _ s := (Ok tt, s);
  gl_triggers s := (Ok [], s);
  gl_create d s := (Ok (mkTrigger d "token"), s);
  gl_trigger_pipeline _ _ _ s := (Ok (mkPipeline 1 false "running"), s);
  gl_refresh p s := (Ok (mkPipeline 1 (0 <? s) (if 0 <? s then "success" else "running")), s + 1);
  gl_sleep _ s := (Ok tt, s)
|}.

Lemma default_namespace_parsed token : parsed token (default_namespace token).
Proof.
  unfold parsed, argparser.
  repeat (apply List.Forall_cons; [eexists; split; [reflexivity|by left]|]). apply List.Forall_nil.
Qed.

Lemma trigger_outcome_witness :
  parsed (PStr "t") (default_namespace (PStr "t")) ∧
  ran (S:=Z) (@trigger _ (@gitlab_log Z demo_gitlab) (default_namespace (PStr "t")) 9) (0, [])
    (outcome (default_namespace (PStr "t"))).
Proof.
  split; [apply default_namespace_parsed|].
  exact (@trigger_outcome Z demo_gitlab (PStr "t") _ (default_namespace_parsed _) 9 (0, [])).
Defined.
