(* ===== verification/Runners.v ===== *)
(** * The scripts for GitHub runners

    .github/online-runners.py lists the runners of a repository that are
    online, and .github/get-deb-url.py puts the URL and the version of a
    built package into the environment file of a workflow.  The requests, the
    files and the clock are operations of the class [ScriptEnv].  What
    [json.loads] makes of a text is one of them too, as the scripts only look
    at the values it returns. *)
From stdpp Require Import gmap.
From S2P Require Import Prelude PyStr PyPath PyDict PyMonad Argparse NodeLog Scenario.
From Stdlib Require Import Ascii.
Local Open Scope Z_scope.
Local Set Warnings "-register-all".

(** ** JSON values *)

(** The values that [json.loads] returns; numbers keep their text. *)
Inductive json :=
  | JNull | JBool (b : bool) | JNum (text : string) | JStr (s : string)
  | JList (l : list json) | JObj (o : dict string json).

(** [j[k]] *)
Definition item (k : string) (j : json) : res json :=
  match j with
  | JObj o => or_raise (KeyError k) (dget k o)
  | JList _ | JStr _ => Exc (TypeError "indices must be integers or slices, not str")
  | _ => Exc (TypeError "object is not subscriptable")
  end.
(** What [for x in j] runs through *)
Definition iterate (j : json) : res (list json) :=
  match j with
  | JList l => Ok l
  | JObj o => Ok (JStr <$> dkeys o)
  | JStr s => Ok ((λ c, JStr (String c EmptyString)) <$> String.list_ascii_of_string s)
  | _ => Exc (TypeError "object is not iterable")
  end.
(** [j == "s"] *)
Definition is_text (s : string) (j : json) : bool :=
  match j with JStr t => String.eqb s t | _ => false end.
(** ["s" in j] *)
Definition json_in (s : string) (j : json) : res bool :=
  match j with
  | JStr t => Ok (contains s t)
  | JList l => Ok (existsb (is_text s) l)
  | JObj o => Ok (existsb (String.eqb s) (dkeys o))
  | _ => Exc (TypeError "argument is not iterable")
  end.

(** ** What the scripts use *)

(** A line on the standard output: that a runner is online, or a text *)
Inductive output := Online (name : json) | Text (s : string).

Class ScriptEnv (S : Type) := {
  (** [requests.get(url, headers)]: the status code, and the decoded content *)
  http_get : string → dict string string → M S (Z * string);
  (** [json.loads(text)] *)
  loads : string → res json;
  put : output → M S unit;
  now : M S Z;
  sleep : Z → M S unit;
  read_file : string → M S string;
  (** [open(path, "a")], and a [write] to it *)
  open_append : string → M S unit;
  write : string → string → M S unit
}.
#[export] Hint Mode ScriptEnv ! : typeclass_instances.

Definition SystemExit0 : exn := OtherException "SystemExit(0)".

(** How a body of [while True] ends: by [break], or at its end *)
Inductive signal := Break | Next.
Fixpoint while_true {S} (fuel : nat) (body : M S signal) : M S unit :=
  match fuel with
  | O => hang OutOfFuel
  | Datatypes.S fuel =>
      sig ← body;
      match sig with Break => mret tt | Next => while_true fuel body end
  end.

(** ** online-runners.py *)

Module OnlineRunners.
(** [argparser()]; the arguments are the variables of the environment. *)
Definition runners_argparser (gh_robot_token runner_repo : pyval) : list argument := [
  mkArgument ["--token"] "token" Store gh_robot_token None;
  mkArgument ["--repo"] "repo" Store runner_repo None
].

Section script.
Context {S : Type} `{ScriptEnv S}.
Abbreviation M := (M S).

Definition timeout : Z := 60.
Definition retry_delay : Z := 10.
Definition headers (token : string) : dict string string := [
  ("Accept", "application/vnd.github+json");
  ("Authorization", "Bearer " +:+ token);
  ("X-GitHub-Api-Version", "2022-11-28")
].
Definition runners_url (repo : string) : string :=
  "https://api.github.com/repos/altinity/" +:+ repo +:+ "/actions/runners".

(** The body of the loop over the runners *)
Definition show_runner (runner : json) : M unit :=
  status ← lift (item "status" runner);
  if is_text "online" status then name ← lift (item "name" runner); put (Online name)
  else mret tt.

(** The body of [while True], from the request to the last [break] *)
Definition ask_once (url : string) (headers : dict string string) (start_time : Z) : M signal :=
  '(status_code, response_content) ← http_get url headers;
  (if status_code =? 200 then
     content ← lift (loads (S:=S) response_content);
     runners ← lift (item "runners" content ≫= iterate);
     for_ runners show_runner;;
     mret Next
   else
     put (Text "API get request failed");;
     put (Text response_content);;
     put (Text "Retrying...");;
     sleep retry_delay;;
     t ← now;
     mret (if t - start_time >? timeout then Break else Next)) ≫= λ _,
  mret Break.

(** The script; [is not None] is not a test for the empty text. *)
Definition online_runners (fuel : nat) (args : namespace) : M unit :=
  token ← lift (or_raise (AttributeError "token") (dget "token" args));
  repo ← lift (or_raise (AttributeError "repo") (dget "repo" args));
  assert_ (negb (bool_decide (token = PNone))) "token must be set";;
  assert_ (negb (bool_decide (repo = PNone))) "repository must be set";;
  start_time ← now;
  while_true fuel (ask_once (runners_url (py_str repo)) (headers (py_str token)) start_time).
End script.
End OnlineRunners.

(** ** get-deb-url.py *)

Module GetDebUrl.
Definition deb_argparser (github_env : pyval) : list argument := [
  mkArgument ["--reports-path"] "reports_path" Store
    (PStr "/home/ubuntu/actions-runner/_work/_temp/reports_dir") None;
  mkArgument ["--github-env"] "github_env" Store github_env None
].

(** [url.split("/")[-1].split("_")[1]] *)
Definition url_version (url : string) : res string :=
  or_raise IndexError (split "_" (List.last (split "/" url) EmptyString) !! 1%nat).

Definition is_deb (url : json) : res bool :=
  json_in "clickhouse-common-static_" url ≫= λ b : bool,
  if b then json_in "deb" url else mret false.

Section script.
Context {S : Type} `{ScriptEnv S}.
Abbreviation M := (M S).

(** The [with] block, the output and [sys.exit(0)] *)
Definition export_url (github_env : string) (url : json) : M unit :=
  open_append github_env;;
  url ← lift (match url with JStr url => Ok url | _ => Exc (AttributeError "split") end);
  version ← lift (url_version url);
  write github_env ("version=" +:+ version +:+ nl);;
  write github_env ("clickhouse_binary_path=" +:+ url +:+ nl);;
  put (Text url);;
  raise SystemExit0.

Definition check_url (github_env : string) (url : json) : M unit :=
  lift (is_deb url) ≫= λ deb : bool, if deb then export_url github_env url else mret tt.

Definition report_file (reports_path : string) : string :=
  path_join reports_path "build_urls_package_release/build_urls_package_release.json".

Definition get_deb_url (args : namespace) : M unit :=
  reports_path ← lift (or_raise (AttributeError "reports_path") (dget "reports_path" args));
  github_env ← lift (or_raise (AttributeError "github_env") (dget "github_env" args));
  assert_ (negb (bool_decide (reports_path = PNone))) "reports path must be set";;
  assert_ (negb (bool_decide (github_env = PNone))) "github env must be set";;
  text ← read_file (report_file (py_str reports_path));
  build_report ← lift (loads (S:=S) text);
  urls ← lift (item "build_urls" build_report ≫= iterate);
  for_ urls (check_url (py_str github_env)).
End script.
End GetDebUrl.

(** ** What the scripts do *)

Inductive event :=
  | EGet (url : string) (headers : dict string string) (answer : option (Z * string))
  | EPut (o : output)
  | ESleep (t : Z)
  | ERead (path : string) (answer : option string)
  | EOpen (path : string)
  | EWrite (path text : string).

#[export] Instance script_log {S} (E : ScriptEnv S) : ScriptEnv (logged event S) := {|
  http_get url headers := logs (EGet url headers) (http_get url headers);
  loads := loads (S:=S);
  put o := logs (λ _, EPut o) (put o);
  now s := let '(r, s1) := now s.1 in (r, (s1, s.2));
  sleep t := logs (λ _, ESleep t) (sleep t);
  read_file path := logs (ERead path) (read_file path);
  open_append path := logs (λ _, EOpen path) (open_append path);
  write path text := logs (λ _, EWrite path text) (write path text)
|}.

(** [finishes m r l]: [m] ends with the result [r] and has logged [l]. *)
Definition finishes {S A} (m : M (logged event S) A) (r : res A) (l : list event) : Prop :=
  ∀ s, ∃ s', m s = (r, s') ∧ s'.2 = s.2 ++ l.

(** An operation that does not fail *)
Definition works {S A} (m : M S A) : Prop := ∀ s, ∃ a s', m s = (Ok a, s').
Class ScriptLaws (S : Type) {E : ScriptEnv S} := {
  put_works : ∀ o, works (S:=S) (put o);
  now_works : works (S:=S) now;
  sleep_works : ∀ t, works (S:=S) (sleep t);
  open_works : ∀ path, works (S:=S) (open_append path);
  write_works : ∀ path text, works (S:=S) (write path text)
}.

Section finishes.
Context {S : Type}.
Abbreviation LS := (logged event S).

Lemma finishes_ret {A} (a : A) : finishes (mret a : M LS A) (Ok a) [].
Proof. intros s. exists s. by rewrite app_nil_r. Qed.
Lemma finishes_raise {A} e : finishes (raise e : M LS A) (Exc e) [].
Proof. intros s. exists s. by rewrite app_nil_r. Qed.
Lemma finishes_bind {A B} (m : M LS A) (f : A → M LS B) a l r k :
  finishes m (Ok a) l → finishes (f a) r k → finishes (m ≫= f) r (l ++ k).
Proof.
  intros Hm Hf s. destruct (Hm s) as (s1 & E1 & H1). destruct (Hf s1) as (s2 & E2 & H2).
  exists s2. rewrite (M_bind_Ok _ _ _ _ _ E1). by rewrite E2, H2, H1, app_assoc.
Qed.
Lemma finishes_bind_exc {A B} (m : M LS A) (f : A → M LS B) e l :
  finishes m (Exc e) l → finishes (m ≫= f) (Exc e) l.
Proof.
  intros Hm s. destruct (Hm s) as (s1 & E1 & H1). exists s1.
  unfold mbind, M_bind. by rewrite E1.
Qed.
(** A step whose value does not matter *)
Definition finishes_any {A} (m : M LS A) (l : list event) : Prop :=
  ∀ s, ∃ a s', m s = (Ok a, s') ∧ s'.2 = s.2 ++ l.
Lemma finishes_bind_any {A B} (m : M LS A) (f : A → M LS B) l r k :
  finishes_any m l → (∀ a, finishes (f a) r k) → finishes (m ≫= f) r (l ++ k).
Proof.
  intros Hm Hf s. destruct (Hm s) as (a & s1 & E1 & H1). destruct (Hf a s1) as (s2 & E2 & H2).
  exists s2. rewrite (M_bind_Ok _ _ _ _ _ E1). by rewrite E2, H2, H1, app_assoc.
Qed.
Lemma finishes_any_bind {A B} (m : M LS A) (f : A → M LS B) a l k :
  finishes m (Ok a) l → finishes_any (f a) k → finishes_any (m ≫= f) (l ++ k).
Proof.
  intros Hm Hf s. destruct (Hm s) as (s1 & E1 & H1). destruct (Hf s1) as (b & s2 & E2 & H2).
  exists b, s2. rewrite (M_bind_Ok _ _ _ _ _ E1). by rewrite E2, H2, H1, app_assoc.
Qed.
(** A step that logs nothing *)
Lemma finishes_pure {A B} (m : M LS A) (f : A → M LS B) a r k :
  (∀ s, m s = (Ok a, s)) → finishes (f a) r k → finishes (m ≫= f) r k.
Proof. intros Hm Hf s. rewrite (M_bind_Ok _ _ _ _ _ (Hm s)). apply Hf. Qed.
Lemma finishes_logs {A} (ev : option A → event) (m : M S A) a :
  (∀ s, ∃ s', m s = (Ok a, s')) → finishes (logs ev m) (Ok a) [ev (Some a)].
Proof. intros Hm s. destruct (Hm s.1) as (s1 & E). unfold logs. rewrite E. by eexists. Qed.
Lemma finishes_unit (ev : event) (m : M S unit) :
  works m → finishes (logs (λ _, ev) m) (Ok tt) [ev].
Proof. intros Hm. apply finishes_logs. intros s. destruct (Hm s) as ([] & s' & E). eauto. Qed.
Lemma finishes_for {X} (xs : list X) (body : X → M LS unit) (f : X → list event) :
  (∀ x, x ∈ xs → finishes (body x) (Ok tt) (f x)) → finishes (for_ xs body) (Ok tt) (xs ≫= f).
Proof.
  intros Hb. induction xs as [|x xs IH]; [apply finishes_ret|]. cbn [for_].
  eapply finishes_bind; [apply Hb; left|]. apply IH. intros y Hy. apply Hb. by right.
Qed.
End finishes.

(** The runners of an answer that are online *)
Definition online_names (runners : list json) : list json :=
  omap (λ j, match item "status" j with
             | Ok status => if is_text "online" status then
                 match item "name" j with Ok name => Some name | _ => None end else None
             | _ => None
             end) runners.
Definition described (j : json) : Prop :=
  is_ok (item "status" j) = true ∧ is_ok (item "name" j) = true.

Section laws.
Context {S : Type} {E : ScriptEnv S} {L : ScriptLaws S}.
Abbreviation LS := (logged event S).

Lemma finishes_now {B} (f : Z → M LS B) r k :
  (∀ t, finishes (f t) r k) → finishes (now ≫= f) r k.
Proof.
  intros Hf s. destruct (now_works s.1) as (t & s1 & E1).
  destruct (Hf t (s1, s.2)) as (s2 & E2 & H2). exists s2. split; [|exact H2].
  unfold mbind, M_bind. cbn [now script_log]. rewrite E1. exact E2.
Qed.
Lemma finishes_put (o : output) : finishes (S:=S) (put o) (Ok tt) [EPut o].
Proof. apply finishes_unit, put_works. Qed.

Lemma finishes_show (runner : json) :
  described runner →
  finishes (S:=S) (OnlineRunners.show_runner runner) (Ok tt)
    ((EPut ∘ Online) <$> online_names [runner]).
Proof.
  unfold described, OnlineRunners.show_runner, online_names. cbn [omap list_omap].
  intros [Hs Hn]. destruct (item "status" runner) as [status| |]; try done.
  apply (finishes_pure _ _ status); [done|]. destruct (is_text "online" status); [|apply finishes_ret].
  destruct (item "name" runner) as [name| |]; try done.
  apply (finishes_pure _ _ name); [done|]. apply finishes_put.
Qed.

Lemma online_names_cons j js : online_names (j :: js) = online_names [j] ++ online_names js.
Proof. unfold online_names. cbn [omap list_omap]. by repeat case_match. Qed.

Lemma finishes_runners (runners : list json) :
  Forall described runners →
  finishes (S:=S) (for_ runners OnlineRunners.show_runner) (Ok tt)
    ((EPut ∘ Online) <$> online_names runners).
Proof.
  induction 1 as [|j js Hj _ IH]; [apply finishes_ret|]. cbn [for_].
  rewrite online_names_cons, fmap_app. eapply finishes_bind; [by apply finishes_show|exact IH].
Qed.

(** A loop whose body always breaks runs it once. *)
Lemma finishes_once (fuel : nat) (body : M LS signal) l :
  finishes body (Ok Break) l → finishes (while_true (Datatypes.S fuel) body) (Ok tt) l.
Proof.
  intros Hb. cbn [while_true]. rewrite <-(app_nil_r l).
  eapply finishes_bind; [exact Hb|apply finishes_ret].
Qed.
End laws.

Section online.
Import OnlineRunners.
Context {S : Type} {E : ScriptEnv S} {L : ScriptLaws S}.
Abbreviation LS := (logged event S).
Variables (args : namespace) (token repo : pyval) (code : Z) (content : string).
Hypothesis Htoken : dget "token" args = Some token ∧ token ≠ PNone.
Hypothesis Hrepo : dget "repo" args = Some repo ∧ repo ≠ PNone.
Abbreviation url := (runners_url (py_str repo)).
Abbreviation hd := (headers (py_str token)).
Hypothesis Hget : ∀ s : S, ∃ s', http_get url hd s = (Ok (code, content), s').

Lemma finishes_main (fuel : nat) l :
  (∀ t, finishes (S:=S) (ask_once url hd t) (Ok Break) l) →
  finishes (S:=S) (online_runners (Datatypes.S fuel) args) (Ok tt) l.
Proof.
  intros Hl. destruct Htoken as [Ht Htn], Hrepo as [Hr Hrn]. unfold online_runners.
  apply (finishes_pure _ _ token); [intros s; by rewrite Ht|].
  apply (finishes_pure _ _ repo); [intros s; by rewrite Hr|].
  rewrite !bool_decide_eq_false_2 by done.
  apply (finishes_pure _ _ tt); [done|]. apply (finishes_pure _ _ tt); [done|].
  apply finishes_now. intros t. apply finishes_once, Hl.
Qed.

Lemma runners_listed fuel j runners :
  code = 200 → loads (S:=S) content = Ok j → item "runners" j ≫= iterate = Ok runners →
  Forall described runners →
  finishes (S:=S) (online_runners (Datatypes.S fuel) args) (Ok tt)
    (EGet url hd (Some (code, content)) :: ((EPut ∘ Online) <$> online_names runners)).
Proof.
  intros -> Hj Hi Hd. apply finishes_main. intros t. unfold ask_once.
  eapply (finishes_bind _ _ _ [_]); [apply finishes_logs, Hget|]. cbn [Z.eqb Pos.eqb].
  rewrite <-(app_nil_r (_ <$> _)). eapply finishes_bind; [|apply finishes_ret].
  apply (finishes_pure _ _ j); [intros s; unfold lift; by rewrite <-Hj|].
  apply (finishes_pure _ _ runners); [intros s; unfold lift; by rewrite <-Hi|].
  rewrite <-(app_nil_r (_ <$> _)). eapply finishes_bind; [by apply finishes_runners|].
  apply finishes_ret.
Qed.

(** Each line that the failure prints *)
Definition failure_log : list event :=
  EPut <$> (Text <$> ["API get request failed"; content; "Retrying..."]).

Lemma failure_reported fuel :
  code ≠ 200 →
  finishes (S:=S) (online_runners (Datatypes.S fuel) args) (Ok tt)
    (EGet url hd (Some (code, content)) :: failure_log ++ [ESleep retry_delay]).
Proof.
  intros Hc. apply finishes_main. intros t. unfold ask_once.
  eapply (finishes_bind _ _ _ [_]); [apply finishes_logs, Hget|].
  cbv beta iota. rewrite (proj2 (Z.eqb_neq code 200)) by done.
  rewrite <-(app_nil_r (_ ++ _)). eapply finishes_bind_any; [|intros; apply finishes_ret].
  do 3 (eapply (finishes_any_bind _ _ _ [_]); [apply finishes_put|]).
  rewrite <-(app_nil_r [_]).
  eapply (finishes_any_bind _ _ _ [_]); [apply finishes_unit, sleep_works|].
  intros s. destruct (now_works s.1) as (u & s1 & E1). eexists _, (s1, s.2).
  rewrite app_nil_r. split; [|done]. unfold mbind, M_bind. cbn [now script_log]. by rewrite E1.
Qed.
End online.

(** ** The theorems *)

Section export.
Import GetDebUrl.
Context {S : Type} {E : ScriptEnv S} {L : ScriptLaws S}.
Variables (args : namespace) (reports env text : string) (report : json) (urls : list string).
Hypothesis Hreports : dget "reports_path" args = Some (PStr reports).
Hypothesis Henv : dget "github_env" args = Some (PStr env).
Hypothesis Hread : ∀ s : S, ∃ s', read_file (report_file reports) s = (Ok text, s').
Hypothesis Hloads : loads (S:=S) text = Ok report.
Hypothesis Hurls : item "build_urls" report = Ok (JList (JStr <$> urls)).

Definition deb_url (url : string) : bool :=
  contains "clickhouse-common-static_" url && contains "deb" url.
Lemma is_deb_text url : is_deb (JStr url) = Ok (deb_url url).
Proof. unfold is_deb, deb_url. cbn [json_in]. unfold mbind, res_bind. by case_match. Qed.

(** What the script does about the first such package *)
Definition exported (url : string) : res unit * list event :=
  match url_version url with
  | Ok v => (Exc SystemExit0,
      [EOpen env; EWrite env ("version=" +:+ v +:+ nl);
       EWrite env ("clickhouse_binary_path=" +:+ url +:+ nl); EPut (Text url)])
  | Exc e => (Exc e, [EOpen env])
  | Stuck w => (Stuck w, [EOpen env])
  end.
Definition outcome : res unit * list event :=
  match List.find deb_url urls with Some url => exported url | None => (Ok tt, []) end.

Lemma finishes_export url : finishes (S:=S) (export_url env (JStr url)) (exported url).1 (exported url).2.
Proof.
  unfold export_url, exported.
  destruct (url_version url) as [v|e|w] eqn:Ev; [| |by unfold url_version, or_raise in Ev; case_match].
  - eapply (finishes_bind _ _ _ [_]); [apply finishes_unit, open_works|].
    apply (finishes_pure _ _ url); [done|].
    apply (finishes_pure _ _ v); [intros s; by rewrite Ev|].
    do 2 (eapply (finishes_bind _ _ _ [_]); [apply finishes_unit, write_works|]).
    eapply (finishes_bind _ _ _ [_]); [apply finishes_put|]. apply finishes_raise.
  - eapply (finishes_bind _ _ _ [_] _ []); [apply finishes_unit, open_works|].
    apply (finishes_pure _ _ url); [done|]. apply finishes_bind_exc.
    intros s. exists s. rewrite app_nil_r. unfold lift. by rewrite Ev.
Qed.
Lemma finishes_urls l :
  let o := match List.find deb_url l with Some url => exported url | None => (Ok tt, []) end in
  finishes (S:=S) (for_ (JStr <$> l) (check_url env)) o.1 o.2.
Proof.
  induction l as [|u l IH]; [apply finishes_ret|]. simpl in IH |- *.
  destruct (deb_url u) eqn:Eu.
  - assert (He : finishes (S:=S) (check_url env (JStr u)) (exported u).1 (exported u).2).
    { unfold check_url. apply (finishes_pure _ _ true); [|apply finishes_export].
      intros s. unfold lift. by rewrite is_deb_text, Eu. }
    assert (∃ e, (exported u).1 = Exc e) as [e Hx].
    { unfold exported. destruct (url_version u) as [v|e|w] eqn:Ev; simpl; [eauto..|].
      unfold url_version, or_raise in Ev. by case_match. }
    rewrite Hx in He |- *. by apply finishes_bind_exc.
  - apply (finishes_bind _ _ tt []); [|exact IH].
    unfold check_url. apply (finishes_pure _ _ false); [|apply finishes_ret].
    intros s. unfold lift. by rewrite is_deb_text, Eu.
Qed.

(** The script handles the first such package, and does nothing else. *)
Lemma first_deb_handled :
  finishes (S:=S) (get_deb_url args) outcome.1 (ERead (report_file reports) (Some text) :: outcome.2).
Proof.
  unfold get_deb_url. apply (finishes_pure _ _ (PStr reports)); [intros s; by rewrite Hreports|].
  apply (finishes_pure _ _ (PStr env)); [intros s; by rewrite Henv|].
  apply (finishes_pure _ _ tt); [done|]. apply (finishes_pure _ _ tt); [done|].
  eapply (finishes_bind _ _ _ [_]); [apply finishes_logs, Hread|].
  apply (finishes_pure _ _ report); [intros s; unfold lift; by rewrite <-Hloads|].
  apply (finishes_pure _ _ (JStr <$> urls)); [intros s; unfold lift; by rewrite Hurls|].
  apply finishes_urls.
Qed.

(** The part of an address after its last slash, if it has one, and the part
    of a text between its first and second underscore, or after the only one *)
Definition last_part (url file : string) : Prop :=
  lacks "/" file = true ∧ (url = file ∨ ∃ dir, url = dir +:+ "/" +:+ file).
Definition second_part (file version : string) : Prop :=
  ∃ name tail, file = name +:+ "_" +:+ version +:+ tail ∧
    lacks "_" name = true ∧ lacks "_" version = true ∧ (tail = EmptyString ∨ ∃ t, tail = "_" +:+ t).

Lemma last_part_split url file : last_part url file → List.last (split "/" url) EmptyString = file.
Proof.
  intros [Hf [->|[dir ->]]]; [|rewrite split_slash_app]; rewrite (split_char_none "/" file Hf); [done|].
  apply List.last_last.
Qed.
Lemma part_found url file version :
  last_part url file → second_part file version → url_version url = Ok version.
Proof.
  intros Hl (name & tail & -> & Hn & Hv & Ht). unfold url_version. rewrite (last_part_split _ _ Hl).
  change ("_" +:+ version +:+ tail) with (String "_" (version +:+ tail)).
  rewrite (split_char_app "_" name) by done. destruct Ht as [->|[t ->]].
  - rewrite str_app_nil_r. by rewrite (split_char_none "_" version).
  - change ("_" +:+ t) with (String "_" t). by rewrite (split_char_app "_" version).
Qed.
Lemma no_part url file : last_part url file → lacks "_" file = true → url_version url = Exc IndexError.
Proof.
  intros Hl Hu. unfold url_version. rewrite (last_part_split _ _ Hl).
  by rewrite (split_char_none "_" file).
Qed.

(** C27: When the report lists a Debian package of the server binary, the
    script handles the first one only: when the last part of its address has
    an underscore, it exports the version that follows the first underscore
    there, and the address, prints the address and exits with status 0; when it
    has none, the script ends with an IndexError after it opened the file of
    the environment, before it wrote to it.  When the report lists no such
    package, the environment is left as it is. *)
Theorem release_exported :
  (∀ pre url post file, urls = pre ++ url :: post → Forall (λ u, deb_url u = false) pre →
     deb_url url = true → last_part url file →
     (∀ version, second_part file version →
        finishes (S:=S) (get_deb_url args) (Exc SystemExit0)
          [ERead (report_file reports) (Some text); EOpen env;
           EWrite env ("version=" +:+ version +:+ nl);
           EWrite env ("clickhouse_binary_path=" +:+ url +:+ nl); EPut (Text url)]) ∧
     (lacks "_" file = true →
        finishes (S:=S) (get_deb_url args) (Exc IndexError)
          [ERead (report_file reports) (Some text); EOpen env])) ∧
  (Forall (λ u, deb_url u = false) urls →
   finishes (S:=S) (get_deb_url args) (Ok tt) [ERead (report_file reports) (Some text)]).
Proof.
  assert (Hfind : ∀ pre l, Forall (λ u, deb_url u = false) pre →
    List.find deb_url (pre ++ l) = List.find deb_url l).
  { induction 1 as [|u pre Hu _ IH]; [done|]. simpl. by rewrite Hu. }
  pose proof first_deb_handled as Hall. unfold outcome in Hall. split.
  - intros pre url post file Hl Hpre Hd Hf. rewrite Hl, Hfind in Hall by done. simpl in Hall.
    rewrite Hd in Hall. unfold exported in Hall. split.
    + intros version Hv. by rewrite (part_found url file version) in Hall.
    + intros Hu. by rewrite (no_part url file) in Hall.
  - intros Hn. rewrite <-(app_nil_r urls), Hfind in Hall by done. exact Hall.
Qed.
End export.

Section online_theorem.
Import OnlineRunners.
Context {S : Type} {E : ScriptEnv S} {L : ScriptLaws S}.

(** Online-runners.py asks once: it prints the runners that are online,
    or that the request failed, and ends, although it says that it retries. *)
Lemma runners_asked_once fuel (args : namespace) (token repo : pyval) code content
    (runners : list json) :
  dget "token" args = Some token → token ≠ PNone → dget "repo" args = Some repo → repo ≠ PNone →
  let url := runners_url (py_str repo) in
  let hd := headers (py_str token) in
  (∀ s : S, ∃ s', http_get url hd s = (Ok (code, content), s')) →
  (code = 200 → ∃ j, loads (S:=S) content = Ok j ∧ item "runners" j ≫= iterate = Ok runners ∧
     Forall described runners) →
  finishes (S:=S) (online_runners (Datatypes.S fuel) args) (Ok tt)
    (EGet url hd (Some (code, content)) ::
     if code =? 200 then (EPut ∘ Online) <$> online_names runners
     else failure_log content ++ [ESleep 10]).
Proof.
  intros Ht Htn Hr Hrn url hd Hget Hlist. destruct (Z.eqb_spec code 200) as [->|Hc].
  - destruct (Hlist eq_refl) as (j & Hj & Hi & Hd). by eapply runners_listed.
  - by apply failure_reported.
Qed.
End online_theorem.

(** ** Concrete runs *)

(** A server with one answer to every request and one file *)
Definition demo_script (status : Z) (parsed : json) : ScriptEnv unit := {|
  http_get _ _ := mret (status, "text");
  loads _ := Ok parsed;
  put _ := mret tt;
  now := mret 0;
  sleep _ := mret tt;
  read_file _ := mret "text";
  open_append _ := mret tt;
  write _ _ := mret tt
|}.
Lemma demo_laws status parsed : @ScriptLaws unit (demo_script status parsed).
Proof. split; intros; intros s; by eexists _, _. Qed.

Definition demo_runner (name status : string) : json :=
  JObj [("id", JNum "7"); ("name", JStr name); ("status", JStr status)].
Definition demo_runners : list json := [demo_runner "a" "offline"; demo_runner "b" "online"].
Definition demo_report : json :=
  JObj [("build_urls", JList (JStr <$>
    ["https://s3/clickhouse-client_22.8.1.1_amd64.deb";
     "https://s3/release/clickhouse-common-static_22.8.13.21_amd64.deb"]))].

Example runners_asked_once_witness :
  online_names demo_runners = [JStr "b"] ∧
  finishes (@OnlineRunners.online_runners _ (script_log (demo_script 500 JNull)) 1
    [("token", PStr "t"); ("repo", PStr "r")]) (Ok tt)
    (EGet (OnlineRunners.runners_url "r") (OnlineRunners.headers "t") (Some (500, "text")) ::
     failure_log "text" ++ [ESleep 10]) ∧
  finishes (@OnlineRunners.online_runners _ (script_log (demo_script 200 (JObj [("runners", JList demo_runners)]))) 1
    [("token", PStr "t"); ("repo", PStr "r")]) (Ok tt)
    [EGet (OnlineRunners.runners_url "r") (OnlineRunners.headers "t") (Some (200, "text"));
     EPut (Online (JStr "b"))].
Proof.
  split; [reflexivity|]. split.
  - apply (runners_asked_once (L:=demo_laws _ _) 0 _ (PStr "t") (PStr "r") 500 "text" []); try done.
    intros s. by eexists.
  - apply (runners_asked_once (L:=demo_laws _ _) 0 _ (PStr "t") (PStr "r") 200 "text" demo_runners);
      try done; [intros s; by eexists|]. intros _. eexists. split_and!; [done..|].
    by repeat constructor.
Defined.

Example release_exported_witness :
  finishes (@GetDebUrl.get_deb_url _ (script_log (demo_script 200 demo_report))
    [("reports_path", PStr "/r"); ("github_env", PStr "/env")]) (Exc SystemExit0)
    [ERead "/r/build_urls_package_release/build_urls_package_release.json" (Some "text");
     EOpen "/env"; EWrite "/env" ("version=22.8.13.21" +:+ nl);
     EWrite "/env" ("clickhouse_binary_path=https://s3/release/clickhouse-common-static_22.8.13.21_amd64.deb" +:+ nl);
     EPut (Text "https://s3/release/clickhouse-common-static_22.8.13.21_amd64.deb")].
Proof.
  refine (proj1 (proj1 (release_exported (E:=demo_script 200 demo_report) (L:=demo_laws _ _)
    _ "/r" "/env" "text" demo_report _ _ _ _ _ _) ["https://s3/clickhouse-client_22.8.1.1_amd64.deb"]
    "https://s3/release/clickhouse-common-static_22.8.13.21_amd64.deb" []
    "clickhouse-common-static_22.8.13.21_amd64.deb" _ _ _ _) "22.8.13.21" _); try done.
  - intros s. by eexists.
  - by repeat constructor.
  - split; [done|right]. by exists "https://s3/release".
  - exists "clickhouse-common-static", "_amd64.deb". split_and!; [done..|right]. by exists "amd64.deb".
Defined.
